(* ===== verification/_CoqProject ===== *)
-Q . S2P
Prelude.v
Arc4.v
Rand.v
Swatt.v
GenNonce.v
NonceTheory.v
ChecksumSim.v
Replay.v
HostTool.v
HostTheory.v
SmscDefs.v
SmscIo.v
SmscMac.v
SmscRun.v
Crc32.v
SmscFilter.v
SmscTx.v
SmscPoll.v
SmscPhy.v
SmscEeprom.v
PhyLib.v
PhyKeeps.v
MiiBus.v
SmscNetdev.v
PhyTheory.v
PhyLink.v
PhyIrq.v
PhySettings.v
PhyRegistry.v
SmscProbe.v
SmscBase.v
TimingTool.v
ArmIsa.v
SwattArm.v
SwattArmTheory.v
SwattArmCall.v
SwattArmProps.v
SmscAttest.v
IcmpClient.v
PageTable.v
Cache.v
