(* ===== verification/Prelude.v ===== *)
(** * Verification of the vet-gumstix software-based attestation code

    vet-gumstix attests embedded devices by software: a verifier sends random words,
    the device computes a checksum over its own memory that is seeded by them, and
    both the result and the time it took are to tell whether the memory is what it
    should be.  The repository holds two such systems, and the kernel it builds
    against.

    - For a network card with two processors, a host tool
      (src/code/app/viper/simulator.c) computes pairs of nonces and checksums ahead
      of time, from an image of the firmware, and sends them to the card.
    - For a Gumstix board with Linux, the Ethernet driver
      (src/code/nic-driver/smsc/smsc911x.c) recognises a challenge packet, runs a
      checksum routine in ARM assembly and sends the packet back with the result.
      The driver also holds an attack on the routine (swattARM_db_attack).  The
      verifier for it is src/icmp_client/icmp.c.
      A second program (src/code/app/app/simulator.c) has the driver run the routine
      through an ioctl and prints the time.
    - A kernel module (src/linux/hello-module) prepares page tables of its own, with
      assembly routines for the caches and the MMU beside it.

    ** Files

    The host tool:
    - Arc4.v: arc4.c; [arc4_setup], [arc4_crypt] on byte lists, and the textbook
      cipher they are compared with.
    - Rand.v: rand.c; the refilled buffer of random bytes.
    - Swatt.v: what [generate_nonce] and [checksum_simulator] share: registers,
      coverage marks, the jump table, [return_checksum].
    - GenNonce.v, NonceTheory.v: [generate_nonce], a program with computed gotos, as
      a step function on its state, and its theorems.
    - ChecksumSim.v, Replay.v: [checksum_simulator] in the same way, and that it
      replays what the generator produced.
    - HostTool.v, HostTheory.v: [main] and the access to the card and to files, in a
      monad with the card (a parameter), the files, the globals and the output.

    The network driver, all in smsc911x.c unless another file is named:
    - SmscDefs.v: registers (smsc911x.h), the private data and the device as records
      with their setters, the driver monad [drv].  A run returns a value or stops:
      at BUG(), at a lock that is taken or not held, outside an array, at a null
      pointer, in an endless wait.  The chip is the interface [Smsc].
    - SmscIo.v: register and FIFO access in both operation tables and bus widths.
    - SmscMac.v: MAC and PHY registers, the hardware address.
    - SmscRun.v: the invariant [inv] of the driver between calls, and the rules
      [keeps] and [safely] by which whole functions are shown to preserve it.
    - Crc32.v: lib/crc32.c, lib/gen_crc32table.c and lib/bitrev.c of the kernel.
    - SmscFilter.v: the multicast filter with its deferred update.
    - SmscTx.v: transmission, statistics, receive errors.
    - SmscPoll.v: the NAPI poll, socket buffers (net/core/skbuff.c,
      net/ethernet/eth.c) and the answer to a challenge.
    - SmscPhy.v: external PHY, loopback test, link changes.
    - SmscEeprom.v: the EEPROM and its ethtool calls.
    - SmscNetdev.v: reset, open, stop, interrupts, ioctls, the ethtool calls, suspend
      and resume, initialisation, with the parts of net/core/dev.c that surround them.
    - SmscProbe.v: probe, its error paths, and remove, with the list of resources.
    - SmscBase.v: what smsc911x_no_attack.c and smsc911x_db_attack.c, the earlier
      versions of the driver, do differently.

    The PHY library of the kernel (src/linux/drivers/net/phy), between the driver and
    the PHY: it calls the driver's register functions and its handler of link changes,
    and the driver calls it to find, start, stop and configure the PHY.
    - PhyLib.v: phy.c, phy_device.c, mdio_bus.c and the drivers of smsc.c.  Functions
      of a PHY take the [phy_device] and return it; functions that take its lock work
      on the one of the interface.
    - PhyKeeps.v: that these functions preserve the invariant, lock and types included.
    - MiiBus.v: the protocol of the MII registers ([MiiChip]) with a chip that keeps it.
    - PhyTheory.v: negotiation, forced modes and link changes on such a chip.
    - PhyLink.v: the state machine that follows the link, second by second.
    - PhyIrq.v: the interrupt line of a PHY, which may be shared.
    - PhySettings.v: the modes and settings that a user sees.
    - PhyRegistry.v: what the modules of the library register, the fixups of a board,
      and connecting by name.

    The checksum routines of the driver:
    - ArmIsa.v: the ARM instructions that the assembly uses.
    - SwattArm.v: the assembly of swattARM, swattARM_db_attack and swattARM_fake as
      lists of instructions, with the no-ops that the directive .align 8 fills in.
    - SwattArmTheory.v, SwattArmCall.v, SwattArmProps.v: blocks, loops, calls, and
      the properties of the routines.
    - SmscAttest.v: the poll with the ARM code behind its attestation interface.

    The verifier, the timing tool and the module:
    - IcmpClient.v: icmp.c, and the round trip of a challenge through the driver.
    - TimingTool.v: code/app/app/simulator.c, on the ioctl of the driver.
    - PageTable.v: hello-module.c, pt-defs.h and the registers of pt.c, against the
      translation that the hardware performs.
    - Cache.v: cache.S and mmu.S, on the registers of the coprocessor, and of the core
      where a whole cache is gone through.

    This file has the machine integers, arrays with bounds, iteration with fuel and
    the lemmas on them that the others share.

    ** What is shown

    - Nonces: [generate_nonce] terminates within its arrays, each nonce of the pool was
      accepted in a step that covered a new firmware word, the simulator replays the
      pool; two words cannot be covered, the built-in first nonce breaks the replay, and
      one register in 32 is a constant.  [main] stops the card, works on the image that
      the halted card holds, restores the window and then restarts the card; where it
      gives up before that is known, and that a halted CPU is left so.
    - The cipher is RC4 and the byte source its keystream without gaps.
    - The checksum routine returns with the registers restored and the result of all
      its passes, wherever its code is placed; what it depends on is known exactly; the
      attack returns the same words on a changed memory, at a known cost in
      instructions; interrupts stay on afterwards.
    - Register access has exactly the requested effect on the bus, waits are bounded
      whatever the chip answers, and on a chip that keeps its protocol MAC registers,
      EEPROM, FIFOs, filter, transmission and poll do what they are for, and packets that
      are sent while the queue runs lose no word in the FIFO.  The protocols are classes
      ([MacChip], [MiiChip], [EepromChip], [TxChip], [TxSpace], [RxChip], [IrqChip]), each
      with a concrete chip that satisfies it.
    - No sequence of calls, the state machine of the PHY library among them, breaks the
      locking, the arrays or the device state, and the fields of the PHY keep their
      types; probe accounts for every resource.  The places where the code fails are
      theorems as well: short challenges, the loopback buffer, the EEPROM window, the
      free space that wraps around, and the null pointer in remove.
    - Without challenges the poll does what that of the earlier versions does.
    - The state machine of the PHY library, in any order with the calls that start it,
      stop it and put it to sleep, implements a small transition relation on what the
      status register reports, for every driver of the library, with negotiation and
      without; with a link the MAC has the duplex mode of the PHY.  Two seconds after the
      link is up, the carrier is on; two seconds after it is down the carrier is off,
      unless the PHY was resumed, or slept and may force a mode, in between: there the
      machine leaves the carrier on, which examples show.  The PHYs are those without
      gigabit modes, which the MAC cannot use.  Negotiation gives the best
      common mode, and forced settings come back as they were set.  An advertisement
      written through the ioctl is lost, and a suspend starts the PHY of a closed
      interface.
    - A PHY with an interrupt: the line is disabled as often as the PHY has counted, so
      that it is given back as it was, whatever the chip answers and whenever interrupts
      arrive; and an interrupt makes a step of the state machine, after which the carrier
      of a running interface is what the link is.
    - The modules of the PHY library register everything or nothing, a PHY gets the one
      driver for it, and a fixup or a name selects the PHY it is meant for.
    - The CRC of the kernel with its generated table is the bit-serial CRC.
    - A challenge goes from the verifier through the driver and back; the verdict
      depends on the time alone, so the attack above differs in nothing else.  The
      timing tool sees nothing but the time either.
    - The page tables translate what was mapped, and a mapping is only refused when the
      allocator is; a section over a table does not, and the address that would be loaded
      is not that of the table.  The flush of the data cache ends, reaches every line, and
      keeps the core registers its caller expects it to keep only in [flush_cache_all] and
      [clean_invalidate_dcache]; the routine that is to clean and invalidate it does not
      clean, and an area that starts inside a line is not cleaned to its end.

    ** Fuel and bounds

    Loops that the code bounds are recursive on that bound (timeouts, array lengths).
    [generate_nonce] and [checksum_simulator] run with the number of steps that their
    counters allow, and enough is proved: the theorems say that the run returns.  The
    ARM routines run with the exact number of instructions, which is computed, and the
    no-ops of the alignment.  The
    loop over transmit status words and [napi_disable] end only when the hardware
    cooperates: they have fuel or stop with [Hang], and [tx_counters_correct] shows
    that one turn more than there are words is enough.  The wait of the verifier is
    unbounded in the code; there fuel counts datagrams.  The loops over a cache have
    fuel for the widest fields of the cache registers (1024 ways, 32768 sets, seven
    levels), and have no result without it, so that the theorem shows that they end; the
    one over an area has it for its size, and it is shown to be enough.  The
    state machine of the PHY library is a function that runs once a second; the list of
    operations, with what the chip does in between, gives the number of runs.  The loop
    that enables the line of a PHY again has one turn more than the counter says, which
    is enough.  Integers are [Z] with the wrap-around of their width written out.

    ** Not modelled

    - printk, printf and the tracing macros, beyond the lines a verdict depends on.
    - Preemption inside a driver call: interrupts arrive at the sleeps and between
      calls; the locks are modelled as flags that must be free.
    - The time that instructions take; instructions are counted.
    - Interrupts of the PHY in the middle of a call, except where PhyLib.v says that the
      line may be raised or the work run: while the work for an interrupt runs, and
      while the interrupt is given back.
    - The fixups in [phy_init_hw] and [phy_device_register] of PhyLib.v: no board with
      this chip registers one, and [init_hw_without_fixups] shows that they make no
      difference then.  Freeing the bus, beyond that it is a resource of the probe.
      The device model of the kernel is the interface [DeviceModel], its driver core
      [DriverCore].
    - Registration of the module of the network driver, which is one call, and the poll
      controller, which is not configured.
    - The rest of smsc911x_db_attack.c and smsc911x_no_attack.c, which is the text of
      smsc911x.c; their checksum routines have the same instructions.
    - The contents of the caches: Cache.v says which operations are issued.
    - The rest of the kernel, whose functions are interfaces where they are called. *)

From Stdlib Require Export ZArith Lia ZifyNat.
From stdpp Require Export base list numbers option.

#[global] Open Scope Z_scope.

(** [lia] on goals with division and remainder by literals. *)
Ltac div_lia := Z.to_euclidean_division_equations; lia.

(** ** Machine integers

    A [w]-bit unsigned integer is a [Z]; every C operation that can leave the
    range is followed by the reduction modulo [2^w] that the C standard
    prescribes for unsigned types. *)

Definition u8 (z : Z) : Z := z mod 2 ^ 8.
Definition u16 (z : Z) : Z := z mod 2 ^ 16.
Definition u32 (z : Z) : Z := z mod 2 ^ 32.
Definition u64 (z : Z) : Z := z mod 2 ^ 64.

Definition add32 (a b : Z) : Z := u32 (a + b).
Definition sub32 (a b : Z) : Z := u32 (a - b).
Definition mul32 (a b : Z) : Z := u32 (a * b).
Definition shl32 (a n : Z) : Z := u32 (Z.shiftl a n).
Definition not32 (a : Z) : Z := 2 ^ 32 - 1 - a.
Definition ror32 (a n : Z) : Z :=
  Z.lor (Z.shiftr a n) (u32 (Z.shiftl a (32 - n))).

(** Conversion of an [unsigned int] to [int]. *)
Definition s32 (z : Z) : Z := if z <? 2 ^ 31 then z else z - 2 ^ 32.

Definition is_word (w z : Z) : Prop := 0 <= z < 2 ^ w.
Abbreviation is_u8 := (is_word 8).
Abbreviation is_u16 := (is_word 16).
Abbreviation is_u32 := (is_word 32).
Abbreviation is_u64 := (is_word 64).

#[global] Instance is_word_dec w z : Decision (is_word w z).
Proof. unfold is_word. apply _. Defined.

Create HintDb word.

Lemma is_word_mod w z : 0 <= w -> is_word w (z mod 2 ^ w).
Proof. intros. apply Z.mod_pos_bound. lia. Qed.

Lemma is_word_nonneg w z : is_word w z -> 0 <= z.
Proof. unfold is_word; lia. Qed.

Lemma is_word_testbit w z i :
  0 <= w -> is_word w z -> w <= i -> Z.testbit z i = false.
Proof.
  intros Hw [Hz Hlt] Hi.
  rewrite <- (Z.mod_small z (2 ^ w)) by lia.
  by apply Z.mod_pow2_bits_high.
Qed.

(** A nonnegative number with no bit at or above position [w] is a [w]-bit
    word; the bitwise operations stay in range because of it. *)
Lemma is_word_intro w z :
  0 <= w -> 0 <= z -> (forall i, w <= i -> Z.testbit z i = false) -> is_word w z.
Proof.
  intros Hw Hz Hbits. split; [done|].
  assert (z = z mod 2 ^ w) as ->; [|apply Z.mod_pos_bound; lia].
  apply Z.bits_inj'. intros i Hi.
  destruct (decide (i < w)).
  - by rewrite Z.mod_pow2_bits_low.
  - rewrite Z.mod_pow2_bits_high by lia. apply Hbits; lia.
Qed.

Lemma is_word_lxor w a b :
  0 <= w -> is_word w a -> is_word w b -> is_word w (Z.lxor a b).
Proof.
  intros Hw Ha Hb. apply is_word_intro; [done| |].
  - apply Z.lxor_nonneg. destruct Ha, Hb; lia.
  - intros i Hi. rewrite Z.lxor_spec.
    by rewrite (is_word_testbit w a), (is_word_testbit w b).
Qed.

Lemma is_word_lor w a b :
  0 <= w -> is_word w a -> is_word w b -> is_word w (Z.lor a b).
Proof.
  intros Hw Ha Hb. apply is_word_intro; [done| |].
  - apply Z.lor_nonneg. destruct Ha, Hb; lia.
  - intros i Hi. rewrite Z.lor_spec.
    by rewrite (is_word_testbit w a), (is_word_testbit w b).
Qed.

Lemma is_word_land_l w a b : 0 <= w -> 0 <= a -> is_word w b -> is_word w (Z.land a b).
Proof.
  intros Hw Ha Hb. apply is_word_intro; [done| |].
  - apply Z.land_nonneg. lia.
  - intros i Hi. rewrite Z.land_spec, (is_word_testbit w b) by done.
    apply andb_false_r.
Qed.

Lemma is_word_shiftr w a n : 0 <= n -> is_word w a -> is_word w (Z.shiftr a n).
Proof.
  intros Hn [Ha Hlt]. rewrite Z.shiftr_div_pow2 by done.
  assert (0 < 2 ^ n) by lia. split.
  - by apply Z.div_pos.
  - apply Z.le_lt_trans with a; [|done]. apply Z.div_le_upper_bound; nia.
Qed.

Lemma is_word_mono w w' z : w <= w' -> is_word w z -> is_word w' z.
Proof.
  intros Hw [? ?]. split; [done|].
  apply Z.lt_le_trans with (2 ^ w); [done|]. apply Z.pow_le_mono_r; lia.
Qed.

(** Disjoint bit fields: [lor] is addition. *)
Lemma lor_shiftl_add k b m :
  0 <= m -> is_word m b -> Z.lor (Z.shiftl k m) b = k * 2 ^ m + b.
Proof.
  intros Hm Hb. rewrite <- Z.shiftl_mul_pow2 by done.
  rewrite <- Z.lxor_lor, <- Z.add_nocarry_lxor; [done| |];
    apply Z.bits_inj'; intros i Hi; rewrite Z.land_spec, Z.bits_0;
    (destruct (decide (i < m)); [by rewrite Z.shiftl_spec_low|
      rewrite (is_word_testbit m b) by (done || lia); apply andb_false_r]).
Qed.

Lemma lor_add_shiftl b k m :
  0 <= m -> is_word m b -> Z.lor b (Z.shiftl k m) = b + k * 2 ^ m.
Proof. intros. rewrite Z.lor_comm, lor_shiftl_add by done. lia. Qed.

(** A bit field of width [w] at position [m]. *)
Lemma land_field x w m :
  0 <= w -> 0 <= m ->
  Z.land x (Z.shiftl (Z.ones w) m) = ((x / 2 ^ m) mod 2 ^ w) * 2 ^ m.
Proof.
  intros Hw Hm. rewrite <- Z.shiftl_mul_pow2, <- Z.land_ones, <- Z.shiftr_div_pow2 by done.
  rewrite Z.shiftl_land. apply Z.bits_inj'. intros i Hi. rewrite !Z.land_spec.
  destruct (decide (m <= i)).
  - f_equal. rewrite Z.shiftl_spec, Z.shiftr_spec by lia. f_equal. lia.
  - rewrite !(Z.shiftl_spec_low _ _ i) by lia. by rewrite !andb_false_r.
Qed.

Lemma u32_small z : is_u32 z -> u32 z = z.
Proof. intros []. by apply Z.mod_small. Qed.

Lemma u16_small z : is_u16 z -> u16 z = z.
Proof. intros []. by apply Z.mod_small. Qed.

Lemma u8_small z : is_u8 z -> u8 z = z.
Proof. intros []. by apply Z.mod_small. Qed.

Lemma is_u32_u32 z : is_u32 (u32 z).
Proof. by apply is_word_mod. Qed.
Lemma is_u8_u8 z : is_u8 (u8 z).
Proof. by apply is_word_mod. Qed.
Lemma is_u16_u16 z : is_u16 (u16 z).
Proof. by apply is_word_mod. Qed.
Lemma is_u32_add32 a b : is_u32 (add32 a b).
Proof. apply is_u32_u32. Qed.
Lemma is_u32_sub32 a b : is_u32 (sub32 a b).
Proof. apply is_u32_u32. Qed.
Lemma is_u32_mul32 a b : is_u32 (mul32 a b).
Proof. apply is_u32_u32. Qed.
Lemma is_u32_lxor a b : is_u32 a -> is_u32 b -> is_u32 (Z.lxor a b).
Proof. by apply is_word_lxor. Qed.
Lemma is_u32_lor a b : is_u32 a -> is_u32 b -> is_u32 (Z.lor a b).
Proof. by apply is_word_lor. Qed.
Lemma is_u32_land a b : is_u32 a -> is_u32 b -> is_u32 (Z.land a b).
Proof. intros [? ?] ?. by apply is_word_land_l. Qed.
Lemma is_u8_lxor a b : is_u8 a -> is_u8 b -> is_u8 (Z.lxor a b).
Proof. by apply is_word_lxor. Qed.

#[export] Hint Resolve is_u32_u32 is_u8_u8 is_u16_u16 is_u32_add32 is_u32_sub32
  is_u32_mul32 is_u32_lxor is_u32_lor is_u32_land is_u8_lxor : word.

(** Closes a range goal on a closed literal, or by the [word] hints. *)
Ltac word :=
  solve [ eauto with word | unfold is_word in *; lia
        | repeat (first [ apply is_u32_lxor | apply is_u32_lor
                        | apply is_u32_land | apply is_u8_lxor ]);
          eauto with word ].

(** ** C arrays

    An array access outside its bounds is undefined behaviour in C; it is
    [None] here, so that a function that is proved to return [Some] is proved
    free of out-of-bounds accesses. *)

Definition aget {A} (l : list A) (i : Z) : option A :=
  if 0 <=? i then l !! Z.to_nat i else None.

Definition aset {A} (l : list A) (i : Z) (v : A) : option (list A) :=
  if (0 <=? i) && (i <? Z.of_nat (length l))
  then Some (<[Z.to_nat i := v]> l) else None.

Lemma aget_ok {A} (l : list A) i :
  0 <= i < Z.of_nat (length l) -> exists v, aget l i = Some v /\ v ∈ l.
Proof.
  intros Hi. unfold aget. rewrite (proj2 (Z.leb_le _ _)) by lia.
  destruct (lookup_lt_is_Some_2 l (Z.to_nat i)) as [v Hv]; [lia|].
  exists v. split; [done|]. by eapply list_elem_of_lookup_2.
Qed.

Lemma aset_ok {A} (l : list A) i v :
  0 <= i < Z.of_nat (length l) -> aset l i v = Some (<[Z.to_nat i := v]> l).
Proof.
  intros Hi. unfold aset.
  by rewrite (proj2 (Z.leb_le _ _)), (proj2 (Z.ltb_lt _ _)) by lia.
Qed.

Lemma aset_length {A} (l l' : list A) i v :
  aset l i v = Some l' -> length l' = length l.
Proof.
  unfold aset. case_match; [|done]. intros [= <-]. apply length_insert.
Qed.

Lemma aget_Some_bound {A} (l : list A) i v :
  aget l i = Some v -> 0 <= i < Z.of_nat (length l).
Proof.
  unfold aget. destruct (Z.leb_spec 0 i); [|done].
  intros ?%lookup_lt_Some. lia.
Qed.

(** Sequencing after a successful step, as an equation: rewriting with it keeps
    the rest of the computation folded. *)
Lemma bind_Some_l {A B} (f : A -> option B) (x : A) : (Some x ≫= f) = f x.
Proof. reflexivity. Qed.

(** The cell that an in-bounds access reads. *)
Definition cell (m : list Z) (i : Z) : Z := nth (Z.to_nat i) m 0.

Lemma aget_cell m i : 0 <= i < Z.of_nat (length m) -> aget m i = Some (cell m i).
Proof.
  intros Hi. unfold aget, cell. rewrite (proj2 (Z.leb_le _ _)) by lia.
  destruct (lookup_lt_is_Some_2 m (Z.to_nat i)) as [v Hv]; [lia|].
  by rewrite (nth_lookup_Some _ _ _ _ Hv).
Qed.

Lemma length_filter_mono {A} (P Q : A -> Prop) `{!forall x, Decision (P x)}
    `{!forall x, Decision (Q x)} (l : list A) :
  (forall x, x ∈ l -> P x -> Q x) -> (length (filter P l) <= length (filter Q l))%nat.
Proof.
  induction l as [|x l IH]; intros Hpq; [done|]. rewrite !filter_cons.
  assert (length (filter P l) <= length (filter Q l))%nat by (apply IH; intros; apply Hpq; [by right|done]).
  pose proof (Hpq x (list_elem_of_here _ _)). repeat case_decide; cbn [length]; [lia|tauto|lia..].
Qed.

Lemma length_filter_split {A} (P Q R : A -> Prop) `{!forall x, Decision (P x)}
    `{!forall x, Decision (Q x)} `{!forall x, Decision (R x)} (l : list A) :
  (forall x, x ∈ l -> (P x <-> Q x \/ R x) /\ ~ (Q x /\ R x)) ->
  length (filter P l) = (length (filter Q l) + length (filter R l))%nat.
Proof.
  induction l as [|x l IH]; intros Hl; [done|]. rewrite !filter_cons.
  destruct (Hl x) as [Hx Hn]; [left|].
  assert (length (filter P l) = (length (filter Q l) + length (filter R l))%nat) as E.
  { apply IH. intros y Hy. apply Hl. by right. }
  repeat case_decide; cbn [length]; try lia; tauto.
Qed.

(** ** Register files

    The 32 simulated MIPS registers and the 16 ARM registers are lists that
    are read and written at literal indices. *)

Definition rget (r : list Z) (k : nat) : Z := nth k r 0.
Definition rset (k : nat) (v : Z) (r : list Z) : list Z := <[k := v]> r.

Declare Scope regs_scope.
Notation "r .[ k ]" := (rget r k)
  (at level 1, k at level 200, left associativity, format "r .[ k ]") : regs_scope.
Notation "r .[ k <- v ]" := (rset k v r)
  (at level 1, k at level 200, left associativity, format "r .[ k  <-  v ]") : regs_scope.

Lemma rset_length k v r : length (rset k v r) = length r.
Proof. apply length_insert. Qed.

Lemma rget_rset_eq k v r : (k < length r)%nat -> rget (rset k v r) k = v.
Proof.
  intros. unfold rget, rset. apply nth_lookup_Some. by apply list_lookup_insert_eq.
Qed.

Lemma rget_rset_ne k j v r : k <> j -> rget (rset k v r) j = rget r j.
Proof.
  intros. unfold rget, rset. rewrite !nth_lookup. by rewrite list_lookup_insert_ne.
Qed.

(** ** Iterating a step function

    Code written with labels and [goto] is a step function on configurations;
    [iter_until] runs it until the configuration is final. *)

Fixpoint iter_until {S} (final : S -> bool) (step : S -> option S)
    (fuel : nat) (s : S) : option S :=
  if final s then Some s
  else match fuel with
       | O => None
       | Datatypes.S n => s' ← step s; iter_until final step n s'
       end.

Lemma iter_until_final {S} (final : S -> bool) step n s :
  final s = true -> iter_until final step n s = Some s.
Proof. intros H. destruct n; simpl; by rewrite H. Qed.

Lemma iter_until_step {S} (final : S -> bool) step n s s' :
  final s = false -> step s = Some s' ->
  iter_until final step (Datatypes.S n) s = iter_until final step n s'.
Proof. intros Hf Hs. simpl. by rewrite Hf, Hs. Qed.

Lemma iter_until_more {S} (final : S -> bool) step n m s s' :
  (n <= m)%nat -> iter_until final step n s = Some s' ->
  iter_until final step m s = Some s'.
Proof.
  revert m s. induction n as [|n IH]; intros m s Hle; simpl.
  - destruct (final s) eqn:E; [|done]. intros [= ->]. by apply iter_until_final.
  - destruct (final s) eqn:E; [intros [= ->]; by apply iter_until_final|].
    destruct (step s) as [t|] eqn:Et; simpl; [|done]. intros Hrun.
    destruct m as [|m]; [lia|]. rewrite (iter_until_step _ _ m s t) by done.
    apply IH; [lia|done].
Qed.

(** [n] steps, none of them from a final configuration. *)
Fixpoint iter_steps {S} (final : S -> bool) (step : S -> option S) (n : nat) (s : S) : option S :=
  match n with
  | O => Some s
  | Datatypes.S n => if final s then None else s' ← step s; iter_steps final step n s'
  end.

Lemma iter_until_skip {S} (final : S -> bool) step k n s s' :
  iter_steps final step k s = Some s' ->
  iter_until final step (k + n) s = iter_until final step n s'.
Proof.
  revert s. induction k as [|k IH]; intros s; simpl; [by intros [= ->]|].
  destruct (final s); [done|]. destruct (step s) as [t|]; simpl; [apply IH|done].
Qed.

Lemma iter_steps_snoc {S} (final : S -> bool) step k s s' s'' :
  iter_steps final step k s = Some s' -> final s' = false -> step s' = Some s'' ->
  iter_steps final step (Datatypes.S k) s = Some s''.
Proof.
  revert s. induction k as [|k IH]; intros s.
  - intros [= ->] Hf Hs. simpl. by rewrite Hf, Hs.
  - intros Hk Hf Hs. change (iter_steps final step (Datatypes.S (Datatypes.S k)) s)
      with (if final s then None else t ← step s; iter_steps final step (Datatypes.S k) t).
    cbn [iter_steps] in Hk. destruct (final s); [done|]. destruct (step s) as [t|]; [|done].
    by apply IH.
Qed.

(** A measure that decreases at every step bounds the fuel; an invariant that
    every step preserves holds in the final configuration. *)
Lemma iter_until_total {S} (final : S -> bool) (step : S -> option S)
    (Inv : S -> Prop) (m : S -> nat) :
  (forall s, Inv s -> final s = false ->
     exists s', step s = Some s' /\ Inv s' /\ (m s' < m s)%nat) ->
  forall s n, Inv s -> (m s <= n)%nat ->
  exists s', iter_until final step n s = Some s' /\ Inv s' /\ final s' = true.
Proof.
  intros Hstep s n. revert s. induction n as [|n IH]; intros s Hs Hm.
  - destruct (final s) eqn:E.
    + exists s. by rewrite iter_until_final.
    + destruct (Hstep s Hs E) as (s' & _ & _ & ?). lia.
  - destruct (final s) eqn:E.
    + exists s. by rewrite iter_until_final.
    + destruct (Hstep s Hs E) as (s' & Heq & Hs' & ?).
      rewrite (iter_until_step _ _ _ _ s') by done. apply IH; [done|lia].
Qed.

Lemma iter_steps_total {S} (final : S -> bool) (step : S -> option S)
    (Inv : S -> Prop) (m : S -> nat) :
  (forall s, Inv s -> final s = false ->
     exists s', step s = Some s' /\ Inv s' /\ (m s' < m s)%nat) ->
  forall k s s', Inv s -> iter_steps final step k s = Some s' -> Inv s' /\ (m s' + k <= m s)%nat.
Proof.
  intros Hstep k. induction k as [|k IH]; intros s s' Hs; simpl.
  { intros [= ->]. split; [done|lia]. }
  destruct (final s) eqn:E; [done|]. destruct (Hstep s Hs E) as (t & -> & Ht & Hm).
  intros Hk. destruct (IH t s' Ht Hk). split; [done|lia].
Qed.

(** ** Sequences of bytes *)

(** Little-endian combination of bytes, as the targets of this code do when an
    array of bytes is read through an integer pointer. *)
Fixpoint le_combine (bs : list Z) : Z :=
  match bs with
  | [] => 0
  | b :: bs => b + 2 ^ 8 * le_combine bs
  end.

Fixpoint le_split (n : nat) (w : Z) : list Z :=
  match n with
  | O => []
  | S n => u8 w :: le_split n (w / 2 ^ 8)
  end.

Lemma length_le_split n w : length (le_split n w) = n.
Proof. revert w; induction n; intros; simpl; auto. Qed.

Lemma le_split_u8 n w : Forall is_u8 (le_split n w).
Proof. revert w; induction n; intros; simpl; auto with word. Qed.

Lemma le_combine_split n w : le_combine (le_split n w) = w mod 2 ^ (8 * Z.of_nat n).
Proof.
  revert w. induction n as [|n IH]; intros w; [by rewrite Z.mod_1_r|].
  simpl le_split. cbn [le_combine]. rewrite IH. unfold u8.
  rewrite Nat2Z.inj_succ, Z.mul_succ_r, (Z.add_comm (8 * _)), Z.pow_add_r by lia.
  rewrite Z.rem_mul_r by lia. lia.
Qed.

Lemma le_combine_bound bs :
  Forall is_u8 bs -> 0 <= le_combine bs < 2 ^ (8 * Z.of_nat (length bs)).
Proof.
  induction 1 as [|b bs Hb _ IH]; [done|].
  cbn [le_combine length]. destruct Hb.
  rewrite Nat2Z.inj_succ, Z.mul_succ_r, Z.pow_add_r by lia. nia.
Qed.

Lemma le_split_combine bs : Forall is_u8 bs -> le_split (length bs) (le_combine bs) = bs.
Proof.
  induction 1 as [|b bs Hb _ IH]; [done|].
  cbn [le_combine length le_split]. destruct Hb. f_equal.
  - unfold u8. rewrite (Z.mul_comm (2 ^ 8)), Z.mod_add by lia. by apply Z.mod_small.
  - rewrite (Z.mul_comm (2 ^ 8)), Z.div_add by lia. by rewrite Z.div_small by lia.
Qed.

(** The word with its four bytes in the opposite order. *)
Definition bswap32 (x : Z) : Z := le_combine (rev (le_split 4 x)).

Lemma bswap32_u32 x : is_u32 (bswap32 x).
Proof.
  apply (le_combine_bound (rev (le_split 4 x))). apply Forall_rev, le_split_u8.
Qed.

Lemma bswap32_involutive x : is_u32 x -> bswap32 (bswap32 x) = x.
Proof.
  intros Hx. unfold bswap32.
  change 4%nat with (length (rev (le_split 4 x))) at 1.
  rewrite le_split_combine by apply Forall_rev, le_split_u8.
  rewrite rev_involutive, le_combine_split. by apply Z.mod_small.
Qed.

(** ** Swapping two cells of an array *)

Lemma swap_Permutation {A} (l : list A) i j a b :
  l !! i = Some a -> l !! j = Some b -> <[j := a]> (<[i := b]> l) ≡ₚ l.
Proof.
  intros Hi Hj.
  pose proof (lookup_lt_Some _ _ _ Hi). pose proof (lookup_lt_Some _ _ _ Hj).
  apply Permutation_inj. split; [by rewrite !length_insert|].
  exists (fun k => if decide (k = j) then i else if decide (k = i) then j else k).
  split.
  - intros k1 k2. repeat case_decide; congruence.
  - intros k. destruct (decide (k = j)) as [->|].
    + by rewrite list_lookup_insert_eq by (by rewrite length_insert).
    + rewrite list_lookup_insert_ne by done. destruct (decide (k = i)) as [->|].
      * by rewrite list_lookup_insert_eq.
      * by rewrite list_lookup_insert_ne.
Qed.
