(* ===== verification/Arc4.v ===== *)
(** * The ARC4 stream cipher (src/code/app/viper/arc4.c, arc4.h)

    The cipher context, the key schedule [arc4_setup] and the cipher function
    [arc4_crypt], with: the permutation invariant of the table, absence of
    out-of-bounds accesses, equality with the textbook key schedule and
    keystream, and the encrypt/decrypt round trip. *)

From S2P Require Import Prelude.

(** [typedef struct { int m[256]; int x; int y; } arc4_context;] *)
Record arc4_context := mk_arc4 { ctx_m : list Z; ctx_x : Z; ctx_y : Z }.

(** The second loop of [arc4_setup]: [n] iterations are left, [i], [j] and [k]
    are the C locals. *)
Fixpoint arc4_setup_loop (n : nat) (i j k : Z) (key : list Z) (keylen : Z)
    (m : list Z) : option (list Z) :=
  match n with
  | O => Some m
  | S n =>
      a ← aget m i;
      kk ← aget key k;
      let j := u8 (j + a + kk) in
      mj ← aget m j;
      m ← aset m i mj;
      m ← aset m j a;
      let k := k + 1 in
      arc4_setup_loop n (i + 1) j (if keylen <=? k then 0 else k) key keylen m
  end.

(** [void arc4_setup(arc4_context *ctx, unsigned char *key, int keylen)]: the
    first loop overwrites the whole table with [m[i] = i]. *)
Definition arc4_setup (key : list Z) (keylen : Z) : option arc4_context :=
  m ← arc4_setup_loop 256 0 0 0 key keylen (seqZ 0 256);
  Some (mk_arc4 m 0 0).

(** One iteration of the loop of [arc4_crypt]: the next key byte. *)
Definition arc4_next (ctx : arc4_context) : option (Z * arc4_context) :=
  let m := ctx_m ctx in
  let x := u8 (ctx_x ctx + 1) in
  a ← aget m x;
  let y := u8 (ctx_y ctx + a) in
  b ← aget m y;
  m ← aset m x b;
  m ← aset m y a;
  v ← aget m (u8 (a + b));
  Some (v, mk_arc4 m x y).

Fixpoint arc4_crypt_loop (n : nat) (i : Z) (ctx : arc4_context) (buf : list Z)
    : option (arc4_context * list Z) :=
  match n with
  | O => Some (ctx, buf)
  | S n =>
      '(v, ctx) ← arc4_next ctx;
      c ← aget buf i;
      buf ← aset buf i (u8 (Z.lxor c v));
      arc4_crypt_loop n (i + 1) ctx buf
  end.

(** [void arc4_crypt(arc4_context *ctx, unsigned char *buf, int buflen)] *)
Definition arc4_crypt (ctx : arc4_context) (buf : list Z) (buflen : Z)
    : option (arc4_context * list Z) :=
  arc4_crypt_loop (Z.to_nat buflen) 0 ctx buf.

(** ** The invariant of the context *)

Record ctx_wf (ctx : arc4_context) : Prop := {
  wf_m : ctx_m ctx ≡ₚ seqZ 0 256;
  wf_x : is_u8 (ctx_x ctx);
  wf_y : is_u8 (ctx_y ctx) }.

Lemma table_length m : m ≡ₚ seqZ 0 256 -> length m = 256%nat.
Proof. intros ->. apply length_seqZ. Qed.

Lemma table_get m i :
  m ≡ₚ seqZ 0 256 -> is_u8 i -> exists v, aget m i = Some v /\ is_u8 v.
Proof.
  intros Hm Hi. destruct (aget_ok m i) as (v & Hv & Hin).
  { rewrite (table_length m) by done. destruct Hi. lia. }
  exists v. split; [done|]. rewrite Hm in Hin. apply elem_of_seqZ in Hin.
  unfold is_word. lia.
Qed.

(** Exchanging two cells, in the order in which the C code writes them, keeps
    the table a permutation. *)
Lemma table_swap m i j a b :
  m ≡ₚ seqZ 0 256 -> is_u8 i -> is_u8 j -> aget m i = Some a -> aget m j = Some b ->
  exists m', (m1 ← aset m i b; aset m1 j a) = Some m' /\ m' ≡ₚ seqZ 0 256.
Proof.
  intros Hm [Hi Hi'] [Hj Hj'] Ha Hb. pose proof (table_length m Hm) as Hl.
  rewrite aset_ok by lia. simpl. rewrite aset_ok by (rewrite length_insert; lia).
  eexists. split; [done|]. rewrite <- Hm. unfold aget in *.
  rewrite (proj2 (Z.leb_le _ _)) in Ha by lia.
  rewrite (proj2 (Z.leb_le _ _)) in Hb by lia. by apply swap_Permutation.
Qed.

Lemma arc4_setup_loop_total n i j k key keylen m :
  m ≡ₚ seqZ 0 256 -> Forall is_u8 key ->
  0 < keylen <= Z.of_nat (length key) ->
  0 <= i -> i + Z.of_nat n <= 256 -> is_u8 j -> 0 <= k < keylen ->
  exists m', arc4_setup_loop n i j k key keylen m = Some m' /\ m' ≡ₚ seqZ 0 256.
Proof.
  revert i j k m. induction n as [|n IH]; intros i j k m Hm Hkey Hlen Hi Hn Hj Hk.
  { by exists m. }
  cbn [arc4_setup_loop].
  assert (is_u8 i) as Hi8 by (unfold is_word; lia).
  destruct (table_get m i Hm Hi8) as (a & Ha & Ha8). rewrite Ha. simpl.
  destruct (aget_ok key k) as (kk & Hkk & _); [lia|]. rewrite Hkk. simpl.
  destruct (table_get m (u8 (j + a + kk)) Hm) as (b & Hb & Hb8); [word|].
  rewrite Hb. simpl.
  destruct (table_swap m i (u8 (j + a + kk)) a b) as (m' & Hm' & Hp); try done; [word|].
  destruct (aset m i b) as [m1|]; simpl in *; [|done]. rewrite Hm'. simpl.
  apply IH; try done; try lia; [word|].
  destruct (Z.leb_spec keylen (k + 1)); lia.
Qed.

Lemma arc4_next_total ctx :
  ctx_wf ctx -> exists v ctx', arc4_next ctx = Some (v, ctx') /\ ctx_wf ctx' /\ is_u8 v.
Proof.
  intros [Hm Hx Hy]. unfold arc4_next.
  set (x := u8 (ctx_x ctx + 1)). assert (is_u8 x) as Hx' by (subst x; word).
  destruct (table_get _ x Hm Hx') as (a & Ha & Ha8). rewrite Ha. simpl.
  set (y := u8 (ctx_y ctx + a)). assert (is_u8 y) as Hy' by (subst y; word).
  destruct (table_get _ y Hm Hy') as (b & Hb & Hb8). rewrite Hb. simpl.
  destruct (table_swap _ x y a b Hm Hx' Hy' Ha Hb) as (m' & Hm' & Hp).
  destruct (aset (ctx_m ctx) x b) as [m1|]; simpl in *; [|done]. rewrite Hm'. simpl.
  destruct (table_get m' (u8 (a + b)) Hp) as (v & Hv & Hv8); [word|].
  rewrite Hv. simpl. by exists v, (mk_arc4 m' x y).
Qed.

(** ** The textbook cipher

    The reference against which the C code is compared: Rivest's key schedule
    and generator, written with a [swap] and with the key indexed modulo its
    length. *)

Definition swap (m : list Z) (i j : Z) : list Z :=
  <[Z.to_nat j := cell m i]> (<[Z.to_nat i := cell m j]> m).

Fixpoint rc4_ksa (n : nat) (i j : Z) (key : list Z) (keylen : Z) (m : list Z) : list Z :=
  match n with
  | O => m
  | S n => let j := (j + cell m i + cell key (i mod keylen)) mod 256 in
           rc4_ksa n (i + 1) j key keylen (swap m i j)
  end.

Definition rc4_prga (ctx : arc4_context) : Z * arc4_context :=
  let i := (ctx_x ctx + 1) mod 256 in
  let j := (ctx_y ctx + cell (ctx_m ctx) i) mod 256 in
  let m := swap (ctx_m ctx) i j in
  (cell m ((cell m i + cell m j) mod 256), mk_arc4 m i j).

Fixpoint rc4_keystream (n : nat) (ctx : arc4_context) : list Z * arc4_context :=
  match n with
  | O => ([], ctx)
  | S n => let '(v, ctx) := rc4_prga ctx in
           let '(ks, ctx) := rc4_keystream n ctx in (v :: ks, ctx)
  end.

Lemma aset_swap m i j :
  0 <= i < Z.of_nat (length m) -> 0 <= j < Z.of_nat (length m) ->
  (m1 ← aset m i (cell m j); aset m1 j (cell m i)) = Some (swap m i j).
Proof.
  intros. rewrite aset_ok by done. simpl. by rewrite aset_ok by (rewrite length_insert; lia).
Qed.

Lemma length_swap m i j : length (swap m i j) = length m.
Proof. unfold swap. by rewrite !length_insert. Qed.

Lemma cell_insert_eq m i v :
  0 <= i < Z.of_nat (length m) -> cell (<[Z.to_nat i := v]> m) i = v.
Proof.
  intros. unfold cell. apply nth_lookup_Some, list_lookup_insert_eq. lia.
Qed.

Lemma cell_insert_ne m i j v :
  0 <= i -> 0 <= j -> i <> j -> cell (<[Z.to_nat i := v]> m) j = cell m j.
Proof.
  intros. unfold cell. rewrite !nth_lookup.
  by rewrite list_lookup_insert_ne by (intros ?%Z2Nat.inj; lia).
Qed.

Lemma cell_swap_l m i j :
  0 <= i < Z.of_nat (length m) -> 0 <= j < Z.of_nat (length m) ->
  cell (swap m i j) i = cell m j.
Proof.
  intros. unfold swap. destruct (decide (i = j)) as [->|].
  - by rewrite cell_insert_eq by (rewrite length_insert; lia).
  - rewrite cell_insert_ne by lia. by rewrite cell_insert_eq.
Qed.

Lemma cell_swap_r m i j :
  0 <= i < Z.of_nat (length m) -> 0 <= j < Z.of_nat (length m) ->
  cell (swap m i j) j = cell m i.
Proof. intros. unfold swap. by rewrite cell_insert_eq by (rewrite length_insert; lia). Qed.

Lemma mod256 z : z mod 256 = u8 z.
Proof. done. Qed.

Lemma arc4_next_prga ctx : ctx_wf ctx -> arc4_next ctx = Some (rc4_prga ctx).
Proof.
  intros [Hm Hx Hy]. pose proof (table_length _ Hm) as Hl.
  assert (forall z, 0 <= u8 z < Z.of_nat (length (ctx_m ctx))) as Hb.
  { intros z. destruct (is_u8_u8 z). rewrite Hl. lia. }
  unfold arc4_next, rc4_prga. cbv zeta. rewrite !mod256.
  set (x := u8 (ctx_x ctx + 1)). rewrite (aget_cell (ctx_m ctx) x) by apply Hb. simpl.
  set (y := u8 (ctx_y ctx + cell (ctx_m ctx) x)).
  rewrite (aget_cell (ctx_m ctx) y) by apply Hb. simpl.
  pose proof (aset_swap (ctx_m ctx) x y (Hb _) (Hb _)) as Hsw.
  destruct (aset (ctx_m ctx) x _) as [m1|]; simpl in *; [|done]. rewrite Hsw. simpl.
  rewrite aget_cell by (rewrite length_swap; apply Hb). simpl.
  rewrite cell_swap_l, cell_swap_r by apply Hb.
  by rewrite (Z.add_comm (cell _ y)).
Qed.

Lemma rc4_prga_wf ctx : ctx_wf ctx -> ctx_wf (rc4_prga ctx).2 /\ is_u8 (rc4_prga ctx).1.
Proof.
  intros Hwf. destruct (arc4_next_total ctx Hwf) as (v & ctx' & Heq & ? & ?).
  rewrite arc4_next_prga in Heq by done. destruct (rc4_prga ctx). by simplify_eq.
Qed.

Lemma rc4_keystream_wf n ctx :
  ctx_wf ctx ->
  ctx_wf (rc4_keystream n ctx).2 /\ Forall is_u8 (rc4_keystream n ctx).1 /\
  length (rc4_keystream n ctx).1 = n.
Proof.
  revert ctx. induction n as [|n IH]; intros ctx Hwf; [done|].
  cbn [rc4_keystream]. destruct (rc4_prga_wf ctx Hwf) as [Hwf' Hv].
  destruct (rc4_prga ctx) as [v c]. simpl in *. destruct (IH c Hwf') as (? & ? & ?).
  destruct (rc4_keystream n c) as [ks c']. simpl in *. auto.
Qed.

Lemma u8_lxor a b : is_u8 a -> is_u8 b -> u8 (Z.lxor a b) = Z.lxor a b.
Proof. intros. apply u8_small. word. Qed.

Lemma insert_middle {A} (pre post : list A) c v :
  <[length pre := v]> (pre ++ c :: post) = (pre ++ [v]) ++ post.
Proof.
  rewrite insert_app_r_alt by done. by rewrite Nat.sub_diag, <- app_assoc.
Qed.

Lemma arc4_crypt_loop_keystream ctx pre mid post :
  ctx_wf ctx -> Forall is_u8 mid ->
  arc4_crypt_loop (length mid) (Z.of_nat (length pre)) ctx (pre ++ mid ++ post)
  = Some ((rc4_keystream (length mid) ctx).2,
          pre ++ zip_with Z.lxor mid (rc4_keystream (length mid) ctx).1 ++ post).
Proof.
  revert ctx pre. induction mid as [|c mid IH]; intros ctx pre Hwf Hb; [done|].
  cbn [length arc4_crypt_loop]. rewrite arc4_next_prga by done.
  destruct (rc4_prga_wf ctx Hwf) as [Hwf' Hv].
  cbn [rc4_keystream]. destruct (rc4_prga ctx) as [v c']. simpl in *.
  inversion_clear Hb as [|? ? Hc Hb'].
  unfold aget. rewrite (proj2 (Z.leb_le _ _)) by lia. rewrite Nat2Z.id.
  rewrite list_lookup_middle by done. simpl.
  rewrite aset_ok by (rewrite !length_app; simpl; lia). simpl. rewrite Nat2Z.id.
  rewrite insert_middle, u8_lxor by done.
  replace (Z.of_nat (length pre) + 1) with (Z.of_nat (length (pre ++ [Z.lxor c v])))
    by (rewrite length_app; simpl; lia).
  rewrite IH by done. destruct (rc4_keystream (length mid) c') as [ks c2]. simpl.
  by rewrite <- app_assoc.
Qed.

Lemma arc4_crypt_keystream ctx buf post :
  ctx_wf ctx -> Forall is_u8 buf ->
  arc4_crypt ctx (buf ++ post) (Z.of_nat (length buf))
  = Some ((rc4_keystream (length buf) ctx).2,
          zip_with Z.lxor buf (rc4_keystream (length buf) ctx).1 ++ post).
Proof.
  intros. unfold arc4_crypt. rewrite Nat2Z.id.
  by apply (arc4_crypt_loop_keystream ctx []).
Qed.

Lemma arc4_setup_loop_ksa n i j k key keylen m :
  m ≡ₚ seqZ 0 256 -> Forall is_u8 key -> 0 < keylen <= Z.of_nat (length key) ->
  0 <= i -> i + Z.of_nat n <= 256 -> is_u8 j -> k = i mod keylen ->
  arc4_setup_loop n i j k key keylen m = Some (rc4_ksa n i j key keylen m).
Proof.
  revert i j k m. induction n as [|n IH]; intros i j k m Hm Hkey Hlen Hi Hn Hj ->; [done|].
  cbn [arc4_setup_loop rc4_ksa]. rewrite mod256. pose proof (table_length m Hm) as Hl.
  assert (0 <= i mod keylen < keylen) by (apply Z.mod_pos_bound; lia).
  rewrite (aget_cell m i), (aget_cell key (i mod keylen)) by lia. simpl.
  set (j' := u8 _). assert (is_u8 j') as [? ?] by (subst j'; word).
  rewrite (aget_cell m j') by lia. simpl.
  pose proof (aset_swap m i j' ltac:(lia) ltac:(lia)) as Hsw.
  destruct (table_swap m i j' (cell m i) (cell m j')) as (m' & Hm' & Hp);
    [done|split; lia|split; lia|by apply aget_cell; lia|by apply aget_cell; lia|].
  destruct (aset m i _) as [m1|]; simpl in *; [|done].
  rewrite Hsw in Hm' |- *. injection Hm' as <-. simpl.
  apply IH; try done; try lia; try (split; lia).
  destruct (Z.leb_spec keylen (i mod keylen + 1)).
  - rewrite <- Z.add_mod_idemp_l by lia.
    replace (i mod keylen + 1) with keylen by lia. by rewrite Z.mod_same by lia.
  - rewrite <- Z.add_mod_idemp_l by lia. by rewrite (Z.mod_small (_ + 1)) by lia.
Qed.

Lemma xor_bytes_u8 buf ks :
  Forall is_u8 buf -> Forall is_u8 ks -> Forall is_u8 (zip_with Z.lxor buf ks).
Proof.
  intros Hb. revert ks. induction Hb; intros [|k ks] Hk; simpl; try done.
  inversion_clear Hk. constructor; [word|auto].
Qed.

Lemma xor_bytes_involutive buf ks :
  (length buf <= length ks)%nat ->
  zip_with Z.lxor (zip_with Z.lxor buf ks) ks = buf.
Proof.
  revert ks. induction buf as [|b buf IH]; intros [|k ks] Hl; simpl in *; try done; try lia.
  rewrite IH by lia. by rewrite Z.lxor_assoc, Z.lxor_nilpotent, Z.lxor_0_r.
Qed.

Lemma arc4_setup_spec key keylen :
  Forall is_u8 key -> 0 < keylen <= Z.of_nat (length key) ->
  arc4_setup key keylen = Some (mk_arc4 (rc4_ksa 256 0 0 key keylen (seqZ 0 256)) 0 0) /\
  rc4_ksa 256 0 0 key keylen (seqZ 0 256) ≡ₚ seqZ 0 256.
Proof.
  intros Hk Hl. unfold arc4_setup.
  destruct (arc4_setup_loop_total 256 0 0 0 key keylen (seqZ 0 256))
    as (m & Hm & Hp); try done; [lia|].
  rewrite (arc4_setup_loop_ksa 256 0 0 0 key keylen) in Hm |- * by done.
  generalize dependent (rc4_ksa 256 0 0 key keylen (seqZ 0 256)).
  intros t [= <-]. done.
Qed.

(** ** Properties *)

(** the key schedule of [arc4_setup] never reads or writes outside the
    key or the table, for any key of at least [keylen] >= 1 bytes, and leaves in
    the context the table of the textbook RC4 key schedule, a permutation of
    0..255, with both indices at zero. *)
Theorem arc4_setup_correct key keylen :
  Forall is_u8 key -> 0 < keylen <= Z.of_nat (length key) ->
  arc4_setup key keylen = Some (mk_arc4 (rc4_ksa 256 0 0 key keylen (seqZ 0 256)) 0 0) /\
  rc4_ksa 256 0 0 key keylen (seqZ 0 256) ≡ₚ seqZ 0 256.
Proof. apply arc4_setup_spec. Qed.

Lemma arc4_setup_correct_witness :
  exists ctx, arc4_setup [1; 35; 69] 3 = Some ctx /\ ctx_m ctx ≡ₚ seqZ 0 256.
Proof.
  destruct (arc4_setup_correct [1; 35; 69] 3) as [Heq Hp].
  - repeat constructor; unfold is_word; simpl; lia.
  - simpl; lia.
  - eexists. split; [exact Heq|exact Hp].
Defined.

(** Encrypting a buffer and then encrypting the result from the same
    context gives the buffer back and leaves the same context, and both calls
    succeed: [arc4_crypt] is its own inverse on every byte buffer. *)
Theorem arc4_crypt_roundtrip ctx buf :
  ctx_wf ctx -> Forall is_u8 buf ->
  exists ctx' ct, arc4_crypt ctx buf (Z.of_nat (length buf)) = Some (ctx', ct) /\
    length ct = length buf /\ Forall is_u8 ct /\ ctx_wf ctx' /\
    arc4_crypt ctx ct (Z.of_nat (length ct)) = Some (ctx', buf).
Proof.
  intros Hwf Hb. destruct (rc4_keystream_wf (length buf) ctx Hwf) as (Hwf' & Hks & Hlen).
  pose proof (arc4_crypt_keystream ctx buf [] Hwf Hb) as Henc. rewrite !app_nil_r in Henc.
  set (ct := zip_with Z.lxor buf (rc4_keystream (length buf) ctx).1) in *.
  assert (length ct = length buf) as Hl.
  { subst ct. rewrite length_zip_with, Hlen. lia. }
  assert (Forall is_u8 ct) as Hct by (by apply xor_bytes_u8).
  eexists _, ct. split_and!; try done.
  pose proof (arc4_crypt_keystream ctx ct [] Hwf Hct) as Hdec. rewrite !app_nil_r in Hdec.
  rewrite Hdec, Hl. subst ct. by rewrite xor_bytes_involutive by lia.
Qed.

Lemma arc4_crypt_roundtrip_witness :
  exists ctx' ct, arc4_crypt (mk_arc4 (seqZ 0 256) 0 0) [1; 2; 3] 3 = Some (ctx', ct) /\
    arc4_crypt (mk_arc4 (seqZ 0 256) 0 0) ct 3 = Some (ctx', [1; 2; 3]).
Proof.
  destruct (arc4_crypt_roundtrip (mk_arc4 (seqZ 0 256) 0 0) [1; 2; 3])
    as (ctx' & ct & Henc & Hl & _ & _ & Hdec).
  - split; [reflexivity|unfold is_word; simpl; lia..].
  - repeat constructor; unfold is_word; lia.
  - exists ctx', ct. rewrite Hl in Hdec. split; [exact Henc|exact Hdec].
Defined.

(** The cipher reproduces the three test vectors that arc4.c lists for
    its self test (key, plaintext, ciphertext). *)
Theorem arc4_test_vectors :
  let run key pt := ctx ← arc4_setup key 8; '(_, ct) ← arc4_crypt ctx pt 8; Some ct in
  run [0x01; 0x23; 0x45; 0x67; 0x89; 0xAB; 0xCD; 0xEF]
      [0x01; 0x23; 0x45; 0x67; 0x89; 0xAB; 0xCD; 0xEF]
    = Some [0x75; 0xB7; 0x87; 0x80; 0x99; 0xE0; 0xC5; 0x96] /\
  run [0x01; 0x23; 0x45; 0x67; 0x89; 0xAB; 0xCD; 0xEF] (replicate 8 0)
    = Some [0x74; 0x94; 0xC2; 0xE7; 0x10; 0x4B; 0x08; 0x79] /\
  run (replicate 8 0) (replicate 8 0)
    = Some [0xDE; 0x18; 0x89; 0x41; 0xA3; 0x37; 0x5D; 0x3A].
Proof. vm_compute. done. Qed.
