(* ===== verification/Rand.v ===== *)
(** * The byte source of the nonce generator (src/code/app/viper/rand.c, rand.h)

    [random_byte] hands out one byte at a time from a 128-byte buffer that
    [arc4GetRandom] refills.  The key is the constant 0x0a repeated, so the
    sequence is deterministic; the main theorem gives every byte of it. *)

From S2P Require Import Prelude Arc4.

Definition RANDOM_BUFFER_SIZE : Z := 128.

(** The globals of rand.c. *)
Record rand_state := mk_rand {
  randomBuffer : list Z;
  randomIndex : Z;
  refillNo : Z;
  randkey : list Z;
  arc4_ctx : arc4_context }.

(** The globals before the first call: C zero-initialises them. *)
Definition rand_init : rand_state :=
  mk_rand (replicate 128 0) 0 0 (replicate 128 0) (mk_arc4 (replicate 256 0) 0 0).

(** [int arc4GetRandom(unsigned char *buffer, int numBytes)], called by
    [random_byte] on the global buffer.  The test [nbytes != RANDOM_BUFFER_SIZE]
    compares a value with itself and never returns. *)
Definition arc4GetRandom (numBytes : Z) (s : rand_state) : option (Z * rand_state) :=
  '(key, ctx) ← (if refillNo s =? 0
                 then let key := replicate 128 0xa in
                      ctx ← arc4_setup key RANDOM_BUFFER_SIZE; Some (key, ctx)
                 else Some (randkey s, arc4_ctx s));
  let buffer := le_split 8 (refillNo s) ++ replicate 120 0 in
  '(ctx, buffer) ← arc4_crypt ctx buffer numBytes;
  Some (numBytes, mk_rand buffer (randomIndex s) (u64 (refillNo s + 1)) key ctx).

(** [int random_byte(void)] *)
Definition random_byte (s : rand_state) : option (Z * rand_state) :=
  s ← (if randomIndex s mod RANDOM_BUFFER_SIZE =? 0
       then '(_, s) ← arc4GetRandom RANDOM_BUFFER_SIZE s; Some s
       else Some s);
  b ← aget (randomBuffer s) (randomIndex s mod RANDOM_BUFFER_SIZE);
  Some (b, mk_rand (randomBuffer s) (u32 (randomIndex s + 1)) (refillNo s)
                   (randkey s) (arc4_ctx s)).

(** [n] calls of [random_byte]. *)
Fixpoint random_bytes (n : nat) (s : rand_state) : option (list Z * rand_state) :=
  match n with
  | O => Some ([], s)
  | S n => '(b, s) ← random_byte s; '(bs, s) ← random_bytes n s; Some (b :: bs, s)
  end.

(** ** The specified sequence *)

(** The context after the key schedule of the constant key, and before the
    [b]-th block of 128 bytes. *)
Definition rand_ctx0 : arc4_context :=
  mk_arc4 (rc4_ksa 256 0 0 (replicate 128 0xa) 128 (seqZ 0 256)) 0 0.

Section Stream.
Context (c0 : arc4_context).

Definition rand_ctx (b : nat) : arc4_context :=
  Nat.iter b (fun c => (rc4_keystream 128 c).2) c0.

(** Block [b]: the next 128 keystream bytes, with the 64-bit little-endian
    block number xored into the first eight. *)
Definition rand_block (b : nat) : list Z :=
  zip_with Z.lxor (le_split 8 (Z.of_nat b) ++ replicate 120 0)
                  (rc4_keystream 128 (rand_ctx b)).1.

Definition rand_stream (n : nat) : Z :=
  nth (n mod 128) (rand_block (n / 128)) 0.

Context (Hsetup : arc4_setup (replicate 128 0xa) 128 = Some c0).
Context (Hwf0 : ctx_wf c0).

Lemma rand_ctx_0 : rand_ctx 0 = c0.
Proof. reflexivity. Qed.

Lemma rand_ctx_wf b : ctx_wf (rand_ctx b).
Proof.
  induction b as [|b IH]; [exact Hwf0|].
  exact (proj1 (rc4_keystream_wf 128 (rand_ctx b) IH)).
Qed.

Lemma block_input_length b : length (le_split 8 b ++ replicate 120 0) = 128%nat.
Proof. by rewrite length_app, length_le_split, length_replicate. Qed.

Lemma block_input_u8 b : Forall is_u8 (le_split 8 b ++ replicate 120 0).
Proof.
  apply Forall_app. split; [apply le_split_u8|].
  apply Forall_replicate. unfold is_word; lia.
Qed.

Lemma rand_block_length b : length (rand_block b) = 128%nat.
Proof.
  unfold rand_block.
  destruct (rc4_keystream_wf 128 _ (rand_ctx_wf b)) as (_ & _ & Hl).
  rewrite length_zip_with, block_input_length, Hl. done.
Qed.

Lemma rand_block_index n b :
  0 <= Z.of_nat (n mod 128) < Z.of_nat (length (rand_block b)).
Proof. rewrite rand_block_length. pose proof (Nat.mod_upper_bound n 128). lia. Qed.

Lemma rand_block_u8 b : Forall is_u8 (rand_block b).
Proof.
  unfold rand_block. apply xor_bytes_u8; [exact (block_input_u8 _)|].
  exact (proj1 (proj2 (rc4_keystream_wf 128 _ (rand_ctx_wf b)))).
Qed.

Lemma crypt_block b :
  arc4_crypt (rand_ctx b) (le_split 8 (Z.of_nat b) ++ replicate 120 0) 128
  = Some (rand_ctx (S b), rand_block b).
Proof.
  pose proof (arc4_crypt_keystream (rand_ctx b)
    (le_split 8 (Z.of_nat b) ++ replicate 120 0) [] (rand_ctx_wf b) (block_input_u8 _)) as H.
  rewrite block_input_length, !app_nil_r in H. exact H.
Qed.

#[local] Opaque rand_block rand_ctx.

(** The state after [n] calls. *)
Record rand_inv (n : nat) (s : rand_state) : Prop := {
  ri_index : randomIndex s = u32 (Z.of_nat n);
  ri_refill : refillNo s = Z.of_nat ((n + 127) / 128);
  ri_ctx : refillNo s <> 0 -> arc4_ctx s = rand_ctx ((n + 127) / 128);
  ri_buf : (n mod 128 <> 0)%nat -> randomBuffer s = rand_block (n / 128) }.

Lemma rand_init_inv : rand_inv 0 rand_init.
Proof. split; [reflexivity|reflexivity|..]; intros []; reflexivity. Qed.

Lemma index_mod n : u32 (Z.of_nat n) mod 128 = Z.of_nat (n mod 128).
Proof.
  unfold u32. change (2 ^ 32) with (128 * 2 ^ 25).
  rewrite Z.rem_mul_r, Z.mul_comm, Z_mod_plus_full, Z.mod_mod by lia.
  by rewrite Nat2Z.inj_mod.
Qed.

Lemma blocks_succ n : ((S n + 127) / 128 = n / 128 + 1)%nat.
Proof. div_lia. Qed.
Lemma blocks_exact n : (n mod 128 = 0 -> (n + 127) / 128 = n / 128)%nat.
Proof. div_lia. Qed.
Lemma blocks_inexact n : (n mod 128 <> 0 -> (n + 127) / 128 = n / 128 + 1)%nat.
Proof. div_lia. Qed.
Lemma refill_count n :
  Z.of_nat n < 2 ^ 64 -> u64 (Z.of_nat (n / 128) + 1) = Z.of_nat (n / 128 + 1).
Proof. intros. unfold u64. rewrite Z.mod_small; [lia|]. div_lia. Qed.
Lemma same_block n : (S n mod 128 <> 0 -> S n / 128 = n / 128)%nat.
Proof. div_lia. Qed.

(** The refill in [random_byte], run exactly when a block is used up. *)
Lemma refill_inv n s :
  rand_inv n s -> Z.of_nat n < 2 ^ 64 ->
  exists s', (if randomIndex s mod RANDOM_BUFFER_SIZE =? 0
              then '(_, s) ← arc4GetRandom RANDOM_BUFFER_SIZE s; Some s
              else Some s) = Some s' /\
    randomIndex s' = randomIndex s /\
    refillNo s' = Z.of_nat (n / 128 + 1) /\
    arc4_ctx s' = rand_ctx (n / 128 + 1) /\
    randomBuffer s' = rand_block (n / 128).
Proof.
  intros [Hi Hr Hc Hb] Hn. unfold RANDOM_BUFFER_SIZE. rewrite Hi, index_mod.
  destruct (Z.eqb_spec (Z.of_nat (n mod 128)) 0) as [Hz|Hz].
  - apply (Nat2Z.inj _ 0) in Hz. rewrite blocks_exact in Hr, Hc by done.
    assert (u64 (refillNo s + 1) = Z.of_nat (n / 128 + 1)) as Hinc.
    { rewrite Hr. by apply refill_count. }
    unfold arc4GetRandom. destruct (Z.eqb_spec (refillNo s) 0) as [H0|H0].
    + rewrite Hr in H0. apply (Nat2Z.inj _ 0) in H0 as Hn0.
      unfold RANDOM_BUFFER_SIZE. rewrite Hsetup. cbn [mbind option_bind].
      pose proof (crypt_block 0) as Hcr. rewrite Hr, Hn0.
      rewrite rand_ctx_0 in Hcr. rewrite Hcr. cbn [mbind option_bind].
      eexists. split; [reflexivity|].
      split; [exact Hi|]. split; [reflexivity|]. split; reflexivity.
    + rewrite Hc, Hr by done. cbn [mbind option_bind]. rewrite crypt_block.
      cbn [mbind option_bind]. eexists. split; [reflexivity|].
      cbn [randomIndex refillNo arc4_ctx randomBuffer].
      rewrite <- Hr, Hinc, Nat.add_1_r.
      split; [exact Hi|]. split; [reflexivity|]. split; reflexivity.
  - assert (n mod 128 <> 0)%nat as Hz' by (intros E; apply Hz; by rewrite E).
    rewrite blocks_inexact in Hr, Hc by done. exists s.
    split; [reflexivity|]. split; [exact Hi|]. split; [exact Hr|].
    split; [|by apply Hb]. apply Hc. rewrite Hr. clear. lia.
Qed.

Lemma random_byte_inv n s :
  rand_inv n s -> Z.of_nat n < 2 ^ 64 ->
  exists s', random_byte s = Some (rand_stream n, s') /\ rand_inv (S n) s'.
Proof.
  intros Hinv Hn. unfold random_byte.
  destruct (refill_inv n s Hinv Hn) as (s' & -> & Hi & Hr & Hc & Hb).
  cbn [mbind option_bind]. unfold RANDOM_BUFFER_SIZE.
  rewrite Hi, (ri_index _ _ Hinv), index_mod, Hb.
  rewrite aget_cell by (apply rand_block_index).
  cbn [mbind option_bind]. unfold cell. rewrite Nat2Z.id. 
  change (nth (n mod 128) (rand_block (n / 128)) 0) with (rand_stream n).
  eexists. split; [reflexivity|].
  assert ((S n + 127) / 128 = n / 128 + 1)%nat as Hd by apply blocks_succ.
  split; cbn [randomIndex refillNo arc4_ctx randomBuffer].
  - rewrite Nat2Z.inj_succ. unfold u32. by rewrite Z.add_mod_idemp_l.
  - by rewrite Hr, Hd.
  - intros _. by rewrite Hc, Hd.
  - intros Hne. by rewrite same_block.
Qed.

Lemma random_bytes_inv k n s :
  rand_inv n s -> Z.of_nat (n + k) < 2 ^ 64 ->
  exists s', random_bytes k s = Some (rand_stream <$> seq n k, s') /\ rand_inv (n + k) s'.
Proof.
  revert n s. induction k as [|k IH]; intros n s Hinv Hk.
  { exists s. rewrite Nat.add_0_r. split; [reflexivity|exact Hinv]. }
  cbn [random_bytes]. destruct (random_byte_inv n s Hinv) as (s1 & -> & H1); [clear -Hk; lia|].
  cbn [mbind option_bind]. destruct (IH (S n) s1 H1) as (s2 & -> & H2); [clear -Hk; lia|].
  exists s2. split; [reflexivity|]. rewrite Nat.add_succ_r. exact H2.
Qed.

Lemma rand_stream_u8 n : is_u8 (rand_stream n).
Proof.
  unfold rand_stream. eapply Forall_nth; [apply rand_block_u8|].
  rewrite rand_block_length. by apply Nat.mod_upper_bound.
Qed.

End Stream.

Lemma const_key_setup :
  arc4_setup (replicate 128 0xa) 128 = Some rand_ctx0 /\ ctx_wf rand_ctx0.
Proof.
  destruct (arc4_setup_spec (replicate 128 0xa) 128) as [Heq Hp].
  - apply Forall_replicate. unfold is_word; lia.
  - rewrite length_replicate. lia.
  - split; [exact Heq|]. split; [exact Hp|change (is_u8 0); unfold is_word; lia..].
Qed.

(** One call in the sequence from the initial state of the module. *)
Lemma random_byte_next n s :
  rand_inv rand_ctx0 n s -> Z.of_nat n < 2 ^ 64 ->
  exists b s', random_byte s = Some (b, s') /\ is_u8 b /\ rand_inv rand_ctx0 (S n) s'.
Proof.
  intros Hinv Hn. destruct const_key_setup as [Hs Hwf].
  destruct (random_byte_inv rand_ctx0 Hs Hwf n s Hinv Hn) as (s' & Heq & Hi).
  eexists _, s'. split; [exact Heq|]. split; [|exact Hi]. exact (rand_stream_u8 rand_ctx0 Hwf n).
Qed.

(** ** Property *)

(** From the initial state of the module, the first [k] calls of
    [random_byte] all succeed and return the first [k] bytes of the specified
    sequence: 128-byte blocks of RC4 keystream under the constant key, each with
    its little-endian block number xored into its first eight bytes.  The refill
    and the 32-bit wrap-around of the index never skip or repeat a byte. *)
Theorem random_byte_stream k :
  Z.of_nat k < 2 ^ 64 ->
  exists s', random_bytes k rand_init = Some (rand_stream rand_ctx0 <$> seq 0 k, s').
Proof.
  intros Hk. destruct const_key_setup as [Hs Hwf].
  destruct (random_bytes_inv rand_ctx0 Hs Hwf k 0 rand_init) as (s' & Heq & _);
    [apply rand_init_inv|done|eauto].
Qed.

Lemma random_byte_stream_witness :
  exists s', random_bytes 4 rand_init = Some ([190; 228; 195; 182], s').
Proof.
  destruct (random_byte_stream 4) as [s' Hs']; [lia|]. exists s'. rewrite Hs'.
  vm_compute. reflexivity.
Defined.
