(* ===== verification/Swatt.v ===== *)
(** * Shared parts of the checksum simulator (src/code/app/viper/simulator.c)

    The constants and global arrays of simulator.c, the helpers on the coverage
    maps and on the saved registers, and the invariant of the simulated MIPS
    register file that both [generate_nonce] and [checksum_simulator] keep. *)

From S2P Require Import Prelude.
#[local] Open Scope regs_scope.

Definition SWATT_BASE : Z := 0x8b00.
Definition FW_SIZE : Z := 3072.
Definition NONCE_NUM : Z := 300.
Definition NONCE_FULL : Z := 0.
Definition MIPS_REG_NUM : Z := 32.
Definition ADDR_MASK : Z := 0x7fc.
Definition JUMP_MASK : Z := 0x1c0.
Definition RANDOMNESS : Z := 0x43434343.
Definition NONCE_COUNT : Z := NONCE_NUM.
Definition LOOP_COUNT : Z := 100000.
Definition I_NUM : Z := 4.
Definition SWATT_LOOP_NUM : Z := NONCE_NUM.

(** The labels of the two functions; [__return] ends the run. *)
Inductive label :=
  | block_0 | block_1 | block_2 | block_3 | block_4 | block_5 | block_6 | block_7
  | jump_table | checksum_end | return_.

#[global] Instance label_eq_dec : EqDecision label.
Proof. solve_decision. Defined.

(** A block of the checksum: the label it jumps to, the registers, the map of
    the words it read, and the block counter; [None] is an access outside an
    array. *)
Definition block_result : Type := option (label * list Z * list Z * Z).

(** ** Loops over the global arrays *)

(** [for (i = i0; i < i0 + n; i++) dst[i] = f(i);] *)
Fixpoint array_loop (n : nat) (i : Z) (f : Z -> option Z) (dst : list Z) : option (list Z) :=
  match n with
  | O => Some dst
  | S n => v ← f i; dst ← aset dst i v; array_loop n (i + 1) f dst
  end.

(** [for (i = i0; i < i0 + n; i++) if (p(i)) count++;] *)
Fixpoint count_loop (n : nat) (i : Z) (p : Z -> option bool) (count : Z) : option Z :=
  match n with
  | O => Some count
  | S n => b ← p i; count_loop n (i + 1) p (if (b : bool) then add32 count 1 else count)
  end.

Definition istart : Z := (0x8c00 - SWATT_BASE) / 4.
Definition iend : Z := (0x8c00 - SWATT_BASE + 16*4*8 + 8 + 2048) / 4.

(** [void init_buf(void)]: one loop over the four arrays [g_swatt_buf],
    [g_swatt_buf_s], [g_mm] and [g_mm_s]. *)
Fixpoint init_buf_loop (n : nat) (i : Z) (buf buf_s mm mms : list Z)
    : option (list Z * list Z * list Z * list Z) :=
  match n with
  | O => Some (buf, buf_s, mm, mms)
  | S n =>
      buf ← aset buf i 0;
      buf_s ← aset buf_s i 0;
      mm ← aset mm i 0;
      mms ← aset mms i 0;
      init_buf_loop n (i + 1) buf buf_s mm mms
  end.

Definition init_buf (buf buf_s mm mms : list Z)
    : option (list Z * list Z * list Z * list Z) :=
  init_buf_loop (Z.to_nat (FW_SIZE / 4)) 0 buf buf_s mm mms.

(** [__u32 mms_left(void)] *)
Definition mms_left (mms : list Z) : option Z :=
  count_loop (Z.to_nat (iend - istart)) istart (fun i => v ← aget mms i; Some (v =? 0)) 0.

(** [__u32 mm_left(void)] *)
Definition mm_left (mm : list Z) : option Z :=
  count_loop (Z.to_nat (iend - istart)) istart (fun i => v ← aget mm i; Some (v =? 0)) 0.

(** [__u32 mms_updated(void)] *)
Definition mms_updated (mm mms : list Z) : option Z :=
  count_loop (Z.to_nat (iend - istart)) istart
    (fun i => v ← aget mm i; w ← aget mms i; Some ((v =? 0) && (w =? 1))) 0.

(** [void zero_mms(void)] *)
Definition zero_mms (mms : list Z) : option (list Z) :=
  array_loop (Z.to_nat (FW_SIZE / 4)) 0 (fun _ => Some 0) mms.

(** [void copy_mms2mm(void)] *)
Definition copy_mms2mm (mm mms : list Z) : option (list Z) :=
  array_loop (Z.to_nat (FW_SIZE / 4)) 0 (fun i => aget mms i) mm.

(** [void copy_mm2mms(void)] *)
Definition copy_mm2mms (mm mms : list Z) : option (list Z) :=
  array_loop (Z.to_nat (FW_SIZE / 4)) 0 (fun i => aget mm i) mms.

(** [void clear_regs(void)] *)
Definition clear_regs (reg : list Z) : option (list Z) :=
  array_loop (Z.to_nat MIPS_REG_NUM) 0 (fun i => Some i) reg.

(** [void save_regs(void)]: [g_reg_state] from [g_reg]. *)
Definition save_regs (reg reg_state : list Z) : option (list Z) :=
  array_loop (Z.to_nat MIPS_REG_NUM) 0 (fun i => aget reg i) reg_state.

(** [void restore_regs(void)]: [g_reg] from [g_reg_state]. *)
Definition restore_regs (reg reg_state : list Z) : option (list Z) :=
  array_loop (Z.to_nat MIPS_REG_NUM) 0 (fun i => aget reg_state i) reg.

(** ** What the loops compute *)

Lemma array_loop_spec n i f (g : Z -> Z) dst :
  0 <= i -> (forall j, i <= j < i + Z.of_nat n -> f j = Some (g j)) ->
  i + Z.of_nat n <= Z.of_nat (length dst) ->
  exists dst', array_loop n i f dst = Some dst' /\ length dst' = length dst /\
    forall j, dst' !! j = if decide (i <= Z.of_nat j < i + Z.of_nat n)
                          then Some (g (Z.of_nat j)) else dst !! j.
Proof.
  revert i dst. induction n as [|n IH]; intros i dst Hi Hf Hl.
  { exists dst. split_and!; [done|done|]. intros j. by rewrite decide_False by lia. }
  cbn [array_loop]. rewrite (Hf i) by lia. cbn [mbind option_bind].
  rewrite aset_ok by lia. cbn [mbind option_bind].
  destruct (IH (i + 1) (<[Z.to_nat i := g i]> dst)) as (dst' & Heq & Hlen & Hlk);
    [lia|intros; apply Hf; lia|rewrite length_insert; lia|].
  exists dst'. split; [done|]. split; [by rewrite Hlen, length_insert|]. intros j.
  rewrite Hlk. destruct (decide (Z.of_nat j = i)) as [Hj|Hj].
  - rewrite decide_False, decide_True by lia. replace (Z.to_nat i) with j by lia.
    rewrite list_lookup_insert_eq by lia. by rewrite Hj.
  - destruct (decide (i + 1 <= _ < _)).
    + by rewrite decide_True by lia.
    + rewrite decide_False by lia. by rewrite list_lookup_insert_ne by lia.
Qed.

(** Copying a whole array of the same length gives that array. *)
Lemma array_copy_all n src dst :
  length src = n -> length dst = n ->
  array_loop n 0 (fun i => aget src i) dst = Some src.
Proof.
  intros Hs Hd.
  destruct (array_loop_spec n 0 (fun i => aget src i) (fun i => nth (Z.to_nat i) src 0) dst)
    as (dst' & -> & Hl & Hlk); [lia| |lia|].
  - intros j Hj. unfold aget. rewrite (proj2 (Z.leb_le _ _)) by lia.
    destruct (lookup_lt_is_Some_2 src (Z.to_nat j)) as [v Hv]; [lia|].
    by rewrite (nth_lookup_Some _ _ _ _ Hv).
  - f_equal. apply list_eq. intros j. rewrite Hlk. case_decide as Hj.
    + rewrite Nat2Z.id. destruct (lookup_lt_is_Some_2 src j) as [v Hv]; [lia|].
      by rewrite (nth_lookup_Some _ _ _ _ Hv).
    + rewrite !lookup_ge_None_2 by lia. done.
Qed.

(** Zeroing a whole array. *)
Lemma array_zero_all n dst :
  length dst = n -> array_loop n 0 (fun _ => Some 0) dst = Some (replicate n 0).
Proof.
  intros Hd. destruct (array_loop_spec n 0 (fun _ => Some 0) (fun _ => 0) dst)
    as (d & -> & Hl & Hlk); [lia|done|lia|].
  f_equal. apply list_eq. intros i. rewrite Hlk. case_decide.
  - symmetry. apply lookup_replicate. split; [done|lia].
  - rewrite !lookup_ge_None_2; [done| |]; rewrite ?length_replicate; lia.
Qed.

(** One loop that zeroes four arrays zeroes each of them. *)
Lemma init_buf_loop_eq n i a b c d :
  init_buf_loop n i a b c d =
  (a ← array_loop n i (fun _ => Some 0) a; b ← array_loop n i (fun _ => Some 0) b;
   c ← array_loop n i (fun _ => Some 0) c; d ← array_loop n i (fun _ => Some 0) d;
   Some (a, b, c, d)).
Proof.
  revert i a b c d. induction n as [|n IH]; intros i a b c d; [done|].
  cbn [init_buf_loop array_loop]. rewrite !bind_Some_l.
  destruct (aset a i 0) as [a'|]; [rewrite !bind_Some_l|done].
  destruct (aset b i 0) as [b'|]; [rewrite !bind_Some_l|by destruct (array_loop n (i + 1) _ a')].
  destruct (aset c i 0) as [c'|]; [rewrite !bind_Some_l|
    by destruct (array_loop n (i + 1) _ a'), (array_loop n (i + 1) _ b')].
  destruct (aset d i 0) as [d'|]; [rewrite !bind_Some_l|
    by destruct (array_loop n (i + 1) _ a'), (array_loop n (i + 1) _ b'),
      (array_loop n (i + 1) _ c')].
  apply IH.
Qed.

Lemma count_loop_spec n i p (q : Z -> bool) c :
  (forall j, i <= j < i + Z.of_nat n -> p j = Some (q j)) ->
  0 <= c -> c + Z.of_nat n < 2 ^ 32 ->
  count_loop n i p c = Some (c + Z.of_nat (length (filter (fun j => q j = true) (seqZ i (Z.of_nat n))))).
Proof.
  revert i c. induction n as [|n IH]; intros i c Hp Hc Hn.
  { simpl. by rewrite Z.add_0_r. }
  cbn [count_loop]. rewrite (Hp i) by lia. cbn [mbind option_bind].
  rewrite IH; [|intros; apply Hp; lia| |].
  - rewrite (seqZ_cons i) by lia. rewrite filter_cons.
    replace (Z.succ i) with (i + 1) by lia.
    replace (Z.pred (Z.of_nat (S n))) with (Z.of_nat n) by lia.
    destruct (q i); [rewrite decide_True by done|by rewrite decide_False by done].
    cbn [length]. unfold add32. rewrite u32_small by (unfold is_word; lia).
    f_equal. lia.
  - destruct (q i); [|done]. unfold add32. rewrite u32_small by (unfold is_word; lia). lia.
  - destruct (q i); [|lia]. unfold add32. rewrite u32_small by (unfold is_word; lia). lia.
Qed.

(** ** Masks *)

Lemma is_u32_ADDR_MASK : is_u32 ADDR_MASK.
Proof. unfold is_word, ADDR_MASK. lia. Qed.
Lemma is_u32_JUMP_MASK : is_u32 JUMP_MASK.
Proof. unfold is_word, JUMP_MASK. lia. Qed.
#[export] Hint Resolve is_u32_ADDR_MASK is_u32_JUMP_MASK : word.

Definition off_ok (z : Z) : Prop := 0 <= z <= ADDR_MASK.
Definition base_ok (z : Z) : Prop := 0x8c00 <= z <= 0x8e00.
Definition jump_ok (z : Z) : Prop := exists k, 0 <= k < 8 /\ z = 0x8c00 + 64 * k.

Lemma land_le a b : 0 <= a -> 0 <= b -> Z.land a b <= b.
Proof.
  intros Ha Hb. apply Z.ldiff_le; [done|].
  apply Z.bits_inj'. intros i Hi.
  rewrite Z.ldiff_spec, Z.land_spec, Z.bits_0.
  by destruct (Z.testbit a i), (Z.testbit b i).
Qed.

Lemma off_ok_mask x : is_u32 x -> off_ok (Z.land x ADDR_MASK).
Proof.
  intros [Hx _]. split; [apply Z.land_nonneg; by left|].
  apply land_le; [done|by unfold ADDR_MASK].
Qed.

(** The jump mask selects three bits: a multiple of 64 below 512. *)
Lemma jump_mask_spec x : Z.land x JUMP_MASK = 64 * ((x / 64) mod 8).
Proof.
  change JUMP_MASK with (Z.shiftl (Z.ones 3) 6). rewrite land_field by lia.
  by rewrite Z.mul_comm.
Qed.

Definition small8 (k : Z) : Prop :=
  k = 0 \/ k = 1 \/ k = 2 \/ k = 3 \/ k = 4 \/ k = 5 \/ k = 6 \/ k = 7.

Lemma jump_ok_lxor z x : jump_ok z -> jump_ok (Z.lxor z (Z.land x JUMP_MASK)).
Proof.
  intros (k & Hk & ->). rewrite jump_mask_spec.
  pose proof (Z.mod_pos_bound (x / 64) 8 ltac:(lia)) as Hm.
  generalize dependent ((x / 64) mod 8). intros m Hm.
  assert (small8 k) as Hk8 by (unfold small8; lia).
  assert (small8 m) as Hm8 by (unfold small8; lia). clear Hk Hm. unfold jump_ok.
  destruct Hk8 as [->|[->|[->|[->|[->|[->|[->| ->]]]]]]];
  destruct Hm8 as [->|[->|[->|[->|[->|[->|[->| ->]]]]]]];
  match goal with |- exists j, _ /\ ?e = _ =>
    let v := eval vm_compute in ((e - 0x8c00) / 64) in exists v end;
  (split; [lia|vm_compute; reflexivity]).
Qed.

Lemma jump_base_ok z : jump_ok z -> base_ok z.
Proof. intros (k & Hk & ->). unfold base_ok. lia. Qed.

(** The word index of a simulated load lies between 64 and 703. *)
Definition read_index (i : Z) : Prop := 64 <= i < 704.

Lemma load_index a b :
  base_ok a -> off_ok b -> read_index (sub32 (add32 a b) SWATT_BASE / 4).
Proof.
  unfold base_ok, off_ok, read_index, ADDR_MASK, SWATT_BASE. intros Ha Hb.
  unfold add32. rewrite u32_small by (unfold is_word; lia).
  unfold sub32. rewrite u32_small by (unfold is_word; lia).
  Z.to_euclidean_division_equations. lia.
Qed.

(** ** The firmware image and the coverage maps *)

Definition buf_ok (buf : list Z) : Prop := length buf = 768%nat /\ Forall is_u32 buf.

(** A coverage map has one cell per firmware word, 0 or 1, and only words that
    a load can reach are marked. *)
Record marks_ok (mk : list Z) : Prop := {
  marks_length : length mk = 768%nat;
  marks_bit : forall i v, mk !! i = Some v -> v = 0 \/ v = 1;
  marks_reach : forall i, mk !! i = Some 1 -> read_index (Z.of_nat i) }.

Definition marks_le (mk mk' : list Z) : Prop :=
  forall i, mk !! i = Some 1 -> mk' !! i = Some 1.

#[global] Instance marks_le_preorder : PreOrder marks_le.
Proof. split; [by intros x i|]. intros x y z Hxy Hyz i Hi. auto. Qed.

Lemma load_word buf i :
  buf_ok buf -> read_index i -> exists v, aget buf i = Some v /\ is_u32 v.
Proof.
  intros [Hl Hf] Hi. destruct (aget_ok buf i) as (v & Hv & Hin).
  { rewrite Hl. unfold read_index in Hi. lia. }
  exists v. split; [done|]. apply list_elem_of_In in Hin. rewrite List.Forall_forall in Hf. auto.
Qed.

Lemma mark_word mk i :
  marks_ok mk -> read_index i ->
  exists mk', aset mk i 1 = Some mk' /\ marks_ok mk' /\ marks_le mk mk'.
Proof.
  intros [Hl Hb Hr] Hi. unfold read_index in Hi.
  rewrite aset_ok by (rewrite Hl; lia). eexists. split; [done|].
  split; [split|].
  - by rewrite length_insert.
  - intros j v. destruct (decide (Z.to_nat i = j)) as [<-|].
    + rewrite list_lookup_insert_eq by lia. intros [= <-]. by right.
    + rewrite list_lookup_insert_ne by done. apply Hb.
  - intros j. destruct (decide (Z.to_nat i = j)) as [<-|].
    + intros _. unfold read_index. lia.
    + rewrite list_lookup_insert_ne by done. apply Hr.
  - intros j Hj. destruct (decide (Z.to_nat i = j)) as [<-|].
    + by rewrite list_lookup_insert_eq by lia.
    + by rewrite list_lookup_insert_ne.
Qed.

(** ** Coverage *)

(** The number of words of the counted range that a map leaves unread. *)
Definition unread (mk : list Z) : Z :=
  Z.of_nat (length (filter (fun i => cell mk i = 0) (seqZ istart (iend - istart)))).

Lemma counted_range i : i ∈ seqZ istart (iend - istart) <-> 64 <= i < 706.
Proof. rewrite elem_of_seqZ. change istart with 64. change iend with 706. lia. Qed.

Lemma marks_cell mk i :
  marks_ok mk -> 64 <= i < 706 -> aget mk i = Some (cell mk i) /\ (cell mk i = 0 \/ cell mk i = 1).
Proof.
  intros [Hl Hb _] Hi. rewrite aget_cell by (rewrite Hl; lia). split; [done|].
  apply (Hb (Z.to_nat i)). destruct (lookup_lt_is_Some_2 mk (Z.to_nat i)) as [v Hv]; [lia|].
  unfold cell. by rewrite (nth_lookup_Some _ _ _ _ Hv).
Qed.

Lemma left_spec mk : marks_ok mk -> mms_left mk = Some (unread mk) /\ mm_left mk = Some (unread mk).
Proof.
  intros Hmk. unfold mms_left, mm_left, unread.
  rewrite (count_loop_spec _ _ _ (fun i => cell mk i =? 0)); [| |lia|vm_compute; done].
  - rewrite Z.add_0_l. split; do 2 f_equal; f_equal;
      apply list_filter_iff; intros; rewrite Z.eqb_eq; done.
  - intros j Hj. change istart with 64 in Hj. change (Z.of_nat _) with 642 in Hj.
    destruct (marks_cell mk j Hmk) as [-> _]; [lia|done].
Qed.

(** [mms_updated] counts exactly the words by which the coverage grows. *)
Lemma updated_spec mm mms :
  marks_ok mm -> marks_ok mms -> marks_le mm mms ->
  mms_updated mm mms = Some (unread mm - unread mms).
Proof.
  intros Hm Hms Hle. unfold mms_updated.
  rewrite (count_loop_spec _ _ _ (fun i => (cell mm i =? 0) && (cell mms i =? 1)));
    [| |lia|vm_compute; done].
  - rewrite Z.add_0_l. f_equal. unfold unread. change (Z.of_nat (Z.to_nat (iend - istart))) with (iend - istart).
    rewrite (length_filter_split (fun i => cell mm i = 0)
      (fun j => (cell mm j =? 0) && (cell mms j =? 1) = true) (fun i => cell mms i = 0)); [lia|].
    intros i Hi%counted_range. rewrite andb_true_iff, !Z.eqb_eq.
    destruct (marks_cell mm i Hm Hi) as [Hg ?], (marks_cell mms i Hms Hi) as [Hgs ?].
    assert (cell mm i = 1 -> cell mms i = 1); [|lia].
    intros H1. rewrite H1 in Hg. unfold aget in Hg, Hgs.
    rewrite (proj2 (Z.leb_le 0 i)) in Hg, Hgs by lia. apply Hle in Hg. congruence.
  - intros j Hj. change istart with 64 in Hj. change (Z.of_nat _) with 642 in Hj.
    destruct (marks_cell mm j Hm) as [-> _]; [lia|].
    destruct (marks_cell mms j Hms) as [-> _]; [lia|done].
Qed.


Lemma unread_zero : unread (replicate 768 0) = 642.
Proof. vm_compute. reflexivity. Qed.

(** The last two words of the counted range are out of reach of every load. *)
Lemma unread_ge_2 mk : marks_ok mk -> 2 <= unread mk <= 642.
Proof.
  intros Hmk. assert (forall i, 704 <= i < 706 -> cell mk i = 0) as Hz.
  { intros i Hi. destruct (marks_cell mk i Hmk) as [Hg [?|H1]]; [lia|done|].
    rewrite H1 in Hg. unfold aget in Hg. rewrite (proj2 (Z.leb_le 0 i)) in Hg by lia.
    apply (marks_reach _ Hmk) in Hg. unfold read_index in Hg. lia. }
  unfold unread. change (seqZ istart (iend - istart)) with (seqZ 64 640 ++ [704; 705]).
  rewrite list.filter_app, length_app.
  rewrite (filter_cons_True _ 704), (filter_cons_True _ 705) by (apply Hz; lia).
  pose proof (length_filter (fun i => cell mk i = 0) (seqZ 64 640)) as Hle.
  rewrite length_seqZ in Hle. cbn [length filter list_filter]. lia.
Qed.

(** ** The simulated register file *)

Record regs_ok (r : list Z) : Prop := {
  regs_length : length r = 32%nat;
  regs_u32 : Forall is_u32 r;
  regs_r7 : off_ok r.[7];
  regs_r8 : off_ok r.[8];
  regs_r9 : jump_ok r.[9];
  regs_r10 : base_ok r.[10] }.

Lemma destruct_regs (r : list Z) :
  length r = 32%nat ->
  exists r0 r1 r2 r3 r4 r5 r6 r7 r8 r9 r10 r11 r12 r13 r14 r15
         r16 r17 r18 r19 r20 r21 r22 r23 r24 r25 r26 r27 r28 r29 r30 r31,
    r = [r0; r1; r2; r3; r4; r5; r6; r7; r8; r9; r10; r11; r12; r13; r14; r15;
         r16; r17; r18; r19; r20; r21; r22; r23; r24; r25; r26; r27; r28; r29; r30; r31].
Proof.
  intros H. do 32 (destruct r as [|? r]; [discriminate H|]).
  destruct r; [|discriminate H]. repeat eexists.
Qed.

(** Evaluates reads and writes of literal register numbers. *)
Ltac eval_regs :=
  cbv beta iota zeta delta [rget rset nth insert list_insert].
Ltac eval_regs_in H :=
  cbv beta iota zeta delta [rget rset nth insert list_insert] in H.

(** Splits a well-formed register file into its 32 words. *)
Ltac destruct_regs_ok Hr :=
  let Hlen := fresh "Hlen" in let Hu := fresh "Hu" in
  destruct Hr as [Hlen Hu ?H7 ?H8 ?H9 ?H10];
  destruct (destruct_regs _ Hlen) as
    (?r0 & ?r1 & ?r2 & ?r3 & ?r4 & ?r5 & ?r6 & ?r7 & ?r8 & ?r9 & ?r10 & ?r11 & ?r12 & ?r13
     & ?r14 & ?r15 & ?r16 & ?r17 & ?r18 & ?r19 & ?r20 & ?r21 & ?r22 & ?r23 & ?r24 & ?r25
     & ?r26 & ?r27 & ?r28 & ?r29 & ?r30 & ?r31 & ->);
  cbv beta iota zeta delta [rget nth] in *;
  rewrite !Forall_cons_iff in Hu; clear Hlen;
  repeat match goal with H : is_u32 _ /\ _ |- _ => destruct H end.

(** Discharges the bounds of the next simulated load of a block. *)
Ltac load_bounds :=
  apply load_index;
  [ solve [ assumption | apply jump_base_ok; assumption ]
  | solve [ assumption | apply off_ok_mask; word ] ].

Ltac block_step :=
  match goal with
  | Hb : buf_ok ?buf, Hi : read_index ?i |- context [aget ?buf ?i] =>
      let v := fresh "v" in let Heq := fresh in
      destruct (load_word buf i Hb Hi) as (v & Heq & ?);
      rewrite Heq; clear Heq; cbn [mbind option_bind]
  | Hm : marks_ok ?m |- context [aset ?m ?i 1] =>
      let Hi := fresh "Hi" in
      assert (read_index i) as Hi by load_bounds;
      let m' := fresh "mk" in let Heq := fresh in
      destruct (mark_word m i Hm Hi) as (m' & Heq & ? & ?);
      rewrite Heq; clear Heq; cbn [mbind option_bind]
  end.

Ltac regs_ok_tac :=
  split; [ reflexivity | repeat apply Forall_cons; try apply Forall_nil;
           try assumption; try word; unfold is_word; lia
         | cbv beta iota zeta delta [rget nth];
           solve [ assumption | apply off_ok_mask; word
                 | apply jump_ok_lxor; assumption | unfold base_ok; lia ].. ].

(** One block, seen as a function of the coverage map it updates: for any two
    coverage maps it makes the same step on the registers, so the map has no
    influence on the checksum. *)
Definition block_yields (B : list Z -> block_result) (l : label) (r' : list Z) (icount' : Z)
    : Prop :=
  forall mk, marks_ok mk ->
  exists mk', B mk = Some (l, r', mk', icount') /\ marks_ok mk' /\ marks_le mk mk'.

Definition block_exit (n icount : Z) (l : label) (icount' : Z) : Prop :=
  if n =? 7 then l = checksum_end /\ icount' = icount + 1
  else if I_NUM <=? icount + 1 then l = checksum_end /\ icount' = I_NUM + 1
  else l = jump_table /\ icount' = icount + 1.

Lemma block_exit_cases n icount l icount' :
  block_exit n icount l icount' ->
  l = checksum_end \/ l = jump_table /\ icount' = icount + 1 /\ icount + 1 < 4.
Proof.
  unfold block_exit, I_NUM. destruct (n =? 7); [by intros []; left|].
  destruct (Z.leb_spec 4 (icount + 1)); intros []; [by left|by right].
Qed.

(** The registers that no block writes. *)
Definition regs_frame (r r' : list Z) : Prop :=
  r'.[0] = r.[0] /\ r'.[1] = r.[1] /\ r'.[4] = r.[4] /\ r'.[29] = r.[29] /\
  r'.[30] = r.[30] /\ r'.[31] = r.[31].

#[global] Instance regs_frame_preorder : PreOrder regs_frame.
Proof.
  split; [by intros r|]. unfold regs_frame. intros x y z Hxy Hyz.
  destruct Hxy as (? & ? & ? & ? & ? & ?), Hyz as (? & ? & ? & ? & ? & ?).
  split_and!; congruence.
Qed.

(** The outcome of running block [n] (0..7) on well-formed data: it never
    leaves an array, keeps the invariants, and its exits follow the block
    counter. *)
Definition block_spec (n : Z) (r : list Z) (icount : Z) (B : list Z -> block_result) : Prop :=
  exists l r' icount',
    block_yields B l r' icount' /\ regs_ok r' /\ regs_frame r r' /\
    block_exit n icount l icount'.

(** It is enough to compare the runs on two maps, one of them fixed. *)
Lemma block_spec_intro n r icount B :
  (forall mk1 mk2, marks_ok mk1 -> marks_ok mk2 ->
     exists l r' icount' mk1' mk2',
       B mk1 = Some (l, r', mk1', icount') /\ B mk2 = Some (l, r', mk2', icount') /\
       regs_ok r' /\ regs_frame r r' /\ marks_ok mk2' /\ marks_le mk2 mk2' /\
       block_exit n icount l icount') ->
  block_spec n r icount B.
Proof.
  intros H. set (mk0 := replicate 768 0).
  assert (marks_ok mk0) as H0.
  { split; [apply length_replicate| |].
    - intros i v [-> _]%lookup_replicate. by left.
    - intros i [? _]%lookup_replicate. done. }
  destruct (H mk0 mk0 H0 H0) as (l & r' & ic & m & ? & Heq & _ & Hr & Hf & _ & _ & Hex).
  exists l, r', ic. split; [|done]. intros mk Hmk.
  destruct (H mk0 mk H0 Hmk) as (l2 & r2 & ic2 & m2 & mk' & Heq2 & Hmk' & _ & _ & ? & ? & _).
  rewrite Heq in Heq2. simplify_eq. eauto.
Qed.

Lemma icount_succ i : 0 <= i < 4 -> add32 i 1 = i + 1.
Proof. intros. unfold add32. rewrite u32_small; [done|]. unfold is_word. lia. Qed.

(** Executes block [b] symbolically and proves its [block_spec]. *)
Tactic Notation "run_block" reference(b) :=
  let Hbuf := fresh "Hbuf" in let Hr := fresh "Hr" in let Hic := fresh "Hic" in
  intros Hbuf Hr Hic; apply block_spec_intro; intros ?mk1 ?mk2 ? ?; destruct_regs_ok Hr;
  cbv beta iota zeta delta [b rget rset nth insert list_insert];
  repeat block_step; rewrite (icount_succ _ Hic); unfold block_exit;
  cbv beta iota delta [Z.eqb Pos.eqb];
  repeat match goal with |- context [if ?c then _ else _] => destruct c end;
  (do 5 eexists; split; [reflexivity|]; split; [reflexivity|]; split; [regs_ok_tac|];
   split; [repeat split; reflexivity|]; split; [eassumption|]; split; [etrans; eassumption|]; split; reflexivity).

(** ** Following the jump table *)

(** The tests at label [__jump_table]; the last one falls through to
    [__return]. *)
Definition jump_target (r9 : Z) : label :=
  if r9 =? 0x8c00 then block_0
  else if r9 =? 0x8c40 then block_1
  else if r9 =? 0x8c80 then block_2
  else if r9 =? 0x8cc0 then block_3
  else if r9 =? 0x8d00 then block_4
  else if r9 =? 0x8d40 then block_5
  else if r9 =? 0x8d80 then block_6
  else if r9 =? 0x8dc0 then block_7
  else return_.

Definition label_block (l : label) : option Z :=
  match l with
  | block_0 => Some 0 | block_1 => Some 1 | block_2 => Some 2 | block_3 => Some 3
  | block_4 => Some 4 | block_5 => Some 5 | block_6 => Some 6 | block_7 => Some 7
  | _ => None
  end.

(** The jump never misses: "cannot find jump target" is unreachable. *)
Lemma jump_target_block r9 : jump_ok r9 -> is_Some (label_block (jump_target r9)).
Proof.
  intros (k & Hk & ->). assert (small8 k) as Hk8 by (unfold small8; lia).
  destruct Hk8 as [->|[->|[->|[->|[->|[->|[->| ->]]]]]]]; vm_compute; eauto.
Qed.

(** ** One nonce: the blocks run between two checksums *)

(** The registers that a fresh nonce sets: r7, r8 and the jump register r9. *)
Definition seed_nonce (nonce : Z) (r : list Z) : list Z :=
  let tmp := nonce in
  let r := r.[7 <- Z.land (Z.shiftr tmp 16) ADDR_MASK] in
  let r := r.[8 <- Z.land nonce ADDR_MASK] in
  let tmp := nonce in
  let tmp := Z.land tmp JUMP_MASK in
  r.[9 <- Z.lxor r.[9] tmp].

(** What a copy of the eight blocks promises to the code that drives it. *)
Class Blocks (block_at : label -> list Z -> list Z -> list Z -> Z -> block_result) : Prop := {
  blocks_spec l n buf r icount :
    label_block l = Some n -> buf_ok buf -> regs_ok r -> 0 <= icount < 4 ->
    block_spec n r icount (fun mk => block_at l buf r mk icount);
  blocks_scratch l buf r mk icount a b :
    length r = 32%nat -> block_at l buf (r.[5 <- a].[6 <- b]) mk icount = block_at l buf r mk icount }.

Section Runs.
Context (block_at : label -> list Z -> list Z -> list Z -> Z -> block_result).
Context (buf : list Z).

(** [nonce_run r icount r' icount']: from the jump table with registers [r], the
    blocks run to [__checksum_end] and leave [r'] and [icount'] there. *)
Inductive nonce_run : list Z -> Z -> list Z -> Z -> Prop :=
  | run_end r icount r' icount' :
      block_yields (fun mk => block_at (jump_target r.[9]) buf r mk icount)
        checksum_end r' icount' ->
      nonce_run r icount r' icount'
  | run_next r icount r1 icount1 r' icount' :
      block_yields (fun mk => block_at (jump_target r.[9]) buf r mk icount)
        jump_table r1 icount1 ->
      nonce_run r1 icount1 r' icount' ->
      nonce_run r icount r' icount'.

(** [nonce_chain r0 ns r]: the nonces [ns], run one after the other from the
    registers [r0], each pass through exactly [I_NUM] blocks; [r] is left. *)
Inductive nonce_chain (r0 : list Z) : list Z -> list Z -> Prop :=
  | chain_nil : nonce_chain r0 [] r0
  | chain_snoc ns r n r' :
      nonce_chain r0 ns r -> is_u32 n -> nonce_run (seed_nonce n r) 0 r' I_NUM ->
      nonce_chain r0 (ns ++ [n]) r'.

Context `{!Blocks block_at} (Hbuf : buf_ok buf).

Lemma nonce_run_scratch r icount r' icount' a b :
  length r = 32%nat -> nonce_run r icount r' icount' ->
  nonce_run (r.[5 <- a].[6 <- b]) icount r' icount'.
Proof.
  intros Hl Hrun.
  assert ((r.[5 <- a].[6 <- b]).[9] = r.[9]) as H9 by by rewrite !rget_rset_ne.
  destruct Hrun as [r icount r' icount' Hy|r icount r1 icount1 r' icount' Hy Hrun];
    [apply run_end|apply (run_next _ _ r1 icount1); [|done]];
    rewrite H9; intros mk Hmk; rewrite blocks_scratch by done; by apply Hy.
Qed.

End Runs.

Lemma seed_nonce_ok nonce r : is_u32 nonce -> regs_ok r -> regs_ok (seed_nonce nonce r).
Proof.
  intros Hn Hr. destruct_regs_ok Hr.
  cbv beta iota zeta delta [seed_nonce rget rset nth insert list_insert].
  assert (is_u32 (Z.shiftr nonce 16)) by (apply is_word_shiftr; [lia|done]).
  regs_ok_tac.
Qed.

(** The initial registers of both functions (lines 680-711, 1150-1182): the ones
    the blocks read before writing, except the scratch registers r5 and r6. *)
Definition init_regs (r : list Z) : list Z :=
  let r := r.[2 <- 0x2023] in
  let r := r.[3 <- 0x2084] in
  let r := r.[11 <- 0x33f0] in
  let r := r.[12 <- 0x33f1] in
  let r := r.[13 <- 0x33f2] in
  let r := r.[14 <- 0x33f3] in
  let r := r.[15 <- 0x33f4] in
  let r := r.[16 <- 0x33f5] in
  let r := r.[17 <- 0x33f6] in
  let r := r.[18 <- 0x33f7] in
  let r := r.[19 <- 0x33f8] in
  let r := r.[20 <- 0x33f9] in
  let r := r.[21 <- 0x33fa] in
  let r := r.[22 <- 0x33fb] in
  let r := r.[23 <- 0x33fc] in
  let r := r.[24 <- 0x33fd] in
  let r := r.[25 <- 0x33fe] in
  let r := r.[26 <- 0x33ff] in
  let r := r.[27 <- 0x33f0] in
  let r := r.[28 <- 0x33f1] in
  let r := r.[7 <- 0x33f2] in
  let r := r.[8 <- 0x33f3] in
  let r := r.[7 <- Z.land r.[7] ADDR_MASK] in
  let r := r.[8 <- Z.land r.[8] ADDR_MASK] in
  let r := r.[9 <- 0x8c00] in
  let r := r.[10 <- 0x8c00] in
  r.[31 <- 0xbffe4c].

Ltac split_regs r Hlen :=
  destruct (destruct_regs r Hlen) as
    (?r0 & ?r1 & ?r2 & ?r3 & ?r4 & ?r5 & ?r6 & ?r7 & ?r8 & ?r9 & ?r10 & ?r11 & ?r12 & ?r13
     & ?r14 & ?r15 & ?r16 & ?r17 & ?r18 & ?r19 & ?r20 & ?r21 & ?r22 & ?r23 & ?r24 & ?r25
     & ?r26 & ?r27 & ?r28 & ?r29 & ?r30 & ?r31 & ->).

Lemma init_regs_ok r : length r = 32%nat -> Forall is_u32 r -> regs_ok (init_regs r).
Proof.
  intros Hl Hu. split_regs r Hl. rewrite !Forall_cons_iff in Hu.
  repeat match goal with H : is_u32 _ /\ _ |- _ => destruct H end.
  cbv beta iota zeta delta [init_regs rget rset nth insert list_insert].
  split; [reflexivity| |unfold off_ok; vm_compute; split; intros [=]..| |].
  - repeat apply Forall_cons; try apply Forall_nil; try assumption; try (unfold is_word; lia);
      vm_compute; (split; [intros [=]|reflexivity]).
  - exists 0. split; [lia|reflexivity].
  - unfold base_ok, rget; cbn; lia.
Qed.

(** Initialising again forgets everything but r0, r1, r4, r29, r30 and the
    scratch registers. *)
Lemma init_regs_frame r r' :
  length r = 32%nat -> length r' = 32%nat -> regs_frame (init_regs r) r' ->
  init_regs r' = (init_regs r).[5 <- r'.[5]].[6 <- r'.[6]].
Proof.
  intros Hl Hl'. split_regs r Hl. split_regs r' Hl'.
  cbv beta iota zeta delta [regs_frame init_regs rget rset nth insert list_insert].
  intros (-> & -> & -> & -> & -> & _). reflexivity.
Qed.
