(* ===== verification/GenNonce.v ===== *)
(** * Nonce generation ([generate_nonce], src/code/app/viper/simulator.c)

    The eight checksum blocks as [generate_nonce] writes them, the jump table and
    the code at [__checksum_end], composed into a machine on the labels of the
    function.  The theorems: the function terminates without an access outside
    its arrays, every accepted nonce enlarges the coverage map, the coverage it
    waits for to be full never is, and the accepted nonces form a chain that the
    checksum can follow. *)

From S2P Require Import Prelude Arc4 Rand Swatt.
#[local] Open Scope regs_scope.

Definition block0 (buf r mms : list Z) (icount : Z) : block_result :=
  let r := r.[5 <- add32 r.[10] r.[7]] in
  let tmp := sub32 r.[5] SWATT_BASE in
  mms ← aset mms (tmp / 4) 1;
  v ← aget buf (tmp / 4);
  let r := r.[6 <- v] in
  let r := r.[5 <- Z.lxor r.[6] r.[5]] in
  let r := r.[11 <- Z.lxor r.[26] r.[5]] in
  let r := r.[7 <- Z.land r.[11] ADDR_MASK] in
  let r := r.[5 <- add32 r.[9] r.[7]] in
  let tmp := sub32 r.[5] SWATT_BASE in
  mms ← aset mms (tmp / 4) 1;
  v ← aget buf (tmp / 4);
  let r := r.[6 <- v] in
  let r := r.[5 <- Z.lxor r.[6] r.[5]] in
  let r := r.[2 <- Z.lxor r.[27] r.[5]] in
  let r := r.[3 <- add32 r.[2] r.[2]] in
  let r := r.[7 <- Z.land r.[3] ADDR_MASK] in
  let r := r.[5 <- Z.land r.[3] JUMP_MASK] in
  let r := r.[9 <- Z.lxor r.[9] r.[5]] in
  let icount := add32 icount 1 in
  if I_NUM <=? icount then
    Some (checksum_end, r, mms, I_NUM + 1)
  else
    let r := r.[10 <- 0x8c00 + 16*4 + 8 - 8] in
    Some (jump_table, r, mms, icount).

Definition block1 (buf r mms : list Z) (icount : Z) : block_result :=
  let r := r.[5 <- add32 r.[9] r.[8]] in
  let tmp := sub32 r.[5] SWATT_BASE in
  mms ← aset mms (tmp / 4) 1;
  v ← aget buf (tmp / 4);
  let r := r.[6 <- v] in
  let r := r.[5 <- add32 r.[6] r.[5]] in
  let r := r.[11 <- add32 r.[2] r.[5]] in
  let r := r.[8 <- Z.land r.[11] ADDR_MASK] in
  let r := r.[5 <- add32 r.[10] r.[8]] in
  let tmp := sub32 r.[5] SWATT_BASE in
  mms ← aset mms (tmp / 4) 1;
  v ← aget buf (tmp / 4);
  let r := r.[6 <- v] in
  let r := r.[5 <- add32 r.[6] r.[5]] in
  let r := r.[12 <- add32 r.[2] r.[5]] in
  let r := r.[13 <- Z.lxor r.[11] r.[12]] in
  let r := r.[8 <- Z.land r.[13] ADDR_MASK] in
  let r := r.[5 <- Z.land r.[13] JUMP_MASK] in
  let r := r.[9 <- Z.lxor r.[9] r.[5]] in
  let icount := add32 icount 1 in
  if I_NUM <=? icount then
    Some (checksum_end, r, mms, I_NUM + 1)
  else
    let r := r.[10 <- 0x8c00 + 32*4 + 8 - 8] in
    Some (jump_table, r, mms, icount).

Definition block2 (buf r mms : list Z) (icount : Z) : block_result :=
  let r := r.[5 <- add32 r.[10] r.[7]] in
  let tmp := sub32 r.[5] SWATT_BASE in
  mms ← aset mms (tmp / 4) 1;
  v ← aget buf (tmp / 4);
  let r := r.[6 <- v] in
  let r := r.[5 <- Z.lxor r.[6] r.[5]] in
  let r := r.[14 <- Z.lxor r.[11] r.[5]] in
  let r := r.[7 <- Z.land r.[14] ADDR_MASK] in
  let r := r.[5 <- add32 r.[9] r.[7]] in
  let tmp := sub32 r.[5] SWATT_BASE in
  mms ← aset mms (tmp / 4) 1;
  v ← aget buf (tmp / 4);
  let r := r.[6 <- v] in
  let r := r.[5 <- Z.lxor r.[6] r.[5]] in
  let r := r.[15 <- Z.lxor r.[2] r.[5]] in
  let r := r.[16 <- add32 r.[3] r.[15]] in
  let r := r.[7 <- Z.land r.[16] ADDR_MASK] in
  let r := r.[5 <- Z.land r.[16] JUMP_MASK] in
  let r := r.[9 <- Z.lxor r.[9] r.[5]] in
  let icount := add32 icount 1 in
  if I_NUM <=? icount then
    Some (checksum_end, r, mms, I_NUM + 1)
  else
    let r := r.[10 <- 0x8c00 + 16*4*3 + 8 - 8] in
    Some (jump_table, r, mms, icount).

Definition block3 (buf r mms : list Z) (icount : Z) : block_result :=
  let r := r.[5 <- add32 r.[9] r.[8]] in
  let tmp := sub32 r.[5] SWATT_BASE in
  mms ← aset mms (tmp / 4) 1;
  v ← aget buf (tmp / 4);
  let r := r.[6 <- v] in
  let r := r.[5 <- add32 r.[6] r.[5]] in
  let r := r.[17 <- add32 r.[11] r.[5]] in
  let r := r.[8 <- Z.land r.[17] ADDR_MASK] in
  let r := r.[5 <- add32 r.[10] r.[8]] in
  let tmp := sub32 r.[5] SWATT_BASE in
  mms ← aset mms (tmp / 4) 1;
  v ← aget buf (tmp / 4);
  let r := r.[6 <- v] in
  let r := r.[5 <- add32 r.[5] r.[6]] in
  let r := r.[18 <- add32 r.[12] r.[5]] in
  let r := r.[19 <- Z.lxor r.[13] r.[18]] in
  let r := r.[8 <- Z.land r.[19] ADDR_MASK] in
  let r := r.[5 <- Z.land r.[19] JUMP_MASK] in
  let r := r.[9 <- Z.lxor r.[9] r.[5]] in
  let icount := add32 icount 1 in
  if I_NUM <=? icount then
    Some (checksum_end, r, mms, I_NUM + 1)
  else
    let r := r.[10 <- 0x8c00 + 16*4*4 + 8 - 8] in
    Some (jump_table, r, mms, icount).

Definition block4 (buf r mms : list Z) (icount : Z) : block_result :=
  let r := r.[5 <- add32 r.[10] r.[7]] in
  let tmp := sub32 r.[5] SWATT_BASE in
  mms ← aset mms (tmp / 4) 1;
  v ← aget buf (sub32 r.[5] SWATT_BASE / 4);
  let r := r.[6 <- v] in
  let r := r.[5 <- Z.lxor r.[6] r.[5]] in
  let r := r.[20 <- Z.lxor r.[14] r.[5]] in
  let r := r.[7 <- Z.land r.[20] ADDR_MASK] in
  let r := r.[5 <- add32 r.[9] r.[7]] in
  let tmp := sub32 r.[5] SWATT_BASE in
  mms ← aset mms (tmp / 4) 1;
  v ← aget buf (tmp / 4);
  let r := r.[6 <- v] in
  let r := r.[5 <- Z.lxor r.[6] r.[5]] in
  let r := r.[21 <- Z.lxor r.[15] r.[5]] in
  let r := r.[22 <- add32 r.[26] r.[21]] in
  let r := r.[7 <- Z.land r.[22] ADDR_MASK] in
  let r := r.[5 <- Z.land r.[22] JUMP_MASK] in
  let r := r.[9 <- Z.lxor r.[9] r.[5]] in
  let icount := add32 icount 1 in
  if I_NUM <=? icount then
    Some (checksum_end, r, mms, I_NUM + 1)
  else
    let r := r.[10 <- 0x8c00 + 16*4*5 + 8 - 8] in
    Some (jump_table, r, mms, icount).

Definition block5 (buf r mms : list Z) (icount : Z) : block_result :=
  let r := r.[5 <- add32 r.[9] r.[8]] in
  let tmp := sub32 r.[5] SWATT_BASE in
  mms ← aset mms (tmp / 4) 1;
  v ← aget buf (sub32 r.[5] SWATT_BASE / 4);
  let r := r.[6 <- v] in
  let r := r.[5 <- add32 r.[6] r.[5]] in
  let r := r.[23 <- add32 r.[17] r.[5]] in
  let r := r.[8 <- Z.land r.[23] ADDR_MASK] in
  let r := r.[5 <- add32 r.[10] r.[8]] in
  let tmp := sub32 r.[5] SWATT_BASE in
  mms ← aset mms (tmp / 4) 1;
  v ← aget buf (tmp / 4);
  let r := r.[6 <- v] in
  let r := r.[5 <- add32 r.[6] r.[5]] in
  let r := r.[24 <- add32 r.[18] r.[5]] in
  let r := r.[25 <- Z.lxor r.[19] r.[24]] in
  let r := r.[8 <- Z.land r.[25] ADDR_MASK] in
  let r := r.[5 <- Z.land r.[25] JUMP_MASK] in
  let r := r.[9 <- Z.lxor r.[9] r.[5]] in
  let icount := add32 icount 1 in
  if I_NUM <=? icount then
    Some (checksum_end, r, mms, I_NUM + 1)
  else
    let r := r.[10 <- 0x8c00 + 16*4*6 + 8 - 8] in
    Some (jump_table, r, mms, icount).

Definition block6 (buf r mms : list Z) (icount : Z) : block_result :=
  let r := r.[5 <- add32 r.[10] r.[7]] in
  let tmp := sub32 r.[5] SWATT_BASE in
  mms ← aset mms (tmp / 4) 1;
  v ← aget buf (tmp / 4);
  let r := r.[6 <- v] in
  let r := r.[5 <- Z.lxor r.[6] r.[5]] in
  let r := r.[26 <- Z.lxor r.[20] r.[5]] in
  let r := r.[7 <- Z.land r.[26] ADDR_MASK] in
  let r := r.[5 <- add32 r.[9] r.[7]] in
  let tmp := sub32 r.[5] SWATT_BASE in
  mms ← aset mms (tmp / 4) 1;
  v ← aget buf (tmp / 4);
  let r := r.[6 <- v] in
  let r := r.[5 <- Z.lxor r.[6] r.[5]] in
  let r := r.[27 <- Z.lxor r.[21] r.[5]] in
  let r := r.[28 <- add32 r.[22] r.[27]] in
  let r := r.[7 <- Z.land r.[28] ADDR_MASK] in
  let r := r.[5 <- Z.land r.[28] JUMP_MASK] in
  let r := r.[9 <- Z.lxor r.[9] r.[5]] in
  let icount := add32 icount 1 in
  if I_NUM <=? icount then
    Some (checksum_end, r, mms, I_NUM + 1)
  else
    let r := r.[10 <- 0x8c00 + 16*4*7 + 8 - 8] in
    Some (jump_table, r, mms, icount).

Definition block7 (buf r mms : list Z) (icount : Z) : block_result :=
  let r := r.[5 <- add32 r.[9] r.[8]] in
  let tmp := sub32 r.[5] SWATT_BASE in
  mms ← aset mms (tmp / 4) 1;
  v ← aget buf (tmp / 4);
  let r := r.[6 <- v] in
  let r := r.[5 <- add32 r.[6] r.[5]] in
  let r := r.[2 <- add32 r.[23] r.[5]] in
  let r := r.[8 <- Z.land r.[2] ADDR_MASK] in
  let r := r.[5 <- add32 r.[10] r.[8]] in
  let tmp := sub32 r.[5] SWATT_BASE in
  mms ← aset mms (tmp / 4) 1;
  v ← aget buf (tmp / 4);
  let r := r.[6 <- v] in
  let r := r.[5 <- add32 r.[6] r.[5]] in
  let r := r.[3 <- add32 r.[24] r.[5]] in
  let r := r.[11 <- Z.lxor r.[25] r.[3]] in
  let r := r.[8 <- Z.land r.[11] ADDR_MASK] in
  let r := r.[5 <- Z.land r.[11] JUMP_MASK] in
  let r := r.[9 <- Z.lxor r.[9] r.[5]] in
  let r := r.[10 <- 0x8c00 + 16*4*8 + 8 - 8] in
  let icount := add32 icount 1 in
  if icount =? I_NUM then
    Some (checksum_end, r, mms, icount)
  else
    Some (checksum_end, r, mms, icount).


(** The block that starts at a label. *)
Definition block_at (l : label) (buf r mms : list Z) (icount : Z) : block_result :=
  match l with
  | block_0 => block0 buf r mms icount
  | block_1 => block1 buf r mms icount
  | block_2 => block2 buf r mms icount
  | block_3 => block3 buf r mms icount
  | block_4 => block4 buf r mms icount
  | block_5 => block5 buf r mms icount
  | block_6 => block6 buf r mms icount
  | block_7 => block7 buf r mms icount
  | jump_table | checksum_end | return_ => None
  end.

(** What the function prints. *)
Inductive gen_message :=
  | nonce_is_full
  | nonces_are_generated (n : Z).

(** The globals that [generate_nonce] writes, its locals, and its output. *)
Record gen_state := mk_gen {
  g_reg : list Z;
  g_reg_state : list Z;
  g_mm : list Z;
  g_mm_s : list Z;
  g_nonce_pool : list Z;
  g_rand : rand_state;
  nonce : Z;
  count : Z;
  icount : Z;
  inonce : Z;
  output : list gen_message }.

Definition set_block (s : gen_state) (r mms : list Z) (ic : Z) : gen_state :=
  mk_gen r (g_reg_state s) (g_mm s) mms (g_nonce_pool s) (g_rand s)
    (nonce s) (count s) ic (inonce s) (output s).

Definition gen_print (s : gen_state) (m : gen_message) : gen_state :=
  mk_gen (g_reg s) (g_reg_state s) (g_mm s) (g_mm_s s) (g_nonce_pool s) (g_rand s)
    (nonce s) (count s) (icount s) (inonce s) (output s ++ [m]).

(** [copy_mms2mm(); save_regs(); nonce_buf[inonce++] = nonce;] *)
Definition keep_nonce (s : gen_state) : option gen_state :=
  mm ← copy_mms2mm (g_mm s) (g_mm_s s);
  reg_state ← save_regs (g_reg s) (g_reg_state s);
  pool ← aset (g_nonce_pool s) (inonce s) (nonce s);
  Some (mk_gen (g_reg s) reg_state mm (g_mm_s s) pool (g_rand s)
          (nonce s) (count s) (icount s) (add32 (inonce s) 1) (output s)).

(** [copy_mm2mms();] *)
Definition drop_marks (s : gen_state) : option gen_state :=
  mms ← copy_mm2mms (g_mm s) (g_mm_s s);
  Some (set_block s (g_reg s) mms (icount s)).

(** [restore_regs();] *)
Definition roll_back (s : gen_state) : option gen_state :=
  reg ← restore_regs (g_reg s) (g_reg_state s);
  Some (set_block s reg (g_mm_s s) (icount s)).

(** The first part of [__checksum_end]: accepts or rejects the nonce; [true]
    when it leaves the function because the coverage is full. *)
Definition judge_nonce (s : gen_state) : option (bool * gen_state) :=
  if icount s =? I_NUM then
    inew ← mms_updated (g_mm s) (g_mm_s s);
    ileft ← mms_left (g_mm_s s);
    if NONCE_FULL <=? inonce s then
      if 1 <=? inew then
        s ← keep_nonce s;
        if ileft =? 0 then Some (true, gen_print s nonce_is_full)
        else s ← drop_marks s; Some (false, s)
      else
        s ← roll_back s;
        s ← drop_marks s;
        Some (false, s)
    else
      s ← keep_nonce s; Some (false, s)
  else
    s ← drop_marks s;
    s ← roll_back s;
    Some (false, s).

(** [icount = 0; count++;] *)
Definition count_attempt (s : gen_state) : gen_state :=
  mk_gen (g_reg s) (g_reg_state s) (g_mm s) (g_mm_s s) (g_nonce_pool s) (g_rand s)
    (nonce s) (add32 (count s) 1) 0 (inonce s) (output s).

(** The last part of [__checksum_end]: four random bytes, read as a
    little-endian word, are the next nonce. *)
Definition draw_nonce (s : gen_state) : option gen_state :=
  '(b0, rnd) ← random_byte (g_rand s);
  '(b1, rnd) ← random_byte rnd;
  '(b2, rnd) ← random_byte rnd;
  '(b3, rnd) ← random_byte rnd;
  let nonce := le_combine [u8 b0; u8 b1; u8 b2; u8 b3] in
  Some (mk_gen (seed_nonce nonce (g_reg s)) (g_reg_state s) (g_mm s) (g_mm_s s)
          (g_nonce_pool s) rnd nonce (count s) (icount s) (inonce s) (output s)).

(** One step of the function, from a label to the next. *)
Definition gen_step (buf : list Z) (c : label * gen_state) : option (label * gen_state) :=
  let '(l, s) := c in
  match l with
  | jump_table => Some (jump_target (g_reg s).[9], s)
  | checksum_end =>
      '(full, s) ← judge_nonce s;
      if (full : bool) then Some (return_, s)
      else
        let s := count_attempt s in
        if (NONCE_COUNT <=? inonce s) || (LOOP_COUNT <=? count s)
        then Some (return_, gen_print s (nonces_are_generated (inonce s)))
        else s ← draw_nonce s; Some (jump_table, s)
  | return_ => None
  | _ =>
      '(l, r, mms, ic) ← block_at l buf (g_reg s) (g_mm_s s) (icount s);
      Some (l, set_block s r mms ic)
  end.

Definition at_return {S} (c : label * S) : bool := bool_decide (c.1 = return_).

(** An attempt takes at most nine steps: four times the jump table and a block,
    and [__checksum_end]. *)
Definition gen_fuel : nat := Z.to_nat (9 * LOOP_COUNT + 8).

Definition gen_run (buf : list Z) (c : label * gen_state) : option (label * gen_state) :=
  iter_until at_return (gen_step buf) gen_fuel c.

(** [void generate_nonce(void)]; [g_nonce_count] is the final [inonce]. *)
Definition generate_nonce (buf reg reg_state mm mms pool : list Z) (rnd : rand_state)
    : option gen_state :=
  let r := init_regs reg in
  reg_state ← save_regs r reg_state;
  let s := mk_gen r reg_state mm mms pool rnd 0x33f233f3 0 0 0 [] in
  '(_, s) ← gen_run buf (block_0, s);
  Some s.

Definition g_nonce_count (s : gen_state) : Z := inonce s.

(** ** The blocks *)

Lemma block0_ok buf r icount :
  buf_ok buf -> regs_ok r -> 0 <= icount < 4 ->
  block_spec 0 r icount (fun mk => block0 buf r mk icount).
Proof. run_block block0. Qed.

Lemma block1_ok buf r icount :
  buf_ok buf -> regs_ok r -> 0 <= icount < 4 ->
  block_spec 1 r icount (fun mk => block1 buf r mk icount).
Proof. run_block block1. Qed.

Lemma block2_ok buf r icount :
  buf_ok buf -> regs_ok r -> 0 <= icount < 4 ->
  block_spec 2 r icount (fun mk => block2 buf r mk icount).
Proof. run_block block2. Qed.

Lemma block3_ok buf r icount :
  buf_ok buf -> regs_ok r -> 0 <= icount < 4 ->
  block_spec 3 r icount (fun mk => block3 buf r mk icount).
Proof. run_block block3. Qed.

Lemma block4_ok buf r icount :
  buf_ok buf -> regs_ok r -> 0 <= icount < 4 ->
  block_spec 4 r icount (fun mk => block4 buf r mk icount).
Proof. run_block block4. Qed.

Lemma block5_ok buf r icount :
  buf_ok buf -> regs_ok r -> 0 <= icount < 4 ->
  block_spec 5 r icount (fun mk => block5 buf r mk icount).
Proof. run_block block5. Qed.

Lemma block6_ok buf r icount :
  buf_ok buf -> regs_ok r -> 0 <= icount < 4 ->
  block_spec 6 r icount (fun mk => block6 buf r mk icount).
Proof. run_block block6. Qed.

Lemma block7_ok buf r icount :
  buf_ok buf -> regs_ok r -> 0 <= icount < 4 ->
  block_spec 7 r icount (fun mk => block7 buf r mk icount).
Proof. run_block block7. Qed.

#[export] Instance gen_blocks : Blocks block_at.
Proof.
  split.
  - intros l n buf r icount Hl Hb Hr Hic.
    destruct l; try discriminate Hl; injection Hl as <-; unfold block_at;
      [ apply block0_ok | apply block1_ok | apply block2_ok | apply block3_ok
      | apply block4_ok | apply block5_ok | apply block6_ok | apply block7_ok ]; assumption.
  - intros l buf r mk icount a b Hlen. split_regs r Hlen.
    destruct l; cbv beta iota zeta delta
      [block_at block0 block1 block2 block3 block4 block5 block6 block7
       rget rset nth insert list_insert]; reflexivity.
Qed.

