(* ===== verification/NonceTheory.v ===== *)
(** * Correctness of nonce generation

    The invariant of the machine of GenNonce.v: its arrays and registers stay
    well formed, the coverage map only grows, and the accepted nonces form a
    chain of four-block runs.  From it: memory safety and termination, the
    coverage bound, and the chain that the checksum replays. *)

From S2P Require Import Prelude Arc4 Rand Swatt GenNonce.
#[local] Open Scope regs_scope.

#[local] Opaque block_at rand_ctx0 LOOP_COUNT.

(** The nonce that the first attempt uses. *)
Definition first_nonce : Z := 0x33f233f3.

(** The state after an accepted and after a rejected attempt. *)
Definition kept (s : gen_state) : gen_state :=
  mk_gen (g_reg s) (g_reg s) (g_mm_s s) (g_mm_s s)
    (<[Z.to_nat (inonce s) := nonce s]> (g_nonce_pool s)) (g_rand s)
    (nonce s) (count s) (icount s) (inonce s + 1) (output s).

Definition rejected (s : gen_state) : gen_state :=
  mk_gen (g_reg_state s) (g_reg_state s) (g_mm s) (g_mm s) (g_nonce_pool s) (g_rand s)
    (nonce s) (count s) (icount s) (inonce s) (output s).

Section Invariant.
Context (buf reg0 mm0 : list Z) (Hbuf : buf_ok buf).

(** The registers at the jump table when the current attempt began. *)
Definition attempt_start (s : gen_state) : list Z :=
  if count s =? 0 then g_reg_state s else seed_nonce (nonce s) (g_reg_state s).

(** What holds at every label. *)
Record gen_data (s : gen_state) : Prop := {
  gd_reg : regs_ok (g_reg s);
  gd_reg_state : regs_ok (g_reg_state s);
  gd_frame : regs_frame reg0 (g_reg s);
  gd_frame_state : regs_frame reg0 (g_reg_state s);
  gd_mm : marks_ok (g_mm s);
  gd_mm_s : marks_ok (g_mm_s s);
  gd_le : marks_le (g_mm s) (g_mm_s s);
  gd_pool : length (g_nonce_pool s) = 300%nat;
  gd_pool_u32 : Forall is_u32 (g_nonce_pool s);
  gd_nonce : is_u32 (nonce s);
  gd_inonce : 0 <= inonce s <= 300;
  gd_cover : marks_le mm0 (g_mm s) /\ unread (g_mm s) + inonce s <= unread mm0;
  gd_out : nonce_is_full ∉ output s;
  gd_count : 0 <= count s <= LOOP_COUNT;
  gd_chain : (g_nonce_pool s !! 0%nat = Some first_nonce /\ 1 <= inonce s) \/
             nonce_chain block_at buf reg0 (take (Z.to_nat (inonce s)) (g_nonce_pool s))
               (g_reg_state s) }.

(** What holds while an attempt runs. *)
Record gen_running (s : gen_state) : Prop := {
  gr_rand : rand_inv rand_ctx0 (4 * Z.to_nat (count s)) (g_rand s);
  gr_inonce : inonce s < 300;
  gr_count : count s < LOOP_COUNT;
  gr_first : inonce s <= count s /\ (count s = 0 -> nonce s = first_nonce) }.

Definition in_block (s : gen_state) : Prop :=
  0 <= icount s < 4 /\
  forall r' ic', nonce_run block_at buf (g_reg s) (icount s) r' ic' ->
                 nonce_run block_at buf (attempt_start s) 0 r' ic'.

Definition gen_inv (c : label * gen_state) : Prop :=
  let '(l, s) := c in
  gen_data s /\
  match l with
  | return_ => inonce s = 300 \/ count s = LOOP_COUNT
  | jump_table => gen_running s /\ in_block s
  | checksum_end =>
      gen_running s /\ nonce_run block_at buf (attempt_start s) 0 (g_reg s) (icount s)
  | _ => gen_running s /\ in_block s /\ l = jump_target (g_reg s).[9]
  end.

(** The number of steps that are left at most. *)
Definition gen_measure (c : label * gen_state) : nat :=
  let '(l, s) := c in
  match l with
  | return_ => 0
  | checksum_end => Z.to_nat (9 * (LOOP_COUNT - count s) + 1)
  | jump_table => Z.to_nat (9 * (LOOP_COUNT - count s) + 2 * (4 - icount s) + 1)
  | _ => Z.to_nat (9 * (LOOP_COUNT - count s) + 2 * (4 - icount s))
  end.

(** ** The operations at [__checksum_end] *)

Lemma regs_copy r r' : regs_ok r -> regs_ok r' -> save_regs r r' = Some r.
Proof. intros [] []. by apply array_copy_all. Qed.

Lemma marks_copy mk mk' : marks_ok mk -> marks_ok mk' ->
  copy_mms2mm mk' mk = Some mk /\ copy_mm2mms mk mk' = Some mk.
Proof. intros [] []. split; by apply array_copy_all. Qed.

Lemma drop_marks_eq s : marks_ok (g_mm s) -> marks_ok (g_mm_s s) ->
  drop_marks s = Some (set_block s (g_reg s) (g_mm s) (icount s)).
Proof.
  intros H1 H2. unfold drop_marks. by rewrite (proj2 (marks_copy _ _ H1 H2)).
Qed.

Lemma roll_back_eq s : regs_ok (g_reg s) -> regs_ok (g_reg_state s) ->
  roll_back s = Some (set_block s (g_reg_state s) (g_mm_s s) (icount s)).
Proof.
  intros H1 H2. unfold roll_back. 
  change (restore_regs ?a ?b) with (save_regs b a). by rewrite regs_copy.
Qed.

Lemma keep_nonce_eq s : gen_data s -> inonce s < 300 ->
  keep_nonce s = Some (mk_gen (g_reg s) (g_reg s) (g_mm_s s) (g_mm_s s)
    (<[Z.to_nat (inonce s) := nonce s]> (g_nonce_pool s)) (g_rand s)
    (nonce s) (count s) (icount s) (inonce s + 1) (output s)).
Proof.
  intros [] ?. unfold keep_nonce. rewrite (proj1 (marks_copy _ _ gd_mm_s0 gd_mm0)).
  cbn [mbind option_bind]. rewrite regs_copy by done. cbn [mbind option_bind].
  rewrite aset_ok by (rewrite gd_pool0; lia). cbn [mbind option_bind].
  unfold add32. by rewrite u32_small by (unfold is_word; lia).
Qed.

(** An attempt of exactly four blocks that reads a new word is kept, every
    other one leaves no trace but its number. *)
Lemma judge_nonce_spec s :
  gen_data s -> inonce s < 300 ->
  judge_nonce s = Some (false,
    if (icount s =? I_NUM) && (unread (g_mm_s s) <? unread (g_mm s))
    then kept s else rejected s).
Proof.
  intros Hd Hlt. pose proof Hd as []. unfold judge_nonce.
  destruct (icount s =? I_NUM); cbn [andb].
  - rewrite updated_spec by done. cbn [mbind option_bind].
    rewrite (proj1 (left_spec _ gd_mm_s0)). cbn [mbind option_bind].
    rewrite (proj2 (Z.leb_le NONCE_FULL _)) by (unfold NONCE_FULL; lia).
    destruct (Z.leb_spec 1 (unread (g_mm s) - unread (g_mm_s s))) as [Hn|Hn].
    + rewrite (proj2 (Z.ltb_lt _ _)) by lia. rewrite keep_nonce_eq by done.
      cbn [mbind option_bind]. pose proof (unread_ge_2 _ gd_mm_s0).
      rewrite (proj2 (Z.eqb_neq _ _)) by lia. rewrite drop_marks_eq by done. done.
    + rewrite (proj2 (Z.ltb_ge _ _)) by lia. rewrite roll_back_eq by done.
      cbn [mbind option_bind]. by rewrite drop_marks_eq.
  - rewrite drop_marks_eq by done. cbn [mbind option_bind]. by rewrite roll_back_eq.
Qed.

Lemma take_snoc_insert (l : list Z) i v :
  0 <= i < Z.of_nat (length l) ->
  take (Z.to_nat (i + 1)) (<[Z.to_nat i := v]> l) = take (Z.to_nat i) l ++ [v].
Proof.
  intros Hi. replace (Z.to_nat (i + 1)) with (S (Z.to_nat i)) by lia.
  rewrite (take_S_r _ _ v) by (apply list_lookup_insert_eq; lia).
  by rewrite take_insert_ge by lia.
Qed.

Lemma kept_data s :
  gen_data s -> gen_running s -> icount s = I_NUM -> unread (g_mm_s s) < unread (g_mm s) ->
  nonce_run block_at buf (attempt_start s) 0 (g_reg s) (icount s) ->
  gen_data (kept s).
Proof.
  intros [] [Hrnd ? ? [Hfst Hz]] Hic Hun Hrun.
  assert (0 <= inonce s < Z.of_nat (length (g_nonce_pool s))) by lia.
  split; cbn [kept g_reg g_reg_state g_mm g_mm_s g_nonce_pool nonce inonce count output];
    rewrite ?take_snoc_insert, ?length_insert by done; try done.
  - by apply Forall_insert.
  - lia.
  - destruct gd_cover0. split; [by etrans|lia].
  - destruct (decide (inonce s = 0)) as [E|E].
    + rewrite E in *. unfold attempt_start in Hrun.
      destruct (Z.eqb_spec (count s) 0) as [E0|E0].
      * left. rewrite list_lookup_insert_eq by lia. split; [|lia]. f_equal. auto.
      * right. apply chain_snoc with (g_reg_state s); [|done|by rewrite <- Hic].
        destruct gd_chain0 as [[_ ?]|]; [lia|done].
    + destruct gd_chain0 as [[H0 _]|Hch]; [left|right].
      * rewrite list_lookup_insert_ne by lia. split; [done|lia].
      * apply chain_snoc with (g_reg_state s); [done|done|].
        unfold attempt_start in Hrun. rewrite (proj2 (Z.eqb_neq _ _)) in Hrun by lia.
        by rewrite <- Hic.
Qed.

Lemma rejected_data s : gen_data s -> gen_data (rejected s).
Proof. intros []. by split. Qed.

Lemma judged_data s s' :
  gen_data s -> gen_running s ->
  nonce_run block_at buf (attempt_start s) 0 (g_reg s) (icount s) ->
  judge_nonce s = Some (false, s') ->
  gen_data s' /\ g_reg s' = g_reg_state s' /\ g_rand s' = g_rand s /\
  count s' = count s /\ inonce s <= inonce s' <= inonce s + 1.
Proof.
  intros Hd Hr Hrun. rewrite judge_nonce_spec by (done || apply Hr). intros [= <-].
  destruct ((icount s =? I_NUM) && _) eqn:E.
  - apply andb_true_iff in E as [E1%Z.eqb_eq E2%Z.ltb_lt].
    split; [by apply kept_data|]. cbn. repeat split; lia.
  - split; [by apply rejected_data|]. cbn. repeat split; lia.
Qed.

Lemma seed_nonce_frame n r : length r = 32%nat -> regs_frame r (seed_nonce n r).
Proof.
  intros Hl. split_regs r Hl. repeat split; reflexivity.
Qed.

Lemma draw_nonce_spec s :
  gen_data s -> rand_inv rand_ctx0 (4 * Z.to_nat (count s - 1)) (g_rand s) ->
  1 <= count s < LOOP_COUNT -> g_reg s = g_reg_state s -> inonce s <= count s ->
  inonce s < 300 -> icount s = 0 ->
  exists s', draw_nonce s = Some s' /\ gen_inv (jump_table, s') /\
    count s' = count s /\ icount s' = 0.
Proof.
  intros Hd Hrnd Hc Hreg Hic Hin Hz. unfold draw_nonce.
  assert (Z.of_nat (4 * Z.to_nat (count s - 1)) + 4 < 2 ^ 64) as Hb.
  { destruct Hd as [_ _ _ _ _ _ _ _ _ _ _ _ _ Hcnt _]. revert Hcnt. clear.
    change LOOP_COUNT with 100000. lia. }
  destruct (random_byte_next _ _ Hrnd) as (b0 & g0 & -> & Hb0 & H0); [lia|].
  cbn [mbind option_bind].
  destruct (random_byte_next _ _ H0) as (b1 & g1 & -> & Hb1 & H1); [lia|]. cbn [mbind option_bind].
  destruct (random_byte_next _ _ H1) as (b2 & g2 & -> & Hb2 & H2); [lia|]. cbn [mbind option_bind].
  destruct (random_byte_next _ _ H2) as (b3 & g3 & -> & Hb3 & H3); [lia|]. cbn [mbind option_bind].
  set (n := le_combine _).
  assert (is_u32 n) as Hn.
  { apply (le_combine_bound [u8 b0; u8 b1; u8 b2; u8 b3]). repeat (apply List.Forall_cons; [apply is_u8_u8|]); apply List.Forall_nil. }
  clearbody n. eexists. split; [reflexivity|]. split; [|done].
  pose proof Hd as []. split; [|split].
  - split; cbn; try done; [by apply seed_nonce_ok|].
    etrans; [exact gd_frame0|apply seed_nonce_frame, gd_reg0].
  - split; cbn; try done; [|lia|split; lia].
    match type of H3 with rand_inv _ ?k _ => assert (k = 4 * Z.to_nat (count s))%nat as E by lia end.
    rewrite E in H3. exact H3.
  - split; cbn; [lia|]. rewrite Hz. unfold attempt_start; cbn.
    rewrite (proj2 (Z.eqb_neq _ _)) by lia. by rewrite Hreg.
Qed.

(** ** The steps *)

Lemma block_step_inv l s n :
  label_block l = Some n -> gen_data s -> gen_running s -> in_block s ->
  l = jump_target (g_reg s).[9] ->
  exists l' s', ('(l, r, mms, ic) ← block_at l buf (g_reg s) (g_mm_s s) (icount s);
                 Some (l, set_block s r mms ic)) = Some (l', s') /\
    gen_inv (l', s') /\ count s' = count s /\
    (l' = checksum_end \/ l' = jump_table /\ icount s' = icount s + 1).
Proof.
  intros Hl Hd Hr [Hic Hrun] ->. pose proof Hd as [].
  destruct (blocks_spec _ n buf (g_reg s) (icount s) Hl Hbuf gd_reg0 Hic)
    as (l' & r' & ic' & Hy & Hr' & Hf & Hex).
  destruct (Hy (g_mm_s s) gd_mm_s0) as (mk' & -> & Hmk & Hle). cbn [mbind option_bind].
  eexists l', _. split; [reflexivity|].
  assert (gen_data (set_block s r' mk' ic')).
  { split; cbn; try done; [by transitivity (g_reg s)|by transitivity (g_mm_s s)]. }
  assert (gen_running (set_block s r' mk' ic')) by (destruct Hr; by split).
  destruct (block_exit_cases _ _ _ _ Hex) as [->|(-> & -> & Hlt)].
  - split; [split; [done|]; split; [done|]|split; [done|by left]].
    apply Hrun. by apply run_end.
  - split; [split; [done|]; split; [done|]|split; [done|by right]].
    split; [cbn; lia|]. intros r2 ic2 Hr2. apply Hrun. by eapply run_next.
Qed.

Lemma end_step_inv s :
  gen_inv (checksum_end, s) ->
  exists c, gen_step buf (checksum_end, s) = Some c /\ gen_inv c /\
    (gen_measure c < gen_measure (checksum_end, s))%nat.
Proof.
  intros (Hd & Hr & Hrun). cbn [gen_step].
  pose proof (judge_nonce_spec s Hd (gr_inonce _ Hr)) as Hj.
  match type of Hj with _ = Some (false, ?t) => generalize dependent t end. intros t Hj.
  rewrite Hj. cbn [mbind option_bind].
  destruct (judged_data s t Hd Hr Hrun Hj) as (Hdt & Hreg & Hrnd & Hc & Hi).
  destruct Hr as [Hrand Hin Hcnt [Hfst _]].
  assert (LOOP_COUNT < 2 ^ 31) as Hloop by reflexivity.
  assert (count (count_attempt t) = count s + 1) as Hc'.
  { cbn. rewrite Hc. unfold add32. apply u32_small. unfold is_word.
    destruct Hd. lia. }
  assert (0 <= count s) by (destruct Hd; lia).
  assert (gen_data (count_attempt t)) as Hdc.
  { destruct Hdt. split; try done. rewrite Hc'. lia. }
  destruct (_ || _) eqn:E.
  - eexists. split; [reflexivity|]. split; [|cbn [gen_measure]; lia].
    split; [destruct Hdc; split; try done; cbn;
            rewrite elem_of_app, list_elem_of_singleton; by intros [?|[=]]|].
    change (inonce (count_attempt t) = 300 \/ count (count_attempt t) = LOOP_COUNT).
    apply orb_true_iff in E as [E%Z.leb_le|E%Z.leb_le].
    + left. destruct Hdc. unfold NONCE_COUNT, NONCE_NUM in E. lia.
    + right. destruct Hdc. lia.
  - apply orb_false_iff in E as [E1%Z.leb_gt E2%Z.leb_gt].
    unfold NONCE_COUNT, NONCE_NUM in E1.
    destruct (draw_nonce_spec (count_attempt t)) as (s' & -> & Hinv & Hc2 & Hi2); try done.
    + rewrite Hc', Z.add_simpl_r. cbn [count_attempt g_rand]. by rewrite Hrnd.
    + lia.
    + rewrite Hc'. cbn [count_attempt inonce]. lia.
    + eexists. split; [reflexivity|]. split; [done|]. cbn [gen_measure].
      rewrite Hc2, Hc', Hi2. lia.
Qed.

Lemma gen_step_inv c :
  gen_inv c -> at_return c = false ->
  exists c', gen_step buf c = Some c' /\ gen_inv c' /\ (gen_measure c' < gen_measure c)%nat.
Proof.
  destruct c as [l s]. intros Hinv Hret.
  assert (0 <= count s <= LOOP_COUNT) as Hc by (destruct Hinv as [[] _]; done).
  destruct (label_block l) as [n|] eqn:Hl.
  - assert (gen_data s /\ gen_running s /\ in_block s /\ l = jump_target (g_reg s).[9])
      as (Hd & Hr & Hb & Hj) by (destruct l; done).
    destruct (block_step_inv l s n Hl Hd Hr Hb Hj) as (l' & s' & Heq & Hinv' & Hcnt & Hx).
    exists (l', s'). split; [by destruct l|]. split; [done|].
    assert (gen_measure (l, s) = Z.to_nat (9 * (LOOP_COUNT - count s) + 2 * (4 - icount s)))
      as -> by (by destruct l).
    destruct Hb as [Hic _]. cbn [gen_measure].
    destruct Hx as [->|[-> Hx]]; rewrite Hcnt; [lia|]. rewrite Hx. lia.
  - destruct l; try discriminate Hl; [| |by unfold at_return in Hret].
    + destruct Hinv as (Hd & Hr & Hb). eexists. split; [reflexivity|].
      destruct (jump_target_block (g_reg s).[9]) as [n Hn]; [apply Hd|].
      destruct Hb as [Hic Hb]. revert Hn.
      destruct (jump_target (g_reg s).[9]) eqn:E; intros [=]; cbn [gen_measure gen_inv];
        (split; [split; [done|]; split; [done|]; split; [by split|done]|lia]).
    + by apply end_step_inv.
Qed.

End Invariant.

(** ** The whole function *)

Lemma gen_fuel_enough s :
  count s = 0 -> icount s = 0 -> (gen_measure (block_0, s) <= gen_fuel)%nat.
Proof. intros Hc Hi. unfold gen_fuel. cbn [gen_measure]. rewrite Hc, Hi. lia. Qed.

(** The nonces accepted so far. *)
Definition accepted (s : gen_state) : list Z :=
  take (Z.to_nat (inonce s)) (g_nonce_pool s).

(** A step accepts the nonce [n] as number [i]: it is taken at [__checksum_end], it
    adds the nonce to the pool, and it marks a word as read that was not marked. *)
Record accepts (buf : list Z) (i : nat) (n : Z) (c c' : label * gen_state) : Prop := {
  ac_label : c.1 = checksum_end;
  ac_step : gen_step buf c = Some c';
  ac_number : inonce c.2 = Z.of_nat i;
  ac_pool : accepted c'.2 = accepted c.2 ++ [n];
  ac_new : exists w, read_index w /\ aget (g_mm c.2) w = Some 0 /\ aget (g_mm c'.2) w = Some 1 }.

(** A map with fewer unread words marks a word that the other does not. *)
Lemma new_word mk mk' :
  marks_ok mk -> marks_ok mk' -> unread mk' < unread mk ->
  exists w, read_index w /\ aget mk w = Some 0 /\ aget mk' w = Some 1.
Proof.
  intros Hm Hm' Hlt.
  destruct (decide (Exists (fun i => cell mk i = 0 /\ cell mk' i = 1) (seqZ istart (iend - istart)))) as [He|Hn].
  - apply list.Exists_exists in He as (w & Hw%counted_range & E0 & E1).
    destruct (marks_cell mk w Hm Hw) as [Hg _], (marks_cell mk' w Hm' Hw) as [Hg' _].
    rewrite E0 in Hg. rewrite E1 in Hg'. exists w. split; [|done].
    unfold aget in Hg'. rewrite (proj2 (Z.leb_le 0 w)) in Hg' by lia.
    pose proof (marks_reach _ Hm' _ Hg'). by rewrite Z2Nat.id in * by lia.
  - exfalso. unfold unread in Hlt. apply Nat2Z.inj_lt, Nat.lt_nge in Hlt. apply Hlt, length_filter_mono.
    intros i Hi%counted_range Hz. destruct (marks_cell mk' i Hm' Hi) as [_ [?|H1]]; [done|].
    destruct Hn. apply list.Exists_exists. exists i. by rewrite counted_range.
Qed.

(** No step takes an accepted nonce back, and every nonce is added by a step that
    [accepts] it. *)
Lemma gen_step_accepted buf reg0 mm0 l s l' s' :
  gen_inv buf reg0 mm0 (l, s) -> gen_step buf (l, s) = Some (l', s') ->
  accepted s' = accepted s \/
  exists n, accepts buf (length (accepted s)) n (l, s) (l', s').
Proof.
  intros Hinv Hstep. destruct (decide (l = checksum_end)) as [->|Hl].
  - destruct Hinv as (Hd & Hr & _). pose proof Hstep as Hstep'. cbn [gen_step] in Hstep.
    pose proof (judge_nonce_spec buf reg0 mm0 s Hd (gr_inonce _ Hr)) as Hj.
    match type of Hj with _ = Some (false, ?t) => set (t0 := t) in Hj end.
    rewrite Hj, bind_Some_l in Hstep. clear Hj.
    assert (accepted s' = accepted t0 /\ g_mm s' = g_mm t0) as [Ea Em].
    { cbn beta iota zeta in Hstep. destruct (_ || _); [by simplify_eq|].
      unfold draw_nonce in Hstep.
      repeat (destruct (random_byte _) as [[? ?]|]; [rewrite bind_Some_l in Hstep|done]).
      rewrite bind_Some_l in Hstep. by simplify_eq. }
    unfold t0 in *. destruct ((_ =? _) && _) eqn:E; [right|by left].
    apply andb_true_iff in E as [_ E%Z.ltb_lt]. destruct Hd, Hr. exists (nonce s).
    constructor; [done|done| | |]; cbn [snd].
    + unfold accepted. rewrite length_take. lia.
    + rewrite Ea. unfold accepted. cbn [kept inonce g_nonce_pool]. by rewrite take_snoc_insert by lia.
    + rewrite Em. by apply new_word.
  - left. destruct l; try done; cbn [gen_step] in Hstep; try by simplify_eq.
    all: destruct (block_at _ _ _ _ _) as [[[[? ?] ?] ?]|]; [|done].
    all: rewrite bind_Some_l in Hstep; by simplify_eq.
Qed.

(** The nonces of a pool, each with the step that has accepted it *)
Definition accounted (buf : list Z) (c0 c : label * gen_state) : Prop :=
  forall i n, accepted c.2 !! i = Some n ->
  exists k c1 c2, iter_steps at_return (gen_step buf) k c0 = Some c1 /\ accepts buf i n c1 c2.

Lemma accounted_step buf reg0 mm0 c0 k c c' :
  iter_steps at_return (gen_step buf) k c0 = Some c -> gen_inv buf reg0 mm0 c ->
  gen_step buf c = Some c' ->
  (accounted buf c0 c -> accounted buf c0 c') /\ accepted c.2 `prefix_of` accepted c'.2.
Proof.
  intros Hk Hinv Hstep. destruct c as [l s], c' as [l' s'].
  destruct (gen_step_accepted _ _ _ _ _ _ _ Hinv Hstep) as [E|[n Ha]]; unfold accounted; cbn [snd].
  - rewrite E. by split.
  - pose proof (ac_pool _ _ _ _ _ Ha) as E. cbn [snd] in E. rewrite E. split; [|by apply prefix_app_r].
    intros Hc i m Hi. apply lookup_app_Some in Hi as [Hi|[Hl Hi]]; [by apply Hc|].
    apply list_lookup_singleton_Some in Hi as [Hi ->].
    replace i with (length (accepted s)) by lia. by exists k, (l, s), (l', s').
Qed.

Lemma gen_run_total buf reg0 mm0 s k c :
  buf_ok buf -> gen_inv buf reg0 mm0 (block_0, s) -> count s = 0 -> icount s = 0 ->
  iter_steps at_return (gen_step buf) k (block_0, s) = Some c ->
  exists s', gen_run buf (block_0, s) = Some (return_, s') /\
    gen_inv buf reg0 mm0 (return_, s') /\ accepted c.2 `prefix_of` accepted s' /\
    (accounted buf (block_0, s) c -> accounted buf (block_0, s) (return_, s')).
Proof.
  intros Hbuf Hinv Hc Hi Hk. pose proof (gen_fuel_enough s Hc Hi) as Hfuel.
  destruct (iter_steps_total at_return (gen_step buf) (gen_inv buf reg0 mm0) gen_measure
    (gen_step_inv buf reg0 mm0 Hbuf) k _ c Hinv Hk) as [Hinvc Hm].
  destruct (iter_until_total at_return (gen_step buf)
    (fun c' => gen_inv buf reg0 mm0 c' /\ accepted c.2 `prefix_of` accepted c'.2 /\
       (accounted buf (block_0, s) c -> accounted buf (block_0, s) c') /\
       exists k', iter_steps at_return (gen_step buf) k' (block_0, s) = Some c')
    gen_measure) with (s := c) (n := (gen_fuel - k)%nat) as ([l s'] & Hrun & (Hinv' & Hp & Ha & _) & Hf).
  - intros c1 (Hc1 & Hp1 & Ha1 & k1 & Hk1) Hret. destruct (gen_step_inv buf reg0 mm0 Hbuf c1 Hc1 Hret)
      as (c2 & Heq & Hc2 & Hlt). pose proof (accounted_step _ _ _ _ _ _ _ Hk1 Hc1 Heq) as [Ha2 Hp2].
    exists c2. split; [done|]. split; [|done]. split; [done|]. split; [by etrans|]. split; [by auto|].
    exists (S k1). by apply (iter_steps_snoc _ _ _ _ c1).
  - eauto.
  - lia.
  - apply bool_decide_eq_true in Hf. simpl in Hf. subst l. exists s'. split; [|done].
    unfold gen_run. replace gen_fuel with (k + (gen_fuel - k))%nat by lia.
    by rewrite (iter_until_skip _ _ k _ _ c Hk).
Qed.

#[local] Opaque gen_run.

Lemma rand_init_at c0 n : n = 0%nat -> rand_inv c0 n rand_init.
Proof. intros ->. apply rand_init_inv. Qed.

(** The globals when [main] calls [generate_nonce]: arrays of their declared
    sizes, and coverage maps with the working copy above the committed one. *)
Record gen_pre (buf reg reg_state mm mms pool : list Z) : Prop := {
  pre_buf : buf_ok buf;
  pre_reg : length reg = 32%nat /\ Forall is_u32 reg;
  pre_reg_state : length reg_state = 32%nat;
  pre_mm : marks_ok mm /\ marks_ok mms /\ marks_le mm mms;
  pre_pool : length pool = 300%nat /\ Forall is_u32 pool }.

(** The configuration at label [__block0] when the first attempt begins. *)
Definition gen_start (reg mm mms pool : list Z) : label * gen_state :=
  (block_0, mk_gen (init_regs reg) (init_regs reg) mm mms pool rand_init first_nonce 0 0 0 []).

(** The state in which the first attempt begins *)
Lemma gen_start_inv buf reg reg_state mm mms pool :
  gen_pre buf reg reg_state mm mms pool ->
  gen_inv buf (init_regs reg) mm (gen_start reg mm mms pool) /\
  forall s, gen_run buf (gen_start reg mm mms pool) = Some (return_, s) ->
    generate_nonce buf reg reg_state mm mms pool rand_init = Some s.
Proof.
  intros [Hbuf [Hl Hu] Hrs (Hm & Hms & Hle) [Hp Hp32]]. pose proof (init_regs_ok reg Hl Hu) as Hr.
  split.
  - split; [|split; [|split]].
    + split; try done; cbn; [split; [done|lia]|by intros ?%elem_of_nil|right; constructor].
    + split; [by apply rand_init_at|done..].
    + split; [cbn; lia|done].
    + cbn [gen_start g_reg]. replace (init_regs reg).[9] with 0x8c00; [done|].
      split_regs reg Hl. reflexivity.
  - intros s Hs. unfold generate_nonce.
    assert (save_regs (init_regs reg) reg_state = Some (init_regs reg)) as ->.
    { apply array_copy_all; [apply Hr|done]. }
    rewrite bind_Some_l. fold (gen_start reg mm mms pool).
    by replace (gen_run buf _) with (Some (return_, s)).
Qed.

(** The function ends well, whatever it has accepted after its first [k] steps is in
    the final pool, and each nonce of the pool was accepted by a step. *)
Lemma generate_nonce_from buf reg reg_state mm mms pool k c :
  gen_pre buf reg reg_state mm mms pool ->
  iter_steps at_return (gen_step buf) k (gen_start reg mm mms pool) = Some c ->
  exists s, generate_nonce buf reg reg_state mm mms pool rand_init = Some s /\
    gen_inv buf (init_regs reg) mm (return_, s) /\ accepted c.2 `prefix_of` accepted s /\
    (accounted buf (gen_start reg mm mms pool) c ->
     accounted buf (gen_start reg mm mms pool) (return_, s)).
Proof.
  intros Hpre Hk. destruct (gen_start_inv _ _ _ _ _ _ Hpre) as [Hinv Hgen].
  destruct (gen_run_total buf _ mm _ k c (pre_buf _ _ _ _ _ _ Hpre) Hinv) as (s & Hs & ? & ? & ?);
    [done|done|exact Hk|].
  exists s. split; [by apply Hgen|done].
Qed.

(** The pool is empty at the start. *)
Lemma accounted_start buf reg mm mms pool :
  accounted buf (gen_start reg mm mms pool) (gen_start reg mm mms pool).
Proof. by intros i n. Qed.

Lemma generate_nonce_inv buf reg reg_state mm mms pool :
  gen_pre buf reg reg_state mm mms pool ->
  exists s, generate_nonce buf reg reg_state mm mms pool rand_init = Some s /\
    gen_inv buf (init_regs reg) mm (return_, s).
Proof.
  intros Hpre. destruct (generate_nonce_from buf reg reg_state mm mms pool 0
    (gen_start reg mm mms pool) Hpre eq_refl) as (s & ? & ? & _). eauto.
Qed.

(** ** Properties *)

(** C6: [generate_nonce] terminates from every well-formed state, without an
    access outside its arrays and without running into a missing jump target;
    it leaves between 0 and 300 nonces, all 32-bit words, and stops only because
    the pool is full or because all [LOOP_COUNT] attempts are used. *)
Theorem generate_nonce_total buf reg reg_state mm mms pool :
  gen_pre buf reg reg_state mm mms pool ->
  exists s, generate_nonce buf reg reg_state mm mms pool rand_init = Some s /\
    0 <= g_nonce_count s <= NONCE_NUM /\ length (g_nonce_pool s) = Z.to_nat NONCE_NUM /\
    Forall is_u32 (g_nonce_pool s) /\
    (g_nonce_count s = NONCE_NUM \/ count s = LOOP_COUNT).
Proof.
  intros Hpre. destruct (generate_nonce_inv _ _ _ _ _ _ Hpre) as (s & -> & [[] Hend]).
  exists s. done.
Qed.

(** C25: every nonce that [generate_nonce] accepts makes the checksum read at
    least one word of the firmware that no earlier nonce reached.  For each nonce of
    the final pool there is a step of the run, at [__checksum_end], that adds it as
    the next of the pool and marks a word between 64 and 703 that was unmarked before;
    with [n] nonces, [mm_left] has dropped by [n] or more.  The loads reach no word
    beyond 703, so at least two words of the range that [mm_left] counts are never
    read, and the exit "Nonce is full" is not taken. *)
Theorem generate_nonce_coverage buf reg reg_state mm mms pool s :
  gen_pre buf reg reg_state mm mms pool ->
  generate_nonce buf reg reg_state mm mms pool rand_init = Some s ->
  (forall i n, 0 <= i < g_nonce_count s -> aget (g_nonce_pool s) i = Some n ->
     exists k c c', iter_steps at_return (gen_step buf) k (gen_start reg mm mms pool) = Some c /\
       accepts buf (Z.to_nat i) n c c') /\
  marks_ok (g_mm s) /\ marks_le mm (g_mm s) /\ ~ (nonce_is_full ∈ output s) /\
  exists left0 left, mm_left mm = Some left0 /\ mm_left (g_mm s) = Some left /\
    2 <= left /\ left + g_nonce_count s <= left0.
Proof.
  intros Hpre Hrun. destruct (generate_nonce_from buf reg reg_state mm mms pool 0
    _ Hpre eq_refl) as (s' & Heq & [[] _] & _ & Hacc). specialize (Hacc (accounted_start _ _ _ _ _)).
  rewrite Hrun in Heq. injection Heq as <-. destruct gd_cover0 as [Hle Hun].
  split; [|split; [done|]; split; [done|]; split; [done|]; exists (unread mm), (unread (g_mm s))].
  - intros i n Hi Hn. apply Hacc. unfold aget in Hn. rewrite (proj2 (Z.leb_le 0 i)) in Hn by lia.
    unfold accepted. cbn [snd]. unfold g_nonce_count in Hi. by rewrite lookup_take_lt by lia.
  - rewrite (proj2 (left_spec _ gd_mm0)), (proj2 (left_spec mm (proj1 (pre_mm _ _ _ _ _ _ Hpre)))).
    pose proof (unread_ge_2 _ gd_mm0). unfold g_nonce_count. split_and!; done || lia.
Qed.

(** The state that [init_buf] and the zero-initialised globals give. *)
Lemma zero_marks_ok : marks_ok (replicate 768 0).
Proof.
  split; [done| |]; intros i; [intros v|]; intros [? _]%lookup_replicate; [by left|done].
Qed.

Lemma zero_gen_pre :
  gen_pre (replicate 768 0) (replicate 32 0) (replicate 32 0) (replicate 768 0)
    (replicate 768 0) (replicate 300 0).
Proof.
  split; [split|split| |split; [|split]|split]; try done; try apply zero_marks_ok;
    apply Forall_replicate; unfold is_word; lia.
Qed.

Lemma generate_nonce_total_witness :
  exists s, generate_nonce (replicate 768 0) (replicate 32 0) (replicate 32 0)
      (replicate 768 0) (replicate 768 0) (replicate 300 0) rand_init = Some s /\
    0 <= g_nonce_count s <= 300.
Proof.
  destruct (generate_nonce_total (replicate 768 0) (replicate 32 0) (replicate 32 0)
    (replicate 768 0) (replicate 768 0) (replicate 300 0) zero_gen_pre) as (s & Hs & Hn & _).
  exists s. split; [exact Hs|exact Hn].
Defined.

Lemma generate_nonce_coverage_witness :
  exists s, generate_nonce (replicate 768 0) (replicate 32 0) (replicate 32 0)
      (replicate 768 0) (replicate 768 0) (replicate 300 0) rand_init = Some s /\
    exists left, mm_left (g_mm s) = Some left /\ left + g_nonce_count s <= 642.
Proof.
  destruct (generate_nonce_inv _ _ _ _ _ _ zero_gen_pre) as (s & Hs & _). exists s.
  split; [exact Hs|].
  destruct (generate_nonce_coverage _ _ _ _ _ _ s zero_gen_pre Hs)
    as (_ & _ & _ & _ & left0 & left & H0 & H1 & _ & Hle).
  exists left. split; [exact H1|].
  rewrite (proj2 (left_spec _ zero_marks_ok)), unread_zero in H0. injection H0 as <-. exact Hle.
Defined.
