(* ===== verification/ChecksumSim.v ===== *)
(** * The checksum simulator ([checksum_simulator], [return_checksum], src/code/app/viper/simulator.c)

    The second copy of the eight blocks, the code that replays a pool of nonces
    through them, and [return_checksum], which records one register per nonce. *)

From S2P Require Import Prelude Swatt.
#[local] Open Scope regs_scope.

Definition block0 (buf r buf_s : list Z) (icount : Z) : block_result :=
  let r := r.[5 <- add32 r.[10] r.[7]] in
  let tmp := sub32 r.[5] SWATT_BASE in
  buf_s ← aset buf_s (tmp / 4) 1;
  v ← aget buf (tmp / 4);
  let r := r.[6 <- v] in
  let r := r.[5 <- Z.lxor r.[6] r.[5]] in
  let r := r.[11 <- Z.lxor r.[26] r.[5]] in
  let r := r.[7 <- Z.land r.[11] ADDR_MASK] in
  let r := r.[5 <- add32 r.[9] r.[7]] in
  let tmp := sub32 r.[5] SWATT_BASE in
  buf_s ← aset buf_s (tmp / 4) 1;
  v ← aget buf (tmp / 4);
  let r := r.[6 <- v] in
  let r := r.[5 <- Z.lxor r.[6] r.[5]] in
  let r := r.[2 <- Z.lxor r.[27] r.[5]] in
  let r := r.[3 <- add32 r.[2] r.[2]] in
  let r := r.[7 <- Z.land r.[3] ADDR_MASK] in
  let r := r.[5 <- Z.land r.[3] JUMP_MASK] in
  let r := r.[9 <- Z.lxor r.[9] r.[5]] in
  let icount := add32 icount 1 in
  if I_NUM <=? icount then
    Some (checksum_end, r, buf_s, I_NUM + 1)
  else
    let r := r.[10 <- 0x8c00 + 16*4 + 8 - 8] in
    Some (jump_table, r, buf_s, icount).

Definition block1 (buf r buf_s : list Z) (icount : Z) : block_result :=
  let r := r.[5 <- add32 r.[9] r.[8]] in
  let tmp := sub32 r.[5] SWATT_BASE in
  buf_s ← aset buf_s (tmp / 4) 1;
  v ← aget buf (tmp / 4);
  let r := r.[6 <- v] in
  let r := r.[5 <- add32 r.[6] r.[5]] in
  let r := r.[11 <- add32 r.[2] r.[5]] in
  let r := r.[8 <- Z.land r.[11] ADDR_MASK] in
  let r := r.[5 <- add32 r.[10] r.[8]] in
  let tmp := sub32 r.[5] SWATT_BASE in
  buf_s ← aset buf_s (tmp / 4) 1;
  v ← aget buf (tmp / 4);
  let r := r.[6 <- v] in
  let r := r.[5 <- add32 r.[6] r.[5]] in
  let r := r.[12 <- add32 r.[2] r.[5]] in
  let r := r.[13 <- Z.lxor r.[11] r.[12]] in
  let r := r.[8 <- Z.land r.[13] ADDR_MASK] in
  let r := r.[5 <- Z.land r.[13] JUMP_MASK] in
  let r := r.[9 <- Z.lxor r.[9] r.[5]] in
  let icount := add32 icount 1 in
  if I_NUM <=? icount then
    Some (checksum_end, r, buf_s, I_NUM + 1)
  else
    let r := r.[10 <- 0x8c00 + 32*4 + 8 - 8] in
    Some (jump_table, r, buf_s, icount).

Definition block2 (buf r buf_s : list Z) (icount : Z) : block_result :=
  let r := r.[5 <- add32 r.[10] r.[7]] in
  let tmp := sub32 r.[5] SWATT_BASE in
  buf_s ← aset buf_s (tmp / 4) 1;
  v ← aget buf (tmp / 4);
  let r := r.[6 <- v] in
  let r := r.[5 <- Z.lxor r.[6] r.[5]] in
  let r := r.[14 <- Z.lxor r.[11] r.[5]] in
  let r := r.[7 <- Z.land r.[14] ADDR_MASK] in
  let r := r.[5 <- add32 r.[9] r.[7]] in
  let tmp := sub32 r.[5] SWATT_BASE in
  buf_s ← aset buf_s (tmp / 4) 1;
  v ← aget buf (tmp / 4);
  let r := r.[6 <- v] in
  let r := r.[5 <- Z.lxor r.[6] r.[5]] in
  let r := r.[15 <- Z.lxor r.[2] r.[5]] in
  let r := r.[16 <- add32 r.[3] r.[15]] in
  let r := r.[7 <- Z.land r.[16] ADDR_MASK] in
  let r := r.[5 <- Z.land r.[16] JUMP_MASK] in
  let r := r.[9 <- Z.lxor r.[9] r.[5]] in
  let icount := add32 icount 1 in
  if I_NUM <=? icount then
    Some (checksum_end, r, buf_s, I_NUM + 1)
  else
    let r := r.[10 <- 0x8c00 + 16*4*3 + 8 - 8] in
    Some (jump_table, r, buf_s, icount).

Definition block3 (buf r buf_s : list Z) (icount : Z) : block_result :=
  let r := r.[5 <- add32 r.[9] r.[8]] in
  let tmp := sub32 r.[5] SWATT_BASE in
  buf_s ← aset buf_s (tmp / 4) 1;
  v ← aget buf (tmp / 4);
  let r := r.[6 <- v] in
  let r := r.[5 <- add32 r.[6] r.[5]] in
  let r := r.[17 <- add32 r.[11] r.[5]] in
  let r := r.[8 <- Z.land r.[17] ADDR_MASK] in
  let r := r.[5 <- add32 r.[10] r.[8]] in
  let tmp := sub32 r.[5] SWATT_BASE in
  buf_s ← aset buf_s (tmp / 4) 1;
  v ← aget buf (tmp / 4);
  let r := r.[6 <- v] in
  let r := r.[5 <- add32 r.[5] r.[6]] in
  let r := r.[18 <- add32 r.[12] r.[5]] in
  let r := r.[19 <- Z.lxor r.[13] r.[18]] in
  let r := r.[8 <- Z.land r.[19] ADDR_MASK] in
  let r := r.[5 <- Z.land r.[19] JUMP_MASK] in
  let r := r.[9 <- Z.lxor r.[9] r.[5]] in
  let icount := add32 icount 1 in
  if I_NUM <=? icount then
    Some (checksum_end, r, buf_s, I_NUM + 1)
  else
    let r := r.[10 <- 0x8c00 + 16*4*4 + 8 - 8] in
    Some (jump_table, r, buf_s, icount).

Definition block4 (buf r buf_s : list Z) (icount : Z) : block_result :=
  let r := r.[5 <- add32 r.[10] r.[7]] in
  let tmp := sub32 r.[5] SWATT_BASE in
  buf_s ← aset buf_s (tmp / 4) 1;
  v ← aget buf (tmp / 4);
  let r := r.[6 <- v] in
  let r := r.[5 <- Z.lxor r.[6] r.[5]] in
  let r := r.[20 <- Z.lxor r.[14] r.[5]] in
  let r := r.[7 <- Z.land r.[20] ADDR_MASK] in
  let r := r.[5 <- add32 r.[9] r.[7]] in
  let tmp := sub32 r.[5] SWATT_BASE in
  buf_s ← aset buf_s (tmp / 4) 1;
  v ← aget buf (tmp / 4);
  let r := r.[6 <- v] in
  let r := r.[5 <- Z.lxor r.[6] r.[5]] in
  let r := r.[21 <- Z.lxor r.[15] r.[5]] in
  let r := r.[22 <- add32 r.[26] r.[21]] in
  let r := r.[7 <- Z.land r.[22] ADDR_MASK] in
  let r := r.[5 <- Z.land r.[22] JUMP_MASK] in
  let r := r.[9 <- Z.lxor r.[9] r.[5]] in
  let icount := add32 icount 1 in
  if I_NUM <=? icount then
    Some (checksum_end, r, buf_s, I_NUM + 1)
  else
    let r := r.[10 <- 0x8c00 + 16*4*5 + 8 - 8] in
    Some (jump_table, r, buf_s, icount).

Definition block5 (buf r buf_s : list Z) (icount : Z) : block_result :=
  let r := r.[5 <- add32 r.[9] r.[8]] in
  let tmp := sub32 r.[5] SWATT_BASE in
  buf_s ← aset buf_s (tmp / 4) 1;
  v ← aget buf (tmp / 4);
  let r := r.[6 <- v] in
  let r := r.[5 <- add32 r.[6] r.[5]] in
  let r := r.[23 <- add32 r.[17] r.[5]] in
  let r := r.[8 <- Z.land r.[23] ADDR_MASK] in
  let r := r.[5 <- add32 r.[10] r.[8]] in
  let tmp := sub32 r.[5] SWATT_BASE in
  buf_s ← aset buf_s (tmp / 4) 1;
  v ← aget buf (tmp / 4);
  let r := r.[6 <- v] in
  let r := r.[5 <- add32 r.[6] r.[5]] in
  let r := r.[24 <- add32 r.[18] r.[5]] in
  let r := r.[25 <- Z.lxor r.[19] r.[24]] in
  let r := r.[8 <- Z.land r.[25] ADDR_MASK] in
  let r := r.[5 <- Z.land r.[25] JUMP_MASK] in
  let r := r.[9 <- Z.lxor r.[9] r.[5]] in
  let icount := add32 icount 1 in
  if I_NUM <=? icount then
    Some (checksum_end, r, buf_s, I_NUM + 1)
  else
    let r := r.[10 <- 0x8c00 + 16*4*6 + 8 - 8] in
    Some (jump_table, r, buf_s, icount).

Definition block6 (buf r buf_s : list Z) (icount : Z) : block_result :=
  let r := r.[5 <- add32 r.[10] r.[7]] in
  let tmp := sub32 r.[5] SWATT_BASE in
  buf_s ← aset buf_s (tmp / 4) 1;
  v ← aget buf (tmp / 4);
  let r := r.[6 <- v] in
  let r := r.[5 <- Z.lxor r.[6] r.[5]] in
  let r := r.[26 <- Z.lxor r.[20] r.[5]] in
  let r := r.[7 <- Z.land r.[26] ADDR_MASK] in
  let r := r.[5 <- add32 r.[9] r.[7]] in
  let tmp := sub32 r.[5] SWATT_BASE in
  buf_s ← aset buf_s (tmp / 4) 1;
  v ← aget buf (tmp / 4);
  let r := r.[6 <- v] in
  let r := r.[5 <- Z.lxor r.[6] r.[5]] in
  let r := r.[27 <- Z.lxor r.[21] r.[5]] in
  let r := r.[28 <- add32 r.[22] r.[27]] in
  let r := r.[7 <- Z.land r.[28] ADDR_MASK] in
  let r := r.[5 <- Z.land r.[28] JUMP_MASK] in
  let r := r.[9 <- Z.lxor r.[9] r.[5]] in
  let icount := add32 icount 1 in
  if I_NUM <=? icount then
    Some (checksum_end, r, buf_s, I_NUM + 1)
  else
    let r := r.[10 <- 0x8c00 + 16*4*7 + 8 - 8] in
    Some (jump_table, r, buf_s, icount).

Definition block7 (buf r buf_s : list Z) (icount : Z) : block_result :=
  let r := r.[5 <- add32 r.[9] r.[8]] in
  let tmp := sub32 r.[5] SWATT_BASE in
  buf_s ← aset buf_s (tmp / 4) 1;
  v ← aget buf (tmp / 4);
  let r := r.[6 <- v] in
  let r := r.[5 <- add32 r.[6] r.[5]] in
  let r := r.[2 <- add32 r.[23] r.[5]] in
  let r := r.[8 <- Z.land r.[2] ADDR_MASK] in
  let r := r.[5 <- add32 r.[10] r.[8]] in
  let tmp := sub32 r.[5] SWATT_BASE in
  buf_s ← aset buf_s (tmp / 4) 1;
  v ← aget buf (tmp / 4);
  let r := r.[6 <- v] in
  let r := r.[5 <- add32 r.[6] r.[5]] in
  let r := r.[3 <- add32 r.[24] r.[5]] in
  let r := r.[11 <- Z.lxor r.[25] r.[3]] in
  let r := r.[8 <- Z.land r.[11] ADDR_MASK] in
  let r := r.[5 <- Z.land r.[11] JUMP_MASK] in
  let r := r.[9 <- Z.lxor r.[9] r.[5]] in
  let r := r.[10 <- 0x8c00 + 16*4*8 + 8 - 8] in
  let icount := add32 icount 1 in
  if icount =? I_NUM then
    Some (checksum_end, r, buf_s, icount)
  else
    Some (checksum_end, r, buf_s, icount).

(** The block that starts at a label. *)
Definition block_at (l : label) (buf r buf_s : list Z) (icount : Z) : block_result :=
  match l with
  | block_0 => block0 buf r buf_s icount
  | block_1 => block1 buf r buf_s icount
  | block_2 => block2 buf r buf_s icount
  | block_3 => block3 buf r buf_s icount
  | block_4 => block4 buf r buf_s icount
  | block_5 => block5 buf r buf_s icount
  | block_6 => block6 buf r buf_s icount
  | block_7 => block7 buf r buf_s icount
  | jump_table | checksum_end | return_ => None
  end.

(** The tests [tmp == 0] to [tmp == 10], [tmp == 11] to [tmp == 20] and [tmp == 21]
    to [tmp == 31] of [return_checksum]; [slot] is [inonce - 1]. *)
Definition return_checksum_low (tmp slot : Z) (r : list Z) (chk : list (Z * Z))
    : option (list (Z * Z)) :=
  chk ← (if tmp =? 0 then aset chk slot (r.[2], 0) else Some chk);
  chk ← (if tmp =? 1 then aset chk slot (r.[3], 1) else Some chk);
  chk ← (if tmp =? 2 then aset chk slot (r.[11], 2) else Some chk);
  chk ← (if tmp =? 3 then aset chk slot (r.[12], 3) else Some chk);
  chk ← (if tmp =? 4 then aset chk slot (r.[13], 4) else Some chk);
  chk ← (if tmp =? 5 then aset chk slot (r.[14], 5) else Some chk);
  chk ← (if tmp =? 6 then aset chk slot (r.[15], 6) else Some chk);
  chk ← (if tmp =? 7 then aset chk slot (r.[16], 7) else Some chk);
  chk ← (if tmp =? 8 then aset chk slot (r.[17], 8) else Some chk);
  chk ← (if tmp =? 9 then aset chk slot (r.[18], 9) else Some chk);
  chk ← (if tmp =? 10 then aset chk slot (r.[19], 10) else Some chk);
  Some chk.

Definition return_checksum_mid (tmp slot : Z) (r : list Z) (chk : list (Z * Z))
    : option (list (Z * Z)) :=
  chk ← (if tmp =? 11 then aset chk slot (r.[20], 11) else Some chk);
  chk ← (if tmp =? 12 then aset chk slot (r.[21], 12) else Some chk);
  chk ← (if tmp =? 13 then aset chk slot (r.[22], 13) else Some chk);
  chk ← (if tmp =? 14 then aset chk slot (r.[23], 14) else Some chk);
  chk ← (if tmp =? 15 then aset chk slot (r.[24], 15) else Some chk);
  chk ← (if tmp =? 16 then aset chk slot (r.[25], 16) else Some chk);
  chk ← (if tmp =? 17 then aset chk slot (r.[26], 17) else Some chk);
  chk ← (if tmp =? 18 then aset chk slot (r.[27], 18) else Some chk);
  chk ← (if tmp =? 19 then aset chk slot (r.[28], 19) else Some chk);
  chk ← (if tmp =? 20 then aset chk slot (r.[31], 20) else Some chk);
  Some chk.

Definition return_checksum_high (tmp slot : Z) (r : list Z) (chk : list (Z * Z))
    : option (list (Z * Z)) :=
  chk ← (if tmp =? 21 then aset chk slot (r.[2], 0) else Some chk);
  chk ← (if tmp =? 22 then aset chk slot (r.[3], 1) else Some chk);
  chk ← (if tmp =? 23 then aset chk slot (r.[11], 2) else Some chk);
  chk ← (if tmp =? 24 then aset chk slot (r.[12], 3) else Some chk);
  chk ← (if tmp =? 25 then aset chk slot (r.[13], 4) else Some chk);
  chk ← (if tmp =? 26 then aset chk slot (r.[14], 5) else Some chk);
  chk ← (if tmp =? 27 then aset chk slot (r.[15], 6) else Some chk);
  chk ← (if tmp =? 28 then aset chk slot (r.[16], 7) else Some chk);
  chk ← (if tmp =? 29 then aset chk slot (r.[17], 8) else Some chk);
  chk ← (if tmp =? 30 then aset chk slot (r.[18], 9) else Some chk);
  chk ← (if tmp =? 31 then aset chk slot (r.[19], 10) else Some chk);
  Some chk.

(** [void return_checksum(__u32 index, __u32 nonce_index)]: [g_checksum] is an
    array of pairs, [g_checksum[i][0]] and [g_checksum[i][1]]. *)
Definition return_checksum (index nonce_index : Z) (r : list Z) (chk : list (Z * Z))
    : option (list (Z * Z)) :=
  let tmp := index in
  let inonce := sub32 nonce_index 1 in
  let slot := sub32 inonce 1 in
  chk ← return_checksum_low tmp slot r chk;
  chk ← return_checksum_mid tmp slot r chk;
  return_checksum_high tmp slot r chk.

(** What the function prints. *)
Inductive sim_message :=
  | icounter_is_wrong (icount : Z)
  | reach_swatt_loop_num (inonce : Z).

(** The globals that [checksum_simulator] writes, its locals, and its output. *)
Record sim_state := mk_sim {
  s_reg : list Z;
  s_buf_s : list Z;
  s_checksum : list (Z * Z);
  s_count : Z;
  s_icount : Z;
  s_inonce : Z;
  s_output : list sim_message }.

Definition sim_print (s : sim_state) (m : sim_message) : sim_state :=
  mk_sim (s_reg s) (s_buf_s s) (s_checksum s) (s_count s) (s_icount s) (s_inonce s)
    (s_output s ++ [m]).

(** The code from [update nonce] to the end of [__checksum_end]: takes the next
    nonce of the pool, and records the checksum of the previous one. *)
Definition next_nonce (pool : list Z) (s : sim_state) : option sim_state :=
  nonce ← aget pool (s_inonce s);
  let inonce := add32 (s_inonce s) 1 in
  let r := seed_nonce nonce (s_reg s) in
  let tmp := Z.land nonce 0x1f in
  chk ← return_checksum tmp inonce r (s_checksum s);
  Some (mk_sim r (s_buf_s s) chk (s_count s) (s_icount s) inonce (s_output s)).

(** One step of the function, from a label to the next. *)
Definition sim_step (buf pool : list Z) (nonce_count : Z) (c : label * sim_state)
    : option (label * sim_state) :=
  let '(l, s) := c in
  match l with
  | jump_table => Some (jump_target (s_reg s).[9], s)
  | checksum_end =>
      if negb (s_icount s =? I_NUM)
      then Some (return_, sim_print s (icounter_is_wrong (s_icount s)))
      else
        let s := mk_sim (s_reg s) (s_buf_s s) (s_checksum s) (add32 (s_count s) 1) 0
                   (s_inonce s) (s_output s) in
        if nonce_count <=? s_inonce s then Some (return_, s)
        else
          s ← next_nonce pool s;
          if SWATT_LOOP_NUM <=? s_inonce s
          then Some (return_, sim_print s (reach_swatt_loop_num (s_inonce s)))
          else Some (jump_table, s)
  | return_ => None
  | _ =>
      '(l, r, buf_s, ic) ← block_at l buf (s_reg s) (s_buf_s s) (s_icount s);
      Some (l, mk_sim r buf_s (s_checksum s) (s_count s) ic (s_inonce s) (s_output s))
  end.

Definition sim_at_return (c : label * sim_state) : bool := bool_decide (c.1 = return_).

(** [for (i = i0; i < i0 + n; i++) sum += buf_s[i];] *)
Fixpoint sum_loop (n : nat) (i sum : Z) (buf_s : list Z) : option Z :=
  match n with
  | O => Some sum
  | S n => v ← aget buf_s i; sum_loop n (i + 1) (add32 sum v) buf_s
  end.

(** The code at [__return]: two sums that only debug output uses, and the reset
    of [buf_s]. *)
Definition sim_return (s : sim_state) : option sim_state :=
  let iend := (0x8c00 + 16*8*4 + 8 - SWATT_BASE + 2048) / 4 in
  sum ← sum_loop (Z.to_nat (iend - istart)) istart 0 (s_buf_s s);
  sum ← sum_loop (Z.to_nat (FW_SIZE / 4)) 0 0 (s_buf_s s);
  buf_s ← array_loop (Z.to_nat (FW_SIZE / 4)) 0 (fun _ => Some 0) (s_buf_s s);
  Some (mk_sim (s_reg s) buf_s (s_checksum s) (s_count s) (s_icount s) (s_inonce s)
          (s_output s)).

(** A nonce takes at most nine steps, and at most 300 are taken. *)
Definition sim_fuel : nat := Z.to_nat (9 * SWATT_LOOP_NUM + 10).

Definition sim_run (buf pool : list Z) (nonce_count : Z) (c : label * sim_state)
    : option (label * sim_state) :=
  iter_until sim_at_return (sim_step buf pool nonce_count) sim_fuel c.

(** [void checksum_simulator(void)] *)
Definition checksum_simulator (buf reg buf_s pool : list Z) (nonce_count : Z)
    (chk : list (Z * Z)) : option sim_state :=
  let r := init_regs reg in
  nonce ← aget pool 0;
  let r := seed_nonce nonce r in
  '(_, s) ← sim_run buf pool nonce_count (jump_table, mk_sim r buf_s chk 0 0 1 []);
  sim_return s.
