(* ===== verification/Replay.v ===== *)
(** * The checksum simulator replays the generated nonces

    The two copies of the blocks are the same function, so the chain of
    four-block runs that [generate_nonce] builds can be followed by
    [checksum_simulator].  This file proves that it is, what the checksum array
    then holds, and the one case in which it is not: when the first accepted
    nonce is the built-in one. *)

From S2P Require Import Prelude Arc4 Rand Swatt GenNonce NonceTheory ChecksumSim.
#[local] Open Scope regs_scope.

(** Unambiguous names for the two copies. *)
#[local] Abbreviation gen_block := GenNonce.block_at.
#[local] Abbreviation sim_block := ChecksumSim.block_at.

Lemma sim_block_eq l buf r mk icount : sim_block l buf r mk icount = gen_block l buf r mk icount.
Proof. destruct l; reflexivity. Qed.

#[local] Opaque ChecksumSim.block_at GenNonce.block_at.

#[export] Instance sim_blocks : Blocks sim_block.
Proof.
  split.
  - intros l n buf r icount Hl Hb Hr Hic.
    destruct (blocks_spec l n buf r icount Hl Hb Hr Hic) as (l' & r' & ic' & Hy & Hrest).
    exists l', r', ic'. split; [|done]. intros mk Hmk. rewrite sim_block_eq. by apply Hy.
  - intros l buf r mk icount a b Hl. etrans; [apply sim_block_eq|].
    etrans; [apply (blocks_scratch (block_at := gen_block)), Hl|]. symmetry. apply sim_block_eq.
Qed.

Lemma sim_run_gen buf r ic r' ic' :
  nonce_run gen_block buf r ic r' ic' -> nonce_run sim_block buf r ic r' ic'.
Proof.
  induction 1 as [r ic r' ic' Hy|r ic r1 ic1 r' ic' Hy _ IH];
    [apply run_end|apply (run_next _ _ _ _ r1 ic1); [|done]];
    intros mk Hmk; rewrite sim_block_eq; by apply Hy.
Qed.

(** ** The chain is deterministic *)

Section Chain.
Context (buf : list Z) (Hbuf : buf_ok buf).
Abbreviation nonce_run := (nonce_run sim_block buf).
Abbreviation nonce_chain := (nonce_chain sim_block buf).

Lemma yields_det B l1 r1 ic1 l2 r2 ic2 :
  block_yields B l1 r1 ic1 -> block_yields B l2 r2 ic2 -> l1 = l2 /\ r1 = r2 /\ ic1 = ic2.
Proof.
  intros H1 H2. destruct (H1 _ zero_marks_ok) as (mk1 & E1 & _).
  destruct (H2 _ zero_marks_ok) as (mk2 & E2 & _). rewrite E1 in E2. by simplify_eq.
Qed.

Lemma nonce_run_det r ic r1 ic1 r2 ic2 :
  nonce_run r ic r1 ic1 -> nonce_run r ic r2 ic2 -> r1 = r2 /\ ic1 = ic2.
Proof.
  induction 1 as [r ic r1 ic1 Hy|r ic ra ica r1 ic1 Hy _ IH]; intros H2;
    inversion H2 as [? ? ? ? Hy2|? ? rb icb ? ? Hy2 Hn]; subst;
    destruct (yields_det _ _ _ _ _ _ _ Hy Hy2) as (E & -> & ->); try done.
  by apply IH.
Qed.

Lemma chain_det r0 ns r1 r2 : nonce_chain r0 ns r1 -> nonce_chain r0 ns r2 -> r1 = r2.
Proof.
  intros H1. revert r2. induction H1 as [|ns r n r' _ IH Hn Hrun]; intros r2 H2;
    inversion H2 as [E|ns2 rb n2 ? Hc2 Hn2 Hrun2 E]; subst.
  - done.
  - by destruct ns2.
  - by destruct ns.
  - apply app_inj_tail in E as [-> ->]. apply IH in Hc2 as ->.
    by destruct (nonce_run_det _ _ _ _ _ _ Hrun Hrun2).
Qed.

(** Every nonce of a chain has its run. *)
Lemma chain_at r0 ns r k n :
  nonce_chain r0 ns r -> ns !! k = Some n ->
  exists rk rk', nonce_chain r0 (take k ns) rk /\ is_u32 n /\
    nonce_run (seed_nonce n rk) 0 rk' I_NUM /\ nonce_chain r0 (take (S k) ns) rk'.
Proof.
  induction 1 as [|ns r m r' Hc IH Hm Hrun]; [done|]. intros Hk.
  destruct (decide (k < length ns)%nat) as [Hlt|Hge].
  - rewrite lookup_app_l in Hk by done. rewrite !take_app_le by lia. auto.
  - assert (k = length ns) as ->.
    { apply lookup_lt_Some in Hk. rewrite length_app in Hk. simpl in Hk. lia. }
    rewrite lookup_app_r, Nat.sub_diag in Hk by lia. injection Hk as <-.
    exists r, r'. rewrite take_app_length. rewrite (take_ge (ns ++ [m])) by (rewrite length_app; simpl; lia).
    split_and!; [done|done|done|by apply chain_snoc with r].
Qed.

Lemma chain_scratch r0 ns r a b :
  length r0 = 32%nat -> ns <> [] -> nonce_chain r0 ns r ->
  nonce_chain (r0.[5 <- a].[6 <- b]) ns r.
Proof.
  intros Hl Hne Hc. induction Hc as [|ns r n r' Hc IH Hn Hrun]; [done|].
  destruct (decide (ns = [])) as [->|Hns].
  - inversion Hc as [|? ? ? ? _ _ _ E]; [subst|by destruct ns]. 
    apply chain_snoc with (r.[5 <- a].[6 <- b]); [constructor|done|].
    assert (seed_nonce n (r.[5 <- a].[6 <- b]) = (seed_nonce n r).[5 <- a].[6 <- b]) as ->.
    { split_regs r Hl. reflexivity. }
    apply nonce_run_scratch; [apply _| |done].
    unfold seed_nonce. by rewrite !rset_length.
  - apply chain_snoc with r; auto.
Qed.

End Chain.

(** ** The recorded checksums *)

(** The register that [return_checksum] picks for an index, and the index of
    that register which it records next to it. *)
Definition checksum_reg (index : Z) : nat :=
  let k := if index <=? 20 then index else index - 21 in
  if k =? 20 then 31 else if k <=? 1 then Z.to_nat (k + 2) else Z.to_nat (k + 9).

Definition checksum_of (nonce : Z) (r : list Z) : Z * Z :=
  let index := nonce mod 32 in
  (r.[checksum_reg index], if index <=? 20 then index else index - 21).

Lemma index_mask n : Z.land n 0x1f = n mod 32.
Proof. change 0x1f with (Z.ones 5). by apply (Z.land_ones n 5). Qed.

Lemma small32 (P : Z -> Prop) : Forall P (seqZ 0 32) -> forall i, 0 <= i < 32 -> P i.
Proof.
  intros HP i Hi. rewrite List.Forall_forall in HP. apply HP.
  apply list_elem_of_In, elem_of_seqZ. lia.
Qed.

Lemma return_checksum_eq nonce k r chk :
  2 <= k < 2 ^ 32 -> k - 2 < Z.of_nat (length chk) ->
  return_checksum (Z.land nonce 0x1f) k r chk
  = Some (<[Z.to_nat (k - 2) := checksum_of nonce r]> chk).
Proof.
  intros Hk Hlen. rewrite index_mask. unfold return_checksum, checksum_of.
  assert (sub32 (sub32 k 1) 1 = k - 2) as ->.
  { unfold sub32. rewrite (u32_small (k - 1)) by (unfold is_word; lia).
    rewrite u32_small by (unfold is_word; lia). lia. }
  pose proof (aset_ok chk (k - 2)) as Hset. revert Hset. 
  generalize (Z.mod_pos_bound nonce 32 ltac:(lia)). generalize (nonce mod 32).
  assert (0 <= k - 2) as H0 by lia. revert Hlen H0. generalize (k - 2). intros slot Hlen H0.
  apply (small32 (fun i => _ -> _)).
  let l := eval vm_compute in (seqZ 0 32) in change (seqZ 0 32) with l.
  repeat (apply List.Forall_cons; [intros Hset; cbn -[aset]; rewrite Hset by lia; reflexivity|]).
  apply List.Forall_nil.
Qed.

(** The nonce only changes registers that are never recorded. *)
Lemma checksum_of_seed nonce n r :
  length r = 32%nat -> checksum_of nonce (seed_nonce n r) = checksum_of nonce r.
Proof.
  intros Hl. unfold checksum_of. f_equal. generalize (Z.mod_pos_bound nonce 32 ltac:(lia)).
  generalize (nonce mod 32). apply (small32 (fun i => _ = _)). split_regs r Hl.
  let l := eval vm_compute in (seqZ 0 32) in change (seqZ 0 32) with l.
  repeat (apply List.Forall_cons; [reflexivity|]). apply List.Forall_nil.
Qed.

Lemma pool_u32 (k : nat) i (pool : list Z) v :
  Forall is_u32 (take k pool) -> 0 <= i < Z.of_nat k -> aget pool i = Some v -> is_u32 v.
Proof.
  intros Hf Hi. unfold aget. rewrite (proj2 (Z.leb_le 0 i)) by lia. intros Hv.
  eapply (Forall_lookup_1 _ _ (Z.to_nat i)); [exact Hf|]. rewrite lookup_take_lt by lia. done.
Qed.

(** ** The invariant of the simulator *)

Section Simulator.
Context (buf pool r0 : list Z) (nonce_count : Z) (chk0 : list (Z * Z)).
Context (Hbuf : buf_ok buf) (Hpool : length pool = 300%nat).
Context (Hu32 : Forall is_u32 (take (Nat.max 1 (Z.to_nat nonce_count)) pool)).
Context (Hcount : 0 <= nonce_count <= 300).
Abbreviation nonce_run := (nonce_run sim_block buf).
Abbreviation nonce_chain := (nonce_chain sim_block buf).

(** The pool starts with a chain of [nonce_count] nonces. *)
Definition chained : Prop :=
  1 <= nonce_count /\ exists r, nonce_chain r0 (take (Z.to_nat nonce_count) pool) r.

(** Slot [k] holds the checksum after [k + 1] nonces, picked by the next one. *)
Definition recorded (chk : list (Z * Z)) (k : nat) : Prop :=
  exists rk n, nonce_chain r0 (take (S k) pool) rk /\ pool !! S k = Some n /\
    chk !! k = Some (checksum_of n rk).

Record sim_data (s : sim_state) : Prop := {
  sd_reg : regs_ok (s_reg s);
  sd_marks : marks_ok (s_buf_s s);
  sd_length : length (s_checksum s) = 300%nat;
  sd_inonce : 1 <= s_inonce s <= 300;
  sd_count : 0 <= s_count s <= s_inonce s;
  sd_rest k : (Z.to_nat (s_inonce s) <= S k)%nat -> s_checksum s !! k = chk0 !! k;
  sd_chained : chained ->
    s_inonce s <= nonce_count /\ (forall m ic, m ∈ s_output s -> m <> icounter_is_wrong ic) /\
    forall k, (S k < Z.to_nat (s_inonce s))%nat -> recorded (s_checksum s) k }.

Definition pending (s : sim_state) : Prop :=
  0 <= s_icount s < 4 /\
  (chained -> exists r, nonce_run (s_reg s) (s_icount s) r I_NUM /\
                nonce_chain r0 (take (Z.to_nat (s_inonce s)) pool) r).

Definition sim_inv (c : label * sim_state) : Prop :=
  let '(l, s) := c in
  sim_data s /\
  match l with
  | return_ => chained -> s_inonce s = nonce_count
  | jump_table => s_count s < s_inonce s /\ pending s
  | checksum_end =>
      s_count s < s_inonce s /\
      (chained -> s_icount s = I_NUM /\
                  nonce_chain r0 (take (Z.to_nat (s_inonce s)) pool) (s_reg s))
  | _ => s_count s < s_inonce s /\ pending s /\ l = jump_target (s_reg s).[9]
  end.

Definition sim_measure (c : label * sim_state) : nat :=
  let '(l, s) := c in
  match l with
  | return_ => 0
  | checksum_end => Z.to_nat (9 * (300 - s_inonce s) + 1)
  | jump_table => Z.to_nat (9 * (300 - s_inonce s) + 2 * (4 - s_icount s) + 1)
  | _ => Z.to_nat (9 * (300 - s_inonce s) + 2 * (4 - s_icount s))
  end.

Lemma sim_block_step l s n :
  label_block l = Some n -> sim_inv (l, s) ->
  exists c, sim_step buf pool nonce_count (l, s) = Some c /\ sim_inv c /\
    (sim_measure c < sim_measure (l, s))%nat.
Proof.
  intros Hl Hinv.
  assert (sim_data s /\ s_count s < s_inonce s /\ pending s /\ l = jump_target (s_reg s).[9])
    as (Hd & Hc & [Hic Hch] & ->) by (destruct l; done).
  pose proof Hd as [].
  destruct (blocks_spec _ n buf (s_reg s) (s_icount s) Hl Hbuf sd_reg0 Hic)
    as (l' & r' & ic' & Hy & Hr' & _ & Hex).
  destruct (Hy (s_buf_s s) sd_marks0) as (mk' & Heq & Hmk & _).
  set (s' := mk_sim r' mk' (s_checksum s) (s_count s) ic' (s_inonce s) (s_output s)).
  assert (sim_step buf pool nonce_count (jump_target (s_reg s).[9], s) = Some (l', s')) as ->.
  { unfold sim_step. rewrite Heq, bind_Some_l. by destruct (jump_target (s_reg s).[9]). }
  assert (sim_measure (jump_target (s_reg s).[9], s)
          = Z.to_nat (9 * (300 - s_inonce s) + 2 * (4 - s_icount s))) as ->
    by (by destruct (jump_target (s_reg s).[9])).
  eexists. split; [reflexivity|]. assert (sim_data s') as Hd' by done.
  assert (l' = checksum_end \/ l' = jump_table /\ ic' = s_icount s + 1 /\ s_icount s + 1 < 4)
    as [->|(-> & -> & Hlt)] by exact (block_exit_cases _ _ _ _ Hex).
  - split; [|cbn [sim_measure s' s_inonce]; lia]. split; [done|]. split; [done|].
    intros Hchd. destruct (Hch Hchd) as (r & Hrun & Hchain).
    inversion Hrun as [? ? ? ? Hy2|? ? ? ? ? ? Hy2 _]; subst;
      destruct (yields_det _ _ _ _ _ _ _ Hy Hy2) as (E & -> & ->); done.
  - split; [|cbn [sim_measure s' s_inonce s_icount]; lia]. split; [done|]. split; [done|].
    split; [cbn; lia|]. intros Hchd. destruct (Hch Hchd) as (r & Hrun & Hchain).
    inversion Hrun as [? ? ? ? Hy2|? ? ? ? ? ? Hy2 Hnext]; subst;
      destruct (yields_det _ _ _ _ _ _ _ Hy Hy2) as (E & <- & <-); [done|]. eauto.
Qed.

Lemma next_nonce_spec s :
  sim_data s -> s_inonce s < nonce_count -> s_count s <= s_inonce s -> s_icount s = 0 ->
  (chained -> nonce_chain r0 (take (Z.to_nat (s_inonce s)) pool) (s_reg s)) ->
  exists s', next_nonce pool s = Some s' /\ sim_inv (jump_table, s') /\
    s_inonce s' = s_inonce s + 1 /\ s_icount s' = 0.
Proof.
  intros Hd Hlt Hc Hic Hch. pose proof Hd as []. unfold next_nonce.
  destruct (aget_ok pool (s_inonce s)) as (n & Hn & _); [rewrite Hpool; lia|].
  assert (is_u32 n) as Hn32 by (eapply (pool_u32 _ _ _ _ Hu32); [|done]; lia).
  rewrite Hn, bind_Some_l. unfold aget in Hn. rewrite (proj2 (Z.leb_le 0 _)) in Hn by lia.
  assert (add32 (s_inonce s) 1 = s_inonce s + 1) as ->.
  { unfold add32. apply u32_small. unfold is_word. lia. }
  rewrite return_checksum_eq, bind_Some_l by lia.
  replace (s_inonce s + 1 - 2) with (s_inonce s - 1) by lia.
  eexists. split; [reflexivity|]. split; [|done].
  assert (checksum_of n (seed_nonce n (s_reg s)) = checksum_of n (s_reg s)) as ->
    by (apply checksum_of_seed; apply sd_reg0).
  split; [split|split]; cbn [s_reg s_buf_s s_checksum s_inonce s_count s_output s_icount].
  - by apply seed_nonce_ok.
  - done.
  - by rewrite length_insert.
  - lia.
  - lia.
  - intros k Hk. rewrite list_lookup_insert_ne by lia. apply sd_rest0. lia.
  - intros Hchd. destruct (sd_chained0 Hchd) as (? & Hout & Hrec). split_and!; [lia|done|].
    intros k Hk. destruct (decide (S k = Z.to_nat (s_inonce s))) as [E|E].
    + exists (s_reg s), n. rewrite E. split; [auto|]. split; [done|].
      replace (Z.to_nat (s_inonce s - 1)) with k by lia.
      apply list_lookup_insert_eq. lia.
    + destruct (Hrec k) as (rk & nk & ? & ? & ?); [lia|]. exists rk, nk.
      by rewrite list_lookup_insert_ne by lia.
  - lia.
  - split; cbn; [lia|]. intros Hchd. rewrite Hic.
    destruct Hchd as [? [rn Hrn]] eqn:E.
    destruct (chain_at buf r0 _ rn (Z.to_nat (s_inonce s)) n Hrn) as (rk & rk' & H1 & _ & H2 & H3).
    { rewrite lookup_take_lt by lia. done. }
    rewrite !take_take, !Nat.min_l in H1, H3 by lia.
    rewrite (chain_det buf r0 _ _ _ (Hch Hchd) H1). exists rk'.
    split; [done|]. by replace (Z.to_nat (s_inonce s + 1)) with (S (Z.to_nat (s_inonce s))) by lia.
Qed.

Lemma sim_end_step s :
  sim_inv (checksum_end, s) ->
  exists c, sim_step buf pool nonce_count (checksum_end, s) = Some c /\ sim_inv c /\
    (sim_measure c < sim_measure (checksum_end, s))%nat.
Proof.
  intros (Hd & Hc & Hch). pose proof Hd as []. cbn [sim_step].
  destruct (Z.eqb_spec (s_icount s) I_NUM) as [E|E]; cbn [negb].
  - assert (add32 (s_count s) 1 = s_count s + 1) as ->.
    { unfold add32. apply u32_small. unfold is_word. lia. }
    set (s1 := mk_sim _ _ _ _ _ _ _).
    assert (sim_data s1) as Hd1 by (split; try done; cbn; lia).
    destruct (Z.leb_spec nonce_count (s_inonce s1)) as [Hle|Hlt].
    + eexists. split; [reflexivity|]. split; [|cbn [sim_measure]; lia]. split; [done|].
      intros Hchd. destruct (sd_chained0 Hchd) as [? _]. cbn in *. lia.
    + destruct (next_nonce_spec s1 Hd1 Hlt) as (s' & -> & Hinv & Hi & Hic); [cbn; lia|done| |].
      { intros Hchd. apply (Hch Hchd). }
      rewrite bind_Some_l. destruct (Z.leb_spec SWATT_LOOP_NUM (s_inonce s')) as [H3|H3].
      * unfold SWATT_LOOP_NUM, NONCE_NUM in H3. cbn in Hlt, Hi. eexists. split; [reflexivity|].
        split; [|cbn [sim_measure]; lia]. destruct Hinv as [[] _]. split; [split; try done|].
        -- intros Hchd. destruct (sd_chained1 Hchd) as (? & Hout & ?). split_and!; [done| |done].
           intros m ic [Hm|Hm%list_elem_of_singleton]%elem_of_app; [by apply Hout|by subst].
        -- intros _. cbn. lia.
      * eexists. split; [reflexivity|]. split; [done|]. cbn [sim_measure]. rewrite Hi, Hic.
        cbn. lia.
  - eexists. split; [reflexivity|]. split; [|cbn [sim_measure]; lia].
    assert (~ chained) as Hno by (intros Hchd; by destruct (Hch Hchd)).
    split; [by split|done].
Qed.

Lemma sim_step_inv c :
  sim_inv c -> sim_at_return c = false ->
  exists c', sim_step buf pool nonce_count c = Some c' /\ sim_inv c' /\
    (sim_measure c' < sim_measure c)%nat.
Proof.
  destruct c as [l s]. intros Hinv Hret.
  destruct (label_block l) as [n|] eqn:Hl; [by eapply sim_block_step|].
  destruct l; try discriminate Hl; [|by apply sim_end_step|done].
  destruct Hinv as (Hd & Hc & Hp). eexists. split; [reflexivity|].
  destruct (jump_target_block (s_reg s).[9]) as [n Hn]; [apply Hd|].
  pose proof Hd as []. destruct Hp as [Hic Hp]. revert Hn.
  destruct (jump_target (s_reg s).[9]) eqn:E; intros [=]; cbn [sim_measure sim_inv];
    (split; [split; [done|]; split; [done|]; split; [by split|done]|lia]).
Qed.

Lemma sim_run_total s :
  sim_inv (jump_table, s) -> s_inonce s = 1 -> s_icount s = 0 ->
  exists s', sim_run buf pool nonce_count (jump_table, s) = Some (return_, s') /\
    sim_inv (return_, s').
Proof.
  intros Hinv H1 H0.
  destruct (iter_until_total sim_at_return (sim_step buf pool nonce_count) sim_inv sim_measure
    sim_step_inv (jump_table, s) sim_fuel Hinv) as ([l s'] & Hrun & Hinv' & Hf).
  { cbn [sim_measure]. rewrite H1, H0. unfold sim_fuel, SWATT_LOOP_NUM, NONCE_NUM. lia. }
  apply bool_decide_eq_true in Hf. simpl in Hf. subst l. exists s'. split; [exact Hrun|done].
Qed.

End Simulator.

(** ** The whole function *)

Lemma sum_loop_ok n i sum mk :
  0 <= i -> i + Z.of_nat n <= Z.of_nat (length mk) -> is_Some (sum_loop n i sum mk).
Proof.
  revert i sum. induction n as [|n IH]; intros i sum Hi Hn; [done|]. cbn [sum_loop].
  destruct (aget_ok mk i) as (v & -> & _); [lia|]. rewrite bind_Some_l. apply IH; lia.
Qed.

Lemma sim_return_eq s :
  marks_ok (s_buf_s s) ->
  sim_return s = Some (mk_sim (s_reg s) (replicate 768 0) (s_checksum s) (s_count s)
                         (s_icount s) (s_inonce s) (s_output s)).
Proof.
  intros [Hl _ _]. unfold sim_return.
  destruct (sum_loop_ok (Z.to_nat (iend - istart)) istart 0 (s_buf_s s)) as [a Ha];
    [done|rewrite Hl; vm_compute; by intros [=]|].
  change ((0x8c00 + 16*8*4 + 8 - SWATT_BASE + 2048) / 4) with iend. rewrite Ha, bind_Some_l.
  destruct (sum_loop_ok (Z.to_nat (FW_SIZE / 4)) 0 0 (s_buf_s s)) as [b Hb];
    [done|rewrite Hl; vm_compute; by intros [=]|].
  rewrite Hb, bind_Some_l.
  by rewrite array_zero_all.
Qed.

(** The globals when [checksum_simulator] is called. *)
Record sim_pre (buf reg buf_s pool : list Z) (nonce_count : Z) (chk : list (Z * Z)) : Prop := {
  sp_buf : buf_ok buf;
  sp_reg : length reg = 32%nat /\ Forall is_u32 reg;
  sp_marks : marks_ok buf_s;
  sp_pool : length pool = 300%nat /\
            Forall is_u32 (take (Nat.max 1 (Z.to_nat nonce_count)) pool);
  sp_count : 0 <= nonce_count <= NONCE_NUM;
  sp_chk : length chk = 300%nat }.

Lemma checksum_simulator_inv buf reg buf_s pool nonce_count chk :
  sim_pre buf reg buf_s pool nonce_count chk ->
  exists s, checksum_simulator buf reg buf_s pool nonce_count chk = Some s /\
    s_buf_s s = replicate 768 0 /\
    sim_inv buf pool (init_regs reg) nonce_count chk (return_, s).
Proof.
  intros [Hbuf [Hl Hu] Hm [Hp Hpu] Hn Hck]. unfold checksum_simulator.
  destruct (aget_ok pool 0) as (n & Hg & _); [rewrite Hp; lia|]. rewrite Hg, bind_Some_l.
  assert (is_u32 n) as Hn32 by (eapply (pool_u32 _ _ _ _ Hpu); [|done]; lia).
  set (s0 := mk_sim _ _ _ _ _ _ _).
  assert (sim_inv buf pool (init_regs reg) nonce_count chk (jump_table, s0)) as Hinv.
  { split; [split|split; [|split]]; cbn; try done; try lia.
    - apply seed_nonce_ok; [done|by apply init_regs_ok].
    - intros [? _]. split_and!; [done|by intros m ic ?%elem_of_nil|lia].
    - intros [H1 [r Hr]].
      destruct (chain_at buf _ _ r 0 n Hr) as (rk & rk' & Hk & _ & Hrun & Hk').
      { rewrite lookup_take_lt by lia. done. }
      inversion Hk as [E|? ? ? ? _ _ _ E]; [subst rk|by destruct ns].
      rewrite take_take, Nat.min_l in Hk' by lia. eauto. }
  destruct (sim_run_total buf pool (init_regs reg) nonce_count chk Hbuf Hp Hpu Hn s0 Hinv)
    as (s & -> & [Hd Hend]); [done|done|].
  rewrite bind_Some_l, sim_return_eq by apply Hd. eexists. split; [reflexivity|].
  split; [done|]. split; [|done]. destruct Hd. split; try done. apply zero_marks_ok.
Qed.

(** ** From the generator to the simulator *)

Lemma generated_pre buf reg reg_state mm mms pool s buf_s chk :
  gen_pre buf reg reg_state mm mms pool ->
  generate_nonce buf reg reg_state mm mms pool rand_init = Some s ->
  marks_ok buf_s -> length chk = 300%nat ->
  sim_pre buf (g_reg s) buf_s (g_nonce_pool s) (g_nonce_count s) chk.
Proof.
  intros Hpre Hrun Hm Hc.
  destruct (generate_nonce_inv _ _ _ _ _ _ Hpre) as (s' & Heq & [[] _]).
  rewrite Hrun in Heq. injection Heq as <-. unfold g_nonce_count in *.
  split; [apply Hpre|split; apply gd_reg|done|split; [done|by apply Forall_take]|done|done].
Qed.

Lemma generated_chained buf reg reg_state mm mms pool s :
  gen_pre buf reg reg_state mm mms pool ->
  generate_nonce buf reg reg_state mm mms pool rand_init = Some s ->
  1 <= g_nonce_count s -> g_nonce_pool s !! 0%nat <> Some first_nonce ->
  chained buf (g_nonce_pool s) (init_regs (g_reg s)) (g_nonce_count s).
Proof.
  intros Hpre Hrun Hn H0. split; [done|]. pose proof Hpre as [_ [Hl Hu] _ _ _].
  destruct (generate_nonce_inv _ _ _ _ _ _ Hpre) as (s' & Heq & [[] _]).
  rewrite Hrun in Heq. injection Heq as <-. unfold g_nonce_count in *.
  destruct gd_chain as [[? _]|Hch]; [done|]. exists (g_reg_state s).
  rewrite (init_regs_frame reg (g_reg s) Hl (regs_length _ gd_reg) gd_frame).
  apply chain_scratch; [apply (init_regs_ok reg Hl Hu)| |].
  - destruct (g_nonce_pool s); [done|]. by destruct (Z.to_nat (inonce s)) eqn:E; [lia|].
  - revert Hch. generalize (take (Z.to_nat (inonce s)) (g_nonce_pool s)), (g_reg_state s).
    induction 1 as [|ns r n r' _ IH Hn' Hr]; [constructor|].
    apply chain_snoc with r; [done|done|by apply sim_run_gen].
Qed.

(** The registers that no block writes keep their initial value. *)
Lemma run_frame buf r ic r' ic' :
  buf_ok buf -> regs_ok r -> 0 <= ic < 4 -> nonce_run sim_block buf r ic r' ic' ->
  regs_ok r' /\ regs_frame r r'.
Proof.
  intros Hbuf Hr Hic Hrun. revert Hr Hic.
  induction Hrun as [r ic r' ic' Hy|r ic r1 ic1 r' ic' Hy _ IH]; intros Hr Hic;
    destruct (jump_target_block r.[9]) as [n Hn]; try apply Hr;
    destruct (blocks_spec _ n buf r ic Hn Hbuf Hr Hic) as (l & ra & ica & Hy2 & Hra & Hf & Hex);
    destruct (yields_det _ _ _ _ _ _ _ Hy Hy2) as (<- & -> & ->); [done|].
  destruct (block_exit_cases _ _ _ _ Hex) as [[=]|(_ & -> & ?)].
  destruct IH as [? Hf2]; [done|lia|]. split; [done|by transitivity ra].
Qed.

Lemma chain_frame buf r0 ns r :
  buf_ok buf -> regs_ok r0 -> nonce_chain sim_block buf r0 ns r -> regs_ok r /\ regs_frame r0 r.
Proof.
  intros Hbuf Hr0. induction 1 as [|ns r n r' _ [Hr Hf] Hn Hrun]; [done|].
  destruct (run_frame buf (seed_nonce n r) 0 r' I_NUM) as [? Hf2];
    [done|by apply seed_nonce_ok|lia|done|].
  split; [done|]. transitivity r; [done|]. transitivity (seed_nonce n r); [|done].
  apply seed_nonce_frame, Hr.
Qed.

(** ** Properties *)

(** The eight blocks as [checksum_simulator] writes them compute the same
    function as the eight blocks of [generate_nonce], on every register file,
    firmware image, map and counter. *)
Theorem blocks_agree l buf r mk icount :
  ChecksumSim.block_at l buf r mk icount = GenNonce.block_at l buf r mk icount.
Proof. apply sim_block_eq. Qed.

(** [checksum_simulator] terminates from every well-formed state without an
    access outside its arrays, takes at most [NONCE_NUM] nonces, leaves its map
    [buf_s] zeroed, and writes no checksum slot from [inonce - 1] on. *)
Theorem checksum_simulator_total buf reg buf_s pool nonce_count chk :
  sim_pre buf reg buf_s pool nonce_count chk ->
  exists s, checksum_simulator buf reg buf_s pool nonce_count chk = Some s /\
    s_buf_s s = replicate 768 0 /\ 1 <= s_inonce s <= NONCE_NUM /\
    length (s_checksum s) = Z.to_nat NONCE_NUM /\
    forall k, (Z.to_nat (s_inonce s) <= S k)%nat -> s_checksum s !! k = chk !! k.
Proof.
  intros Hpre. destruct (checksum_simulator_inv _ _ _ _ _ _ Hpre) as (s & -> & ? & [[] _]).
  exists s. done.
Qed.

(** C7: when [generate_nonce] has left at least one nonce, and the first of them
    is not the built-in 0x33f233f3, [checksum_simulator] follows the whole pool:
    it never reports a wrong counter, takes every nonce, and records for each
    nonce but the last the register that the next nonce selects. *)
Theorem simulator_replays_generator buf reg reg_state mm mms pool s buf_s chk :
  gen_pre buf reg reg_state mm mms pool ->
  generate_nonce buf reg reg_state mm mms pool rand_init = Some s ->
  1 <= g_nonce_count s -> g_nonce_pool s !! 0%nat <> Some first_nonce ->
  marks_ok buf_s -> length chk = 300%nat ->
  exists s', checksum_simulator buf (g_reg s) buf_s (g_nonce_pool s) (g_nonce_count s) chk
             = Some s' /\
    (forall ic, ~ (icounter_is_wrong ic ∈ s_output s')) /\ s_inonce s' = g_nonce_count s /\
    forall k, (S k < Z.to_nat (g_nonce_count s))%nat ->
      recorded buf (g_nonce_pool s) (init_regs (g_reg s)) (s_checksum s') k.
Proof.
  intros Hpre Hrun Hn H0 Hm Hc.
  pose proof (generated_pre _ _ _ _ _ _ _ _ _ Hpre Hrun Hm Hc) as Hsp.
  pose proof (generated_chained _ _ _ _ _ _ _ Hpre Hrun Hn H0) as Hch.
  destruct (checksum_simulator_inv _ _ _ _ _ _ Hsp) as (s' & -> & _ & [[] Hend]).
  destruct (sd_chained0 Hch) as (_ & Hout & Hrec). specialize (Hend Hch).
  exists s'. split; [done|]. split; [by intros ic Hin; apply (Hout _ ic Hin)|].
  split; [done|]. by rewrite <- Hend.
Qed.

(** The recorded value for a nonce whose low five bits are 20 is register
    r31, which no block writes: whatever the firmware, the expected checksum is
    0xbffe4c, so that such a nonce attests nothing. *)
Theorem checksum_20_constant buf reg reg_state mm mms pool s buf_s chk s' k n :
  gen_pre buf reg reg_state mm mms pool ->
  generate_nonce buf reg reg_state mm mms pool rand_init = Some s ->
  1 <= g_nonce_count s -> g_nonce_pool s !! 0%nat <> Some first_nonce ->
  marks_ok buf_s -> length chk = 300%nat ->
  checksum_simulator buf (g_reg s) buf_s (g_nonce_pool s) (g_nonce_count s) chk = Some s' ->
  (S k < Z.to_nat (g_nonce_count s))%nat -> g_nonce_pool s !! S k = Some n -> n mod 32 = 20 ->
  s_checksum s' !! k = Some (0xbffe4c, 20).
Proof.
  intros Hpre Hrun Hn H0 Hm Hc Hsim Hk Hnk Hmod.
  pose proof (generated_pre _ _ _ _ _ _ _ _ _ Hpre Hrun Hm Hc) as Hsp.
  pose proof (generated_chained _ _ _ _ _ _ _ Hpre Hrun Hn H0) as Hch.
  destruct (checksum_simulator_inv _ _ _ _ _ _ Hsp) as (t & Ht & _ & [[] Hend]).
  rewrite Hsim in Ht. injection Ht as <-. destruct (sd_chained0 Hch) as (_ & _ & Hrec).
  rewrite (Hend Hch) in Hrec. destruct (Hrec k Hk) as (rk & m & Hcn & Hm2 & ->).
  rewrite Hnk in Hm2. injection Hm2 as <-. destruct Hsp as [Hbuf [Hl Hu] _ _ _ _].
  destruct (chain_frame buf _ _ rk Hbuf (init_regs_ok _ Hl Hu) Hcn) as [_ Hf].
  unfold checksum_of. rewrite Hmod. do 2 f_equal. change (checksum_reg 20) with 31%nat.
  destruct Hf as (_ & _ & _ & _ & _ & ->). clear -Hl. revert Hl.
  generalize (g_reg s). intros r Hl. split_regs r Hl. reflexivity.
Qed.

Lemma iter_three {S} (final : S -> bool) step n (s0 s1 s2 s3 : S) :
  final s0 = false -> step s0 = Some s1 -> final s1 = false -> step s1 = Some s2 ->
  final s2 = false -> step s2 = Some s3 -> final s3 = true -> (3 <= n)%nat ->
  iter_until final step n s0 = Some s3.
Proof.
  intros F0 E0 F1 E1 F2 E2 F3 Hn. replace n with (3 + (n - 3))%nat by lia.
  rewrite (iter_until_skip _ _ 3 _ _ s3); [by apply iter_until_final|].
  simpl. by rewrite F0, E0; simpl; rewrite F1, E1; simpl; rewrite F2, E2.
Qed.

(** When the first nonce of the pool is the built-in 0x33f233f3,
    [checksum_simulator] stops after one block with "icounter is wrong" and
    leaves the checksum array as it was: it applies the jump mask to the first
    nonce, which [generate_nonce] does not do for its built-in nonce. *)
Theorem builtin_nonce_breaks_replay buf reg buf_s pool nonce_count chk :
  sim_pre buf reg buf_s pool nonce_count chk -> pool !! 0%nat = Some first_nonce ->
  exists s, checksum_simulator buf reg buf_s pool nonce_count chk = Some s /\
    s_output s = [icounter_is_wrong 1] /\ s_count s = 0 /\ s_checksum s = chk.
Proof.
  intros [Hbuf [Hl Hu] Hm _ _ _] Hp. unfold checksum_simulator.
  change (aget pool 0) with (pool !! 0%nat). rewrite Hp, bind_Some_l.
  assert (regs_ok (seed_nonce first_nonce (init_regs reg))) as Hr.
  { apply seed_nonce_ok; [unfold is_word, first_nonce; lia|by apply init_regs_ok]. }
  assert (jump_target (seed_nonce first_nonce (init_regs reg)).[9] = block_7) as Hj.
  { split_regs reg Hl. reflexivity. }
  set (r := seed_nonce first_nonce (init_regs reg)) in *.
  destruct (blocks_spec block_7 7 buf r 0 eq_refl Hbuf Hr ltac:(lia))
    as (l & r' & ic & Hy & Hr' & _ & [-> ->]).
  destruct (Hy buf_s Hm) as (mk & Heq & Hmk & _).
  set (s2 := mk_sim r' mk chk 0 1 1 []).
  assert (sim_run buf pool nonce_count (jump_table, mk_sim r buf_s chk 0 0 1 [])
          = Some (return_, sim_print s2 (icounter_is_wrong 1))) as ->.
  { apply (iter_three _ _ _ _ (block_7, mk_sim r buf_s chk 0 0 1 []) (checksum_end, s2));
      try done.
    - cbn [sim_step s_reg]. by rewrite Hj.
    - cbn [sim_step s_reg s_buf_s s_icount]. by rewrite Heq.
    - unfold sim_fuel, SWATT_LOOP_NUM, NONCE_NUM. lia. }
  rewrite bind_Some_l, sim_return_eq by done. eexists. split; [reflexivity|done].
Qed.

(** ** Concrete runs *)

(** A firmware image with word [a * i] at index [i]. *)
Definition ramp (a : Z) : list Z := (fun i => a * i) <$> seqZ 0 768.

Definition zeros (n : nat) : list Z := replicate n 0.
Definition zero_checksums : list (Z * Z) := replicate 300 (0, 0).

Lemma ramp_pre a : 0 <= a <= 1000 ->
  gen_pre (ramp a) (zeros 32) (zeros 32) (zeros 768) (zeros 768) (zeros 300).
Proof.
  intros Ha. destruct zero_gen_pre. split; try done. split; [done|].
  apply Forall_fmap, Forall_seqZ. intros i Hi. unfold compose, is_word. nia.
Qed.

(** Two accepted nonces of the image [ramp 294], and the built-in nonce accepted
    with [ramp 5], read off the first steps of the machine. *)
Lemma ramp_294_steps :
  (accepted ∘ snd) <$> iter_steps at_return (gen_step (ramp 294)) 22
    (gen_start (zeros 32) (zeros 768) (zeros 768) (zeros 300)) = Some [3066291390; 2734943924].
Proof. vm_compute. reflexivity. Qed.

Lemma ramp_5_steps :
  (accepted ∘ snd) <$> iter_steps at_return (gen_step (ramp 5)) 8
    (gen_start (zeros 32) (zeros 768) (zeros 768) (zeros 300)) = Some [first_nonce].
Proof. vm_compute. reflexivity. Qed.

#[local] Opaque gen_step gen_start.

Lemma ramp_run a k ns :
  0 <= a <= 1000 ->
  (accepted ∘ snd) <$> iter_steps at_return (gen_step (ramp a)) k
    (gen_start (zeros 32) (zeros 768) (zeros 768) (zeros 300)) = Some ns ->
  exists s, generate_nonce (ramp a) (zeros 32) (zeros 32) (zeros 768) (zeros 768) (zeros 300)
              rand_init = Some s /\
    forall i n, ns !! i = Some n ->
      (i < Z.to_nat (g_nonce_count s))%nat /\ g_nonce_pool s !! i = Some n.
Proof.
  intros Ha Hk. destruct (iter_steps _ _ _ _) as [c|] eqn:Hc; [|discriminate Hk].
  injection Hk as <-.
  destruct (generate_nonce_from _ _ (zeros 32) _ _ _ k c (ramp_pre a Ha) Hc)
    as (s & Hs & _ & [rest Hp] & _).
  exists s. split; [exact Hs|]. intros i n Hi.
  assert (accepted s !! i = Some n) as Hn.
  { rewrite Hp. by apply lookup_app_l_Some. }
  unfold accepted in Hn. pose proof (lookup_lt_Some _ _ _ Hn) as Hlt.
  rewrite length_take in Hlt. unfold g_nonce_count. split; [lia|].
  by rewrite lookup_take_lt in Hn by lia.
Qed.

Lemma checksum_simulator_total_witness :
  exists s, checksum_simulator (zeros 768) (zeros 32) (zeros 768) (zeros 300) 0 zero_checksums
            = Some s /\ s_buf_s s = replicate 768 0.
Proof.
  destruct (checksum_simulator_total (zeros 768) (zeros 32) (zeros 768) (zeros 300) 0
    zero_checksums) as (s & Hs & Hz & _).
  - destruct zero_gen_pre as [? ? ? ? []]. split; try done; [apply zero_marks_ok|].
    split; [done|]. apply Forall_take, Forall_replicate. unfold is_word; lia.
  - exists s. split; [exact Hs|exact Hz].
Defined.

Lemma simulator_replays_generator_witness :
  exists s s', generate_nonce (ramp 294) (zeros 32) (zeros 32) (zeros 768) (zeros 768)
                 (zeros 300) rand_init = Some s /\
    checksum_simulator (ramp 294) (g_reg s) (zeros 768) (g_nonce_pool s) (g_nonce_count s)
      zero_checksums = Some s' /\
    2 <= s_inonce s' /\ s_inonce s' = g_nonce_count s.
Proof.
  destruct (ramp_run 294 22 _ ltac:(lia) ramp_294_steps) as (s & Hs & Hl).
  destruct (Hl 0%nat _ eq_refl) as [Hn0 H0]. destruct (Hl 1%nat _ eq_refl) as [Hn1 _].
  destruct (simulator_replays_generator (ramp 294) (zeros 32) (zeros 32) (zeros 768) (zeros 768)
    (zeros 300) s (zeros 768) zero_checksums (ramp_pre 294 ltac:(lia)) Hs)
    as (s' & Hs' & _ & Hi & _).
  - lia.
  - rewrite H0. discriminate.
  - apply zero_marks_ok.
  - reflexivity.
  - exists s, s'. split; [exact Hs|]. split; [exact Hs'|]. split; [lia|exact Hi].
Defined.

Lemma checksum_20_constant_witness :
  exists s s', generate_nonce (ramp 294) (zeros 32) (zeros 32) (zeros 768) (zeros 768)
                 (zeros 300) rand_init = Some s /\
    checksum_simulator (ramp 294) (g_reg s) (zeros 768) (g_nonce_pool s) (g_nonce_count s)
      zero_checksums = Some s' /\
    s_checksum s' !! 0%nat = Some (0xbffe4c, 20).
Proof.
  destruct (ramp_run 294 22 _ ltac:(lia) ramp_294_steps) as (s & Hs & Hl).
  destruct (Hl 0%nat _ eq_refl) as [Hn0 H0]. destruct (Hl 1%nat _ eq_refl) as [Hn1 H1].
  assert (1 <= g_nonce_count s) as Hn by lia.
  destruct (checksum_simulator_inv (ramp 294) (g_reg s) (zeros 768) (g_nonce_pool s)
    (g_nonce_count s) zero_checksums) as (s' & Hs' & _).
  { apply (generated_pre _ _ _ _ _ _ _ _ _ (ramp_pre 294 ltac:(lia)) Hs zero_marks_ok).
    reflexivity. }
  exists s, s'. split; [exact Hs|]. split; [exact Hs'|].
  apply (checksum_20_constant (ramp 294) (zeros 32) (zeros 32) (zeros 768) (zeros 768) (zeros 300)
    s (zeros 768) zero_checksums s' 0 2734943924 (ramp_pre 294 ltac:(lia)) Hs Hn);
    [rewrite H0; discriminate|apply zero_marks_ok|reflexivity|exact Hs'|exact Hn1|exact H1|reflexivity].
Defined.

Lemma builtin_nonce_breaks_replay_witness :
  exists s s', generate_nonce (ramp 5) (zeros 32) (zeros 32) (zeros 768) (zeros 768)
                 (zeros 300) rand_init = Some s /\
    checksum_simulator (ramp 5) (g_reg s) (zeros 768) (g_nonce_pool s) (g_nonce_count s)
      zero_checksums = Some s' /\
    s_output s' = [icounter_is_wrong 1].
Proof.
  destruct (ramp_run 5 8 _ ltac:(lia) ramp_5_steps) as (s & Hs & Hl).
  destruct (Hl 0%nat _ eq_refl) as [Hn0 H0]. assert (1 <= g_nonce_count s) as Hn by lia.
  destruct (builtin_nonce_breaks_replay (ramp 5) (g_reg s) (zeros 768) (g_nonce_pool s)
    (g_nonce_count s) zero_checksums) as (s' & Hs' & Ho & _).
  - apply (generated_pre _ _ _ _ _ _ _ _ _ (ramp_pre 5 ltac:(lia)) Hs zero_marks_ok).
    reflexivity.
  - exact H0.
  - exists s, s'. split; [exact Hs|]. split; [exact Hs'|exact Ho].
Defined.
