(* ===== verification/HostTool.v ===== *)
(** * The host side of the attestation tool (src/code/app/viper/simulator.c)

    Access to the card through [ioctl], the dump of the firmware, the file
    fw.bin, and [main].  The kernel driver behind [ioctl] is not part of the
    repository: it is the interface [Nic], a parameter of every definition here,
    and the laws that the dump relies on are the class [WindowedNic]. *)

From S2P Require Import Prelude Arc4 Rand Swatt GenNonce ChecksumSim.

(** ** The request structure and the interface to the driver *)

(** [struct acenic_ioc_req] *)
Record acenic_ioc_req := mk_req {
  cardoffset : Z;
  data : Z;
  nonce_num : Z;
  req_nonce : list Z;
  req_checksum : list Z;
  req_sha1 : list Z }.

Definition SIOCDEVPRIVATE : Z := 0x89f0.
Definition ACENIC_IOCTL_READ_SMEM : Z := SIOCDEVPRIVATE.
Definition ACENIC_IOCTL_WRITE_SMEM : Z := SIOCDEVPRIVATE + 1.
Definition ACENIC_IOCTL_SWATT : Z := SIOCDEVPRIVATE + 4.
Definition ACENIC_IOCTL_SWATT_B : Z := SIOCDEVPRIVATE + 9.
Definition ACENIC_IOCTL_SWATT_READ_SHA1 : Z := SIOCDEVPRIVATE + 10.

(** [ioctl(socket, cmd, &ifr)] returns a code, and may change the request and
    the card. *)
Class Nic (N : Type) := nic_ioctl : Z -> acenic_ioc_req -> N -> Z * acenic_ioc_req * N.

(** The C library on files, as far as it can fail: whether fw.bin can be opened
    for writing and for reading, and how many of the requested bytes [fread]
    returns. *)
Record file_io := mk_io { can_write : bool; can_read : bool; fread_count : Z -> Z }.

(** The global arrays of simulator.c. *)
Record globals := mk_globals {
  h_swatt_buf : list Z;
  h_swatt_buf_s : list Z;
  h_nonce_pool : list Z;
  h_reg : list Z;
  h_reg_state : list Z;
  h_checksum : list (Z * Z);
  h_mm : list Z;
  h_mm_s : list Z;
  h_nonce_count : Z }.

(** The C program starts with all of them zero. *)
Definition globals_init : globals :=
  mk_globals (replicate 768 0) (replicate 768 0) (replicate 300 0) (replicate 32 0)
    (replicate 32 0) (replicate 300 (0, 0)) (replicate 768 0) (replicate 768 0) 0.

Inductive cpu := CPU_A | CPU_B.

(** What [main] prints about the attestation. *)
Inductive host_message :=
  | ioctl_fails
  | last_results (checksums timing : list Z)
  | attestation (c : cpu) (succeeds : bool)
  | sha1_result (h : list Z).

(** The whole state: the card, the request, the globals, fw.bin, the requests
    made so far (command, offset, data) and the output. *)
Record world (N : Type) := mk_world {
  w_nic : N;
  w_req : acenic_ioc_req;
  w_globals : globals;
  w_file : option (list Z);
  w_log : list (Z * Z * Z);
  w_out : list host_message }.
Arguments mk_world {N}.
Arguments w_nic {N}.
Arguments w_req {N}.
Arguments w_globals {N}.
Arguments w_file {N}.
Arguments w_log {N}.
Arguments w_out {N}.

(** A run returns, leaves the process with an exit code, or has undefined
    behaviour. *)
Inductive result (N A : Type) :=
  | Ok (a : A) (w : world N)
  | Exit (code : Z) (w : world N)
  | Crash.
Arguments Ok {N A}.
Arguments Exit {N A}.
Arguments Crash {N A}.

Definition host (N A : Type) : Type := world N -> result N A.

#[export] Instance host_ret N : MRet (host N) := fun A a w => Ok a w.
#[export] Instance host_bind N : MBind (host N) := fun A B k m w =>
  match m w with
  | Ok a w => k a w
  | Exit code w => Exit code w
  | Crash => Crash
  end.

Definition lift {N A} (o : option A) : host N A := fun w =>
  match o with Some a => Ok a w | None => Crash end.
Definition exit {N A} (code : Z) : host N A := fun w => Exit code w.
Definition get {N} : host N (world N) := fun w => Ok w w.
Definition put_req {N} (q : acenic_ioc_req) : host N unit := fun w =>
  Ok tt (mk_world (w_nic w) q (w_globals w) (w_file w) (w_log w) (w_out w)).
Definition put_globals {N} (g : globals) : host N unit := fun w =>
  Ok tt (mk_world (w_nic w) (w_req w) g (w_file w) (w_log w) (w_out w)).
Definition put_file {N} (f : list Z) : host N unit := fun w =>
  Ok tt (mk_world (w_nic w) (w_req w) (w_globals w) (Some f) (w_log w) (w_out w)).
Definition print {N} (m : host_message) : host N unit := fun w =>
  Ok tt (mk_world (w_nic w) (w_req w) (w_globals w) (w_file w) (w_log w) (w_out w ++ [m])).

Definition set_swatt_buf (g : globals) (b : list Z) : globals :=
  mk_globals b (h_swatt_buf_s g) (h_nonce_pool g) (h_reg g) (h_reg_state g) (h_checksum g)
    (h_mm g) (h_mm_s g) (h_nonce_count g).

(** ** Byte order *)

(** [other_endian] *)
Definition other_endian (val : Z) : Z :=
  Z.lor (Z.lor (Z.lor (shl32 (Z.land val 0xff) 24) (shl32 (Z.land val 0xff00) 8))
               (Z.shiftr (Z.land val 0xff0000) 8))
        (Z.shiftr (Z.land val 0xff000000) 24).

(** [ntohl] and [htonl] of a little-endian host reverse the bytes of a word. *)
Definition ntohl (x : Z) : Z := bswap32 x.
Definition htonl (x : Z) : Z := ntohl x.

Section Tool.
Context {N : Type} `{!Nic N}.

Definition ioctl (cmd : Z) : host N Z := fun w =>
  let q := w_req w in
  let '(rc, q', n) := nic_ioctl cmd q (w_nic w) in
  Ok rc (mk_world n q' (w_globals w) (w_file w)
           (w_log w ++ [(cmd, cardoffset q, data q)]) (w_out w)).

Definition set_cardoffset (o : Z) : host N unit := fun w =>
  let q := w_req w in
  put_req (mk_req o (data q) (nonce_num q) (req_nonce q) (req_checksum q) (req_sha1 q)) w.

Definition set_data (d : Z) : host N unit := fun w =>
  let q := w_req w in
  put_req (mk_req (cardoffset q) d (nonce_num q) (req_nonce q) (req_checksum q) (req_sha1 q)) w.

(** [read_smem]: the code returned and the word stored through [dpr]. *)
Definition read_smem (offset : Z) : host N (bool * Z) :=
  _ ← set_cardoffset offset;
  rc ← ioctl ACENIC_IOCTL_READ_SMEM;
  w ← get;
  let dpr := other_endian (data (w_req w)) in
  if negb (rc =? 0) then mret (false, dpr) else mret (true, dpr).

(** [write_smem] *)
Definition write_smem (offset d : Z) : host N bool :=
  _ ← set_cardoffset offset;
  _ ← set_data (other_endian d);
  rc ← ioctl ACENIC_IOCTL_WRITE_SMEM;
  if negb (rc =? 0) then mret false else mret true.

(** ** Dumping the firmware *)

(** The loop of [read_tbuf]: [n] words are left; [buf] starts at index [e] of
    the array [arr]. *)
Fixpoint read_tbuf_loop (n : nat) (i frame_base current e : Z) (arr : list Z)
    : host N (list Z) :=
  match n with
  | O => mret arr
  | S n =>
      frame_base ← (if negb (Z.land current 0xfffff800 =? frame_base)
                    then let frame_base := Z.land current 0xfffff800 in
                         _ ← write_smem 0x68 (ntohl frame_base);
                         mret frame_base
                    else mret frame_base);
      '(_, v) ← read_smem (Z.land current 0x7ff + 0x800);
      arr ← lift (aset arr (e + i) v);
      read_tbuf_loop n (i + 1) frame_base (add32 current 4) e arr
  end.

Fixpoint ntohl_loop (n : nat) (i e : Z) (arr : list Z) : option (list Z) :=
  match n with
  | O => Some arr
  | S n => v ← aget arr (e + i); arr ← aset arr (e + i) (ntohl v); ntohl_loop n (i + 1) e arr
  end.

(** [read_tbuf(offset, buf)] *)
Definition read_tbuf (offset e : Z) (arr : list Z) : host N (list Z) :=
  '(_, frame_base) ← read_smem 0x68;
  let frame_base := htonl frame_base in
  arr ← read_tbuf_loop 8 0 frame_base offset e arr;
  lift (ntohl_loop 8 0 e arr).

(** The loop of [dump_swatt_code]; a pass takes 32 bytes, so [tlen / 32 + 1]
    passes are enough. *)
Fixpoint dump_loop (fuel : nat) (p tend e : Z) (arr : list Z) : host N (list Z) :=
  if p <? tend then
    match fuel with
    | O => lift None
    | S fuel => arr ← read_tbuf p e arr; dump_loop fuel (add32 p 32) tend (e + 8) arr
    end
  else mret arr.

(** [dump_swatt_code(tstart, tlen)] *)
Definition dump_swatt_code (tstart tlen : Z) : host N unit :=
  w ← get;
  arr ← dump_loop (Z.to_nat (tlen / 32 + 1)) tstart (add32 tstart tlen) 0
          (h_swatt_buf (w_globals w));
  w ← get;
  put_globals (set_swatt_buf (w_globals w) arr).

(** ** The file fw.bin *)

(** [(__u8* )g_swatt_buf]: the bytes of the array on a little-endian host. *)
Definition bytes_of_words (arr : list Z) : list Z := arr ≫= le_split 4.

Fixpoint words_of_bytes (n : nat) (bs : list Z) : list Z :=
  match n with
  | O => []
  | S n => le_combine (take 4 bs) :: words_of_bytes n (drop 4 bs)
  end.

(** [save_swatt_code()]; [fwrite] to the null stream of a failed [fopen] is
    undefined. *)
Definition save_swatt_code (io : file_io) : host N unit :=
  w ← get;
  if can_write io
  then put_file (take (Z.to_nat FW_SIZE) (bytes_of_words (h_swatt_buf (w_globals w))))
  else lift None.

(** [read_swatt_code()]; when [fread] comes back short the stream is closed
    twice, which is undefined. *)
Definition read_swatt_code (io : file_io) : host N unit :=
  w ← get;
  arr ← lift (array_loop (Z.to_nat (FW_SIZE / 4)) 0 (fun _ => Some 0) (h_swatt_buf (w_globals w)));
  _ ← put_globals (set_swatt_buf (w_globals w) arr);
  bs ← lift (if can_read io then w_file w else None);
  let lSize := Z.of_nat (length bs) in
  if negb (lSize =? FW_SIZE) then mret tt
  else
    let result := fread_count io lSize in
    let bytes := take (Z.to_nat result) bs ++ drop (Z.to_nat result) (bytes_of_words arr) in
    _ ← put_globals (set_swatt_buf (w_globals w) (words_of_bytes (Z.to_nat (FW_SIZE / 4)) bytes));
    if negb (result =? lSize) then lift None else mret tt.

(** ** Attestation *)

(** [swatt(nic, dpr, dp, cmd, offset, exp_num)]: the code returned, and the
    words stored through [dpr] and, on success, [dp]. *)
Definition swatt (cmd offset exp_num : Z) : host N (bool * Z * option Z) :=
  _ ← set_cardoffset offset;
  _ ← set_data exp_num;
  rc ← ioctl cmd;
  w ← get;
  let dpr := other_endian (data (w_req w)) in
  if negb (rc =? 0) then mret (false, dpr, None)
  else mret (true, dpr, Some (other_endian (cardoffset (w_req w)))).

(** [for (i = 0; i < n; i++) { st.req.nonce[i] = g_nonce_pool[i];
    st.req.checksum[i] = g_checksum[i][0]; }] *)
Fixpoint copy_pairs (n : nat) (i : Z) (g : globals) (nonce checksum : list Z)
    : option (list Z * list Z) :=
  match n with
  | O => Some (nonce, checksum)
  | S n =>
      v ← aget (h_nonce_pool g) i;
      nonce ← aset nonce i v;
      c ← aget (h_checksum g) i;
      checksum ← aset checksum i c.1;
      copy_pairs n (i + 1) g nonce checksum
  end.

Definition load_request : host N unit :=
  w ← get;
  let g := w_globals w in
  let q := w_req w in
  '(nonce, checksum) ← lift (copy_pairs (Z.to_nat (h_nonce_count g)) 0 g
                              (req_nonce q) (req_checksum q));
  put_req (mk_req (cardoffset q) (data q) (h_nonce_count g) nonce checksum (req_sha1 q)).

(** The five values [a[n - 6]] to [a[n - 2]] that [main] prints. *)
Definition last_five (n : Z) (a : list Z) : option (list Z) :=
  v6 ← aget a (sub32 n 6);
  v5 ← aget a (sub32 n 5);
  v4 ← aget a (sub32 n 4);
  v3 ← aget a (sub32 n 3);
  v2 ← aget a (sub32 n 2);
  Some [v6; v5; v4; v3; v2].

Definition print_results : host N unit :=
  w ← get;
  let q := w_req w in
  cs ← lift (last_five (nonce_num q) (req_checksum q));
  ts ← lift (last_five (nonce_num q) (req_nonce q));
  print (last_results cs ts).

(** The part of [main] under [ATTESTATION_CPUB]; [false] when [main] returns
    there. *)
Definition attest_cpu_b (exp_num : Z) : host N bool :=
  _ ← load_request;
  '(ok, ra_b, _) ← swatt ACENIC_IOCTL_SWATT_B 0x658 exp_num;
  if negb ok then _ ← print ioctl_fails; mret false
  else
    let ra := ntohl ra_b in
    if ra =? 1
    then _ ← print_results; _ ← print (attestation CPU_B true); mret true
    else _ ← print (attestation CPU_B false); mret false.

(** The part of [main] under [ATTESTATION_CPUA]. *)
Definition attest_cpu_a (exp_num : Z) : host N unit :=
  _ ← load_request;
  '(ok, ra_b, _) ← swatt ACENIC_IOCTL_SWATT 0x658 exp_num;
  if negb ok then print ioctl_fails
  else
    let ra := ntohl ra_b in
    if ra =? 1
    then
      _ ← print_results;
      _ ← print (attestation CPU_A true);
      '(ok, _, _) ← swatt ACENIC_IOCTL_SWATT_READ_SHA1 0x658 exp_num;
      if negb ok then print ioctl_fails
      else w ← get; print (sha1_result (req_sha1 (w_req w)))
    else print (attestation CPU_A false).

(** The first part of [main]: stops both CPUs of the card; returns the two
    state registers and the window base. *)
Definition stop_cpus : host N (Z * Z * Z) :=
  '(ok, o_state) ← read_smem 0x140;
  if negb ok then exit (-1)
  else
    let o_state := ntohl o_state in
    ok ← write_smem 0x140 (ntohl (Z.lor o_state 0x10000));
    if negb ok then exit (-1)
    else
      '(ok, o_state_b) ← read_smem 0x240;
      if negb ok then exit (-1)
      else
        let o_state_b := ntohl o_state_b in
        ok ← write_smem 0x240 (ntohl (Z.lor o_state_b 0x10000));
        if negb ok then exit (-1)
        else
          _ ← read_smem 0x144;
          _ ← read_smem 0x244;
          _ ← read_smem 0x1f4;
          _ ← read_smem 0x2f4;
          '(_, o_frame_base) ← read_smem 0x68;
          mret (o_state, o_state_b, htonl o_frame_base).

(** The calls of the initialisation, nonce generation and simulation on the
    global arrays. *)
Definition call_init_buf : host N unit :=
  w ← get;
  let g := w_globals w in
  '(b, bs, mm, mms) ← lift (init_buf (h_swatt_buf g) (h_swatt_buf_s g) (h_mm g) (h_mm_s g));
  put_globals (mk_globals b bs (h_nonce_pool g) (h_reg g) (h_reg_state g) (h_checksum g)
                 mm mms (h_nonce_count g)).

Definition call_generate_nonce (rnd : rand_state) : host N unit :=
  w ← get;
  let g := w_globals w in
  s ← lift (generate_nonce (h_swatt_buf g) (h_reg g) (h_reg_state g) (h_mm g) (h_mm_s g)
              (h_nonce_pool g) rnd);
  put_globals (mk_globals (h_swatt_buf g) (h_swatt_buf_s g) (g_nonce_pool s) (g_reg s)
                 (g_reg_state s) (h_checksum g) (g_mm s) (g_mm_s s) (g_nonce_count s)).

Definition call_checksum_simulator : host N unit :=
  w ← get;
  let g := w_globals w in
  s ← lift (checksum_simulator (h_swatt_buf g) (h_reg g) (h_swatt_buf_s g) (h_nonce_pool g)
              (h_nonce_count g) (h_checksum g));
  put_globals (mk_globals (h_swatt_buf g) (s_buf_s s) (h_nonce_pool g) (s_reg s)
                 (h_reg_state g) (s_checksum s) (h_mm g) (h_mm_s g) (h_nonce_count g)).

(** The part of [main] between the checks of its arguments and the attestation:
    dumps the firmware with both CPUs stopped, and computes the pairs. *)
Definition main_prepare (io : file_io) : host N unit :=
  _ ← put_req (mk_req 0 0 0 (replicate 300 0) (replicate 300 0) (replicate 5 0));
  '(o_state, o_state_b, o_frame_base) ← stop_cpus;
  _ ← call_init_buf;
  _ ← dump_swatt_code SWATT_BASE FW_SIZE;
  _ ← write_smem 0x68 (ntohl o_frame_base);
  _ ← save_swatt_code io;
  _ ← read_swatt_code io;
  _ ← call_generate_nonce rand_init;
  _ ← call_checksum_simulator;
  _ ← write_smem 0x140 (ntohl (Z.land o_state (not32 0x10000)));
  _ ← write_smem 0x240 (ntohl (Z.land o_state_b (not32 0x10000)));
  mret tt.

(** [main]: [argc], the length of the interface name, the effective user and
    [atoi(argv[2])] are its arguments. *)
Definition main (io : file_io) (argc ifname_len euid exp_num : Z) : host N Z :=
  if negb (argc =? 3) then exit (-1)
  else if 16 <=? ifname_len then exit (-1)
  else if negb (euid =? 0) then exit (-1)
  else
    _ ← main_prepare io;
    b ← attest_cpu_b exp_num;
    if negb b then mret 0
    else _ ← attest_cpu_a exp_num; mret 0.

End Tool.
