(* ===== verification/HostTheory.v ===== *)
(** * Correctness of the host side

    Byte order, the dump of the firmware against an abstract card, the round
    trip through fw.bin, and what [main] has computed when it starts the
    attestation. *)

From S2P Require Import Prelude Arc4 Rand Swatt GenNonce NonceTheory ChecksumSim Replay HostTool.

(** ** Byte order *)

Lemma other_endian_eq x : is_u32 x -> other_endian x = ntohl x.
Proof.
  intros Hx. unfold other_endian, ntohl, bswap32, shl32.
  change 0xff with (Z.shiftl (Z.ones 8) 0). change 0xff00 with (Z.shiftl (Z.ones 8) 8).
  change 0xff0000 with (Z.shiftl (Z.ones 8) 16). change 0xff000000 with (Z.shiftl (Z.ones 8) 24).
  rewrite !land_field by lia. cbn [le_split rev app le_combine].
  rewrite Z.div_1_r, Z.mul_1_r. unfold u8.
  rewrite !Z.div_div by lia. change (2 ^ 8 * 2 ^ 8) with (2 ^ 16).
  change (2 ^ 8 * 2 ^ 16) with (2 ^ 24).
  pose proof (Z.mod_pos_bound x (2 ^ 8) ltac:(lia)) as H0.
  pose proof (Z.mod_pos_bound (x / 2 ^ 8) (2 ^ 8) ltac:(lia)) as H1.
  pose proof (Z.mod_pos_bound (x / 2 ^ 16) (2 ^ 8) ltac:(lia)) as H2.
  pose proof (Z.mod_pos_bound (x / 2 ^ 24) (2 ^ 8) ltac:(lia)) as H3.
  generalize dependent (x mod 2 ^ 8). generalize dependent ((x / 2 ^ 8) mod 2 ^ 8).
  generalize dependent ((x / 2 ^ 16) mod 2 ^ 8). generalize dependent ((x / 2 ^ 24) mod 2 ^ 8).
  intros b3 H3 b2 H2 b1 H1 b0 H0.
  rewrite !Z.shiftl_mul_pow2, !Z.shiftr_div_pow2 by lia.
  replace (b2 * 2 ^ 16 / 2 ^ 8) with (b2 * 2 ^ 8) by (div_lia).
  replace (b3 * 2 ^ 24 / 2 ^ 24) with b3 by (div_lia).
  rewrite !u32_small by (unfold is_word; lia).
  rewrite <- (Z.mul_assoc b1), <- Z.pow_add_r by lia. change (8 + 8) with 16.
  rewrite <- (Z.shiftl_mul_pow2 b0) by lia.
  rewrite (lor_shiftl_add b0 (b1 * 2 ^ 16) 24) by (unfold is_word; lia).
  replace (b0 * 2 ^ 24 + b1 * 2 ^ 16) with (Z.shiftl (b0 * 2 ^ 8 + b1) 16)
    by (rewrite Z.shiftl_mul_pow2; lia).
  rewrite (lor_shiftl_add _ (b2 * 2 ^ 8) 16) by (unfold is_word; lia).
  replace ((b0 * 2 ^ 8 + b1) * 2 ^ 16 + b2 * 2 ^ 8) with
    (Z.shiftl ((b0 * 2 ^ 8 + b1) * 2 ^ 8 + b2) 8) by (rewrite Z.shiftl_mul_pow2; lia).
  rewrite lor_shiftl_add by (unfold is_word; lia). lia.
Qed.

Lemma ntohl_u32 x : is_u32 (ntohl x).
Proof. apply bswap32_u32. Qed.

Lemma ntohl_ntohl x : is_u32 x -> ntohl (ntohl x) = x.
Proof. apply bswap32_involutive. Qed.

(** ** The card *)

(** A CPU is halted when bit 16 of its state register is set; the two registers are at
    0x140 and 0x240. *)
Definition cpu_reg (o : Z) : Prop := o = 0x140 \/ o = 0x240.
Definition halted (reg : Z -> Z) (o : Z) : Prop := Z.testbit (reg o) 16 = true.

(** What a request leaves alone besides what it is for: the window register, a CPU that
    is halted, and the memory when neither CPU runs.  A running CPU may change the
    memory at any time. *)
Record settled (reg mem reg' mem' : Z -> Z) : Prop := {
  se_window : reg' 0x68 = reg 0x68;
  se_halted o : cpu_reg o -> halted reg o -> halted reg' o;
  se_mem : halted reg 0x140 -> halted reg 0x240 -> mem' = mem }.

(** What the dump relies on: registers below 0x800 are read and written one
    word at a time; the word at 0x68 is the base of a 2 KiB window through which
    offsets from 0x800 on read the memory of the card; a state register with bit 16
    set halts its CPU; every request succeeds. *)
Class WindowedNic (N : Type) `{!Nic N} := {
  nic_reg : N -> Z -> Z;
  nic_mem : N -> Z -> Z;
  nic_reg_u32 n o : is_u32 (nic_reg n o);
  nic_mem_u32 n a : is_u32 (nic_mem n a);
  nic_read_reg q n :
    0 <= cardoffset q < 0x800 -> cardoffset q mod 4 = 0 ->
    exists n', nic_ioctl ACENIC_IOCTL_READ_SMEM q n
      = (0, mk_req (cardoffset q) (nic_reg n (cardoffset q)) (nonce_num q) (req_nonce q)
              (req_checksum q) (req_sha1 q), n') /\
      settled (nic_reg n) (nic_mem n) (nic_reg n') (nic_mem n');
  nic_read_window q n :
    0x800 <= cardoffset q < 0x1000 -> cardoffset q mod 4 = 0 ->
    exists n', nic_ioctl ACENIC_IOCTL_READ_SMEM q n
      = (0, mk_req (cardoffset q) (nic_mem n (nic_reg n 0x68 + (cardoffset q - 0x800)))
              (nonce_num q) (req_nonce q) (req_checksum q) (req_sha1 q), n') /\
      settled (nic_reg n) (nic_mem n) (nic_reg n') (nic_mem n');
  nic_write_reg q n :
    0 <= cardoffset q < 0x800 -> cardoffset q mod 4 = 0 -> is_u32 (data q) ->
    exists n', nic_ioctl ACENIC_IOCTL_WRITE_SMEM q n = (0, q, n') /\
      nic_reg n' 0x68 = (if cardoffset q =? 0x68 then data q else nic_reg n 0x68) /\
      (forall o, cpu_reg o ->
         (if cardoffset q =? o then Z.testbit (data q) 16 = true else halted (nic_reg n) o) ->
         halted (nic_reg n') o) /\
      (halted (nic_reg n) 0x140 -> halted (nic_reg n) 0x240 ->
       halted (nic_reg n') 0x140 -> halted (nic_reg n') 0x240 -> nic_mem n' = nic_mem n) }.

Definition both_halted {N} `{!Nic N} `{!WindowedNic N} (n : N) : Prop :=
  halted (nic_reg n) 0x140 /\ halted (nic_reg n) 0x240.

(** The requests that write the state register of a CPU, and those that read the memory
    of the card. *)
Definition is_cpu_write (e : Z * Z * Z) : Prop :=
  e.1.1 = ACENIC_IOCTL_WRITE_SMEM /\ (e.1.2 = 0x140 \/ e.1.2 = 0x240).
#[local] Instance is_cpu_write_dec e : Decision (is_cpu_write e).
Proof. unfold is_cpu_write. apply _. Defined.

Definition is_window_read (e : Z * Z * Z) : Prop :=
  e.1.1 = ACENIC_IOCTL_READ_SMEM /\ 0x800 <= e.1.2.
#[local] Instance is_window_read_dec e : Decision (is_window_read e).
Proof. unfold is_window_read. apply _. Defined.

Definition cpu_writes (log : list (Z * Z * Z)) : list (Z * Z) :=
  (fun e => (e.1.2, e.2)) <$> filter is_cpu_write log.
Definition window_reads (log : list (Z * Z * Z)) : list (Z * Z * Z) := filter is_window_read log.

Lemma cpu_writes_app l1 l2 : cpu_writes (l1 ++ l2) = cpu_writes l1 ++ cpu_writes l2.
Proof. unfold cpu_writes. by rewrite list.filter_app, fmap_app. Qed.

Lemma window_reads_app l1 l2 : window_reads (l1 ++ l2) = window_reads l1 ++ window_reads l2.
Proof. apply list.filter_app. Qed.

(** Sequencing, as an equation on runs that return. *)
Lemma bind_Ok {N A B} (m : host N A) (k : A -> host N B) w a w' :
  m w = Ok a w' -> (m ≫= k) w = k a w'.
Proof. intros H. unfold mbind, host_bind. by rewrite H. Qed.

Lemma window_split x :
  is_u32 x -> Z.land x 0xfffff800 = x - x mod 2048 /\ Z.land x 0x7ff = x mod 2048.
Proof.
  intros [H0 H1]. change 0xfffff800 with (Z.shiftl (Z.ones 21) 11).
  change 0x7ff with (Z.ones 11). rewrite land_field, Z.land_ones by lia.
  split; [|done]. change (2 ^ 11) with 2048. change (2 ^ 21) with 2097152.
  rewrite Z.mod_small; div_lia.
Qed.

Section Dump.
Context {N : Type} `{!Nic N} `{!WindowedNic N}.
Implicit Types w : world N.

(** Steps that only talk to the card; they leave its CPUs, and its memory as long as
    these are halted. *)
Record card_only w w' : Prop := {
  co_globals : w_globals w' = w_globals w;
  co_file : w_file w' = w_file w;
  co_out : w_out w' = w_out w;
  co_halted : both_halted (w_nic w) -> both_halted (w_nic w');
  co_mem : both_halted (w_nic w) -> nic_mem (w_nic w') = nic_mem (w_nic w);
  co_log : exists l, w_log w' = w_log w ++ l /\ cpu_writes l = [] }.

#[local] Instance card_only_preorder : PreOrder card_only.
Proof.
  split.
  - intros w. split; try done. exists []. by rewrite app_nil_r.
  - intros x y z [? ? ? Hh Hm (l & E & El)] [? ? ? Hh' Hm' (l' & E' & El')].
    split; [congruence..|auto| |].
    + intros Hx. rewrite Hm' by auto. auto.
    + exists (l ++ l'). by rewrite E', E, <- app_assoc, cpu_writes_app, El, El'.
Qed.

Lemma settled_halted n n' :
  settled (nic_reg n) (nic_mem n) (nic_reg n') (nic_mem n') -> both_halted n -> both_halted n'.
Proof. intros [_ Hh _] [Ha Hb]. split; apply Hh; unfold cpu_reg; auto. Qed.

Lemma settled_mem n n' :
  settled (nic_reg n) (nic_mem n) (nic_reg n') (nic_mem n') -> both_halted n -> nic_mem n' = nic_mem n.
Proof. intros [_ _ Hm] [Ha Hb]. auto. Qed.

Lemma read_smem_reg w o :
  0 <= o < 0x800 -> o mod 4 = 0 ->
  exists w' d, read_smem o w = Ok (true, ntohl (nic_reg (w_nic w) o)) w' /\
    w_globals w' = w_globals w /\ w_file w' = w_file w /\ w_out w' = w_out w /\
    w_log w' = w_log w ++ [(ACENIC_IOCTL_READ_SMEM, o, d)] /\
    settled (nic_reg (w_nic w)) (nic_mem (w_nic w)) (nic_reg (w_nic w')) (nic_mem (w_nic w')).
Proof.
  intros Ho Hm. unfold read_smem, mbind, host_bind, set_cardoffset, put_req, ioctl.
  cbn [w_req w_nic].
  match goal with |- context [nic_ioctl _ ?q ?n] => destruct (nic_read_reg q n Ho Hm) as (n' & -> & Hs) end.
  cbn. rewrite other_endian_eq by apply nic_reg_u32. eexists _, _. split; [reflexivity|]. by split_and!.
Qed.

Lemma read_smem_window w o :
  0 <= o < 0x800 -> o mod 4 = 0 ->
  exists w', read_smem (o + 0x800) w
             = Ok (true, ntohl (nic_mem (w_nic w) (nic_reg (w_nic w) 0x68 + o))) w' /\
    nic_reg (w_nic w') 0x68 = nic_reg (w_nic w) 0x68 /\ card_only w w'.
Proof.
  intros Ho Hm. unfold read_smem, mbind, host_bind, set_cardoffset, put_req, ioctl.
  cbn [w_req w_nic].
  match goal with |- context [nic_ioctl _ ?q ?n] =>
    destruct (nic_read_window q n) as (n' & -> & Hs); [cbn; lia|cbn; div_lia|] end.
  cbn [cardoffset]. rewrite Z.add_simpl_r. cbn. rewrite other_endian_eq by apply nic_mem_u32.
  eexists. split; [reflexivity|]. split; [apply Hs|]. split; cbn; try done.
  - by apply settled_halted.
  - by apply settled_mem.
  - by eexists.
Qed.

Lemma read_reg_card w o :
  0 <= o < 0x800 -> o mod 4 = 0 ->
  exists w', read_smem o w = Ok (true, ntohl (nic_reg (w_nic w) o)) w' /\
    nic_reg (w_nic w') 0x68 = nic_reg (w_nic w) 0x68 /\ card_only w w'.
Proof.
  intros Ho Hm. destruct (read_smem_reg w o Ho Hm) as (w' & d & E & ? & ? & ? & Hl & Hs). exists w'.
  split; [exact E|]. split; [apply Hs|]. split; try done.
  - by apply settled_halted.
  - by apply settled_mem.
  - eauto.
Qed.

Lemma write_smem_spec w o v :
  0 <= o < 0x800 -> o mod 4 = 0 -> is_u32 v ->
  exists w', write_smem o (ntohl v) w = Ok true w' /\
    nic_reg (w_nic w') 0x68 = (if o =? 0x68 then v else nic_reg (w_nic w) 0x68) /\
    w_globals w' = w_globals w /\ w_file w' = w_file w /\ w_out w' = w_out w /\
    (forall c, cpu_reg c ->
       (if o =? c then Z.testbit v 16 = true else halted (nic_reg (w_nic w)) c) ->
       halted (nic_reg (w_nic w')) c) /\
    (both_halted (w_nic w) -> both_halted (w_nic w') -> nic_mem (w_nic w') = nic_mem (w_nic w)) /\
    w_log w' = w_log w ++ [(ACENIC_IOCTL_WRITE_SMEM, o, v)].
Proof.
  intros Ho Hm Hv. unfold write_smem, mbind, host_bind, set_cardoffset, set_data, put_req, ioctl.
  cbn [w_req w_nic cardoffset data nonce_num req_nonce req_checksum req_sha1].
  rewrite other_endian_eq, ntohl_ntohl by (done || apply ntohl_u32).
  match goal with |- context [nic_ioctl _ ?q ?n] =>
    destruct (nic_write_reg q n Ho Hm Hv) as (n' & -> & Hwin & Hcpu & Hmem) end.
  cbn. eexists. split; [reflexivity|]. split_and!; try done.
  intros [] []. by apply Hmem.
Qed.

Lemma write_window_spec w v :
  is_u32 v ->
  exists w', write_smem 0x68 (ntohl v) w = Ok true w' /\
    nic_reg (w_nic w') 0x68 = v /\ card_only w w'.
Proof.
  intros Hv. destruct (write_smem_spec w 0x68 v) as (w' & -> & Hr & ? & ? & ? & Hc & Hm & Hl);
    [lia|done|done|].
  assert (both_halted (w_nic w) -> both_halted (w_nic w')) as Hh.
  { intros [Ha Hb]. split; apply Hc; unfold cpu_reg; auto. }
  eexists. split; [reflexivity|]. split; [done|]. split; [done..|auto|eauto].
Qed.

(** The words that the loop of [read_tbuf] stores, still in network order. *)
Lemma read_tbuf_loop_spec n i fb cur e arr w :
  both_halted (w_nic w) -> fb = nic_reg (w_nic w) 0x68 -> 0 <= cur -> cur mod 4 = 0 -> cur + 4 * Z.of_nat n <= 2 ^ 32 - 4 ->
  0 <= e + i -> e + i + Z.of_nat n <= Z.of_nat (length arr) ->
  exists w' arr', read_tbuf_loop n i fb cur e arr w = Ok arr' w' /\ card_only w w' /\
    length arr' = length arr /\
    forall j, arr' !! j =
      if decide (e + i <= Z.of_nat j < e + i + Z.of_nat n)
      then Some (ntohl (nic_mem (w_nic w) (cur + 4 * (Z.of_nat j - e - i)))) else arr !! j.
Proof.
  revert i fb cur arr w. induction n as [|n IH]; intros i fb cur arr w Hh Hfb Hc0 Hc4 Hcn He Hl.
  { exists w, arr. split; [done|]. split; [done|]. split; [done|]. intros j.
    by rewrite decide_False by lia. }
  destruct (window_split cur) as [Hhi Hlo]; [unfold is_word; lia|].
  assert (exists w1, (if negb (Z.land cur 0xfffff800 =? fb)
                      then let frame_base := Z.land cur 0xfffff800 in
                           _ ← write_smem 0x68 (ntohl frame_base); mret frame_base
                      else mret fb) w = Ok (cur - cur mod 2048) w1 /\
            nic_reg (w_nic w1) 0x68 = cur - cur mod 2048 /\ card_only w w1) as (w1 & E1 & Hw1 & F1).
  { rewrite Hhi. destruct (Z.eqb_spec (cur - cur mod 2048) fb) as [E|E]; cbn [negb].
    - exists w. rewrite E. done.
    - destruct (write_window_spec w (cur - cur mod 2048)) as (w1 & E1 & ? & ?);
        [unfold is_word; div_lia|].
      exists w1. cbn zeta. by rewrite (bind_Ok _ _ _ _ _ E1). }
  cbn [read_tbuf_loop]. rewrite (bind_Ok _ _ _ _ _ E1). cbv beta. rewrite Hlo.
  destruct (read_smem_window w1 (cur mod 2048)) as (w2 & E2 & Hw2 & F2); [div_lia|div_lia|].
  rewrite (bind_Ok _ _ _ _ _ E2). cbv beta iota.
  rewrite Hw1, Z.sub_add, (co_mem _ _ F1 Hh).
  pose proof (co_halted _ _ F1 Hh) as Hh1. pose proof (co_halted _ _ F2 Hh1) as Hh2.
  rewrite (bind_Ok _ _ w2 (<[Z.to_nat (e + i) := ntohl (nic_mem (w_nic w) cur)]> arr) w2)
    by (unfold lift; by rewrite aset_ok by lia).
  assert (add32 cur 4 = cur + 4) as -> by (unfold add32; apply u32_small; unfold is_word; lia).
  destruct (IH (i + 1) (cur - cur mod 2048) (cur + 4)
    (<[Z.to_nat (e + i) := ntohl (nic_mem (w_nic w) cur)]> arr) w2)
    as (w' & arr' & Heq & F3 & Hlen & Hlk);
    [done|by rewrite Hw2|lia|div_lia|lia|lia|rewrite length_insert; lia|].
  exists w', arr'. split; [done|]. split; [by do 2 (etrans; [eassumption|])|].
  split; [by rewrite Hlen, length_insert|]. intros j. rewrite Hlk, (co_mem _ _ F2 Hh1), (co_mem _ _ F1 Hh).
  destruct (decide (Z.of_nat j = e + i)) as [Hj|Hj].
  - rewrite decide_False, decide_True by lia. replace (Z.to_nat (e + i)) with j by lia.
    rewrite list_lookup_insert_eq by lia. do 3 f_equal. lia.
  - destruct (decide (e + (i + 1) <= _ < _)).
    + rewrite decide_True by lia. do 3 f_equal. lia.
    + rewrite decide_False by lia. by rewrite list_lookup_insert_ne by lia.
Qed.

Lemma ntohl_loop_spec n i e arr :
  0 <= e + i -> e + i + Z.of_nat n <= Z.of_nat (length arr) ->
  exists arr', ntohl_loop n i e arr = Some arr' /\ length arr' = length arr /\
    forall j, arr' !! j =
      if decide (e + i <= Z.of_nat j < e + i + Z.of_nat n) then ntohl <$> arr !! j else arr !! j.
Proof.
  revert i arr. induction n as [|n IH]; intros i arr He Hl.
  { exists arr. split; [done|]. split; [done|]. intros j. by rewrite decide_False by lia. }
  cbn [ntohl_loop]. rewrite aget_cell, bind_Some_l, aset_ok, bind_Some_l by lia.
  destruct (IH (i + 1) (<[Z.to_nat (e + i) := ntohl (cell arr (e + i))]> arr))
    as (arr' & Heq & Hlen & Hlk); [lia|rewrite length_insert; lia|].
  exists arr'. split; [done|]. split; [by rewrite Hlen, length_insert|]. intros j. rewrite Hlk.
  destruct (decide (Z.of_nat j = e + i)) as [Hj|Hj].
  - rewrite decide_False, decide_True by lia. replace (e + i) with (Z.of_nat j) by lia.
    rewrite Nat2Z.id, list_lookup_insert_eq by lia.
    destruct (lookup_lt_is_Some_2 arr j) as [v Hv]; [lia|]. unfold cell.
    rewrite Nat2Z.id, (nth_lookup_Some _ _ _ _ Hv), Hv. done.
  - destruct (decide (e + (i + 1) <= _ < _)).
    + rewrite decide_True by lia. by rewrite list_lookup_insert_ne by lia.
    + rewrite decide_False by lia. by rewrite list_lookup_insert_ne by lia.
Qed.

Lemma read_tbuf_spec off e arr w :
  both_halted (w_nic w) -> 0 <= off -> off mod 4 = 0 -> off + 32 <= 2 ^ 32 - 4 ->
  0 <= e -> e + 8 <= Z.of_nat (length arr) ->
  exists w' arr', read_tbuf off e arr w = Ok arr' w' /\ card_only w w' /\
    length arr' = length arr /\
    forall j, arr' !! j = if decide (e <= Z.of_nat j < e + 8)
                          then Some (nic_mem (w_nic w) (off + 4 * (Z.of_nat j - e))) else arr !! j.
Proof.
  intros Hh Ho Ho4 Ho2 He Hl. unfold read_tbuf.
  destruct (read_reg_card w 0x68) as (w1 & E1 & Hw1 & F1); [lia|done|].
  rewrite (bind_Ok _ _ _ _ _ E1). cbv beta iota. unfold htonl.
  rewrite ntohl_ntohl by apply nic_reg_u32.
  destruct (read_tbuf_loop_spec 8 0 (nic_reg (w_nic w) 0x68) off e arr w1)
    as (w2 & arr2 & E2 & F2 & Hl2 & Hlk2); [by apply (co_halted _ _ F1)|by rewrite Hw1|done|done|lia|lia|lia|].
  cbn zeta. rewrite (bind_Ok _ _ _ _ _ E2).
  destruct (ntohl_loop_spec 8 0 e arr2) as (arr3 & E3 & Hl3 & Hlk3); [lia|lia|].
  exists w2, arr3. unfold lift. rewrite E3. split; [done|]. split; [by etrans|].
  split; [lia|]. intros j. rewrite Hlk3, Hlk2, (co_mem _ _ F1 Hh). rewrite !Z.add_0_r.
  change (Z.of_nat 8) with 8. destruct (decide (e <= Z.of_nat j < e + 8)); [|done].
  cbn [fmap option_fmap option_map]. rewrite ntohl_ntohl by apply nic_mem_u32.
  by rewrite Z.sub_0_r.
Qed.

Lemma dump_loop_spec k fuel p e arr w :
  both_halted (w_nic w) -> (k <= fuel)%nat -> 0 <= p -> p mod 4 = 0 -> p + 32 * Z.of_nat k <= 2 ^ 32 - 4 ->
  0 <= e -> e + 8 * Z.of_nat k <= Z.of_nat (length arr) ->
  exists w' arr', dump_loop fuel p (p + 32 * Z.of_nat k) e arr w = Ok arr' w' /\ card_only w w' /\
    length arr' = length arr /\
    forall j, arr' !! j = if decide (e <= Z.of_nat j < e + 8 * Z.of_nat k)
                          then Some (nic_mem (w_nic w) (p + 4 * (Z.of_nat j - e))) else arr !! j.
Proof.
  revert fuel p e arr w. induction k as [|k IH]; intros fuel p e arr w Hh Hk Hp Hp4 Hp2 He Hl.
  { exists w, arr. assert ((p <? p + 32 * Z.of_nat 0) = false) as Hlt by (apply Z.ltb_ge; lia).
    destruct fuel; cbn [dump_loop]; rewrite Hlt;
      (split; [done|split; [done|split; [done|]]]; intros j; by rewrite decide_False by lia). }
  destruct fuel as [|fuel]; [lia|]. cbn [dump_loop].
  assert ((p <? p + 32 * Z.of_nat (S k)) = true) as -> by (apply Z.ltb_lt; lia).
  destruct (read_tbuf_spec p e arr w) as (w1 & arr1 & E1 & F1 & Hl1 & Hlk1); try done; try lia.
  rewrite (bind_Ok _ _ _ _ _ E1).
  assert (add32 p 32 = p + 32) as -> by (unfold add32; apply u32_small; unfold is_word; lia).
  destruct (IH fuel (p + 32) (e + 8) arr1 w1) as (w' & arr' & E2 & F2 & Hl2 & Hlk2);
    [by apply (co_halted _ _ F1)|lia|lia|div_lia|lia|lia|lia|].
  replace (p + 32 * Z.of_nat (S k)) with (p + 32 + 32 * Z.of_nat k) by lia.
  exists w', arr'. split; [done|]. split; [by etrans|]. split; [lia|]. intros j.
  rewrite Hlk2, Hlk1, (co_mem _ _ F1 Hh).
  repeat case_decide; try lia; try done. do 2 f_equal. lia.
Qed.

End Dump.

(** ** The pieces of [main] *)

(** The part of the memory of the card that is attested. *)
Definition image {N} `{!Nic N} `{!WindowedNic N} (n : N) : list Z :=
  (fun i => nic_mem n (SWATT_BASE + 4 * i)) <$> seqZ 0 768.

Lemma image_ok {N} `{!Nic N} `{!WindowedNic N} (n : N) : buf_ok (image n).
Proof.
  split; [unfold image; by rewrite length_fmap, length_seqZ|].
  apply Forall_fmap, Forall_seqZ. intros i _. apply nic_mem_u32.
Qed.

Lemma words_of_bytes_of_words arr :
  Forall is_u32 arr -> words_of_bytes (length arr) (bytes_of_words arr) = arr.
Proof.
  induction 1 as [|x arr Hx _ IH]; [done|]. unfold bytes_of_words in *. cbn [length words_of_bytes].
  rewrite bind_cons, take_app_length', drop_app_length' by (by rewrite length_le_split).
  rewrite IH, le_combine_split. f_equal. by apply Z.mod_small.
Qed.

Lemma length_bytes_of_words arr : length (bytes_of_words arr) = (4 * length arr)%nat.
Proof.
  induction arr as [|x arr IH]; [done|]. unfold bytes_of_words in *.
  rewrite bind_cons, length_app, IH, length_le_split. simpl. lia.
Qed.

Section Prepare.
Context {N : Type} `{!Nic N} `{!WindowedNic N}.
Implicit Types w : world N.

(** Steps that leave the card alone. *)
Definition set_g w (g : globals) : world N :=
  mk_world (w_nic w) (w_req w) g (w_file w) (w_log w) (w_out w).

Lemma dump_swatt_code_spec w :
  both_halted (w_nic w) -> length (h_swatt_buf (w_globals w)) = 768%nat ->
  exists w', dump_swatt_code SWATT_BASE FW_SIZE w = Ok tt w' /\
    card_only (set_g w (set_swatt_buf (w_globals w) (image (w_nic w)))) w'.
Proof.
  intros Hh Hl. unfold dump_swatt_code. rewrite (bind_Ok _ _ w w w) by done.
  change (add32 SWATT_BASE FW_SIZE) with (SWATT_BASE + 32 * Z.of_nat 96).
  destruct (dump_loop_spec 96 (Z.to_nat (FW_SIZE / 32 + 1)) SWATT_BASE 0
    (h_swatt_buf (w_globals w)) w) as (w1 & arr & E & F & Hlen & Hlk);
    [done|unfold FW_SIZE; lia|done|done|done|done|rewrite Hl; done|].
  rewrite (bind_Ok _ _ _ _ _ E), (bind_Ok _ _ w1 w1 w1) by done.
  eexists. split; [reflexivity|].
  assert (arr = image (w_nic w)) as ->.
  { apply list_eq. intros j. rewrite Hlk. unfold image. rewrite list_lookup_fmap.
    change (8 * Z.of_nat 96) with 768. case_decide as Hj.
    - rewrite lookup_seqZ_lt by lia. cbn. do 2 f_equal. lia.
    - rewrite lookup_seqZ_ge by lia. apply lookup_ge_None_2. lia. }
  destruct F as [Hg Hf Ho Hhl Hm Hc]. split; cbn; try done. by rewrite Hg.
Qed.

(** Writing fw.bin and reading it back leaves the array as it was. *)
Lemma file_roundtrip io w :
  can_write io = true -> can_read io = true -> (forall n, fread_count io n = n) ->
  buf_ok (h_swatt_buf (w_globals w)) ->
  (_ ← save_swatt_code io; read_swatt_code io) w
  = Ok tt (mk_world (w_nic w) (w_req w) (w_globals w)
             (Some (bytes_of_words (h_swatt_buf (w_globals w)))) (w_log w) (w_out w)).
Proof.
  intros Hw Hr Hf [Hl Hu]. pose proof (length_bytes_of_words (h_swatt_buf (w_globals w))) as Hlb.
  rewrite Hl in Hlb.
  set (f := bytes_of_words (h_swatt_buf (w_globals w))) in *.
  set (w1 := mk_world (w_nic w) (w_req w) (w_globals w) (Some f) (w_log w) (w_out w)).
  rewrite (bind_Ok _ _ w tt w1).
  2: { unfold save_swatt_code. rewrite (bind_Ok _ _ w w w) by done. rewrite Hw.
       rewrite take_ge by (fold f; rewrite Hlb; done). done. }
  unfold read_swatt_code. rewrite (bind_Ok _ _ w1 w1 w1) by done.
  rewrite (bind_Ok _ _ w1 (replicate 768 0) w1)
    by (unfold lift; by rewrite array_zero_all).
  rewrite (bind_Ok _ _ w1 tt (set_g w1 (set_swatt_buf (w_globals w) (replicate 768 0)))) by done.
  rewrite Hr. rewrite (bind_Ok _ _ _ f (set_g w1 (set_swatt_buf (w_globals w) (replicate 768 0))))
    by done.
  rewrite Hlb. change (Z.of_nat (4 * 768)) with FW_SIZE. rewrite Z.eqb_refl. cbn [negb].
  rewrite Hf, Z.eqb_refl. cbn [negb].
  rewrite take_ge, drop_ge, app_nil_r
    by (rewrite ?length_bytes_of_words, ?length_replicate, ?Hlb; done).
  change (Z.to_nat (FW_SIZE / 4)) with 768%nat. rewrite <- Hl at 1. unfold f at 1.
  rewrite words_of_bytes_of_words by done.
  by destruct w as [n q [] fl lg o].
Qed.

(** Requests before the dump: they write the state registers of the CPUs as [l] says,
    and read no memory. *)
Record cpu_step w w' (l : list (Z * Z)) : Prop := {
  cs_globals : w_globals w' = w_globals w;
  cs_file : w_file w' = w_file w;
  cs_out : w_out w' = w_out w;
  cs_window : nic_reg (w_nic w') 0x68 = nic_reg (w_nic w) 0x68;
  cs_halted c : cpu_reg c -> halted (nic_reg (w_nic w)) c ->
    (forall v, (c, v) ∈ l -> Z.testbit v 16 = true) -> halted (nic_reg (w_nic w')) c;
  cs_log : exists rs, w_log w' = w_log w ++ rs /\ cpu_writes rs = l /\ window_reads rs = [] }.

Lemma cpu_step_trans w1 w2 w3 l1 l2 :
  cpu_step w1 w2 l1 -> cpu_step w2 w3 l2 -> cpu_step w1 w3 (l1 ++ l2).
Proof.
  intros [? ? ? ? Hh (r1 & E1 & C1 & W1)] [? ? ? ? Hh' (r2 & E2 & C2 & W2)].
  split; [congruence..| |].
  - intros c Hc Hc1 Hv. apply Hh'; [done| |]; [apply Hh; [done..|]|]; intros v Hin; apply Hv;
      rewrite elem_of_app; auto.
  - exists (r1 ++ r2). by rewrite E2, E1, <- app_assoc, cpu_writes_app, window_reads_app, C1, C2, W1, W2.
Qed.

Lemma cpu_step_read w o :
  0 <= o < 0x800 -> o mod 4 = 0 ->
  exists w', read_smem o w = Ok (true, ntohl (nic_reg (w_nic w) o)) w' /\ cpu_step w w' [].
Proof.
  intros Ho Hm. destruct (read_smem_reg w o Ho Hm) as (w' & d & E & ? & ? & ? & Hl & [Hwin Hh _]). exists w'.
  split; [done|]. split; try done; [by auto|]. eexists. split; [exact Hl|].
  split; [done|]. unfold window_reads. rewrite filter_cons_False; [done|]. intros [_ Hr]. cbn in Hr. lia.
Qed.

Lemma cpu_step_write w o v :
  cpu_reg o -> is_u32 v ->
  exists w', write_smem o (ntohl v) w = Ok true w' /\ cpu_step w w' [(o, v)] /\
    (Z.testbit v 16 = true -> halted (nic_reg (w_nic w')) o) /\
    w_log w' = w_log w ++ [(ACENIC_IOCTL_WRITE_SMEM, o, v)].
Proof.
  intros Ho Hv.
  destruct (write_smem_spec w o v) as (w' & E & Hr & ? & ? & ? & Hc & _ & Hlog);
    [by destruct Ho as [-> | ->]|by destruct Ho as [-> | ->]|done|].
  exists w'. split; [done|]. split; [split; try done|split; [|done]].
  - rewrite Hr. by destruct Ho as [-> | ->].
  - intros c Hcr Hh Hl. apply Hc; [done|]. destruct (Z.eqb_spec o c) as [->|]; [|done].
    apply Hl. by left.
  - eexists. split; [exact Hlog|]. unfold cpu_writes, window_reads.
    rewrite filter_cons_True by (split; done). split; [done|].
    rewrite filter_cons_False; [done|]. by intros [Hr2 _].
  - intros Ht. apply Hc; [done|]. by rewrite Z.eqb_refl.
Qed.

Lemma halt_u32 x : is_u32 x -> is_u32 (Z.lor x 0x10000) /\ is_u32 (Z.land x (not32 0x10000)).
Proof.
  intros Hx. split; [apply is_u32_lor|apply is_u32_land]; try done;
    unfold is_word, not32; lia.
Qed.

Lemma halt_bit x : Z.testbit (Z.lor x 0x10000) 16 = true.
Proof. rewrite Z.lor_spec. apply orb_true_r. Qed.

(** The request that halts CPU A *)
Definition halt_a (o : Z) : host N bool :=
  _ ← read_smem 0x140; write_smem 0x140 (ntohl (Z.lor o 0x10000)).

Lemma stop_cpus_spec w :
  let o := nic_reg (w_nic w) 0x140 in
  exists wa w', halt_a o w = Ok true wa /\
    let ob := nic_reg (w_nic wa) 0x240 in
    stop_cpus w = Ok (o, ob, nic_reg (w_nic w) 0x68) w' /\ both_halted (w_nic w') /\
    cpu_step w w' [(0x140, Z.lor o 0x10000); (0x240, Z.lor ob 0x10000)].
Proof.
  intros o. destruct (cpu_step_read w 0x140) as (w1 & E1 & F1); [lia|done|]. fold o in E1.
  assert (is_u32 o) as Hou by apply nic_reg_u32.
  destruct (cpu_step_write w1 0x140 (Z.lor o 0x10000)) as (w2 & E2 & F2 & Ha & _);
    [by left|by apply halt_u32|].
  set (ob := nic_reg (w_nic w2) 0x240). assert (is_u32 ob) as Hobu by apply nic_reg_u32.
  destruct (cpu_step_read w2 0x240) as (w3 & E3 & F3); [lia|done|]. fold ob in E3.
  destruct (cpu_step_write w3 0x240 (Z.lor ob 0x10000)) as (w4 & E4 & F4 & Hb & _);
    [by right|by apply halt_u32|].
  destruct (cpu_step_read w4 0x144) as (w5 & E5 & F5); [lia|done|].
  destruct (cpu_step_read w5 0x244) as (w6 & E6 & F6); [lia|done|].
  destruct (cpu_step_read w6 0x1f4) as (w7 & E7 & F7); [lia|done|].
  destruct (cpu_step_read w7 0x2f4) as (w8 & E8 & F8); [lia|done|].
  destruct (cpu_step_read w8 0x68) as (w9 & E9 & F9); [lia|done|].
  pose proof (cpu_step_trans _ _ _ _ _ F1 F2) as G12. pose proof (cpu_step_trans _ _ _ _ _ F3 F4) as G34.
  pose proof (cpu_step_trans _ _ _ _ _ (cpu_step_trans _ _ _ _ _ F5 F6)
    (cpu_step_trans _ _ _ _ _ F7 F8)) as G8.
  pose proof (cpu_step_trans _ _ _ _ _ (cpu_step_trans _ _ _ _ _ G12 G34) G8) as G48.
  pose proof (cpu_step_trans _ _ _ _ _ G8 F9) as G89.
  exists w2, w9. split; [unfold halt_a; by rewrite (bind_Ok _ _ _ _ _ E1)|]. cbv zeta. fold ob.
  split; [|split; [split; (apply (cs_halted _ _ _ G89); [unfold cpu_reg; auto| |by intros v ?%elem_of_nil])|]].
  - unfold stop_cpus. rewrite (bind_Ok _ _ _ _ _ E1). cbv beta iota. cbn [negb]. cbv zeta.
    rewrite ntohl_ntohl by done. rewrite (bind_Ok _ _ _ _ _ E2). cbn [negb].
    rewrite (bind_Ok _ _ _ _ _ E3). cbv beta iota. cbn [negb]. cbv zeta.
    rewrite ntohl_ntohl by done. rewrite (bind_Ok _ _ _ _ _ E4). cbn [negb].
    rewrite (bind_Ok _ _ _ _ _ E5), (bind_Ok _ _ _ _ _ E6), (bind_Ok _ _ _ _ _ E7),
      (bind_Ok _ _ _ _ _ E8), (bind_Ok _ _ _ _ _ E9). cbv beta iota.
    unfold htonl. by rewrite ntohl_ntohl, (cs_window _ _ _ G48) by apply nic_reg_u32.
  - apply (cs_halted _ _ _ G34); [by left|apply Ha, halt_bit|].
    intros v [[=]|?%elem_of_nil]%elem_of_cons; done.
  - apply Hb, halt_bit.
  - exact (cpu_step_trans _ _ _ _ _ G48 F9).
Qed.

(** The global arrays have their declared sizes and hold words. *)
Record globals_ok (g : globals) : Prop := {
  go_buf : length (h_swatt_buf g) = 768%nat;
  go_buf_s : length (h_swatt_buf_s g) = 768%nat;
  go_pool : length (h_nonce_pool g) = 300%nat /\ Forall is_u32 (h_nonce_pool g);
  go_reg : length (h_reg g) = 32%nat /\ Forall is_u32 (h_reg g);
  go_reg_state : length (h_reg_state g) = 32%nat;
  go_checksum : length (h_checksum g) = 300%nat;
  go_mm : length (h_mm g) = 768%nat;
  go_mm_s : length (h_mm_s g) = 768%nat }.

Definition cleared (g : globals) : globals :=
  mk_globals (replicate 768 0) (replicate 768 0) (h_nonce_pool g) (h_reg g) (h_reg_state g)
    (h_checksum g) (replicate 768 0) (replicate 768 0) (h_nonce_count g).

Lemma call_init_buf_spec w :
  globals_ok (w_globals w) -> call_init_buf w = Ok tt (set_g w (cleared (w_globals w))).
Proof.
  intros []. unfold call_init_buf. rewrite (bind_Ok _ _ w w w) by done.
  rewrite (bind_Ok _ _ w (replicate 768 0, replicate 768 0, replicate 768 0, replicate 768 0) w);
    [done|].
  unfold lift, init_buf. rewrite init_buf_loop_eq. change (Z.to_nat (FW_SIZE / 4)) with 768%nat.
  rewrite !array_zero_all, !bind_Some_l by done. done.
Qed.

(** What the pairs are computed from and what they are. *)
Record pairs_of (buf : list Z) (g g' : globals) : Prop := {
  po_buf : h_swatt_buf g' = buf;
  po_pairs : exists s s',
    generate_nonce buf (h_reg g) (h_reg_state g) (replicate 768 0) (replicate 768 0)
      (h_nonce_pool g) rand_init = Some s /\
    checksum_simulator buf (g_reg s) (replicate 768 0) (g_nonce_pool s) (g_nonce_count s)
      (h_checksum g) = Some s' /\
    h_nonce_pool g' = g_nonce_pool s /\ h_nonce_count g' = g_nonce_count s /\
    h_checksum g' = s_checksum s' }.

Lemma compute_pairs_spec w g :
  globals_ok g -> buf_ok (h_swatt_buf (w_globals w)) ->
  w_globals w = set_swatt_buf (cleared g) (h_swatt_buf (w_globals w)) ->
  exists g', (_ ← call_generate_nonce rand_init; call_checksum_simulator) w = Ok tt (set_g w g') /\
    pairs_of (h_swatt_buf (w_globals w)) g g'.
Proof.
  intros Hg Hbuf Hw. generalize dependent (h_swatt_buf (w_globals w)). intros buf Hbuf Hw.
  assert (gen_pre buf (h_reg g) (h_reg_state g) (replicate 768 0) (replicate 768 0)
            (h_nonce_pool g)) as Hpre.
  { destruct Hg. split; try done. split; [|split]; try apply zero_marks_ok. done. }
  destruct (generate_nonce_inv _ _ _ _ _ _ Hpre) as (s & Hs & _).
  pose proof (generated_pre _ _ _ _ _ _ _ (replicate 768 0) (h_checksum g) Hpre Hs zero_marks_ok
    (go_checksum _ Hg)) as Hsp.
  destruct (checksum_simulator_inv _ _ _ _ _ _ Hsp) as (s' & Hs' & _).
  set (g1 := mk_globals buf (replicate 768 0) (g_nonce_pool s) (g_reg s) (g_reg_state s)
               (h_checksum g) (g_mm s) (g_mm_s s) (g_nonce_count s)).
  rewrite (bind_Ok _ _ w tt (set_g w g1)).
  2: { unfold call_generate_nonce. rewrite (bind_Ok _ _ w w w) by done. rewrite Hw.
       cbn [set_swatt_buf cleared h_swatt_buf h_swatt_buf_s h_reg h_reg_state h_mm h_mm_s
            h_nonce_pool h_checksum].
       by rewrite (bind_Ok _ _ w s w) by (unfold lift; by rewrite Hs). }
  unfold call_checksum_simulator. rewrite (bind_Ok _ _ (set_g w g1) (set_g w g1) (set_g w g1)) by done.
  cbn [set_g w_globals g1 h_swatt_buf h_swatt_buf_s h_reg h_reg_state h_mm h_mm_s h_nonce_pool
       h_checksum h_nonce_count].
  rewrite (bind_Ok _ _ (set_g w g1) s' (set_g w g1)) by (unfold lift; by rewrite Hs').
  eexists. split; [reflexivity|]. split; [done|]. exists s, s'. done.
Qed.

Lemma bind_assoc {A B C} (m : host N A) (k : A -> host N B) (h : B -> host N C) w :
  (m ≫= (fun a => k a ≫= h)) w = ((m ≫= k) ≫= h) w.
Proof. unfold mbind, host_bind. by destruct (m w). Qed.

(** The world in which [main] has cleared the request. *)
Definition fresh_req w : world N :=
  mk_world (w_nic w) (mk_req 0 0 0 (replicate 300 0) (replicate 300 0) (replicate 5 0))
    (w_globals w) (w_file w) (w_log w) (w_out w).

(** The middle part of [main_prepare], from the initialisation on to the pairs. *)
Definition dump_and_compute (io : file_io) (o_frame_base : Z) : host N unit :=
  _ ← call_init_buf;
  _ ← dump_swatt_code SWATT_BASE FW_SIZE;
  _ ← write_smem 0x68 (ntohl o_frame_base);
  _ ← save_swatt_code io;
  _ ← read_swatt_code io;
  _ ← call_generate_nonce rand_init;
  call_checksum_simulator.

Lemma dump_and_compute_spec io fb w :
  can_write io = true -> can_read io = true -> (forall n, fread_count io n = n) ->
  globals_ok (w_globals w) -> both_halted (w_nic w) -> is_u32 fb ->
  exists w', dump_and_compute io fb w = Ok tt w' /\
    pairs_of (image (w_nic w)) (w_globals w) (w_globals w') /\
    nic_reg (w_nic w') 0x68 = fb /\
    exists l, w_log w' = w_log w ++ l /\ cpu_writes l = [].
Proof.
  intros Hcw Hcr Hfr Hg Hh Hfb. unfold dump_and_compute.
  rewrite (bind_Ok _ _ w tt (set_g w (cleared (w_globals w)))) by (by apply call_init_buf_spec).
  destruct (dump_swatt_code_spec (set_g w (cleared (w_globals w)))) as (w2 & E2 & F2);
    [done|by apply length_replicate|].
  rewrite (bind_Ok _ _ _ _ _ E2). destruct (write_window_spec w2 fb) as (w3 & E3 & Hwin & F3); [done|].
  rewrite (bind_Ok _ _ _ _ _ E3).
  assert (w_globals w3 = set_swatt_buf (cleared (w_globals w)) (image (w_nic w))) as Kg
    by (by rewrite (co_globals _ _ F3), (co_globals _ _ F2)).
  rewrite bind_assoc, (bind_Ok _ _ w3 tt _ (file_roundtrip io w3 Hcw Hcr Hfr
    ltac:(rewrite Kg; apply image_ok))).
  set (w4 := mk_world _ _ _ _ _ _).
  destruct (compute_pairs_spec w4 (w_globals w) Hg) as (g' & E5 & Hpairs);
    [cbn [w4 w_globals]; rewrite Kg; apply image_ok|cbn [w4 w_globals]; by rewrite Kg|].
  rewrite E5. eexists. split; [done|]. cbn [set_g w4 w_globals w_nic w_log] in *. rewrite Kg in Hpairs.
  split; [done|]. split; [done|].
  destruct (co_log _ _ F2) as (l2 & L2 & C2), (co_log _ _ F3) as (l3 & L3 & C3).
  cbn [set_g w_log] in L2. exists (l2 ++ l3). by rewrite L3, L2, <- app_assoc, cpu_writes_app, C2, C3.
Qed.

Lemma main_prepare_eq io w :
  main_prepare io w =
  ('(o, ob, fb) ← stop_cpus;
   _ ← dump_and_compute io fb;
   _ ← write_smem 0x140 (ntohl (Z.land o (not32 0x10000)));
   _ ← write_smem 0x240 (ntohl (Z.land ob (not32 0x10000)));
   mret tt) (fresh_req w).
Proof.
  unfold main_prepare. rewrite (bind_Ok _ _ w tt (fresh_req w)) by done.
  unfold dump_and_compute, mbind, host_bind.
  destruct (stop_cpus (fresh_req w)) as [[[o ob] fb] w1|code w1|]; [|done..].
  destruct (call_init_buf w1) as [[] w2|code w2|]; [|done..].
  destruct (dump_swatt_code SWATT_BASE FW_SIZE w2) as [[] w3|code w3|]; [|done..].
  destruct (write_smem 0x68 (ntohl fb) w3) as [? w4|code w4|]; [|done..].
  destruct (save_swatt_code io w4) as [[] w5|code w5|]; [|done..].
  destruct (read_swatt_code io w5) as [[] w6|code w6|]; [|done..].
  by destruct (call_generate_nonce rand_init w6).
Qed.

End Prepare.

(** ** Where [main] gives up *)

Create HintDb exits.

Section Exits.
Context {N : Type} `{!Nic N}.
Implicit Types w : world N.

(** A computation that returns or has undefined behaviour, but does not leave the
    process. *)
Definition no_exit {A} (m : host N A) : Prop := forall w code w', m w <> Exit code w'.

Lemma no_exit_bind {A B} (m : host N A) (k : A -> host N B) :
  no_exit m -> (forall a, no_exit (k a)) -> no_exit (m ≫= k).
Proof.
  intros Hm Hk w code w'. unfold mbind, host_bind. destruct (m w) as [a w1|c w1|] eqn:E; [|by destruct (Hm w c w1)|done].
  apply Hk.
Qed.

Lemma no_exit_ret {A} (a : A) : no_exit (mret a).
Proof. done. Qed.
Lemma no_exit_lift {A} (o : option A) : no_exit (lift o).
Proof. intros w code w'. by destruct o. Qed.
Lemma no_exit_get : no_exit get.
Proof. done. Qed.
Lemma no_exit_put_globals g : no_exit (put_globals g).
Proof. done. Qed.
Lemma no_exit_put_file f : no_exit (put_file f).
Proof. done. Qed.

Lemma read_smem_Ok o w : exists ok v d w', read_smem o w = Ok (ok, v) w' /\
  w_globals w' = w_globals w /\ w_file w' = w_file w /\ w_log w' = w_log w ++ [(ACENIC_IOCTL_READ_SMEM, o, d)].
Proof.
  unfold read_smem, mbind, host_bind, set_cardoffset, put_req, ioctl. cbn [w_req w_nic].
  destruct (nic_ioctl _ _ _) as [[rc q] n]. cbn. destruct (negb (rc =? 0)); by eexists _, _, _, _.
Qed.

Lemma write_smem_Ok o v w : exists ok w', write_smem o v w = Ok ok w' /\
  w_globals w' = w_globals w /\ w_file w' = w_file w /\
  w_log w' = w_log w ++ [(ACENIC_IOCTL_WRITE_SMEM, o, other_endian v)].
Proof.
  unfold write_smem, mbind, host_bind, set_cardoffset, set_data, put_req, ioctl.
  cbn [w_req w_nic cardoffset HostTool.data].
  destruct (nic_ioctl _ _ _) as [[rc q] n]. cbn. destruct (negb (rc =? 0)); by eexists _, _.
Qed.

Lemma no_exit_read_smem o : no_exit (read_smem o).
Proof. intros w code w'. destruct (read_smem_Ok o w) as (? & ? & ? & ? & -> & _). done. Qed.
Lemma no_exit_write_smem o v : no_exit (write_smem o v).
Proof. intros w code w'. destruct (write_smem_Ok o v w) as (? & ? & -> & _). done. Qed.

Hint Resolve no_exit_ret no_exit_lift no_exit_get no_exit_put_globals no_exit_put_file no_exit_read_smem
  no_exit_write_smem : exits.
Ltac no_exit :=
  repeat first [ solve [auto with exits] | apply no_exit_bind; [|intros ?] | progress case_match ].

Lemma no_exit_read_tbuf_loop n i fb cur e arr : no_exit (read_tbuf_loop n i fb cur e arr).
Proof. revert i fb cur arr. induction n as [|n IH]; intros i fb cur arr; cbn [read_tbuf_loop]; no_exit. Qed.
Lemma no_exit_read_tbuf off e arr : no_exit (read_tbuf off e arr).
Proof. unfold read_tbuf. pose proof no_exit_read_tbuf_loop. no_exit. Qed.
Lemma no_exit_dump_loop fuel p tend e arr : no_exit (dump_loop fuel p tend e arr).
Proof.
  revert p e arr. induction fuel as [|fuel IH]; intros p e arr; cbn [dump_loop];
    pose proof no_exit_read_tbuf; no_exit.
Qed.

Lemma no_exit_dump_and_compute io fb : no_exit (dump_and_compute io fb).
Proof.
  unfold dump_and_compute, call_init_buf, dump_swatt_code, save_swatt_code, read_swatt_code,
    call_generate_nonce, call_checksum_simulator. pose proof no_exit_dump_loop. no_exit.
Qed.

(** The word that reaches the card when [main] sets the halt bit of a state register. *)
Lemma halt_word x : Z.testbit (other_endian (ntohl (Z.lor x 0x10000))) 16 = true.
Proof.
  rewrite other_endian_eq by apply ntohl_u32.
  assert (E : ntohl (Z.lor x 0x10000) = ntohl (u32 (Z.lor x 0x10000))).
  { unfold ntohl, bswap32. do 2 f_equal. unfold u32.
    change (2 ^ 32) with (2 ^ (8 * Z.of_nat 4)). rewrite <- le_combine_split.
    symmetry. rewrite <- (length_le_split 4 (Z.lor x 0x10000)) at 1. apply le_split_combine, le_split_u8. }
  rewrite E, ntohl_ntohl by apply is_u32_u32. unfold u32. rewrite Z.mod_pow2_bits_low, Z.lor_spec by lia.
  apply orb_true_r.
Qed.

(** The requests made so far are the first of the four that halt the CPUs, with the halt
    bit set in what is written, and nothing else has happened. *)
Definition gave_up w w' : Prop :=
  w_globals w' = w_globals w /\ w_file w' = w_file w /\
  exists d va db vb, Z.testbit va 16 = true /\ Z.testbit vb 16 = true /\
    exists k, (1 <= k <= 4)%nat /\ w_log w' = w_log w ++ take k
      [(ACENIC_IOCTL_READ_SMEM, 0x140, d); (ACENIC_IOCTL_WRITE_SMEM, 0x140, va);
       (ACENIC_IOCTL_READ_SMEM, 0x240, db); (ACENIC_IOCTL_WRITE_SMEM, 0x240, vb)].

Lemma stop_cpus_exits w code w' : stop_cpus w = Exit code w' -> code = -1 /\ gave_up w w'.
Proof.
  unfold stop_cpus.
  destruct (read_smem_Ok 0x140 w) as (ok1 & o & d & w1 & E1 & G1 & F1 & L1).
  rewrite (bind_Ok _ _ _ _ _ E1). cbv beta iota zeta.
  set (va := ntohl (Z.lor (ntohl o) 0x10000)).
  destruct (write_smem_Ok 0x140 va w1) as (ok2 & w2 & E2 & G2 & F2 & L2).
  destruct (read_smem_Ok 0x240 w2) as (ok3 & ob & db & w3 & E3 & G3 & F3 & L3).
  set (vb := ntohl (Z.lor (ntohl ob) 0x10000)).
  destruct (write_smem_Ok 0x240 vb w3) as (ok4 & w4 & E4 & G4 & F4 & L4).
  assert (forall wk k, w_globals wk = w_globals w -> w_file wk = w_file w -> (1 <= k <= 4)%nat ->
    w_log wk = w_log w ++ take k
      [(ACENIC_IOCTL_READ_SMEM, 0x140, d); (ACENIC_IOCTL_WRITE_SMEM, 0x140, other_endian va);
       (ACENIC_IOCTL_READ_SMEM, 0x240, db); (ACENIC_IOCTL_WRITE_SMEM, 0x240, other_endian vb)] ->
    exit (A := Z * Z * Z) (-1) wk = Exit code w' -> code = -1 /\ gave_up w w') as Hexit.
  { intros wk k Hg Hf Hk Hl Hx. injection Hx as <- <-. unfold gave_up. split_and!; try done.
    exists d, (other_endian va), db, (other_endian vb). split; [apply halt_word|].
    split; [apply halt_word|]. by exists k. }
  destruct ok1; cbn [negb]; [|apply (Hexit w1 1%nat); try done; lia].
  rewrite (bind_Ok _ _ _ _ _ E2).
  destruct ok2; cbn [negb]; [|apply (Hexit w2 2%nat); [congruence|congruence|lia|by rewrite L2, L1, <- app_assoc]].
  rewrite (bind_Ok _ _ _ _ _ E3). cbv beta iota zeta. fold vb.
  destruct ok3; cbn [negb]; [|apply (Hexit w3 3%nat); [congruence|congruence|lia|by rewrite L3, L2, L1, <- !app_assoc]].
  rewrite (bind_Ok _ _ _ _ _ E4).
  destruct ok4; cbn [negb]; [|apply (Hexit w4 4%nat); [congruence|congruence|lia|by rewrite L4, L3, L2, L1, <- !app_assoc]].
  intros Hx. exfalso. revert Hx. apply (no_exit_bind (A := bool * Z)); [auto with exits|]. intros ?. no_exit.
Qed.

End Exits.

(** The copy of the pairs into the request. *)
Lemma copy_pairs_spec n i g nonce checksum :
  0 <= i -> i + Z.of_nat n <= 300 ->
  length (h_nonce_pool g) = 300%nat -> length (h_checksum g) = 300%nat ->
  length nonce = 300%nat -> length checksum = 300%nat ->
  exists nonce' checksum', copy_pairs n i g nonce checksum = Some (nonce', checksum') /\
    length nonce' = 300%nat /\ length checksum' = 300%nat /\
    forall j, (nonce' !! j = if decide (i <= Z.of_nat j < i + Z.of_nat n)
                             then h_nonce_pool g !! j else nonce !! j) /\
              (checksum' !! j = if decide (i <= Z.of_nat j < i + Z.of_nat n)
                                then fst <$> h_checksum g !! j else checksum !! j).
Proof.
  revert i nonce checksum. induction n as [|n IH]; intros i nonce checksum Hi Hn Hp Hc Hln Hlc.
  { exists nonce, checksum. split_and!; try done. intros j. by rewrite !decide_False by lia. }
  cbn [copy_pairs]. rewrite aget_cell, bind_Some_l, aset_ok, bind_Some_l by lia.
  destruct (lookup_lt_is_Some_2 (h_checksum g) (Z.to_nat i)) as [c Hck]; [lia|].
  assert (aget (h_checksum g) i = Some c) as ->.
  { unfold aget. by rewrite (proj2 (Z.leb_le 0 i)) by lia. }
  rewrite bind_Some_l, aset_ok, bind_Some_l by lia.
  destruct (IH (i + 1) (<[Z.to_nat i := cell (h_nonce_pool g) i]> nonce) (<[Z.to_nat i := c.1]> checksum))
    as (nonce' & checksum' & -> & ? & ? & Hlk); rewrite ?length_insert; try lia.
  exists nonce', checksum'. split_and!; try done. intros j. destruct (Hlk j) as [Hj1 Hj2].
  rewrite Hj1, Hj2. destruct (decide (Z.of_nat j = i)) as [E|E].
  - do 2 (rewrite decide_False, decide_True by lia). replace (Z.to_nat i) with j in * by lia.
    rewrite !list_lookup_insert_eq by lia. rewrite Hck. split; [|done].
    destruct (lookup_lt_is_Some_2 (h_nonce_pool g) j) as [v Hv]; [lia|]. unfold cell.
    rewrite <- E, Nat2Z.id, (nth_lookup_Some _ _ _ _ Hv). done.
  - destruct (decide (i + 1 <= _ < _)).
    + by do 2 (rewrite decide_True by lia).
    + do 2 (rewrite decide_False by lia). by rewrite !list_lookup_insert_ne by lia.
Qed.

(** ** Properties *)

(** [other_endian] reverses the four bytes of a word, and undoes itself. *)
Theorem other_endian_reverses x :
  is_u32 x ->
  le_split 4 (other_endian x) = rev (le_split 4 x) /\ other_endian (other_endian x) = x.
Proof.
  intros Hx. rewrite (other_endian_eq x), (other_endian_eq (ntohl x)) by (done || apply ntohl_u32).
  split; [|by apply ntohl_ntohl]. unfold ntohl, bswap32.
  change 4%nat with (length (rev (le_split 4 x))) at 1.
  apply le_split_combine, Forall_rev, le_split_u8.
Qed.

(** For a card whose registers and memory window behave as [WindowedNic]
    says and whose CPUs are halted, [dump_swatt_code] returns with [g_swatt_buf] equal to the 768 words of
    the card from [SWATT_BASE] on, whatever the window was; the other globals,
    the memory of the card and its CPU registers are as before. *)
Theorem dump_swatt_code_correct {N} `{!Nic N} `{!WindowedNic N} (w : world N) :
  both_halted (w_nic w) -> length (h_swatt_buf (w_globals w)) = 768%nat ->
  exists w', dump_swatt_code SWATT_BASE FW_SIZE w = Ok tt w' /\
    w_globals w' = set_swatt_buf (w_globals w) (image (w_nic w)) /\
    nic_mem (w_nic w') = nic_mem (w_nic w) /\
    exists l, w_log w' = w_log w ++ l /\ cpu_writes l = [].
Proof.
  intros Hh Hl. destruct (dump_swatt_code_spec w Hh Hl) as (w' & -> & []). exists w'. split_and!; auto.
Qed.

(** When fw.bin can be written and read, [save_swatt_code] followed by
    [read_swatt_code] leaves the firmware image, and everything but the file, as
    it was. *)
Theorem fw_bin_roundtrip {N} `{!Nic N} io (w : world N) :
  can_write io = true -> can_read io = true -> (forall n, fread_count io n = n) ->
  buf_ok (h_swatt_buf (w_globals w)) ->
  (_ ← save_swatt_code io; read_swatt_code io) w
  = Ok tt (mk_world (w_nic w) (w_req w) (w_globals w)
             (Some (bytes_of_words (h_swatt_buf (w_globals w)))) (w_log w) (w_out w)).
Proof. apply file_roundtrip. Qed.

(** C28: up to the attestation, for a card that answers every request and a file system
    that takes and returns fw.bin, [main] runs to its end as follows.  It first halts
    CPU A, whose state register it has read, then CPU B, and reads no memory of the card
    before both are halted.  It then dumps the firmware, without a further write to
    their registers, computes the nonces and checksums of exactly the image that the
    halted card holds, and puts the window back.  The last two requests restart both
    CPUs, with the contents of their registers as they were read and the halt bit
    cleared. *)
Theorem main_prepare_correct {N} `{!Nic N} `{!WindowedNic N} io (w : world N) :
  can_write io = true -> can_read io = true -> (forall n, fread_count io n = n) ->
  globals_ok (w_globals w) ->
  let o := nic_reg (w_nic w) 0x140 in
  exists wa ws w' stop dump, main_prepare io w = Ok tt w' /\
    halt_a o (fresh_req w) = Ok true wa /\
    let ob := nic_reg (w_nic wa) 0x240 in
    stop_cpus (fresh_req w) = Ok (o, ob, nic_reg (w_nic w) 0x68) ws /\
    both_halted (w_nic ws) /\
    pairs_of (image (w_nic ws)) (w_globals w) (w_globals w') /\
    nic_reg (w_nic w') 0x68 = nic_reg (w_nic w) 0x68 /\
    w_log ws = w_log w ++ stop /\
    w_log w' = w_log ws ++ dump ++
      [(ACENIC_IOCTL_WRITE_SMEM, 0x140, Z.land o (not32 0x10000));
       (ACENIC_IOCTL_WRITE_SMEM, 0x240, Z.land ob (not32 0x10000))] /\
    cpu_writes stop = [(0x140, Z.lor o 0x10000); (0x240, Z.lor ob 0x10000)] /\
    window_reads stop = [] /\ cpu_writes dump = [].
Proof.
  intros Hcw Hcr Hfr Hg o. rewrite main_prepare_eq.
  destruct (stop_cpus_spec (fresh_req w)) as (wa & ws & Ea & Es & Hh & Hcs).
  set (ob := nic_reg (w_nic wa) 0x240) in *. fold o in Ea, Es, Hcs.
  destruct Hcs as [Fg _ _ Fw _ (stop & El & Ec & Er)]. rewrite (bind_Ok _ _ _ _ _ Es). cbv beta iota.
  destruct (dump_and_compute_spec io (nic_reg (w_nic w) 0x68) ws) as (wd & Ed & Hp & Hwin & dump & Ld & Cd);
    try done; [by rewrite Fg|apply nic_reg_u32|].
  rewrite (bind_Ok _ _ _ _ _ Ed).
  destruct (cpu_step_write wd 0x140 (Z.land o (not32 0x10000))) as (w6 & E6 & F6 & _ & L6);
    [by left|apply halt_u32, nic_reg_u32|].
  destruct (cpu_step_write w6 0x240 (Z.land ob (not32 0x10000))) as (w7 & E7 & F7 & _ & L7);
    [by right|apply halt_u32, nic_reg_u32|].
  rewrite (bind_Ok _ _ _ _ _ E6), (bind_Ok _ _ _ _ _ E7).
  exists wa, ws, w7, stop, dump. split; [done|]. split; [exact Ea|]. cbv zeta. split_and!; try done.
  - rewrite (cs_globals _ _ _ F7), (cs_globals _ _ _ F6). by rewrite Fg in Hp.
  - by rewrite (cs_window _ _ _ F7), (cs_window _ _ _ F6).
  - by rewrite L7, L6, Ld, <- !app_assoc.
Qed.


(** [main] hands the kernel the pairs it has computed: after the copy the
    request holds the number of nonces, and at each index below it the nonce and
    the expected checksum of the global arrays. *)
Theorem load_request_correct {N} `{!Nic N} (w : world N) :
  globals_ok (w_globals w) -> 0 <= h_nonce_count (w_globals w) <= 300 ->
  length (req_nonce (w_req w)) = 300%nat -> length (req_checksum (w_req w)) = 300%nat ->
  exists w', load_request w = Ok tt w' /\
    nonce_num (w_req w') = h_nonce_count (w_globals w) /\
    forall j, (j < Z.to_nat (h_nonce_count (w_globals w)))%nat ->
      req_nonce (w_req w') !! j = h_nonce_pool (w_globals w) !! j /\
      req_checksum (w_req w') !! j = fst <$> h_checksum (w_globals w) !! j.
Proof.
  intros [] Hn Hln Hlc. destruct (copy_pairs_spec (Z.to_nat (h_nonce_count (w_globals w))) 0
    (w_globals w) (req_nonce (w_req w)) (req_checksum (w_req w)))
    as (nonce & checksum & E & _ & _ & Hlk); try done; [lia|apply go_pool0|].
  unfold load_request. rewrite (bind_Ok _ _ w w w) by done.
  rewrite (bind_Ok _ _ w (nonce, checksum) w) by (unfold lift; by rewrite E).
  eexists. split; [reflexivity|]. split; [done|]. intros j Hj. cbn [w_req req_nonce req_checksum].
  destruct (Hlk j) as [-> ->]. by rewrite !decide_True by lia.
Qed.

(** The "last 5" values that [main] prints are inside the request arrays
    exactly when there are between 6 and 301 nonces; with fewer than six the
    index wraps around and the read is out of bounds. *)
Theorem last_five_bounds n (a : list Z) :
  length a = 300%nat -> is_u32 n -> is_Some (last_five n a) <-> 6 <= n <= 301.
Proof.
  intros Hl [Hn0 Hn]. unfold last_five. split.
  - intros [v Hv].
    destruct (aget a (sub32 n 6)) eqn:E6; [|done].
    destruct (aget a (sub32 n 5)); [|done]. destruct (aget a (sub32 n 4)); [|done].
    destruct (aget a (sub32 n 3)); [|done]. destruct (aget a (sub32 n 2)) eqn:E2; [|done].
    apply aget_Some_bound in E6, E2. rewrite Hl in *. unfold sub32, u32 in *.
    destruct (decide (6 <= n)) as [?|H6].
    + rewrite Z.mod_small in E2 by lia. lia.
    + rewrite <- (Z.mod_add (n - 6) 1), Z.mod_small in E6 by lia. lia.
  - intros Hr. assert (forall k, 2 <= k <= 6 -> is_Some (aget a (sub32 n k))) as Hok.
    { intros k Hk. unfold sub32. rewrite u32_small by (unfold is_word; lia).
      rewrite aget_cell by (rewrite Hl; lia). eauto. }
    destruct (Hok 6) as [? ->]; [lia|]. destruct (Hok 5) as [? ->]; [lia|].
    destruct (Hok 4) as [? ->]; [lia|]. destruct (Hok 3) as [? ->]; [lia|].
    destruct (Hok 2) as [? ->]; [lia|]. cbn. eauto.
Qed.

(** ** A concrete card: a window base, two CPUs that count in the first word of the
    memory while they run, and otherwise every word holds its own address. *)
Record demo_card := mk_card { k_window : Z; k_cpu_a : Z; k_cpu_b : Z; k_ticks : Z }.

Definition demo_reg (n : demo_card) (o : Z) : Z :=
  if o =? 0x68 then u32 (k_window n) else if o =? 0x140 then u32 (k_cpu_a n)
  else if o =? 0x240 then u32 (k_cpu_b n) else 0.
Definition demo_mem (n : demo_card) (a : Z) : Z := if a =? 0 then u32 (k_ticks n) else u32 a.

Definition demo_runs (n : demo_card) : bool :=
  negb (Z.testbit (demo_reg n 0x140) 16 && Z.testbit (demo_reg n 0x240) 16).
Definition demo_tick (n : demo_card) : demo_card :=
  mk_card (k_window n) (k_cpu_a n) (k_cpu_b n) (if demo_runs n then k_ticks n + 1 else k_ticks n).

#[local] Instance demo_nic : Nic demo_card := fun cmd q n =>
  let answer v := mk_req (cardoffset q) v (nonce_num q) (req_nonce q) (req_checksum q)
                    (req_sha1 q) in
  if cmd =? ACENIC_IOCTL_READ_SMEM then
    if cardoffset q <? 0x800 then (0, answer (demo_reg n (cardoffset q)), demo_tick n)
    else (0, answer (demo_mem n (demo_reg n 0x68 + (cardoffset q - 0x800))), demo_tick n)
  else if cmd =? ACENIC_IOCTL_WRITE_SMEM
  then (0, q, demo_tick
    (if cardoffset q =? 0x68 then mk_card (data q) (k_cpu_a n) (k_cpu_b n) (k_ticks n)
     else if cardoffset q =? 0x140 then mk_card (k_window n) (data q) (k_cpu_b n) (k_ticks n)
     else if cardoffset q =? 0x240 then mk_card (k_window n) (k_cpu_a n) (data q) (k_ticks n)
     else n))
  else (1, q, n).

Lemma demo_settled n : settled (demo_reg n) (demo_mem n) (demo_reg (demo_tick n)) (demo_mem (demo_tick n)).
Proof.
  split; [done|done|]. intros Ha Hb. unfold demo_mem, demo_tick, demo_runs, halted in *. by rewrite Ha, Hb.
Qed.

#[local] Instance demo_windowed : WindowedNic demo_card.
Proof.
  refine {| nic_reg := demo_reg; nic_mem := demo_mem |}.
  - intros n o. unfold demo_reg. repeat case_match; try apply is_u32_u32. unfold is_word; lia.
  - intros n a. unfold demo_mem. case_match; apply is_u32_u32.
  - intros q n Hq _. unfold nic_ioctl, demo_nic.
    rewrite Z.eqb_refl, (proj2 (Z.ltb_lt _ _)) by lia. eexists. split; [done|apply demo_settled].
  - intros q n Hq _. unfold nic_ioctl, demo_nic.
    rewrite Z.eqb_refl, (proj2 (Z.ltb_ge _ _)) by lia. eexists. split; [done|apply demo_settled].
  - intros q n Hq _ Hd. unfold nic_ioctl, demo_nic.
    change (ACENIC_IOCTL_WRITE_SMEM =? ACENIC_IOCTL_READ_SMEM) with false. cbv iota.
    rewrite Z.eqb_refl. eexists. split; [reflexivity|]. split; [|split].
    + destruct (Z.eqb_spec (cardoffset q) 0x68); [cbn; by apply u32_small|]. by repeat case_match.
    + intros o Ho. pose proof (u32_small (data q) Hd) as Eu.
      destruct (Z.eqb_spec (cardoffset q) o) as [->|Hne].
      * destruct Ho as [-> | ->]; unfold halted, demo_reg; cbn; by rewrite Eu.
      * destruct (Z.eqb_spec (cardoffset q) 0x68); [by destruct Ho as [-> | ->]|].
        destruct (Z.eqb_spec (cardoffset q) 0x140); [by destruct Ho as [-> | ->]; subst|].
        destruct (Z.eqb_spec (cardoffset q) 0x240); [by destruct Ho as [-> | ->]; subst|done].
    + intros _ _ Ha Hb. set (n1 := if cardoffset q =? 0x68 then _ else _) in *.
      assert (demo_mem n1 = demo_mem n) as <- by (unfold n1; by repeat case_match).
      apply (se_mem _ _ _ _ (demo_settled n1)); [exact Ha|exact Hb].
Defined.

Definition demo_world : world demo_card :=
  mk_world (mk_card 0 7 9 0) (mk_req 0 0 0 (replicate 300 0) (replicate 300 0) (replicate 5 0)) globals_init
    None [] [].
Definition demo_halted : world demo_card :=
  mk_world (mk_card 0 0x10000 0x10000 0) (mk_req 0 0 0 (replicate 300 0) (replicate 300 0) (replicate 5 0))
    globals_init None [] [].
Definition demo_io : file_io := mk_io true true (fun n => n).

Lemma globals_init_ok : globals_ok globals_init.
Proof.
  split; try reflexivity; (split; [reflexivity|]); apply Forall_replicate; unfold is_word; lia.
Qed.

Lemma other_endian_reverses_witness :
  other_endian 0x12345678 = 0x78563412 /\ other_endian (other_endian 0x12345678) = 0x12345678.
Proof.
  split; [vm_compute; reflexivity|].
  apply (other_endian_reverses 0x12345678). unfold is_word. lia.
Defined.

Lemma dump_swatt_code_correct_witness :
  exists w', dump_swatt_code SWATT_BASE FW_SIZE demo_halted = Ok tt w' /\
    h_swatt_buf (w_globals w') !! 1%nat = Some 0x8b04.
Proof.
  destruct (dump_swatt_code_correct demo_halted) as (w' & Hw & Hg & _); [split; reflexivity|reflexivity|].
  exists w'. split; [exact Hw|]. rewrite Hg. vm_compute. reflexivity.
Defined.

Lemma fw_bin_roundtrip_witness :
  exists w', (_ ← save_swatt_code demo_io; read_swatt_code demo_io) demo_world = Ok tt w' /\
    w_globals w' = globals_init.
Proof.
  eexists. split; [apply (fw_bin_roundtrip demo_io demo_world)|]; try reflexivity.
  split; [reflexivity|]. apply Forall_replicate. unfold is_word; lia.
Defined.

Lemma main_prepare_correct_witness :
  exists wa ws w' stop dump, main_prepare demo_io demo_world = Ok tt w' /\
    nic_reg (w_nic wa) 0x240 = 9 /\ k_ticks (w_nic ws) = 3 /\
    h_swatt_buf (w_globals w') = image (w_nic ws) /\
    w_log w' = stop ++ dump ++ [(ACENIC_IOCTL_WRITE_SMEM, 0x140, 7); (ACENIC_IOCTL_WRITE_SMEM, 0x240, 9)] /\
    cpu_writes stop = [(0x140, 0x10007); (0x240, 0x10009)] /\ cpu_writes dump = [].
Proof.
  destruct (main_prepare_correct demo_io demo_world eq_refl eq_refl (fun n => eq_refl)
    globals_init_ok) as (wa & ws & w' & stop & dump & Hw & Ha & Hs & _ & [Hb _] & _ & Ls & Lw & Cs & _ & Cd).
  exists wa, ws, w', stop, dump. split; [exact Hw|].
  vm_compute in Ha. injection Ha as <-. split; [reflexivity|].
  assert (Et : k_ticks (w_nic ws) = 3) by (clear - Hs; vm_compute in Hs; injection Hs as <-; reflexivity).
  split; [exact Et|]. split; [exact Hb|]. split; [|split; [exact Cs|exact Cd]].
  rewrite Lw, Ls. reflexivity.
Defined.

(** A driver that answers the requests for CPU A and refuses those for CPU B *)
Definition refusing_nic : Nic unit := fun cmd q n => (if cardoffset q =? 0x240 then -1 else 0, q, n).


Lemma load_request_correct_witness :
  exists w', load_request demo_world = Ok tt w' /\ nonce_num (w_req w') = 0.
Proof.
  destruct (load_request_correct demo_world globals_init_ok) as (w' & Hw & Hn & _);
    [cbn; lia|reflexivity|reflexivity|].
  exists w'. split; [exact Hw|exact Hn].
Defined.

Lemma last_five_bounds_witness :
  is_Some (last_five 6 (replicate 300 7)) /\ ~ is_Some (last_five 5 (replicate 300 7)).
Proof.
  split; [apply (last_five_bounds 6)|intros H%(last_five_bounds 5)];
    [reflexivity|unfold is_word; lia|lia|lia|reflexivity|unfold is_word; lia].
Defined.
