(* ===== verification/SmscDefs.v ===== *)
(** * The network driver: constants, state and effects
    (src/code/nic-driver/smsc/smsc911x.h, smsc911x.c)

    The register map, the private data of the driver and the fields of the
    network device it uses, and the monad in which its functions are written: a
    function returns, or stops the machine ([BUG()], taking a spin lock twice,
    using memory outside an array, waiting for ever).  The chip is the interface
    [Smsc]: the four bus accesses and the passage of time. *)

From S2P Require Import Prelude.

(** ** Registers and bit fields (smsc911x.h) *)

Definition TX_FIFO_LOW_THRESHOLD : Z := 1600.
Definition SMSC911X_EEPROM_SIZE : Z := 128.
Definition SMSC_NAPI_WEIGHT : Z := 16.
Definition RX_DATA_FIFO : Z := 0x00.
Definition TX_DATA_FIFO : Z := 0x20.
Definition TX_CMD_A_FIRST_SEG_ : Z := 0x00002000.
Definition TX_CMD_A_LAST_SEG_ : Z := 0x00001000.
Definition RX_STATUS_FIFO : Z := 0x40.
Definition RX_STS_ES_ : Z := 0x00008000.
Definition RX_STS_LENGTH_ERR_ : Z := 0x00001000.
Definition RX_STS_MCAST_ : Z := 0x00000400.
Definition RX_STS_FRAME_TYPE_ : Z := 0x00000020.
Definition RX_STS_CRC_ERR_ : Z := 0x00000002.
Definition TX_STATUS_FIFO : Z := 0x48.
Definition TX_STS_ES_ : Z := 0x00008000.
Definition TX_STS_LOST_CARRIER_ : Z := 0x00000800.
Definition TX_STS_LATE_COL_ : Z := 0x00000200.
Definition TX_STS_EXCESS_COL_ : Z := 0x00000100.
Definition ID_REV : Z := 0x50.
Definition INT_CFG : Z := 0x54.
Definition INT_CFG_IRQ_EN_ : Z := 0x00000100.
Definition INT_CFG_IRQ_POL_ : Z := 0x00000010.
Definition INT_CFG_IRQ_TYPE_ : Z := 0x00000001.
Definition INT_STS : Z := 0x58.
Definition INT_STS_SW_INT_ : Z := 0x80000000.
Definition INT_STS_RXSTOP_INT_ : Z := 0x01000000.
Definition INT_STS_RXE_ : Z := 0x00004000.
Definition INT_STS_TDFA_ : Z := 0x00000200.
Definition INT_STS_RSFL_ : Z := 0x00000008.
Definition INT_EN : Z := 0x5C.
Definition INT_EN_SW_INT_EN_ : Z := 0x80000000.
Definition INT_EN_RXSTOP_INT_EN_ : Z := 0x01000000.
Definition INT_EN_TDFA_EN_ : Z := 0x00000200.
Definition INT_EN_RSFL_EN_ : Z := 0x00000008.
Definition BYTE_TEST : Z := 0x64.
Definition FIFO_INT : Z := 0x68.
Definition FIFO_INT_TX_AVAIL_LEVEL_ : Z := 0xFF000000.
Definition FIFO_INT_RX_STS_LEVEL_ : Z := 0x000000FF.
Definition RX_CFG : Z := 0x6C.
Definition TX_CFG : Z := 0x70.
Definition TX_CFG_TX_ON_ : Z := 0x00000002.
Definition HW_CFG : Z := 0x74.
Definition HW_CFG_SF_ : Z := 0x00100000.
Definition HW_CFG_TX_FIF_SZ_ : Z := 0x000F0000.
Definition HW_CFG_SRST_ : Z := 0x00000001.
Definition HW_CFG_PHY_CLK_SEL_ : Z := 0x00000060.
Definition HW_CFG_PHY_CLK_SEL_EXT_PHY_ : Z := 0x00000020.
Definition HW_CFG_PHY_CLK_SEL_CLK_DIS_ : Z := 0x00000040.
Definition HW_CFG_SMI_SEL_ : Z := 0x00000010.
Definition HW_CFG_EXT_PHY_DET_ : Z := 0x00000008.
Definition HW_CFG_EXT_PHY_EN_ : Z := 0x00000004.
Definition RX_DP_CTRL : Z := 0x78.
Definition RX_DP_CTRL_RX_FFWD_ : Z := 0x80000000.
Definition RX_FIFO_INF : Z := 0x7C.
Definition RX_FIFO_INF_RXSUSED_ : Z := 0x00FF0000.
Definition TX_FIFO_INF : Z := 0x80.
Definition TX_FIFO_INF_TSUSED_ : Z := 0x00FF0000.
Definition TX_FIFO_INF_TDFREE_ : Z := 0x0000FFFF.
Definition PMT_CTRL : Z := 0x84.
Definition PMT_CTRL_PM_MODE_D1_ : Z := 0x00001000.
Definition PMT_CTRL_WOL_EN_ : Z := 0x00000200.
Definition PMT_CTRL_ED_EN_ : Z := 0x00000100.
Definition PMT_CTRL_PME_EN_ : Z := 0x00000002.
Definition PMT_CTRL_READY_ : Z := 0x00000001.
Definition GPIO_CFG : Z := 0x88.
Definition GPIO_CFG_LED1_EN_ : Z := 0x10000000.
Definition GPIO_CFG_EEPR_EN_ : Z := 0x00700000.
Definition GPIO_CFG_GPIOBUF0_ : Z := 0x00010000.
Definition GPIO_CFG_GPIODIR0_ : Z := 0x00000100.
Definition GPIO_CFG_GPIOD0_ : Z := 0x00000001.
Definition WORD_SWAP : Z := 0x98.
Definition RX_DROP : Z := 0xA0.
Definition MAC_CSR_CMD : Z := 0xA4.
Definition MAC_CSR_CMD_CSR_BUSY_ : Z := 0x80000000.
Definition MAC_CSR_CMD_R_NOT_W_ : Z := 0x40000000.
Definition MAC_CSR_DATA : Z := 0xA8.
Definition AFC_CFG : Z := 0xAC.
Definition E2P_CMD : Z := 0xB0.
Definition E2P_CMD_EPC_BUSY_ : Z := 0x80000000.
Definition E2P_CMD_EPC_CMD_READ_ : Z := 0x00000000.
Definition E2P_CMD_EPC_CMD_EWDS_ : Z := 0x10000000.
Definition E2P_CMD_EPC_CMD_EWEN_ : Z := 0x20000000.
Definition E2P_CMD_EPC_CMD_WRITE_ : Z := 0x30000000.
Definition E2P_CMD_EPC_CMD_ERASE_ : Z := 0x50000000.
Definition E2P_CMD_EPC_TIMEOUT_ : Z := 0x00000200.
Definition E2P_DATA : Z := 0xB4.
Definition MAC_CR : Z := 0x01.
Definition MAC_CR_HBDIS_ : Z := 0x10000000.
Definition MAC_CR_FDPX_ : Z := 0x00100000.
Definition MAC_CR_MCPAS_ : Z := 0x00080000.
Definition MAC_CR_PRMS_ : Z := 0x00040000.
Definition MAC_CR_HPFILT_ : Z := 0x00002000.
Definition MAC_CR_TXEN_ : Z := 0x00000008.
Definition MAC_CR_RXEN_ : Z := 0x00000004.
Definition ADDRH : Z := 0x02.
Definition ADDRL : Z := 0x03.
Definition HASHH : Z := 0x04.
Definition HASHL : Z := 0x05.
Definition MII_ACC : Z := 0x06.
Definition MII_ACC_MII_WRITE_ : Z := 0x00000002.
Definition MII_ACC_MII_BUSY_ : Z := 0x00000001.
Definition MII_DATA : Z := 0x07.
Definition FLOW : Z := 0x08.
Definition VLAN1 : Z := 0x09.
Definition WUCSR : Z := 0x0C.

(** ** Constants of the kernel headers that the driver uses *)

Definition EIO : Z := 5.
Definition ENXIO : Z := 6.
Definition EAGAIN : Z := 11.
Definition ENOMEM : Z := 12.
Definition EBUSY : Z := 16.
Definition ENODEV : Z := 19.
Definition EINVAL : Z := 22.
Definition EOPNOTSUPP : Z := 95.
Definition EADDRNOTAVAIL : Z := 99.
Definition ETH_ALEN : Z := 6.
Definition NET_IP_ALIGN : Z := 2.
Definition MIN_PACKET_SIZE : Z := 64.
Definition IFF_UP : Z := 0x1.

(** [struct smsc911x_platform_config] (linux/include/linux/smsc911x.h) *)
Definition SMSC911X_USE_16BIT : Z := 1.
Definition SMSC911X_USE_32BIT : Z := 2.
Definition SMSC911X_FORCE_INTERNAL_PHY : Z := 4.
Definition SMSC911X_FORCE_EXTERNAL_PHY : Z := 8.
Definition SMSC911X_SAVE_MAC_ADDRESS : Z := 16.
Definition SMSC911X_SWAP_FIFO : Z := 32.
Definition SMSC911X_IRQ_POLARITY_ACTIVE_HIGH : Z := 1.
Definition SMSC911X_IRQ_TYPE_PUSH_PULL : Z := 1.

Record smsc911x_platform_config := mk_config {
  irq_polarity : Z;
  irq_type : Z;
  flags : Z;
  shift : Z;
  phy_interface : Z;
  config_mac : list Z }.

(** [struct smsc911x_ops]: the two tables of access functions. *)
Inductive smsc911x_ops := standard_smsc911x_ops | shifted_smsc911x_ops.

(** [enum phy_state] (linux/include/linux/phy.h) *)
Inductive phy_state :=
  | PHY_DOWN | PHY_STARTING | PHY_READY | PHY_PENDING | PHY_UP | PHY_AN
  | PHY_RUNNING | PHY_NOLINK | PHY_FORCING | PHY_CHANGELINK | PHY_HALTED | PHY_RESUMING.

(** The PHY drivers that may be bound to a PHY of this bus: the generic one and those
    of linux/drivers/net/phy/smsc.c *)
Inductive phy_driver :=
  | genphy_driver | lan83c185_driver | lan8187_driver | lan8700_driver | lan911x_int_driver
  | lan8710_driver.

(** The interrupt line of a PHY: its number or [PHY_POLL], how often the PHY counts the
    line as disabled, how often it did disable it, whether its handler is installed, and
    whether the work for an interrupt is queued. *)
Record phy_line := mk_line {
  irq : Z;
  irq_disable : Z;
  irq_depth : Z;
  irq_action : bool;
  phy_queue : bool }.

Definition set_irq (v : Z) (l : phy_line) : phy_line :=
  mk_line v (irq_disable l) (irq_depth l) (irq_action l) (phy_queue l).
Definition set_irq_disable (v : Z) (l : phy_line) : phy_line :=
  mk_line (irq l) v (irq_depth l) (irq_action l) (phy_queue l).
Definition set_irq_depth (v : Z) (l : phy_line) : phy_line :=
  mk_line (irq l) (irq_disable l) v (irq_action l) (phy_queue l).
Definition set_irq_action (v : bool) (l : phy_line) : phy_line :=
  mk_line (irq l) (irq_disable l) (irq_depth l) v (phy_queue l).
Definition set_phy_queue (v : bool) (l : phy_line) : phy_line :=
  mk_line (irq l) (irq_disable l) (irq_depth l) (irq_action l) v.

(** [struct phy_device]; [phy_uid] is the field [phy_id], [attached] tells whether
    [attached_dev] is set. *)
Record phy_device := mk_phy {
  phy_drv : option phy_driver;
  phy_uid : Z;
  state : phy_state;
  phy_addr : Z;
  speed : Z;
  duplex : Z;
  pause : Z;
  asym_pause : Z;
  link : Z;
  interrupts : Z;
  supported : Z;
  advertising : Z;
  autoneg : Z;
  link_timeout : Z;
  attached : bool;
  phy_lock : bool;
  line : phy_line }.

Definition set_phy_drv (v : option phy_driver) (y : phy_device) : phy_device :=
  mk_phy v (phy_uid y) (state y) (phy_addr y) (speed y) (duplex y) (pause y) (asym_pause y)
    (link y) (interrupts y) (supported y) (advertising y) (autoneg y) (link_timeout y)
    (attached y) (phy_lock y) (line y).
Definition set_state (v : phy_state) (y : phy_device) : phy_device :=
  mk_phy (phy_drv y) (phy_uid y) v (phy_addr y) (speed y) (duplex y) (pause y) (asym_pause y)
    (link y) (interrupts y) (supported y) (advertising y) (autoneg y) (link_timeout y)
    (attached y) (phy_lock y) (line y).
Definition set_speed (v : Z) (y : phy_device) : phy_device :=
  mk_phy (phy_drv y) (phy_uid y) (state y) (phy_addr y) v (duplex y) (pause y) (asym_pause y)
    (link y) (interrupts y) (supported y) (advertising y) (autoneg y) (link_timeout y)
    (attached y) (phy_lock y) (line y).
Definition set_duplex (v : Z) (y : phy_device) : phy_device :=
  mk_phy (phy_drv y) (phy_uid y) (state y) (phy_addr y) (speed y) v (pause y) (asym_pause y)
    (link y) (interrupts y) (supported y) (advertising y) (autoneg y) (link_timeout y)
    (attached y) (phy_lock y) (line y).
Definition set_pause (v : Z) (y : phy_device) : phy_device :=
  mk_phy (phy_drv y) (phy_uid y) (state y) (phy_addr y) (speed y) (duplex y) v (asym_pause y)
    (link y) (interrupts y) (supported y) (advertising y) (autoneg y) (link_timeout y)
    (attached y) (phy_lock y) (line y).
Definition set_asym_pause (v : Z) (y : phy_device) : phy_device :=
  mk_phy (phy_drv y) (phy_uid y) (state y) (phy_addr y) (speed y) (duplex y) (pause y) v
    (link y) (interrupts y) (supported y) (advertising y) (autoneg y) (link_timeout y)
    (attached y) (phy_lock y) (line y).
Definition set_link (v : Z) (y : phy_device) : phy_device :=
  mk_phy (phy_drv y) (phy_uid y) (state y) (phy_addr y) (speed y) (duplex y) (pause y)
    (asym_pause y) v (interrupts y) (supported y) (advertising y) (autoneg y) (link_timeout y)
    (attached y) (phy_lock y) (line y).
Definition set_interrupts (v : Z) (y : phy_device) : phy_device :=
  mk_phy (phy_drv y) (phy_uid y) (state y) (phy_addr y) (speed y) (duplex y) (pause y)
    (asym_pause y) (link y) v (supported y) (advertising y) (autoneg y) (link_timeout y)
    (attached y) (phy_lock y) (line y).
Definition set_supported (v : Z) (y : phy_device) : phy_device :=
  mk_phy (phy_drv y) (phy_uid y) (state y) (phy_addr y) (speed y) (duplex y) (pause y)
    (asym_pause y) (link y) (interrupts y) v (advertising y) (autoneg y) (link_timeout y)
    (attached y) (phy_lock y) (line y).
Definition set_advertising (v : Z) (y : phy_device) : phy_device :=
  mk_phy (phy_drv y) (phy_uid y) (state y) (phy_addr y) (speed y) (duplex y) (pause y)
    (asym_pause y) (link y) (interrupts y) (supported y) v (autoneg y) (link_timeout y)
    (attached y) (phy_lock y) (line y).
Definition set_autoneg (v : Z) (y : phy_device) : phy_device :=
  mk_phy (phy_drv y) (phy_uid y) (state y) (phy_addr y) (speed y) (duplex y) (pause y)
    (asym_pause y) (link y) (interrupts y) (supported y) (advertising y) v (link_timeout y)
    (attached y) (phy_lock y) (line y).
Definition set_link_timeout (v : Z) (y : phy_device) : phy_device :=
  mk_phy (phy_drv y) (phy_uid y) (state y) (phy_addr y) (speed y) (duplex y) (pause y)
    (asym_pause y) (link y) (interrupts y) (supported y) (advertising y) (autoneg y) v
    (attached y) (phy_lock y) (line y).
Definition set_attached (v : bool) (y : phy_device) : phy_device :=
  mk_phy (phy_drv y) (phy_uid y) (state y) (phy_addr y) (speed y) (duplex y) (pause y)
    (asym_pause y) (link y) (interrupts y) (supported y) (advertising y) (autoneg y)
    (link_timeout y) v (phy_lock y) (line y).
Definition set_phy_lock (v : bool) (y : phy_device) : phy_device :=
  mk_phy (phy_drv y) (phy_uid y) (state y) (phy_addr y) (speed y) (duplex y) (pause y)
    (asym_pause y) (link y) (interrupts y) (supported y) (advertising y) (autoneg y)
    (link_timeout y) (attached y) v (line y).
Definition set_line (v : phy_line) (y : phy_device) : phy_device :=
  mk_phy (phy_drv y) (phy_uid y) (state y) (phy_addr y) (speed y) (duplex y) (pause y)
    (asym_pause y) (link y) (interrupts y) (supported y) (advertising y) (autoneg y)
    (link_timeout y) (attached y) (phy_lock y) v.

(** [struct smsc911x_data] *)
Record smsc911x_data := mk_pdata {
  ioaddr : Z;
  idrev : Z;
  generation : Z;
  config : smsc911x_platform_config;
  mac_lock : bool;
  dev_lock : bool;
  phy_dev : option phy_device;
  using_extphy : Z;
  last_duplex : Z;
  last_carrier : Z;
  msg_enable : Z;
  gpio_setting : Z;
  gpio_orig_setting : Z;
  software_irq_signal : Z;
  loopback_tx_pkt : list Z;
  loopback_rx_pkt : list Z;
  resetcount : Z;
  multicast_update_pending : Z;
  set_bits_mask : Z;
  clear_bits_mask : Z;
  hashhi : Z;
  hashlo : Z;
  ops : smsc911x_ops }.

Definition set_ioaddr (v : Z) (s : smsc911x_data) : smsc911x_data :=
  mk_pdata v (idrev s) (generation s) (config s) (mac_lock s) (dev_lock s) (phy_dev s)
    (using_extphy s) (last_duplex s) (last_carrier s) (msg_enable s) (gpio_setting s)
    (gpio_orig_setting s) (software_irq_signal s) (loopback_tx_pkt s) (loopback_rx_pkt s)
    (resetcount s) (multicast_update_pending s) (set_bits_mask s) (clear_bits_mask s)
    (hashhi s) (hashlo s) (ops s).
Definition set_idrev (v : Z) (s : smsc911x_data) : smsc911x_data :=
  mk_pdata (ioaddr s) v (generation s) (config s) (mac_lock s) (dev_lock s) (phy_dev s)
    (using_extphy s) (last_duplex s) (last_carrier s) (msg_enable s) (gpio_setting s)
    (gpio_orig_setting s) (software_irq_signal s) (loopback_tx_pkt s) (loopback_rx_pkt s)
    (resetcount s) (multicast_update_pending s) (set_bits_mask s) (clear_bits_mask s)
    (hashhi s) (hashlo s) (ops s).
Definition set_generation (v : Z) (s : smsc911x_data) : smsc911x_data :=
  mk_pdata (ioaddr s) (idrev s) v (config s) (mac_lock s) (dev_lock s) (phy_dev s)
    (using_extphy s) (last_duplex s) (last_carrier s) (msg_enable s) (gpio_setting s)
    (gpio_orig_setting s) (software_irq_signal s) (loopback_tx_pkt s) (loopback_rx_pkt s)
    (resetcount s) (multicast_update_pending s) (set_bits_mask s) (clear_bits_mask s)
    (hashhi s) (hashlo s) (ops s).
Definition set_config (v : smsc911x_platform_config) (s : smsc911x_data) : smsc911x_data :=
  mk_pdata (ioaddr s) (idrev s) (generation s) v (mac_lock s) (dev_lock s) (phy_dev s)
    (using_extphy s) (last_duplex s) (last_carrier s) (msg_enable s) (gpio_setting s)
    (gpio_orig_setting s) (software_irq_signal s) (loopback_tx_pkt s) (loopback_rx_pkt s)
    (resetcount s) (multicast_update_pending s) (set_bits_mask s) (clear_bits_mask s)
    (hashhi s) (hashlo s) (ops s).
Definition set_mac_lock (v : bool) (s : smsc911x_data) : smsc911x_data :=
  mk_pdata (ioaddr s) (idrev s) (generation s) (config s) v (dev_lock s) (phy_dev s)
    (using_extphy s) (last_duplex s) (last_carrier s) (msg_enable s) (gpio_setting s)
    (gpio_orig_setting s) (software_irq_signal s) (loopback_tx_pkt s) (loopback_rx_pkt s)
    (resetcount s) (multicast_update_pending s) (set_bits_mask s) (clear_bits_mask s)
    (hashhi s) (hashlo s) (ops s).
Definition set_dev_lock (v : bool) (s : smsc911x_data) : smsc911x_data :=
  mk_pdata (ioaddr s) (idrev s) (generation s) (config s) (mac_lock s) v (phy_dev s)
    (using_extphy s) (last_duplex s) (last_carrier s) (msg_enable s) (gpio_setting s)
    (gpio_orig_setting s) (software_irq_signal s) (loopback_tx_pkt s) (loopback_rx_pkt s)
    (resetcount s) (multicast_update_pending s) (set_bits_mask s) (clear_bits_mask s)
    (hashhi s) (hashlo s) (ops s).
Definition set_phy_dev (v : option phy_device) (s : smsc911x_data) : smsc911x_data :=
  mk_pdata (ioaddr s) (idrev s) (generation s) (config s) (mac_lock s) (dev_lock s) v
    (using_extphy s) (last_duplex s) (last_carrier s) (msg_enable s) (gpio_setting s)
    (gpio_orig_setting s) (software_irq_signal s) (loopback_tx_pkt s) (loopback_rx_pkt s)
    (resetcount s) (multicast_update_pending s) (set_bits_mask s) (clear_bits_mask s)
    (hashhi s) (hashlo s) (ops s).
Definition set_using_extphy (v : Z) (s : smsc911x_data) : smsc911x_data :=
  mk_pdata (ioaddr s) (idrev s) (generation s) (config s) (mac_lock s) (dev_lock s)
    (phy_dev s) v (last_duplex s) (last_carrier s) (msg_enable s) (gpio_setting s)
    (gpio_orig_setting s) (software_irq_signal s) (loopback_tx_pkt s) (loopback_rx_pkt s)
    (resetcount s) (multicast_update_pending s) (set_bits_mask s) (clear_bits_mask s)
    (hashhi s) (hashlo s) (ops s).
Definition set_last_duplex (v : Z) (s : smsc911x_data) : smsc911x_data :=
  mk_pdata (ioaddr s) (idrev s) (generation s) (config s) (mac_lock s) (dev_lock s)
    (phy_dev s) (using_extphy s) v (last_carrier s) (msg_enable s) (gpio_setting s)
    (gpio_orig_setting s) (software_irq_signal s) (loopback_tx_pkt s) (loopback_rx_pkt s)
    (resetcount s) (multicast_update_pending s) (set_bits_mask s) (clear_bits_mask s)
    (hashhi s) (hashlo s) (ops s).
Definition set_last_carrier (v : Z) (s : smsc911x_data) : smsc911x_data :=
  mk_pdata (ioaddr s) (idrev s) (generation s) (config s) (mac_lock s) (dev_lock s)
    (phy_dev s) (using_extphy s) (last_duplex s) v (msg_enable s) (gpio_setting s)
    (gpio_orig_setting s) (software_irq_signal s) (loopback_tx_pkt s) (loopback_rx_pkt s)
    (resetcount s) (multicast_update_pending s) (set_bits_mask s) (clear_bits_mask s)
    (hashhi s) (hashlo s) (ops s).
Definition set_msg_enable (v : Z) (s : smsc911x_data) : smsc911x_data :=
  mk_pdata (ioaddr s) (idrev s) (generation s) (config s) (mac_lock s) (dev_lock s)
    (phy_dev s) (using_extphy s) (last_duplex s) (last_carrier s) v (gpio_setting s)
    (gpio_orig_setting s) (software_irq_signal s) (loopback_tx_pkt s) (loopback_rx_pkt s)
    (resetcount s) (multicast_update_pending s) (set_bits_mask s) (clear_bits_mask s)
    (hashhi s) (hashlo s) (ops s).
Definition set_gpio_setting (v : Z) (s : smsc911x_data) : smsc911x_data :=
  mk_pdata (ioaddr s) (idrev s) (generation s) (config s) (mac_lock s) (dev_lock s)
    (phy_dev s) (using_extphy s) (last_duplex s) (last_carrier s) (msg_enable s) v
    (gpio_orig_setting s) (software_irq_signal s) (loopback_tx_pkt s) (loopback_rx_pkt s)
    (resetcount s) (multicast_update_pending s) (set_bits_mask s) (clear_bits_mask s)
    (hashhi s) (hashlo s) (ops s).
Definition set_gpio_orig_setting (v : Z) (s : smsc911x_data) : smsc911x_data :=
  mk_pdata (ioaddr s) (idrev s) (generation s) (config s) (mac_lock s) (dev_lock s)
    (phy_dev s) (using_extphy s) (last_duplex s) (last_carrier s) (msg_enable s)
    (gpio_setting s) v (software_irq_signal s) (loopback_tx_pkt s) (loopback_rx_pkt s)
    (resetcount s) (multicast_update_pending s) (set_bits_mask s) (clear_bits_mask s)
    (hashhi s) (hashlo s) (ops s).
Definition set_software_irq_signal (v : Z) (s : smsc911x_data) : smsc911x_data :=
  mk_pdata (ioaddr s) (idrev s) (generation s) (config s) (mac_lock s) (dev_lock s)
    (phy_dev s) (using_extphy s) (last_duplex s) (last_carrier s) (msg_enable s)
    (gpio_setting s) (gpio_orig_setting s) v (loopback_tx_pkt s) (loopback_rx_pkt s)
    (resetcount s) (multicast_update_pending s) (set_bits_mask s) (clear_bits_mask s)
    (hashhi s) (hashlo s) (ops s).
Definition set_loopback_tx_pkt (v : list Z) (s : smsc911x_data) : smsc911x_data :=
  mk_pdata (ioaddr s) (idrev s) (generation s) (config s) (mac_lock s) (dev_lock s)
    (phy_dev s) (using_extphy s) (last_duplex s) (last_carrier s) (msg_enable s)
    (gpio_setting s) (gpio_orig_setting s) (software_irq_signal s) v (loopback_rx_pkt s)
    (resetcount s) (multicast_update_pending s) (set_bits_mask s) (clear_bits_mask s)
    (hashhi s) (hashlo s) (ops s).
Definition set_loopback_rx_pkt (v : list Z) (s : smsc911x_data) : smsc911x_data :=
  mk_pdata (ioaddr s) (idrev s) (generation s) (config s) (mac_lock s) (dev_lock s)
    (phy_dev s) (using_extphy s) (last_duplex s) (last_carrier s) (msg_enable s)
    (gpio_setting s) (gpio_orig_setting s) (software_irq_signal s) (loopback_tx_pkt s) v
    (resetcount s) (multicast_update_pending s) (set_bits_mask s) (clear_bits_mask s)
    (hashhi s) (hashlo s) (ops s).
Definition set_resetcount (v : Z) (s : smsc911x_data) : smsc911x_data :=
  mk_pdata (ioaddr s) (idrev s) (generation s) (config s) (mac_lock s) (dev_lock s)
    (phy_dev s) (using_extphy s) (last_duplex s) (last_carrier s) (msg_enable s)
    (gpio_setting s) (gpio_orig_setting s) (software_irq_signal s) (loopback_tx_pkt s)
    (loopback_rx_pkt s) v (multicast_update_pending s) (set_bits_mask s) (clear_bits_mask s)
    (hashhi s) (hashlo s) (ops s).
Definition set_multicast_update_pending (v : Z) (s : smsc911x_data) : smsc911x_data :=
  mk_pdata (ioaddr s) (idrev s) (generation s) (config s) (mac_lock s) (dev_lock s)
    (phy_dev s) (using_extphy s) (last_duplex s) (last_carrier s) (msg_enable s)
    (gpio_setting s) (gpio_orig_setting s) (software_irq_signal s) (loopback_tx_pkt s)
    (loopback_rx_pkt s) (resetcount s) v (set_bits_mask s) (clear_bits_mask s) (hashhi s)
    (hashlo s) (ops s).
Definition set_set_bits_mask (v : Z) (s : smsc911x_data) : smsc911x_data :=
  mk_pdata (ioaddr s) (idrev s) (generation s) (config s) (mac_lock s) (dev_lock s)
    (phy_dev s) (using_extphy s) (last_duplex s) (last_carrier s) (msg_enable s)
    (gpio_setting s) (gpio_orig_setting s) (software_irq_signal s) (loopback_tx_pkt s)
    (loopback_rx_pkt s) (resetcount s) (multicast_update_pending s) v (clear_bits_mask s)
    (hashhi s) (hashlo s) (ops s).
Definition set_clear_bits_mask (v : Z) (s : smsc911x_data) : smsc911x_data :=
  mk_pdata (ioaddr s) (idrev s) (generation s) (config s) (mac_lock s) (dev_lock s)
    (phy_dev s) (using_extphy s) (last_duplex s) (last_carrier s) (msg_enable s)
    (gpio_setting s) (gpio_orig_setting s) (software_irq_signal s) (loopback_tx_pkt s)
    (loopback_rx_pkt s) (resetcount s) (multicast_update_pending s) (set_bits_mask s) v
    (hashhi s) (hashlo s) (ops s).
Definition set_hashhi (v : Z) (s : smsc911x_data) : smsc911x_data :=
  mk_pdata (ioaddr s) (idrev s) (generation s) (config s) (mac_lock s) (dev_lock s)
    (phy_dev s) (using_extphy s) (last_duplex s) (last_carrier s) (msg_enable s)
    (gpio_setting s) (gpio_orig_setting s) (software_irq_signal s) (loopback_tx_pkt s)
    (loopback_rx_pkt s) (resetcount s) (multicast_update_pending s) (set_bits_mask s)
    (clear_bits_mask s) v (hashlo s) (ops s).
Definition set_hashlo (v : Z) (s : smsc911x_data) : smsc911x_data :=
  mk_pdata (ioaddr s) (idrev s) (generation s) (config s) (mac_lock s) (dev_lock s)
    (phy_dev s) (using_extphy s) (last_duplex s) (last_carrier s) (msg_enable s)
    (gpio_setting s) (gpio_orig_setting s) (software_irq_signal s) (loopback_tx_pkt s)
    (loopback_rx_pkt s) (resetcount s) (multicast_update_pending s) (set_bits_mask s)
    (clear_bits_mask s) (hashhi s) v (ops s).
Definition set_ops (v : smsc911x_ops) (s : smsc911x_data) : smsc911x_data :=
  mk_pdata (ioaddr s) (idrev s) (generation s) (config s) (mac_lock s) (dev_lock s)
    (phy_dev s) (using_extphy s) (last_duplex s) (last_carrier s) (msg_enable s)
    (gpio_setting s) (gpio_orig_setting s) (software_irq_signal s) (loopback_tx_pkt s)
    (loopback_rx_pkt s) (resetcount s) (multicast_update_pending s) (set_bits_mask s)
    (clear_bits_mask s) (hashhi s) (hashlo s) v.

(** [struct net_device_stats] *)
Record net_device_stats := mk_stats {
  rx_packets : Z;
  tx_packets : Z;
  rx_bytes : Z;
  tx_bytes : Z;
  rx_errors : Z;
  tx_errors : Z;
  rx_dropped : Z;
  multicast : Z;
  collisions : Z;
  rx_length_errors : Z;
  rx_crc_errors : Z;
  tx_aborted_errors : Z;
  tx_carrier_errors : Z }.

Definition set_rx_packets (v : Z) (s : net_device_stats) : net_device_stats :=
  mk_stats v (tx_packets s) (rx_bytes s) (tx_bytes s) (rx_errors s) (tx_errors s)
    (rx_dropped s) (multicast s) (collisions s) (rx_length_errors s) (rx_crc_errors s)
    (tx_aborted_errors s) (tx_carrier_errors s).
Definition set_tx_packets (v : Z) (s : net_device_stats) : net_device_stats :=
  mk_stats (rx_packets s) v (rx_bytes s) (tx_bytes s) (rx_errors s) (tx_errors s)
    (rx_dropped s) (multicast s) (collisions s) (rx_length_errors s) (rx_crc_errors s)
    (tx_aborted_errors s) (tx_carrier_errors s).
Definition set_rx_bytes (v : Z) (s : net_device_stats) : net_device_stats :=
  mk_stats (rx_packets s) (tx_packets s) v (tx_bytes s) (rx_errors s) (tx_errors s)
    (rx_dropped s) (multicast s) (collisions s) (rx_length_errors s) (rx_crc_errors s)
    (tx_aborted_errors s) (tx_carrier_errors s).
Definition set_tx_bytes (v : Z) (s : net_device_stats) : net_device_stats :=
  mk_stats (rx_packets s) (tx_packets s) (rx_bytes s) v (rx_errors s) (tx_errors s)
    (rx_dropped s) (multicast s) (collisions s) (rx_length_errors s) (rx_crc_errors s)
    (tx_aborted_errors s) (tx_carrier_errors s).
Definition set_rx_errors (v : Z) (s : net_device_stats) : net_device_stats :=
  mk_stats (rx_packets s) (tx_packets s) (rx_bytes s) (tx_bytes s) v (tx_errors s)
    (rx_dropped s) (multicast s) (collisions s) (rx_length_errors s) (rx_crc_errors s)
    (tx_aborted_errors s) (tx_carrier_errors s).
Definition set_tx_errors (v : Z) (s : net_device_stats) : net_device_stats :=
  mk_stats (rx_packets s) (tx_packets s) (rx_bytes s) (tx_bytes s) (rx_errors s) v
    (rx_dropped s) (multicast s) (collisions s) (rx_length_errors s) (rx_crc_errors s)
    (tx_aborted_errors s) (tx_carrier_errors s).
Definition set_rx_dropped (v : Z) (s : net_device_stats) : net_device_stats :=
  mk_stats (rx_packets s) (tx_packets s) (rx_bytes s) (tx_bytes s) (rx_errors s)
    (tx_errors s) v (multicast s) (collisions s) (rx_length_errors s) (rx_crc_errors s)
    (tx_aborted_errors s) (tx_carrier_errors s).
Definition set_multicast (v : Z) (s : net_device_stats) : net_device_stats :=
  mk_stats (rx_packets s) (tx_packets s) (rx_bytes s) (tx_bytes s) (rx_errors s)
    (tx_errors s) (rx_dropped s) v (collisions s) (rx_length_errors s) (rx_crc_errors s)
    (tx_aborted_errors s) (tx_carrier_errors s).
Definition set_collisions (v : Z) (s : net_device_stats) : net_device_stats :=
  mk_stats (rx_packets s) (tx_packets s) (rx_bytes s) (tx_bytes s) (rx_errors s)
    (tx_errors s) (rx_dropped s) (multicast s) v (rx_length_errors s) (rx_crc_errors s)
    (tx_aborted_errors s) (tx_carrier_errors s).
Definition set_rx_length_errors (v : Z) (s : net_device_stats) : net_device_stats :=
  mk_stats (rx_packets s) (tx_packets s) (rx_bytes s) (tx_bytes s) (rx_errors s)
    (tx_errors s) (rx_dropped s) (multicast s) (collisions s) v (rx_crc_errors s)
    (tx_aborted_errors s) (tx_carrier_errors s).
Definition set_rx_crc_errors (v : Z) (s : net_device_stats) : net_device_stats :=
  mk_stats (rx_packets s) (tx_packets s) (rx_bytes s) (tx_bytes s) (rx_errors s)
    (tx_errors s) (rx_dropped s) (multicast s) (collisions s) (rx_length_errors s) v
    (tx_aborted_errors s) (tx_carrier_errors s).
Definition set_tx_aborted_errors (v : Z) (s : net_device_stats) : net_device_stats :=
  mk_stats (rx_packets s) (tx_packets s) (rx_bytes s) (tx_bytes s) (rx_errors s)
    (tx_errors s) (rx_dropped s) (multicast s) (collisions s) (rx_length_errors s)
    (rx_crc_errors s) v (tx_carrier_errors s).
Definition set_tx_carrier_errors (v : Z) (s : net_device_stats) : net_device_stats :=
  mk_stats (rx_packets s) (tx_packets s) (rx_bytes s) (tx_bytes s) (rx_errors s)
    (tx_errors s) (rx_dropped s) (multicast s) (collisions s) (rx_length_errors s)
    (rx_crc_errors s) (tx_aborted_errors s) v.

(** What the driver reads and writes of [struct net_device], with the queue and
    the NAPI context that belong to it: [napi_disabling] and [napi_scheduled] are
    the bits [NAPI_STATE_DISABLE] and [NAPI_STATE_SCHED]. *)
Record net_device := mk_netdev {
  dev_addr : list Z;
  dev_flags : Z;
  mc_list : list (list Z);
  stats : net_device_stats;
  queue_stopped : bool;
  running : bool;
  carrier_ok : Z;
  napi_disabling : bool;
  napi_scheduled : bool;
  addr_assign_type : Z }.

Definition set_dev_addr (v : list Z) (s : net_device) : net_device :=
  mk_netdev v (dev_flags s) (mc_list s) (stats s) (queue_stopped s) (running s)
    (carrier_ok s) (napi_disabling s) (napi_scheduled s) (addr_assign_type s).
Definition set_dev_flags (v : Z) (s : net_device) : net_device :=
  mk_netdev (dev_addr s) v (mc_list s) (stats s) (queue_stopped s) (running s)
    (carrier_ok s) (napi_disabling s) (napi_scheduled s) (addr_assign_type s).
Definition set_mc_list (v : list (list Z)) (s : net_device) : net_device :=
  mk_netdev (dev_addr s) (dev_flags s) v (stats s) (queue_stopped s) (running s)
    (carrier_ok s) (napi_disabling s) (napi_scheduled s) (addr_assign_type s).
Definition set_stats (v : net_device_stats) (s : net_device) : net_device :=
  mk_netdev (dev_addr s) (dev_flags s) (mc_list s) v (queue_stopped s) (running s)
    (carrier_ok s) (napi_disabling s) (napi_scheduled s) (addr_assign_type s).
Definition set_queue_stopped (v : bool) (s : net_device) : net_device :=
  mk_netdev (dev_addr s) (dev_flags s) (mc_list s) (stats s) v (running s) (carrier_ok s)
    (napi_disabling s) (napi_scheduled s) (addr_assign_type s).
Definition set_running (v : bool) (s : net_device) : net_device :=
  mk_netdev (dev_addr s) (dev_flags s) (mc_list s) (stats s) (queue_stopped s) v
    (carrier_ok s) (napi_disabling s) (napi_scheduled s) (addr_assign_type s).
Definition set_carrier_ok (v : Z) (s : net_device) : net_device :=
  mk_netdev (dev_addr s) (dev_flags s) (mc_list s) (stats s) (queue_stopped s) (running s) v
    (napi_disabling s) (napi_scheduled s) (addr_assign_type s).
Definition set_napi_disabling (v : bool) (s : net_device) : net_device :=
  mk_netdev (dev_addr s) (dev_flags s) (mc_list s) (stats s) (queue_stopped s) (running s)
    (carrier_ok s) v (napi_scheduled s) (addr_assign_type s).
Definition set_napi_scheduled (v : bool) (s : net_device) : net_device :=
  mk_netdev (dev_addr s) (dev_flags s) (mc_list s) (stats s) (queue_stopped s) (running s)
    (carrier_ok s) (napi_disabling s) v (addr_assign_type s).
Definition set_addr_assign_type (v : Z) (s : net_device) : net_device :=
  mk_netdev (dev_addr s) (dev_flags s) (mc_list s) (stats s) (queue_stopped s) (running s)
    (carrier_ok s) (napi_disabling s) (napi_scheduled s) v.

(** ** The chip *)

(** The bus accesses of the driver, at an offset from [ioaddr], and a delay of
    some microseconds, during which the chip goes on. *)
Class Smsc (D : Type) := {
  readl : Z -> D -> Z * D;
  writel : Z -> Z -> D -> D;
  readw : Z -> D -> Z * D;
  writew : Z -> Z -> D -> D;
  chip_delay : Z -> D -> D }.

(** ** Effects *)

(** Packets that leave the driver: up the stack, or on the wire. *)
Record dstate (D : Type) := mk_dstate {
  chip : D;
  pd : smsc911x_data;
  nd : net_device;
  lock_warnings : nat;
  received : list (list Z) }.
Arguments mk_dstate {D}.
Arguments chip {D}.
Arguments pd {D}.
Arguments nd {D}.
Arguments lock_warnings {D}.
Arguments received {D}.

Inductive stop := Bug | Deadlock | BadUnlock | OutOfBounds | NullPointer | Hang.

Inductive outcome (D A : Type) :=
  | Ret (a : A) (s : dstate D)
  | Stop (why : stop).
Arguments Ret {D A}.
Arguments Stop {D A}.

Definition drv (D A : Type) : Type := dstate D -> outcome D A.

#[export] Instance drv_ret D : MRet (drv D) := fun A a s => Ret a s.
#[export] Instance drv_bind D : MBind (drv D) := fun A B k m s =>
  match m s with Ret a s => k a s | Stop why => Stop why end.

Definition halt {D A} (why : stop) : drv D A := fun _ => Stop why.
Definition get_pd {D} : drv D smsc911x_data := fun s => Ret (pd s) s.
Definition get_nd {D} : drv D net_device := fun s => Ret (nd s) s.
Definition with_chip {D} (s : dstate D) (d : D) : dstate D :=
  mk_dstate d (pd s) (nd s) (lock_warnings s) (received s).
Definition with_pd {D} (s : dstate D) (p : smsc911x_data) : dstate D :=
  mk_dstate (chip s) p (nd s) (lock_warnings s) (received s).
Definition with_nd {D} (s : dstate D) (n : net_device) : dstate D :=
  mk_dstate (chip s) (pd s) n (lock_warnings s) (received s).
Definition upd_pd {D} (f : smsc911x_data -> smsc911x_data) : drv D unit := fun s =>
  Ret tt (with_pd s (f (pd s))).
Definition upd_nd {D} (f : net_device -> net_device) : drv D unit := fun s =>
  Ret tt (with_nd s (f (nd s))).

(** [udelay], [mdelay] and [msleep], in microseconds. *)
Definition udelay {D} `{!Smsc D} (us : Z) : drv D unit := fun s =>
  Ret tt (with_chip s (chip_delay us (chip s))).

(** A bit test, [x & m] as a condition. *)
Definition has (x m : Z) : bool := negb (Z.land x m =? 0).

(** ** Spin locks

    Taking a lock that is held never returns; giving back one that is not held
    is an error. *)
Definition lock_dev {D} : drv D unit :=
  p ← get_pd; if dev_lock p then halt Deadlock else upd_pd (set_dev_lock true).
Definition unlock_dev {D} : drv D unit :=
  p ← get_pd; if dev_lock p then upd_pd (set_dev_lock false) else halt BadUnlock.
Definition lock_mac {D} : drv D unit :=
  p ← get_pd; if mac_lock p then halt Deadlock else upd_pd (set_mac_lock true).
Definition unlock_mac {D} : drv D unit :=
  p ← get_pd; if mac_lock p then upd_pd (set_mac_lock false) else halt BadUnlock.

(** [SMSC_ASSERT_MAC_LOCK]: counts the warnings. *)
Definition SMSC_ASSERT_MAC_LOCK {D} : drv D unit := fun s =>
  if mac_lock (pd s) then Ret tt s
  else Ret tt (mk_dstate (chip s) (pd s) (nd s) (S (lock_warnings s)) (received s)).

(** ** Reasoning about runs *)

(** [wp m Q s]: [m] returns from [s], in a state and with a value for which [Q]
    holds. *)
Definition wp {D A} (m : drv D A) (Q : A -> dstate D -> Prop) (s : dstate D) : Prop :=
  match m s with Ret a s' => Q a s' | Stop _ => False end.

Lemma wp_bind {D A B} (m : drv D A) (k : A -> drv D B) Q s :
  wp m (fun a s' => wp (k a) Q s') s -> wp (m ≫= k) Q s.
Proof. unfold wp, mbind, drv_bind. by destruct (m s). Qed.

Lemma wp_ret {D A} (a : A) (Q : A -> dstate D -> Prop) s : Q a s -> wp (mret a) Q s.
Proof. done. Qed.

Lemma wp_mono {D A} (m : drv D A) (Q Q' : A -> dstate D -> Prop) s :
  (forall a s', Q a s' -> Q' a s') -> wp m Q s -> wp m Q' s.
Proof. unfold wp. destruct (m s); auto. Qed.

Lemma wp_run {D A} (m : drv D A) Q s : wp m Q s <-> exists a s', m s = Ret a s' /\ Q a s'.
Proof.
  unfold wp. destruct (m s) as [a s'|w]; [|split; [done|by intros (? & ? & [=] & _)]].
  split; [eauto|]. intros (? & ? & [= <- <-] & ?). done.
Qed.
