(* ===== verification/SmscIo.v ===== *)
(** * Register and FIFO access (src/code/nic-driver/smsc/smsc911x.c)

    The access functions for a 16-bit or 32-bit bus, with or without shifted
    addresses, and the locked wrappers that the rest of the driver uses.  The
    theorems give the exact effect of each on the chip, that the device lock is
    free again afterwards, and that the two bus widths are interchangeable. *)

From S2P Require Import Prelude SmscDefs.

Section Access.
Context {D : Type} `{!Smsc D}.

(** [__smsc_shift(pdata, reg)] *)
Definition __smsc_shift (p : smsc911x_data) (reg : Z) : Z := shl32 reg (shift (config p)).

Definition do_readl (o : Z) : drv D Z := fun s =>
  let '(v, d) := readl o (chip s) in Ret v (with_chip s d).
Definition do_readw (o : Z) : drv D Z := fun s =>
  let '(v, d) := readw o (chip s) in Ret v (with_chip s d).
Definition do_writel (v o : Z) : drv D unit := fun s => Ret tt (with_chip s (writel v o (chip s))).
Definition do_writew (v o : Z) : drv D unit := fun s => Ret tt (with_chip s (writew v o (chip s))).

(** [__smsc911x_reg_read]; the two halves are read in the order in which they
    are written down. *)
Definition __smsc911x_reg_read (reg : Z) : drv D Z :=
  p ← get_pd;
  if has (flags (config p)) SMSC911X_USE_32BIT then do_readl reg
  else if has (flags (config p)) SMSC911X_USE_16BIT then
    lo ← do_readw reg;
    hi ← do_readw (reg + 2);
    mret (Z.lor (Z.land lo 0xffff) (shl32 (Z.land hi 0xffff) 16))
  else halt Bug.

(** [__smsc911x_reg_read_shift] *)
Definition __smsc911x_reg_read_shift (reg : Z) : drv D Z :=
  p ← get_pd;
  if has (flags (config p)) SMSC911X_USE_32BIT then do_readl (__smsc_shift p reg)
  else if has (flags (config p)) SMSC911X_USE_16BIT then
    lo ← do_readw (__smsc_shift p reg);
    hi ← do_readw (__smsc_shift p (reg + 2));
    mret (Z.lor (Z.land lo 0xffff) (shl32 (Z.land hi 0xffff) 16))
  else halt Bug.

(** [__smsc911x_reg_write] *)
Definition __smsc911x_reg_write (reg val : Z) : drv D unit :=
  p ← get_pd;
  if has (flags (config p)) SMSC911X_USE_32BIT then do_writel val reg
  else if has (flags (config p)) SMSC911X_USE_16BIT then
    _ ← do_writew (Z.land val 0xffff) reg;
    do_writew (Z.land (Z.shiftr val 16) 0xffff) (reg + 2)
  else halt Bug.

(** [__smsc911x_reg_write_shift] *)
Definition __smsc911x_reg_write_shift (reg val : Z) : drv D unit :=
  p ← get_pd;
  if has (flags (config p)) SMSC911X_USE_32BIT then do_writel val (__smsc_shift p reg)
  else if has (flags (config p)) SMSC911X_USE_16BIT then
    _ ← do_writew (Z.land val 0xffff) (__smsc_shift p reg);
    do_writew (Z.land (Z.shiftr val 16) 0xffff) (__smsc_shift p (reg + 2))
  else halt Bug.

(** The members of [standard_smsc911x_ops] and [shifted_smsc911x_ops]. *)
Definition ops_reg_read (o : smsc911x_ops) (reg : Z) : drv D Z :=
  match o with
  | standard_smsc911x_ops => __smsc911x_reg_read reg
  | shifted_smsc911x_ops => __smsc911x_reg_read_shift reg
  end.

Definition ops_reg_write (o : smsc911x_ops) (reg val : Z) : drv D unit :=
  match o with
  | standard_smsc911x_ops => __smsc911x_reg_write reg val
  | shifted_smsc911x_ops => __smsc911x_reg_write_shift reg val
  end.

(** [smsc911x_reg_read] *)
Definition smsc911x_reg_read (reg : Z) : drv D Z :=
  _ ← lock_dev;
  p ← get_pd;
  data ← ops_reg_read (ops p) reg;
  _ ← unlock_dev;
  mret data.

(** [smsc911x_reg_write] *)
Definition smsc911x_reg_write (reg val : Z) : drv D unit :=
  _ ← lock_dev;
  p ← get_pd;
  _ ← ops_reg_write (ops p) reg val;
  unlock_dev.

(** [while (wordcount--) f( *buf++ );] on a buffer of words; a read past its end
    is out of bounds. *)
Fixpoint write_words (f : Z -> drv D unit) (wordcount : nat) (buf : list Z) : drv D unit :=
  match wordcount with
  | O => mret tt
  | S n =>
      match buf with
      | [] => halt OutOfBounds
      | w :: buf => _ ← f w; write_words f n buf
      end
  end.

(** [while (wordcount--) *buf++ = f();] *)
Fixpoint read_words (f : drv D Z) (wordcount : nat) : drv D (list Z) :=
  match wordcount with
  | O => mret []
  | S n => w ← f; ws ← read_words f n; mret (w :: ws)
  end.

Definition swab32 (x : Z) : Z := bswap32 x.

(** [smsc911x_tx_writefifo] *)
Definition smsc911x_tx_writefifo (buf : list Z) (wordcount : Z) : drv D unit :=
  _ ← lock_dev;
  p ← get_pd;
  _ ← (if has (flags (config p)) SMSC911X_SWAP_FIFO then
         write_words (fun w => __smsc911x_reg_write TX_DATA_FIFO (swab32 w))
           (Z.to_nat wordcount) buf
       else if has (flags (config p)) SMSC911X_USE_32BIT then
         write_words (fun w => do_writel w TX_DATA_FIFO) (Z.to_nat wordcount) buf
       else if has (flags (config p)) SMSC911X_USE_16BIT then
         write_words (fun w => __smsc911x_reg_write TX_DATA_FIFO w) (Z.to_nat wordcount) buf
       else halt Bug);
  unlock_dev.

(** [smsc911x_tx_writefifo_shift] *)
Definition smsc911x_tx_writefifo_shift (buf : list Z) (wordcount : Z) : drv D unit :=
  _ ← lock_dev;
  p ← get_pd;
  _ ← (if has (flags (config p)) SMSC911X_SWAP_FIFO then
         write_words (fun w => __smsc911x_reg_write_shift TX_DATA_FIFO (swab32 w))
           (Z.to_nat wordcount) buf
       else if has (flags (config p)) SMSC911X_USE_32BIT then
         write_words (fun w => do_writel w (__smsc_shift p TX_DATA_FIFO)) (Z.to_nat wordcount) buf
       else if has (flags (config p)) SMSC911X_USE_16BIT then
         write_words (fun w => __smsc911x_reg_write_shift TX_DATA_FIFO w) (Z.to_nat wordcount) buf
       else halt Bug);
  unlock_dev.

(** [smsc911x_rx_readfifo]: the words that it stores at [buf]. *)
Definition smsc911x_rx_readfifo (wordcount : Z) : drv D (list Z) :=
  _ ← lock_dev;
  p ← get_pd;
  ws ← (if has (flags (config p)) SMSC911X_SWAP_FIFO then
          read_words (v ← __smsc911x_reg_read RX_DATA_FIFO; mret (swab32 v)) (Z.to_nat wordcount)
        else if has (flags (config p)) SMSC911X_USE_32BIT then
          read_words (do_readl RX_DATA_FIFO) (Z.to_nat wordcount)
        else if has (flags (config p)) SMSC911X_USE_16BIT then
          read_words (__smsc911x_reg_read RX_DATA_FIFO) (Z.to_nat wordcount)
        else halt Bug);
  _ ← unlock_dev;
  mret ws.

(** [smsc911x_rx_readfifo_shift] *)
Definition smsc911x_rx_readfifo_shift (wordcount : Z) : drv D (list Z) :=
  _ ← lock_dev;
  p ← get_pd;
  ws ← (if has (flags (config p)) SMSC911X_SWAP_FIFO then
          read_words (v ← __smsc911x_reg_read_shift RX_DATA_FIFO; mret (swab32 v))
            (Z.to_nat wordcount)
        else if has (flags (config p)) SMSC911X_USE_32BIT then
          read_words (do_readl (__smsc_shift p RX_DATA_FIFO)) (Z.to_nat wordcount)
        else if has (flags (config p)) SMSC911X_USE_16BIT then
          read_words (__smsc911x_reg_read_shift RX_DATA_FIFO) (Z.to_nat wordcount)
        else halt Bug);
  _ ← unlock_dev;
  mret ws.

(** [pdata->ops->tx_writefifo] and [pdata->ops->rx_readfifo] *)
Definition ops_tx_writefifo (buf : list Z) (wordcount : Z) : drv D unit :=
  p ← get_pd;
  match ops p with
  | standard_smsc911x_ops => smsc911x_tx_writefifo buf wordcount
  | shifted_smsc911x_ops => smsc911x_tx_writefifo_shift buf wordcount
  end.

Definition ops_rx_readfifo (wordcount : Z) : drv D (list Z) :=
  p ← get_pd;
  match ops p with
  | standard_smsc911x_ops => smsc911x_rx_readfifo wordcount
  | shifted_smsc911x_ops => smsc911x_rx_readfifo_shift wordcount
  end.

(** ** What an access does to the chip *)

(** The address of a register on the bus. *)
Definition reg_at (p : smsc911x_data) (reg : Z) : Z :=
  match ops p with
  | standard_smsc911x_ops => reg
  | shifted_smsc911x_ops => __smsc_shift p reg
  end.

Definition wide (p : smsc911x_data) : bool := has (flags (config p)) SMSC911X_USE_32BIT.
Definition swaps (p : smsc911x_data) : bool := has (flags (config p)) SMSC911X_SWAP_FIFO.

(** One of the two bus widths is configured: the branch to [BUG()] is dead. *)
Definition bus_ok (p : smsc911x_data) : Prop :=
  wide p = true \/ has (flags (config p)) SMSC911X_USE_16BIT = true.

Definition bus_read (p : smsc911x_data) (reg : Z) (d : D) : Z * D :=
  if wide p then readl (reg_at p reg) d
  else let '(lo, d) := readw (reg_at p reg) d in
       let '(hi, d) := readw (reg_at p (reg + 2)) d in
       (Z.lor (Z.land lo 0xffff) (shl32 (Z.land hi 0xffff) 16), d).

Definition bus_write (p : smsc911x_data) (reg val : Z) (d : D) : D :=
  if wide p then writel val (reg_at p reg) d
  else writew (Z.land (Z.shiftr val 16) 0xffff) (reg_at p (reg + 2))
         (writew (Z.land val 0xffff) (reg_at p reg) d).

Lemma ops_reg_read_run reg (s : dstate D) :
  bus_ok (pd s) ->
  ops_reg_read (ops (pd s)) reg s
  = Ret (bus_read (pd s) reg (chip s)).1 (with_chip s (bus_read (pd s) reg (chip s)).2).
Proof.
  unfold bus_ok, bus_read, reg_at, wide. intros Hb. destruct (ops (pd s));
    cbn [ops_reg_read]; unfold __smsc911x_reg_read, __smsc911x_reg_read_shift, get_pd, mbind,
      drv_bind, do_readl, do_readw;
    (destruct (has _ SMSC911X_USE_32BIT); [by destruct (readl _ _)|]);
    destruct Hb as [[=]|Hb]; rewrite Hb;
    destruct (readw _ (chip s)) as [lo d1]; cbn; by destruct (readw _ d1).
Qed.

Lemma ops_reg_write_run reg val (s : dstate D) :
  bus_ok (pd s) ->
  ops_reg_write (ops (pd s)) reg val s = Ret tt (with_chip s (bus_write (pd s) reg val (chip s))).
Proof.
  unfold bus_ok, bus_write, reg_at, wide. intros Hb. destruct (ops (pd s));
    cbn [ops_reg_write]; unfold __smsc911x_reg_write, __smsc911x_reg_write_shift, get_pd, mbind,
      drv_bind, do_writel, do_writew;
    (destruct (has _ SMSC911X_USE_32BIT); [done|]); destruct Hb as [[=]|Hb]; by rewrite Hb.
Qed.

(** A section under the device lock that only talks to the chip. *)
Definition locked (s : dstate D) : dstate D := with_pd s (set_dev_lock true (pd s)).

Lemma locked_unit (m : smsc911x_data -> drv D unit) (s : dstate D) d :
  dev_lock (pd s) = false -> m (pd (locked s)) (locked s) = Ret tt (with_chip (locked s) d) ->
  (_ ← lock_dev; p ← get_pd; _ ← m p; unlock_dev) s = Ret tt (with_chip s d).
Proof.
  intros Hl Hm. unfold lock_dev, unlock_dev, get_pd, upd_pd, mbind, drv_bind. rewrite Hl.
  fold (locked s). rewrite Hm. destruct s as [d0 [] n w r]. cbn in Hl. by subst.
Qed.

Lemma locked_value {A} (m : smsc911x_data -> drv D A) (s : dstate D) a d :
  dev_lock (pd s) = false -> m (pd (locked s)) (locked s) = Ret a (with_chip (locked s) d) ->
  (_ ← lock_dev; p ← get_pd; a ← m p; _ ← unlock_dev; mret a) s = Ret a (with_chip s d).
Proof.
  intros Hl Hm. unfold lock_dev, unlock_dev, get_pd, upd_pd, mbind, drv_bind. rewrite Hl.
  fold (locked s). rewrite Hm. destruct s as [d0 [] n w r]. cbn in Hl. by subst.
Qed.

(** The locked accesses: one bus access, and nothing else of the state. *)
Lemma reg_read_run reg (s : dstate D) :
  dev_lock (pd s) = false -> bus_ok (pd s) ->
  smsc911x_reg_read reg s
  = Ret (bus_read (pd s) reg (chip s)).1 (with_chip s (bus_read (pd s) reg (chip s)).2).
Proof.
  intros Hl Hb. apply (locked_value (fun p => ops_reg_read (ops p) reg)); [done|].
  exact (ops_reg_read_run reg (locked s) Hb).
Qed.

Lemma reg_write_run reg val (s : dstate D) :
  dev_lock (pd s) = false -> bus_ok (pd s) ->
  smsc911x_reg_write reg val s = Ret tt (with_chip s (bus_write (pd s) reg val (chip s))).
Proof.
  intros Hl Hb. apply (locked_unit (fun p => ops_reg_write (ops p) reg val)); [done|].
  exact (ops_reg_write_run reg val (locked s) Hb).
Qed.

(** ** The FIFOs *)

Definition fifo_word (p : smsc911x_data) (w : Z) : Z := if swaps p then swab32 w else w.

Lemma with_chip_id (s : dstate D) : with_chip s (chip s) = s.
Proof. by destruct s. Qed.

Lemma write_words_run (f : Z -> drv D unit) (g : Z -> D -> D) n buf (s : dstate D) :
  (forall w d, f w (with_chip s d) = Ret tt (with_chip s (g w d))) ->
  (n <= length buf)%nat -> forall d,
  write_words f n buf (with_chip s d)
  = Ret tt (with_chip s (foldl (fun d w => g w d) d (take n buf))).
Proof.
  intros Hf. revert buf. induction n as [|n IH]; intros buf Hn d; [done|].
  destruct buf as [|w buf]; [simpl in Hn; lia|]. cbn [write_words take foldl].
  unfold mbind, drv_bind. rewrite Hf. apply IH. simpl in Hn. lia.
Qed.

Fixpoint bus_reads (p : smsc911x_data) (n : nat) (d : D) : list Z * D :=
  match n with
  | O => ([], d)
  | S n => let '(w, d) := bus_read p RX_DATA_FIFO d in
           let '(ws, d) := bus_reads p n d in (fifo_word p w :: ws, d)
  end.

Lemma bus_reads_locked p n (d : D) : bus_reads (set_dev_lock true p) n d = bus_reads p n d.
Proof.
  revert d. induction n as [|n IH]; intros d; [done|]. cbn [bus_reads].
  change (bus_read (set_dev_lock true p) RX_DATA_FIFO d) with (bus_read p RX_DATA_FIFO d).
  destruct (bus_read p RX_DATA_FIFO d) as [w d1]. by rewrite IH.
Qed.

Lemma read_words_run (f : drv D Z) n (s : dstate D) :
  (forall d, f (with_chip s d) = Ret (fifo_word (pd s) (bus_read (pd s) RX_DATA_FIFO d).1)
                                   (with_chip s (bus_read (pd s) RX_DATA_FIFO d).2)) ->
  forall d, read_words f n (with_chip s d)
            = Ret (bus_reads (pd s) n d).1 (with_chip s (bus_reads (pd s) n d).2).
Proof.
  intros Hf. induction n as [|n IH]; intros d; [done|].
  cbn [read_words bus_reads]. unfold mbind, drv_bind. rewrite Hf.
  destruct (bus_read (pd s) RX_DATA_FIFO d) as [w d1]. cbn [fst snd].
  rewrite IH. by destruct (bus_reads (pd s) n d1).
Qed.

(** The unlocked accesses that the loops repeat. *)
Lemma fifo_write_run w (s : dstate D) d :
  bus_ok (pd s) ->
  ops_reg_write (ops (pd s)) TX_DATA_FIFO w (with_chip s d)
  = Ret tt (with_chip s (bus_write (pd s) TX_DATA_FIFO w d)).
Proof. intros Hb. exact (ops_reg_write_run TX_DATA_FIFO w (with_chip s d) Hb). Qed.

Lemma fifo_read_run (s : dstate D) d :
  bus_ok (pd s) ->
  ops_reg_read (ops (pd s)) RX_DATA_FIFO (with_chip s d)
  = Ret (bus_read (pd s) RX_DATA_FIFO d).1 (with_chip s (bus_read (pd s) RX_DATA_FIFO d).2).
Proof. intros Hb. exact (ops_reg_read_run RX_DATA_FIFO (with_chip s d) Hb). Qed.

Definition push_fifo (p : smsc911x_data) (ws : list Z) (d : D) : D :=
  foldl (fun d w => bus_write p TX_DATA_FIFO (fifo_word p w) d) d ws.

(** The four loops do the accesses of [ops_reg_write] and [ops_reg_read]. *)
Lemma wide_write p o w (s : dstate D) :
  pd s = p -> wide p = true ->
  ops_reg_write o TX_DATA_FIFO w s
  = do_writel w (match o with
                 | standard_smsc911x_ops => TX_DATA_FIFO
                 | shifted_smsc911x_ops => __smsc_shift p TX_DATA_FIFO
                 end) s.
Proof.
  intros <- Hw. unfold wide in Hw. destruct o; cbn [ops_reg_write];
    unfold __smsc911x_reg_write, __smsc911x_reg_write_shift, get_pd, mbind, drv_bind; by rewrite Hw.
Qed.

Lemma wide_read p o (s : dstate D) :
  pd s = p -> wide p = true ->
  ops_reg_read o RX_DATA_FIFO s
  = do_readl (match o with
              | standard_smsc911x_ops => RX_DATA_FIFO
              | shifted_smsc911x_ops => __smsc_shift p RX_DATA_FIFO
              end) s.
Proof.
  intros <- Hw. unfold wide in Hw. destruct o; cbn [ops_reg_read];
    unfold __smsc911x_reg_read, __smsc911x_reg_read_shift, get_pd, mbind, drv_bind; by rewrite Hw.
Qed.

Lemma tx_writefifo_run buf n (s : dstate D) :
  dev_lock (pd s) = false -> bus_ok (pd s) -> (Z.to_nat n <= length buf)%nat ->
  ops_tx_writefifo buf n s
  = Ret tt (with_chip s (push_fifo (pd s) (take (Z.to_nat n) buf) (chip s))).
Proof.
  intros Hl Hb Hn. pose proof (fun w d => fifo_write_run w (locked s) d Hb) as Hw.
  assert (forall f, (forall w d, f w (with_chip (locked s) d)
             = Ret tt (with_chip (locked s) (bus_write (pd s) TX_DATA_FIFO (fifo_word (pd s) w) d))) ->
           write_words f (Z.to_nat n) buf (locked s)
           = Ret tt (with_chip (locked s) (push_fifo (pd s) (take (Z.to_nat n) buf) (chip s)))) as Hrun.
  { intros f Hf. rewrite <- (with_chip_id (locked s)) at 1.
    by rewrite (write_words_run f _ _ _ (locked s) Hf Hn). }
  unfold ops_tx_writefifo, get_pd at 1, mbind at 1, drv_bind at 1.
  pose proof (fun w (s' : dstate D) => wide_write (pd (locked s)) (ops (pd s)) w s') as Hwide.
  unfold fifo_word, swaps in Hrun. cbn [pd locked with_pd] in Hw.
  change (ops (set_dev_lock true (pd s))) with (ops (pd s)) in Hw.
  destruct (ops (pd s)); cbn [ops_reg_write] in Hw, Hwide; apply locked_unit; try done;
    change (config (pd (locked s))) with (config (pd s));
    (destruct (has (flags (config (pd s))) SMSC911X_SWAP_FIFO);
      [apply (Hrun (fun w => _ (swab32 w))); intros w d; apply Hw|]);
    (destruct (has (flags (config (pd s))) SMSC911X_USE_32BIT) eqn:E32;
      [apply Hrun; intros w d; rewrite <- Hwide by done; apply Hw|]);
    (destruct Hb as [Hb|Hb]; [unfold wide in Hb; congruence|]); rewrite Hb;
    apply Hrun; intros w d; apply Hw.
Qed.

Lemma rx_readfifo_run n (s : dstate D) :
  dev_lock (pd s) = false -> bus_ok (pd s) ->
  ops_rx_readfifo n s
  = Ret (bus_reads (pd s) (Z.to_nat n) (chip s)).1
      (with_chip s (bus_reads (pd s) (Z.to_nat n) (chip s)).2).
Proof.
  intros Hl Hb. pose proof (fun d => fifo_read_run (locked s) d Hb) as Hr.
  assert (forall f, (forall d, f (with_chip (locked s) d)
             = Ret (fifo_word (pd s) (bus_read (pd s) RX_DATA_FIFO d).1)
                 (with_chip (locked s) (bus_read (pd s) RX_DATA_FIFO d).2)) ->
           read_words f (Z.to_nat n) (locked s)
           = Ret (bus_reads (pd s) (Z.to_nat n) (chip s)).1
               (with_chip (locked s) (bus_reads (pd s) (Z.to_nat n) (chip s)).2)) as Hrun.
  { intros f Hf. rewrite <- (with_chip_id (locked s)) at 1.
    rewrite (read_words_run f _ (locked s) Hf). cbn [locked with_pd pd chip].
    by rewrite bus_reads_locked. }
  unfold ops_rx_readfifo, get_pd at 1, mbind at 1, drv_bind at 1.
  pose proof (fun (s' : dstate D) => wide_read (pd (locked s)) (ops (pd s)) s') as Hwide.
  unfold fifo_word, swaps in Hrun. cbn [pd locked with_pd] in Hr.
  change (ops (set_dev_lock true (pd s))) with (ops (pd s)) in Hr.
  destruct (ops (pd s)); cbn [ops_reg_read] in Hr, Hwide; apply locked_value; try done;
    change (config (pd (locked s))) with (config (pd s));
    (destruct (has (flags (config (pd s))) SMSC911X_SWAP_FIFO);
      [apply Hrun; intros d; unfold mbind, drv_bind; by rewrite Hr|]);
    (destruct (has (flags (config (pd s))) SMSC911X_USE_32BIT) eqn:E32;
      [apply Hrun; intros d; rewrite <- Hwide by done; apply Hr|]);
    (destruct Hb as [Hb|Hb]; [unfold wide in Hb; congruence|]); rewrite Hb;
    apply Hrun; intros d; apply Hr.
Qed.

End Access.

(** ** Interfaces of the chip that the properties below assume *)

(** A bus on which a 32-bit access is the two 16-bit accesses, low half first. *)
Class HalfwordBus (D : Type) `{!Smsc D} : Prop := {
  readw_u16 o d : is_u16 (readw o d).1;
  readl_halves o d :
    readl o d = (let '(lo, d) := readw o d in let '(hi, d) := readw (o + 2) d in
                 (lo + 2 ^ 16 * hi, d));
  writel_halves v o d :
    is_u32 v -> writel v o d = writew (v / 2 ^ 16) (o + 2) (writew (v mod 2 ^ 16) o d) }.

(** A chip that returns on the receive side the words of the transmit side, seen
    through the accesses of a driver with data [p]. *)
Class LoopFifo (D : Type) `{!Smsc D} (p : smsc911x_data) := {
  fifo_words : D -> list Z;
  fifo_push w d : is_u32 w ->
    fifo_words (bus_write p TX_DATA_FIFO w d) = fifo_words d ++ [w];
  fifo_pop w ws d : fifo_words d = w :: ws ->
    (bus_read p RX_DATA_FIFO d).1 = w /\ fifo_words (bus_read p RX_DATA_FIFO d).2 = ws }.

Lemma fifo_word_u32 p w : is_u32 w -> is_u32 (fifo_word p w).
Proof. intros Hw. unfold fifo_word, swab32. destruct (swaps p); [apply bswap32_u32|done]. Qed.

Lemma fifo_word_twice p w : is_u32 w -> fifo_word p (fifo_word p w) = w.
Proof.
  intros Hw. unfold fifo_word, swab32. destruct (swaps p); [by apply bswap32_involutive|done].
Qed.

Section Loop.
Context {D : Type} `{!Smsc D} (p : smsc911x_data) `{!LoopFifo D p}.

Lemma push_fifo_words ws d :
  Forall is_u32 ws -> fifo_words (push_fifo p ws d) = fifo_words d ++ (fifo_word p <$> ws).
Proof.
  intros Hws. revert d. induction Hws as [|w ws Hw _ IH]; intros d; [by rewrite app_nil_r|].
  cbn [push_fifo foldl fmap list_fmap].
  change (foldl _ ?d0 ws) with (push_fifo p ws d0). rewrite IH, fifo_push by by apply fifo_word_u32.
  by rewrite <- app_assoc.
Qed.

Lemma pop_fifo_words ws rest d :
  Forall is_u32 ws -> fifo_words d = (fifo_word p <$> ws) ++ rest ->
  (bus_reads p (length ws) d).1 = ws /\ fifo_words (bus_reads p (length ws) d).2 = rest.
Proof.
  intros Hws. revert d. induction Hws as [|w ws Hw _ IH]; intros d Hd; [done|].
  cbn [length bus_reads]. destruct (fifo_pop _ _ _ Hd) as [H1 H2].
  destruct (bus_read p RX_DATA_FIFO d) as [v d1]. cbn in H1, H2. subst v.
  destruct (IH d1 H2) as [H3 H4]. destruct (bus_reads p (length ws) d1). cbn in *. subst.
  by rewrite fifo_word_twice.
Qed.

End Loop.

(** ** Properties *)

(** with a bus width configured and the device lock free, the four access
    functions return, leave the lock free, and change nothing but the chip: a
    register access is one bus access at the (possibly shifted) address, and a
    FIFO transfer moves exactly the requested words in order, byte-swapped when
    the board asks for it.  Neither [BUG()] nor the lock can stop them. *)
Theorem register_access_correct {D} `{!Smsc D} (s : dstate D) reg val buf n :
  dev_lock (pd s) = false -> bus_ok (pd s) -> (Z.to_nat n <= length buf)%nat ->
  smsc911x_reg_read reg s
  = Ret (bus_read (pd s) reg (chip s)).1 (with_chip s (bus_read (pd s) reg (chip s)).2) /\
  smsc911x_reg_write reg val s = Ret tt (with_chip s (bus_write (pd s) reg val (chip s))) /\
  ops_tx_writefifo buf n s
  = Ret tt (with_chip s (push_fifo (pd s) (take (Z.to_nat n) buf) (chip s))) /\
  ops_rx_readfifo n s
  = Ret (bus_reads (pd s) (Z.to_nat n) (chip s)).1
      (with_chip s (bus_reads (pd s) (Z.to_nat n) (chip s)).2).
Proof.
  intros Hl Hb Hn. split; [by apply reg_read_run|]. split; [by apply reg_write_run|].
  split; [by apply tx_writefifo_run|by apply rx_readfifo_run].
Qed.

(** Words written to the transmit FIFO of a chip in loopback and read back
    from its receive FIFO are the words that were written, for every
    combination of bus width, address shift and byte swapping. *)
Theorem fifo_roundtrip {D} `{!Smsc D} (s : dstate D) `{!LoopFifo D (pd s)} ws :
  dev_lock (pd s) = false -> bus_ok (pd s) -> Forall is_u32 ws -> fifo_words (chip s) = [] ->
  exists d, (_ ← ops_tx_writefifo ws (Z.of_nat (length ws));
             ops_rx_readfifo (Z.of_nat (length ws))) s = Ret ws (with_chip s d) /\
    fifo_words d = [].
Proof.
  intros Hl Hb Hws Hd. unfold mbind, drv_bind.
  rewrite tx_writefifo_run by (done || lia). rewrite Nat2Z.id, firstn_all.
  rewrite rx_readfifo_run by done. rewrite Nat2Z.id. cbn [pd chip with_chip].
  destruct (pop_fifo_words (pd s) ws [] (push_fifo (pd s) ws (chip s)) Hws) as [H1 H2].
  { by rewrite push_fifo_words, Hd, app_nil_r. }
  rewrite H1. by eexists.
Qed.

(** On a bus where a 32-bit access is two 16-bit accesses, a driver that is
    configured for 16 bits reads and writes its registers exactly like one that
    is configured for 32 bits. *)
Theorem bus_widths_agree {D} `{!Smsc D} `{!HalfwordBus D} (p p' : smsc911x_data) reg val (d : D) :
  ops p = standard_smsc911x_ops -> ops p' = standard_smsc911x_ops ->
  wide p = true -> wide p' = false -> is_u32 val ->
  bus_read p reg d = bus_read p' reg d /\ bus_write p reg val d = bus_write p' reg val d.
Proof.
  intros Ho Ho' Hw Hw' [Hv0 Hv]. unfold bus_read, bus_write, reg_at. rewrite Ho, Ho', Hw, Hw'.
  split.
  - rewrite readl_halves. pose proof (readw_u16 reg d) as Hlo.
    destruct (readw reg d) as [lo d1]. pose proof (readw_u16 (reg + 2) d1) as Hhi.
    destruct (readw (reg + 2) d1) as [hi d2]. cbn in Hlo, Hhi. f_equal.
    change 0xffff with (Z.ones 16). rewrite !Z.land_ones, !Z.mod_small by (done || lia).
    unfold shl32. rewrite u32_small.
    + rewrite lor_add_shiftl by (done || lia). lia.
    + rewrite Z.shiftl_mul_pow2 by lia. unfold is_word in *. lia.
  - rewrite writel_halves by done. change 0xffff with (Z.ones 16).
    rewrite !Z.land_ones, Z.shiftr_div_pow2 by lia. f_equal.
    rewrite Z.mod_small; [done|]. split; [by apply Z.div_pos|].
    apply Z.div_lt_upper_bound; [lia|]. unfold is_word in *. lia.
Qed.

(** ** Concrete chips and states *)

Definition demo_pdata (f : Z) : smsc911x_data :=
  mk_pdata 1 0x01180002 2 (mk_config 0 0 f 0 0 (replicate 6 0)) false false None 0 0 0 0 0 0 0
    (replicate 64 0) (replicate 64 0) 0 0 0 0 0 0 standard_smsc911x_ops.
Definition zero_stats : net_device_stats := mk_stats 0 0 0 0 0 0 0 0 0 0 0 0 0.
Definition demo_netdev : net_device :=
  mk_netdev [2; 0; 0; 0; 0; 1] 0 [] zero_stats false true 0 false false 0.
Definition demo_state {D} (d : D) (f : Z) : dstate D :=
  mk_dstate d (demo_pdata f) demo_netdev 0 [].

(** The receive FIFO returns what is written to the transmit FIFO. *)
Definition loop_chip : Smsc (list Z) := {|
  readl _ d := match d with [] => (0, []) | w :: ws => (w, ws) end;
  writel v _ d := d ++ [v];
  readw _ d := (0, d);
  writew _ _ d := d;
  chip_delay _ d := d |}.

(** A memory of 16-bit words. *)
Definition halfword_chip : Smsc (Z -> Z) := {|
  readl o m := (u16 (m o) + 2 ^ 16 * u16 (m (o + 2)), m);
  writel v o m := fun a => if a =? o + 2 then v / 2 ^ 16
                           else if a =? o then v mod 2 ^ 16 else m a;
  readw o m := (u16 (m o), m);
  writew v o m := fun a => if a =? o then v else m a;
  chip_delay _ m := m |}.

Lemma register_access_correct_witness :
  @smsc911x_reg_write _ loop_chip TX_DATA_FIFO 7 (demo_state [] SMSC911X_USE_32BIT)
  = Ret tt (demo_state [7] SMSC911X_USE_32BIT).
Proof.
  destruct (@register_access_correct _ loop_chip (demo_state [] SMSC911X_USE_32BIT)
    TX_DATA_FIFO 7 [1; 2] 2) as (_ & H & _); [reflexivity|left; reflexivity|simpl; lia|].
  exact H.
Defined.

Definition loop_chip_fifo p : wide p = true -> @LoopFifo _ loop_chip p.
Proof.
  intros Hw. refine (@Build_LoopFifo _ loop_chip p (fun d => d) _ _).
  - intros w d _. unfold bus_write. by rewrite Hw.
  - intros w ws d ->. unfold bus_read. by rewrite Hw.
Defined.

Lemma fifo_roundtrip_witness :
  exists d, (_ ← @ops_tx_writefifo _ loop_chip [1; 2; 3] 3; @ops_rx_readfifo _ loop_chip 3)
              (demo_state [] (SMSC911X_USE_32BIT + SMSC911X_SWAP_FIFO))
            = Ret [1; 2; 3] (with_chip (demo_state [] (SMSC911X_USE_32BIT + SMSC911X_SWAP_FIFO)) d).
Proof.
  destruct (@fifo_roundtrip _ loop_chip (demo_state [] (SMSC911X_USE_32BIT + SMSC911X_SWAP_FIFO))
    (loop_chip_fifo (demo_pdata (SMSC911X_USE_32BIT + SMSC911X_SWAP_FIFO)) eq_refl) [1; 2; 3]) as (d & H & _).
  - reflexivity.
  - left. reflexivity.
  - repeat constructor; unfold is_word; lia.
  - reflexivity.
  - exists d. exact H.
Defined.

#[local] Instance halfword_chip_bus : @HalfwordBus _ halfword_chip.
Proof.
  split; [intros; apply is_u16_u16|done|done].
Qed.

Lemma bus_widths_agree_witness :
  @bus_read _ halfword_chip (demo_pdata SMSC911X_USE_32BIT) ID_REV (fun a => a)
  = @bus_read _ halfword_chip (demo_pdata SMSC911X_USE_16BIT) ID_REV (fun a => a).
Proof.
  apply (@bus_widths_agree _ halfword_chip halfword_chip_bus (demo_pdata SMSC911X_USE_32BIT)
    (demo_pdata SMSC911X_USE_16BIT) ID_REV 0 (fun a => a)); try reflexivity.
  unfold is_word. lia.
Defined.
