(* ===== verification/SmscMac.v ===== *)
(** * MAC and PHY registers (src/code/nic-driver/smsc/smsc911x.c)

    The MAC registers are reached through a command and a data register, the PHY
    registers through two MAC registers; both with a busy bit and a bounded wait.
    The definitions follow the driver; the theorems show that they return on
    every chip, time out as they should, and implement register reads and writes
    on a chip that keeps the protocol. *)

From S2P Require Import Prelude SmscDefs SmscIo.

Section Mac.
Context {D : Type} `{!Smsc D}.

(** The loop of [smsc911x_mac_complete]: [n] reads of the command register. *)
Fixpoint mac_complete_loop (n : nat) : drv D Z :=
  match n with
  | O => mret (- EIO)
  | S n =>
      val ← smsc911x_reg_read MAC_CSR_CMD;
      if negb (has val MAC_CSR_CMD_CSR_BUSY_) then mret 0 else mac_complete_loop n
  end.

(** [smsc911x_mac_complete] *)
Definition smsc911x_mac_complete : drv D Z :=
  _ ← SMSC_ASSERT_MAC_LOCK;
  mac_complete_loop 40.

(** [smsc911x_mac_read] *)
Definition smsc911x_mac_read (offset : Z) : drv D Z :=
  _ ← SMSC_ASSERT_MAC_LOCK;
  temp ← smsc911x_reg_read MAC_CSR_CMD;
  if has temp MAC_CSR_CMD_CSR_BUSY_ then mret 0xffffffff
  else
    _ ← smsc911x_reg_write MAC_CSR_CMD
          (Z.lor (Z.lor (Z.land offset 0xff) MAC_CSR_CMD_CSR_BUSY_) MAC_CSR_CMD_R_NOT_W_);
    _ ← smsc911x_reg_read BYTE_TEST;
    r ← smsc911x_mac_complete;
    if r =? 0 then smsc911x_reg_read MAC_CSR_DATA
    else mret 0xffffffff.

(** [smsc911x_mac_write] *)
Definition smsc911x_mac_write (offset val : Z) : drv D unit :=
  _ ← SMSC_ASSERT_MAC_LOCK;
  temp ← smsc911x_reg_read MAC_CSR_CMD;
  if has temp MAC_CSR_CMD_CSR_BUSY_ then mret tt
  else
    _ ← smsc911x_reg_write MAC_CSR_DATA val;
    _ ← smsc911x_reg_write MAC_CSR_CMD (Z.lor (Z.land offset 0xff) MAC_CSR_CMD_CSR_BUSY_);
    _ ← smsc911x_reg_read BYTE_TEST;
    _ ← smsc911x_mac_complete;
    mret tt.

(** The wait of [smsc911x_mii_read] and [smsc911x_mii_write], with what they do
    when the busy bit is clear. *)
Fixpoint mii_wait (n : nat) (fin : drv D Z) : drv D Z :=
  match n with
  | O => mret (- EIO)
  | S n =>
      v ← smsc911x_mac_read MII_ACC;
      if negb (has v MII_ACC_MII_BUSY_) then fin else mii_wait n fin
  end.

(** [smsc911x_mii_read] *)
Definition smsc911x_mii_read (phyaddr regidx : Z) : drv D Z :=
  _ ← lock_mac;
  reg ← (v ← smsc911x_mac_read MII_ACC;
         if has v MII_ACC_MII_BUSY_ then mret (- EIO)
         else
           let addr := Z.lor (Z.shiftl (Z.land phyaddr 0x1f) 11) (Z.shiftl (Z.land regidx 0x1f) 6) in
           _ ← smsc911x_mac_write MII_ACC addr;
           mii_wait 100 (r ← smsc911x_mac_read MII_DATA; mret (s32 r)));
  _ ← unlock_mac;
  mret reg.

(** [smsc911x_mii_write] *)
Definition smsc911x_mii_write (phyaddr regidx val : Z) : drv D Z :=
  _ ← lock_mac;
  reg ← (v ← smsc911x_mac_read MII_ACC;
         if has v MII_ACC_MII_BUSY_ then mret (- EIO)
         else
           _ ← smsc911x_mac_write MII_DATA val;
           let addr := Z.lor (Z.lor (Z.shiftl (Z.land phyaddr 0x1f) 11)
                                    (Z.shiftl (Z.land regidx 0x1f) 6)) MII_ACC_MII_WRITE_ in
           _ ← smsc911x_mac_write MII_ACC addr;
           mii_wait 100 (mret 0));
  _ ← unlock_mac;
  mret reg.

(** [smsc911x_set_hw_mac_address]; the array [dev_addr] has six bytes. *)
Definition smsc911x_set_hw_mac_address (a : list Z) : drv D unit :=
  match a with
  | [a0; a1; a2; a3; a4; a5] =>
      let mac_high16 := Z.lor (Z.shiftl a5 8) a4 in
      let mac_low32 := Z.lor (Z.lor (Z.lor (shl32 a3 24) (Z.shiftl a2 16)) (Z.shiftl a1 8)) a0 in
      _ ← SMSC_ASSERT_MAC_LOCK;
      _ ← smsc911x_mac_write ADDRH mac_high16;
      smsc911x_mac_write ADDRL mac_low32
  | _ => halt OutOfBounds
  end.

(** [smsc911x_read_mac_address] *)
Definition smsc911x_read_mac_address : drv D unit :=
  mac_high16 ← smsc911x_mac_read ADDRH;
  mac_low32 ← smsc911x_mac_read ADDRL;
  upd_nd (set_dev_addr [u8 mac_low32; u8 (Z.shiftr mac_low32 8); u8 (Z.shiftr mac_low32 16);
                        u8 (Z.shiftr mac_low32 24); u8 mac_high16; u8 (Z.shiftr mac_high16 8)]).

(** ** Runs that only change the chip *)

(** The state in which register accesses work. *)
Definition ready (s : dstate D) : Prop := dev_lock (pd s) = false /\ bus_ok (pd s).

(** [crun m s Q]: [m] returns from [s] and changes nothing but the chip; [Q]
    holds of its result and of the chip then. *)
Definition crun {A} (m : drv D A) (s : dstate D) (Q : A -> D -> Prop) : Prop :=
  exists a d, m s = Ret a (with_chip s d) /\ Q a d.

Lemma crun_bind {A B} (m : drv D A) (k : A -> drv D B) s Q :
  crun m s (fun a d => crun (k a) (with_chip s d) Q) -> crun (m ≫= k) s Q.
Proof.
  intros (a & d & E & b & d' & E' & HQ). exists b, d'. split; [|done].
  unfold mbind, drv_bind. by rewrite E, E'.
Qed.

Lemma crun_ret {A} (a : A) s (Q : A -> D -> Prop) : Q a (chip s) -> crun (mret a) s Q.
Proof. intros HQ. exists a, (chip s). by rewrite with_chip_id. Qed.

Lemma crun_mono {A} (m : drv D A) s (Q Q' : A -> D -> Prop) :
  crun m s Q -> (forall a d, Q a d -> Q' a d) -> crun m s Q'.
Proof. intros (a & d & E & HQ) H. exists a, d. auto. Qed.

Lemma crun_read reg s (Q : Z -> D -> Prop) :
  ready s -> Q (bus_read (pd s) reg (chip s)).1 (bus_read (pd s) reg (chip s)).2 ->
  crun (smsc911x_reg_read reg) s Q.
Proof. intros [Hl Hb] HQ. eexists _, _. split; [by apply reg_read_run|done]. Qed.

Lemma crun_write reg val s (Q : unit -> D -> Prop) :
  ready s -> Q tt (bus_write (pd s) reg val (chip s)) -> crun (smsc911x_reg_write reg val) s Q.
Proof. intros [Hl Hb] HQ. eexists _, _. split; [by apply reg_write_run|done]. Qed.

Lemma crun_delay us s (Q : unit -> D -> Prop) :
  Q tt (chip_delay us (chip s)) -> crun (udelay us) s Q.
Proof. intros HQ. eexists _, _. split; [reflexivity|done]. Qed.

Lemma crun_assert s (Q : unit -> D -> Prop) :
  mac_lock (pd s) = true -> Q tt (chip s) -> crun SMSC_ASSERT_MAC_LOCK s Q.
Proof.
  intros Hl HQ. exists tt, (chip s). unfold SMSC_ASSERT_MAC_LOCK. rewrite Hl, with_chip_id. done.
Qed.

(** A section under the MAC lock. *)
Definition mac_locked (s : dstate D) : dstate D := with_pd s (set_mac_lock true (pd s)).

Lemma crun_locked {A} (m : drv D A) s (Q : A -> D -> Prop) :
  mac_lock (pd s) = false -> crun m (mac_locked s) Q ->
  crun (_ ← lock_mac; a ← m; _ ← unlock_mac; mret a) s Q.
Proof.
  intros Hl (a & d & E & HQ). exists a, d. split; [|done].
  unfold lock_mac, unlock_mac, get_pd, upd_pd, mbind, drv_bind. rewrite Hl.
  fold (mac_locked s). rewrite E. destruct s as [d0 [] n w r]. cbn in Hl. by subst.
Qed.

(** Sections that return nothing. *)
Lemma crun_locked_unit (m : drv D unit) s (Q : unit -> D -> Prop) :
  mac_lock (pd s) = false -> crun m (mac_locked s) Q ->
  crun (_ ← lock_mac; _ ← m; unlock_mac) s Q.
Proof.
  intros Hl ([] & d & E & HQ). exists tt, d. split; [|done].
  unfold lock_mac, unlock_mac, get_pd, upd_pd, mbind, drv_bind. rewrite Hl.
  fold (mac_locked s). rewrite E. destruct s as [d0 [] n w r]. cbn in Hl. by subst.
Qed.

End Mac.

(** Steps through a run that only changes the chip. *)
Ltac crun_step :=
  lazymatch goal with
  | |- crun (mbind _ _) _ _ => apply crun_bind
  | |- crun (mret _) _ _ => apply crun_ret
  | |- crun (smsc911x_reg_read _) _ _ => apply crun_read; [done|]
  | |- crun (smsc911x_reg_write _ _) _ _ => apply crun_write; [done|]
  | |- crun (udelay _) _ _ => apply crun_delay
  | |- crun SMSC_ASSERT_MAC_LOCK _ _ => apply crun_assert; [done|]
  end; cbn beta.

(** ** On every chip *)

Section AnyChip.
Context {D : Type} `{!Smsc D}.
Implicit Types s : dstate D.

Lemma mac_complete_any s :
  ready s -> mac_lock (pd s) = true -> crun smsc911x_mac_complete s (fun _ _ => True).
Proof.
  intros Hr Hl. unfold smsc911x_mac_complete. do 2 crun_step. rewrite with_chip_id.
  generalize 40%nat as n. intros n. revert s Hr Hl. induction n as [|n IH]; intros s Hr Hl;
    cbn [mac_complete_loop]; [by crun_step|]. do 2 crun_step. destruct (negb _); [by crun_step|]. by apply IH.
Qed.

Lemma mac_read_any offset s :
  ready s -> mac_lock (pd s) = true -> crun (smsc911x_mac_read offset) s (fun _ _ => True).
Proof.
  intros Hr Hl. unfold smsc911x_mac_read. do 4 crun_step.
  destruct (has _ _); [by crun_step|]. do 4 crun_step. apply crun_bind.
  eapply crun_mono; [by apply mac_complete_any|]. intros r d _. cbn beta.
  destruct (r =? 0); [|by crun_step]. by crun_step.
Qed.

Lemma mac_write_any offset val s :
  ready s -> mac_lock (pd s) = true -> crun (smsc911x_mac_write offset val) s (fun _ _ => True).
Proof.
  intros Hr Hl. unfold smsc911x_mac_write. do 4 crun_step.
  destruct (has _ _); [by crun_step|]. do 6 crun_step. apply crun_bind.
  eapply crun_mono; [by apply mac_complete_any|]. intros r d _. by crun_step.
Qed.

Lemma mii_wait_any n fin s :
  ready s -> mac_lock (pd s) = true ->
  (forall d, crun fin (with_chip s d) (fun _ _ => True)) -> crun (mii_wait n fin) s (fun _ _ => True).
Proof.
  intros Hr Hl. revert s Hr Hl. induction n as [|n IH]; intros s Hr Hl Hf; cbn [mii_wait];
    [by crun_step|]. apply crun_bind. eapply crun_mono; [by apply mac_read_any|].
  intros v d _. cbn beta. destruct (negb _); [apply Hf|]. by apply IH.
Qed.

Lemma mii_read_any phyaddr regidx s :
  ready s -> mac_lock (pd s) = false -> crun (smsc911x_mii_read phyaddr regidx) s (fun _ _ => True).
Proof.
  intros Hr Hl. unfold smsc911x_mii_read. apply crun_locked; [done|]. apply crun_bind.
  eapply crun_mono; [by apply mac_read_any|]. intros v d _. cbn beta.
  destruct (has _ _); [by crun_step|]. cbv zeta. apply crun_bind.
  eapply crun_mono; [by apply mac_write_any|]. intros _ d' _.
  apply mii_wait_any; [done|done|]. intros d2. apply crun_bind.
  eapply crun_mono; [by apply mac_read_any|]. intros r d3 _. by crun_step.
Qed.

Lemma mii_write_any phyaddr regidx val s :
  ready s -> mac_lock (pd s) = false ->
  crun (smsc911x_mii_write phyaddr regidx val) s (fun _ _ => True).
Proof.
  intros Hr Hl. unfold smsc911x_mii_write. apply crun_locked; [done|]. apply crun_bind.
  eapply crun_mono; [by apply mac_read_any|]. intros v d _. cbn beta.
  destruct (has _ _); [by crun_step|]. apply crun_bind.
  eapply crun_mono; [by apply mac_write_any|]. intros _ d1 _. cbv zeta. apply crun_bind.
  eapply crun_mono; [by apply mac_write_any|]. intros _ d2 _.
  apply mii_wait_any; [done|done|]. intros d3. by crun_step.
Qed.

Lemma set_hw_mac_any a s :
  ready s -> mac_lock (pd s) = true -> length a = 6%nat ->
  crun (smsc911x_set_hw_mac_address a) s (fun _ _ => True).
Proof.
  intros Hr Hl Ha. do 6 (destruct a as [|? a]; [done|]). destruct a; [|done].
  cbn [smsc911x_set_hw_mac_address]. cbv zeta. do 2 crun_step. apply crun_bind.
  rewrite with_chip_id. eapply crun_mono; [by apply mac_write_any|]. intros _ d1 _.
  by apply mac_write_any.
Qed.

End AnyChip.

(** ** On a chip that keeps the protocol *)

Definition csr_read_cmd (o : Z) : Z :=
  Z.lor (Z.lor (Z.land o 0xff) MAC_CSR_CMD_CSR_BUSY_) MAC_CSR_CMD_R_NOT_W_.
Definition csr_write_cmd (o : Z) : Z := Z.lor (Z.land o 0xff) MAC_CSR_CMD_CSR_BUSY_.

(** The MAC registers that keep what is written to them; the two MII registers
    do not. *)
Definition plain_reg (o : Z) : Prop := 0 <= o < 256 /\ o <> MII_ACC /\ o <> MII_DATA.

(** The command interface of the chip, as the datasheet describes it and the
    driver relies on it, seen through the accesses of a driver with data [p]:
    [csr_busy] further reads of the command register report busy, never more
    than 39 after a command. *)
Class MacChip (D : Type) `{!Smsc D} (p : smsc911x_data) := {
  mac_regs : D -> Z -> Z;
  csr_data : D -> Z;
  csr_busy : D -> nat;
  csr_read_cmd_reg d :
    has (bus_read p MAC_CSR_CMD d).1 MAC_CSR_CMD_CSR_BUSY_ = bool_decide (csr_busy d <> 0%nat) /\
    csr_busy (bus_read p MAC_CSR_CMD d).2 = pred (csr_busy d) /\
    csr_data (bus_read p MAC_CSR_CMD d).2 = csr_data d /\
    mac_regs (bus_read p MAC_CSR_CMD d).2 = mac_regs d;
  csr_read_data d :
    csr_busy d = 0%nat ->
    (bus_read p MAC_CSR_DATA d).1 = csr_data d /\
    csr_busy (bus_read p MAC_CSR_DATA d).2 = 0%nat /\
    mac_regs (bus_read p MAC_CSR_DATA d).2 = mac_regs d;
  csr_byte_test d :
    (csr_busy (bus_read p BYTE_TEST d).2 <= csr_busy d)%nat /\
    csr_data (bus_read p BYTE_TEST d).2 = csr_data d /\
    mac_regs (bus_read p BYTE_TEST d).2 = mac_regs d;
  csr_set_data d v :
    csr_busy d = 0%nat -> is_u32 v ->
    csr_busy (bus_write p MAC_CSR_DATA v d) = 0%nat /\
    csr_data (bus_write p MAC_CSR_DATA v d) = v /\
    mac_regs (bus_write p MAC_CSR_DATA v d) = mac_regs d;
  csr_start_read d o :
    csr_busy d = 0%nat -> plain_reg o ->
    (csr_busy (bus_write p MAC_CSR_CMD (csr_read_cmd o) d) <= 39)%nat /\
    csr_data (bus_write p MAC_CSR_CMD (csr_read_cmd o) d) = mac_regs d o /\
    mac_regs (bus_write p MAC_CSR_CMD (csr_read_cmd o) d) = mac_regs d;
  csr_start_write d o :
    csr_busy d = 0%nat -> plain_reg o ->
    (csr_busy (bus_write p MAC_CSR_CMD (csr_write_cmd o) d) <= 39)%nat /\
    forall o', plain_reg o' ->
      mac_regs (bus_write p MAC_CSR_CMD (csr_write_cmd o) d) o'
      = if o' =? o then csr_data d else mac_regs d o' }.

Section Protocol.
Context {D : Type} `{!Smsc D} (p : smsc911x_data) `{!MacChip D p}.
Implicit Types s : dstate D.

(** The states of a driver with these register accesses. *)
Definition same_bus s : Prop := forall reg val (d : D),
  bus_read (pd s) reg d = bus_read p reg d /\ bus_write (pd s) reg val d = bus_write p reg val d.

Lemma mac_complete_spec s :
  ready s -> mac_lock (pd s) = true -> same_bus s -> (csr_busy (chip s) <= 39)%nat ->
  crun smsc911x_mac_complete s (fun r d => r = 0 /\ csr_busy d = 0%nat /\
    csr_data d = csr_data (chip s) /\ mac_regs d = mac_regs (chip s)).
Proof.
  intros Hr Hl Hbus Hbusy. unfold smsc911x_mac_complete. do 2 crun_step. rewrite with_chip_id.
  assert (csr_busy (chip s) < 40)%nat as Hlt by lia. clear Hbusy. revert Hlt.
  generalize 40%nat as n. intros n. revert s Hr Hl Hbus.
  induction n as [|n IH]; intros s Hr Hl Hbus Hlt; [lia|].
  cbn [mac_complete_loop]. do 2 crun_step. rewrite (proj1 (Hbus _ 0 _)).
  destruct (csr_read_cmd_reg (chip s)) as (Hb & Hn & Hd & Hg). rewrite Hb.
  case_bool_decide as E; cbn [negb].
  - eapply crun_mono; [apply IH; [done|done|done|cbn; lia]|]. cbn. intros r d (? & ? & ? & ?).
    split_and!; congruence.
  - crun_step. cbn. split_and!; [done| |done|done]. rewrite Hn. lia.
Qed.

Lemma mac_read_spec o s :
  ready s -> mac_lock (pd s) = true -> same_bus s -> csr_busy (chip s) = 0%nat -> plain_reg o ->
  crun (smsc911x_mac_read o) s (fun r d =>
    r = mac_regs (chip s) o /\ csr_busy d = 0%nat /\ mac_regs d = mac_regs (chip s)).
Proof.
  intros Hr Hl Hbus Hbusy Ho. unfold smsc911x_mac_read. do 4 crun_step.
  rewrite with_chip_id, (proj1 (Hbus _ 0 _)).
  destruct (csr_read_cmd_reg (chip s)) as (Hb & Hn & Hd & Hg). rewrite Hb.
  rewrite Hbusy in Hn |- *. rewrite bool_decide_eq_false_2 by (intros H; apply H; done).
  fold (csr_read_cmd o). do 4 crun_step. cbn [pd chip with_chip].
  rewrite (proj2 (Hbus _ _ _)), (proj1 (Hbus BYTE_TEST 0 _)).
  destruct (csr_start_read (bus_read p MAC_CSR_CMD (chip s)).2 o Hn Ho) as (Hb2 & Hd2 & Hg2).
  set (d2 := bus_write p MAC_CSR_CMD _ _) in *.
  destruct (csr_byte_test d2) as (Hb3 & Hd3 & Hg3). set (d3 := (bus_read p BYTE_TEST d2).2) in *.
  apply crun_bind. eapply crun_mono; [apply mac_complete_spec; [done|done|done|cbn; lia]|].
  cbn [chip with_chip]. intros r d4 (-> & Hb4 & Hd4 & Hg4). rewrite Z.eqb_refl. crun_step.
  cbn [pd chip with_chip]. rewrite (proj1 (Hbus _ 0 _)).
  destruct (csr_read_data d4 Hb4) as (Hr5 & Hb5 & Hg5). split_and!; [congruence|done|congruence].
Qed.

Lemma mac_write_spec o v s :
  ready s -> mac_lock (pd s) = true -> same_bus s -> csr_busy (chip s) = 0%nat -> plain_reg o ->
  is_u32 v ->
  crun (smsc911x_mac_write o v) s (fun _ d => csr_busy d = 0%nat /\
    forall o', plain_reg o' -> mac_regs d o' = if o' =? o then v else mac_regs (chip s) o').
Proof.
  intros Hr Hl Hbus Hbusy Ho Hv. unfold smsc911x_mac_write. do 4 crun_step.
  rewrite with_chip_id, (proj1 (Hbus _ 0 _)).
  destruct (csr_read_cmd_reg (chip s)) as (Hb & Hn & Hd & Hg). rewrite Hb.
  rewrite Hbusy in Hn |- *. rewrite bool_decide_eq_false_2 by (intros H; apply H; done).
  fold (csr_write_cmd o). do 6 crun_step. cbn [pd chip with_chip].
  rewrite (proj2 (Hbus MAC_CSR_DATA _ _)), (proj2 (Hbus MAC_CSR_CMD _ _)),
    (proj1 (Hbus BYTE_TEST 0 _)).
  set (d1 := (bus_read p MAC_CSR_CMD (chip s)).2) in *.
  destruct (csr_set_data d1 v Hn Hv) as (Hb2 & Hd2 & Hg2).
  set (d2 := bus_write p MAC_CSR_DATA v d1) in *.
  destruct (csr_start_write d2 o Hb2 Ho) as (Hb3 & Hg3).
  set (d3 := bus_write p MAC_CSR_CMD _ d2) in *.
  destruct (csr_byte_test d3) as (Hb4 & Hd4 & Hg4). set (d4 := (bus_read p BYTE_TEST d3).2) in *.
  apply crun_bind. eapply crun_mono; [apply mac_complete_spec; [done|done|done|cbn; lia]|].
  cbn [chip with_chip]. intros r d5 (-> & Hb5 & Hd5 & Hg5). crun_step. cbn [chip with_chip].
  split; [done|]. intros o' Ho'. rewrite Hg5, Hg4, Hg3, Hd2, Hg2 by done. by rewrite Hg.
Qed.

Lemma mac_halves a0 a1 a2 a3 a4 a5 :
  Forall is_u8 [a0; a1; a2; a3; a4; a5] ->
  Z.lor (Z.shiftl a5 8) a4 = le_combine [a4; a5] /\
  Z.lor (Z.lor (Z.lor (shl32 a3 24) (Z.shiftl a2 16)) (Z.shiftl a1 8)) a0
  = le_combine [a0; a1; a2; a3].
Proof.
  rewrite !List.Forall_cons_iff. unfold is_word. intros (H0 & H1 & H2 & H3 & H4 & H5 & _).
  cbn [le_combine]. split; [rewrite lor_shiftl_add by (unfold is_word; lia); lia|].
  unfold shl32, u32. rewrite Z.shiftl_mul_pow2, Z.mod_small by lia.
  rewrite <- Z.shiftl_mul_pow2 by lia.
  replace 24 with (8 + 8 + 8) by done. replace 16 with (8 + 8) by done.
  rewrite <- !Z.shiftl_shiftl, <- !Z.shiftl_lor by lia.
  rewrite !lor_shiftl_add by (unfold is_word; lia). lia.
Qed.

Lemma set_hw_mac_spec a s :
  ready s -> mac_lock (pd s) = true -> same_bus s -> csr_busy (chip s) = 0%nat ->
  Forall is_u8 a -> length a = 6%nat ->
  crun (smsc911x_set_hw_mac_address a) s (fun _ d => csr_busy d = 0%nat /\
    mac_regs d ADDRL = le_combine (take 4 a) /\ mac_regs d ADDRH = le_combine (drop 4 a)).
Proof.
  intros Hr Hl Hbus Hb Ha Hlen. do 6 (destruct a as [|? a]; [done|]). destruct a; [|done].
  destruct (mac_halves _ _ _ _ _ _ Ha) as [EH EL].
  rewrite !List.Forall_cons_iff in Ha. unfold is_word in Ha.
  destruct Ha as (H0 & H1 & H2 & H3 & H4 & H5 & _).
  cbn [smsc911x_set_hw_mac_address take drop]. rewrite EH, EL. do 3 crun_step. rewrite with_chip_id.
  eapply crun_mono; [apply mac_write_spec; try done; unfold is_word; cbn; lia|].
  intros _ d1 (Hb1 & Hg1).
  eapply crun_mono; [apply mac_write_spec; try done; unfold is_word; cbn; lia|].
  intros _ d2 (Hb2 & Hg2). split; [done|]. rewrite !Hg2 by done. cbn [chip with_chip].
  split; [done|]. by apply Hg1.
Qed.

Lemma read_mac_address_spec s :
  ready s -> mac_lock (pd s) = true -> same_bus s -> csr_busy (chip s) = 0%nat ->
  exists d, smsc911x_read_mac_address s
    = Ret tt (with_nd (with_chip s d) (set_dev_addr
        (le_split 4 (mac_regs (chip s) ADDRL) ++ le_split 2 (mac_regs (chip s) ADDRH)) (nd s))) /\
    csr_busy d = 0%nat /\ mac_regs d = mac_regs (chip s).
Proof.
  intros Hr Hl Hbus Hb. unfold smsc911x_read_mac_address.
  destruct (mac_read_spec ADDRH s) as (h & d1 & E1 & -> & Hb1 & Hg1); try done.
  destruct (mac_read_spec ADDRL (with_chip s d1)) as (l & d2 & E2 & -> & Hb2 & Hg2); try done.
  exists d2. split; [|cbn in Hg2; split; congruence].
  unfold mbind, drv_bind. rewrite E1. cbn [chip with_chip] in E2. rewrite E2, Hg1. unfold upd_nd.
  do 3 f_equal. cbn [le_split app]. unfold u8. rewrite !Z.shiftr_div_pow2 by lia.
  rewrite !Z.div_div by lia. done.
Qed.

End Protocol.

(** ** Properties *)

Section Properties.
Context {D : Type} `{!Smsc D}.
Implicit Types s : dstate D.

(** Whatever the chip answers, reads and writes of MAC registers (under the
    MAC lock) and of PHY registers (which take it) return after their bounded
    waits, give the locks back, never trip the lock assertion and leave the
    driver's data as it was. *)
Theorem register_waits_bounded offset val phyaddr regidx s :
  ready s ->
  (mac_lock (pd s) = true ->
     (exists v d, smsc911x_mac_read offset s = Ret v (with_chip s d)) /\
     (exists d, smsc911x_mac_write offset val s = Ret tt (with_chip s d))) /\
  (mac_lock (pd s) = false ->
     (exists v d, smsc911x_mii_read phyaddr regidx s = Ret v (with_chip s d)) /\
     (exists v d, smsc911x_mii_write phyaddr regidx val s = Ret v (with_chip s d))).
Proof.
  intros Hr. split; intros Hl; split.
  - destruct (mac_read_any offset s Hr Hl) as (v & d & E & _). eauto.
  - destruct (mac_write_any offset val s Hr Hl) as ([] & d & E & _). eauto.
  - destruct (mii_read_any phyaddr regidx s Hr Hl) as (v & d & E & _). eauto.
  - destruct (mii_write_any phyaddr regidx val s Hr Hl) as (v & d & E & _). eauto.
Qed.

(** While the chip reports its MAC interface busy, nothing is sent to it: a
    MAC read answers all ones and a MAC write is dropped, each after one read of
    the command register, and PHY reads and writes fail with [-EIO]. *)
Theorem busy_chip_refused offset val phyaddr regidx s :
  ready s -> has (bus_read (pd s) MAC_CSR_CMD (chip s)).1 MAC_CSR_CMD_CSR_BUSY_ = true ->
  let s' := with_chip s (bus_read (pd s) MAC_CSR_CMD (chip s)).2 in
  (mac_lock (pd s) = true ->
     smsc911x_mac_read offset s = Ret 0xffffffff s' /\
     smsc911x_mac_write offset val s = Ret tt s') /\
  (mac_lock (pd s) = false ->
     smsc911x_mii_read phyaddr regidx s = Ret (- EIO) s' /\
     smsc911x_mii_write phyaddr regidx val s = Ret (- EIO) s').
Proof.
  intros Hr Hbusy s'.
  assert (forall o s0, ready s0 -> mac_lock (pd s0) = true ->
    bus_read (pd s0) MAC_CSR_CMD (chip s0) = bus_read (pd s) MAC_CSR_CMD (chip s) ->
    crun (smsc911x_mac_read o) s0 (fun v d => v = 0xffffffff /\ d = chip s')) as Hrd.
  { intros o s0 Hr0 Hl0 E. unfold smsc911x_mac_read. do 4 crun_step.
    rewrite with_chip_id, E, Hbusy. by crun_step. }
  assert (forall A (m : drv D A) a, crun m s (fun v d => v = a /\ d = chip s') -> m s = Ret a s')
    as Hend by (intros A m a (? & ? & E & -> & ->); exact E).
  assert (forall (k : Z -> drv D Z),
    (forall v s0, has v MII_ACC_MII_BUSY_ = true -> k v s0 = Ret (- EIO) s0) ->
    mac_lock (pd s) = false ->
    crun (_ ← lock_mac; a ← (v ← smsc911x_mac_read MII_ACC; k v); _ ← unlock_mac; mret a) s
      (fun v d => v = - EIO /\ d = chip s')) as Hmii.
  { intros k Hk Hl. apply crun_locked; [done|]. apply crun_bind.
    eapply crun_mono; [by apply Hrd|]. intros v d [-> ->].
    exists (- EIO), (chip s'). split; [|done]. by rewrite Hk. }
  split; intros Hl; split; apply Hend.
  - by apply Hrd.
  - unfold smsc911x_mac_write. do 4 crun_step. rewrite with_chip_id, Hbusy. by crun_step.
  - apply Hmii; [|done]. intros v s0 Hv. by rewrite Hv.
  - apply Hmii; [|done]. intros v s0 Hv. by rewrite Hv.
Qed.

(** On a chip that keeps the MAC command protocol, the MAC registers are a
    register file: after a write, a read of any register returns the value
    written or what the register held, and the interface is idle again. *)
Theorem mac_registers_correct s `{!MacChip D (pd s)} o o' v :
  ready s -> mac_lock (pd s) = true -> csr_busy (chip s) = 0%nat ->
  plain_reg o -> plain_reg o' -> is_u32 v ->
  exists d,
    (_ ← smsc911x_mac_write o v; smsc911x_mac_read o') s
    = Ret (if o' =? o then v else mac_regs (chip s) o') (with_chip s d) /\
    csr_busy d = 0%nat /\
    (forall r, plain_reg r -> mac_regs d r = if r =? o then v else mac_regs (chip s) r).
Proof.
  intros Hr Hl Hb Ho Ho' Hv.
  assert (crun (_ ← smsc911x_mac_write o v; smsc911x_mac_read o') s (fun a d =>
    a = (if o' =? o then v else mac_regs (chip s) o') /\ csr_busy d = 0%nat /\
    (forall r, plain_reg r -> mac_regs d r = if r =? o then v else mac_regs (chip s) r))) as H.
  { apply crun_bind. eapply crun_mono; [by apply (mac_write_spec (pd s))|].
    intros _ d (Hb1 & Hg1). eapply crun_mono; [by apply (mac_read_spec (pd s))|].
    cbn [chip with_chip]. intros a d' (-> & Hb2 & Hg2). split_and!; [by apply Hg1|done|].
    intros r Hr'. rewrite Hg2. by apply Hg1. }
  destruct H as (a & d & E & -> & H). by exists d.
Qed.

(** On such a chip the hardware address is kept: programming the six bytes
    and reading them back gives the device the same address, the two halves in
    their registers in little-endian order. *)
Theorem mac_address_roundtrip s `{!MacChip D (pd s)} a :
  ready s -> mac_lock (pd s) = true -> csr_busy (chip s) = 0%nat ->
  Forall is_u8 a -> length a = 6%nat ->
  exists d,
    (_ ← smsc911x_set_hw_mac_address a; smsc911x_read_mac_address) s
    = Ret tt (with_nd (with_chip s d) (set_dev_addr a (nd s))) /\
    mac_regs d ADDRL = le_combine (take 4 a) /\ mac_regs d ADDRH = le_combine (drop 4 a).
Proof.
  intros Hr Hl Hb Ha Hlen.
  destruct (set_hw_mac_spec (pd s) a s) as ([] & d1 & E1 & Hb1 & HL & HH); try done.
  destruct (read_mac_address_spec (pd s) (with_chip s d1)) as (d2 & E2 & Hb2 & Hg2); try done.
  exists d2. cbn [chip with_chip] in *. rewrite Hg2. split; [|done].
  unfold mbind, drv_bind. rewrite E1, E2, HL, HH. cbn [chip with_chip nd].
  assert (le_split 4 (le_combine (take 4 a)) ++ le_split 2 (le_combine (drop 4 a)) = a) as ->; [|done].
  pose proof (le_split_combine (take 4 a) (Forall_take _ _ _ Ha)) as E4.
  pose proof (le_split_combine (drop 4 a) (Forall_drop _ _ _ Ha)) as E6.
  rewrite length_take, Hlen in E4. rewrite length_drop, Hlen in E6.
  cbn [Nat.min Nat.sub] in E4, E6. rewrite E4, E6. apply take_drop.
Qed.

End Properties.

(** ** A chip that keeps the protocol *)

Record mac_demo := mk_mac_demo { m_regs : Z -> Z; m_data : Z; m_busy : nat }.

(** The chip stays busy for 39 reads of the command register. *)
Definition mac_demo_write (v o : Z) (d : mac_demo) : mac_demo :=
  if o =? MAC_CSR_DATA then mk_mac_demo (m_regs d) v (m_busy d)
  else if o =? MAC_CSR_CMD then
    if has v MAC_CSR_CMD_R_NOT_W_ then mk_mac_demo (m_regs d) (m_regs d (Z.land v 0xff)) 39
    else mk_mac_demo (fun r => if r =? Z.land v 0xff then m_data d else m_regs d r) (m_data d) 39
  else d.

Definition mac_demo_read (o : Z) (d : mac_demo) : Z * mac_demo :=
  if o =? MAC_CSR_CMD then
    (if bool_decide (m_busy d <> 0%nat) then MAC_CSR_CMD_CSR_BUSY_ else 0,
     mk_mac_demo (m_regs d) (m_data d) (pred (m_busy d)))
  else if o =? MAC_CSR_DATA then (m_data d, d)
  else (0x87654321, d).

Definition mac_demo_chip : Smsc mac_demo := {|
  readl := mac_demo_read; writel := mac_demo_write;
  readw _ d := (0, d); writew _ _ d := d; chip_delay _ d := d |}.

Definition demo_bus : smsc911x_data := set_mac_lock true (demo_pdata SMSC911X_USE_32BIT).

Lemma demo_cmds o : plain_reg o ->
  Z.land (csr_read_cmd o) 0xff = o /\ Z.land (csr_write_cmd o) 0xff = o /\
  has (csr_read_cmd o) MAC_CSR_CMD_R_NOT_W_ = true /\
  has (csr_write_cmd o) MAC_CSR_CMD_R_NOT_W_ = false.
Proof.
  intros [Ho _].
  assert (forall n : nat, (n < 256)%nat ->
    let o := Z.of_nat n in
    (Z.land (csr_read_cmd o) 0xff =? o) && (Z.land (csr_write_cmd o) 0xff =? o) &&
    has (csr_read_cmd o) MAC_CSR_CMD_R_NOT_W_ &&
    negb (has (csr_write_cmd o) MAC_CSR_CMD_R_NOT_W_) = true) as H.
  { assert (forallb (fun n => let o := Z.of_nat n in
      (Z.land (csr_read_cmd o) 0xff =? o) && (Z.land (csr_write_cmd o) 0xff =? o) &&
      has (csr_read_cmd o) MAC_CSR_CMD_R_NOT_W_ &&
      negb (has (csr_write_cmd o) MAC_CSR_CMD_R_NOT_W_)) (seq 0 256) = true) as H
      by (vm_compute; reflexivity).
    rewrite forallb_forall in H. intros n Hn. apply H, in_seq. lia. }
  specialize (H (Z.to_nat o) ltac:(lia)). cbv zeta in H. rewrite Z2Nat.id in H by lia.
  rewrite !andb_true_iff, negb_true_iff, !Z.eqb_eq in H. tauto.
Qed.

Definition mac_demo_protocol : @MacChip mac_demo mac_demo_chip demo_bus.
Proof.
  refine (@Build_MacChip _ mac_demo_chip demo_bus m_regs m_data m_busy _ _ _ _ _ _).
  - intros [r v [|n]]; vm_compute; done.
  - done.
  - done.
  - done.
  - intros d o _ Ho. destruct (demo_cmds o Ho) as (E1 & E2 & E3 & E4).
    unfold bus_write. change (wide demo_bus) with true. cbn iota.
    change (writel (csr_read_cmd o) (reg_at demo_bus MAC_CSR_CMD) d)
      with (mac_demo_write (csr_read_cmd o) MAC_CSR_CMD d).
    unfold mac_demo_write. cbn [Z.eqb MAC_CSR_CMD MAC_CSR_DATA Pos.eqb]. rewrite E3, E1. done.
  - intros d o _ Ho. destruct (demo_cmds o Ho) as (E1 & E2 & E3 & E4).
    unfold bus_write. change (wide demo_bus) with true. cbn iota.
    change (writel (csr_write_cmd o) (reg_at demo_bus MAC_CSR_CMD) d)
      with (mac_demo_write (csr_write_cmd o) MAC_CSR_CMD d).
    unfold mac_demo_write. cbn [Z.eqb MAC_CSR_CMD MAC_CSR_DATA Pos.eqb]. rewrite E4, E2. done.
Defined.

Definition mac_demo_state (busy : nat) : dstate mac_demo :=
  mk_dstate (mk_mac_demo (fun r => 3 * r) 0 busy) demo_bus demo_netdev 0 [].

Lemma register_waits_bounded_witness :
  exists d, @smsc911x_mac_write _ mac_demo_chip ADDRL 5 (mac_demo_state 100)
            = Ret tt (with_chip (mac_demo_state 100) d).
Proof.
  destruct (@register_waits_bounded _ mac_demo_chip ADDRL 5 1 1 (mac_demo_state 100)) as [H _].
  - split; [reflexivity|left; reflexivity].
  - destruct (H eq_refl) as [_ Hw]. exact Hw.
Defined.

Lemma busy_chip_refused_witness :
  @smsc911x_mac_read _ mac_demo_chip ADDRL (mac_demo_state 2) = Ret 0xffffffff (mac_demo_state 1).
Proof.
  destruct (@busy_chip_refused _ mac_demo_chip ADDRL 5 1 1 (mac_demo_state 2)) as [H _].
  - split; [reflexivity|left; reflexivity].
  - reflexivity.
  - destruct (H eq_refl) as [Hr _]. exact Hr.
Defined.

Lemma mac_registers_correct_witness :
  exists d, (_ ← @smsc911x_mac_write _ mac_demo_chip ADDRH 7; @smsc911x_mac_read _ mac_demo_chip ADDRH)
              (mac_demo_state 0) = Ret 7 (with_chip (mac_demo_state 0) d).
Proof.
  destruct (@mac_registers_correct _ mac_demo_chip (mac_demo_state 0) mac_demo_protocol
    ADDRH ADDRH 7) as (d & H & _).
  - split; [reflexivity|left; reflexivity].
  - reflexivity.
  - reflexivity.
  - vm_compute. done.
  - vm_compute. done.
  - vm_compute. done.
  - exists d. exact H.
Defined.

Lemma mac_address_roundtrip_witness :
  exists d, (_ ← @smsc911x_set_hw_mac_address _ mac_demo_chip [0; 1; 2; 3; 4; 0xff];
             @smsc911x_read_mac_address _ mac_demo_chip) (mac_demo_state 0)
    = Ret tt (with_nd (with_chip (mac_demo_state 0) d)
                (set_dev_addr [0; 1; 2; 3; 4; 0xff] (nd (mac_demo_state 0)))).
Proof.
  destruct (@mac_address_roundtrip _ mac_demo_chip (mac_demo_state 0) mac_demo_protocol
    [0; 1; 2; 3; 4; 0xff]) as (d & H & _).
  - split; [reflexivity|left; reflexivity].
  - reflexivity.
  - reflexivity.
  - repeat constructor; done.
  - reflexivity.
  - exists d. exact H.
Defined.
