(* ===== verification/SmscRun.v ===== *)
(** * The network driver: reasoning about whole functions

    Weakest preconditions for the effects of the driver, and the invariant that
    its entry points keep: the locks are free (or the MAC lock is held, inside a
    section), one bus width is configured, a PHY is attached or not, the lock assertion has not tripped
    and the device has a six-byte address.  A function that keeps it returns:
    it meets no [BUG()], no dead lock and no access outside an array. *)

From S2P Require Import Prelude SmscDefs SmscIo SmscMac.

(** ** Bits of registers *)

Lemma has_bit x k : 0 <= k -> has x (2 ^ k) = Z.testbit x k.
Proof.
  intros Hk. unfold has. replace (2 ^ k) with (Z.shiftl (Z.ones 1) k)
    by (rewrite Z.shiftl_mul_pow2 by done; change (Z.ones 1) with 1; lia).
  rewrite land_field by lia. change (2 ^ 1) with 2.
  rewrite <- Z.testbit_spec' by done. pose proof (Z.pow_pos_nonneg 2 k).
  destruct (Z.testbit x k); cbn [Z.b2z negb].
  - apply negb_true_iff, Z.eqb_neq. lia.
  - done.
Qed.

Lemma not32_ldiff c : is_u32 c -> not32 c = Z.ldiff (Z.ones 32) c.
Proof.
  intros Hc. unfold not32. change (2 ^ 32 - 1) with (Z.ones 32).
  rewrite Z.sub_nocarry_ldiff; [done|]. apply Z.bits_inj'. intros i Hi.
  rewrite Z.ldiff_spec, Z.bits_0. destruct (decide (i < 32)).
  - by rewrite Z.ones_spec_low, andb_false_r by lia.
  - by rewrite (is_word_testbit 32 c) by (done || lia).
Qed.

Lemma not32_testbit c k : is_u32 c -> 0 <= k < 32 -> Z.testbit (not32 c) k = negb (Z.testbit c k).
Proof.
  intros Hc Hk. by rewrite not32_ldiff, Z.ldiff_spec, Z.ones_spec_low by (done || lia).
Qed.

Lemma not32_u32 c : is_u32 c -> is_u32 (not32 c).
Proof. unfold is_word, not32. lia. Qed.

Section Run.
Context {D : Type} `{!Smsc D}.
Implicit Types s : dstate D.

Lemma wp_crun {A} (m : drv D A) s Q Q' :
  crun m s Q -> (forall a d, Q a d -> Q' a (with_chip s d)) -> wp m Q' s.
Proof. intros (a & d & E & HQ) H. unfold wp. rewrite E. auto. Qed.

Lemma wp_reg_read reg s (Q : Z -> dstate D -> Prop) :
  ready s ->
  Q (bus_read (pd s) reg (chip s)).1 (with_chip s (bus_read (pd s) reg (chip s)).2) ->
  wp (smsc911x_reg_read reg) Q s.
Proof. intros [Hl Hb] HQ. unfold wp. by rewrite reg_read_run. Qed.

Lemma wp_reg_write reg val s (Q : unit -> dstate D -> Prop) :
  ready s -> Q tt (with_chip s (bus_write (pd s) reg val (chip s))) ->
  wp (smsc911x_reg_write reg val) Q s.
Proof. intros [Hl Hb] HQ. unfold wp. by rewrite reg_write_run. Qed.

Lemma wp_lock_mac s (Q : unit -> dstate D -> Prop) :
  mac_lock (pd s) = false -> Q tt (mac_locked s) -> wp lock_mac Q s.
Proof. intros Hl HQ. unfold wp, lock_mac, get_pd, mbind, drv_bind. by rewrite Hl. Qed.

Lemma wp_unlock_mac s (Q : unit -> dstate D -> Prop) :
  mac_lock (pd s) = true -> Q tt (with_pd s (set_mac_lock false (pd s))) -> wp unlock_mac Q s.
Proof. intros Hl HQ. unfold wp, unlock_mac, get_pd, mbind, drv_bind. by rewrite Hl. Qed.

Lemma wp_get_pd {A} (k : smsc911x_data -> drv D A) Q s : wp (k (pd s)) Q s -> wp (get_pd ≫= k) Q s.
Proof. done. Qed.

Lemma wp_get_nd {A} (k : net_device -> drv D A) Q s : wp (k (nd s)) Q s -> wp (get_nd ≫= k) Q s.
Proof. done. Qed.

Lemma crun_get_pd {A} (k : smsc911x_data -> drv D A) s Q :
  crun (k (pd s)) s Q -> crun (get_pd ≫= k) s Q.
Proof. done. Qed.

(** The accesses of a driver depend on its configuration and its operations. *)
Lemma bus_same (p q : smsc911x_data) :
  config p = config q -> ops p = ops q ->
  forall reg val (d : D), bus_read p reg d = bus_read q reg d /\
    bus_write p reg val d = bus_write q reg val d.
Proof.
  intros Ec Eo reg val d. unfold bus_read, bus_write, reg_at, wide, __smsc_shift.
  by rewrite Ec, Eo.
Qed.

End Run.

(** ** The invariant of the driver *)

(** What is known of the chip, and of whatever else is behind the bus: accesses of
    the driver do not change it; and what is known of the interrupt line of the PHY. *)
Class ChipInv (D : Type) `{!Smsc D} := {
  chip_inv : D -> Prop;
  line_inv : phy_line -> Prop;
  chip_inv_read p reg d : chip_inv d -> chip_inv (bus_read p reg d).2;
  chip_inv_write p reg val d : chip_inv d -> chip_inv (bus_write p reg val d);
  chip_inv_delay us d : chip_inv d -> chip_inv (chip_delay us d) }.

(** Nothing is known of it. *)
Definition any_chip {D} `{!Smsc D} : ChipInv D.
Proof. by refine {| chip_inv _ := True; line_inv _ := True |}. Defined.

Section Inv.
Context {D : Type} `{!Smsc D} `{!ChipInv D}.
Implicit Types s : dstate D.

Definition has_phy (p : smsc911x_data) : bool := bool_decide (is_Some (phy_dev p)).

(** The fields of a PHY that the drivers and the settings interface fill in are in the
    range of their C types, and the flags among them 0 or 1; [duplex] is -1 until the
    first report.  The counter [link_timeout] of the state machine and the interrupt line
    are not part of it. *)
Definition is_flag (z : Z) : Prop := z = 0 \/ z = 1.

Record phy_typed (y : phy_device) : Prop := {
  typed_uid : is_u32 (phy_uid y);
  typed_addr : 0 <= phy_addr y < 32;
  typed_speed : - 2 ^ 31 <= speed y < 2 ^ 31;
  typed_duplex : -1 <= duplex y < 2 ^ 8;
  typed_pause : is_flag (pause y);
  typed_asym_pause : is_flag (asym_pause y);
  typed_link : is_flag (link y);
  typed_interrupts : interrupts y = 0 \/ interrupts y = 0x80000000;
  typed_supported : is_u32 (supported y);
  typed_advertising : is_u32 (advertising y);
  typed_autoneg : is_flag (autoneg y) }.

(** The PHY that is attached has a driver, its fields have their types, and its lock is
    held or not. *)
Definition phy_ok (held : bool) (o : option phy_device) : Prop :=
  match o with
  | Some y => phy_lock y = held /\ is_Some (phy_drv y) /\ phy_typed y
  | None => held = false
  end.

Definition line_ok (o : option phy_device) : Prop :=
  match o with Some y => line_inv (line y) | None => True end.

(** What is known of the interface: whether it runs, whether it is marked up, and
    whether its NAPI context is certainly taken, so that no poll can be scheduled;
    whether the packet of the loopback test is in place, and whether the lock of the
    PHY is held. *)
Record mode := mk_mode_at {
  m_running : bool; m_up : bool; m_taken : bool; m_packet : bool; m_phylock : bool }.

Record net_ok (m : mode) (n : net_device) : Prop := {
  ok_addr : length (dev_addr n) = 6%nat;
  ok_running : running n = m_running m;
  ok_up : has (dev_flags n) IFF_UP = m_up m;
  ok_taken : m_taken m = true -> napi_scheduled n = true;
  ok_disabling : napi_disabling n = false }.

Record inv (w : nat) (ph : bool) (md : mode) (held : bool) (s : dstate D) : Prop := {
  inv_dev : dev_lock (pd s) = false;
  inv_mac : mac_lock (pd s) = held;
  inv_bus : bus_ok (pd s);
  inv_cfg : length (config_mac (config (pd s))) = 6%nat;
  inv_phy : has_phy (pd s) = ph;
  inv_warn : lock_warnings s = w;
  inv_packet : m_packet md = true -> length (loopback_tx_pkt (pd s)) = 64%nat;
  inv_net : net_ok md (nd s);
  inv_chip : chip_inv (chip s);
  inv_phylock : phy_ok (m_phylock md) (phy_dev (pd s));
  inv_line : line_ok (phy_dev (pd s)) }.

(** [m] returns from every state of [P], and then [Q] holds. *)
Definition keeps {A} (P Q : dstate D -> Prop) (m : drv D A) : Prop :=
  forall s, P s -> wp m (fun _ s' => Q s') s.

Lemma keeps_bind {A B} (P Q R : dstate D -> Prop) (m : drv D A) (k : A -> drv D B) :
  keeps P Q m -> (forall a, keeps Q R (k a)) -> keeps P R (m ≫= k).
Proof.
  intros Hm Hk s Hs. apply wp_bind. eapply wp_mono; [|by apply Hm]. intros a s' H. by apply Hk.
Qed.

Lemma keeps_ret {A} (P : dstate D -> Prop) (a : A) : keeps P P (mret a).
Proof. by intros s Hs. Qed.

(** Values that the function has just read, with what is known of them. *)
Lemma keeps_get_pd {B} (P Q : dstate D -> Prop) (k : smsc911x_data -> drv D B) :
  (forall p, keeps (fun s => P s /\ pd s = p) Q (k p)) -> keeps P Q (p ← get_pd; k p).
Proof. intros Hk s Hs. by apply (Hk (pd s)). Qed.

Lemma keeps_get_nd {B} (P Q : dstate D -> Prop) (k : net_device -> drv D B) :
  (forall n, keeps (fun s => P s /\ nd s = n) Q (k n)) -> keeps P Q (n ← get_nd; k n).
Proof. intros Hk s Hs. by apply (Hk (nd s)). Qed.

Lemma keeps_weaken {A} (P P' Q Q' : dstate D -> Prop) (m : drv D A) :
  (forall s, P' s -> P s) -> (forall s, Q s -> Q' s) -> keeps P Q m -> keeps P' Q' m.
Proof.
  intros HP HQ Hm s Hs. eapply wp_mono; [|by apply Hm, HP]. intros a s'. apply HQ.
Qed.

Lemma wp_keeps {A} (P Q : dstate D -> Prop) (R : A -> dstate D -> Prop) (m : drv D A) s :
  keeps P Q m -> P s -> (forall a s', Q s' -> R a s') -> wp m R s.
Proof. intros Hm Hs HR. eapply wp_mono; [|by apply Hm]. auto. Qed.

Lemma inv_ready w ph md b s : inv w ph md b s -> ready s.
Proof. by intros []. Qed.

Lemma inv_with_chip w ph md b s d :
  inv w ph md b s -> chip_inv d -> inv w ph md b (with_chip s d).
Proof. intros []. by constructor. Qed.

Lemma keeps_crun {A} w ph md b (m : drv D A) :
  (forall s, ready s -> mac_lock (pd s) = b -> chip_inv (chip s) -> crun m s (fun _ d => chip_inv d)) ->
  keeps (inv w ph md b) (inv w ph md b) m.
Proof.
  intros Hm s Hs. eapply wp_crun; [apply Hm; [by eapply inv_ready|apply Hs..]|].
  intros a d Hd. by apply inv_with_chip.
Qed.

Lemma keeps_reg_read w ph md b reg : keeps (inv w ph md b) (inv w ph md b) (smsc911x_reg_read reg).
Proof. apply keeps_crun. intros s Hr _ Hc. apply crun_read; [done|]. by apply chip_inv_read. Qed.

Lemma keeps_reg_write w ph md b reg val : keeps (inv w ph md b) (inv w ph md b) (smsc911x_reg_write reg val).
Proof. apply keeps_crun. intros s Hr _ Hc. apply crun_write; [done|]. by apply chip_inv_write. Qed.

Lemma keeps_udelay w ph md b us : keeps (inv w ph md b) (inv w ph md b) (udelay us).
Proof. apply keeps_crun. intros s Hr _ Hc. apply crun_delay. by apply chip_inv_delay. Qed.

(** The data FIFOs. *)
Lemma chip_inv_pushes p ws d : chip_inv d -> chip_inv (push_fifo p ws d).
Proof.
  unfold push_fifo. revert d. induction ws as [|w ws IH]; intros d Hd; [done|]. cbn [foldl].
  by apply IH, chip_inv_write.
Qed.

Lemma chip_inv_reads p n d : chip_inv d -> chip_inv (bus_reads p n d).2.
Proof.
  revert d. induction n as [|n IH]; intros d Hd; [done|]. cbn [bus_reads].
  apply (chip_inv_read p RX_DATA_FIFO) in Hd. destruct (bus_read p RX_DATA_FIFO d) as [v d1].
  specialize (IH d1 Hd). by destruct (bus_reads p n d1).
Qed.

Lemma keeps_tx_writefifo w ph md b buf n :
  (Z.to_nat n <= length buf)%nat ->
  keeps (inv w ph md b) (inv w ph md b) (ops_tx_writefifo buf n).
Proof.
  intros Hn. apply keeps_crun. intros s [Hl Hb] _ Hc. eexists _, _.
  split; [by apply tx_writefifo_run|]. by apply chip_inv_pushes.
Qed.

Lemma keeps_rx_readfifo w ph md b n :
  keeps (inv w ph md b) (inv w ph md b) (ops_rx_readfifo n).
Proof.
  apply keeps_crun. intros s [Hl Hb] _ Hc. eexists _, _.
  split; [by apply rx_readfifo_run|]. by apply chip_inv_reads.
Qed.

Lemma keeps_lock w ph md : keeps (inv w ph md false) (inv w ph md true) lock_mac.
Proof. intros s Hs. apply wp_lock_mac; [apply Hs|]. destruct Hs. by constructor. Qed.

Lemma keeps_unlock w ph md : keeps (inv w ph md true) (inv w ph md false) unlock_mac.
Proof. intros s Hs. apply wp_unlock_mac; [apply Hs|]. destruct Hs. by constructor. Qed.

Lemma keeps_assert w ph md : keeps (inv w ph md true) (inv w ph md true) SMSC_ASSERT_MAC_LOCK.
Proof.
  intros s Hs. unfold wp, SMSC_ASSERT_MAC_LOCK. by rewrite (inv_mac _ _ _ _ _ Hs).
Qed.

(** Updates of the private data that leave the locks and the bus alone. *)
Lemma keeps_upd_pd w ph md b (f : smsc911x_data -> smsc911x_data) :
  (forall p, dev_lock (f p) = dev_lock p /\ mac_lock (f p) = mac_lock p /\ config (f p) = config p /\
    has_phy (f p) = has_phy p /\ loopback_tx_pkt (f p) = loopback_tx_pkt p /\
    (forall l, phy_ok l (phy_dev p) -> phy_ok l (phy_dev (f p))) /\ (line_ok (phy_dev p) -> line_ok (phy_dev (f p)))) ->
  keeps (inv w ph md b) (inv w ph md b) (upd_pd f).
Proof.
  intros Hf s Hs. destruct (Hf (pd s)) as (E1 & E2 & E3 & E4 & E5 & E6 & E7).
  destruct Hs as [H1 H2 H3 H4 H5 H6 H7 H8 H9 H10 H11].
  constructor; try done; cbn; [congruence|congruence| |congruence|congruence|by rewrite E5|by apply E6|by apply E7].
  unfold bus_ok, wide in *. by rewrite E3.
Qed.

Lemma keeps_upd_nd w ph md md' b (f : net_device -> net_device) :
  m_packet md' = m_packet md /\ m_phylock md' = m_phylock md ->
  (forall n, net_ok md n -> net_ok md' (f n)) ->
  keeps (inv w ph md b) (inv w ph md' b) (upd_nd f).
Proof. intros [E1 E2] Hf s []. constructor; cbn; rewrite ?E1, ?E2; auto. Qed.

(** Reading the interface tells what is known of it. *)
Lemma keeps_get_nd_inv {B} w ph md b (Q : dstate D -> Prop) (k : net_device -> drv D B) :
  (forall n, net_ok md n -> keeps (inv w ph md b) Q (k n)) -> keeps (inv w ph md b) Q (n ← get_nd; k n).
Proof. intros Hk s Hs. by apply (Hk (nd s) (inv_net _ _ _ _ _ Hs)). Qed.

(** Reading the private data tells whether a PHY is attached. *)
Lemma keeps_get_pd_inv {B} w ph md b (Q : dstate D -> Prop) (k : smsc911x_data -> drv D B) :
  (forall p, has_phy p = ph -> keeps (inv w ph md b) Q (k p)) -> keeps (inv w ph md b) Q (p ← get_pd; k p).
Proof. intros Hk s Hs. by apply (Hk (pd s) (inv_phy _ _ _ _ _ Hs)). Qed.

Lemma keeps_drop_fact {A} (P R Q : dstate D -> Prop) (m : drv D A) :
  keeps P Q m -> keeps (fun s => P s /\ R s) Q m.
Proof. intros Hm s [Hs _]. by apply Hm. Qed.

(** *** Functions that may stop *)

(** [m] returns to [Q] or stops in a way that [ok] allows. *)
Definition safely {A} (ok : stop -> bool) (P Q : dstate D -> Prop) (m : drv D A) : Prop :=
  forall s, P s -> match m s with Ret _ s' => Q s' | Stop why => ok why = true end.

Lemma safely_keeps {A} ok P Q (m : drv D A) : keeps P Q m -> safely ok P Q m.
Proof. intros Hm s Hs. apply Hm, wp_run in Hs as (a & s' & E & HQ). by rewrite E. Qed.

Lemma safely_bind {A B} ok P Q R (m : drv D A) (k : A -> drv D B) :
  safely ok P Q m -> (forall a, safely ok Q R (k a)) -> safely ok P R (m ≫= k).
Proof.
  intros Hm Hk s Hs. specialize (Hm s Hs). unfold mbind, drv_bind.
  destruct (m s) as [a s'|why]; [|done]. by apply Hk.
Qed.

Lemma has_phy_true p : has_phy p = true -> exists phy, phy_dev p = Some phy.
Proof. unfold has_phy. intros H. by apply bool_decide_eq_true in H as [phy H]; exists phy. Qed.

End Inv.

(** Most functions are called without the lock of the PHY. *)
Notation mk_mode r u t k := (mk_mode_at r u t k false).

(** Functions called without and with the MAC lock. *)
Notation keepi w ph md f := (keeps (inv w ph md false) (inv w ph md false) f).
Notation keepl w ph md f := (keeps (inv w ph md true) (inv w ph md true) f).

(** Walks through a function: every effect keeps the invariant; both branches of
    a test do; [keeps] facts of the functions it calls are hints. *)
Create HintDb keeps discriminated.
#[export] Hint Constants Opaque : keeps.
#[export] Hint Resolve keeps_reg_read keeps_reg_write keeps_udelay keeps_rx_readfifo
  keeps_lock keeps_unlock keeps_assert : keeps.

Ltac keeps_step :=
  lazymatch goal with
  | |- keeps (fun s => _ /\ _) _ _ => apply keeps_drop_fact
  | |- keeps (inv _ _ _ _) _ (mbind _ get_pd) =>
      let p := fresh "p" in let H := fresh "Hphy" in apply keeps_get_pd_inv; intros p H
  | |- keeps _ _ (mbind _ get_pd) => apply keeps_get_pd; intros ?
  | |- keeps (inv _ _ _ _) _ (mbind _ get_nd) =>
      let n := fresh "n" in let H := fresh "Hnet" in apply keeps_get_nd_inv; intros n H
  | |- keeps _ _ (mbind _ get_nd) => apply keeps_get_nd; intros ?
  | |- keeps _ _ (mbind _ _) => eapply keeps_bind; [|intros ?]
  | |- keeps _ _ (mret _) => apply keeps_ret
  | |- keeps _ _ (let x := _ in _) => cbv zeta
  | |- keeps _ _ (upd_pd _) => apply keeps_upd_pd; by intros ?
  | |- keeps _ _ (upd_nd _) => apply keeps_upd_nd; [done|by intros ? []]
  | H : has_phy ?p = true |- keeps _ _ (match phy_dev ?p with _ => _ end) =>
      let phy := fresh "phy" in destruct (has_phy_true p H) as [phy ->]
  | |- keeps _ _ (if ?b then _ else _) => let E := fresh "E" in destruct b eqn:E
  | |- keeps _ _ (match ?x with _ => _ end) => let E := fresh "E" in destruct x eqn:E
  | |- _ => solve [eauto with keeps]
  end.
Ltac keeps := repeat keeps_step.

(** Steps of [safely]: what keeps the invariant, or a function whose [safely] fact
    is a hint. *)
Create HintDb safely.
Ltac safely_step :=
  lazymatch goal with
  | |- safely _ _ _ (if ?b then _ else _) => let E := fresh "E" in destruct b eqn:E
  | |- safely _ _ _ (mbind _ get_pd) => fail
  | |- safely _ _ _ (mbind _ get_nd) => fail
  | |- safely _ _ _ (mbind _ _) =>
      eapply safely_bind; [first [solve [eauto with safely] | solve [apply safely_keeps; keeps]]|intros ?]
  | |- safely _ _ _ _ => first [solve [eauto with safely] | solve [apply safely_keeps; keeps]]
  end.
Ltac safely := repeat safely_step.

(** *** MAC and PHY registers *)

Section MacKeeps.
Context {D : Type} `{!Smsc D} `{!ChipInv D}.

Lemma keeps_mac_complete w ph md : keepl w ph md (smsc911x_mac_complete (D := D)).
Proof.
  unfold smsc911x_mac_complete. generalize 40%nat as n. intros n.
  assert (keepl w ph md (mac_complete_loop (D := D) n)).
  { induction n; cbn [mac_complete_loop]; keeps. }
  keeps.
Qed.
Hint Resolve keeps_mac_complete : keeps.

Lemma keeps_mac_read w ph md o : keepl w ph md (smsc911x_mac_read (D := D) o).
Proof. unfold smsc911x_mac_read. keeps. Qed.

Lemma keeps_mac_write w ph md o v : keepl w ph md (smsc911x_mac_write (D := D) o v).
Proof. unfold smsc911x_mac_write. keeps. Qed.
Hint Resolve keeps_mac_read keeps_mac_write : keeps.

Lemma keeps_mii_wait w ph md n (fin : drv D Z) :
  keepl w ph md fin -> keepl w ph md (mii_wait n fin).
Proof. intros Hf. induction n; cbn [mii_wait]; keeps. Qed.
Hint Resolve keeps_mii_wait : keeps.

Lemma keeps_mii_read w ph md a o : keepi w ph md (smsc911x_mii_read (D := D) a o).
Proof. unfold smsc911x_mii_read. cbv zeta. keeps. apply keeps_mii_wait. keeps. Qed.

Lemma keeps_mii_write w ph md a o v : keepi w ph md (smsc911x_mii_write (D := D) a o v).
Proof. unfold smsc911x_mii_write. cbv zeta. keeps. apply keeps_mii_wait. keeps. Qed.

Lemma keeps_set_hw_mac w ph md a :
  length a = 6%nat -> keepl w ph md (smsc911x_set_hw_mac_address (D := D) a).
Proof.
  intros Ha. do 6 (destruct a as [|? a]; [done|]). destruct a; [|done].
  cbn [smsc911x_set_hw_mac_address]. cbv zeta. keeps.
Qed.

Lemma keeps_read_mac w ph md : keepl w ph md (smsc911x_read_mac_address (D := D)).
Proof. unfold smsc911x_read_mac_address. keeps. Qed.

End MacKeeps.
#[export] Hint Resolve keeps_mac_read keeps_mac_write keeps_mii_read keeps_mii_write keeps_set_hw_mac
  keeps_read_mac : keeps.
