(* ===== verification/Crc32.v ===== *)
(** * CRC-32 and bit reversal (src/linux/lib/crc32.c, gen_crc32table.c, bitrev.c)

    The driver hashes multicast addresses with [ether_crc].  The kernel is
    configured for slicing by 8 ([CONFIG_CRC32_SLICEBY8]): the table that the
    generator writes, the loop over aligned pairs of words and the two byte loops
    around it are translated, and proved equal to the bit-serial loop that the
    same file has for [CRC_LE_BITS == 1].  The address of the buffer matters to
    the code only through its low two bits. *)

From S2P Require Import Prelude.

(** ** The table (gen_crc32table.c) *)

Definition CRCPOLY_LE : Z := 0xedb88320.
Definition LE_TABLE_SIZE : Z := 256.
Definition LE_TABLE_ROWS : nat := 8.

(** One bit of the division by the polynomial. *)
Definition crc_bit (polynomial crc : Z) : Z :=
  Z.lxor (Z.shiftr crc 1) (if Z.land crc 1 =? 0 then 0 else polynomial).

Definition table : Type := list (list Z).
Definition tab_get (tab : table) (j : nat) (i : Z) : Z := cell (nth j tab []) i.
Definition tab_set (tab : table) (j : nat) (i v : Z) : table :=
  <[j := <[Z.to_nat i := v]> (nth j tab [])]> tab.

(** [for (j = 0; j < LE_TABLE_SIZE; j += 2 * i) tab[0][i + j] = crc ^ tab[0][j]] *)
Fixpoint init_row_inner (fuel : nat) (i j crc : Z) (tab : table) : table :=
  match fuel with
  | O => tab
  | S n =>
      if j <? LE_TABLE_SIZE
      then init_row_inner n i (j + 2 * i) crc (tab_set tab 0 (i + j) (Z.lxor crc (tab_get tab 0 j)))
      else tab
  end.

(** [for (i = LE_TABLE_SIZE >> 1; i; i >>= 1)] *)
Fixpoint init_row (fuel : nat) (polynomial i crc : Z) (tab : table) : table :=
  match fuel with
  | O => tab
  | S n =>
      if i =? 0 then tab
      else let crc := crc_bit polynomial crc in
           init_row n polynomial (Z.shiftr i 1) crc (init_row_inner 256 i 0 crc tab)
  end.

(** [for (j = 1; j < LE_TABLE_ROWS; j++)], for the column [i]. *)
Fixpoint init_column (n j : nat) (i crc : Z) (tab : table) : table :=
  match n with
  | O => tab
  | S n =>
      let crc := Z.lxor (tab_get tab 0 (Z.land crc 0xff)) (Z.shiftr crc 8) in
      init_column n (S j) i crc (tab_set tab j i crc)
  end.

Fixpoint init_columns (n : nat) (i : Z) (tab : table) : table :=
  match n with
  | O => tab
  | S n => init_columns n (i + 1) (init_column (LE_TABLE_ROWS - 1) 1 i (tab_get tab 0 i) tab)
  end.

Definition crc32init_le_generic (polynomial : Z) (tab : table) : table :=
  let tab := tab_set tab 0 0 0 in
  let tab := init_row 9 polynomial (Z.shiftr LE_TABLE_SIZE 1) 1 tab in
  init_columns (Z.to_nat LE_TABLE_SIZE) 0 tab.

Definition crc32table_le : table :=
  crc32init_le_generic CRCPOLY_LE (replicate LE_TABLE_ROWS (replicate 256 0)).

(** ** Slicing by 8 (crc32.c) *)

Definition DO_CRC (tab : table) (crc x : Z) : Z :=
  Z.lxor (tab_get tab 0 (Z.land (Z.lxor crc x) 255)) (Z.shiftr crc 8).

Definition DO_CRC4 (tab : table) (q : Z) : Z :=
  Z.lxor (Z.lxor (Z.lxor (tab_get tab 3 (Z.land q 255))
    (tab_get tab 2 (Z.land (Z.shiftr q 8) 255)))
    (tab_get tab 1 (Z.land (Z.shiftr q 16) 255)))
    (tab_get tab 0 (Z.land (Z.shiftr q 24) 255)).

Definition DO_CRC8 (tab : table) (q : Z) : Z :=
  Z.lxor (Z.lxor (Z.lxor (tab_get tab 7 (Z.land q 255))
    (tab_get tab 6 (Z.land (Z.shiftr q 8) 255)))
    (tab_get tab 5 (Z.land (Z.shiftr q 16) 255)))
    (tab_get tab 4 (Z.land (Z.shiftr q 24) 255)).

(** Bytes up to the first aligned address, or to the end of the buffer. *)
Fixpoint align_loop (tab : table) (addr crc : Z) (buf : list Z) : Z * list Z :=
  match buf with
  | [] => (crc, [])
  | x :: buf' =>
      if Z.land addr 3 =? 0 then (crc, buf)
      else align_loop tab (addr + 1) (DO_CRC tab crc x) buf'
  end.

(** [len >> 3] pairs of words. *)
Fixpoint words_loop (n : nat) (tab : table) (crc : Z) (buf : list Z) : Z * list Z :=
  match n with
  | O => (crc, buf)
  | S n =>
      let q := Z.lxor crc (le_combine (take 4 buf)) in
      let crc := DO_CRC8 tab q in
      let q := le_combine (take 4 (drop 4 buf)) in
      words_loop n tab (Z.lxor crc (DO_CRC4 tab q)) (drop 8 buf)
  end.

(** The bytes that are left. *)
Definition bytes_loop (tab : table) (crc : Z) (buf : list Z) : Z :=
  fold_left (DO_CRC tab) buf crc.

Definition crc32_body (tab : table) (addr crc : Z) (buf : list Z) : Z :=
  let '(crc, buf) := align_loop tab addr crc buf in
  let '(crc, buf) := words_loop (Nat.div (length buf) 8) tab crc buf in
  bytes_loop tab crc buf.

(** On a little-endian machine [__cpu_to_le32] is the identity. *)
Definition crc32_le (crc addr : Z) (p : list Z) : Z := crc32_body crc32table_le addr crc p.

(** The loop for [CRC_LE_BITS == 1]. *)
Definition crc_byte (polynomial crc : Z) : Z := Nat.iter 8 (crc_bit polynomial) crc.
Definition crc_bytes (byte : Z -> Z) (crc : Z) (p : list Z) : Z :=
  fold_left (fun crc x => byte (Z.lxor crc x)) p crc.
Definition crc32_le_bits (polynomial crc : Z) (p : list Z) : Z :=
  crc_bytes (crc_byte polynomial) crc p.

(** ** Bit reversal (bitrev.c) *)

Definition byte_rev_table : list Z :=
  [0x00; 0x80; 0x40; 0xc0; 0x20; 0xa0; 0x60; 0xe0; 0x10; 0x90; 0x50; 0xd0; 0x30; 0xb0; 0x70; 0xf0;
   0x08; 0x88; 0x48; 0xc8; 0x28; 0xa8; 0x68; 0xe8; 0x18; 0x98; 0x58; 0xd8; 0x38; 0xb8; 0x78; 0xf8;
   0x04; 0x84; 0x44; 0xc4; 0x24; 0xa4; 0x64; 0xe4; 0x14; 0x94; 0x54; 0xd4; 0x34; 0xb4; 0x74; 0xf4;
   0x0c; 0x8c; 0x4c; 0xcc; 0x2c; 0xac; 0x6c; 0xec; 0x1c; 0x9c; 0x5c; 0xdc; 0x3c; 0xbc; 0x7c; 0xfc;
   0x02; 0x82; 0x42; 0xc2; 0x22; 0xa2; 0x62; 0xe2; 0x12; 0x92; 0x52; 0xd2; 0x32; 0xb2; 0x72; 0xf2;
   0x0a; 0x8a; 0x4a; 0xca; 0x2a; 0xaa; 0x6a; 0xea; 0x1a; 0x9a; 0x5a; 0xda; 0x3a; 0xba; 0x7a; 0xfa;
   0x06; 0x86; 0x46; 0xc6; 0x26; 0xa6; 0x66; 0xe6; 0x16; 0x96; 0x56; 0xd6; 0x36; 0xb6; 0x76; 0xf6;
   0x0e; 0x8e; 0x4e; 0xce; 0x2e; 0xae; 0x6e; 0xee; 0x1e; 0x9e; 0x5e; 0xde; 0x3e; 0xbe; 0x7e; 0xfe;
   0x01; 0x81; 0x41; 0xc1; 0x21; 0xa1; 0x61; 0xe1; 0x11; 0x91; 0x51; 0xd1; 0x31; 0xb1; 0x71; 0xf1;
   0x09; 0x89; 0x49; 0xc9; 0x29; 0xa9; 0x69; 0xe9; 0x19; 0x99; 0x59; 0xd9; 0x39; 0xb9; 0x79; 0xf9;
   0x05; 0x85; 0x45; 0xc5; 0x25; 0xa5; 0x65; 0xe5; 0x15; 0x95; 0x55; 0xd5; 0x35; 0xb5; 0x75; 0xf5;
   0x0d; 0x8d; 0x4d; 0xcd; 0x2d; 0xad; 0x6d; 0xed; 0x1d; 0x9d; 0x5d; 0xdd; 0x3d; 0xbd; 0x7d; 0xfd;
   0x03; 0x83; 0x43; 0xc3; 0x23; 0xa3; 0x63; 0xe3; 0x13; 0x93; 0x53; 0xd3; 0x33; 0xb3; 0x73; 0xf3;
   0x0b; 0x8b; 0x4b; 0xcb; 0x2b; 0xab; 0x6b; 0xeb; 0x1b; 0x9b; 0x5b; 0xdb; 0x3b; 0xbb; 0x7b; 0xfb;
   0x07; 0x87; 0x47; 0xc7; 0x27; 0xa7; 0x67; 0xe7; 0x17; 0x97; 0x57; 0xd7; 0x37; 0xb7; 0x77; 0xf7;
   0x0f; 0x8f; 0x4f; 0xcf; 0x2f; 0xaf; 0x6f; 0xef; 0x1f; 0x9f; 0x5f; 0xdf; 0x3f; 0xbf; 0x7f; 0xff].

Definition bitrev8 (x : Z) : Z := cell byte_rev_table x.
Definition bitrev16 (x : Z) : Z :=
  Z.lor (Z.shiftl (bitrev8 (Z.land x 0xff)) 8) (bitrev8 (Z.shiftr x 8)).
Definition bitrev32 (x : Z) : Z :=
  Z.lor (Z.shiftl (bitrev16 (Z.land x 0xffff)) 16) (bitrev16 (Z.shiftr x 16)).

Definition ether_crc (addr : Z) (data : list Z) : Z := bitrev32 (crc32_le 0xffffffff addr data).

(** ** The table holds the bit-serial remainders *)

Section Slicing.
Local Abbreviation step1 := (crc_bit CRCPOLY_LE).

Local Abbreviation step8 := (crc_byte CRCPOLY_LE).

Lemma crc_bit_lxor a b : step1 (Z.lxor a b) = Z.lxor (step1 a) (step1 b).
Proof.
  unfold crc_bit. rewrite Z.shiftr_lxor.
  assert (forall x, (Z.land x 1 =? 0) = negb (Z.testbit x 0)) as H.
  { intros x. change 1 with (Z.ones 1). rewrite Z.land_ones, <- Z.bit0_mod by lia.
    by destruct (Z.testbit x 0). }
  rewrite !H, Z.lxor_spec. apply Z.bits_inj'. intros i Hi.
  destruct (Z.testbit a 0), (Z.testbit b 0); cbn [negb xorb]; rewrite !Z.lxor_spec, ?Z.bits_0;
    repeat (destruct (Z.testbit _ i)); done.
Qed.

Lemma iter_lxor n a b :
  Nat.iter n step1 (Z.lxor a b) = Z.lxor (Nat.iter n step1 a) (Nat.iter n step1 b).
Proof.
  induction n as [|n IH]; [done|]. by rewrite !Nat.iter_succ, IH, crc_bit_lxor.
Qed.

Lemma iter_shift n c : Nat.iter n step1 (Z.shiftl c (Z.of_nat n)) = c.
Proof.
  induction n as [|n IH]; [apply Z.shiftl_0_r|].
  rewrite Nat.iter_succ_r. rewrite <- IH at 2. f_equal. unfold crc_bit.
  replace (Z.of_nat (S n)) with (Z.of_nat n + 1) by lia.
  rewrite <- Z.shiftl_shiftl by lia. rewrite Z.shiftr_shiftl_l by lia.
  pose proof (Z.land_ones (Z.shiftl (Z.shiftl c (Z.of_nat n)) 1) 1 ltac:(lia)) as E.
  change (Z.ones 1) with 1 in E. rewrite E, (Z.shiftl_mul_pow2 _ 1), Z.mod_mul by lia.
  cbn. by rewrite Z.lxor_0_r, Z.shiftl_0_r.
Qed.

Lemma iter_shift_more m n c :
  Nat.iter (m + n) step1 (Z.shiftl c (Z.of_nat n)) = Nat.iter m step1 c.
Proof. by rewrite Nat.iter_add, iter_shift. Qed.

(** A register as its low byte and the rest. *)
Lemma split_low c : c = Z.lxor (Z.land c 255) (Z.shiftl (Z.shiftr c 8) 8).
Proof.
  apply Z.bits_inj'. intros i Hi. rewrite Z.lxor_spec, Z.land_spec.
  change 255 with (Z.ones 8). destruct (decide (i < 8)).
  - by rewrite Z.ones_spec_low, Z.shiftl_spec_low, andb_true_r, xorb_false_r by lia.
  - rewrite Z.ones_spec_high, Z.shiftl_spec, Z.shiftr_spec by lia.
    rewrite andb_false_r, xorb_false_l. f_equal. lia.
Qed.

Lemma iter_low n c :
  Nat.iter (n + 8) step1 c
  = Z.lxor (Nat.iter (n + 8) step1 (Z.land c 255)) (Nat.iter n step1 (Z.shiftr c 8)).
Proof.
  rewrite (split_low c) at 1. rewrite iter_lxor. f_equal. apply (iter_shift_more n 8).
Qed.

Lemma low_byte c : is_u8 (Z.land c 255).
Proof. change 255 with (Z.ones 8). rewrite Z.land_ones by lia. by apply is_word_mod. Qed.

(** Row [j] of the table: the remainder of a byte after [j] more bytes of zeros. *)
Lemma table_spec j i :
  (j < 8)%nat -> is_u8 i -> tab_get crc32table_le j i = Nat.iter (8 * S j) step1 i.
Proof.
  intros Hj Hi.
  assert (forallb (fun j => forallb (fun i =>
    tab_get crc32table_le j i =? Nat.iter (8 * S j) step1 i) (seqZ 0 256)) (seq 0 8) = true) as H
    by (vm_compute; reflexivity).
  rewrite forallb_forall in H. apply Z.eqb_eq.
  assert (In j (seq 0 8)) as Hin by (apply in_seq; lia).
  specialize (H j Hin). rewrite forallb_forall in H. apply H.
  apply list_elem_of_In, elem_of_seqZ. destruct Hi. lia.
Qed.

#[local] Opaque crc32table_le.

Lemma DO_CRC_spec crc x :
  is_u8 x -> DO_CRC crc32table_le crc x = step8 (Z.lxor crc x).
Proof.
  intros Hx. unfold DO_CRC, crc_byte.
  change 8%nat with (0 + 8)%nat. rewrite (iter_low 0 (Z.lxor crc x)).
  rewrite table_spec by (lia || apply low_byte). f_equal. cbn [Nat.iter nat_rect].
  rewrite Z.shiftr_lxor, (Z.shiftr_div_pow2 x), (Z.div_small x) by (destruct Hx; lia).
  by rewrite Z.lxor_0_r.
Qed.

(** The four bytes of a word, each through the row for its distance from the end. *)
Lemma slice4 n q :
  is_u32 q ->
  Nat.iter (n + 32) step1 q
  = Z.lxor (Z.lxor (Z.lxor (Nat.iter (n + 32) step1 (Z.land q 255))
      (Nat.iter (n + 24) step1 (Z.land (Z.shiftr q 8) 255)))
      (Nat.iter (n + 16) step1 (Z.land (Z.shiftr q 16) 255)))
      (Nat.iter (n + 8) step1 (Z.land (Z.shiftr q 24) 255)).
Proof.
  intros [Hq Hlt].
  replace (n + 32)%nat with (n + 24 + 8)%nat by lia. rewrite (iter_low (n + 24)).
  replace (n + 24)%nat with (n + 16 + 8)%nat by lia. rewrite (iter_low (n + 16) (Z.shiftr q 8)).
  replace (n + 16)%nat with (n + 8 + 8)%nat by lia.
  rewrite (iter_low (n + 8) (Z.shiftr (Z.shiftr q 8) 8)).
  rewrite !Z.shiftr_shiftr by lia. cbn [Z.add Pos.add Pos.succ Pos.add_carry].
  assert (Z.shiftr q 24 = Z.land (Z.shiftr q 24) 255) as <-.
  { change 255 with (Z.ones 8). rewrite Z.land_ones, Z.shiftr_div_pow2 by lia.
    rewrite Z.mod_small; [done|].
    split; [by apply Z.div_pos|by apply Z.div_lt_upper_bound]. }
  by rewrite !Z.lxor_assoc.
Qed.

Lemma DO_CRC4_spec q : is_u32 q -> DO_CRC4 crc32table_le q = Nat.iter 32 step1 q.
Proof.
  intros Hq. change 32%nat with (0 + 32)%nat. rewrite (slice4 0) by done. unfold DO_CRC4.
  by rewrite !table_spec by (lia || apply low_byte).
Qed.

Lemma DO_CRC8_spec q : is_u32 q -> DO_CRC8 crc32table_le q = Nat.iter 64 step1 q.
Proof.
  intros Hq. change 64%nat with (32 + 32)%nat. rewrite (slice4 32) by done. unfold DO_CRC8.
  by rewrite !table_spec by (lia || apply low_byte).
Qed.

(** ** The loops *)

Local Abbreviation crc_bits := (crc32_le_bits CRCPOLY_LE).

Lemma crc_bytes_cons byte crc x l :
  crc_bytes byte crc (x :: l) = crc_bytes byte (byte (Z.lxor crc x)) l.
Proof. reflexivity. Qed.

Lemma crc_bits_cons crc x l : crc_bits crc (x :: l) = crc_bits (step8 (Z.lxor crc x)) l.
Proof. exact (crc_bytes_cons step8 crc x l). Qed.

Lemma crc_bits_word l crc :
  Forall is_u8 l ->
  crc_bits crc l = Nat.iter (8 * length l) step1 (Z.lxor crc (le_combine l)).
Proof.
  intros Hl. revert crc. induction Hl as [|x l Hx Hl IH]; intros crc; [by rewrite Z.lxor_0_r|].
  cbn [le_combine length]. rewrite crc_bits_cons, IH.
  replace (8 * S (length l))%nat with (8 * length l + 8)%nat by lia.
  rewrite Nat.iter_add. f_equal. unfold crc_byte.
  replace (x + 2 ^ 8 * le_combine l) with (Z.lxor x (Z.shiftl (le_combine l) 8)).
  - pose proof (iter_shift 8 (le_combine l)) as E. change (Z.of_nat 8) with 8 in E.
    by rewrite <- Z.lxor_assoc, (iter_lxor 8 (Z.lxor crc x)), E.
  - rewrite (Z.mul_comm (2 ^ 8)), <- lor_add_shiftl by (lia || done).
    apply Z.bits_inj'. intros i Hi. rewrite Z.lxor_spec, Z.lor_spec. destruct (decide (i < 8)).
    + rewrite Z.shiftl_spec_low by lia. by destruct (Z.testbit x i).
    + by rewrite (is_word_testbit 8 x) by (done || lia).
Qed.

Lemma crc_bits_app crc l k : crc_bits crc (l ++ k) = crc_bits (crc_bits crc l) k.
Proof. apply fold_left_app. Qed.

Lemma bytes_loop_spec crc l : Forall is_u8 l -> bytes_loop crc32table_le crc l = crc_bits crc l.
Proof.
  intros Hl. revert crc. induction Hl as [|x l Hx Hl IH]; intros crc; [done|].
  rewrite crc_bits_cons, <- IH, <- DO_CRC_spec by done. reflexivity.
Qed.

Lemma crc_bit_u32 c : is_u32 c -> is_u32 (step1 c).
Proof.
  intros Hc. apply is_u32_lxor; [apply is_word_shiftr; done|]. by case_match.
Qed.

Lemma iter_u32 n c : is_u32 c -> is_u32 (Nat.iter n step1 c).
Proof. intros Hc. induction n; [done|]. rewrite Nat.iter_succ. by apply crc_bit_u32. Qed.

Lemma crc_bits_u32 crc l : is_u32 crc -> Forall is_u8 l -> is_u32 (crc_bits crc l).
Proof.
  intros Hc Hl. revert crc Hc. induction Hl as [|x l Hx Hl IH]; intros crc Hc; [done|].
  apply IH. apply (iter_u32 8). apply is_u32_lxor; [done|]. by apply (is_word_mono 8).
Qed.

Lemma align_loop_spec addr crc l :
  is_u32 crc -> Forall is_u8 l ->
  let r := align_loop crc32table_le addr crc l in
  is_u32 (fst r) /\ Forall is_u8 (snd r) /\ crc_bits (fst r) (snd r) = crc_bits crc l.
Proof.
  intros Hc Hl. revert addr crc Hc. induction Hl as [|x l Hx Hl IH]; intros addr crc Hc; [done|].
  cbn [align_loop]. destruct (Z.land addr 3 =? 0); [split; [done|]; split; [by constructor|done]|].
  rewrite crc_bits_cons, DO_CRC_spec by done. apply (IH (addr + 1) (step8 (Z.lxor crc x))).
  apply (iter_u32 8). apply is_u32_lxor; [done|]. by apply (is_word_mono 8).
Qed.

Lemma le_combine_u32 l : Forall is_u8 l -> length l = 4%nat -> is_u32 (le_combine l).
Proof. intros Hl Hn. pose proof (le_combine_bound l Hl) as H. by rewrite Hn in H. Qed.

Lemma words_loop_spec n crc l :
  is_u32 crc -> Forall is_u8 l -> (8 * n <= length l)%nat ->
  let r := words_loop n crc32table_le crc l in
  Forall is_u8 (snd r) /\ crc_bits (fst r) (snd r) = crc_bits crc l.
Proof.
  revert crc l. induction n as [|n IH]; intros crc l Hc Hl Hn; [done|]. cbn [words_loop].
  set (a := take 4 l). set (b := take 4 (drop 4 l)). set (k := drop 8 l).
  assert (Forall is_u8 a /\ Forall is_u8 b /\ Forall is_u8 k) as (Ha & Hb & Hk)
    by (repeat split; unfold a, b, k; auto using Forall_take, Forall_drop).
  assert (length a = 4%nat /\ length b = 4%nat /\ length k = (length l - 8)%nat) as (La & Lb & Lk)
    by (unfold a, b, k; rewrite !length_take, !length_drop; lia).
  assert (l = a ++ b ++ k) as El.
  { unfold a, b, k. change (drop 8 l) with (drop (4 + 4) l). rewrite <- drop_drop.
    by rewrite !take_drop. }
  rewrite DO_CRC8_spec, DO_CRC4_spec by auto using is_u32_lxor, le_combine_u32.
  assert (Z.lxor (Nat.iter 64 step1 (Z.lxor crc (le_combine a))) (Nat.iter 32 step1 (le_combine b))
          = crc_bits (crc_bits crc a) b) as E.
  { rewrite !crc_bits_word, La, Lb by done. change (8 * 4)%nat with 32%nat.
    by rewrite (iter_lxor 32 (Nat.iter 32 step1 _)), <- Nat.iter_add. }
  rewrite E, El, !crc_bits_app. apply IH; [by repeat apply crc_bits_u32|done|lia].
Qed.

Lemma crc32_le_spec crc addr p :
  is_u32 crc -> Forall is_u8 p -> crc32_le crc addr p = crc_bits crc p.
Proof.
  intros Hc Hp. unfold crc32_le, crc32_body.
  destruct (align_loop_spec addr crc p Hc Hp) as (Hc1 & Hp1 & E1).
  destruct (align_loop crc32table_le addr crc p) as [crc1 p1]. cbn [fst snd] in *.
  pose proof (Nat.Div0.mul_div_le (length p1) 8) as Hle.
  destruct (words_loop_spec _ crc1 p1 Hc1 Hp1 Hle) as (Hp2 & E2).
  destruct (words_loop _ crc32table_le crc1 p1) as [crc2 p2]. cbn [fst snd] in *.
  by rewrite bytes_loop_spec, E2.
Qed.
End Slicing.

(** C13: the optimised CRC of the kernel is the bit-serial one.  For every seed
    and every buffer, at every alignment, slicing by 8 with the generated table
    returns what the loop over single bits returns, a 32-bit word; and feeding
    the result of one buffer to the next computes the CRC of both. *)
Theorem crc32_le_correct crc addr addr' p q :
  is_u32 crc -> Forall is_u8 p -> Forall is_u8 q ->
  crc32_le crc addr p = crc32_le_bits CRCPOLY_LE crc p /\ is_u32 (crc32_le crc addr p) /\
  crc32_le (crc32_le crc addr p) addr' q = crc32_le crc addr (p ++ q).
Proof.
  intros Hc Hp Hq. rewrite !crc32_le_spec by (auto using crc_bits_u32, Forall_app_2).
  by rewrite crc_bits_app; auto using crc_bits_u32.
Qed.

Lemma crc32_le_correct_witness :
  crc32_le 0xffffffff 1 [49; 50; 51; 52; 53; 54; 55; 56; 57]
  = crc32_le_bits CRCPOLY_LE 0xffffffff [49; 50; 51; 52; 53; 54; 55; 56; 57] /\
  not32 (crc32_le_bits CRCPOLY_LE 0xffffffff [49; 50; 51; 52; 53; 54; 55; 56; 57]) = 0xcbf43926.
Proof.
  split; [|vm_compute; reflexivity].
  apply (crc32_le_correct 0xffffffff 1 0 [49; 50; 51; 52; 53; 54; 55; 56; 57] []);
    [done|repeat constructor; done|constructor].
Defined.

(** ** Bit reversal *)

Lemma bitrev8_spec x i :
  is_u8 x -> 0 <= i -> Z.testbit (bitrev8 x) i = (i <? 8) && Z.testbit x (7 - i).
Proof.
  intros Hx Hi.
  assert (forallb (fun x => (0 <=? bitrev8 x) && (bitrev8 x <? 2 ^ 8) && forallb (fun i =>
    Bool.eqb (Z.testbit (bitrev8 x) i) (Z.testbit x (7 - i))) (seqZ 0 8)) (seqZ 0 256) = true) as H
    by (vm_compute; reflexivity).
  rewrite forallb_forall in H. specialize (H x).
  rewrite <- list_elem_of_In, elem_of_seqZ in H. destruct Hx as [Hx0 Hx1].
  specialize (H ltac:(lia)). rewrite !andb_true_iff, Z.leb_le, Z.ltb_lt, forallb_forall in H.
  destruct H as [Hr H]. destruct (Z.ltb_spec i 8).
  - apply eqb_prop, H. rewrite <- list_elem_of_In, elem_of_seqZ. lia.
  - by apply (is_word_testbit 8).
Qed.

Lemma land_low_testbit x n i :
  0 <= n -> 0 <= i -> Z.testbit (Z.land x (Z.ones n)) i = (i <? n) && Z.testbit x i.
Proof.
  intros Hn Hi. rewrite Z.land_spec, andb_comm. f_equal.
  destruct (Z.ltb_spec i n); [apply Z.ones_spec_low|apply Z.ones_spec_high]; lia.
Qed.

(** Reversing two halves and exchanging them reverses the whole. *)
Lemma reverse_halves (r : Z -> Z) w u m x i :
  u = 2 * w -> m = Z.ones w -> 0 < w -> is_word u x ->
  (forall y j, is_word w y -> 0 <= j -> Z.testbit (r y) j = (j <? w) && Z.testbit y (w - 1 - j)) ->
  0 <= i ->
  Z.testbit (Z.lor (Z.shiftl (r (Z.land x m)) w) (r (Z.shiftr x w))) i
  = (i <? u) && Z.testbit x (u - 1 - i).
Proof.
  intros -> -> Hw Hx Hr Hi. unfold is_word in Hx.
  assert (is_word w (Z.land x (Z.ones w))) as H1 by (rewrite Z.land_ones by lia; apply is_word_mod; lia).
  assert (is_word w (Z.shiftr x w)) as H2.
  { rewrite Z.shiftr_div_pow2 by lia. replace (2 * w) with (w + w) in Hx by lia.
    rewrite Z.pow_add_r in Hx by lia.
    split; [apply Z.div_pos|apply Z.div_lt_upper_bound]; lia. }
  rewrite Z.lor_spec. destruct (Z.ltb_spec i w).
  - rewrite Z.shiftl_spec_low, Hr, Z.shiftr_spec by (done || lia).
    rewrite (proj2 (Z.ltb_lt i w)), (proj2 (Z.ltb_lt i (2 * w))) by lia.
    cbn. f_equal. lia.
  - rewrite (Hr (Z.shiftr x w)), (proj2 (Z.ltb_ge i w)) by (done || lia).
    rewrite Z.shiftl_spec, Hr, orb_false_r by (done || lia).
    destruct (Z.ltb_spec (i - w) w); [|by rewrite (proj2 (Z.ltb_ge i (2 * w))) by lia].
    rewrite (proj2 (Z.ltb_lt i (2 * w))) by lia. cbn [andb].
    rewrite land_low_testbit, (proj2 (Z.ltb_lt _ w)) by lia. cbn [andb]. f_equal. lia.
Qed.

Lemma bitrev16_spec x i :
  is_u16 x -> 0 <= i -> Z.testbit (bitrev16 x) i = (i <? 16) && Z.testbit x (15 - i).
Proof.
  intros Hx Hi. unfold bitrev16.
  rewrite (reverse_halves bitrev8 8 16 0xff x i) by (done || apply bitrev8_spec). done.
Qed.

Lemma bitrev32_spec x i :
  is_u32 x -> 0 <= i -> Z.testbit (bitrev32 x) i = (i <? 32) && Z.testbit x (31 - i).
Proof.
  intros Hx Hi. unfold bitrev32.
  rewrite (reverse_halves bitrev16 16 32 0xffff x i) by (done || apply bitrev16_spec). done.
Qed.
