(* ===== verification/SmscFilter.v ===== *)
(** * The network driver: multicast filter (smsc911x.c 1346-1400, 1757-1829)

    The hash of an address, the choice of filter mode, and the update of the
    filter registers: at once on newer chips, and on older ones only after the
    receiver has stopped, from the interrupt handler. *)

From stdpp Require Import relations.
From S2P Require Import Prelude SmscDefs SmscIo SmscMac SmscRun Crc32.

Definition IFF_PROMISC : Z := 0x100.
Definition IFF_ALLMULTI : Z := 0x200.

(** [smsc911x_hash]; the addresses of a multicast list are word-aligned. *)
Definition smsc911x_hash (addr : list Z) : Z := Z.land (Z.shiftr (ether_crc 0 addr) 26) 0x3f.

(** One turn of [netdev_for_each_mc_addr]. *)
Definition mc_hash (h : Z * Z) (addr : list Z) : Z * Z :=
  let '(hash_high, hash_low) := h in
  let bitnum := smsc911x_hash addr in
  let mask := shl32 1 (Z.land bitnum 0x1f) in
  if has bitnum 0x20 then (Z.lor hash_high mask, hash_low) else (hash_high, Z.lor hash_low mask).

Section Filter.
Context {D : Type} `{!Smsc D}.

Definition set_filter (set clear hi lo : Z) : drv D unit :=
  _ ← upd_pd (set_set_bits_mask set);
  _ ← upd_pd (set_clear_bits_mask clear);
  _ ← upd_pd (set_hashhi hi);
  upd_pd (set_hashlo lo).

(** The choice of mode at the start of [smsc911x_set_multicast_list]. *)
Definition choose_filter : drv D unit :=
  n ← get_nd;
  if has (dev_flags n) IFF_PROMISC then
    set_filter MAC_CR_PRMS_ (Z.lor MAC_CR_MCPAS_ MAC_CR_HPFILT_) 0 0
  else if has (dev_flags n) IFF_ALLMULTI then
    set_filter MAC_CR_MCPAS_ (Z.lor MAC_CR_PRMS_ MAC_CR_HPFILT_) 0 0
  else if negb (length (mc_list n) =? 0)%nat then
    let '(hash_high, hash_low) := fold_left mc_hash (mc_list n) (0, 0) in
    set_filter MAC_CR_HPFILT_ (Z.lor MAC_CR_PRMS_ MAC_CR_MCPAS_) hash_high hash_low
  else set_filter 0 (Z.lor (Z.lor MAC_CR_PRMS_ MAC_CR_MCPAS_) MAC_CR_HPFILT_) 0 0.

(** [smsc911x_rx_multicast_update] *)
Definition smsc911x_rx_multicast_update : drv D unit :=
  _ ← SMSC_ASSERT_MAC_LOCK;
  mac_cr ← smsc911x_mac_read MAC_CR;
  p ← get_pd;
  let mac_cr := Z.lor mac_cr (set_bits_mask p) in
  let mac_cr := Z.land mac_cr (not32 (clear_bits_mask p)) in
  _ ← smsc911x_mac_write MAC_CR mac_cr;
  _ ← smsc911x_mac_write HASHH (hashhi p);
  smsc911x_mac_write HASHL (hashlo p).

(** [smsc911x_rx_multicast_update_workaround]; the first read only serves a
    warning. *)
Definition smsc911x_rx_multicast_update_workaround : drv D unit :=
  _ ← lock_mac;
  _ ← smsc911x_mac_read MAC_CR;
  _ ← smsc911x_rx_multicast_update;
  mac_cr ← smsc911x_mac_read MAC_CR;
  _ ← smsc911x_mac_write MAC_CR (Z.lor mac_cr MAC_CR_RXEN_);
  _ ← upd_pd (set_multicast_update_pending 0);
  unlock_mac.

(** The part of [smsc911x_set_multicast_list] under the lock. *)
Definition start_update : drv D unit :=
  p ← get_pd;
  if generation p <=? 1 then
    if multicast_update_pending p =? 0 then
      _ ← upd_pd (set_multicast_update_pending 1);
      temp ← smsc911x_mac_read MAC_CR;
      smsc911x_mac_write MAC_CR (Z.land temp (not32 MAC_CR_RXEN_))
    else mret tt
  else smsc911x_rx_multicast_update.

Definition smsc911x_set_multicast_list : drv D unit :=
  _ ← choose_filter;
  _ ← lock_mac;
  _ ← start_update;
  unlock_mac.

(** What the interrupt handler does on [INT_STS_RXSTOP_INT_]. *)
Definition rx_stop : drv D unit :=
  p ← get_pd;
  if multicast_update_pending p =? 0 then mret tt else smsc911x_rx_multicast_update_workaround.

End Filter.

(** ** The hash *)

(** The hash of a six-byte address is a number below 64: the six lowest bits
    of the CRC-32 of the address, computed bit by bit from all ones, in reverse
    order; the address of the comment, 01:00:5e:00:00:01, hashes to 31. *)
Theorem hash_correct a :
  Forall is_u8 a -> 0 <= smsc911x_hash a < 64 /\
  (forall k, 0 <= k < 6 ->
     Z.testbit (smsc911x_hash a) k = Z.testbit (crc32_le_bits CRCPOLY_LE 0xffffffff a) (5 - k)) /\
  smsc911x_hash [0x01; 0x00; 0x5e; 0x00; 0x00; 0x01] = 31.
Proof.
  intros Ha. split; [|split; [|vm_compute; reflexivity]].
  - unfold smsc911x_hash. change 0x3f with (Z.ones 6). rewrite Z.land_ones by lia.
    apply Z.mod_pos_bound. lia.
  - intros k Hk. unfold smsc911x_hash. change 0x3f with (Z.ones 6).
    rewrite land_low_testbit, (proj2 (Z.ltb_lt k 6)), Z.shiftr_spec by lia. cbn [andb].
    unfold ether_crc. rewrite crc32_le_spec by done.
    rewrite bitrev32_spec by (lia || by apply crc_bits_u32).
    rewrite (proj2 (Z.ltb_lt _ 32)) by lia. cbn [andb]. f_equal. lia.
Qed.

Lemma hash_correct_witness : 0 <= smsc911x_hash [0x01; 0x00; 0x5e; 0x00; 0x00; 0xfb] < 64.
Proof. apply (hash_correct [0x01; 0x00; 0x5e; 0x00; 0x00; 0xfb]). repeat constructor; done. Defined.

(** ** What the filter registers should hold *)

Definition hashed (n : net_device) : bool :=
  negb (has (dev_flags n) IFF_PROMISC) && negb (has (dev_flags n) IFF_ALLMULTI) &&
  negb (length (mc_list n) =? 0)%nat.

(** The three mode bits, and bit [k] of the 64-bit hash table. *)
Definition filter_ok (n : net_device) (r : Z -> Z) : Prop :=
  has (r MAC_CR) MAC_CR_PRMS_ = has (dev_flags n) IFF_PROMISC /\
  has (r MAC_CR) MAC_CR_MCPAS_
  = negb (has (dev_flags n) IFF_PROMISC) && has (dev_flags n) IFF_ALLMULTI /\
  has (r MAC_CR) MAC_CR_HPFILT_ = hashed n /\
  forall k, 0 <= k < 64 ->
    Z.testbit (if k <? 32 then r HASHL else r HASHH) (k mod 32)
    = hashed n && existsb (fun a => smsc911x_hash a =? k) (mc_list n).

(** The four values that [choose_filter] stores. *)
Definition filter_of (n : net_device) : Z * Z * (Z * Z) :=
  if has (dev_flags n) IFF_PROMISC then (MAC_CR_PRMS_, Z.lor MAC_CR_MCPAS_ MAC_CR_HPFILT_, (0, 0))
  else if has (dev_flags n) IFF_ALLMULTI then
    (MAC_CR_MCPAS_, Z.lor MAC_CR_PRMS_ MAC_CR_HPFILT_, (0, 0))
  else if negb (length (mc_list n) =? 0)%nat then
    (MAC_CR_HPFILT_, Z.lor MAC_CR_PRMS_ MAC_CR_MCPAS_, fold_left mc_hash (mc_list n) (0, 0))
  else (0, Z.lor (Z.lor MAC_CR_PRMS_ MAC_CR_MCPAS_) MAC_CR_HPFILT_, (0, 0)).

(** The private data hold the filter of the device [n]. *)
Definition chosen (n : net_device) (p : smsc911x_data) : Prop :=
  (set_bits_mask p, clear_bits_mask p, (hashhi p, hashlo p)) = filter_of n.

(** Bits of the hash table after a list of addresses. *)
Lemma mc_hash_bit hi lo a k :
  0 <= k < 64 -> Forall is_u8 a -> is_u32 hi -> is_u32 lo ->
  let h := mc_hash (hi, lo) a in
  is_u32 h.1 /\ is_u32 h.2 /\
  Z.testbit (if k <? 32 then h.2 else h.1) (k mod 32)
  = Z.testbit (if k <? 32 then lo else hi) (k mod 32) || (smsc911x_hash a =? k).
Proof.
  intros Hk Ha Hhi Hlo. unfold mc_hash.
  assert (0 <= smsc911x_hash a < 64) as Hh.
  { unfold smsc911x_hash. change 0x3f with (Z.ones 6). rewrite Z.land_ones by lia.
    apply Z.mod_pos_bound. lia. }
  revert Hh. generalize (smsc911x_hash a) as b. intros b Hb.
  assert (has b 0x20 = negb (b <? 32)) as ->.
  { unfold has. change (Z.land b 0x20) with (Z.land b (Z.shiftl (Z.ones 1) 5)).
    rewrite land_field by lia.
    f_equal. destruct (Z.ltb_spec b 32); [apply Z.eqb_eq|apply Z.eqb_neq]; div_lia. }
  assert (shl32 1 (Z.land b 0x1f) = 2 ^ (b mod 32)) as ->.
  { change 0x1f with (Z.ones 5). rewrite Z.land_ones by lia. unfold shl32.
    assert (0 <= b mod 2 ^ 5 < 32) by (apply Z.mod_pos_bound; lia).
    rewrite Z.shiftl_mul_pow2, Z.mul_1_l by lia. apply u32_small.
    split; [lia|]. apply Z.pow_lt_mono_r; lia. }
  assert (0 <= b mod 32 < 32) as Hm by (apply Z.mod_pos_bound; lia).
  assert (is_u32 (2 ^ (b mod 32))) as Hp by (split; [lia|apply Z.pow_lt_mono_r; lia]).
  destruct (Z.ltb_spec b 32), (Z.ltb_spec k 32); cbn [negb fst snd];
    (split; [word|split; [word|]]); rewrite ?Z.lor_spec, ?Z.pow2_bits_eqb by lia.
  - f_equal. rewrite !Z.mod_small by lia. done.
  - rewrite (proj2 (Z.eqb_neq b k)), orb_false_r by lia. done.
  - rewrite (proj2 (Z.eqb_neq b k)), orb_false_r by lia. done.
  - f_equal. apply Bool.eq_iff_eq_true. rewrite !Z.eqb_eq. split; div_lia.
Qed.

Lemma mc_hash_list k l hi lo :
  0 <= k < 64 -> Forall (Forall is_u8) l -> is_u32 hi -> is_u32 lo ->
  let h := fold_left mc_hash l (hi, lo) in
  is_u32 h.1 /\ is_u32 h.2 /\
  Z.testbit (if k <? 32 then h.2 else h.1) (k mod 32)
  = Z.testbit (if k <? 32 then lo else hi) (k mod 32) || existsb (fun a => smsc911x_hash a =? k) l.
Proof.
  intros Hk Hl. revert hi lo. induction Hl as [|a l Ha Hl IH]; intros hi lo Hhi Hlo.
  { cbn [fold_left existsb fst snd]. by rewrite orb_false_r. }
  destruct (mc_hash_bit hi lo a k Hk Ha Hhi Hlo) as (H1 & H2 & E).
  cbn [fold_left existsb]. destruct (mc_hash (hi, lo) a) as [hi' lo']. cbn [fst snd] in *.
  destruct (IH hi' lo' H1 H2) as (H3 & H4 & E'). split; [done|split; [done|]].
  rewrite E', E. by rewrite orb_assoc.
Qed.

(** ** The update *)

(** The control register after an update, bit by bit. *)
Definition new_cr (p : smsc911x_data) (cr : Z) : Z :=
  Z.land (Z.lor cr (set_bits_mask p)) (not32 (clear_bits_mask p)).

Definition masks_ok (p : smsc911x_data) : Prop :=
  is_u32 (set_bits_mask p) /\ is_u32 (clear_bits_mask p) /\ is_u32 (hashhi p) /\ is_u32 (hashlo p).

Lemma chosen_masks n p : Forall (Forall is_u8) (mc_list n) -> chosen n p -> masks_ok p.
Proof.
  intros Hl. unfold chosen, masks_ok, filter_of.
  pose proof (mc_hash_list 0 (mc_list n) 0 0 ltac:(lia) Hl ltac:(done) ltac:(done)) as H.
  destruct (fold_left mc_hash (mc_list n) (0, 0)) as [hi lo]. destruct H as (H1 & H2 & _).
  repeat case_match; intros [= -> -> -> ->]; by split_and!.
Qed.

Lemma new_cr_bit n p cr k :
  chosen n p -> 0 <= k < 32 ->
  Z.testbit (new_cr p cr) k
  = if k =? 18 then has (dev_flags n) IFF_PROMISC
    else if k =? 19 then negb (has (dev_flags n) IFF_PROMISC) && has (dev_flags n) IFF_ALLMULTI
    else if k =? 13 then hashed n
    else Z.testbit cr k.
Proof.
  unfold chosen, new_cr, filter_of, hashed. intros Hp Hk.
  destruct (has (dev_flags n) IFF_PROMISC), (has (dev_flags n) IFF_ALLMULTI),
    (length (mc_list n) =? 0)%nat, (fold_left mc_hash (mc_list n) (0, 0)) as [hi lo];
    cbn [negb andb] in *; injection Hp as -> -> _ _;
    rewrite Z.land_spec, Z.lor_spec, not32_testbit by (done || lia);
    rewrite <- (Z2Nat.id k) by lia; assert (Z.to_nat k < 32)%nat as Hn by lia; revert Hn;
    generalize (Z.to_nat k) as j; clear k Hk; intros j Hj;
    do 32 (destruct j as [|j];
      [cbn; rewrite ?andb_true_r, ?orb_false_r, ?orb_true_r, ?andb_false_r; done|]); lia.
Qed.

(** The registers hold the filter of the device when the three mode bits are
    those of an update and the hash table is the chosen one. *)
Lemma filter_ok_intro n p cr r :
  Forall (Forall is_u8) (mc_list n) -> chosen n p ->
  (forall k, k <> 2 -> Z.testbit (r MAC_CR) k = Z.testbit (new_cr p cr) k) ->
  r HASHH = hashhi p -> r HASHL = hashlo p -> filter_ok n r.
Proof.
  intros Hl Hp Hcr Hh Hlo. unfold filter_ok.
  change MAC_CR_PRMS_ with (2 ^ 18). change MAC_CR_MCPAS_ with (2 ^ 19).
  change MAC_CR_HPFILT_ with (2 ^ 13).
  rewrite !has_bit, !Hcr, !(new_cr_bit n) by (done || lia).
  split_and!; [done..|]. intros k Hk. rewrite Hh, Hlo.
  destruct (mc_hash_list k (mc_list n) 0 0 Hk Hl ltac:(done) ltac:(done)) as (_ & _ & E).
  revert Hp. unfold chosen, filter_of, hashed.
  destruct (has (dev_flags n) IFF_PROMISC), (has (dev_flags n) IFF_ALLMULTI),
    (length (mc_list n) =? 0)%nat, (fold_left mc_hash (mc_list n) (0, 0)) as [hi lo];
    cbn [negb andb fst snd] in *; intros [= _ _ -> ->];
    try (destruct (k <? 32); apply Z.bits_0).
  rewrite E. by destruct (k <? 32); rewrite Z.bits_0.
Qed.

(** ** The filter as a state machine *)

Section Machine.
Context {D : Type} `{!Smsc D} (p0 : smsc911x_data) `{!MacChip D p0}.
Implicit Types s : dstate D.

(** The driver is idle and can talk to the chip. *)
Record idle s : Prop := {
  idle_ready : ready s;
  idle_mac : mac_lock (pd s) = false;
  idle_bus : config (pd s) = config p0 /\ ops (pd s) = ops p0;
  idle_csr : csr_busy (chip s) = 0%nat;
  idle_cr : is_u32 (mac_regs (chip s) MAC_CR);
  idle_rx : has (mac_regs (chip s) MAC_CR) MAC_CR_RXEN_ = (multicast_update_pending (pd s) =? 0) }.

(** The stack asks for another filter. *)
Definition configured (fl : Z) (mc : list (list Z)) s : dstate D :=
  with_nd s (set_mc_list mc (set_dev_flags fl (nd s))).

(** What can happen: a new filter is asked for, the receiver has stopped, the
    chip goes on without touching its MAC registers. *)
Inductive filter_step : dstate D -> dstate D -> Prop :=
  | step_configure s s' fl mc :
      Forall (Forall is_u8) mc ->
      smsc911x_set_multicast_list (configured fl mc s) = Ret tt s' -> filter_step s s'
  | step_rx_stop s s' : rx_stop s = Ret tt s' -> filter_step s s'
  | step_chip s d :
      csr_busy d = 0%nat -> mac_regs d = mac_regs (chip s) -> filter_step s (with_chip s d).

Record filtering s : Prop := {
  filtering_idle : idle s;
  filtering_list : Forall (Forall is_u8) (mc_list (nd s));
  filtering_chosen : chosen (nd s) (pd s);
  filtering_done : multicast_update_pending (pd s) = 0 -> filter_ok (nd s) (mac_regs (chip s)) }.

Lemma choose_filter_run s :
  exists p, choose_filter s = Ret tt (with_pd s p) /\ chosen (nd s) p /\
    dev_lock p = dev_lock (pd s) /\ mac_lock p = mac_lock (pd s) /\ config p = config (pd s) /\
    ops p = ops (pd s) /\ generation p = generation (pd s) /\
    multicast_update_pending p = multicast_update_pending (pd s).
Proof.
  unfold choose_filter, get_nd, chosen, filter_of. unfold mbind at 1, drv_bind at 1.
  destruct (has (dev_flags (nd s)) IFF_PROMISC), (has (dev_flags (nd s)) IFF_ALLMULTI),
    (length (mc_list (nd s)) =? 0)%nat, (fold_left mc_hash (mc_list (nd s)) (0, 0)) as [hi lo];
    cbn [negb]; (eexists; split; [reflexivity|]); by split_and!.
Qed.

Lemma update_spec s :
  ready s -> mac_lock (pd s) = true -> same_bus p0 s -> csr_busy (chip s) = 0%nat ->
  is_u32 (mac_regs (chip s) MAC_CR) -> masks_ok (pd s) ->
  crun smsc911x_rx_multicast_update s (fun _ d => csr_busy d = 0%nat /\
    mac_regs d MAC_CR = new_cr (pd s) (mac_regs (chip s) MAC_CR) /\
    mac_regs d HASHH = hashhi (pd s) /\ mac_regs d HASHL = hashlo (pd s)).
Proof.
  intros Hr Hl Hbus Hb Hcr (M1 & M2 & M3 & M4). unfold smsc911x_rx_multicast_update.
  do 2 crun_step. rewrite with_chip_id. apply crun_bind.
  eapply crun_mono; [by apply (mac_read_spec p0)|]. intros cr d1 (-> & Hb1 & Hg1).
  apply crun_get_pd. cbv zeta. cbn [pd with_chip]. fold (new_cr (pd s) (mac_regs (chip s) MAC_CR)).
  apply crun_bind. eapply crun_mono; [apply (mac_write_spec p0); try done|].
  { unfold new_cr. apply is_u32_land; [by apply is_u32_lor|by apply not32_u32]. }
  intros _ d2 (Hb2 & Hg2). cbn [chip with_chip] in Hg2.
  apply crun_bind. eapply crun_mono; [by apply (mac_write_spec p0)|].
  intros _ d3 (Hb3 & Hg3). cbn [chip with_chip] in Hg3.
  eapply crun_mono; [by apply (mac_write_spec p0)|].
  intros _ d4 (Hb4 & Hg4). cbn [chip with_chip] in Hg4.
  rewrite !Hg4, !Hg3, !Hg2 by done. done.
Qed.

Lemma idle_same_bus s p : config p = config p0 /\ ops p = ops p0 -> same_bus p0 (with_pd s p).
Proof. intros [Ec Eo] reg val d. by apply bus_same. Qed.

Lemma rxen_bit x : has x MAC_CR_RXEN_ = Z.testbit x 2.
Proof. change MAC_CR_RXEN_ with (2 ^ 2). by apply has_bit. Qed.

Lemma mac_regs_kept s d : with_chip (with_chip s (chip s)) d = with_chip s d.
Proof. done. Qed.

Lemma new_cr_rxen n p cr : chosen n p -> Z.testbit (new_cr p cr) 2 = Z.testbit cr 2.
Proof. intros Hp. by rewrite (new_cr_bit n) by (done || lia). Qed.

Lemma new_cr_u32 p cr : is_u32 cr -> masks_ok p -> is_u32 (new_cr p cr).
Proof.
  intros Hcr (M1 & M2 & _). apply is_u32_land; [by apply is_u32_lor|by apply not32_u32].
Qed.

(** The update from the interrupt handler installs the filter and starts the
    receiver again. *)
Lemma workaround_spec s :
  idle s -> Forall (Forall is_u8) (mc_list (nd s)) -> chosen (nd s) (pd s) ->
  wp smsc911x_rx_multicast_update_workaround (fun _ s' =>
    filtering s' /\ nd s' = nd s /\ multicast_update_pending (pd s') = 0) s.
Proof.
  intros [Hr Hl Hbus Hb Hcr Hrx] Hmc Hp. pose proof (chosen_masks _ _ Hmc Hp) as Hm.
  unfold smsc911x_rx_multicast_update_workaround. apply wp_bind, wp_lock_mac; [done|].
  assert (same_bus p0 (mac_locked s)) as Hsb by by apply idle_same_bus.
  apply wp_bind. eapply wp_crun; [by apply (mac_read_spec p0)|]. intros _ d1 (_ & Hb1 & Hg1).
  cbn [chip mac_locked with_pd] in Hg1.
  apply wp_bind. eapply wp_crun; [apply update_spec; try done; cbn [chip with_chip]; by rewrite Hg1|].
  intros _ d2 (Hb2 & E1 & E2 & E3). cbn [chip with_chip] in E1. rewrite Hg1 in E1.
  cbn [pd mac_locked with_pd with_chip] in E1, E2, E3.
  change (new_cr (set_mac_lock true (pd s))) with (new_cr (pd s)) in E1.
  apply wp_bind. eapply wp_crun; [by apply (mac_read_spec p0)|]. intros cr d3 (-> & Hb3 & Hg3).
  cbn [chip with_chip] in Hg3 |- *.
  assert (is_u32 (Z.lor (mac_regs d2 MAC_CR) MAC_CR_RXEN_)) as Hw.
  { rewrite E1. apply is_u32_lor; [by apply new_cr_u32|done]. }
  apply wp_bind. eapply wp_crun; [by apply (mac_write_spec p0)|]. intros _ d4 (Hb4 & Hg4).
  cbn [chip with_chip] in Hg4. apply wp_bind. unfold wp at 1, upd_pd. apply wp_unlock_mac; [done|].
  split; [|done].
  assert (mac_regs d4 MAC_CR = Z.lor (new_cr (pd s) (mac_regs (chip s) MAC_CR)) MAC_CR_RXEN_) as Ecr
    by (by rewrite Hg4, E1).
  assert (filter_ok (nd s) (mac_regs d4)) as Hf.
  { apply (filter_ok_intro _ (pd s) (mac_regs (chip s) MAC_CR)); [done|done| | |].
    - intros k Hk. rewrite Ecr, Z.lor_spec. change MAC_CR_RXEN_ with (2 ^ 2).
      destruct (decide (0 <= k)); [|by rewrite !Z.testbit_neg_r by lia].
      rewrite Z.pow2_bits_eqb, (proj2 (Z.eqb_neq 2 k)), orb_false_r by lia. done.
    - by rewrite Hg4, Hg3, E2 by done.
    - by rewrite Hg4, Hg3, E3 by done. }
  constructor; [|done|done|done].
  constructor; cbn [pd chip nd with_pd with_chip mac_locked]; [done|done|done|done| |].
  - rewrite Ecr. apply is_u32_lor; [by apply new_cr_u32|done].
  - rewrite Ecr, rxen_bit, Z.lor_spec, orb_true_r. done.
Qed.

Lemma start_update_spec s :
  ready s -> mac_lock (pd s) = true -> config (pd s) = config p0 /\ ops (pd s) = ops p0 ->
  csr_busy (chip s) = 0%nat -> is_u32 (mac_regs (chip s) MAC_CR) ->
  has (mac_regs (chip s) MAC_CR) MAC_CR_RXEN_ = (multicast_update_pending (pd s) =? 0) ->
  (1 < generation (pd s) -> multicast_update_pending (pd s) = 0) ->
  Forall (Forall is_u8) (mc_list (nd s)) -> chosen (nd s) (pd s) ->
  wp start_update (fun _ s' => nd s' = nd s /\ mac_lock (pd s') = true /\
    filtering (with_pd s' (set_mac_lock false (pd s'))) /\ generation (pd s') = generation (pd s) /\
    (1 < generation (pd s) -> multicast_update_pending (pd s') = 0)) s.
Proof.
  intros Hr Hl Hbus Hb Hcr Hrx Hg Hmc Hp. pose proof (chosen_masks _ _ Hmc Hp) as Hm.
  assert (same_bus p0 s) as Hsb by (intros reg val d; apply bus_same; apply Hbus).
  unfold start_update. apply wp_bind. unfold wp at 1, get_pd.
  destruct (Z.leb_spec (generation (pd s)) 1) as [Hgen|Hgen];
    [destruct (Z.eqb_spec (multicast_update_pending (pd s)) 0) as [E0|E0]|].
  - apply wp_bind. unfold wp at 1, upd_pd. set (s1 := with_pd s _).
    assert (same_bus p0 s1) as Hsb1 by by apply idle_same_bus.
    apply wp_bind. eapply wp_crun; [by apply (mac_read_spec p0)|]. intros cr d1 (-> & Hb1 & Hg1).
    cbn [chip with_chip s1 with_pd] in Hg1 |- *.
    assert (is_u32 (Z.land (mac_regs (chip s) MAC_CR) (not32 MAC_CR_RXEN_))) as Hw
      by (apply is_u32_land; [done|by apply not32_u32]).
    eapply wp_crun; [by apply (mac_write_spec p0)|]. intros _ d2 (Hb2 & Hg2).
    cbn [chip with_chip] in Hg2. split; [done|]. split; [done|]. split; [|split; [done|intros ?; lia]].
    constructor; [|done|done|done]. constructor; [done|done|done|done|..]; cbn [chip with_chip with_pd];
      rewrite Hg2, Z.eqb_refl by done; [done|].
    rewrite rxen_bit, Z.land_spec, not32_testbit by (done || lia). apply andb_false_r.
  - split; [done|]. split; [done|]. split; [|done]. constructor; [|done|done|done].
    constructor; try done. cbn [chip pd with_pd multicast_update_pending set_mac_lock].
    by rewrite Hrx, (proj2 (Z.eqb_neq _ 0) E0).
  - eapply wp_crun; [by apply update_spec|]. intros _ d (Hb1 & E1 & E2 & E3).
    split; [done|]. split; [done|]. split; [|split; [done|done]].
    constructor; [|done|done|].
    + constructor; [done|done|done|done|..];
        cbn [chip with_chip with_pd pd multicast_update_pending set_mac_lock]; rewrite E1.
      * by apply new_cr_u32.
      * by rewrite <- Hrx, !rxen_bit, (new_cr_rxen (nd s)).
    + intros _. apply (filter_ok_intro _ (pd s) (mac_regs (chip s) MAC_CR)); [done|done| |done|done].
      intros k _. by cbn [chip with_chip with_pd]; rewrite E1.
Qed.

(** The generation of the chip is fixed, and newer ones never wait. *)
Definition prompt s : Prop := 1 < generation (pd s) -> multicast_update_pending (pd s) = 0.

Lemma set_multicast_list_spec fl mc s :
  idle s -> prompt s -> Forall (Forall is_u8) mc ->
  wp smsc911x_set_multicast_list (fun _ s' => filtering s' /\ prompt s' /\
    nd s' = nd (configured fl mc s)) (configured fl mc s).
Proof.
  intros [Hr Hl Hbus Hb Hcr Hrx] Hpr Hmc. unfold smsc911x_set_multicast_list.
  destruct (choose_filter_run (configured fl mc s))
    as (p & E & Hp & E1 & E2 & E3 & E4 & E5 & E6).
  cbn [pd configured with_nd] in *.
  assert (ready (with_pd s p)) as Hr'.
  { destruct Hr as [H1 H2]. split; [cbn; congruence|]. unfold bus_ok, wide in *. cbn. by rewrite E3. }
  apply wp_bind. unfold wp at 1. rewrite E. apply wp_bind, wp_lock_mac; [cbn; congruence|].
  apply wp_bind. eapply wp_mono; [|apply start_update_spec; try done].
  - intros [] s' (En & Hl' & Hf & Eg & Hq). apply wp_unlock_mac; [done|].
    split; [done|]. split; [|done]. unfold prompt. cbn in *. congruence || (rewrite Eg; auto).
  - cbn. split; [rewrite E3|rewrite E4]; apply Hbus.
  - cbn. by rewrite E6.
  - cbn. by rewrite E5, E6.
Qed.

Lemma rx_stop_spec s :
  filtering s -> wp rx_stop (fun _ s' => filtering s' /\ nd s' = nd s /\
    multicast_update_pending (pd s') = 0) s.
Proof.
  intros [Hi Hmc Hp Hd]. unfold rx_stop. apply wp_bind. unfold wp at 1, get_pd.
  destruct (Z.eqb_spec (multicast_update_pending (pd s)) 0); [|by apply workaround_spec].
  by split; [constructor|].
Qed.

Lemma filter_step_keeps s s' :
  filter_step s s' -> filtering s /\ prompt s -> filtering s' /\ prompt s'.
Proof.
  intros Hs [Hf Hp]. destruct Hs as [s s' fl mc Hmc E|s s' E|s d Hb Hg].
  - pose proof (set_multicast_list_spec fl mc s (filtering_idle _ Hf) Hp Hmc) as H.
    unfold wp in H. rewrite E in H. tauto.
  - pose proof (rx_stop_spec s Hf) as H. unfold wp in H. rewrite E in H.
    destruct H as (H1 & _ & H2). split; [done|]. by intros _.
  - split; [|done]. destruct Hf as [[]]. constructor; [constructor|..]; cbn; try done; by rewrite Hg.
Qed.

(** C19: the multicast filter converges to what was asked for last.  Start from
    an idle driver with the receiver on and ask for a filter; then let requests,
    "receiver stopped" interrupts and chip activity follow in any order and
    number.  In every state that is reached: if no update is pending, the mode
    bits and the 64-bit hash table are exactly those of the flags and the
    address list last asked for; the receiver is off exactly while an update is
    pending; every further request returns; and the "receiver stopped" handler
    returns with the filter installed and the receiver on. *)
Theorem multicast_filter_converges s0 fl mc s1 s :
  idle s0 -> multicast_update_pending (pd s0) = 0 -> Forall (Forall is_u8) mc ->
  smsc911x_set_multicast_list (configured fl mc s0) = Ret tt s1 -> rtc filter_step s1 s ->
  (multicast_update_pending (pd s) = 0 -> filter_ok (nd s) (mac_regs (chip s))) /\
  has (mac_regs (chip s) MAC_CR) MAC_CR_RXEN_ = (multicast_update_pending (pd s) =? 0) /\
  (forall fl' mc', Forall (Forall is_u8) mc' ->
     exists s', smsc911x_set_multicast_list (configured fl' mc' s) = Ret tt s' /\ filter_step s s') /\
  exists s', rx_stop s = Ret tt s' /\ nd s' = nd s /\ filter_ok (nd s') (mac_regs (chip s')) /\
    has (mac_regs (chip s') MAC_CR) MAC_CR_RXEN_ = true.
Proof.
  intros Hi Hpend Hmc E Hsteps.
  assert (filtering s1 /\ prompt s1) as H1.
  { pose proof (set_multicast_list_spec fl mc s0 Hi ltac:(by intros _) Hmc) as H.
    unfold wp in H. rewrite E in H. tauto. }
  assert (filtering s /\ prompt s) as [Hf Hp].
  { revert H1. clear -Hsteps. induction Hsteps as [s|s t u Hst _ IH]; intros H; [done|].
    by apply IH, (filter_step_keeps s t). }
  split_and!; [by apply filtering_done|apply Hf| |].
  - intros fl' mc' Hmc'. pose proof (set_multicast_list_spec fl' mc' s (filtering_idle _ Hf) Hp Hmc') as H.
    apply wp_run in H as ([] & s' & E' & _). exists s'. split; [done|]. by eapply step_configure.
  - pose proof (rx_stop_spec s Hf) as H. apply wp_run in H as ([] & s' & E' & Hf' & En & Hz).
    exists s'. destruct Hf' as [Hi' _ _ Hd']. split_and!; [done|done|by apply Hd'|].
    by rewrite (idle_rx _ Hi'), Hz.
Qed.
End Machine.

(** An older chip, idle with its receiver on, asked for two addresses. *)
Definition filter_demo_state : dstate mac_demo :=
  mk_dstate (mk_mac_demo (fun r => if r =? MAC_CR then MAC_CR_RXEN_ else 0) 0 0)
    (set_generation 1 (demo_pdata SMSC911X_USE_32BIT)) demo_netdev 0 [].
Definition filter_demo_list : list (list Z) :=
  [[0x01; 0x00; 0x5e; 0x00; 0x00; 0x01]; [0x01; 0x00; 0x5e; 0x00; 0x00; 0xfb]].
Definition filter_demo_asked : dstate mac_demo :=
  match @smsc911x_set_multicast_list _ mac_demo_chip (configured 0 filter_demo_list filter_demo_state) with
  | Ret _ s => s
  | Stop _ => filter_demo_state
  end.

Lemma multicast_filter_converges_witness :
  multicast_update_pending (pd filter_demo_asked) = 1 /\
  exists s', @rx_stop _ mac_demo_chip filter_demo_asked = Ret tt s' /\
    filter_ok (nd s') (m_regs (chip s')).
Proof.
  split; [vm_compute; reflexivity|].
  destruct (@multicast_filter_converges _ mac_demo_chip demo_bus mac_demo_protocol
    filter_demo_state 0 filter_demo_list filter_demo_asked filter_demo_asked)
    as (_ & _ & _ & s' & E & _ & Hf & _).
  - constructor; try reflexivity.
    + split; [reflexivity|left; reflexivity].
    + split; reflexivity.
    + split; vm_compute; congruence.
  - reflexivity.
  - repeat constructor; vm_compute; congruence.
  - vm_compute. reflexivity.
  - apply rtc_refl.
  - exists s'. split; [exact E|exact Hf].
Defined.
