(* ===== verification/SmscTx.v ===== *)
(** * The network driver: transmission and counters
    (smsc911x.c 653-675, 1103-1193, 1695-1754)

    Status words, the transmit and receive counters, discarding a packet, and
    [smsc911x_hard_start_xmit].  A socket buffer is its memory area from [head]
    to [end], with the offset of the data and their length; [head] is aligned to
    a cache line, so that offsets and addresses agree modulo 4. *)

From S2P Require Import Prelude SmscDefs SmscIo SmscMac SmscRun.

Record sk_buff := mk_skb { area : list Z; data : Z; len : Z }.

Definition NETDEV_TX_OK : Z := 0.

(** The words in a memory area that starts at an aligned address. *)
Fixpoint le_words (bs : list Z) : list Z :=
  match bs with
  | b0 :: b1 :: b2 :: b3 :: bs => le_combine [b0; b1; b2; b3] :: le_words bs
  | _ => []
  end.

(** ** Counters *)

(** The body of the loop of [smsc911x_tx_update_txcounters]. *)
Definition count_tx (st : net_device_stats) (tx_stat : Z) : net_device_stats :=
  if has tx_stat 0x80000000 then st
  else
    let st := if has tx_stat TX_STS_ES_ then set_tx_errors (add32 (tx_errors st) 1) st
              else set_tx_bytes (add32 (tx_bytes st) (Z.shiftr tx_stat 16))
                     (set_tx_packets (add32 (tx_packets st) 1) st) in
    let st := if has tx_stat TX_STS_EXCESS_COL_
              then set_tx_aborted_errors (add32 (tx_aborted_errors st) 1)
                     (set_collisions (add32 (collisions st) 16) st)
              else set_collisions (add32 (collisions st) (Z.land (Z.shiftr tx_stat 3) 0xf)) st in
    let st := if has tx_stat TX_STS_LOST_CARRIER_
              then set_tx_carrier_errors (add32 (tx_carrier_errors st) 1) st else st in
    if has tx_stat TX_STS_LATE_COL_
    then set_tx_aborted_errors (add32 (tx_aborted_errors st) 1)
           (set_collisions (add32 (collisions st) 1) st)
    else st.

(** [smsc911x_rx_counterrors] *)
Definition smsc911x_rx_counterrors (st : net_device_stats) (rxstat : Z) : net_device_stats :=
  let '(st, crc_err) :=
    if has rxstat RX_STS_ES_ then
      let st := set_rx_errors (add32 (rx_errors st) 1) st in
      if has rxstat RX_STS_CRC_ERR_ then (set_rx_crc_errors (add32 (rx_crc_errors st) 1) st, true)
      else (st, false)
    else (st, false) in
  if crc_err then st
  else
    let st := if has rxstat RX_STS_FRAME_TYPE_ && has rxstat RX_STS_LENGTH_ERR_
              then set_rx_length_errors (add32 (rx_length_errors st) 1) st else st in
    if has rxstat RX_STS_MCAST_ then set_multicast (add32 (multicast st) 1) st else st.

Section Tx.
Context {D : Type} `{!Smsc D}.

Definition upd_stats (f : net_device_stats -> net_device_stats) : drv D unit :=
  upd_nd (fun n => set_stats (f (stats n)) n).

(** [smsc911x_tx_get_txstatus] *)
Definition smsc911x_tx_get_txstatus : drv D Z :=
  result ← smsc911x_reg_read TX_FIFO_INF;
  let result := Z.land result TX_FIFO_INF_TSUSED_ in
  if negb (result =? 0) then smsc911x_reg_read TX_STATUS_FIFO else mret result.

(** [smsc911x_rx_get_rxstatus] *)
Definition smsc911x_rx_get_rxstatus : drv D Z :=
  result ← smsc911x_reg_read RX_FIFO_INF;
  let result := Z.land result RX_FIFO_INF_RXSUSED_ in
  if negb (result =? 0) then smsc911x_reg_read RX_STATUS_FIFO else mret result.

(** [smsc911x_tx_get_txstatcount] *)
Definition smsc911x_tx_get_txstatcount : drv D Z :=
  v ← smsc911x_reg_read TX_FIFO_INF;
  mret (Z.shiftr (Z.land v TX_FIFO_INF_TSUSED_) 16).

(** [smsc911x_tx_update_txcounters]: the loop ends when the chip reports no more
    status words; with [fuel] turns used up it is still running. *)
Fixpoint smsc911x_tx_update_txcounters (fuel : nat) : drv D unit :=
  match fuel with
  | O => halt Hang
  | S n =>
      tx_stat ← smsc911x_tx_get_txstatus;
      if tx_stat =? 0 then mret tt
      else _ ← upd_stats (fun st => count_tx st tx_stat); smsc911x_tx_update_txcounters n
  end.

(** The two loops of [smsc911x_rx_fastforward]. *)
Fixpoint ffwd_loop (timeout : nat) : drv D unit :=
  match timeout with
  | O => mret tt
  | S n =>
      _ ← udelay 1;
      val ← smsc911x_reg_read RX_DP_CTRL;
      if has val RX_DP_CTRL_RX_FFWD_ then ffwd_loop n else mret tt
  end.

Fixpoint drain_words (pktwords : nat) : drv D unit :=
  match pktwords with
  | O => mret tt
  | S n => _ ← smsc911x_reg_read RX_DATA_FIFO; drain_words n
  end.

Definition smsc911x_rx_fastforward (pktwords : Z) : drv D unit :=
  if 4 <=? pktwords then
    _ ← smsc911x_reg_write RX_DP_CTRL RX_DP_CTRL_RX_FFWD_;
    ffwd_loop 500
  else drain_words (Z.to_nat pktwords).

(** ** [smsc911x_hard_start_xmit] *)

Definition smsc911x_hard_start_xmit (fuel : nat) (skb : sk_buff) : drv D Z :=
  freespace ← smsc911x_reg_read TX_FIFO_INF;
  let freespace := Z.land freespace TX_FIFO_INF_TDFREE_ in
  let tx_cmd_a := shl32 (Z.land (data skb) 3) 16 in
  let tx_cmd_a := Z.lor tx_cmd_a (Z.lor TX_CMD_A_FIRST_SEG_ TX_CMD_A_LAST_SEG_) in
  let tx_cmd_a := Z.lor tx_cmd_a (len skb) in
  let tx_cmd_b := Z.lor (shl32 (len skb) 16) (len skb) in
  _ ← smsc911x_reg_write TX_DATA_FIFO tx_cmd_a;
  _ ← smsc911x_reg_write TX_DATA_FIFO tx_cmd_b;
  let bufp := Z.land (data skb) (not32 3) in
  let wrsz := Z.shiftr (add32 (add32 (len skb) 3) (Z.land (data skb) 3)) 2 in
  _ ← ops_tx_writefifo (le_words (drop (Z.to_nat bufp) (area skb))) wrsz;
  let freespace := sub32 freespace (add32 (len skb) 32) in
  count ← smsc911x_tx_get_txstatcount;
  _ ← (if 30 <=? count then smsc911x_tx_update_txcounters fuel else mret tt);
  _ ← (if freespace <? TX_FIFO_LOW_THRESHOLD then
         _ ← upd_nd (set_queue_stopped true);
         temp ← smsc911x_reg_read FIFO_INT;
         let temp := Z.lor (Z.land temp 0x00ffffff) 0x32000000 in
         smsc911x_reg_write FIFO_INT temp
       else mret tt);
  mret NETDEV_TX_OK.

(** [smsc911x_get_stats] *)
Definition smsc911x_get_stats (fuel : nat) : drv D net_device_stats :=
  _ ← smsc911x_tx_update_txcounters fuel;
  v ← smsc911x_reg_read RX_DROP;
  _ ← upd_stats (fun st => set_rx_dropped (add32 (rx_dropped st) v) st);
  n ← get_nd;
  mret (stats n).

End Tx.

(** ** Words and bytes *)

Lemma le_words_bytes bs :
  Forall is_u8 bs -> Nat.divide 4 (length bs) -> le_words bs ≫= le_split 4 = bs.
Proof.
  intros Hbs [k Hk]. revert bs Hbs Hk. induction k as [|k IH]; intros bs Hbs Hk.
  { by destruct bs. }
  do 4 (destruct bs as [|? bs]; [cbn in Hk; lia|]). cbn [le_words]. rewrite bind_cons.
  rewrite !List.Forall_cons_iff in Hbs. destruct Hbs as (H0 & H1 & H2 & H3 & Hbs).
  rewrite IH by (done || (cbn in Hk; lia)).
  pose proof (le_split_combine [z; z0; z1; z2]) as E. cbn [length] in E. rewrite E; [done|].
  rewrite !List.Forall_cons_iff. by split_and!.
Qed.

Lemma length_le_words bs : length (le_words bs) = (length bs / 4)%nat.
Proof.
  remember (length bs) as n eqn:En. revert bs En.
  induction (Nat.lt_wf_0 n) as [n _ IH]. intros bs ->.
  do 4 (destruct bs as [|? bs]; [done|]). cbn [le_words length].
  rewrite (IH (length bs)) by (done || (cbn; lia)).
  change (S (S (S (S (length bs))))) with (4 + length bs)%nat.
  pose proof (Nat.div_add_l 1 4 (length bs)) as E. rewrite Nat.mul_1_l in E. rewrite E by lia. done.
Qed.

Lemma take_le_words n bs : take n (le_words bs) = le_words (take (4 * n) bs).
Proof.
  revert bs. induction n as [|n IH]; intros bs; [done|].
  replace (4 * S n)%nat with (S (S (S (S (4 * n))))) by lia.
  do 4 (destruct bs as [|? bs]; [done|]). cbn [le_words take]. by rewrite IH.
Qed.

(** ** The transmit side of the chip *)

(** The words written to the data FIFO so far, the free space and the status
    words that wait, seen through the accesses of a driver with data [p]. *)
Class TxChip (D : Type) `{!Smsc D} (p : smsc911x_data) := {
  tx_words : D -> list Z;
  tx_free : D -> Z;
  tx_stats : D -> list Z;
  tx_inf d :
    (bus_read p TX_FIFO_INF d).1 = Z.of_nat (length (tx_stats d)) * 2 ^ 16 + tx_free d /\
    is_u16 (tx_free d) /\ (length (tx_stats d) < 256)%nat /\
    tx_words (bus_read p TX_FIFO_INF d).2 = tx_words d /\
    tx_stats (bus_read p TX_FIFO_INF d).2 = tx_stats d;
  tx_push d w :
    tx_words (bus_write p TX_DATA_FIFO w d) = tx_words d ++ [w] /\
    tx_stats (bus_write p TX_DATA_FIFO w d) = tx_stats d;
  tx_pop d w ws :
    tx_stats d = w :: ws ->
    (bus_read p TX_STATUS_FIFO d).1 = w /\ tx_stats (bus_read p TX_STATUS_FIFO d).2 = ws /\
    tx_words (bus_read p TX_STATUS_FIFO d).2 = tx_words d;
  tx_level d v :
    tx_words (bus_read p FIFO_INT d).2 = tx_words d /\
    tx_words (bus_write p FIFO_INT v d) = tx_words d /\
    tx_stats (bus_read p FIFO_INT d).2 = tx_stats d /\
    tx_stats (bus_write p FIFO_INT v d) = tx_stats d }.

(** The status words that the loop counts: a word of 0 ends it. *)
Fixpoint counted (l : list Z) : list Z :=
  match l with
  | [] => []
  | w :: l => if w =? 0 then [] else w :: counted l
  end.

Section TxSpec.
Context {D : Type} `{!Smsc D} (p : smsc911x_data) `{!TxChip D p}.
Implicit Types s : dstate D.

Lemma tx_used d :
  Z.land (bus_read p TX_FIFO_INF d).1 TX_FIFO_INF_TSUSED_
  = Z.of_nat (length (tx_stats d)) * 2 ^ 16 /\
  Z.land (bus_read p TX_FIFO_INF d).1 TX_FIFO_INF_TDFREE_ = tx_free d.
Proof.
  destruct (tx_inf d) as (-> & Hf & Hn & _). unfold is_word in Hf. split.
  - change TX_FIFO_INF_TSUSED_ with (Z.shiftl (Z.ones 8) 16). rewrite land_field by lia. div_lia.
  - change TX_FIFO_INF_TDFREE_ with (Z.ones 16). rewrite Z.land_ones by lia. div_lia.
Qed.

(** The next status word, or 0. *)
Lemma txstatus_spec s :
  ready s -> pd s = p ->
  exists d, smsc911x_tx_get_txstatus s = Ret (hd 0 (tx_stats (chip s))) (with_chip s d) /\
    tx_stats d = tail (tx_stats (chip s)) /\ tx_words d = tx_words (chip s).
Proof.
  intros Hr Hp. unfold smsc911x_tx_get_txstatus.
  unfold mbind, drv_bind. rewrite reg_read_run by apply Hr. rewrite Hp.
  destruct (tx_used (chip s)) as [-> _]. destruct (tx_inf (chip s)) as (_ & _ & _ & Ew & Es).
  set (d1 := (bus_read p TX_FIFO_INF (chip s)).2) in *.
  destruct (tx_stats (chip s)) as [|w ws] eqn:E; cbn [length].
  - exists d1. cbn. rewrite Es. done.
  - rewrite (proj2 (Z.eqb_neq _ 0)) by lia. cbn [negb].
    rewrite (reg_read_run _ (with_chip s d1)) by apply Hr. cbn [pd chip with_chip]. rewrite Hp.
    destruct (tx_pop d1 w ws) as (-> & E1 & E2); [done|].
    eexists. split; [reflexivity|]. cbn. split; [done|congruence].
Qed.

Lemma update_txcounters_spec fuel s :
  ready s -> pd s = p -> (length (tx_stats (chip s)) < fuel)%nat ->
  exists d, smsc911x_tx_update_txcounters fuel s
    = Ret tt (with_nd (with_chip s d)
        (set_stats (foldl count_tx (stats (nd s)) (counted (tx_stats (chip s)))) (nd s))) /\
    tx_words d = tx_words (chip s).
Proof.
  revert s. induction fuel as [|n IH]; intros s Hr Hp Hn; [lia|].
  cbn [smsc911x_tx_update_txcounters]. destruct (txstatus_spec s Hr Hp) as (d & E & Es & Ew).
  unfold mbind, drv_bind. rewrite E.
  destruct (tx_stats (chip s)) as [|w ws] eqn:El; cbn [hd counted foldl].
  { exists d. split; [|done]. cbn. by destruct s as [? ? [] ? ?]. }
  cbn [tail] in Es. destruct (w =? 0).
  { exists d. split; [|done]. cbn. by destruct s as [? ? [] ? ?]. }
  unfold upd_stats, upd_nd.
  destruct (IH (with_nd (with_chip s d) (set_stats (count_tx (stats (nd s)) w) (nd s))))
    as (d' & E' & Ew'); 
    [done|done|cbn [chip with_nd with_chip]; rewrite Es; cbn [length] in Hn; lia|].
  cbn [chip with_nd with_chip] in Ew', E'. exists d'. split; [|congruence].
  cbn [nd with_chip]. rewrite E'. rewrite Es. by destruct s as [? ? [] ? ?].
Qed.


(** ** Transmission *)

(** A socket buffer: bytes in a memory area whose end is aligned
    ([SKB_DATA_ALIGN]), and a frame that fits the size field of the command. *)
Record skb_ok (skb : sk_buff) : Prop := {
  skb_bytes : Forall is_u8 (area skb);
  skb_align : Nat.divide 4 (length (area skb));
  skb_data : 0 <= data skb;
  skb_len : 0 <= len skb < 2048;
  skb_end : data skb + len skb <= Z.of_nat (length (area skb)) < 2 ^ 31 }.

(** The bytes of the frame. *)
Definition payload (skb : sk_buff) : list Z :=
  take (Z.to_nat (len skb)) (drop (Z.to_nat (data skb)) (area skb)).

(** How the chip reads a buffer: the size in bits 0 to 10 of the first command
    word, the offset of the first byte in bits 16 to 20. *)
Definition tx_frame (cmd_a : Z) (ws : list Z) : list Z :=
  take (Z.to_nat (Z.land cmd_a 0x7ff))
    (drop (Z.to_nat (Z.shiftr (Z.land cmd_a 0x1f0000) 16)) (ws ≫= le_split 4)).

Lemma land_3 x : 0 <= x -> Z.land x 3 = x mod 4.
Proof. intros Hx. change 3 with (Z.ones 2). by rewrite Z.land_ones by lia. Qed.

Lemma land_not3 x : 0 <= x < 2 ^ 32 -> Z.land x (not32 3) = x - x mod 4.
Proof.
  intros Hx. change (not32 3) with (Z.shiftl (Z.ones 30) 2).
  rewrite land_field by lia. div_lia.
Qed.

(** The first command word, as a sum of its fields. *)
Lemma tx_cmd_a_fields o n :
  0 <= o < 4 -> 0 <= n < 2048 ->
  let a := Z.lor (Z.lor (shl32 o 16) (Z.lor TX_CMD_A_FIRST_SEG_ TX_CMD_A_LAST_SEG_)) n in
  a = o * 2 ^ 16 + 0x3000 + n /\ Z.land a 0x7ff = n /\ Z.shiftr (Z.land a 0x1f0000) 16 = o /\
  has a TX_CMD_A_FIRST_SEG_ = true /\ has a TX_CMD_A_LAST_SEG_ = true.
Proof.
  intros Ho Hn a.
  assert (a = o * 2 ^ 16 + 0x3000 + n) as E.
  { unfold a, shl32. change (Z.lor TX_CMD_A_FIRST_SEG_ TX_CMD_A_LAST_SEG_) with (Z.shiftl 3 12).
    rewrite u32_small by (rewrite Z.shiftl_mul_pow2 by lia; unfold is_word; lia).
    change 16 with (4 + 12). rewrite <- Z.shiftl_shiftl, <- Z.shiftl_lor by lia.
    rewrite !lor_shiftl_add by (unfold is_word; lia). lia. }
  rewrite E. split; [done|].
  change 0x7ff with (Z.ones 11). change 0x1f0000 with (Z.shiftl (Z.ones 5) 16).
  rewrite Z.land_ones, land_field, Z.shiftr_div_pow2 by lia.
  change TX_CMD_A_FIRST_SEG_ with (2 ^ 13). change TX_CMD_A_LAST_SEG_ with (2 ^ 12).
  rewrite !has_bit by lia. rewrite !Z.testbit_true by lia. split_and!; div_lia.
Qed.

(** The words that cover the frame, and where they come from. *)
Lemma frame_words skb :
  skb_ok skb ->
  let o := data skb mod 4 in
  let n := Z.to_nat (Z.shiftr (add32 (add32 (len skb) 3) o) 2) in
  let ws := le_words (drop (Z.to_nat (data skb - o)) (area skb)) in
  (n <= length ws)%nat /\
  take (Z.to_nat (len skb)) (drop (Z.to_nat o) (take n ws ≫= le_split 4)) = payload skb.
Proof.
  intros [Hb [k Hk] Hd Hl He] o n ws.
  assert (0 <= o < 4) as Ho by (apply Z.mod_pos_bound; lia).
  assert (data skb - o = 4 * (data skb / 4)) as Hq by (unfold o; div_lia).
  assert (n = Z.to_nat ((len skb + 3 + o) / 4)) as En.
  { unfold n, add32. rewrite !u32_small by (rewrite ?u32_small; unfold is_word; lia).
    by rewrite Z.shiftr_div_pow2 by lia. }
  set (m := Z.to_nat (data skb - o)) in *.
  assert (4 * n + m <= length (area skb))%nat as Hfit by (rewrite En; unfold m; div_lia).
  assert (length ws = (k - Z.to_nat (data skb / 4)))%nat as Lw.
  { unfold ws. rewrite length_le_words, length_drop, Hk.
    replace (k * 4 - m)%nat with ((k - Z.to_nat (data skb / 4)) * 4)%nat by (unfold m; lia).
    by apply Nat.div_mul. }
  split; [rewrite Lw; unfold m in Hfit; lia|].
  unfold ws. rewrite take_le_words, le_words_bytes.
  - unfold payload. replace (4 * n)%nat with (Z.to_nat o + (4 * n - Z.to_nat o))%nat
      by (rewrite En; div_lia).
    rewrite <- take_drop_commute, take_take, drop_drop. f_equal; [rewrite En; div_lia|].
    f_equal. unfold m. lia.
  - by apply Forall_take, Forall_drop.
  - exists n. rewrite length_take, length_drop. lia.
Qed.

Lemma push_words ws d :
  tx_words (push_fifo p ws d) = tx_words d ++ (fifo_word p <$> ws) /\
  tx_stats (push_fifo p ws d) = tx_stats d.
Proof.
  unfold push_fifo. revert d. induction ws as [|w ws IH]; intros d; cbn [foldl].
  { by rewrite app_nil_r. }
  destruct (IH (bus_write p TX_DATA_FIFO (fifo_word p w) d)) as [-> ->].
  destruct (tx_push d (fifo_word p w)) as [-> ->]. by rewrite <- app_assoc.
Qed.

(** What transmission has put on the chip, up to the counters. *)
Definition sent skb s s' : Prop := exists a b ws,
  tx_words (chip s') = tx_words (chip s) ++ [a; b] ++ (fifo_word p <$> ws) /\
  tx_frame a ws = payload skb /\ b = len skb * 2 ^ 16 + len skb /\
  has a TX_CMD_A_FIRST_SEG_ = true /\ has a TX_CMD_A_LAST_SEG_ = true.

Lemma statcount_run s :
  ready s -> pd s = p ->
  exists d, smsc911x_tx_get_txstatcount s = Ret (Z.of_nat (length (tx_stats (chip s)))) (with_chip s d) /\
    tx_words d = tx_words (chip s) /\ tx_stats d = tx_stats (chip s).
Proof.
  intros Hr Hp. unfold smsc911x_tx_get_txstatcount, mbind, drv_bind.
  rewrite reg_read_run by apply Hr. rewrite Hp. destruct (tx_used (chip s)) as [-> _].
  destruct (tx_inf (chip s)) as (_ & _ & _ & Ew & Es).
  eexists. split; [|by split]. rewrite Z.shiftr_div_pow2, Z.div_mul by lia. done.
Qed.

(** Counting when many status words wait, and stopping the queue when the FIFO
    runs low. *)
Definition tx_tail (fuel : nat) (freespace : Z) : drv D Z :=
  count ← smsc911x_tx_get_txstatcount;
  _ ← (if 30 <=? count then smsc911x_tx_update_txcounters fuel else mret tt);
  _ ← (if freespace <? TX_FIFO_LOW_THRESHOLD then
         _ ← upd_nd (set_queue_stopped true);
         temp ← smsc911x_reg_read FIFO_INT;
         let temp := Z.lor (Z.land temp 0x00ffffff) 0x32000000 in
         smsc911x_reg_write FIFO_INT temp
       else mret tt);
  mret NETDEV_TX_OK.

Lemma tx_tail_spec fuel freespace s :
  ready s -> pd s = p -> (length (tx_stats (chip s)) < fuel)%nat ->
  exists d, tx_tail fuel freespace s = Ret NETDEV_TX_OK (with_nd (with_chip s d)
    (let n := if 30 <=? Z.of_nat (length (tx_stats (chip s)))
              then set_stats (foldl count_tx (stats (nd s)) (counted (tx_stats (chip s)))) (nd s)
              else nd s in
     if freespace <? TX_FIFO_LOW_THRESHOLD then set_queue_stopped true n else n)) /\
    tx_words d = tx_words (chip s).
Proof.
  intros Hr Hp Hfuel. unfold tx_tail. destruct (statcount_run s Hr Hp) as (d1 & E1 & Ew1 & Es1).
  unfold mbind at 1, drv_bind at 1. rewrite E1. set (st := tx_stats (chip s)) in *.
  set (n := if 30 <=? Z.of_nat (length st) then _ else nd s).
  assert (exists d2, (if 30 <=? Z.of_nat (length st) then smsc911x_tx_update_txcounters fuel else mret tt)
            (with_chip s d1) = Ret tt (with_nd (with_chip s d2) n) /\ tx_words d2 = tx_words (chip s))
    as (d2 & E2 & Ew2).
  { unfold n. destruct (30 <=? Z.of_nat (length st)).
    - destruct (update_txcounters_spec fuel (with_chip s d1)) as (d2 & E2 & Ew2);
        [done|done|cbn [chip with_chip]; by rewrite Es1|].
      exists d2. cbn [chip with_chip] in E2, Ew2. rewrite Es1 in E2. split; [done|congruence].
    - exists d1. split; [by destruct s|done]. }
  unfold mbind at 1, drv_bind at 1. rewrite E2.
  destruct (freespace <? TX_FIFO_LOW_THRESHOLD); [|by exists d2].
  unfold mbind, drv_bind, upd_nd. rewrite reg_read_run by apply Hr.
  cbn [pd chip with_nd with_chip]. rewrite reg_write_run by apply Hr.
  cbn [pd chip with_nd with_chip]. rewrite Hp. set (v := Z.lor _ _).
  exists (bus_write p FIFO_INT v (bus_read p FIFO_INT d2).2). split; [done|].
  rewrite (proj1 (proj2 (tx_level _ _))), (proj1 (tx_level d2 0)). done.
Qed.

Lemma xmit_spec fuel skb s :
  ready s -> pd s = p -> skb_ok skb -> (length (tx_stats (chip s)) < fuel)%nat ->
  wp (smsc911x_hard_start_xmit fuel skb) (fun r s' =>
    r = NETDEV_TX_OK /\ sent skb s s' /\ pd s' = pd s /\ received s' = received s /\
    lock_warnings s' = lock_warnings s /\
    nd s' = (let n := if 30 <=? Z.of_nat (length (tx_stats (chip s)))
                      then set_stats (foldl count_tx (stats (nd s)) (counted (tx_stats (chip s)))) (nd s)
                      else nd s in
             if sub32 (tx_free (chip s)) (len skb + 32) <? TX_FIFO_LOW_THRESHOLD
             then set_queue_stopped true n else n)) s.
Proof.
  intros Hr Hp Hk Hfuel. pose proof Hk as [_ _ Hd Hl He].
  assert (0 <= data skb mod 4 < 4) as Ho by (apply Z.mod_pos_bound; lia).
  destruct (frame_words skb Hk) as [Hn Hpay]. cbv zeta in Hn, Hpay.
  destruct (tx_cmd_a_fields (data skb mod 4) (len skb) Ho Hl) as (_ & Ea & Eo & Ef & Elast).
  unfold smsc911x_hard_start_xmit. rewrite land_3, land_not3 by lia.
  assert (add32 (len skb) 32 = len skb + 32) as -> by (apply u32_small; unfold is_word; lia).
  set (cmd_a := Z.lor (Z.lor (shl32 _ 16) _) _) in *.
  set (ws := le_words _) in *. set (n := Z.shiftr _ 2) in *.
  set (st := tx_stats (chip s)) in *.
  apply wp_bind, wp_reg_read; [done|]. rewrite Hp.
  destruct (tx_used (chip s)) as [_ ->]. destruct (tx_inf (chip s)) as (_ & _ & _ & Ew1 & Es1).
  set (d1 := (bus_read p TX_FIFO_INF (chip s)).2) in *. cbv zeta.
  do 2 (apply wp_bind, wp_reg_write; [done|]). cbn [pd chip with_chip]. rewrite Hp.
  set (cmd_b := Z.lor (shl32 (len skb) 16) (len skb)).
  destruct (tx_push d1 cmd_a) as [Ew2 Es2]. set (d2 := bus_write p TX_DATA_FIFO cmd_a d1) in *.
  destruct (tx_push d2 cmd_b) as [Ew3 Es3]. set (d3 := bus_write p TX_DATA_FIFO cmd_b d2) in *.
  apply wp_bind. unfold wp at 1. rewrite tx_writefifo_run by (done || apply Hr).
  cbn [pd chip with_chip]. rewrite Hp.
  destruct (push_words (take (Z.to_nat n) ws) d3) as [Ew4 Es4].
  set (d4 := push_fifo p (take (Z.to_nat n) ws) d3) in *.
  match goal with |- wp ?m ?Q ?t =>
    change (wp (tx_tail fuel (sub32 (tx_free (chip s)) (len skb + 32))) Q (with_chip s d4)) end.
  assert (tx_stats d4 = st) as Es by (by rewrite Es4, Es3, Es2, Es1).
  destruct (tx_tail_spec fuel (sub32 (tx_free (chip s)) (len skb + 32)) (with_chip s d4))
    as (d5 & E5 & Ew5); [done|done|cbn [chip with_chip]; by rewrite Es|].
  cbn [chip with_chip nd] in E5, Ew5. rewrite Es in E5.
  unfold wp. rewrite E5. cbn [chip pd nd received lock_warnings with_nd with_chip].
  split_and!; [done| |done|done|done|done].
  exists cmd_a, cmd_b, (take (Z.to_nat n) ws). cbn [chip with_chip with_nd].
  split_and!; [|by unfold tx_frame; rewrite Ea, Eo| |done|done].
  - rewrite Ew5, Ew4, Ew3, Ew2, Ew1, <- !app_assoc. done.
  - unfold cmd_b, shl32. rewrite u32_small by (rewrite Z.shiftl_mul_pow2 by lia; unfold is_word; lia).
    apply lor_shiftl_add; [lia|unfold is_word; lia].
Qed.

(** C24: transmission hands the chip exactly the frame.  For a socket buffer of at
    most 2047 bytes the function returns [NETDEV_TX_OK]; what it adds to the data
    FIFO is one first-and-last segment whose two commands carry the length, and
    the chip's reading of the words that follow (size and start offset taken from
    the first command) is the bytes of the packet, whatever their alignment.  The
    queue is stopped exactly when the free space left, modulo 2^32, is below the
    threshold, and the counters are brought up to date when 30 status words
    wait; the private data do not change. *)
Theorem xmit_correct fuel skb s :
  ready s -> pd s = p -> skb_ok skb -> (length (tx_stats (chip s)) < fuel)%nat ->
  exists s', smsc911x_hard_start_xmit fuel skb s = Ret NETDEV_TX_OK s' /\ sent skb s s' /\
    pd s' = pd s /\
    queue_stopped (nd s')
    = (queue_stopped (nd s) || (sub32 (tx_free (chip s)) (len skb + 32) <? TX_FIFO_LOW_THRESHOLD)) /\
    stats (nd s') = (if 30 <=? Z.of_nat (length (tx_stats (chip s)))
                     then foldl count_tx (stats (nd s)) (counted (tx_stats (chip s)))
                     else stats (nd s)).
Proof.
  intros Hr Hp Hk Hfuel. pose proof (xmit_spec fuel skb s Hr Hp Hk Hfuel) as H.
  apply wp_run in H as (r & s' & E & -> & Hs & Ep & _ & _ & En). exists s'.
  split_and!; [done|done|done|..]; rewrite En; cbv zeta;
    destruct (sub32 _ _ <? _), (30 <=? _); cbn; by rewrite ?orb_true_r, ?orb_false_r.
Qed.

(** ** The space in the FIFO *)

(** The free space counts bytes: a word written to the data FIFO takes four of them,
    other accesses take none, and the chip may free space at any time.  A word for which
    there is no room is lost. *)
Class TxSpace := {
  tx_lost : D -> Z;
  space_push d w :
    tx_free d - 4 <= tx_free (bus_write p TX_DATA_FIFO w d) /\
    (4 <= tx_free d -> tx_lost (bus_write p TX_DATA_FIFO w d) = tx_lost d);
  space_read d reg : reg = TX_FIFO_INF \/ reg = TX_STATUS_FIFO \/ reg = FIFO_INT ->
    tx_free d <= tx_free (bus_read p reg d).2 /\ tx_lost (bus_read p reg d).2 = tx_lost d;
  space_level d v :
    tx_free d <= tx_free (bus_write p FIFO_INT v d) /\ tx_lost (bus_write p FIFO_INT v d) = tx_lost d }.

(** The queueing discipline hands packets to the driver for as long as the queue is not
    stopped; what is left is the result. *)
Fixpoint send_all (fuel : nat) (skbs : list sk_buff) : drv D (list sk_buff) :=
  match skbs with
  | [] => mret []
  | skb :: rest =>
      n ← get_nd;
      if queue_stopped n then mret skbs
      else _ ← smsc911x_hard_start_xmit fuel skb; send_all fuel rest
  end.

(** While the queue runs there is room for a packet. *)
Definition tx_room s : Prop := queue_stopped (nd s) = false -> TX_FIFO_LOW_THRESHOLD <= tx_free (chip s).

Section Space.
Context `{!TxSpace}.

(** From [d] to [d'] at most [n] bytes of space were taken, and no word was lost. *)
Definition takes (n : Z) (d d' : D) : Prop := tx_free d - n <= tx_free d' /\ tx_lost d' = tx_lost d.

Lemma takes_trans n m d d' d'' : takes n d d' -> takes m d' d'' -> takes (n + m) d d''.
Proof. intros [H1 E1] [H2 E2]. split; [lia|congruence]. Qed.

Lemma takes_push d w : 4 <= tx_free d -> takes 4 d (bus_write p TX_DATA_FIFO w d).
Proof. intros Hf. destruct (space_push d w) as [Hp E]. split; [done|auto]. Qed.

Lemma takes_words ws d :
  4 * Z.of_nat (length ws) <= tx_free d -> takes (4 * Z.of_nat (length ws)) d (push_fifo p ws d).
Proof.
  unfold push_fifo. revert d. induction ws as [|w ws IH]; intros d Hf; cbn [foldl length] in *.
  { split; [lia|done]. }
  destruct (takes_push d (fifo_word p w)) as [H1 E1]; [lia|].
  destruct (IH (bus_write p TX_DATA_FIFO (fifo_word p w) d)) as [H2 E2]; [lia|]. split; [lia|congruence].
Qed.

(** [m] writes no packet data: if it returns, the space is what it was or more. *)
Definition lossless {A} (m : drv D A) : Prop := forall s a s',
  ready s -> pd s = p -> m s = Ret a s' -> takes 0 (chip s) (chip s') /\ ready s' /\ pd s' = p.

Lemma lossless_bind {A B} (m : drv D A) (k : A -> drv D B) : lossless m -> (forall a, lossless (k a)) -> lossless (m ≫= k).
Proof.
  intros Hm Hk s b s' Hr Hp E. unfold mbind, drv_bind in E. destruct (m s) as [a s1|] eqn:E1; [|done].
  destruct (Hm s a s1 Hr Hp E1) as (T1 & R1 & P1). destruct (Hk a s1 b s' R1 P1 E) as (T2 & R2 & P2).
  split; [|done]. apply (takes_trans 0 0 _ _ _ T1 T2).
Qed.

Lemma lossless_ret {A} (a : A) : lossless (mret a).
Proof. intros s b s' Hr Hp [= <- <-]. by split; [split; [lia|done]|split]. Qed.

Lemma lossless_read reg : reg = TX_FIFO_INF \/ reg = TX_STATUS_FIFO \/ reg = FIFO_INT -> lossless (smsc911x_reg_read reg).
Proof.
  intros Hreg s a s' Hr Hp. rewrite reg_read_run by apply Hr. rewrite Hp. intros [= <- <-].
  destruct (space_read (chip s) reg Hreg). by split; [split; [cbn; lia|done]|split].
Qed.

Lemma lossless_level v : lossless (smsc911x_reg_write FIFO_INT v).
Proof.
  intros s a s' Hr Hp. rewrite reg_write_run by apply Hr. rewrite Hp. intros [= <- <-].
  destruct (space_level (chip s) v). by split; [split; [cbn; lia|done]|split].
Qed.

Lemma lossless_upd_nd f : lossless (upd_nd f).
Proof. intros s a s' Hr Hp [= <- <-]. by split; [split; [cbn; lia|done]|split]. Qed.

Lemma lossless_txcounters fuel : lossless (smsc911x_tx_update_txcounters fuel).
Proof.
  induction fuel as [|fuel IH]; [by intros s a s' _ _|]. cbn [smsc911x_tx_update_txcounters].
  apply lossless_bind.
  - apply lossless_bind; [apply lossless_read; auto|]. intros r. cbv beta zeta.
    destruct (negb _); [apply lossless_read; auto|apply lossless_ret].
  - intros t. destruct (t =? 0); [apply lossless_ret|]. apply lossless_bind; [apply lossless_upd_nd|]. by intros _.
Qed.

Lemma lossless_tail fuel freespace : lossless (tx_tail fuel freespace).
Proof.
  unfold tx_tail. apply lossless_bind.
  { apply lossless_bind; [apply lossless_read; auto|]. intros v. apply lossless_ret. }
  intros count. apply lossless_bind; [destruct (30 <=? count); [apply lossless_txcounters|apply lossless_ret]|]. intros _.
  apply lossless_bind; [|intros _; apply lossless_ret].
  destruct (freespace <? _); [|apply lossless_ret]. apply lossless_bind; [apply lossless_upd_nd|]. intros _.
  apply lossless_bind; [apply lossless_read; auto|]. intros v. apply lossless_level.
Qed.

(** A packet takes less than its length and the 32 bytes that the driver counts for the
    commands and the alignment. *)
Lemma xmit_takes fuel skb s r s' :
  ready s -> pd s = p -> skb_ok skb -> len skb + 32 <= tx_free (chip s) ->
  smsc911x_hard_start_xmit fuel skb s = Ret r s' ->
  takes (len skb + 32) (chip s) (chip s') /\ ready s' /\ pd s' = p.
Proof.
  intros Hr Hp Hk Hfree. pose proof Hk as [_ _ Hd Hl He].
  assert (0 <= data skb mod 4 < 4) as Ho by (apply Z.mod_pos_bound; lia).
  destruct (frame_words skb Hk) as [Hn _]. cbv zeta in Hn.
  unfold smsc911x_hard_start_xmit. rewrite land_3, land_not3 by lia.
  set (cmd_a := Z.lor (Z.lor (shl32 _ 16) _) _). set (ws := le_words _) in *. set (n := Z.shiftr _ 2) in *.
  assert (Z.of_nat (Z.to_nat n) = (len skb + 3 + data skb mod 4) / 4) as En.
  { unfold n, add32. rewrite !u32_small by (rewrite ?u32_small; unfold is_word; lia).
    rewrite Z.shiftr_div_pow2 by lia. change (2 ^ 2) with 4. rewrite Z2Nat.id; [done|]. apply Z.div_pos; lia. }
  unfold mbind at 1, drv_bind at 1. rewrite reg_read_run by apply Hr. cbv zeta.
  unfold mbind at 1, drv_bind at 1. rewrite (reg_write_run _ _ (with_chip s _)) by apply Hr.
  unfold mbind at 1, drv_bind at 1. rewrite (reg_write_run _ _ (with_chip (with_chip s _) _)) by apply Hr.
  cbn [pd chip with_chip]. rewrite Hp. set (cmd_b := Z.lor (shl32 (len skb) 16) (len skb)).
  unfold mbind at 1, drv_bind at 1. rewrite tx_writefifo_run by (done || apply Hr).
  cbn [pd chip with_chip]. rewrite Hp.
  set (d1 := (bus_read p TX_FIFO_INF (chip s)).2). set (d2 := bus_write p TX_DATA_FIFO cmd_a d1).
  set (d3 := bus_write p TX_DATA_FIFO cmd_b d2). set (d4 := push_fifo p _ d3).
  destruct (space_read (chip s) TX_FIFO_INF) as [F1 L1]; [auto|]. fold d1 in F1, L1.
  destruct (takes_push d1 cmd_a) as [F2 L2]; [lia|]. fold d2 in F2, L2.
  destruct (takes_push d2 cmd_b) as [F3 L3]; [lia|]. fold d3 in F3, L3.
  destruct (takes_words (take (Z.to_nat n) ws) d3) as [F4 L4]; [rewrite length_take_le by done; div_lia|].
  fold d4 in F4, L4. rewrite length_take_le in F4 by done.
  match goal with |- ?m = _ -> _ => intros E; change (tx_tail fuel (sub32 (Z.land (bus_read p TX_FIFO_INF (chip s)).1
    TX_FIFO_INF_TDFREE_) (add32 (len skb) 32)) (with_chip s d4) = Ret r s') in E end.
  destruct (lossless_tail _ _ (with_chip s d4) _ _ Hr Hp E) as ((F5 & L5) & R5 & P5). cbn [chip with_chip] in F5, L5.
  split; [|done]. split; [|congruence]. 
  assert (4 * ((len skb + 3 + data skb mod 4) / 4) <= len skb + 6) by div_lia. lia.
Qed.

(** C31: the queue discipline keeps the data FIFO from overflowing.  Let the chip account
    for its space as [TxSpace] says, start with room for a packet (the threshold of 1600
    bytes) whenever the queue runs, and hand the driver packets of at most 1518 bytes,
    any number of them, for as long as it has not stopped the queue.  Then every call
    returns, no word that the driver writes is lost for want of room, and
    the calls end when all packets are sent or the queue is stopped, again with room for
    a packet if the queue runs. *)
Theorem xmit_queue_bounds fuel skbs s :
  ready s -> pd s = p -> (256 <= fuel)%nat -> tx_room s ->
  Forall (fun skb => skb_ok skb /\ len skb <= 1518) skbs ->
  exists rest s', send_all fuel skbs s = Ret rest s' /\ tx_lost (chip s') = tx_lost (chip s) /\
    tx_room s' /\ (rest = [] \/ queue_stopped (nd s') = true) /\ rest `suffix_of` skbs.
Proof.
  intros Hr Hp Hfuel Hroom Hs. revert s Hr Hp Hroom.
  induction Hs as [|skb skbs [Hk Hlen] _ IH]; intros s Hr Hp Hroom; cbn [send_all].
  { exists [], s. split_and!; auto. }
  unfold mbind at 1, drv_bind at 1, get_nd. cbv beta iota.
  destruct (queue_stopped (nd s)) eqn:Eq; [exists (skb :: skbs), s; by split_and!; auto|].
  specialize (Hroom Eq). unfold TX_FIFO_LOW_THRESHOLD in Hroom. pose proof (tx_inf (chip s)) as (_ & Hf & Hst & _).
  pose proof (xmit_spec fuel skb s Hr Hp Hk ltac:(lia)) as Hx.
  apply wp_run in Hx as (r & s1 & E & _ & _ & _ & _ & _ & En).
  destruct (xmit_takes fuel skb s r s1 Hr Hp Hk ltac:(lia) E) as ((F1 & L1) & R1 & P1).
  unfold mbind, drv_bind. rewrite E. destruct (IH s1 R1 P1) as (rest & s' & Es & Ls & Rs & Hend & Hsuf).
  - intros Hq. revert Hq. rewrite En. cbv zeta. unfold sub32, TX_FIFO_LOW_THRESHOLD.
    rewrite u32_small by (destruct Hk; unfold is_word in *; lia).
    destruct (Z.ltb_spec (tx_free (chip s) - (len skb + 32)) 1600); [done|]. lia.
  - exists rest, s'. split_and!; [done|congruence|done|done|]. by apply suffix_cons_r.
Qed.

End Space.
End TxSpec.

(** ** A chip with a transmit side *)

Record tx_demo := mk_tx_demo { d_words : list Z; d_free : Z; d_stats : list Z; d_lost : Z }.

Definition tx_demo_read (o : Z) (d : tx_demo) : Z * tx_demo :=
  if o =? TX_FIFO_INF then
    (Z.of_nat (length (take 255 (d_stats d))) * 2 ^ 16 + u16 (d_free d), d)
  else if o =? TX_STATUS_FIFO then
    (hd 0 (d_stats d), mk_tx_demo (d_words d) (d_free d) (tail (take 255 (d_stats d))) (d_lost d))
  else (0, d).

Definition tx_demo_write (v o : Z) (d : tx_demo) : tx_demo :=
  if o =? TX_DATA_FIFO
  then mk_tx_demo (d_words d ++ [v]) (Z.max 0 (u16 (d_free d) - 4)) (d_stats d)
         (if u16 (d_free d) <? 4 then d_lost d + 1 else d_lost d)
  else d.

Definition tx_demo_chip : Smsc tx_demo := {|
  readl := tx_demo_read; writel := tx_demo_write;
  readw _ d := (0, d); writew _ _ d := d; chip_delay _ d := d |}.

Definition tx_demo_side : @TxChip tx_demo tx_demo_chip (demo_pdata SMSC911X_USE_32BIT).
Proof.
  refine (@Build_TxChip _ tx_demo_chip (demo_pdata SMSC911X_USE_32BIT) d_words
    (fun d => u16 (d_free d)) (fun d => take 255 (d_stats d)) _ _ _ _).
  - intros d. split; [reflexivity|]. split; [apply is_u16_u16|].
    split; [rewrite length_take; lia|done].
  - done.
  - intros d w ws E. split; [|split; [|done]].
    + change (hd 0 (d_stats d) = w). by destruct (d_stats d); [done|injection E].
    + change (take 255 (tail (take 255 (d_stats d))) = ws). rewrite E. cbn [tail].
      apply take_ge. assert (length (w :: ws) <= 255)%nat as Hl by (rewrite <- E, length_take; lia).
      cbn in Hl. lia.
  - done.
Defined.

Definition tx_demo_space : @TxSpace _ tx_demo_chip _ tx_demo_side.
Proof.
  refine (@Build_TxSpace _ tx_demo_chip _ tx_demo_side d_lost _ _ _).
  - intros d w. pose proof (is_u16_u16 (d_free d)) as Hf. unfold is_word in Hf. split.
    + change (u16 (d_free d) - 4 <= u16 (Z.max 0 (u16 (d_free d) - 4))).
      rewrite (u16_small (Z.max _ _)) by (unfold is_word; lia). lia.
    + intros H4. change ((if u16 (d_free d) <? 4 then d_lost d + 1 else d_lost d) = d_lost d).
      by rewrite (proj2 (Z.ltb_ge _ _)) by exact H4.
  - intros d reg [-> |[-> | ->]]; by split.
  - by split.
Defined.

(** A packet at an odd address; 34 status words wait, one of them an error. *)
Definition tx_demo_skb : sk_buff :=
  mk_skb ([9; 9; 9; 9; 9; 0xde; 0xad; 0xbe; 0xef; 1; 2; 3; 4; 9; 9; 9]) 5 8.
Definition tx_demo_state : dstate tx_demo :=
  mk_dstate (mk_tx_demo [] 1600 (0x00088000 :: replicate 33 0x00080000) 0)
    (demo_pdata SMSC911X_USE_32BIT) demo_netdev 0 [].

Lemma tx_demo_skb_ok : skb_ok tx_demo_skb.
Proof.
  constructor; [|by exists 4%nat|done|done|done].
  repeat constructor; vm_compute; congruence.
Qed.


Lemma xmit_correct_witness :
  exists s', @smsc911x_hard_start_xmit _ tx_demo_chip 256 tx_demo_skb tx_demo_state
             = Ret NETDEV_TX_OK s' /\ queue_stopped (nd s') = true.
Proof.
  destruct (@xmit_correct _ tx_demo_chip _ tx_demo_side 256 tx_demo_skb tx_demo_state)
    as (s' & H & _ & _ & Hq & _).
  - split; [reflexivity|left; reflexivity].
  - reflexivity.
  - exact tx_demo_skb_ok.
  - vm_compute. lia.
  - exists s'. split; [exact H|]. rewrite Hq. vm_compute. reflexivity.
Defined.

(** Room for two packets above the threshold: the third is left. *)
Definition tx_demo_running : dstate tx_demo :=
  mk_dstate (mk_tx_demo [] 1650 [] 0) (demo_pdata SMSC911X_USE_32BIT) (set_queue_stopped false demo_netdev) 0 [].

Lemma xmit_queue_bounds_witness :
  exists s', @send_all _ tx_demo_chip 256 (replicate 3 tx_demo_skb) tx_demo_running = Ret [tx_demo_skb] s' /\
    d_lost (chip s') = 0 /\ queue_stopped (nd s') = true /\ length (d_words (chip s')) = 10%nat.
Proof.
  destruct (@xmit_queue_bounds _ tx_demo_chip _ tx_demo_side tx_demo_space 256 (replicate 3 tx_demo_skb)
    tx_demo_running) as (rest & s' & E & L & _ & H & _).
  - split; [reflexivity|left; reflexivity].
  - reflexivity.
  - lia.
  - intros _. vm_compute. discriminate.
  - apply Forall_replicate. split; [exact tx_demo_skb_ok|vm_compute; discriminate].
  - assert (Er : match @send_all _ tx_demo_chip 256 (replicate 3 tx_demo_skb) tx_demo_running with
                 | Ret r s => (r, length (d_words (chip s))) | Stop _ => ([], 0%nat) end = ([tx_demo_skb], 10%nat))
      by (vm_compute; reflexivity).
    rewrite E in Er. injection Er as -> Ew. exists s'. split; [exact E|]. split; [exact L|].
    split; [|exact Ew]. destruct H as [H|H]; [discriminate H|exact H].
Defined.
