(* ===== verification/SmscPoll.v ===== *)
(** * The network driver: reception and the attestation reply
    (smsc911x.c 1195-1344; linux/net/ethernet/eth.c, net/core/skbuff.c)

    [smsc911x_poll]: it takes packets from the chip, answers a challenge packet
    in place and gives the others to the stack.  Memory outside the area of a
    socket buffer is not the driver's: an access there stops the run.  The code
    that computes the checksum is behind the interface [Attestation], the memory
    allocator behind [Allocator]. *)

From S2P Require Import Prelude SmscDefs SmscIo SmscMac SmscRun SmscTx.

Definition VET_ICMP_TYPE : Z := 0x02.
Definition ETH_HLEN : Z := 14.
Definition ETH_P_802_3 : Z := 0x0001.
Definition ETH_P_802_2 : Z := 0x0004.
(** [max(32, L1_CACHE_BYTES)], with lines of 64 bytes ([CONFIG_ARM_L1_CACHE_SHIFT]). *)
Definition NET_SKB_PAD : Z := 64.
Definition SKB_DATA_ALIGN (x : Z) : Z := Z.land (x + 63) (not32 63).
Definition htons (x : Z) : Z := Z.lor (Z.land (Z.shiftl x 8) 0xff00) (Z.shiftr x 8).
Definition ntohs (x : Z) : Z := htons x.

(** The allocator: the memory area of a new socket buffer, or nothing. *)
Class Allocator (D : Type) := alloc_area : Z -> D -> option (list Z) * D.

(** [swattARM(buf, 52)] and [swattARM_db_attack(buf, 52)] on the 64 words of
    [buf]; [None] if the code leaves its memory. *)
Class Attestation (D : Type) := attest : bool -> list Z -> D -> option (list Z * D).

(** ** [checksum] *)

(** The loop over 16-bit words, and the odd byte at the end. *)
Fixpoint sum16 (buf : list Z) (sum : Z) : Z :=
  match buf with
  | b0 :: b1 :: buf => sum16 buf (add32 sum (le_combine [b0; b1]))
  | [b0] => add32 sum b0
  | [] => sum
  end.

Definition checksum (buf : list Z) : Z :=
  let sum := sum16 buf 0 in
  let sum := add32 (Z.shiftr sum 16) (Z.land sum 0xffff) in
  let sum := add32 sum (Z.shiftr sum 16) in
  u16 (not32 sum).

(** ** Memory of a socket buffer *)

(** [n] bytes at [skb->data + off]. *)
Definition skb_load (off : Z) (n : nat) (skb : sk_buff) : option (list Z) :=
  if (0 <=? data skb + off) && (data skb + off + Z.of_nat n <=? Z.of_nat (length (area skb)))
  then Some (take n (drop (Z.to_nat (data skb + off)) (area skb))) else None.

Definition skb_store (off : Z) (bs : list Z) (skb : sk_buff) : option sk_buff :=
  if (0 <=? data skb + off) &&
     (data skb + off + Z.of_nat (length bs) <=? Z.of_nat (length (area skb)))
  then let i := Z.to_nat (data skb + off) in
       Some (mk_skb (take i (area skb) ++ bs ++ drop (i + length bs) (area skb)) (data skb) (len skb))
  else None.

(** [memcpy] between two places of the same buffer that exchanges them: both are
    read first. *)
Definition skb_swap (o1 o2 : Z) (n : nat) (skb : sk_buff) : option sk_buff :=
  a ← skb_load o1 n skb;
  b ← skb_load o2 n skb;
  skb ← skb_store o1 b skb;
  skb_store o2 a skb.

Section Poll.
Context {D : Type} `{!Smsc D} `{!Allocator D} `{!Attestation D}.

Definition mem {A} (o : option A) : drv D A :=
  match o with Some a => mret a | None => halt OutOfBounds end.

(** [netdev_alloc_skb]: the area has the headroom and is a whole number of cache
    lines. *)
Definition netdev_alloc_skb (length : Z) : drv D (option sk_buff) := fun s =>
  match alloc_area (SKB_DATA_ALIGN (length + NET_SKB_PAD)) (chip s) with
  | (Some a, d) => Ret (Some (mk_skb a NET_SKB_PAD 0)) (with_chip s d)
  | (None, d) => Ret None (with_chip s d)
  end.

Definition skb_reserve (n : Z) (skb : sk_buff) : sk_buff := mk_skb (area skb) (data skb + n) (len skb).

(** [skb_put]: the kernel panics when the tail passes the end; a count of more
    than 2^31 moves the tail, a 32-bit pointer, backwards. *)
Definition skb_put (n : Z) (skb : sk_buff) : drv D sk_buff :=
  if Z.of_nat (length (area skb)) <? data skb + len skb + s32 n then halt Bug
  else mret (mk_skb (area skb) (data skb) (add32 (len skb) n)).

(** [skb_push] *)
Definition skb_push (n : Z) (skb : sk_buff) : drv D sk_buff :=
  if data skb - n <? 0 then halt Bug
  else mret (mk_skb (area skb) (data skb - n) (len skb + n)).

(** [skb_pull_inline]: a buffer that is too short is left as it is. *)
Definition skb_pull_inline (n : Z) (skb : sk_buff) : sk_buff :=
  if len skb <? n then skb else mk_skb (area skb) (data skb + n) (len skb - n).

(** [eth_type_trans]: the buffer after the header, and the protocol as it is in
    memory.  The packet type, which only the stack looks at, is left out. *)
Definition eth_type_trans (skb : sk_buff) : drv D (sk_buff * Z) :=
  h_proto ← mem (skb_load 12 2 skb);
  let h_proto := le_combine h_proto in
  let skb := skb_pull_inline ETH_HLEN skb in
  if 1536 <=? ntohs h_proto then mret (skb, h_proto)
  else if 2 <=? len skb then
    w ← mem (skb_load 0 2 skb);
    if le_combine w =? 0xffff then mret (skb, htons ETH_P_802_3)
    else mret (skb, htons ETH_P_802_2)
  else mret (skb, htons ETH_P_802_2).

(** The exchange of the IP addresses and of the hardware addresses. *)
Definition turn_around (skb : sk_buff) : drv D sk_buff :=
  skb ← mem (skb_swap 12 16 4 skb);
  skb ← skb_push 14 skb;
  mem (skb_swap 0 6 6 skb).

(** The reply to a challenge, up to transmission. *)
Definition answer_challenge (skb : sk_buff) : drv D sk_buff :=
  buf ← mem (skb_load 24 256 skb);
  mode ← mem (skb_load 21 1 skb);
  buf ← (fun s => match attest (le_combine mode =? 0) (le_words buf) (chip s) with
                  | Some (b, d) => Ret b (with_chip s d)
                  | None => Stop OutOfBounds
                  end);
  skb ← mem (skb_store 24 (buf ≫= le_split 4) skb);
  skb ← mem (skb_store 22 (le_split 2 0) skb);
  icmp ← mem (skb_load 20 260 skb);
  skb ← mem (skb_store 22 (le_split 2 (checksum icmp)) skb);
  turn_around skb.

(** [skb->protocol == 0x08 && skb->data[9] == 0x01 && skb->data[20] == VET_ICMP_TYPE] *)
Definition is_challenge (protocol : Z) (skb : sk_buff) : drv D bool :=
  if protocol =? 0x08 then
    b9 ← mem (skb_load 9 1 skb);
    if le_combine b9 =? 0x01 then
      b20 ← mem (skb_load 20 1 skb);
      mret (le_combine b20 =? VET_ICMP_TYPE)
    else mret false
  else mret false.

Definition netif_receive_skb (skb : sk_buff) : drv D unit := fun s =>
  Ret tt (mk_dstate (chip s) (pd s) (nd s) (lock_warnings s) (received s ++ [payload skb])).

Definition napi_complete : drv D unit :=
  n ← get_nd;
  if napi_scheduled n then upd_nd (set_napi_scheduled false) else halt Bug.

(** The part of an iteration that has a buffer: read the packet into it, then
    answer it or hand it over. *)
Definition read_packet (pktlength pktwords : Z) (skb : sk_buff) : drv D sk_buff :=
  ws ← ops_rx_readfifo pktwords;
  skb ← mem (skb_store 0 (ws ≫= le_split 4) skb);
  let skb := skb_reserve NET_IP_ALIGN skb in
  skb_put (sub32 pktlength 4) skb.

Definition take_packet (fuel : nat) (pktlength pktwords : Z) (skb : sk_buff) : drv D unit :=
  skb ← read_packet pktlength pktwords skb;
  '(skb, protocol) ← eth_type_trans skb;
  c ← is_challenge protocol skb;
  _ ← (if c : bool then
         skb ← answer_challenge skb;
         _ ← smsc911x_hard_start_xmit fuel skb;
         mret tt
       else netif_receive_skb skb);
  _ ← upd_stats (fun st => set_rx_packets (add32 (rx_packets st) 1) st);
  upd_stats (fun st => set_rx_bytes (add32 (rx_bytes st) (sub32 pktlength 4)) st).

(** A packet that is thrown away. *)
Definition drop_packet (pktwords : Z) : drv D unit :=
  _ ← smsc911x_rx_fastforward pktwords;
  upd_stats (fun st => set_rx_dropped (add32 (rx_dropped st) 1) st).

(** No more packets: leave polling mode. *)
Definition finish_poll : drv D unit :=
  _ ← smsc911x_reg_write INT_STS INT_STS_RSFL_;
  _ ← napi_complete;
  temp ← smsc911x_reg_read INT_EN;
  smsc911x_reg_write INT_EN (Z.lor temp INT_EN_RSFL_EN_).

(** [while (npackets < budget)]; [n] turns are left. *)
Fixpoint poll_loop (fuel n : nat) (npackets : Z) : drv D Z :=
  match n with
  | O => mret npackets
  | S n =>
      rxstat ← smsc911x_rx_get_rxstatus;
      if rxstat =? 0 then _ ← finish_poll; mret npackets
      else
        let npackets := npackets + 1 in
        let pktlength := Z.shiftr (Z.land rxstat 0x3fff0000) 16 in
        let pktwords := Z.shiftr (add32 (add32 pktlength NET_IP_ALIGN) 3) 2 in
        _ ← upd_stats (fun st => smsc911x_rx_counterrors st rxstat);
        if has rxstat RX_STS_ES_ then
          _ ← drop_packet pktwords; poll_loop fuel n npackets
        else
          skb ← netdev_alloc_skb (shl32 pktwords 2);
          match skb with
          | None => _ ← drop_packet pktwords; mret npackets
          | Some skb => _ ← take_packet fuel pktlength pktwords skb; poll_loop fuel n npackets
          end
  end.

Definition smsc911x_poll (fuel : nat) (budget : Z) : drv D Z := poll_loop fuel (Z.to_nat budget) 0.

End Poll.

(** ** Loads and stores *)

Lemma skb_load_app a b c skb off :
  area skb = a ++ b ++ c -> data skb + off = Z.of_nat (length a) ->
  skb_load off (length b) skb = Some b.
Proof.
  intros Ea Ed. unfold skb_load. rewrite Ed, Ea, !length_app.
  rewrite (proj2 (Z.leb_le 0 _)), (proj2 (Z.leb_le _ _)) by lia. cbn [andb].
  by rewrite Nat2Z.id, drop_app_length, take_app_length.
Qed.

Lemma skb_store_app a b b' c skb off :
  area skb = a ++ b ++ c -> data skb + off = Z.of_nat (length a) -> length b' = length b ->
  skb_store off b' skb = Some (mk_skb (a ++ b' ++ c) (data skb) (len skb)).
Proof.
  intros Ea Ed El. unfold skb_store. rewrite Ed, Ea, !length_app, El.
  rewrite (proj2 (Z.leb_le 0 _)), (proj2 (Z.leb_le _ _)) by lia. cbn [andb].
  rewrite Nat2Z.id, take_app_length, <- drop_drop, drop_app_length, drop_app_length. done.
Qed.

Lemma skb_swap_app a b c d e skb o1 o2 :
  area skb = a ++ b ++ c ++ d ++ e -> data skb + o1 = Z.of_nat (length a) ->
  data skb + o2 = Z.of_nat (length (a ++ b ++ c)) -> length d = length b ->
  skb_swap o1 o2 (length b) skb = Some (mk_skb (a ++ d ++ c ++ b ++ e) (data skb) (len skb)).
Proof.
  intros Ea E1 E2 El. unfold skb_swap. rewrite (skb_load_app a b (c ++ d ++ e) skb o1), bind_Some_l by done.
  assert (area skb = (a ++ b ++ c) ++ d ++ e) as Ea' by (by rewrite Ea, <- !app_assoc).
  rewrite <- El at 1. rewrite (skb_load_app (a ++ b ++ c) d e skb o2), bind_Some_l by done.
  rewrite (skb_store_app a b d (c ++ d ++ e) skb o1), bind_Some_l by done.
  rewrite (skb_store_app (a ++ d ++ c) d b e); cbn [area data len];
    [by rewrite <- !app_assoc|by rewrite <- !app_assoc| |done].
  rewrite E2, !length_app. lia.
Qed.

(** ** The Internet checksum *)

(** The sum of the 16-bit words, without a bound. *)
Fixpoint sum_words (bs : list Z) : Z :=
  match bs with
  | b0 :: b1 :: bs => le_combine [b0; b1] + sum_words bs
  | [b0] => b0
  | [] => 0
  end.

Lemma two_step_ind {A} (P : list A -> Prop) :
  P [] -> (forall x, P [x]) -> (forall x y l, P l -> P (x :: y :: l)) -> forall l, P l.
Proof.
  intros H0 H1 H2. assert (forall l, P l /\ forall x, P (x :: l)) as H; [|apply H].
  induction l as [|x l [IH1 IH2]]; split; auto.
Qed.

Lemma sum_words_bound bs :
  Forall is_u8 bs -> 0 <= sum_words bs <= 0xffff * Z.of_nat (length bs).
Proof.
  induction bs as [|x|x y l IH] using two_step_ind; rewrite ?List.Forall_cons_iff; unfold is_word.
  - cbn. lia.
  - cbn. lia.
  - intros (Hx & Hy & Hl). specialize (IH Hl). cbn [sum_words le_combine length]. lia.
Qed.

Lemma sum16_sum bs sum :
  Forall is_u8 bs -> 0 <= sum -> sum + 0xffff * Z.of_nat (length bs) < 2 ^ 32 ->
  sum16 bs sum = sum + sum_words bs.
Proof.
  revert sum. induction bs as [|x|x y l IH] using two_step_ind; intros sum;
    rewrite ?List.Forall_cons_iff; unfold is_word; cbn [length].
  - cbn. lia.
  - intros [Hx _] Hs Hb. cbn. unfold add32. apply u32_small. unfold is_word. lia.
  - intros (Hx & Hy & Hl) Hs Hb. cbn [sum16 sum_words le_combine].
    assert (add32 sum (x + 2 ^ 8 * (y + 2 ^ 8 * 0)) = sum + (x + 2 ^ 8 * (y + 2 ^ 8 * 0))) as ->
      by (apply u32_small; unfold is_word; lia).
    rewrite IH by (done || lia). lia.
Qed.

(** The checksum is the one's complement of the sum. *)
Lemma checksum_spec bs :
  Forall is_u8 bs -> Z.of_nat (length bs) <= 65536 ->
  is_u16 (checksum bs) /\ (checksum bs + sum_words bs) mod 0xffff = 0.
Proof.
  intros Hb Hl. pose proof (sum_words_bound bs Hb) as Hs. unfold checksum.
  split; [apply is_u16_u16|]. rewrite sum16_sum, Z.add_0_l by (done || lia).
  revert Hs. generalize (sum_words bs) as v. intros v Hv.
  assert (0 <= v < 2 ^ 32) as Hv' by lia. clear Hv Hl.
  change (Z.land v 0xffff) with (Z.land v (Z.ones 16)). rewrite !Z.land_ones, !Z.shiftr_div_pow2 by lia.
  unfold add32, u32, u16, not32.
  rewrite (Z.mod_small (v / 2 ^ 16 + v mod 2 ^ 16)) by div_lia.
  set (w := v / 2 ^ 16 + v mod 2 ^ 16). assert (0 <= w <= 0x1fffe) as Hw by (unfold w; div_lia).
  assert (exists q, v = w + 0xffff * q) as [q Hq] by (exists (v / 2 ^ 16); unfold w; div_lia).
  rewrite (Z.mod_small (w + w / 2 ^ 16)) by div_lia. rewrite Hq. clearbody w. clear Hq Hv'.
  rewrite Z.add_assoc, (Z.mul_comm 0xffff q), Z.mod_add by lia.
  destruct (Z.ltb_spec w (2 ^ 16)).
  - rewrite (Z.div_small w) by lia.
    replace (2 ^ 32 - 1 - (w + 0)) with (0xffff - w + 0xffff * 2 ^ 16) by lia.
    rewrite (Z.mod_add (0xffff - w)), (Z.mod_small (0xffff - w)) by lia.
    replace (0xffff - w + w) with 0xffff by lia. done.
  - replace (w / 2 ^ 16) with 1 by div_lia.
    replace (2 ^ 32 - 1 - (w + 1)) with (2 * 0xffff - w + 0xfffe * 2 ^ 16) by lia.
    rewrite (Z.mod_add (2 * 0xffff - w)), (Z.mod_small (2 * 0xffff - w)) by lia.
    replace (2 * 0xffff - w + w) with (2 * 0xffff) by lia. done.
Qed.

(** ** The reply *)

Section Reply.
Context {D : Type} `{!Smsc D} `{!Allocator D} `{!Attestation D}.
Implicit Types s : dstate D.

Lemma mem_bind {A B} (o : option A) (a : A) (k : A -> drv D B) s :
  o = Some a -> (mem o ≫= k) s = k a s.
Proof. by intros ->. Qed.

(** The ICMP message of a reply: type, mode, checksum and the result. *)
Definition reply_body (ty md : Z) (ws : list Z) : list Z :=
  [ty; md] ++ le_split 2 (checksum ([ty; md; 0; 0] ++ (ws ≫= le_split 4))) ++ (ws ≫= le_split 4).

Lemma length_bytes (ws : list Z) : length (ws ≫= le_split 4) = (4 * length ws)%nat.
Proof.
  induction ws as [|w ws IH]; [done|]. rewrite bind_cons, length_app, length_le_split, IH. cbn. lia.
Qed.

Lemma bytes_u8 (ws : list Z) : Forall is_u8 (ws ≫= le_split 4).
Proof. induction ws as [|w ws IH]; [constructor|]. by apply Forall_app_2; [apply le_split_u8|]. Qed.

(** The checksum of the message is valid: its words add up to 0 in one's
    complement arithmetic. *)
Lemma reply_body_valid ty md ws :
  is_u8 ty -> is_u8 md -> length ws = 64%nat -> sum_words (reply_body ty md ws) mod 0xffff = 0.
Proof.
  intros Ht Hm Hl. unfold reply_body. set (b := ws ≫= le_split 4).
  destruct (checksum_spec ([ty; md; 0; 0] ++ b)) as [Hc Hsum].
  - repeat (constructor; [done|]). apply bytes_u8.
  - unfold b. rewrite length_app, length_bytes, Hl. cbn. lia.
  - set (c := checksum ([ty; md; 0; 0] ++ b)) in *.
    change (sum_words ([ty; md; 0; 0] ++ b))
      with (le_combine [ty; md] + (le_combine [0; 0] + sum_words b)) in Hsum.
    change (sum_words ([ty; md] ++ le_split 2 c ++ b))
      with (le_combine [ty; md] + (le_combine (le_split 2 c) + sum_words b)).
    rewrite (le_combine_split 2 c), (Z.mod_small c) by exact Hc.
    rewrite <- Hsum. f_equal. cbn [le_combine]. lia.
Qed.

Lemma turn_around_run pre dst src proto ip sip dip tl n s :
  length dst = 6%nat -> length src = 6%nat -> length proto = 2%nat -> length ip = 12%nat ->
  length sip = 4%nat -> length dip = 4%nat ->
  turn_around (mk_skb (pre ++ dst ++ src ++ proto ++ ip ++ sip ++ dip ++ tl)
                 (Z.of_nat (length pre) + 14) n) s
  = Ret (mk_skb (pre ++ src ++ dst ++ proto ++ ip ++ dip ++ sip ++ tl)
           (Z.of_nat (length pre)) (n + 14)) s.
Proof.
  intros L1 L2 L3 L4 L5 L6. unfold turn_around. set (front := pre ++ dst ++ src ++ proto ++ ip).
  rewrite (mem_bind _ (mk_skb (front ++ dip ++ sip ++ tl) (Z.of_nat (length pre) + 14) n)).
  2: { rewrite <- L5. rewrite (skb_swap_app front sip [] dip tl); [done|..];
         unfold front; cbn [area data]; rewrite ?length_app; cbn [length];
         [by rewrite <- !app_assoc|lia|lia|congruence]. }
  unfold skb_push. cbn [data area len]. rewrite Z.add_simpl_r.
  rewrite (proj2 (Z.ltb_ge _ 0)) by lia. unfold mbind, drv_bind, mret, drv_ret.
  rewrite <- L1. rewrite (skb_swap_app pre dst [] src (proto ++ ip ++ dip ++ sip ++ tl)); [done|..];
    unfold front; cbn [area data]; rewrite ?length_app; cbn [length];
    [by rewrite <- !app_assoc|lia|lia|congruence].
Qed.

Lemma answer_challenge_run pre dst src proto ip sip dip ty md c0 c1 body rest n ws d s :
  length dst = 6%nat -> length src = 6%nat -> length proto = 2%nat -> length ip = 12%nat ->
  length sip = 4%nat -> length dip = 4%nat -> length body = 256%nat ->
  attest (md =? 0) (le_words body) (chip s) = Some (ws, d) -> length ws = 64%nat ->
  answer_challenge
    (mk_skb (pre ++ dst ++ src ++ proto ++ ip ++ sip ++ dip ++ [ty; md; c0; c1] ++ body ++ rest)
       (Z.of_nat (length pre) + 14) n) s
  = Ret (mk_skb (pre ++ src ++ dst ++ proto ++ ip ++ dip ++ sip ++ reply_body ty md ws ++ rest)
           (Z.of_nat (length pre)) (n + 14)) (with_chip s d).
Proof.
  intros L1 L2 L3 L4 L5 L6 L7 Ha Lw. set (skb := mk_skb _ _ _).
  set (hdr := pre ++ dst ++ src ++ proto ++ ip ++ sip ++ dip).
  assert (Z.of_nat (length hdr) = Z.of_nat (length pre) + 34) as Lh
    by (unfold hdr; rewrite !length_app; lia).
  assert (area skb = hdr ++ [ty; md; c0; c1] ++ body ++ rest) as Ea
    by (unfold hdr, skb; cbn [area]; by rewrite <- !app_assoc).
  unfold answer_challenge. rewrite <- L7 at 1.
  rewrite (mem_bind _ body) by (apply (skb_load_app (hdr ++ [ty; md; c0; c1]) body rest);
    [by rewrite Ea, <- app_assoc|rewrite length_app; cbn; lia]).
  rewrite (mem_bind _ [md]) by (apply (skb_load_app (hdr ++ [ty]) [md] ([c0; c1] ++ body ++ rest));
    [by rewrite Ea, <- app_assoc|rewrite length_app; cbn; lia]).
  unfold mbind at 1, drv_bind at 1.
  replace (le_combine [md]) with md by (cbn; lia). rewrite Ha.
  set (b := ws ≫= le_split 4).
  assert (length b = 256%nat) as Lb by (unfold b; rewrite length_bytes; lia).
  rewrite (mem_bind _ (mk_skb (hdr ++ [ty; md; c0; c1] ++ b ++ rest) (data skb) n)).
  2: { rewrite (skb_store_app (hdr ++ [ty; md; c0; c1]) body b rest); [by rewrite <- app_assoc|..].
       - by rewrite Ea, <- app_assoc.
       - rewrite length_app. cbn. lia.
       - congruence. }
  set (dt := data skb).
  rewrite (mem_bind _ (mk_skb (hdr ++ [ty; md; 0; 0] ++ b ++ rest) dt n)).
  2: { rewrite (skb_store_app (hdr ++ [ty; md]) [c0; c1] [0; 0] (b ++ rest)); [by rewrite <- app_assoc|..].
       - by cbn [area]; rewrite <- app_assoc.
       - cbn [data]. rewrite length_app. cbn. lia.
       - done. }
  rewrite (mem_bind _ ([ty; md; 0; 0] ++ b)).
  2: { replace 260%nat with (length ([ty; md; 0; 0] ++ b)) by (rewrite length_app, Lb; done).
       apply (skb_load_app hdr _ rest); [by cbn [area]; rewrite <- app_assoc|cbn; lia]. }
  set (cs := le_split 2 (checksum ([ty; md; 0; 0] ++ b))).
  rewrite (mem_bind _ (mk_skb (hdr ++ [ty; md] ++ cs ++ b ++ rest) dt n)).
  2: { rewrite (skb_store_app (hdr ++ [ty; md]) [0; 0] cs (b ++ rest)); [by rewrite <- app_assoc|..].
       - by cbn [area]; rewrite <- app_assoc.
       - cbn [data]. rewrite length_app. cbn. lia.
       - done. }
  rewrite <- (turn_around_run pre dst src proto ip sip dip _ n) by done.
  unfold hdr. by rewrite <- !app_assoc.
Qed.

(** ** A packet in its buffer *)

Lemma read_packet_run a n x frame tl ws d s :
  ready s -> 0 <= n -> bus_reads (pd s) (Z.to_nat n) (chip s) = (ws, d) ->
  ws ≫= le_split 4 = x ++ frame ++ tl -> length x = 2%nat ->
  Z.of_nat (length frame) < 2 ^ 31 -> 64 + 4 * Z.of_nat (length ws) <= Z.of_nat (length a) ->
  read_packet (Z.of_nat (length frame) + 4) n (mk_skb a NET_SKB_PAD 0) s
  = Ret (mk_skb (take 64 a ++ x ++ frame ++ tl ++ drop (64 + 4 * length ws) a) 66
           (Z.of_nat (length frame))) (with_chip s d).
Proof.
  intros [Hl Hb] Hn Hw Hbytes Hx Hf Ha. unfold read_packet.
  unfold mbind at 1, drv_bind at 1. rewrite rx_readfifo_run by done. rewrite Hw. cbn [fst snd].
  pose proof (length_bytes ws) as Lb.
  set (r := drop (64 + 4 * length ws) a).
  rewrite (mem_bind _ (mk_skb (take 64 a ++ (ws ≫= le_split 4) ++ r) NET_SKB_PAD 0)).
  2: { rewrite (skb_store_app (take 64 a) (take (4 * length ws) (drop 64 a)) _ r); [done|..]; cbn [area data].
       - unfold r. rewrite <- drop_drop, take_drop, take_drop. done.
       - rewrite length_take. unfold NET_SKB_PAD. lia.
       - rewrite Lb, length_take, length_drop. lia. }
  unfold skb_put, skb_reserve. cbn [area data len].
  replace (sub32 (Z.of_nat (length frame) + 4) 4) with (Z.of_nat (length frame)).
  2: { unfold sub32, u32. rewrite Z.mod_small by lia. lia. }
  assert (s32 (Z.of_nat (length frame)) = Z.of_nat (length frame)) as ->
    by (unfold s32; by rewrite (proj2 (Z.ltb_lt _ _)) by lia).
  assert (length (x ++ frame ++ tl) = (4 * length ws)%nat) as Lx by congruence.
  rewrite !length_app in Lx. rewrite Hbytes.
  rewrite (proj2 (Z.ltb_ge _ _)).
  - unfold mret, drv_ret, add32. rewrite Z.add_0_l, u32_small by (unfold is_word; lia).
    by rewrite <- !app_assoc.
  - rewrite !length_app, length_take. unfold NET_SKB_PAD, NET_IP_ALIGN, r. rewrite length_drop. lia.
Qed.

Lemma eth_type_trans_ip pre addrs l n s :
  length addrs = 12%nat -> 14 <= n ->
  eth_type_trans (mk_skb (pre ++ addrs ++ [8; 0] ++ l) (Z.of_nat (length pre)) n) s
  = Ret (mk_skb (pre ++ addrs ++ [8; 0] ++ l) (Z.of_nat (length pre) + 14) (n - 14), 8) s.
Proof.
  intros La Hn. unfold eth_type_trans. rewrite (mem_bind _ [8; 0]).
  2: { apply (skb_load_app (pre ++ addrs) [8; 0] l); cbn [area data];
         [by rewrite <- app_assoc|rewrite length_app; lia]. }
  cbv zeta. change (1536 <=? ntohs (le_combine [8; 0])) with true. cbn iota.
  unfold skb_pull_inline. cbn [len area data]. rewrite (proj2 (Z.ltb_ge n ETH_HLEN)) by (unfold ETH_HLEN; lia).
  done.
Qed.

(** The header bytes that the driver looks at. *)
Lemma is_challenge_run pre l n b9 b20 s :
  l !! 9%nat = Some b9 -> l !! 20%nat = Some b20 ->
  is_challenge 8 (mk_skb (pre ++ l) (Z.of_nat (length pre)) n) s
  = Ret ((b9 =? 1) && (b20 =? VET_ICMP_TYPE)) s.
Proof.
  intros H9 H20. unfold is_challenge. cbn iota.
  assert (forall i b, l !! i = Some b ->
    skb_load (Z.of_nat i) 1 (mk_skb (pre ++ l) (Z.of_nat (length pre)) n) = Some [b]) as Hld.
  { intros i b Hi. apply (skb_load_app (pre ++ take i l) [b] (drop (S i) l)); cbn [area data].
    - rewrite <- app_assoc. f_equal. symmetry. by apply take_drop_middle.
    - apply lookup_lt_Some in Hi. rewrite length_app, length_take. lia. }
  change (8 =? 8) with true. cbn iota.
  rewrite (mem_bind _ [b9]) by (by apply (Hld 9%nat)).
  replace (le_combine [b9]) with b9 by (cbn; lia). destruct (b9 =? 1); [|done].
  rewrite (mem_bind _ [b20]) by (by apply (Hld 20%nat)).
  by replace (le_combine [b20]) with b20 by (cbn; lia).
Qed.

(** ** Challenges *)

(** An Ethernet frame with an IPv4 header of 20 bytes and a challenge message;
    [c_more] follows the 64 words of the message. *)
Record challenge := mk_challenge {
  c_dst : list Z; c_src : list Z; c_ip : list Z; c_sip : list Z; c_dip : list Z;
  c_mode : Z; c_sum0 : Z; c_sum1 : Z; c_body : list Z; c_more : list Z }.

Record challenge_ok (c : challenge) : Prop := {
  c_dst_len : length (c_dst c) = 6%nat;
  c_src_len : length (c_src c) = 6%nat;
  c_ip_len : length (c_ip c) = 12%nat;
  c_icmp : c_ip c !! 9%nat = Some 1;
  c_sip_len : length (c_sip c) = 4%nat;
  c_dip_len : length (c_dip c) = 4%nat;
  c_mode_u8 : is_u8 (c_mode c);
  c_body_len : length (c_body c) = 256%nat }.

Definition challenge_frame (c : challenge) : list Z :=
  c_dst c ++ c_src c ++ [8; 0] ++ c_ip c ++ c_sip c ++ c_dip c ++
  [VET_ICMP_TYPE; c_mode c; c_sum0 c; c_sum1 c] ++ c_body c ++ c_more c.

(** The frame that answers it with the words [ws]. *)
Definition reply_frame (c : challenge) (ws : list Z) : list Z :=
  c_src c ++ c_dst c ++ [8; 0] ++ c_ip c ++ c_dip c ++ c_sip c ++
  reply_body VET_ICMP_TYPE (c_mode c) ws ++ c_more c.

Lemma length_reply c ws :
  challenge_ok c -> length ws = 64%nat -> length (reply_frame c ws) = length (challenge_frame c).
Proof.
  intros [] Hw. unfold reply_frame, challenge_frame, reply_body.
  rewrite !length_app, length_le_split, length_bytes. cbn [length]. lia.
Qed.

(** The driver recognises the challenge and builds the reply. *)
Lemma challenge_reply_run c pre rest s ws d :
  challenge_ok c -> attest (c_mode c =? 0) (le_words (c_body c)) (chip s) = Some (ws, d) ->
  length ws = 64%nat ->
  exists skb,
    eth_type_trans (mk_skb (pre ++ challenge_frame c ++ rest) (Z.of_nat (length pre))
                      (Z.of_nat (length (challenge_frame c)))) s = Ret (skb, 8) s /\
    is_challenge 8 skb s = Ret true s /\
    answer_challenge skb s
    = Ret (mk_skb (pre ++ reply_frame c ws ++ rest) (Z.of_nat (length pre))
             (Z.of_nat (length (reply_frame c ws)))) (with_chip s d).
Proof.
  intros Hc Ha Hw. rewrite (length_reply c ws Hc Hw). destruct Hc as [L1 L2 L3 H9 L5 L6 Hm L7].
  set (n := Z.of_nat (length (challenge_frame c))).
  assert (14 <= n) as Hn by (unfold n, challenge_frame; rewrite !length_app; lia).
  unfold challenge_frame. rewrite <- !app_assoc.
  set (l := c_ip c ++ _). set (addrs := c_dst c ++ c_src c).
  replace (c_dst c ++ c_src c ++ [8; 0] ++ l) with (addrs ++ [8; 0] ++ l) by (unfold addrs; by rewrite <- app_assoc).
  eexists. split; [apply eth_type_trans_ip; [unfold addrs; rewrite length_app; lia|done]|].
  assert (l !! 9%nat = Some 1) as E9 by (unfold l; by rewrite lookup_app_l by lia).
  assert (l !! 20%nat = Some VET_ICMP_TYPE) as E20.
  { unfold l. rewrite !lookup_app_r by lia. rewrite L3, L5, L6. done. }
  set (hd := pre ++ addrs ++ [8; 0]).
  assert (mk_skb (pre ++ addrs ++ [8; 0] ++ l) (Z.of_nat (length pre) + 14) (n - 14)
          = mk_skb (hd ++ l) (Z.of_nat (length hd)) (n - 14)) as Eh.
  { unfold hd. rewrite <- !app_assoc. f_equal. unfold addrs. rewrite !length_app. cbn [length]. lia. }
  split; [rewrite Eh; by apply (is_challenge_run hd l _ 1 VET_ICMP_TYPE)|].
  unfold l, addrs. rewrite <- app_assoc.
  rewrite (answer_challenge_run pre (c_dst c) (c_src c) [8; 0] (c_ip c) (c_sip c) (c_dip c)
    VET_ICMP_TYPE (c_mode c) (c_sum0 c) (c_sum1 c) (c_body c) (c_more c ++ rest) (n - 14) ws d) by done.
  unfold reply_frame. rewrite Z.sub_add, <- !app_assoc. done.
Qed.

Lemma reply_bytes c ws :
  challenge_ok c -> Forall is_u8 (challenge_frame c) -> Forall is_u8 (reply_frame c ws).
Proof.
  intros Hc. unfold challenge_frame, reply_frame, reply_body. rewrite !Forall_app.
  intros (H1 & H2 & H3 & H4 & H5 & H6 & _ & H8 & H9).
  split_and!; try done; [|apply le_split_u8|apply bytes_u8].
  repeat constructor; [done..|apply Hc|apply Hc].
Qed.

Lemma reply_skb_ok a x tl c ws (bs : list Z) :
  challenge_ok c -> Forall is_u8 (challenge_frame c) -> Z.of_nat (length (challenge_frame c)) < 2048 ->
  Forall is_u8 bs -> bs = x ++ challenge_frame c ++ tl -> length x = 2%nat ->
  Forall is_u8 a -> Nat.divide 4 (length a) ->
  64 + Z.of_nat (length bs) <= Z.of_nat (length a) < 2 ^ 31 -> length ws = 64%nat ->
  skb_ok (mk_skb ((take 64 a ++ x) ++ reply_frame c ws ++ tl ++ drop (64 + length bs) a) 66
            (Z.of_nat (length (reply_frame c ws)))).
Proof.
  intros Hc Hu Hlen Hbs -> Hx Ha Hd Hal Hw. pose proof (length_reply c ws Hc Hw) as El.
  rewrite !Forall_app in Hbs. destruct Hbs as (Hbx & _ & Hbt).
  assert (length ((take 64 a ++ x) ++ reply_frame c ws ++ tl ++
      drop (64 + length (x ++ challenge_frame c ++ tl)) a) = length a) as Ea.
  { rewrite !length_app in *. rewrite length_take, length_drop, El. lia. }
  constructor; cbn [area data len].
  - rewrite !Forall_app. split_and!; auto using Forall_take, Forall_drop, reply_bytes.
  - by rewrite Ea.
  - done.
  - rewrite El. lia.
  - rewrite Ea, El. rewrite !length_app in Hal. lia.
Qed.

Lemma count_tx_rx l st : rx_packets (foldl count_tx st l) = rx_packets st.
Proof.
  revert st. induction l as [|w l IH]; intros st; [done|]. cbn [foldl]. rewrite IH.
  unfold count_tx. by repeat case_match.
Qed.

(** C4: a challenge is answered correctly.  Let the packet in the receive FIFO be
    a challenge of at most 2047 bytes and the buffer large enough for its words.
    Then the driver does not give it to the stack; it transmits one frame, in
    which the hardware addresses and the IP addresses are exchanged, the 64 words
    of the message are what the attestation code returned for them, the ICMP
    checksum is valid and everything else is as it came; and it counts the
    packet. *)
Theorem challenge_answered (p : smsc911x_data) `{!TxChip D p} fuel c a x tl ws rs d d' s :
  ready s -> pd s = p -> challenge_ok c -> Z.of_nat (length (challenge_frame c)) < 2048 ->
  Forall is_u8 (challenge_frame c) ->
  bus_reads p (length ws) (chip s) = (ws, d) ->
  ws ≫= le_split 4 = x ++ challenge_frame c ++ tl -> length x = 2%nat ->
  Forall is_u8 a -> Nat.divide 4 (length a) ->
  64 + 4 * Z.of_nat (length ws) <= Z.of_nat (length a) < 2 ^ 31 ->
  attest (c_mode c =? 0) (le_words (c_body c)) d = Some (rs, d') -> length rs = 64%nat ->
  Forall is_u32 rs -> (length (tx_stats d') < fuel)%nat ->
  exists s' cmd_a cmd_b out,
    take_packet fuel (Z.of_nat (length (challenge_frame c)) + 4) (Z.of_nat (length ws))
      (mk_skb a NET_SKB_PAD 0) s = Ret tt s' /\
    tx_words (chip s') = tx_words d' ++ [cmd_a; cmd_b] ++ (fifo_word p <$> out) /\
    tx_frame cmd_a out = reply_frame c rs /\
    sum_words (reply_body VET_ICMP_TYPE (c_mode c) rs) mod 0xffff = 0 /\
    received s' = received s /\ rx_packets (stats (nd s')) = add32 (rx_packets (stats (nd s))) 1.
Proof.
  intros Hr Hp Hc Hlen Hu8 Hrd Hby Hx Ha Hdiv Hal Hat Hrs Hru Hfuel.
  set (N := Z.of_nat (length (challenge_frame c))) in *.
  pose proof (read_packet_run a (Z.of_nat (length ws)) x (challenge_frame c) tl ws d s Hr) as E1.
  rewrite Nat2Z.id, Hp in E1. specialize (E1 ltac:(lia) Hrd Hby Hx ltac:(lia) ltac:(lia)).
  fold N in E1. set (pre := take 64 a ++ x).
  set (rest := tl ++ drop (64 + 4 * length ws) a) in *.
  assert (Z.of_nat (length pre) = 66) as Lpre by (unfold pre; rewrite length_app, length_take; lia).
  rewrite (app_assoc _ x) in E1. fold pre in E1. rewrite <- Lpre in E1.
  destruct (challenge_reply_run c pre rest (with_chip s d) rs d' Hc Hat Hrs)
    as (skb & E2 & E3 & E4). fold N in E2.
  set (reply := mk_skb (pre ++ reply_frame c rs ++ rest) _ _) in *.
  assert (skb_ok reply) as Hk.
  { unfold reply. rewrite Lpre. unfold pre, rest. rewrite <- length_bytes.
    apply (reply_skb_ok a x tl c rs (ws ≫= le_split 4)); try done; [apply bytes_u8|].
    rewrite length_bytes. lia. }
  pose proof (xmit_spec p fuel reply (with_chip s d') Hr Hp Hk Hfuel) as H5.
  apply wp_run in H5 as (r & s5 & E5 & -> & (cmd_a & cmd_b & out & W1 & W2 & _) & Ep & Er & _ & En).
  unfold take_packet, mbind, drv_bind. rewrite E1, E2, E3, E4.
  change (with_chip (with_chip s d) d') with (with_chip s d'). rewrite E5.
  eexists _, cmd_a, cmd_b, out. split; [reflexivity|].
  cbn [chip nd received with_nd with_chip] in *. split_and!; [done| |..].
  - rewrite W2. unfold payload, reply. cbn [area data len].
    by rewrite !Nat2Z.id, drop_app_length, take_app_length.
  - apply reply_body_valid; [done|apply Hc|done].
  - done.
  - cbn. rewrite En. cbv zeta. destruct (_ <? _), (30 <=? _); cbn; by rewrite ?count_tx_rx.
Qed.

(** C33: the length of a challenge is not checked.  A packet with the header of a
    challenge whose words fill at most 256 bytes, in the buffer that the driver
    asks the allocator for, makes the copy of 256 bytes run over the end of the
    buffer, into the memory that follows it. *)
Theorem short_challenge_overruns fuel a x addrs l tl ws d s :
  ready s -> bus_reads (pd s) (length ws) (chip s) = (ws, d) ->
  ws ≫= le_split 4 = x ++ (addrs ++ [8; 0] ++ l) ++ tl -> length x = 2%nat ->
  length addrs = 12%nat -> l !! 9%nat = Some 1 -> l !! 20%nat = Some VET_ICMP_TYPE ->
  (length ws <= 64)%nat ->
  Z.of_nat (length a) = SKB_DATA_ALIGN (4 * Z.of_nat (length ws) + NET_SKB_PAD) ->
  take_packet fuel (Z.of_nat (length (addrs ++ [8; 0] ++ l)) + 4) (Z.of_nat (length ws))
    (mk_skb a NET_SKB_PAD 0) s = Stop OutOfBounds.
Proof.
  intros Hr Hrd Hby Hx Haddr H9 H20 Hws Ha.
  set (frame := addrs ++ [8; 0] ++ l) in *.
  assert (4 * Z.of_nat (length ws) + 64 <= Z.of_nat (length a) <= 320) as Hal.
  { rewrite Ha. unfold SKB_DATA_ALIGN, NET_SKB_PAD.
    change (not32 63) with (Z.shiftl (Z.ones 26) 6). rewrite land_field by lia. div_lia. }
  pose proof (length_bytes ws) as Lb. rewrite Hby, !length_app in Lb.
  pose proof (read_packet_run a (Z.of_nat (length ws)) x frame tl ws d s Hr) as E1.
  rewrite Nat2Z.id in E1. specialize (E1 ltac:(lia) Hrd Hby Hx ltac:(lia) ltac:(lia)).
  set (pre := take 64 a ++ x) in *. set (rest := tl ++ drop (64 + 4 * length ws) a) in *.
  assert (Z.of_nat (length pre) = 66) as Lpre by (unfold pre; rewrite length_app, length_take; lia).
  rewrite (app_assoc _ x) in E1. fold pre in E1. rewrite <- Lpre in E1.
  assert (14 <= Z.of_nat (length frame)) as Hfr
    by (unfold frame; rewrite !length_app; cbn [length]; lia).
  unfold take_packet. unfold mbind at 1, drv_bind at 1. rewrite E1.
  replace (pre ++ frame ++ rest) with (pre ++ addrs ++ [8; 0] ++ l ++ rest)
    by (unfold frame; by rewrite <- !app_assoc).
  unfold mbind at 1, drv_bind at 1. rewrite eth_type_trans_ip by done.
  set (hd := pre ++ addrs ++ [8; 0]). set (n := Z.of_nat (length frame) - 14).
  assert (mk_skb (pre ++ addrs ++ [8; 0] ++ l ++ rest) (Z.of_nat (length pre) + 14) n
          = mk_skb (hd ++ l ++ rest) (Z.of_nat (length hd)) n) as Eh.
  { unfold hd. rewrite <- !app_assoc. f_equal. rewrite !length_app. cbn [length]. lia. }
  rewrite Eh. unfold mbind at 1, drv_bind at 1.
  rewrite (is_challenge_run hd (l ++ rest) n 1 VET_ICMP_TYPE)
    by (rewrite lookup_app_l; [done|eapply lookup_lt_Some; done]).
  change ((1 =? 1) && (VET_ICMP_TYPE =? VET_ICMP_TYPE)) with true. cbn iota.
  assert (length (hd ++ l ++ rest) = length a) as El.
  { unfold hd, pre, rest, frame in *. rewrite !length_app in *. rewrite length_take, length_drop.
    cbn [length] in *. lia. }
  assert (skb_load 24 256 (mk_skb (hd ++ l ++ rest) (Z.of_nat (length hd)) n) = None) as E4.
  { unfold skb_load. cbn [area data]. rewrite El, (proj2 (Z.leb_gt (_ + 24 + _) _)), andb_false_r; [done|].
    unfold hd. rewrite !length_app. cbn [length]. lia. }
  unfold answer_challenge. by rewrite E4.
Qed.
End Reply.

(** ** The receive side of the chip *)

(** The packets that wait (status word and data words), the words of the current
    packet that are still in the data FIFO, and the interrupt enable register. *)
Class RxChip (D : Type) `{!Smsc D} `{!Allocator D} (p : smsc911x_data) := {
  rx_view : D -> list (Z * list Z) * list Z * Z;
  rx_inf d :
    (Z.land (bus_read p RX_FIFO_INF d).1 RX_FIFO_INF_RXSUSED_ =? 0)
    = bool_decide ((rx_view d).1.1 = []) /\
    rx_view (bus_read p RX_FIFO_INF d).2 = rx_view d;
  rx_status d st ws q en :
    rx_view d = ((st, ws) :: q, [], en) ->
    (bus_read p RX_STATUS_FIFO d).1 = st /\ rx_view (bus_read p RX_STATUS_FIFO d).2 = (q, ws, en);
  rx_data d w ws q en :
    rx_view d = (q, w :: ws, en) ->
    (bus_read p RX_DATA_FIFO d).1 = w /\ rx_view (bus_read p RX_DATA_FIFO d).2 = (q, ws, en);
  rx_ffwd d q ws en :
    rx_view d = (q, ws, en) -> rx_view (bus_write p RX_DP_CTRL RX_DP_CTRL_RX_FFWD_ d) = (q, [], en);
  rx_wait d us :
    rx_view (bus_read p RX_DP_CTRL d).2 = rx_view d /\ rx_view (chip_delay us d) = rx_view d;
  rx_ack d : rx_view (bus_write p INT_STS INT_STS_RSFL_ d) = rx_view d;
  rx_enable d v q ws en :
    rx_view d = (q, ws, en) ->
    (bus_read p INT_EN d).1 = en /\ rx_view (bus_read p INT_EN d).2 = rx_view d /\
    rx_view (bus_write p INT_EN v d) = (q, ws, v);
  rx_alloc n d :
    0 <= n -> rx_view (alloc_area n d).2 = rx_view d /\
    (forall a, (alloc_area n d).1 = Some a -> Z.of_nat (length a) = n /\ Forall is_u8 a) }.

(** ** What polling should do *)

Definition pkt_length (st : Z) : Z := Z.shiftr (Z.land st 0x3fff0000) 16.
Definition pkt_words (st : Z) : Z := (pkt_length st + 5) / 4.

(** The frame of a packet: after two bytes of padding, without the CRC. *)
Definition frame_of (p : smsc911x_data) (pkt : Z * list Z) : list Z :=
  take (Z.to_nat (pkt_length pkt.1 - 4)) (drop 2 ((fifo_word p <$> pkt.2) ≫= le_split 4)).

Definition plain_frame (l : list Z) : Prop :=
  ~ (l !! 12%nat = Some 8 /\ l !! 13%nat = Some 0 /\ l !! 23%nat = Some 1 /\
     l !! 34%nat = Some VET_ICMP_TYPE).

(** Packets as the chip delivers them: the words that the status announces; at
    least the 64 bytes of an Ethernet frame, unless there was an error. *)
Record packet_ok (p : smsc911x_data) (pkt : Z * list Z) : Prop := {
  pkt_status : pkt.1 <> 0;
  pkt_data : Z.of_nat (length pkt.2) = pkt_words pkt.1;
  pkt_size : has pkt.1 RX_STS_ES_ = true \/ (64 <= pkt_length pkt.1 /\ plain_frame (frame_of p pkt)) }.

(** The effect of one packet on the counters and on the stack. *)
Definition rx_one (p : smsc911x_data) (acc : net_device_stats * list (list Z)) (pkt : Z * list Z) :
    net_device_stats * list (list Z) :=
  let st := smsc911x_rx_counterrors acc.1 pkt.1 in
  if has pkt.1 RX_STS_ES_ then (set_rx_dropped (add32 (rx_dropped st) 1) st, acc.2)
  else
    let st := set_rx_packets (add32 (rx_packets st) 1) st in
    (set_rx_bytes (add32 (rx_bytes st) (pkt_length pkt.1 - 4)) st,
     acc.2 ++ [drop 14 (frame_of p pkt)]).

Section RxSpec.
Context {D : Type} `{!Smsc D} `{!Allocator D} `{!Attestation D} (p : smsc911x_data) `{!RxChip D p}.
Implicit Types s : dstate D.

Lemma rxstatus_spec s q en :
  ready s -> pd s = p -> rx_view (chip s) = (q, [], en) ->
  exists d, smsc911x_rx_get_rxstatus s = Ret (hd 0 q.*1) (with_chip s d) /\
    rx_view d = (tail q, hd [] q.*2, en).
Proof.
  intros Hr Hp Hv. unfold smsc911x_rx_get_rxstatus, mbind, drv_bind.
  rewrite reg_read_run by apply Hr. rewrite Hp. destruct (rx_inf (chip s)) as [Hi Hs].
  rewrite Hv in Hi, Hs. cbn [fst] in Hi. rewrite Hi. set (d1 := (bus_read p RX_FIFO_INF (chip s)).2) in *.
  destruct q as [|[st w] q]; cbn [negb bool_decide].
  - exists d1. rewrite bool_decide_eq_true_2 by done. cbn [negb]. split; [|done].
    apply Z.eqb_eq in Hi. unfold mret, drv_ret. by rewrite Hi.
  - rewrite bool_decide_eq_false_2 by done. cbn [negb].
    rewrite (reg_read_run _ (with_chip s d1)) by apply Hr. cbn [pd chip with_chip]. rewrite Hp.
    destruct (rx_status d1 st w q en Hs) as [-> Hs2]. eexists. split; [reflexivity|]. done.
Qed.

Lemma bus_reads_spec d q ws en :
  rx_view d = (q, ws, en) ->
  exists d', bus_reads p (length ws) d = (fifo_word p <$> ws, d') /\ rx_view d' = (q, [], en).
Proof.
  revert d. induction ws as [|w ws IH]; intros d Hv; cbn [length bus_reads]; [by exists d|].
  destruct (rx_data d w ws q en Hv) as [E1 E2].
  destruct (bus_read p RX_DATA_FIFO d) as [v d1]. cbn [fst snd] in *. subst v.
  destruct (IH d1 E2) as (d2 & -> & E3). by exists d2.
Qed.

Lemma drain_spec s q ws en :
  ready s -> pd s = p -> rx_view (chip s) = (q, ws, en) ->
  exists d, drain_words (length ws) s = Ret tt (with_chip s d) /\ rx_view d = (q, [], en).
Proof.
  revert s. induction ws as [|w ws IH]; intros s Hr Hp Hv; cbn [length drain_words].
  { exists (chip s). by rewrite with_chip_id. }
  unfold mbind, drv_bind. rewrite reg_read_run by apply Hr. rewrite Hp.
  destruct (rx_data (chip s) w ws q en Hv) as [_ E2].
  destruct (IH (with_chip s (bus_read p RX_DATA_FIFO (chip s)).2)) as (d & E & Hd); [done..|].
  by exists d.
Qed.

Lemma ffwd_spec n s :
  ready s -> pd s = p ->
  exists d, ffwd_loop n s = Ret tt (with_chip s d) /\ rx_view d = rx_view (chip s).
Proof.
  revert s. induction n as [|n IH]; intros s Hr Hp; cbn [ffwd_loop].
  { exists (chip s). by rewrite with_chip_id. }
  unfold mbind, drv_bind, udelay. rewrite reg_read_run by apply Hr.
  cbn [pd chip with_chip]. rewrite Hp. set (d1 := chip_delay 1 (chip s)).
  set (d2 := (bus_read p RX_DP_CTRL d1).2).
  assert (rx_view d2 = rx_view (chip s)) as E.
  { unfold d2, d1. by rewrite (proj1 (rx_wait _ 0)), (proj2 (rx_wait _ 1)). }
  destruct (has _ _); [|by exists d2].
  destruct (IH (with_chip s d2)) as (d & E1 & E2); [done..|]. exists d. split; [done|].
  by rewrite E2.
Qed.

Lemma fastforward_spec s q ws en :
  ready s -> pd s = p -> rx_view (chip s) = (q, ws, en) ->
  exists d, smsc911x_rx_fastforward (Z.of_nat (length ws)) s = Ret tt (with_chip s d) /\
    rx_view d = (q, [], en).
Proof.
  intros Hr Hp Hv. unfold smsc911x_rx_fastforward. destruct (4 <=? _).
  - unfold mbind, drv_bind. rewrite reg_write_run by apply Hr. rewrite Hp.
    set (d1 := bus_write p RX_DP_CTRL RX_DP_CTRL_RX_FFWD_ (chip s)).
    destruct (ffwd_spec 500 (with_chip s d1)) as (d & E & Hd); [done..|]. exists d. split; [done|].
    rewrite Hd. by apply (rx_ffwd _ _ ws).
  - rewrite Nat2Z.id. by apply drain_spec.
Qed.

(** ** One packet *)

Lemma eth_plain pre frame rest s :
  (14 <= length frame)%nat -> Forall is_u8 (frame ++ rest) ->
  exists proto, eth_type_trans (mk_skb (pre ++ frame ++ rest) (Z.of_nat (length pre))
                                  (Z.of_nat (length frame))) s
    = Ret (mk_skb (pre ++ frame ++ rest) (Z.of_nat (length pre) + 14) (Z.of_nat (length frame) - 14),
           proto) s /\
    (proto = 8 -> frame !! 12%nat = Some 8 /\ frame !! 13%nat = Some 0).
Proof.
  intros Hlen Hu8. set (skb := mk_skb _ _ _).
  destruct (lookup_lt_is_Some_2 frame 12) as [b0 H0]; [lia|].
  destruct (lookup_lt_is_Some_2 frame 13) as [b1 H1]; [lia|].
  assert (frame = take 12 frame ++ [b0; b1] ++ drop 14 frame) as Ef.
  { rewrite <- (take_drop_middle frame 12 b0) at 1 by done. f_equal. cbn [app]. f_equal.
    symmetry. rewrite <- (take_drop_middle (drop 13 frame) 0 b1) at 1 by (by rewrite lookup_drop).
    by rewrite drop_drop. }
  assert (is_u8 b0 /\ is_u8 b1) as [U0 U1].
  { rewrite Forall_app in Hu8. destruct Hu8 as [Hu8 _]. rewrite Forall_lookup in Hu8. eauto. }
  assert (forall off n skb', area skb' = pre ++ frame ++ rest -> 0 <= data skb' + off ->
    data skb' + off + Z.of_nat n <= Z.of_nat (length pre + length frame) ->
    exists w, skb_load off n skb' = Some w) as Hld.
  { intros off n skb' Ea H1' H2'. unfold skb_load. rewrite Ea.
    rewrite (proj2 (Z.leb_le 0 _)), (proj2 (Z.leb_le _ _)) by (rewrite ?length_app; lia). eauto. }
  unfold eth_type_trans. rewrite (mem_bind _ [b0; b1]).
  2: { apply (skb_load_app (pre ++ take 12 frame) [b0; b1] (drop 14 frame ++ rest)).
       - unfold skb. cbn [area]. rewrite Ef at 1. by rewrite <- !app_assoc.
       - unfold skb. cbn [data]. rewrite length_app, length_take. lia. }
  cbv zeta. assert (skb_pull_inline ETH_HLEN skb
    = mk_skb (pre ++ frame ++ rest) (Z.of_nat (length pre) + 14) (Z.of_nat (length frame) - 14)) as ->.
  { unfold skb_pull_inline, skb, ETH_HLEN. cbn [len area data]. by rewrite (proj2 (Z.ltb_ge _ _)) by lia. }
  destruct (1536 <=? _).
  - eexists. split; [reflexivity|]. cbn [le_combine]. unfold is_word in U0, U1. intros E.
    assert (b0 = 8 /\ b1 = 0) as [-> ->] by lia. done.
  - cbn [len]. destruct (Z.leb_spec 2 (Z.of_nat (length frame) - 14)); [|by eexists].
    destruct (Hld 0 2%nat (mk_skb (pre ++ frame ++ rest) (Z.of_nat (length pre) + 14)
      (Z.of_nat (length frame) - 14))) as [w Hw]; [done|cbn [data]; lia|cbn [data]; lia|].
    rewrite (mem_bind _ w) by done. destruct (le_combine w =? 0xffff); by eexists.
Qed.

(** A plain packet is not taken for a challenge. *)
Lemma plain_not_challenge proto pre frame rest n s :
  (60 <= length frame)%nat -> plain_frame frame ->
  (proto = 8 -> frame !! 12%nat = Some 8 /\ frame !! 13%nat = Some 0) ->
  is_challenge proto (mk_skb (pre ++ frame ++ rest) (Z.of_nat (length pre) + 14) n) s = Ret false s.
Proof.
  intros Hlen Hpl Hproto. destruct (decide (proto = 8)) as [->|Hne].
  2: { unfold is_challenge. by rewrite (proj2 (Z.eqb_neq _ _)) by done. }
  destruct (Hproto eq_refl) as [H12 H13].
  destruct (lookup_lt_is_Some_2 frame 23) as [b9 H9]; [lia|].
  destruct (lookup_lt_is_Some_2 frame 34) as [b20 H20]; [lia|].
  assert (mk_skb (pre ++ frame ++ rest) (Z.of_nat (length pre) + 14) n
          = mk_skb ((pre ++ take 14 frame) ++ drop 14 frame ++ rest)
              (Z.of_nat (length (pre ++ take 14 frame))) n) as ->.
  { f_equal; [by rewrite <- app_assoc, (app_assoc (take 14 frame)), take_drop|].
    rewrite length_app, length_take. lia. }
  rewrite (is_challenge_run _ _ n b9 b20).
  - destruct (Z.eqb_spec b9 1) as [->|]; [|done].
    destruct (Z.eqb_spec b20 VET_ICMP_TYPE) as [->|]; [|done]. exfalso. by apply Hpl.
  - rewrite lookup_app_l, lookup_drop by (rewrite length_drop; lia). done.
  - rewrite lookup_app_l, lookup_drop by (rewrite length_drop; lia). done.
Qed.

Lemma pkt_length_bound st : 0 <= pkt_length st < 2 ^ 14.
Proof.
  unfold pkt_length. change 0x3fff0000 with (Z.shiftl (Z.ones 14) 16).
  rewrite land_field, Z.shiftr_div_pow2, Z.div_mul by lia. apply Z.mod_pos_bound. lia.
Qed.

(** The words of a packet as bytes: padding, frame, CRC and padding. *)
Lemma packet_bytes pkt :
  packet_ok p pkt -> 64 <= pkt_length pkt.1 ->
  exists x tl, (fifo_word p <$> pkt.2) ≫= le_split 4 = x ++ frame_of p pkt ++ tl /\
    length x = 2%nat /\ Z.of_nat (length (frame_of p pkt)) = pkt_length pkt.1 - 4.
Proof.
  intros [_ Hd _] Hl. pose proof (pkt_length_bound pkt.1) as Hb. unfold pkt_words in Hd.
  set (bs := (fifo_word p <$> pkt.2) ≫= le_split 4).
  assert (length bs = 4 * length pkt.2)%nat as Lb by (unfold bs; by rewrite length_bytes, length_fmap).
  assert (pkt_length pkt.1 + 2 <= Z.of_nat (length bs)) as Hle by (rewrite Lb; div_lia).
  exists (take 2 bs), (drop (Z.to_nat (pkt_length pkt.1 - 4)) (drop 2 bs)).
  unfold frame_of. fold bs. rewrite !take_drop, !length_take, length_drop. split; [done|]. lia.
Qed.

Lemma take_packet_plain fuel pkt a q en s :
  packet_ok p pkt -> has pkt.1 RX_STS_ES_ = false -> ready s -> pd s = p ->
  rx_view (chip s) = (q, pkt.2, en) ->
  Z.of_nat (length a) = SKB_DATA_ALIGN (4 * pkt_words pkt.1 + NET_SKB_PAD) -> Forall is_u8 a ->
  exists d, rx_view d = (q, [], en) /\
    take_packet fuel (pkt_length pkt.1) (pkt_words pkt.1) (mk_skb a NET_SKB_PAD 0) s
    = Ret tt (mk_dstate d (pd s)
        (set_stats (set_rx_bytes (add32 (rx_bytes (stats (nd s))) (pkt_length pkt.1 - 4))
                      (set_rx_packets (add32 (rx_packets (stats (nd s))) 1) (stats (nd s)))) (nd s))
        (lock_warnings s) (received s ++ [drop 14 (frame_of p pkt)])).
Proof.
  intros Hok Hes Hr Hp Hv Ha Hu8. pose proof Hok as [_ Hd [?|[Hl Hpl]]]; [congruence|].
  destruct (packet_bytes pkt Hok Hl) as (x & tl & Hby & Hx & Hfr).
  pose proof (pkt_length_bound pkt.1) as Hb. set (frame := frame_of p pkt) in *.
  destruct (bus_reads_spec (chip s) q pkt.2 en Hv) as (d & Erd & Hv'). exists d. split; [done|].
  set (ws := fifo_word p <$> pkt.2) in *.
  assert (length ws = length pkt.2) as Lw by (unfold ws; by rewrite length_fmap).
  assert (64 + 4 * Z.of_nat (length ws) <= Z.of_nat (length a)) as Hal.
  { rewrite Ha, Lw, Hd. unfold SKB_DATA_ALIGN, NET_SKB_PAD. unfold pkt_words.
    change (not32 63) with (Z.shiftl (Z.ones 26) 6). rewrite land_field by lia. div_lia. }
  assert (0 <= pkt_words pkt.1) as Hpw by (unfold pkt_words; div_lia).
  pose proof (read_packet_run a (pkt_words pkt.1) x frame tl ws d s Hr Hpw) as E1.
  rewrite <- Hd, Nat2Z.id, Hp in E1. specialize (E1 Erd Hby Hx ltac:(lia) Hal).
  rewrite Hfr, Z.sub_add in E1.
  set (pre := take 64 a ++ x) in *. set (rest := tl ++ drop (64 + 4 * length ws) a) in *.
  assert (Z.of_nat (length pre) = 66) as Lpre by (unfold pre; rewrite length_app, length_take; lia).
  rewrite (app_assoc _ x) in E1. fold pre in E1. rewrite <- Lpre, <- Hfr in E1.
  assert (Forall is_u8 (frame ++ rest)) as Hfu.
  { pose proof (bytes_u8 ws) as Hbu. rewrite Hby, !Forall_app in Hbu.
    unfold rest. rewrite !Forall_app. split_and!; [tauto|tauto|by apply Forall_drop]. }
  destruct (eth_plain pre frame rest (with_chip s d)) as (proto & E2 & Hproto); [lia|done|].
  rewrite Hd in E1. unfold take_packet. unfold mbind at 1, drv_bind at 1. rewrite E1.
  unfold mbind at 1, drv_bind at 1. rewrite E2. unfold mbind at 1, drv_bind at 1.
  rewrite plain_not_challenge by (done || lia).
  unfold mbind, drv_bind, netif_receive_skb, upd_stats, upd_nd, with_nd, with_chip.
  cbn [chip pd nd lock_warnings received].
  assert (payload (mk_skb (pre ++ frame ++ rest) (Z.of_nat (length pre) + 14) (Z.of_nat (length frame) - 14))
          = drop 14 frame) as ->.
  { unfold payload. cbn [area data len].
    replace (Z.to_nat (Z.of_nat (length pre) + 14)) with (length pre + 14)%nat by lia.
    rewrite <- drop_drop, drop_app_length, drop_app_le by lia.
    apply take_app_length'. rewrite length_drop. lia. }
  replace (sub32 (pkt_length pkt.1) 4) with (pkt_length pkt.1 - 4)
    by (unfold sub32, u32; rewrite Z.mod_small by lia; done).
  reflexivity.
Qed.

Lemma poll_words st :
  Z.shiftr (add32 (add32 (Z.shiftr (Z.land st 0x3fff0000) 16) NET_IP_ALIGN) 3) 2 = pkt_words st /\
  shl32 (pkt_words st) 2 = 4 * pkt_words st.
Proof.
  fold (pkt_length st). pose proof (pkt_length_bound st) as Hb. unfold NET_IP_ALIGN, pkt_words.
  unfold add32, shl32. rewrite !u32_small; rewrite ?Z.shiftl_mul_pow2 by lia;
    rewrite ?u32_small; unfold is_word; try lia; try div_lia.
  rewrite Z.shiftr_div_pow2 by lia. split; [f_equal; lia|lia].
Qed.

(** What is left to say about the state after polling [n] more times. *)
Record polled (pkts : list (Z * list Z)) (n : nat) (en : Z) (s s' : dstate D) : Prop := {
  polled_pd : pd s' = pd s;
  polled_stats :
    (stats (nd s'), received s') = foldl (rx_one p) (stats (nd s), received s) (take n pkts);
  polled_view :
    rx_view (chip s') = (drop n pkts, [],
      if bool_decide (length pkts < n)%nat then Z.lor en INT_EN_RSFL_EN_ else en);
  polled_napi : napi_scheduled (nd s') = negb (bool_decide (length pkts < n)%nat) }.

Lemma finish_poll_spec s en :
  ready s -> pd s = p -> rx_view (chip s) = ([], [], en) -> napi_scheduled (nd s) = true ->
  exists d, finish_poll s = Ret tt (with_nd (with_chip s d) (set_napi_scheduled false (nd s))) /\
    rx_view d = ([], [], Z.lor en INT_EN_RSFL_EN_).
Proof.
  intros Hr Hp Hv Hn. unfold finish_poll, napi_complete, get_nd, upd_nd, mbind, drv_bind.
  rewrite reg_write_run by apply Hr. rewrite Hp. cbn [nd with_chip]. rewrite Hn.
  set (d1 := bus_write p INT_STS INT_STS_RSFL_ (chip s)).
  assert (rx_view d1 = ([], [], en)) as H1 by (unfold d1; by rewrite rx_ack).
  rewrite reg_read_run by apply Hr. cbn [pd chip with_nd with_chip]. rewrite Hp.
  destruct (rx_enable d1 0 _ _ _ H1) as (-> & H2 & _). set (d2 := (bus_read p INT_EN d1).2) in *.
  rewrite reg_write_run by apply Hr. cbn [pd chip with_nd with_chip]. rewrite Hp.
  exists (bus_write p INT_EN (Z.lor en INT_EN_RSFL_EN_) d2). split; [done|].
  rewrite H1 in H2. by destruct (rx_enable d2 (Z.lor en INT_EN_RSFL_EN_) _ _ _ H2) as (_ & _ & ->).
Qed.

(** The state after one packet. *)
Record received_one (pkt : Z * list Z) (q : list (Z * list Z)) (en : Z) (s s' : dstate D) : Prop := {
  one_pd : pd s' = pd s;
  one_view : rx_view (chip s') = (q, [], en);
  one_napi : napi_scheduled (nd s') = napi_scheduled (nd s);
  one_stats : (stats (nd s'), received s') = rx_one p (stats (nd s), received s) pkt }.

Lemma drop_one pkt q en s :
  packet_ok p pkt -> has pkt.1 RX_STS_ES_ = true -> ready s -> pd s = p ->
  rx_view (chip s) = (q, pkt.2, en) ->
  exists s', (_ ← upd_stats (fun st => smsc911x_rx_counterrors st pkt.1);
              drop_packet (pkt_words pkt.1)) s = Ret tt s' /\ received_one pkt q en s s'.
Proof.
  intros Hok Hes Hr Hp Hv. set (s1 := with_nd s (set_stats (smsc911x_rx_counterrors (stats (nd s)) pkt.1) (nd s))).
  destruct (fastforward_spec s1 q pkt.2 en) as (d & E & Hd); [done..|].
  rewrite (pkt_data _ _ Hok) in E. unfold drop_packet, upd_stats, upd_nd, mbind, drv_bind.
  fold s1. rewrite E. eexists. split; [reflexivity|]. constructor; [done|done|done|].
  unfold rx_one. rewrite Hes. done.
Qed.

Lemma take_one fuel pkt q en s :
  packet_ok p pkt -> has pkt.1 RX_STS_ES_ = false -> ready s -> pd s = p ->
  rx_view (chip s) = (q, pkt.2, en) -> (forall m d, is_Some (alloc_area m d).1) ->
  exists skb s1 s', (_ ← upd_stats (fun st => smsc911x_rx_counterrors st pkt.1);
              netdev_alloc_skb (4 * pkt_words pkt.1)) s = Ret (Some skb) s1 /\
    take_packet fuel (pkt_length pkt.1) (pkt_words pkt.1) skb s1 = Ret tt s' /\
    received_one pkt q en s s'.
Proof.
  intros Hok Hes Hr Hp Hv Hal. set (n := SKB_DATA_ALIGN (4 * pkt_words pkt.1 + NET_SKB_PAD)).
  destruct (Hal n (chip s)) as [a Ha]. destruct (rx_alloc n (chip s)) as [Hv1 Hlen]; [by apply Z.land_nonneg; right|].
  destruct (Hlen a Ha) as [Hla Hu8].
  destruct (alloc_area n (chip s)) as [o d] eqn:Ealloc. cbn [fst snd] in Ha, Hv1. subst o.
  set (s1 := with_chip (with_nd s (set_stats (smsc911x_rx_counterrors (stats (nd s)) pkt.1) (nd s))) d).
  destruct (take_packet_plain fuel pkt a q en s1) as (d' & Hd' & E); try done.
  { unfold s1. cbn [chip with_chip]. by rewrite Hv1. }
  exists (mk_skb a NET_SKB_PAD 0), s1. eexists. split; [|split; [exact E|]].
  - unfold mbind, drv_bind, upd_stats, upd_nd, netdev_alloc_skb. cbn [chip with_nd].
    fold n. by rewrite Ealloc.
  - constructor; [done|done|done|]. unfold rx_one. rewrite Hes. done.
Qed.

Lemma polled_step pkt pkts n en s s1 s' :
  received_one pkt pkts en s s1 -> polled pkts n en s1 s' -> polled (pkt :: pkts) (S n) en s s'.
Proof.
  intros [H1 H2 H3 H4] [P1 P2 P3 P4]. constructor.
  - congruence.
  - cbn [take foldl]. by rewrite <- H4.
  - rewrite P3. cbn [drop length]. by rewrite (bool_decide_ext _ (S (length pkts) < S n)%nat) by lia.
  - rewrite P4. cbn [length]. by rewrite (bool_decide_ext _ (S (length pkts) < S n)%nat) by lia.
Qed.

Lemma poll_loop_spec fuel n : forall pkts k en s,
  ready s -> pd s = p -> rx_view (chip s) = (pkts, [], en) -> Forall (packet_ok p) pkts ->
  (forall m d, is_Some (alloc_area m d).1) -> napi_scheduled (nd s) = true ->
  exists s', poll_loop fuel n k s = Ret (k + Z.of_nat (Nat.min n (length pkts))) s' /\
    polled pkts n en s s'.
Proof.
  induction n as [|n IH]; intros pkts k en s Hr Hp Hv Hok Hal Hn; cbn [poll_loop].
  { exists s. rewrite Nat.min_0_l, Z.add_0_r. split; [done|].
    constructor; rewrite ?bool_decide_eq_false_2 by lia; done. }
  destruct (rxstatus_spec s pkts en Hr Hp Hv) as (d1 & E1 & Hv1).
  unfold mbind at 1, drv_bind at 1. rewrite E1. destruct pkts as [|pkt pkts].
  { cbn [hd fmap list_fmap tail] in *. rewrite Z.eqb_refl.
    destruct (finish_poll_spec (with_chip s d1) en) as (d2 & E2 & Hv2); [done..|].
    unfold mbind, drv_bind. rewrite E2. eexists. split; [by rewrite Nat.min_0_r, Z.add_0_r|].
    constructor; cbn; done. }
  inversion Hok as [|? ? Hpkt Hpkts]; subst. rewrite !fmap_cons in *. cbn [hd tail] in *.
  rewrite (proj2 (Z.eqb_neq pkt.1 0)) by apply Hpkt. cbv zeta.
  destruct (poll_words pkt.1) as [-> ->]. fold (pkt_length pkt.1).
  assert (forall s1, received_one pkt pkts en (with_chip s d1) s1 ->
    exists s', poll_loop fuel n (k + 1) s1 = Ret (k + Z.of_nat (S n `min` length (pkt :: pkts))) s' /\
      polled (pkt :: pkts) (S n) en s s') as Hrest.
  { intros s1 H1. destruct (IH pkts (k + 1) en s1) as (s' & E & HP); try done.
    - unfold ready. by rewrite (one_pd _ _ _ _ _ H1).
    - by rewrite (one_pd _ _ _ _ _ H1).
    - apply H1.
    - by rewrite (one_napi _ _ _ _ _ H1).
    - exists s'. split; [rewrite E; f_equal; cbn [length]; lia|].
      apply (polled_step _ _ _ _ _ s1); [|done]. by destruct H1; constructor. }
  destruct (has pkt.1 RX_STS_ES_) eqn:Ees.
  - destruct (drop_one pkt pkts en (with_chip s d1)) as (s1 & E & H1); [done..|].
    destruct (Hrest s1 H1) as (s' & E' & HP). exists s'. split; [|done].
    unfold mbind, drv_bind in *. destruct (upd_stats _ _); [|done]. by rewrite E.
  - destruct (take_one fuel pkt pkts en (with_chip s d1)) as (skb & s1 & s2 & E & E2 & H1); [done..|].
    destruct (Hrest s2 H1) as (s' & E' & HP). exists s'. split; [|done].
    unfold mbind, drv_bind in *. destruct (upd_stats _ _); [|done]. by rewrite E, E2.
Qed.

(** C18: polling delivers the packets of the chip.  With polling scheduled, plain
    packets waiting in the chip and memory to be had, [smsc911x_poll] returns the
    number of packets it has taken, the budget or all there are.  The stack has
    been given the frames of those without an error, in order and without their
    headers; the counters are those of the packets taken; the rest still waits in
    the chip.  If there were fewer packets than the budget allows, polling has
    ended and the receive interrupt is enabled again; otherwise polling goes on. *)
Theorem poll_delivers fuel budget pkts en s :
  ready s -> pd s = p -> rx_view (chip s) = (pkts, [], en) -> Forall (packet_ok p) pkts ->
  (forall m d, is_Some (alloc_area m d).1) -> napi_scheduled (nd s) = true ->
  exists s', smsc911x_poll fuel budget s = Ret (Z.of_nat (Nat.min (Z.to_nat budget) (length pkts))) s' /\
    polled pkts (Z.to_nat budget) en s s'.
Proof. intros. unfold smsc911x_poll. by apply (poll_loop_spec fuel (Z.to_nat budget) pkts 0). Qed.
End RxSpec.

(** ** A chip with both sides *)

Record rx_demo := mk_rx_demo { r_pkts : list (Z * list Z); r_cur : list Z; r_en : Z; r_sent : list Z }.

Definition rx_demo_read (o : Z) (d : rx_demo) : Z * rx_demo :=
  if o =? RX_FIFO_INF then ((if bool_decide (r_pkts d = []) then 0 else 0x10000), d)
  else if o =? RX_STATUS_FIFO then
    match r_pkts d with
    | (st, ws) :: q => (st, mk_rx_demo q ws (r_en d) (r_sent d))
    | [] => (0, d)
    end
  else if o =? RX_DATA_FIFO then
    (hd 0 (r_cur d), mk_rx_demo (r_pkts d) (tail (r_cur d)) (r_en d) (r_sent d))
  else if o =? INT_EN then (r_en d, d)
  else if o =? TX_FIFO_INF then (0x1000, d)
  else (0, d).

Definition rx_demo_write (v o : Z) (d : rx_demo) : rx_demo :=
  if o =? RX_DP_CTRL then mk_rx_demo (r_pkts d) [] (r_en d) (r_sent d)
  else if o =? INT_EN then mk_rx_demo (r_pkts d) (r_cur d) v (r_sent d)
  else if o =? TX_DATA_FIFO then mk_rx_demo (r_pkts d) (r_cur d) (r_en d) (r_sent d ++ [v])
  else d.

#[local] Instance rx_demo_chip : Smsc rx_demo := {|
  readl := rx_demo_read; writel := rx_demo_write;
  readw _ d := (0, d); writew _ _ d := d; chip_delay _ d := d |}.
#[local] Instance rx_demo_alloc : Allocator rx_demo := fun n d => (Some (replicate (Z.to_nat n) 0xaa), d).
(** An attestation that turns the words around. *)
#[local] Instance rx_demo_attest : Attestation rx_demo := fun _ ws d => Some (rev ws, d).

Definition demo_p : smsc911x_data := demo_pdata SMSC911X_USE_32BIT.

#[local] Instance rx_demo_tx : TxChip rx_demo demo_p.
Proof.
  refine (@Build_TxChip _ rx_demo_chip demo_p r_sent (fun _ => 0x1000) (fun _ => []) _ _ _ _).
  - intros d. split; [reflexivity|]. split; [done|]. split; [cbn; lia|done].
  - done.
  - intros d w ws [=].
  - done.
Defined.

#[local] Instance rx_demo_rx : RxChip rx_demo demo_p.
Proof.
  refine (@Build_RxChip _ rx_demo_chip rx_demo_alloc demo_p
    (fun d => (r_pkts d, r_cur d, r_en d)) _ _ _ _ _ _ _ _).
  - intros [[|[st ws] q] c e t]; done.
  - intros [q0 c e t] st ws q en [= -> -> ->]. done.
  - intros [q0 c e t] w ws q en [= -> -> ->]. done.
  - intros [q0 c e t] q ws en [= -> -> ->]. done.
  - done.
  - done.
  - intros [q0 c e t] v q ws en [= -> -> ->]. done.
  - intros n d Hn. split; [done|]. intros a [= <-]. rewrite length_replicate.
    split; [lia|]. by apply Forall_replicate.
Defined.

(** A packet with an error and a plain one of 64 bytes. *)
Definition demo_pkts : list (Z * list Z) :=
  [(0x00408000, replicate 17 5); (0x00400020, replicate 17 0x01020304)].
Definition rx_demo_state (pkts : list (Z * list Z)) (cur : list Z) : dstate rx_demo :=
  mk_dstate (mk_rx_demo pkts cur 0 []) demo_p (set_napi_scheduled true demo_netdev) 0 [].

Lemma poll_delivers_witness :
  exists s', smsc911x_poll 8 64 (rx_demo_state demo_pkts []) = Ret 2 s' /\
    napi_scheduled (nd s') = false /\ length (received s') = 1%nat.
Proof.
  destruct (poll_delivers demo_p 8 64 demo_pkts 0 (rx_demo_state demo_pkts [])) as (s' & E & HP).
  - split; [reflexivity|left; reflexivity].
  - reflexivity.
  - reflexivity.
  - constructor; [|constructor; [|constructor]]; constructor.
    + vm_compute. congruence.
    + vm_compute. reflexivity.
    + left. vm_compute. reflexivity.
    + vm_compute. congruence.
    + vm_compute. reflexivity.
    + right. split; [vm_compute; congruence|]. vm_compute. intros [[=] _].
  - intros m d. eexists. reflexivity.
  - reflexivity.
  - exists s'. split; [exact E|]. split; [rewrite (polled_napi _ _ _ _ _ _ HP); vm_compute; reflexivity|].
    pose proof (polled_stats _ _ _ _ _ _ HP) as H. apply (f_equal snd) in H. cbn [snd] in H.
    rewrite H. vm_compute. reflexivity.
Defined.

(** A challenge whose words are 0 to 63, followed by nothing. *)
Definition demo_challenge : challenge :=
  mk_challenge [1; 2; 3; 4; 5; 6] [7; 8; 9; 10; 11; 12] [69; 0; 1; 20; 0; 0; 0; 0; 64; 1; 0; 0]
    [192; 168; 0; 1] [192; 168; 0; 2] 0 0xde 0xad (seqZ 0 64 ≫= le_split 4) [].
Definition demo_challenge_words : list Z :=
  le_words ([0; 0] ++ challenge_frame demo_challenge ++ replicate 4 0).
Definition demo_area : list Z := replicate 384 0xaa.

Lemma bytes_ok (l : list Z) : forallb (fun b => (0 <=? b) && (b <? 256)) l = true -> Forall is_u8 l.
Proof.
  rewrite forallb_forall. intros H. apply list.Forall_forall. intros b Hb.
  specialize (H b). rewrite <- list_elem_of_In in H. specialize (H Hb).
  apply andb_true_iff in H as [H1%Z.leb_le H2%Z.ltb_lt]. by split.
Qed.

Lemma challenge_answered_witness :
  exists s' cmd_a cmd_b out,
    take_packet 8 298 75 (mk_skb demo_area NET_SKB_PAD 0) (rx_demo_state [] demo_challenge_words)
    = Ret tt s' /\
    r_sent (chip s') = [cmd_a; cmd_b] ++ out /\
    tx_frame cmd_a out = reply_frame demo_challenge (rev (seqZ 0 64)).
Proof.
  destruct (challenge_answered demo_p 8 demo_challenge demo_area [0; 0] (replicate 4 0)
    demo_challenge_words (rev (seqZ 0 64)) (mk_rx_demo [] [] 0 []) (mk_rx_demo [] [] 0 [])
    (rx_demo_state [] demo_challenge_words)) as (s' & a & b & out & E & W & F & _).
  - split; [reflexivity|left; reflexivity].
  - reflexivity.
  - constructor; vm_compute; try reflexivity. split; congruence.
  - vm_compute. reflexivity.
  - apply bytes_ok. vm_compute. reflexivity.
  - vm_compute. reflexivity.
  - vm_compute. reflexivity.
  - reflexivity.
  - apply bytes_ok. vm_compute. reflexivity.
  - exists 96%nat. reflexivity.
  - vm_compute. split; congruence.
  - vm_compute. reflexivity.
  - reflexivity.
  - apply Forall_rev, list.Forall_forall. intros x Hx%elem_of_seqZ. unfold is_word. lia.
  - vm_compute. lia.
  - exists s', a, b, out. split; [exact E|]. split; [|exact F].
    rewrite <- (list_fmap_id out). exact W.
Defined.

(** The same header in a frame of 60 bytes. *)
Definition short_rest : list Z := [69; 0; 0; 46; 0; 0; 0; 0; 64; 1; 0; 0; 192; 168; 0; 1; 192; 168; 0; 2; 2] ++ replicate 25 0.
Definition short_words : list Z :=
  le_words ([0; 0] ++ (replicate 12 7 ++ [8; 0] ++ short_rest) ++ replicate 6 0).

Lemma short_challenge_overruns_witness :
  take_packet 8 64 17 (mk_skb (replicate 192 0xaa) NET_SKB_PAD 0) (rx_demo_state [] short_words)
  = Stop OutOfBounds.
Proof.
  apply (short_challenge_overruns 8 (replicate 192 0xaa) [0; 0] (replicate 12 7) short_rest
    (replicate 6 0) short_words (mk_rx_demo [] [] 0 [])).
  - split; [reflexivity|left; reflexivity].
  - vm_compute. reflexivity.
  - vm_compute. reflexivity.
  - reflexivity.
  - reflexivity.
  - reflexivity.
  - reflexivity.
  - vm_compute. lia.
  - vm_compute. reflexivity.
Defined.
