(* ===== verification/SmscPhy.v ===== *)
(** * The network driver: PHY, link and loopback test
    (smsc911x.c 602-651, 677-1101; linux/include/linux/mii.h)

    Selection of the PHY, its reset, the loopback test that works around a
    hardware defect, flow control and the reaction to a change of the link. *)

From S2P Require Import Prelude SmscDefs SmscIo SmscMac SmscRun SmscTx.

(** mii.h and ethtool.h *)
Definition MII_BMCR : Z := 0x00.
Definition MII_ADVERTISE : Z := 0x04.
Definition MII_LPA : Z := 0x05.
Definition BMCR_FULLDPLX : Z := 0x0100.
Definition BMCR_LOOPBACK : Z := 0x4000.
Definition BMCR_RESET : Z := 0x8000.
Definition ADVERTISE_PAUSE_CAP : Z := 0x0400.
Definition ADVERTISE_PAUSE_ASYM : Z := 0x0800.
Definition FLOW_CTRL_TX : Z := 0x01.
Definition FLOW_CTRL_RX : Z := 0x02.
Definition DUPLEX_FULL : Z := 0x01.

(** [mii_resolve_flowctrl_fdx] *)
Definition mii_resolve_flowctrl_fdx (lcladv rmtadv : Z) : Z :=
  if has (Z.land lcladv rmtadv) ADVERTISE_PAUSE_CAP then Z.lor FLOW_CTRL_TX FLOW_CTRL_RX
  else if has (Z.land lcladv rmtadv) ADVERTISE_PAUSE_ASYM then
    if has lcladv ADVERTISE_PAUSE_CAP then FLOW_CTRL_RX
    else if has rmtadv ADVERTISE_PAUSE_CAP then FLOW_CTRL_TX
    else 0
  else 0.

(** Stores words at [loopback_rx_pkt]: the sixteen words of the array, then, as
    the structure is laid out, the fields that follow it; the word after those is
    the pointer to the operations. *)
Definition store_loopback (ws : list Z) (p : smsc911x_data) : option smsc911x_data :=
  let p := set_loopback_rx_pkt
             ((take 16 ws ≫= le_split 4) ++ drop (4 * length (take 16 ws)) (loopback_rx_pkt p)) p in
  match drop 16 ws with
  | [] => Some p
  | w :: ws =>
      let p := set_resetcount w p in
      match ws with
      | [] => Some p
      | w :: ws =>
          let p := set_multicast_update_pending w p in
          match ws with
          | [] => Some p
          | w :: ws =>
              let p := set_set_bits_mask w p in
              match ws with
              | [] => Some p
              | w :: ws =>
                  let p := set_clear_bits_mask w p in
                  match ws with
                  | [] => Some p
                  | w :: ws =>
                      let p := set_hashhi w p in
                      match ws with
                      | [] => Some p
                      | [w] => Some (set_hashlo w p)
                      | _ => None
                      end
                  end
              end
          end
      end
  end.

Section Phy.
Context {D : Type} `{!Smsc D}.

(** [smsc911x_phy_enable_external] *)
Definition smsc911x_phy_enable_external : drv D unit :=
  hwcfg ← smsc911x_reg_read HW_CFG;
  let hwcfg := Z.land hwcfg (not32 HW_CFG_PHY_CLK_SEL_) in
  let hwcfg := Z.lor hwcfg HW_CFG_PHY_CLK_SEL_CLK_DIS_ in
  _ ← smsc911x_reg_write HW_CFG hwcfg;
  _ ← udelay 10;
  let hwcfg := Z.lor hwcfg HW_CFG_EXT_PHY_EN_ in
  _ ← smsc911x_reg_write HW_CFG hwcfg;
  let hwcfg := Z.land hwcfg (not32 HW_CFG_PHY_CLK_SEL_) in
  let hwcfg := Z.lor hwcfg HW_CFG_PHY_CLK_SEL_EXT_PHY_ in
  _ ← smsc911x_reg_write HW_CFG hwcfg;
  _ ← udelay 10;
  let hwcfg := Z.lor hwcfg HW_CFG_SMI_SEL_ in
  smsc911x_reg_write HW_CFG hwcfg.

(** [smsc911x_phy_initialise_external] *)
Definition smsc911x_phy_initialise_external : drv D unit :=
  hwcfg ← smsc911x_reg_read HW_CFG;
  p ← get_pd;
  if has (flags (config p)) SMSC911X_FORCE_INTERNAL_PHY then upd_pd (set_using_extphy 0)
  else if has (flags (config p)) SMSC911X_FORCE_EXTERNAL_PHY then
    _ ← smsc911x_phy_enable_external; upd_pd (set_using_extphy 1)
  else if has hwcfg HW_CFG_EXT_PHY_DET_ then
    _ ← smsc911x_phy_enable_external; upd_pd (set_using_extphy 1)
  else upd_pd (set_using_extphy 0).

(** [do { udelay(5); status = f(); } while ((i--) && (!status));] with [n] turns
    at most. *)
Fixpoint wait_status (n : nat) (f : drv D Z) : drv D Z :=
  match n with
  | O => mret 0
  | S n =>
      _ ← udelay 5;
      status ← f;
      if status =? 0 then wait_status n f else mret status
  end.

(** Sending the test packet: [loopback_tx_pkt] is word-aligned in the structure. *)
Definition send_loopback : drv D unit :=
  _ ← upd_pd (set_loopback_rx_pkt (replicate (Z.to_nat MIN_PACKET_SIZE) 0));
  let txcmd_a := Z.lor (Z.lor TX_CMD_A_FIRST_SEG_ TX_CMD_A_LAST_SEG_) MIN_PACKET_SIZE in
  let txcmd_b := Z.lor (shl32 MIN_PACKET_SIZE 16) MIN_PACKET_SIZE in
  _ ← smsc911x_reg_write TX_DATA_FIFO txcmd_a;
  _ ← smsc911x_reg_write TX_DATA_FIFO txcmd_b;
  let wrsz := Z.shiftr (MIN_PACKET_SIZE + 3) 2 in
  p ← get_pd;
  ops_tx_writefifo (le_words (loopback_tx_pkt p)) wrsz.

(** Receiving it, with the packet length that the status announces; the answer
    is whether it is the packet that was sent. *)
Definition receive_loopback (status : Z) : drv D bool :=
  let pktlength := Z.shiftr (Z.land status 0x3fff0000) 16 in
  let rdsz := Z.shiftr (pktlength + 3) 2 in
  ws ← ops_rx_readfifo rdsz;
  p ← get_pd;
  match store_loopback ws p with
  | None => halt OutOfBounds
  | Some p =>
      _ ← upd_pd (fun _ => p);
      if negb (pktlength =? MIN_PACKET_SIZE + 4) then mret false
      else mret (bool_decide (take 64 (loopback_tx_pkt p) = take 64 (loopback_rx_pkt p)))
  end.

(** One turn of [smsc911x_phy_check_loopbackpkt]. *)
Definition try_loopback : drv D bool :=
  _ ← send_loopback;
  status ← wait_status 61 smsc911x_tx_get_txstatus;
  if status =? 0 then mret false
  else if has status TX_STS_ES_ then mret false
  else
    status ← wait_status 61 smsc911x_rx_get_rxstatus;
    if status =? 0 then mret false
    else if has status RX_STS_ES_ then mret false
    else receive_loopback status.

Fixpoint check_loop (tries : nat) : drv D Z :=
  match tries with
  | O => mret (- EIO)
  | S n => ok ← try_loopback; if ok : bool then mret 0 else check_loop n
  end.

Definition smsc911x_phy_check_loopbackpkt : drv D Z := check_loop 10.

(** [do { msleep(1); temp = smsc911x_mii_read(...); } while ((i--) && (temp & BMCR_RESET));] *)
Fixpoint reset_wait (n : nat) (addr temp : Z) : drv D Z :=
  match n with
  | O => mret temp
  | S n =>
      _ ← udelay 1000;
      temp ← smsc911x_mii_read addr MII_BMCR;
      if has (u32 temp) BMCR_RESET then reset_wait n addr (u32 temp) else mret (u32 temp)
  end.

(** [smsc911x_phy_reset]: [i] is 100000, the body runs once more. *)
Definition smsc911x_phy_reset : drv D Z :=
  p ← get_pd;
  match phy_dev p with
  | None => halt Bug
  | Some phy =>
      _ ← smsc911x_mii_write (phy_addr phy) MII_BMCR BMCR_RESET;
      temp ← reset_wait (Z.to_nat 100001) (phy_addr phy) 0;
      if has temp BMCR_RESET then mret (- EIO)
      else _ ← udelay 1000; mret 0
  end.

(** The packet of the test. *)
Definition loopback_packet : list Z := replicate 6 0xff ++ seqZ 6 6 ++ [0; 0] ++ seqZ 14 50.

(** [smsc911x_mac_write] under the lock. *)
Definition locked_mac_write (reg val : Z) : drv D unit :=
  _ ← lock_mac; _ ← smsc911x_mac_write reg val; unlock_mac.

Fixpoint loopback_loop (n : nat) (addr : Z) : drv D Z :=
  match n with
  | O => mret (- EIO)
  | S n =>
      _ ← smsc911x_mii_write addr MII_BMCR (Z.lor BMCR_LOOPBACK BMCR_FULLDPLX);
      _ ← locked_mac_write MAC_CR (Z.lor (Z.lor MAC_CR_FDPX_ MAC_CR_TXEN_) MAC_CR_RXEN_);
      r ← smsc911x_phy_check_loopbackpkt;
      if r =? 0 then mret 0
      else
        _ ← upd_pd (fun p => set_resetcount (add32 (resetcount p) 1) p);
        _ ← locked_mac_write MAC_CR 0;
        _ ← smsc911x_phy_reset;
        loopback_loop n addr
  end.

(** [smsc911x_phy_loopbacktest] *)
Definition smsc911x_phy_loopbacktest : drv D Z :=
  _ ← upd_pd (set_loopback_tx_pkt loopback_packet);
  val ← smsc911x_reg_read HW_CFG;
  let val := Z.lor (Z.land val HW_CFG_TX_FIF_SZ_) HW_CFG_SF_ in
  _ ← smsc911x_reg_write HW_CFG val;
  _ ← smsc911x_reg_write TX_CFG TX_CFG_TX_ON_;
  _ ← smsc911x_reg_write RX_CFG 0;
  p ← get_pd;
  match phy_dev p with
  | None => halt NullPointer
  | Some phy =>
      result ← loopback_loop 10 (phy_addr phy);
      _ ← locked_mac_write MAC_CR 0;
      _ ← smsc911x_mii_write (phy_addr phy) MII_BMCR 0;
      _ ← smsc911x_reg_write TX_CFG 0;
      _ ← smsc911x_reg_write RX_CFG 0;
      mret result
  end.

(** [smsc911x_phy_update_flowcontrol]; [phy_read] is [smsc911x_mii_read] under the
    mutex of the bus. *)
Definition smsc911x_phy_update_flowcontrol : drv D unit :=
  p ← get_pd;
  match phy_dev p with
  | None => halt NullPointer
  | Some phy =>
      afc ← smsc911x_reg_read AFC_CFG;
      '(flow, afc) ← (if duplex phy =? DUPLEX_FULL then
                        lcladv ← smsc911x_mii_read (phy_addr phy) MII_ADVERTISE;
                        rmtadv ← smsc911x_mii_read (phy_addr phy) MII_LPA;
                        let cap := mii_resolve_flowctrl_fdx (u16 lcladv) (u16 rmtadv) in
                        mret (if has cap FLOW_CTRL_RX then 0xffff0002 else 0,
                              if has cap FLOW_CTRL_TX then Z.lor afc 0xf else Z.land afc (not32 0xf))
                      else mret (0, Z.lor afc 0xf));
      _ ← locked_mac_write FLOW flow;
      smsc911x_reg_write AFC_CFG afc
  end.

(** The two halves of [smsc911x_phy_adjust_link]. *)
Definition adjust_duplex (phy : phy_device) : drv D unit :=
  p ← get_pd;
  if duplex phy =? last_duplex p then mret tt
  else
    _ ← lock_mac;
    mac_cr ← smsc911x_mac_read MAC_CR;
    let mac_cr := if negb (duplex phy =? 0) then Z.lor mac_cr MAC_CR_FDPX_
                  else Z.land mac_cr (not32 MAC_CR_FDPX_) in
    _ ← smsc911x_mac_write MAC_CR mac_cr;
    _ ← unlock_mac;
    _ ← smsc911x_phy_update_flowcontrol;
    upd_pd (set_last_duplex (duplex phy)).

Definition adjust_carrier : drv D unit :=
  n ← get_nd;
  p ← get_pd;
  let carrier := carrier_ok n in
  if carrier =? last_carrier p then mret tt
  else
    _ ← (if negb (carrier =? 0) then
           if has (gpio_orig_setting p) GPIO_CFG_LED1_EN_ && (using_extphy p =? 0) then
             _ ← upd_pd (set_gpio_setting (gpio_orig_setting p));
             smsc911x_reg_write GPIO_CFG (gpio_orig_setting p)
           else mret tt
         else
           v ← smsc911x_reg_read GPIO_CFG;
           _ ← upd_pd (set_gpio_setting v);
           if has v GPIO_CFG_LED1_EN_ && (using_extphy p =? 0) then
             _ ← upd_pd (set_gpio_orig_setting v);
             let g := Z.lor (Z.land v (not32 GPIO_CFG_LED1_EN_))
                        (Z.lor (Z.lor GPIO_CFG_GPIOBUF0_ GPIO_CFG_GPIODIR0_) GPIO_CFG_GPIOD0_) in
             _ ← upd_pd (set_gpio_setting g);
             smsc911x_reg_write GPIO_CFG g
           else mret tt);
    upd_pd (set_last_carrier carrier).

Definition smsc911x_phy_adjust_link : drv D unit :=
  p ← get_pd;
  match phy_dev p with
  | None => halt NullPointer
  | Some phy => _ ← adjust_duplex phy; adjust_carrier
  end.

(** A call of code outside the driver. *)
Definition lib {A} (f : D -> A * D) : drv D A := fun s =>
  Ret (f (chip s)).1 (with_chip s (f (chip s)).2).

End Phy.

(** ** The functions keep the invariant of the driver *)

Section PhyKeeps.
Context {D : Type} `{!Smsc D} `{!ChipInv D}.
Implicit Types s : dstate D.

Lemma keeps_enable_external w ph md : keepi w ph md (smsc911x_phy_enable_external (D := D)).
Proof. unfold smsc911x_phy_enable_external. keeps. Qed.
Hint Resolve keeps_enable_external : keeps.

Lemma keeps_initialise_external w ph md : keepi w ph md (smsc911x_phy_initialise_external (D := D)).
Proof. unfold smsc911x_phy_initialise_external. keeps. Qed.

Lemma keeps_locked_mac_write w ph md reg val : keepi w ph md (locked_mac_write (D := D) reg val).
Proof. unfold locked_mac_write. keeps. Qed.
Hint Resolve keeps_locked_mac_write : keeps.

Lemma keeps_reset_wait w ph md n addr temp : keepi w ph md (reset_wait (D := D) n addr temp).
Proof. revert temp. induction n; intros temp; cbn [reset_wait]; keeps. Qed.
Hint Resolve keeps_reset_wait : keeps.

Lemma keeps_phy_reset w md : keepi w true md (smsc911x_phy_reset (D := D)).
Proof. unfold smsc911x_phy_reset. generalize (Z.to_nat 100001) as n. intros n. keeps. Qed.

Lemma keeps_update_flowcontrol w md : keepi w true md (smsc911x_phy_update_flowcontrol (D := D)).
Proof. unfold smsc911x_phy_update_flowcontrol. keeps. Qed.
Hint Resolve keeps_update_flowcontrol : keeps.

Lemma keeps_adjust_duplex w md phy : keepi w true md (adjust_duplex (D := D) phy).
Proof. unfold adjust_duplex. keeps. Qed.

Lemma keeps_adjust_carrier w ph md : keepi w ph md (adjust_carrier (D := D)).
Proof. unfold adjust_carrier. keeps. Qed.
Hint Resolve keeps_adjust_duplex keeps_adjust_carrier : keeps.

Lemma keeps_adjust_link w md : keepi w true md (smsc911x_phy_adjust_link (D := D)).
Proof. unfold smsc911x_phy_adjust_link. keeps. Qed.

(** *** The loopback test, which may leave its buffer *)

Definition overruns (why : stop) : bool := match why with OutOfBounds => true | _ => false end.

Lemma store_loopback_same ws p p' :
  store_loopback ws p = Some p' ->
  dev_lock p' = dev_lock p /\ mac_lock p' = mac_lock p /\ config p' = config p /\
  phy_dev p' = phy_dev p /\ loopback_tx_pkt p' = loopback_tx_pkt p.
Proof.
  unfold store_loopback. intros H. repeat (case_match; [by injection H as <-|]). simplify_eq.
Qed.

Lemma safely_receive w ph md status :
  safely overruns (inv w ph md false) (inv w ph md false) (receive_loopback (D := D) status).
Proof.
  unfold receive_loopback. safely_step. intros s Hs. unfold mbind at 1, drv_bind at 1, get_pd at 1.
  destruct (store_loopback _ _) as [p|] eqn:E; [|done].
  apply store_loopback_same in E as (E1 & E2 & E3 & E4 & E5).
  assert (Hs' : inv w ph md false (with_pd s p)).
  { destruct Hs as [H1 H2 H3 H4 H5 H6 H7 H8 H9 H10].
    constructor; unfold has_phy, bus_ok, wide in *; cbn; rewrite ?E3, ?E4, ?E5; done || congruence. }
  unfold mbind, drv_bind, upd_pd. by destruct (negb _).
Qed.

Lemma keeps_wait_status w ph md n (f : drv D Z) :
  keepi w ph md f -> keepi w ph md (wait_status n f).
Proof. intros Hf. induction n; cbn [wait_status]; keeps. Qed.

Lemma keeps_send_loopback w ph r u t :
  keepi w ph (mk_mode r u t true) (send_loopback (D := D)).
Proof.
  unfold send_loopback. cbv zeta. do 3 (eapply keeps_bind; [keeps|intros ?]).
  intros s Hs. apply wp_get_pd. revert s Hs. intros s Hs.
  assert (Hl : length (loopback_tx_pkt (pd s)) = 64%nat) by (by apply Hs).
  apply (keeps_tx_writefifo w ph (mk_mode r u t true) false); [|done].
  rewrite length_le_words, Hl. done.
Qed.

Lemma safely_check_loop w ph r u t n :
  safely overruns (inv w ph (mk_mode r u t true) false) (inv w ph (mk_mode r u t true) false)
    (check_loop (D := D) n).
Proof.
  induction n as [|n IH]; cbn [check_loop]; [safely|]. eapply safely_bind.
  - unfold try_loopback. eapply safely_bind; [apply safely_keeps, keeps_send_loopback|intros _].
    unfold smsc911x_tx_get_txstatus, smsc911x_rx_get_rxstatus.
    eapply safely_bind; [apply safely_keeps, keeps_wait_status; keeps|intros st].
    safely_step; [safely|]. safely_step; [safely|].
    eapply safely_bind; [apply safely_keeps, keeps_wait_status; keeps|intros st'].
    safely_step; [safely|]. safely_step; [safely|]. apply safely_receive.
  - intros []; [safely|exact IH].
Qed.

Lemma safely_loopback_loop w r u t n addr :
  safely overruns (inv w true (mk_mode r u t true) false) (inv w true (mk_mode r u t true) false)
    (loopback_loop (D := D) n addr).
Proof.
  induction n as [|n IH]; cbn [loopback_loop]; [safely|].
  do 2 safely_step. eapply safely_bind; [apply safely_check_loop|intros c].
  safely_step; [safely|]. do 2 safely_step.
  eapply safely_bind; [apply safely_keeps, keeps_phy_reset|intros _; exact IH].
Qed.

Lemma keeps_weaken_packet w ph r u t b :
  forall s, inv (D := D) w ph (mk_mode r u t true) b s -> inv w ph (mk_mode r u t false) b s.
Proof. intros s [H1 H2 H3 H4 H5 H6 H7 [] H9 H10]. by constructor. Qed.

Lemma safely_loopbacktest w r u t :
  safely overruns (inv w true (mk_mode r u t false) false) (inv w true (mk_mode r u t false) false)
    (smsc911x_phy_loopbacktest (D := D)).
Proof.
  intros s Hs. enough (H : safely overruns (inv w true (mk_mode r u t false) false)
    (inv w true (mk_mode r u t true) false) (smsc911x_phy_loopbacktest (D := D))).
  { specialize (H s Hs). destruct (smsc911x_phy_loopbacktest s); [|done]. by apply keeps_weaken_packet. }
  clear s Hs. unfold smsc911x_phy_loopbacktest. eapply safely_bind.
  { apply safely_keeps. intros s [H1 H2 H3 H4 H5 H6 H7 [] H9 H10].
    instantiate (1 := inv w true (mk_mode r u t true) false). by constructor. }
  intros _. do 4 safely_step. intros s Hs. unfold mbind at 1, drv_bind at 1, get_pd at 1.
  destruct (has_phy_true _ (inv_phy _ _ _ _ _ Hs)) as [phy ->]. revert s Hs.
  enough (H : safely overruns (inv w true (mk_mode r u t true) false) (inv w true (mk_mode r u t true) false)
    (result ← loopback_loop (D := D) 10 (phy_addr phy); _ ← locked_mac_write MAC_CR 0;
     _ ← smsc911x_mii_write (phy_addr phy) MII_BMCR 0; _ ← smsc911x_reg_write TX_CFG 0;
     _ ← smsc911x_reg_write RX_CFG 0; mret result)) by exact H.
  eapply safely_bind; [apply safely_loopback_loop|intros result]. safely.
Qed.

End PhyKeeps.
#[export] Hint Resolve keeps_initialise_external keeps_locked_mac_write keeps_phy_reset
  keeps_update_flowcontrol keeps_adjust_link : keeps.

(** ** The loopback test and flow control *)

Lemma bus_reads_length {D} `{!Smsc D} p n (d : D) : length (bus_reads p n d).1 = n.
Proof.
  revert d. induction n as [|n IH]; intros d; [done|]. cbn [bus_reads].
  destruct (bus_read p RX_DATA_FIFO d) as [w d1]. specialize (IH d1).
  destruct (bus_reads p n d1) as [ws d2]. cbn [fst length] in *. lia.
Qed.

Lemma store_loopback_17 ws p :
  length ws = 17%nat ->
  exists p', store_loopback ws p = Some p' /\ resetcount p' = nth 16 ws 0.
Proof.
  intros Hl. unfold store_loopback.
  assert (E : drop 16 ws = [nth 16 ws 0]).
  { do 17 (destruct ws as [|? ws]; [done|]). by destruct ws. }
  rewrite E. by eexists.
Qed.

Lemma store_loopback_long ws p : (22 < length ws)%nat -> store_loopback ws p = None.
Proof.
  intros Hl. unfold store_loopback.
  destruct (drop 16 ws) as [|? l] eqn:E; apply (f_equal length) in E; rewrite length_drop in E;
    [cbn in E; lia|].
  do 5 (destruct l as [|? l]; [cbn in E; lia|]).
  destruct l as [|? l]; [cbn in E; lia|]. done.
Qed.

(** C37: The loopback test reads what it receives into a 64-byte array of the
    private data without regard to its size.  The reply to its own 64-byte packet
    is announced with the check sequence as 68 bytes, so each successful test stores
    the check sequence over [resetcount], the field behind the array; a reply
    of more than 88 bytes runs past the other counters into the pointer to the
    register operations. *)
Theorem loopback_overruns {D} `{!Smsc D} status (s : dstate D) :
  ready s ->
  let len := Z.shiftr (Z.land status 0x3fff0000) 16 in
  let ws := (bus_reads (pd s) (Z.to_nat (Z.shiftr (len + 3) 2)) (chip s)).1 in
  (len = MIN_PACKET_SIZE + 4 ->
     exists b s', receive_loopback status s = Ret b s' /\
       length ws = 17%nat /\ resetcount (pd s') = nth 16 ws 0) /\
  (88 < len -> receive_loopback status s = Stop OutOfBounds).
Proof.
  intros [Hl Hb] len ws. unfold receive_loopback. fold len.
  split; intros Hn; unfold mbind at 1, drv_bind at 1; rewrite rx_readfifo_run by done; fold ws.
  - assert (Hw : length ws = 17%nat) by (unfold ws; rewrite Hn, bus_reads_length; done).
    destruct (store_loopback_17 ws (pd s) Hw) as (p' & E & Hr).
    unfold get_pd, upd_pd, mbind, drv_bind. cbn [pd with_chip]. rewrite E, Hn.
    rewrite Z.eqb_refl. cbn [negb]. eexists _, _. split; [reflexivity|]. done.
  - unfold get_pd, mbind, drv_bind. cbn [pd with_chip].
    rewrite store_loopback_long; [done|]. unfold ws. rewrite bus_reads_length, Z.shiftr_div_pow2 by lia.
    change (2 ^ 2) with 4. assert (23 <= (len + 3) / 4) by (apply Z.div_le_lower_bound; lia). lia.
Qed.

(** Pause frames are negotiated as table 28B-3 of IEEE 802.3 says, and the two
    ends of a link, each resolving its own and its partner's advertisement, agree:
    one sends pause frames exactly when the other honours them. *)
Theorem flow_control_agrees lcl rmt :
  let pause x := has x ADVERTISE_PAUSE_CAP in
  let asym x := has x ADVERTISE_PAUSE_ASYM in
  let cap := mii_resolve_flowctrl_fdx lcl rmt in
  has cap FLOW_CTRL_TX = pause rmt && (pause lcl || (asym lcl && asym rmt)) /\
  has cap FLOW_CTRL_RX = pause lcl && (pause rmt || (asym lcl && asym rmt)) /\
  has cap FLOW_CTRL_TX = has (mii_resolve_flowctrl_fdx rmt lcl) FLOW_CTRL_RX.
Proof.
  intros pause asym cap. unfold cap, mii_resolve_flowctrl_fdx.
  change ADVERTISE_PAUSE_CAP with (2 ^ 10) in *. change ADVERTISE_PAUSE_ASYM with (2 ^ 11) in *.
  unfold pause, asym. rewrite !has_bit, !Z.land_spec by lia.
  by destruct (Z.testbit lcl 10), (Z.testbit rmt 10), (Z.testbit lcl 11), (Z.testbit rmt 11).
Qed.

(** A chip whose receive data are all ones. *)
Definition ones_chip : Smsc unit := {|
  readl _ d := (0xffffffff, d); writel _ _ d := d;
  readw _ d := (0xffff, d); writew _ _ d := d; chip_delay _ d := d |}.

Lemma loopback_overruns_witness :
  let s := mk_dstate tt (demo_pdata SMSC911X_USE_32BIT) demo_netdev 0 [] in
  (exists b s', @receive_loopback _ ones_chip 0x00440000 s = Ret b s' /\ resetcount (pd s') = 0xffffffff) /\
  @receive_loopback _ ones_chip 0x05ee0000 s = Stop OutOfBounds.
Proof.
  intros s. split.
  - destruct (@loopback_overruns _ ones_chip 0x00440000 s) as [H _].
    + split; [reflexivity|left; reflexivity].
    + destruct H as (b & s' & E & _ & Hr); [reflexivity|]. exists b, s'. split; [exact E|].
      rewrite Hr. reflexivity.
  - apply (@loopback_overruns _ ones_chip 0x05ee0000 s).
    + split; [reflexivity|left; reflexivity].
    + vm_compute. reflexivity.
Defined.
