(* ===== verification/SmscEeprom.v ===== *)
(** * The network driver: EEPROM access (smsc911x.c 2785-2907)

    Commands to the EEPROM controller, reading and writing locations, and the
    two ethtool entry points. *)

From S2P Require Import Prelude SmscDefs SmscIo SmscMac SmscRun.

Section Eeprom.
Context {D : Type} `{!Smsc D}.

(** [smsc911x_eeprom_enable_access] *)
Definition smsc911x_eeprom_enable_access : drv D unit :=
  temp ← smsc911x_reg_read GPIO_CFG;
  _ ← smsc911x_reg_write GPIO_CFG (Z.land temp (not32 GPIO_CFG_EEPR_EN_));
  udelay 1000.

(** [do { msleep(1); e2cmd = ...; } while ((e2cmd & E2P_CMD_EPC_BUSY_) && (--timeout));]
    The last value read, unless the time is up. *)
Fixpoint eeprom_wait (timeout : nat) : drv D (option Z) :=
  match timeout with
  | O => mret None
  | S n =>
      _ ← udelay 1000;
      e2cmd ← smsc911x_reg_read E2P_CMD;
      if has e2cmd E2P_CMD_EPC_BUSY_ then eeprom_wait n else mret (Some e2cmd)
  end.

(** [smsc911x_eeprom_send_cmd] *)
Definition smsc911x_eeprom_send_cmd (op : Z) : drv D Z :=
  v ← smsc911x_reg_read E2P_CMD;
  if has v E2P_CMD_EPC_BUSY_ then mret (- EBUSY)
  else
    _ ← smsc911x_reg_write E2P_CMD (Z.lor op E2P_CMD_EPC_BUSY_);
    r ← eeprom_wait 100;
    match r with
    | None => mret (- EAGAIN)
    | Some e2cmd => if has e2cmd E2P_CMD_EPC_TIMEOUT_ then mret (- EINVAL) else mret 0
    end.

(** [smsc911x_eeprom_read_location]: stores into [data[address]]. *)
Definition smsc911x_eeprom_read_location (address : Z) (data : list Z) : drv D (Z * list Z) :=
  let op := Z.lor E2P_CMD_EPC_CMD_READ_ address in
  ret ← smsc911x_eeprom_send_cmd op;
  if ret =? 0 then
    v ← smsc911x_reg_read E2P_DATA;
    match aset data address (u8 v) with
    | Some data => mret (ret, data)
    | None => halt OutOfBounds
    end
  else mret (ret, data).

(** [smsc911x_eeprom_write_location] *)
Definition smsc911x_eeprom_write_location (address data : Z) : drv D Z :=
  let op := Z.lor E2P_CMD_EPC_CMD_ERASE_ address in
  ret ← smsc911x_eeprom_send_cmd op;
  if ret =? 0 then
    let op := Z.lor E2P_CMD_EPC_CMD_WRITE_ address in
    _ ← smsc911x_reg_write E2P_DATA data;
    _ ← smsc911x_reg_read BYTE_TEST;
    smsc911x_eeprom_send_cmd op
  else mret ret.

(** [smsc911x_ethtool_get_eeprom_len] *)
Definition smsc911x_ethtool_get_eeprom_len : Z := SMSC911X_EEPROM_SIZE.

(** The loop of [smsc911x_ethtool_get_eeprom]. *)
Fixpoint eeprom_read_loop (n : nat) (i : Z) (eeprom_data : list Z) : drv D (Z * list Z) :=
  match n with
  | O => mret (0, eeprom_data)
  | S n =>
      '(ret, eeprom_data) ← smsc911x_eeprom_read_location (u8 i) eeprom_data;
      if ret <? 0 then mret (ret, eeprom_data) else eeprom_read_loop n (i + 1) eeprom_data
  end.

(** [smsc911x_ethtool_get_eeprom]: the result, the new [eeprom->len] and the bytes
    for the user.  [stack] is what the local array holds at first. *)
Definition smsc911x_ethtool_get_eeprom (stack : list Z) (offset elen : Z) : drv D (Z * Z * list Z) :=
  _ ← smsc911x_eeprom_enable_access;
  let len := Z.min elen SMSC911X_EEPROM_SIZE in
  '(ret, eeprom_data) ← eeprom_read_loop (Z.to_nat len) 0 stack;
  if ret <? 0 then mret (ret, 0, [])
  else if (0 <=? offset) && (offset + len <=? Z.of_nat (length eeprom_data))
  then mret (0, len, take (Z.to_nat len) (drop (Z.to_nat offset) eeprom_data))
  else halt OutOfBounds.

(** [smsc911x_ethtool_set_eeprom]: the result; [eeprom->len] becomes 1. *)
Definition smsc911x_ethtool_set_eeprom (offset data : Z) : drv D Z :=
  _ ← smsc911x_eeprom_enable_access;
  _ ← smsc911x_eeprom_send_cmd E2P_CMD_EPC_CMD_EWEN_;
  ret ← smsc911x_eeprom_write_location (u8 offset) data;
  _ ← smsc911x_eeprom_send_cmd E2P_CMD_EPC_CMD_EWDS_;
  mret ret.

End Eeprom.

(** ** The functions keep the invariant of the driver *)

Section EepromKeeps.
Context {D : Type} `{!Smsc D} `{!ChipInv D}.

Lemma keeps_eeprom_wait w ph md n : keepi w ph md (eeprom_wait (D := D) n).
Proof. induction n; cbn [eeprom_wait]; keeps. Qed.
Hint Resolve keeps_eeprom_wait : keeps.

Lemma keeps_send_cmd w ph md op : keepi w ph md (smsc911x_eeprom_send_cmd (D := D) op).
Proof. unfold smsc911x_eeprom_send_cmd. keeps. Qed.
Hint Resolve keeps_send_cmd : keeps.

(** Reading does not leave the array, and does not change its size. *)
Lemma read_location_keeps w ph md a data s :
  is_u8 a -> a < Z.of_nat (length data) -> inv w ph md false s ->
  wp (smsc911x_eeprom_read_location (D := D) a data)
    (fun r s' => length r.2 = length data /\ inv w ph md false s') s.
Proof.
  intros Ha Hl Hs. apply wp_bind. eapply wp_keeps; [apply keeps_send_cmd|exact Hs|].
  intros ret s1 H1. destruct (ret =? 0); [|by apply wp_ret].
  apply wp_bind. eapply wp_keeps; [apply keeps_reg_read|exact H1|]. intros v s2 H2.
  rewrite aset_ok by (destruct Ha; lia). apply wp_ret. cbn [snd]. by rewrite length_insert.
Qed.

Lemma read_loop_keeps w ph md n i data s :
  0 <= i -> i + Z.of_nat n <= 128 -> length data = 128%nat -> inv w ph md false s ->
  wp (eeprom_read_loop (D := D) n i data)
    (fun r s' => length r.2 = 128%nat /\ inv w ph md false s') s.
Proof.
  revert i data s. induction n as [|n IH]; intros i data s Hi Hn Hd Hs; [by apply wp_ret|].
  cbn [eeprom_read_loop]. replace (u8 i) with i by (symmetry; apply Z.mod_small; lia).
  apply wp_bind. eapply wp_mono; [|apply read_location_keeps; [unfold is_word; lia|lia|exact Hs]].
  intros [ret data'] s1 [E H1]. cbn [snd] in E.
  destruct (ret <? 0); [apply wp_ret; cbn [snd]; by rewrite E|]. apply IH; [lia|lia|congruence|done].
Qed.

Lemma keeps_get_eeprom w ph md stack offset len :
  length stack = 128%nat -> 0 <= offset -> 0 <= len -> offset + len <= 128 ->
  keepi w ph md (smsc911x_ethtool_get_eeprom (D := D) stack offset len).
Proof.
  intros Hst Ho Hl Hol. unfold smsc911x_ethtool_get_eeprom, smsc911x_eeprom_enable_access.
  eapply keeps_bind; [keeps|intros _]. change SMSC911X_EEPROM_SIZE with 128.
  rewrite Z.min_l by lia. intros s Hs. apply wp_bind.
  eapply wp_mono; [|apply (read_loop_keeps w ph md (Z.to_nat len) 0 stack); [lia|lia|done|exact Hs]].
  intros [ret data] s1 [E H1]. cbn [snd] in E. destruct (ret <? 0); [by apply wp_ret|].
  rewrite E, (proj2 (Z.leb_le 0 offset)), (proj2 (Z.leb_le (offset + len) _)) by lia. by apply wp_ret.
Qed.

Lemma keeps_set_eeprom w ph md offset data : keepi w ph md (smsc911x_ethtool_set_eeprom (D := D) offset data).
Proof.
  unfold smsc911x_ethtool_set_eeprom, smsc911x_eeprom_enable_access, smsc911x_eeprom_write_location.
  cbv zeta. keeps.
Qed.

End EepromKeeps.

Lemma drop_seqZ n m len :
  (n <= Z.to_nat len)%nat -> drop n (seqZ m len) = seqZ (m + Z.of_nat n) (len - Z.of_nat n).
Proof.
  intros Hn. destruct (decide (len < 0)).
  { rewrite !seqZ_nil by lia. by rewrite drop_nil. }
  replace len with (Z.of_nat n + (len - Z.of_nat n)) at 1 by lia.
  rewrite seqZ_app by lia. apply drop_app_length'. rewrite length_seqZ. lia.
Qed.

(** ** The EEPROM behind the chip *)

(** Its contents, whether writing is enabled, and the data register. *)
Definition e2p_state : Type := (Z -> Z) * bool * Z.

(** What a command does: the operation in bits 28 to 30, the location in the low
    byte; erasing fills a location with ones. *)
Definition e2p_exec (op : Z) (st : e2p_state) : e2p_state :=
  let '(mem, we, dat) := st in
  let cmd := Z.land op 0x70000000 in
  let a := Z.land op 0xff in
  if cmd =? E2P_CMD_EPC_CMD_READ_ then (mem, we, mem a)
  else if cmd =? E2P_CMD_EPC_CMD_EWEN_ then (mem, true, dat)
  else if cmd =? E2P_CMD_EPC_CMD_EWDS_ then (mem, false, dat)
  else if cmd =? E2P_CMD_EPC_CMD_WRITE_ then
    ((fun i => if we && (i =? a) then dat else mem i), we, dat)
  else if cmd =? E2P_CMD_EPC_CMD_ERASE_ then
    ((fun i => if we && (i =? a) then 0xff else mem i), we, dat)
  else st.

(** [e2p_busy] further reads of the command register report busy, never more than
    99 after a command. *)
Class EepromChip (D : Type) `{!Smsc D} (p : smsc911x_data) := {
  e2p_view : D -> e2p_state;
  e2p_busy : D -> nat;
  e2p_status d :
    has (bus_read p E2P_CMD d).1 E2P_CMD_EPC_BUSY_ = bool_decide (e2p_busy d <> 0%nat) /\
    has (bus_read p E2P_CMD d).1 E2P_CMD_EPC_TIMEOUT_ = false /\
    e2p_busy (bus_read p E2P_CMD d).2 = pred (e2p_busy d) /\
    e2p_view (bus_read p E2P_CMD d).2 = e2p_view d;
  e2p_command d op :
    e2p_busy d = 0%nat ->
    (e2p_busy (bus_write p E2P_CMD (Z.lor op E2P_CMD_EPC_BUSY_) d) <= 99)%nat /\
    e2p_view (bus_write p E2P_CMD (Z.lor op E2P_CMD_EPC_BUSY_) d) = e2p_exec op (e2p_view d);
  e2p_get d :
    (bus_read p E2P_DATA d).1 = (e2p_view d).2 /\
    e2p_busy (bus_read p E2P_DATA d).2 = e2p_busy d /\ e2p_view (bus_read p E2P_DATA d).2 = e2p_view d;
  e2p_put d v :
    e2p_busy (bus_write p E2P_DATA v d) = e2p_busy d /\
    e2p_view (bus_write p E2P_DATA v d) = ((e2p_view d).1, v);
  e2p_other d v us :
    (e2p_busy (bus_read p BYTE_TEST d).2 = e2p_busy d /\ e2p_view (bus_read p BYTE_TEST d).2 = e2p_view d) /\
    (e2p_busy (bus_read p GPIO_CFG d).2 = e2p_busy d /\ e2p_view (bus_read p GPIO_CFG d).2 = e2p_view d) /\
    (e2p_busy (bus_write p GPIO_CFG v d) = e2p_busy d /\ e2p_view (bus_write p GPIO_CFG v d) = e2p_view d) /\
    (e2p_busy (chip_delay us d) <= e2p_busy d)%nat /\ e2p_view (chip_delay us d) = e2p_view d }.

Section EepromSpec.
Context {D : Type} `{!Smsc D} (p : smsc911x_data) `{!EepromChip D p}.
Implicit Types s : dstate D.

(** Runs that leave the EEPROM idle. *)
Definition erun {A} (m : drv D A) s (a : A) (v : e2p_state) : Prop :=
  exists d, m s = Ret a (with_chip s d) /\ e2p_busy d = 0%nat /\ e2p_view d = v.

Lemma erun_bind {A B} (m : drv D A) (k : A -> drv D B) s a v b v' :
  erun m s a v -> (forall d, e2p_busy d = 0%nat -> e2p_view d = v -> erun (k a) (with_chip s d) b v') ->
  erun (m ≫= k) s b v'.
Proof.
  intros (d & E & Hb & Hv) Hk. destruct (Hk d Hb Hv) as (d' & E' & Hb' & Hv').
  exists d'. unfold mbind, drv_bind. by rewrite E, E'.
Qed.

Lemma eeprom_wait_spec n s :
  ready s -> pd s = p -> (e2p_busy (chip s) < n)%nat ->
  exists v, has v E2P_CMD_EPC_TIMEOUT_ = false /\
    erun (eeprom_wait n) s (Some v) (e2p_view (chip s)).
Proof.
  revert s. induction n as [|n IH]; intros s Hr Hp Hn; [lia|]. cbn [eeprom_wait].
  destruct (e2p_other (chip s) 0 1000) as (_ & _ & _ & Hb1 & Hv1).
  set (d1 := chip_delay 1000 (chip s)) in *.
  destruct (e2p_status d1) as (Hbusy & Hto & Hb2 & Hv2). set (d2 := (bus_read p E2P_CMD d1).2) in *.
  destruct (decide (e2p_busy d1 = 0%nat)) as [Ez|Enz].
  - exists (bus_read p E2P_CMD d1).1. split; [done|]. exists d2.
    unfold mbind, drv_bind, udelay. rewrite reg_read_run by apply Hr. cbn [pd chip with_chip].
    rewrite Hp. fold d1. rewrite Hbusy, bool_decide_eq_false_2 by tauto.
    split; [done|]. split; [rewrite Hb2; lia|congruence].
  - destruct (IH (with_chip s d2)) as (v & Hv & d3 & E3 & Hb3 & Hv3); [done|done|cbn; lia|].
    exists v. split; [done|]. exists d3. unfold mbind, drv_bind, udelay.
    rewrite reg_read_run by apply Hr. cbn [pd chip with_chip].
    rewrite Hp. fold d1. rewrite Hbusy, bool_decide_eq_true_2 by done.
    split; [exact E3|]. cbn in Hv3. split; [done|congruence].
Qed.

Lemma send_cmd_spec op s :
  ready s -> pd s = p -> e2p_busy (chip s) = 0%nat ->
  erun (smsc911x_eeprom_send_cmd op) s 0 (e2p_exec op (e2p_view (chip s))).
Proof.
  intros Hr Hp Hb. unfold smsc911x_eeprom_send_cmd.
  destruct (e2p_status (chip s)) as (Hbusy & _ & Hb1 & Hv1). rewrite Hb in Hb1.
  set (d1 := (bus_read p E2P_CMD (chip s)).2) in *.
  destruct (e2p_command d1 op Hb1) as (Hb2 & Hv2).
  set (d2 := bus_write p E2P_CMD _ d1) in *.
  destruct (eeprom_wait_spec 100 (with_chip (with_chip s d1) d2)) as (v & Hto & d3 & E3 & Hb3 & Hv3);
    [done|done|cbn [chip with_chip]; lia|].
  exists d3. unfold mbind, drv_bind. rewrite reg_read_run by apply Hr. rewrite Hp.
  rewrite Hbusy, bool_decide_eq_false_2 by (rewrite Hb; tauto).
  rewrite reg_write_run by apply Hr. cbn [pd chip with_chip]. rewrite Hp.
  fold d1 d2. rewrite E3, Hto. cbn [chip with_chip] in Hv3. split; [done|]. split; [done|congruence].
Qed.

Lemma enable_access_spec s :
  ready s -> pd s = p -> e2p_busy (chip s) = 0%nat ->
  erun smsc911x_eeprom_enable_access s tt (e2p_view (chip s)).
Proof.
  intros Hr Hp Hb. unfold smsc911x_eeprom_enable_access, erun, mbind, drv_bind, udelay.
  rewrite reg_read_run by apply Hr. rewrite Hp. rewrite reg_write_run by apply Hr.
  cbn [pd chip with_chip]. rewrite Hp. set (v := Z.land _ _).
  set (d1 := (bus_read p GPIO_CFG (chip s)).2). set (d2 := bus_write p GPIO_CFG v d1).
  destruct (e2p_other (chip s) 0 0) as (_ & [B1 V1] & _).
  destruct (e2p_other d1 v 0) as (_ & _ & [B2 V2] & _).
  destruct (e2p_other d2 0 1000) as (_ & _ & _ & B3 & V3).
  fold d1 in B1, V1. fold d2 in B2, V2.
  eexists. split; [reflexivity|]. split; [lia|congruence].
Qed.

(** Commands with a location. *)
Lemma cmd_fields c a :
  In c [E2P_CMD_EPC_CMD_READ_; E2P_CMD_EPC_CMD_WRITE_; E2P_CMD_EPC_CMD_ERASE_] -> is_u8 a ->
  Z.land (Z.lor c a) 0x70000000 = c /\ Z.land (Z.lor c a) 0xff = a.
Proof.
  intros Hc Ha. assert (E2 : Z.land a 0xff = a).
  { change 0xff with (Z.ones 8). rewrite Z.land_ones by lia. by apply Z.mod_small. }
  assert (E1 : Z.land a 0x70000000 = 0) by (by rewrite <- E2, <- Z.land_assoc, Z.land_0_r).
  rewrite !Z.land_lor_distr_l, E1, E2.
  destruct Hc as [<-|[<-|[<-|[]]]]; split; (by rewrite ?Z.lor_0_l, ?Z.lor_0_r).
Qed.

Lemma exec_read a mem we dat :
  is_u8 a -> e2p_exec (Z.lor E2P_CMD_EPC_CMD_READ_ a) (mem, we, dat) = (mem, we, mem a).
Proof.
  intros Ha. destruct (cmd_fields E2P_CMD_EPC_CMD_READ_ a) as [E1 E2]; [by left|done|].
  unfold e2p_exec. by rewrite E1, E2.
Qed.

Lemma exec_write a mem we dat :
  is_u8 a -> e2p_exec (Z.lor E2P_CMD_EPC_CMD_WRITE_ a) (mem, we, dat) =
  ((fun i => if we && (i =? a) then dat else mem i), we, dat).
Proof.
  intros Ha. destruct (cmd_fields E2P_CMD_EPC_CMD_WRITE_ a) as [E1 E2]; [by right; left|done|].
  unfold e2p_exec. by rewrite E1, E2.
Qed.

Lemma exec_erase a mem we dat :
  is_u8 a -> e2p_exec (Z.lor E2P_CMD_EPC_CMD_ERASE_ a) (mem, we, dat) =
  ((fun i => if we && (i =? a) then 0xff else mem i), we, dat).
Proof.
  intros Ha. destruct (cmd_fields E2P_CMD_EPC_CMD_ERASE_ a) as [E1 E2]; [by right; right; left|done|].
  unfold e2p_exec. by rewrite E1, E2.
Qed.

Lemma read_location_spec a data s mem we dat :
  ready s -> pd s = p -> e2p_busy (chip s) = 0%nat -> e2p_view (chip s) = (mem, we, dat) ->
  is_u8 a -> a < Z.of_nat (length data) ->
  erun (smsc911x_eeprom_read_location a data) s
    (0, <[Z.to_nat a := u8 (mem a)]> data) (mem, we, mem a).
Proof.
  intros Hr Hp Hb Hv Ha Hl. unfold smsc911x_eeprom_read_location.
  eapply erun_bind; [by apply send_cmd_spec|]. intros d Hbd Hvd. cbn [Z.eqb].
  rewrite Hv, exec_read in Hvd by done. destruct (e2p_get d) as (E1 & E2 & E3).
  exists (bus_read p E2P_DATA d).2. unfold mbind, drv_bind. rewrite reg_read_run by apply Hr.
  cbn [pd chip with_chip]. rewrite Hp, E1, Hvd, aset_ok by (destruct Ha; cbn; lia).
  split; [done|]. split; congruence.
Qed.

Lemma read_loop_spec n i data s mem we dat :
  ready s -> pd s = p -> e2p_busy (chip s) = 0%nat -> e2p_view (chip s) = (mem, we, dat) ->
  0 <= i -> i + Z.of_nat n <= 128 -> length data = 128%nat ->
  exists dat', erun (eeprom_read_loop n i data) s
    (0, take (Z.to_nat i) data ++ (u8 ∘ mem <$> seqZ i (Z.of_nat n)) ++ drop (Z.to_nat i + n) data)
    (mem, we, dat').
Proof.
  revert i data s dat. induction n as [|n IH]; intros i data s dat Hr Hp Hb Hv Hi Hn Hd.
  - exists dat, (chip s). rewrite Nat.add_0_r. change (seqZ i (Z.of_nat 0)) with (@nil Z).
    cbn [fmap list_fmap app]. rewrite take_drop. by destruct s.
  - cbn [eeprom_read_loop].
    assert (Ei : u8 i = i) by (apply Z.mod_small; lia). rewrite Ei.
    destruct (read_location_spec i data s mem we dat) as (d & E & Hbd & Hvd);
      [done..|unfold is_word; lia|lia|].
    destruct (IH (i + 1) (<[Z.to_nat i := u8 (mem i)]> data) (with_chip s d) (mem i))
      as (dat' & d' & E' & Hb' & Hv'); [done..|lia|lia|by rewrite length_insert|].
    exists dat', d'. split; [|done]. unfold mbind, drv_bind. rewrite E. cbn [Z.ltb Z.compare].
    rewrite E'. do 2 f_equal.
    replace (Z.to_nat (i + 1)) with (S (Z.to_nat i)) by lia.
    rewrite (take_S_r _ _ (u8 (mem i))) by (apply list_lookup_insert_eq; lia).
    rewrite take_insert_ge by lia. rewrite drop_insert_lt by lia.
    rewrite (seqZ_cons i (Z.of_nat (S n))) by lia.
    replace (Z.pred (Z.of_nat (S n))) with (Z.of_nat n) by lia.
    rewrite <- app_assoc. replace (S (Z.to_nat i) + n)%nat with (Z.to_nat i + S n)%nat by lia.
    rewrite fmap_cons. unfold Z.succ. reflexivity.
Qed.

Lemma write_location_spec a v s mem we dat :
  ready s -> pd s = p -> e2p_busy (chip s) = 0%nat -> e2p_view (chip s) = (mem, we, dat) -> is_u8 a ->
  exists mem', (forall i, mem' i = if we && (i =? a) then v else mem i) /\
  erun (smsc911x_eeprom_write_location a v) s 0 (mem', we, v).
Proof.
  intros Hr Hp Hb Hv Ha.
  exists (fun i => if we && (i =? a) then v else if we && (i =? a) then 0xff else mem i).
  split; [intros i; by destruct (we && (i =? a))|].
  eapply erun_bind; [by apply send_cmd_spec|]. intros d Hbd Hvd. cbn [Z.eqb].
  rewrite Hv, exec_erase in Hvd by done. destruct (e2p_put d v) as (E1 & E2).
  set (d1 := bus_write p E2P_DATA v d) in *. destruct (e2p_other d1 0 0) as ([E3 E4] & _).
  set (d2 := (bus_read p BYTE_TEST d1).2) in *.
  destruct (send_cmd_spec (Z.lor E2P_CMD_EPC_CMD_WRITE_ a) (with_chip (with_chip (with_chip s d) d1) d2))
    as (d3 & E & Hb3 & Hv3); [done|done|cbn; congruence|].
  exists d3. unfold mbind, drv_bind. rewrite reg_write_run, reg_read_run by apply Hr.
  cbn [pd chip with_chip]. rewrite Hp. split; [exact E|]. split; [done|].
  rewrite Hv3. cbn [chip with_chip]. rewrite E4, E2, Hvd. by apply exec_write.
Qed.

Lemma get_eeprom_spec stack offset len s mem we dat :
  ready s -> pd s = p -> e2p_busy (chip s) = 0%nat -> e2p_view (chip s) = (mem, we, dat) ->
  length stack = 128%nat -> 0 <= offset -> 0 <= len -> offset + len <= 128 ->
  exists dat', erun (smsc911x_ethtool_get_eeprom stack offset len) s
    (0, len, take (Z.to_nat len) (drop (Z.to_nat offset)
       ((u8 ∘ mem <$> seqZ 0 len) ++ drop (Z.to_nat len) stack))) (mem, we, dat').
Proof.
  intros Hr Hp Hb Hv Hst Ho Hl Hol. unfold smsc911x_ethtool_get_eeprom.
  destruct (enable_access_spec s Hr Hp Hb) as (d & E & Hbd & Hvd). rewrite Hv in Hvd.
  change SMSC911X_EEPROM_SIZE with 128. rewrite Z.min_l by lia.
  destruct (read_loop_spec (Z.to_nat len) 0 stack (with_chip s d) mem we dat)
    as (dat' & d' & E' & Hb' & Hv'); [done..|lia|done|].
  rewrite Z2Nat.id in E' by done. change (Z.to_nat 0) with 0%nat in E'. rewrite take_0 in E'. cbn [app Nat.add] in E'.
  exists dat', d'. split; [|done]. unfold mbind, drv_bind. rewrite E, E'. cbn [Z.ltb Z.compare].
  rewrite length_app, length_fmap, length_seqZ, length_drop, Hst.
  rewrite (proj2 (Z.leb_le 0 offset)), (proj2 (Z.leb_le (offset + len) _)) by lia. done.
Qed.

Lemma set_eeprom_spec offset v s mem we dat :
  ready s -> pd s = p -> e2p_busy (chip s) = 0%nat -> e2p_view (chip s) = (mem, we, dat) -> is_u8 offset ->
  exists mem', (forall i, mem' i = if i =? offset then v else mem i) /\
  erun (smsc911x_ethtool_set_eeprom offset v) s 0 (mem', false, v).
Proof.
  intros Hr Hp Hb Hv Ho. unfold smsc911x_ethtool_set_eeprom.
  replace (u8 offset) with offset by (symmetry; by apply Z.mod_small).
  destruct (enable_access_spec s Hr Hp Hb) as (d & E & Hbd & Hvd). rewrite Hv in Hvd.
  destruct (send_cmd_spec E2P_CMD_EPC_CMD_EWEN_ (with_chip s d)) as (d1 & E1 & Hb1 & Hv1); [done..|].
  cbn [chip with_chip] in Hv1. rewrite Hvd in Hv1.
  destruct (write_location_spec offset v (with_chip (with_chip s d) d1) mem true dat)
    as (mem' & Hm & d2 & E2 & Hb2 & Hv2); [done..|].
  destruct (send_cmd_spec E2P_CMD_EPC_CMD_EWDS_ (with_chip (with_chip (with_chip s d) d1) d2))
    as (d3 & E3 & Hb3 & Hv3); [done..|].
  cbn [chip with_chip] in Hv3. rewrite Hv2 in Hv3.
  exists mem'. split; [exact Hm|]. exists d3. unfold mbind, drv_bind. rewrite E, E1, E2, E3. done.
Qed.

(** C20: A byte written through ethtool is read back through it: after
    [smsc911x_ethtool_set_eeprom] at a location (which enables writing, erases,
    writes and disables writing again), [smsc911x_ethtool_get_eeprom] of the whole
    EEPROM returns its old contents with that byte replaced, for every EEPROM
    controller that keeps its protocol and is busy for at most 99 polls. *)
Theorem eeprom_roundtrip stack offset v s mem we dat :
  ready s -> pd s = p -> e2p_busy (chip s) = 0%nat -> e2p_view (chip s) = (mem, we, dat) ->
  length stack = 128%nat -> 0 <= offset < 128 -> is_u8 v ->
  exists d,
    (r ← smsc911x_ethtool_set_eeprom offset v;
     x ← smsc911x_ethtool_get_eeprom stack 0 128; mret (r, x)) s
    = Ret (0, (0, 128, <[Z.to_nat offset := v]> (u8 ∘ mem <$> seqZ 0 128))) (with_chip s d) /\
    (e2p_view d).1.2 = false.
Proof.
  intros Hr Hp Hb Hv Hst Ho Hu.
  destruct (set_eeprom_spec offset v s mem we dat) as (mem' & Hm & d & E & Hbd & Hvd);
    [done..|unfold is_word; lia|].
  destruct (get_eeprom_spec stack 0 128 (with_chip s d) mem' false v)
    as (dat' & d' & E' & Hb' & Hv'); [done..|].
  exists d'. split; [|by rewrite Hv']. unfold mbind, drv_bind. rewrite E, E'.
  cbn [mret drv_ret]. do 3 f_equal. rewrite drop_0, drop_ge, app_nil_r by (rewrite Hst; done).
  rewrite take_ge by (rewrite length_fmap, length_seqZ; lia).
  apply list_eq. intros k. rewrite list_lookup_fmap.
  destruct (decide (k < 128)%nat) as [Hk|Hk].
  - rewrite lookup_seqZ_lt by lia. cbn [fmap option_fmap option_map].
    destruct (decide (k = Z.to_nat offset)) as [->|Hne].
    + rewrite list_lookup_insert_eq by (rewrite length_fmap, length_seqZ; lia).
      unfold compose. rewrite Hm, (proj2 (Z.eqb_eq _ _)) by lia. f_equal. by apply Z.mod_small.
    + rewrite list_lookup_insert_ne by done. rewrite list_lookup_fmap, lookup_seqZ_lt by lia.
      cbn. unfold compose. rewrite Hm, (proj2 (Z.eqb_neq _ _)) by lia. done.
  - rewrite lookup_seqZ_ge by lia. symmetry. apply lookup_ge_None.
    rewrite length_insert, length_fmap, length_seqZ. lia.
Qed.

(** [smsc911x_ethtool_get_eeprom] reads the first [len] locations, whatever
    the offset, and returns [len] bytes from the offset on.  At offset zero these are
    the contents; in general the last [min offset len] bytes are not read at all but
    are what the kernel stack held, and from an offset not below [len] the whole
    answer is. *)
Theorem eeprom_read_window stack offset len s mem we dat :
  ready s -> pd s = p -> e2p_busy (chip s) = 0%nat -> e2p_view (chip s) = (mem, we, dat) ->
  length stack = 128%nat -> 0 <= offset -> 0 <= len -> offset + len <= 128 ->
  exists d bytes,
    smsc911x_ethtool_get_eeprom stack offset len s = Ret (0, len, bytes) (with_chip s d) /\
    bytes = (u8 ∘ mem <$> seqZ offset (len - offset))
              ++ take (Z.to_nat (Z.min offset len)) (drop (Z.to_nat (Z.max offset len)) stack).
Proof.
  intros Hr Hp Hb Hv Hst Ho Hl Hol.
  destruct (get_eeprom_spec stack offset len s mem we dat) as (dat' & d & E & _); [done..|].
  exists d. eexists. split; [exact E|]. rewrite drop_app, <- fmap_drop, take_app.
  rewrite length_fmap, length_drop, drop_drop, length_fmap, length_seqZ.
  destruct (decide (offset <= len)).
  - rewrite drop_seqZ, Z.max_r, Z.min_l by lia.
    rewrite (take_ge (_ <$> _)) by (rewrite length_fmap, length_seqZ; lia).
    rewrite !Z2Nat.id by lia. f_equal. f_equal; [lia|]. f_equal. lia.
  - rewrite Z.max_l, Z.min_r by lia.
    rewrite (drop_ge (seqZ _ _)) by (rewrite length_seqZ; lia).
    rewrite (seqZ_nil offset) by lia. cbn [fmap list_fmap app length]. rewrite take_nil.
    cbn [app].
    f_equal; [lia|]. f_equal. lia.
Qed.
End EepromSpec.

(** ** An example: an EEPROM that is busy for three polls *)

Record e2p_demo := mk_e2p_demo { e_state : e2p_state; e_busy : nat }.

Definition e2p_demo_read (o : Z) (d : e2p_demo) : Z * e2p_demo :=
  if o =? E2P_CMD then
    ((if decide (e_busy d = 0%nat) then 0 else E2P_CMD_EPC_BUSY_), mk_e2p_demo (e_state d) (pred (e_busy d)))
  else if o =? E2P_DATA then ((e_state d).2, d)
  else (0, d).

Definition e2p_demo_write (v o : Z) (d : e2p_demo) : e2p_demo :=
  if o =? E2P_CMD then mk_e2p_demo (e2p_exec v (e_state d)) 3
  else if o =? E2P_DATA then mk_e2p_demo ((e_state d).1, v) (e_busy d)
  else d.

Definition e2p_demo_chip : Smsc e2p_demo := {|
  readl := e2p_demo_read; writel := e2p_demo_write;
  readw _ d := (0, d); writew _ _ d := d; chip_delay _ d := d |}.

Lemma exec_busy op st : e2p_exec (Z.lor op E2P_CMD_EPC_BUSY_) st = e2p_exec op st.
Proof.
  unfold e2p_exec. rewrite !Z.land_lor_distr_l.
  change (Z.land E2P_CMD_EPC_BUSY_ 0x70000000) with 0.
  change (Z.land E2P_CMD_EPC_BUSY_ 0xff) with 0. by rewrite !Z.lor_0_r.
Qed.

Definition e2p_demo_protocol : @EepromChip e2p_demo e2p_demo_chip (demo_pdata SMSC911X_USE_32BIT).
Proof.
  refine (@Build_EepromChip _ e2p_demo_chip (demo_pdata SMSC911X_USE_32BIT) e_state e_busy _ _ _ _ _).
  - intros d. change (bus_read _ E2P_CMD d) with (e2p_demo_read E2P_CMD d).
    unfold e2p_demo_read. cbn [Z.eqb E2P_CMD Pos.eqb fst snd e_busy e_state].
    by destruct (e_busy d); vm_compute.
  - intros d op _. change (bus_write _ E2P_CMD ?v d) with (e2p_demo_write v E2P_CMD d).
    unfold e2p_demo_write. cbn [Z.eqb E2P_CMD Pos.eqb e_busy e_state]. rewrite exec_busy. split; [lia|done].
  - done.
  - done.
  - intros d v us. by repeat split.
Defined.

Definition e2p_demo_state : dstate e2p_demo :=
  mk_dstate (mk_e2p_demo ((fun i => 2 * i), false, 0) 0)
    (demo_pdata SMSC911X_USE_32BIT) demo_netdev 0 [].

Lemma eeprom_roundtrip_witness :
  exists d, (r ← @smsc911x_ethtool_set_eeprom _ e2p_demo_chip 5 0x77;
     x ← @smsc911x_ethtool_get_eeprom _ e2p_demo_chip (replicate 128 0xcc) 0 128; mret (r, x)) e2p_demo_state
    = Ret (0, (0, 128, [0; 2; 4; 6; 8; 0x77] ++ map (fun i => u8 (2 * i)) (seqZ 6 122))) (with_chip e2p_demo_state d).
Proof.
  destruct (@eeprom_roundtrip _ e2p_demo_chip _ e2p_demo_protocol (replicate 128 0xcc) 5 0x77
    e2p_demo_state (fun i => 2 * i) false 0) as (d & H & _).
  - split; [reflexivity|left; reflexivity].
  - reflexivity.
  - reflexivity.
  - reflexivity.
  - reflexivity.
  - lia.
  - unfold is_word. lia.
  - exists d. etransitivity; [exact H|]. reflexivity.
Defined.

Lemma eeprom_read_window_witness :
  exists d, @smsc911x_ethtool_get_eeprom _ e2p_demo_chip (replicate 128 0xcc) 2 3 e2p_demo_state
    = Ret (0, 3, [4; 0xcc; 0xcc]) (with_chip e2p_demo_state d).
Proof.
  destruct (@eeprom_read_window _ e2p_demo_chip _ e2p_demo_protocol (replicate 128 0xcc) 2 3
    e2p_demo_state (fun i => 2 * i) false 0) as (d & bytes & H & Hb).
  - split; [reflexivity|left; reflexivity].
  - reflexivity.
  - reflexivity.
  - reflexivity.
  - reflexivity.
  - lia.
  - lia.
  - lia.
  - exists d. etransitivity; [exact H|]. rewrite Hb. reflexivity.
Defined.
