(* ===== verification/PhyLib.v ===== *)
(** * The PHY library of the kernel, as the network driver uses it
    (linux/drivers/net/phy/phy.c, phy_device.c, mdio_bus.c and smsc.c;
    linux/include/linux/phy.h, mii.h, ethtool.h and smscphy.h)

    The PHY drivers for this chip, negotiation and forced settings, the state machine
    that follows the link and tells the network driver, the settings that ethtool
    reads and writes, power management, the search for PHYs on a bus, and the
    interrupt line of a PHY.  The registers of a PHY are reached through
    [smsc911x_mii_read] and [smsc911x_mii_write].  No board with this chip registers a
    fixup, so that [phy_scan_fixups], which is in PhyRegistry.v, has nothing to run. *)

From stdpp Require Import gmap.
From S2P Require Import Prelude SmscDefs SmscIo SmscMac SmscRun SmscPhy.

(** ** Constants *)

(** mii.h *)
Definition MII_BMSR : Z := 0x01.
Definition MII_PHYSID1 : Z := 0x02.
Definition MII_PHYSID2 : Z := 0x03.
Definition MII_CTRL1000 : Z := 0x09.
Definition MII_STAT1000 : Z := 0x0a.
Definition MII_ESTATUS : Z := 0x0f.
Definition BMCR_SPEED1000 : Z := 0x0040.
Definition BMCR_ANRESTART : Z := 0x0200.
Definition BMCR_ISOLATE : Z := 0x0400.
Definition BMCR_PDOWN : Z := 0x0800.
Definition BMCR_ANENABLE : Z := 0x1000.
Definition BMCR_SPEED100 : Z := 0x2000.
Definition BMSR_LSTATUS : Z := 0x0004.
Definition BMSR_ANEGCAPABLE : Z := 0x0008.
Definition BMSR_ANEGCOMPLETE : Z := 0x0020.
Definition BMSR_ESTATEN : Z := 0x0100.
Definition BMSR_10HALF : Z := 0x0800.
Definition BMSR_10FULL : Z := 0x1000.
Definition BMSR_100HALF : Z := 0x2000.
Definition BMSR_100FULL : Z := 0x4000.
Definition ADVERTISE_10HALF : Z := 0x0020.
Definition ADVERTISE_10FULL : Z := 0x0040.
Definition ADVERTISE_100HALF : Z := 0x0080.
Definition ADVERTISE_100FULL : Z := 0x0100.
Definition ADVERTISE_100BASE4 : Z := 0x0200.
Definition ADVERTISE_ALL : Z :=
  Z.lor (Z.lor ADVERTISE_10HALF ADVERTISE_10FULL) (Z.lor ADVERTISE_100HALF ADVERTISE_100FULL).
Definition LPA_10FULL : Z := 0x0040.
Definition LPA_100HALF : Z := 0x0080.
Definition LPA_100FULL : Z := 0x0100.
Definition LPA_PAUSE_CAP : Z := 0x0400.
Definition LPA_PAUSE_ASYM : Z := 0x0800.
Definition ESTATUS_1000_TFULL : Z := 0x2000.
Definition ESTATUS_1000_THALF : Z := 0x1000.
Definition ADVERTISE_1000FULL : Z := 0x0200.
Definition ADVERTISE_1000HALF : Z := 0x0100.
Definition LPA_1000FULL : Z := 0x0800.
Definition LPA_1000HALF : Z := 0x0400.

(** smscphy.h *)
Definition MII_LAN83C185_ISF : Z := 29.
Definition MII_LAN83C185_IM : Z := 30.
Definition MII_LAN83C185_CTRL_STATUS : Z := 17.
Definition MII_LAN83C185_ISF_INT_PHYLIB_EVENTS : Z := 0x00d0.
Definition MII_LAN83C185_EDPWRDOWN : Z := 0x2000.
Definition MII_LAN83C185_ENERGYON : Z := 0x0002.

(** ethtool.h; [ADVERTISED_] has the bits of [SUPPORTED_] *)
Definition SUPPORTED_10baseT_Half : Z := 0x0001.
Definition SUPPORTED_10baseT_Full : Z := 0x0002.
Definition SUPPORTED_100baseT_Half : Z := 0x0004.
Definition SUPPORTED_100baseT_Full : Z := 0x0008.
Definition SUPPORTED_1000baseT_Half : Z := 0x0010.
Definition SUPPORTED_1000baseT_Full : Z := 0x0020.
Definition SUPPORTED_Autoneg : Z := 0x0040.
Definition SUPPORTED_TP : Z := 0x0080.
Definition SUPPORTED_AUI : Z := 0x0100.
Definition SUPPORTED_MII : Z := 0x0200.
Definition SUPPORTED_FIBRE : Z := 0x0400.
Definition SUPPORTED_BNC : Z := 0x0800.
Definition SUPPORTED_10000baseT_Full : Z := 0x1000.
Definition SUPPORTED_Pause : Z := 0x2000.
Definition SUPPORTED_Asym_Pause : Z := 0x4000.
Definition ADVERTISED_Autoneg : Z := 0x0040.
Definition SPEED_10 : Z := 10.
Definition SPEED_100 : Z := 100.
Definition SPEED_1000 : Z := 1000.
Definition DUPLEX_HALF : Z := 0x00.
Definition PORT_MII : Z := 0x02.
Definition XCVR_EXTERNAL : Z := 0x01.
Definition AUTONEG_DISABLE : Z := 0x00.
Definition AUTONEG_ENABLE : Z := 0x01.

(** phy.h, sockios.h, irqreturn.h *)
Definition PHY_BASIC_FEATURES : Z := 0x02cf.
Definition PHY_HAS_INTERRUPT : Z := 0x00000001.
Definition PHY_HAS_MAGICANEG : Z := 0x00000002.
Definition PHY_FORCE_TIMEOUT : Z := 10.
Definition PHY_AN_TIMEOUT : Z := 10.
Definition PHY_MAX_ADDR : Z := 32.
Definition PHY_POLL : Z := -1.
Definition PHY_INTERRUPT_DISABLED : Z := 0x0.
Definition PHY_INTERRUPT_ENABLED : Z := 0x80000000.
Definition IRQ_NONE : Z := 0.
Definition IRQ_HANDLED : Z := 1.
Definition SIOCGMIIPHY : Z := 0x8947.
Definition SIOCGMIIREG : Z := 0x8948.
Definition SIOCSMIIREG : Z := 0x8949.
Definition SIOCSHWTSTAMP : Z := 0x89b0.

(** [enum phy_state] as numbers *)
Definition phy_state_num (v : phy_state) : Z :=
  match v with
  | PHY_DOWN => 0 | PHY_STARTING => 1 | PHY_READY => 2 | PHY_PENDING => 3 | PHY_UP => 4
  | PHY_AN => 5 | PHY_RUNNING => 6 | PHY_NOLINK => 7 | PHY_FORCING => 8
  | PHY_CHANGELINK => 9 | PHY_HALTED => 10 | PHY_RESUMING => 11
  end.

#[export] Instance phy_state_eq_dec : EqDecision phy_state.
Proof. solve_decision. Defined.
#[export] Instance phy_driver_eq_dec : EqDecision phy_driver.
Proof. solve_decision. Defined.

(** ** Speed and duplex *)

(** [struct phy_setting] *)
Record phy_setting := mk_setting { set_speed_to : Z; set_duplex_to : Z; setting : Z }.

(** The table [settings], from the fastest mode to the slowest *)
Definition settings : list phy_setting :=
  [mk_setting 10000 DUPLEX_FULL SUPPORTED_10000baseT_Full;
   mk_setting SPEED_1000 DUPLEX_FULL SUPPORTED_1000baseT_Full;
   mk_setting SPEED_1000 DUPLEX_HALF SUPPORTED_1000baseT_Half;
   mk_setting SPEED_100 DUPLEX_FULL SUPPORTED_100baseT_Full;
   mk_setting SPEED_100 DUPLEX_HALF SUPPORTED_100baseT_Half;
   mk_setting SPEED_10 DUPLEX_FULL SUPPORTED_10baseT_Full;
   mk_setting SPEED_10 DUPLEX_HALF SUPPORTED_10baseT_Half].

Definition MAX_NUM_SETTINGS : nat := 7.

(** [while (idx < MAX_NUM_SETTINGS && !ok(settings[idx])) idx++;], in at most [n] steps *)
Fixpoint search (ok : phy_setting -> bool) (n idx : nat) : nat :=
  match n with
  | O => idx
  | S n =>
      match settings !! idx with
      | Some x => if ok x then idx else search ok n (S idx)
      | None => idx
      end
  end.

(** [return idx < MAX_NUM_SETTINGS ? idx : MAX_NUM_SETTINGS - 1;] *)
Definition last_if_none (idx : nat) : nat :=
  if bool_decide (idx < MAX_NUM_SETTINGS)%nat then idx else (MAX_NUM_SETTINGS - 1)%nat.

Definition phy_find_setting (speed duplex : Z) : nat :=
  last_if_none (search (fun x => (set_speed_to x =? speed) && (set_duplex_to x =? duplex)) MAX_NUM_SETTINGS 0).

Definition phy_find_valid (idx : nat) (features : Z) : nat :=
  last_if_none (search (fun x => has (setting x) features) MAX_NUM_SETTINGS idx).

(** [phydev->speed = settings[idx].speed; phydev->duplex = settings[idx].duplex;] *)
Definition take_setting (idx : nat) (y : phy_device) : phy_device :=
  match settings !! idx with
  | Some x => set_duplex (set_duplex_to x) (set_speed (set_speed_to x) y)
  | None => y
  end.

Definition phy_sanitize_settings (y : phy_device) : phy_device :=
  let y := if Z.land (supported y) SUPPORTED_Autoneg =? 0 then set_autoneg AUTONEG_DISABLE y else y in
  take_setting (phy_find_valid (phy_find_setting (speed y) (duplex y)) (supported y)) y.

Definition phy_force_reduction (y : phy_device) : phy_device :=
  take_setting (phy_find_valid (S (phy_find_setting (speed y) (duplex y))) (supported y)) y.

(** ** The drivers *)

(** [.phy_id], [.phy_id_mask], [.features] and [.flags] of the drivers *)
Definition drv_phy_id (d : phy_driver) : Z :=
  match d with
  | genphy_driver => 0xffffffff
  | lan83c185_driver => 0x0007c0a0
  | lan8187_driver => 0x0007c0b0
  | lan8700_driver => 0x0007c0c0
  | lan911x_int_driver => 0x0007c0d0
  | lan8710_driver => 0x0007c0f0
  end.
Definition drv_phy_id_mask (d : phy_driver) : Z :=
  match d with genphy_driver => 0xffffffff | _ => 0xfffffff0 end.
Definition drv_features (d : phy_driver) : Z :=
  match d with
  | genphy_driver => 0
  | _ => Z.lor (Z.lor PHY_BASIC_FEATURES SUPPORTED_Pause) SUPPORTED_Asym_Pause
  end.
Definition drv_flags (d : phy_driver) : Z :=
  match d with genphy_driver => 0 | _ => Z.lor PHY_HAS_INTERRUPT PHY_HAS_MAGICANEG end.

(** [ethtool_adv_to_mii_adv_t] and [ethtool_adv_to_mii_ctrl1000_t] *)
Definition add_if (b : bool) (m x : Z) : Z := if b then Z.lor x m else x.

Definition ethtool_adv_to_mii_adv_t (ethadv : Z) : Z :=
  let r := add_if (has ethadv SUPPORTED_10baseT_Half) ADVERTISE_10HALF 0 in
  let r := add_if (has ethadv SUPPORTED_10baseT_Full) ADVERTISE_10FULL r in
  let r := add_if (has ethadv SUPPORTED_100baseT_Half) ADVERTISE_100HALF r in
  let r := add_if (has ethadv SUPPORTED_100baseT_Full) ADVERTISE_100FULL r in
  let r := add_if (has ethadv SUPPORTED_Pause) ADVERTISE_PAUSE_CAP r in
  add_if (has ethadv SUPPORTED_Asym_Pause) ADVERTISE_PAUSE_ASYM r.

Definition ethtool_adv_to_mii_ctrl1000_t (ethadv : Z) : Z :=
  let r := add_if (has ethadv SUPPORTED_1000baseT_Half) ADVERTISE_1000HALF 0 in
  add_if (has ethadv SUPPORTED_1000baseT_Full) ADVERTISE_1000FULL r.

Section PhyDrivers.
Context {D : Type} `{!Smsc D}.

(** Functions of a PHY: the result and the [phy_device] they leave. *)
Notation phy_op := (phy_device -> drv D (Z * phy_device)).

(** [phy_read] and [phy_write]: [mdiobus_read] and [mdiobus_write] call the functions of
    the bus under a mutex that these do not take. *)
Definition phy_read (y : phy_device) (regnum : Z) : drv D Z := smsc911x_mii_read (phy_addr y) regnum.
Definition phy_write (y : phy_device) (regnum val : Z) : drv D Z :=
  smsc911x_mii_write (phy_addr y) regnum (u16 val).

(** A step of [genphy_config_advert] on one register: negative on error, 0 if the
    register was right already, 1 if it was changed. *)
Definition update_adv (y : phy_device) (reg clear bits : Z) : drv D Z :=
  oldadv ← phy_read y reg;
  if oldadv <? 0 then mret oldadv
  else
    let adv := Z.lor (Z.land oldadv (Z.lnot clear)) bits in
    if negb (adv =? oldadv) then
      err ← phy_write y reg adv;
      mret (if err <? 0 then err else 1)
    else mret 0.

Definition genphy_config_advert : phy_op := fun y =>
  let y := set_advertising (Z.land (advertising y) (supported y)) y in
  let advertise := advertising y in
  changed ← update_adv y MII_ADVERTISE
              (Z.lor (Z.lor (Z.lor ADVERTISE_ALL ADVERTISE_100BASE4) ADVERTISE_PAUSE_CAP)
                 ADVERTISE_PAUSE_ASYM) (ethtool_adv_to_mii_adv_t advertise);
  if changed <? 0 then mret (changed, y)
  else if has (supported y) (Z.lor SUPPORTED_1000baseT_Half SUPPORTED_1000baseT_Full) then
    changed' ← update_adv y MII_CTRL1000 (Z.lor ADVERTISE_1000FULL ADVERTISE_1000HALF)
                 (ethtool_adv_to_mii_ctrl1000_t advertise);
    mret (if changed' =? 0 then changed else changed', y)
  else mret (changed, y).

(** The control register for a forced mode *)
Definition forced_ctl (speed duplex : Z) : Z :=
  let ctl := if speed =? SPEED_1000 then BMCR_SPEED1000
             else if speed =? SPEED_100 then BMCR_SPEED100 else 0 in
  add_if (duplex =? DUPLEX_FULL) BMCR_FULLDPLX ctl.

Definition genphy_setup_forced : phy_op := fun y =>
  let y := set_asym_pause 0 (set_pause 0 y) in
  err ← phy_write y MII_BMCR (forced_ctl (speed y) (duplex y));
  mret (err, y).

Definition genphy_restart_aneg : phy_op := fun y =>
  ctl ← phy_read y MII_BMCR;
  if ctl <? 0 then mret (ctl, y)
  else
    let ctl := Z.lor ctl (Z.lor BMCR_ANENABLE BMCR_ANRESTART) in
    let ctl := Z.land ctl (Z.lnot BMCR_ISOLATE) in
    ctl ← phy_write y MII_BMCR ctl;
    mret (ctl, y).

Definition genphy_config_aneg : phy_op := fun y =>
  if negb (autoneg y =? AUTONEG_ENABLE) then genphy_setup_forced y
  else
    '(result, y) ← genphy_config_advert y;
    if result <? 0 then mret (result, y)
    else
      result ← (if result =? 0 then
                  ctl ← phy_read y MII_BMCR;
                  mret (if ctl <? 0 then ctl
                        else if negb (has ctl BMCR_ANENABLE) || has ctl BMCR_ISOLATE then 1 else 0)
                else mret result);
      if 0 <? result then genphy_restart_aneg y else mret (result, y).

Definition genphy_update_link : phy_op := fun y =>
  status ← phy_read y MII_BMSR;
  if status <? 0 then mret (status, y)
  else
    status ← phy_read y MII_BMSR;
    if status <? 0 then mret (status, y)
    else mret (0, set_link (if Z.land status BMSR_LSTATUS =? 0 then 0 else 1) y).

(** What both sides can do, and the mode that follows: [genphy_read_status] with
    negotiation, from the common abilities [lpa] and [lpagb] *)
Definition negotiated (lpagb lpa : Z) (y : phy_device) : phy_device :=
  let y := set_asym_pause 0 (set_pause 0 (set_duplex DUPLEX_HALF (set_speed SPEED_10 y))) in
  let y := if has lpagb (Z.lor LPA_1000FULL LPA_1000HALF) then
             let y := set_speed SPEED_1000 y in
             if has lpagb LPA_1000FULL then set_duplex DUPLEX_FULL y else y
           else if has lpa (Z.lor LPA_100FULL LPA_100HALF) then
             let y := set_speed SPEED_100 y in
             if has lpa LPA_100FULL then set_duplex DUPLEX_FULL y else y
           else if has lpa LPA_10FULL then set_duplex DUPLEX_FULL y else y in
  if duplex y =? DUPLEX_FULL then
    set_asym_pause (if has lpa LPA_PAUSE_ASYM then 1 else 0)
      (set_pause (if has lpa LPA_PAUSE_CAP then 1 else 0) y)
  else y.

(** [genphy_read_status] without negotiation, from the control register *)
Definition forced (bmcr : Z) (y : phy_device) : phy_device :=
  let y := set_duplex (if has bmcr BMCR_FULLDPLX then DUPLEX_FULL else DUPLEX_HALF) y in
  let y := set_speed (if has bmcr BMCR_SPEED1000 then SPEED_1000
                      else if has bmcr BMCR_SPEED100 then SPEED_100 else SPEED_10) y in
  set_asym_pause 0 (set_pause 0 y).

(** The gigabit part: a negative error, or the common abilities *)
Definition read_lpagb (y : phy_device) : drv D Z :=
  if has (supported y) (Z.lor SUPPORTED_1000baseT_Half SUPPORTED_1000baseT_Full) then
    lpagb ← phy_read y MII_STAT1000;
    if lpagb <? 0 then mret lpagb
    else
      adv ← phy_read y MII_CTRL1000;
      mret (if adv <? 0 then adv else Z.land lpagb (Z.shiftl adv 2))
  else mret 0.

Definition genphy_read_status : phy_op := fun y =>
  '(err, y) ← genphy_update_link y;
  if negb (err =? 0) then mret (err, y)
  else if autoneg y =? AUTONEG_ENABLE then
    lpagb ← read_lpagb y;
    if lpagb <? 0 then mret (lpagb, y)
    else
      lpa ← phy_read y MII_LPA;
      if lpa <? 0 then mret (lpa, y)
      else
        adv ← phy_read y MII_ADVERTISE;
        if adv <? 0 then mret (adv, y)
        else mret (0, negotiated lpagb (Z.land lpa adv) y)
  else
    bmcr ← phy_read y MII_BMCR;
    if bmcr <? 0 then mret (bmcr, y) else mret (0, forced bmcr y).

(** The abilities that the status registers of a PHY report *)
Definition bmsr_features (val : Z) : Z :=
  let f := Z.lor (Z.lor (Z.lor (Z.lor SUPPORTED_TP SUPPORTED_MII) SUPPORTED_AUI) SUPPORTED_FIBRE)
             SUPPORTED_BNC in
  let f := add_if (has val BMSR_ANEGCAPABLE) SUPPORTED_Autoneg f in
  let f := add_if (has val BMSR_100FULL) SUPPORTED_100baseT_Full f in
  let f := add_if (has val BMSR_100HALF) SUPPORTED_100baseT_Half f in
  let f := add_if (has val BMSR_10FULL) SUPPORTED_10baseT_Full f in
  add_if (has val BMSR_10HALF) SUPPORTED_10baseT_Half f.

Definition estatus_features (val features : Z) : Z :=
  let f := add_if (has val ESTATUS_1000_TFULL) SUPPORTED_1000baseT_Full features in
  add_if (has val ESTATUS_1000_THALF) SUPPORTED_1000baseT_Half f.

Definition genphy_config_init : phy_op := fun y =>
  let supports f := set_advertising f (set_supported f y) in
  val ← phy_read y MII_BMSR;
  if val <? 0 then mret (val, y)
  else if has val BMSR_ESTATEN then
    val' ← phy_read y MII_ESTATUS;
    if val' <? 0 then mret (val', y)
    else mret (0, supports (estatus_features val' (bmsr_features val)))
  else mret (0, supports (bmsr_features val)).

(** smsc.c *)
Definition smsc_phy_config_intr (y : phy_device) : drv D Z :=
  rc ← phy_write y MII_LAN83C185_IM
         (if interrupts y =? PHY_INTERRUPT_ENABLED then MII_LAN83C185_ISF_INT_PHYLIB_EVENTS else 0);
  mret (if rc <? 0 then rc else 0).

Definition smsc_phy_ack_interrupt (y : phy_device) : drv D Z :=
  rc ← phy_read y MII_LAN83C185_ISF;
  mret (if rc <? 0 then rc else 0).

Definition smsc_phy_config_init (y : phy_device) : drv D Z :=
  rc ← phy_read y MII_LAN83C185_CTRL_STATUS;
  if rc <? 0 then mret rc
  else
    rc ← phy_write y MII_LAN83C185_CTRL_STATUS (Z.lor rc MII_LAN83C185_EDPWRDOWN);
    if rc <? 0 then mret rc else smsc_phy_ack_interrupt y.

Definition lan911x_config_init (y : phy_device) : drv D Z := smsc_phy_ack_interrupt y.

(** The functions of the drivers; [.config_aneg] and [.read_status] are the generic
    ones in all of them. *)
Definition drv_config_init (d : phy_driver) : phy_op := fun y =>
  match d with
  | genphy_driver => genphy_config_init y
  | lan911x_int_driver => r ← lan911x_config_init y; mret (r, y)
  | _ => r ← smsc_phy_config_init y; mret (r, y)
  end.

(** The driver of a PHY, through a pointer *)
Definition get_drv (y : phy_device) : drv D phy_driver :=
  match phy_drv y with Some d => mret d | None => halt NullPointer end.

(** [phy_init_hw] *)
Definition phy_init_hw : phy_op := fun y =>
  match phy_drv y with Some d => drv_config_init d y | None => mret (0, y) end.

(** [phy_clear_interrupt] and [phy_config_interrupt]: the generic driver has neither
    function. *)
Definition phy_clear_interrupt (y : phy_device) : drv D Z :=
  d ← get_drv y;
  match d with genphy_driver => mret 0 | _ => smsc_phy_ack_interrupt y end.

Definition phy_config_interrupt (i : Z) : phy_op := fun y =>
  let y := set_interrupts i y in
  d ← get_drv y;
  err ← (match d with genphy_driver => mret 0 | _ => smsc_phy_config_intr y end);
  mret (err, y).

(** [phy_aneg_done] *)
Definition phy_aneg_done (y : phy_device) : drv D Z :=
  retval ← phy_read y MII_BMSR;
  mret (if retval <? 0 then retval else Z.land retval BMSR_ANEGCOMPLETE).

(** [phy_read_status], [drv->config_aneg] *)
Definition phy_read_status : phy_op := fun y => _ ← get_drv y; genphy_read_status y.
Definition config_aneg : phy_op := fun y => _ ← get_drv y; genphy_config_aneg y.

(** ** The PHY of the interface *)

(** The PHY behind [pdata->phy_dev] *)
Definition get_phy : drv D phy_device :=
  p ← get_pd;
  match phy_dev p with Some y => mret y | None => halt NullPointer end.

Definition upd_phy (f : phy_device -> phy_device) : drv D unit :=
  y ← get_phy; upd_pd (set_phy_dev (Some (f y))).

Definition on_phy (f : phy_op) : drv D Z :=
  y ← get_phy;
  '(r, y) ← f y;
  _ ← upd_pd (set_phy_dev (Some y));
  mret r.

(** [mutex_lock(&phydev->lock)] and [mutex_unlock(&phydev->lock)] *)
Definition lock_phy : drv D unit :=
  y ← get_phy; if phy_lock y then halt Deadlock else upd_phy (set_phy_lock true).
Definition unlock_phy : drv D unit :=
  y ← get_phy; if phy_lock y then upd_phy (set_phy_lock false) else halt BadUnlock.

(** [phy_start], [phy_stop] and [phy_error] *)
Definition phy_start : drv D unit :=
  _ ← lock_phy;
  _ ← upd_phy (fun y => match state y with
                        | PHY_STARTING => set_state PHY_PENDING y
                        | PHY_READY => set_state PHY_UP y
                        | PHY_HALTED => set_state PHY_RESUMING y
                        | _ => y
                        end);
  unlock_phy.

Definition phy_stop : drv D unit :=
  _ ← lock_phy;
  y ← get_phy;
  _ ← (if bool_decide (state y = PHY_HALTED) then mret tt
       else
         _ ← (if negb (irq (line y) =? PHY_POLL) then
                _ ← on_phy (phy_config_interrupt PHY_INTERRUPT_DISABLED);
                y ← get_phy;
                _ ← phy_clear_interrupt y;
                mret tt
              else mret tt);
         upd_phy (set_state PHY_HALTED));
  unlock_phy.

Definition phy_error : drv D unit :=
  _ ← lock_phy; _ ← upd_phy (set_state PHY_HALTED); unlock_phy.

(** [phy_stop_machine]; [phy_start_machine] only schedules the work. *)
Definition phy_stop_machine : drv D unit :=
  _ ← lock_phy;
  _ ← upd_phy (fun y => if phy_state_num PHY_UP <? phy_state_num (state y) then set_state PHY_UP y else y);
  unlock_phy.

(** [phy_start_aneg] *)
Definition phy_start_aneg : drv D Z :=
  _ ← lock_phy;
  _ ← upd_phy (fun y => if autoneg y =? AUTONEG_DISABLE then phy_sanitize_settings y else y);
  err ← on_phy config_aneg;
  _ ← (if err <? 0 then mret tt
       else upd_phy (fun y =>
              if bool_decide (state y = PHY_HALTED) then y
              else if autoneg y =? AUTONEG_ENABLE then
                set_link_timeout PHY_AN_TIMEOUT (set_state PHY_AN y)
              else set_link_timeout PHY_FORCE_TIMEOUT (set_state PHY_FORCING y)));
  _ ← unlock_phy;
  mret err.

(** [genphy_suspend] and [genphy_resume], the functions of all the drivers *)
Definition genphy_suspend : drv D Z :=
  _ ← lock_phy;
  y ← get_phy;
  value ← phy_read y MII_BMCR;
  _ ← phy_write y MII_BMCR (Z.lor value BMCR_PDOWN);
  _ ← unlock_phy;
  mret 0.

Definition genphy_resume : drv D Z :=
  _ ← lock_phy;
  y ← get_phy;
  value ← phy_read y MII_BMCR;
  _ ← phy_write y MII_BMCR (Z.land value (Z.lnot BMCR_PDOWN));
  _ ← unlock_phy;
  mret 0.

(** *** The state machine *)

(** sch_generic.c *)
Definition netif_carrier_on : drv D unit := upd_nd (set_carrier_ok 1).
Definition netif_carrier_off : drv D unit := upd_nd (set_carrier_ok 0).

(** [if (phydev->link) ...], with the handler of the network driver *)
Definition link_is_up : drv D bool := y ← get_phy; mret (negb (link y =? 0)).

Definition running_link : drv D unit :=
  _ ← upd_phy (set_state PHY_RUNNING);
  netif_carrier_on.

(** The cases of [phy_state_machine]: [needs_aneg] and [err] *)
Definition case_an : drv D (bool * Z) :=
  err ← on_phy phy_read_status;
  if err <? 0 then mret (false, err)
  else
    up ← link_is_up;
    if negb up then
      _ ← upd_phy (set_state PHY_NOLINK);
      _ ← netif_carrier_off;
      _ ← smsc911x_phy_adjust_link;
      mret (false, err)
    else
      y ← get_phy;
      err ← phy_aneg_done y;
      if err <? 0 then mret (false, err)
      else if 0 <? err then
        _ ← running_link;
        _ ← smsc911x_phy_adjust_link;
        mret (false, err)
      else
        _ ← upd_phy (set_link_timeout (link_timeout y - 1));
        if link_timeout y =? 0 then
          d ← get_drv y;
          if has (drv_flags d) PHY_HAS_MAGICANEG then mret (true, err)
          else
            _ ← upd_phy (fun y => set_autoneg AUTONEG_DISABLE (take_setting (phy_find_valid 0 (supported y)) y));
            mret (true, err)
        else mret (false, err).

Definition case_nolink : drv D (bool * Z) :=
  err ← on_phy phy_read_status;
  if negb (err =? 0) then mret (false, err)
  else
    up ← link_is_up;
    _ ← (if (up : bool) then _ ← running_link; smsc911x_phy_adjust_link else mret tt);
    mret (false, err).

Definition case_forcing : drv D (bool * Z) :=
  err ← on_phy genphy_update_link;
  if negb (err =? 0) then mret (false, err)
  else
    up ← link_is_up;
    needs_aneg ← (if (up : bool) then _ ← running_link; mret false
                  else
                    y ← get_phy;
                    _ ← upd_phy (set_link_timeout (link_timeout y - 1));
                    if link_timeout y =? 0 then _ ← upd_phy phy_force_reduction; mret true
                    else mret false);
    _ ← smsc911x_phy_adjust_link;
    mret (needs_aneg, err).

Definition case_changelink : drv D (bool * Z) :=
  err ← on_phy phy_read_status;
  if negb (err =? 0) then mret (false, err)
  else
    up ← link_is_up;
    _ ← (if (up : bool) then running_link
         else _ ← upd_phy (set_state PHY_NOLINK); netif_carrier_off);
    _ ← smsc911x_phy_adjust_link;
    y ← get_phy;
    if negb (irq (line y) =? PHY_POLL) then
      err ← on_phy (phy_config_interrupt PHY_INTERRUPT_ENABLED); mret (false, err)
    else mret (false, err).

Definition case_halted : drv D (bool * Z) :=
  up ← link_is_up;
  _ ← (if (up : bool) then
         _ ← upd_phy (set_link 0);
         _ ← netif_carrier_off;
         smsc911x_phy_adjust_link
       else mret tt);
  mret (false, 0).

(** The end of the case [PHY_RESUMING]: without a link the carrier is left alone. *)
Definition resume_link : drv D (bool * Z) :=
  err ← on_phy phy_read_status;
  if negb (err =? 0) then mret (false, err)
  else
    up ← link_is_up;
    _ ← (if (up : bool) then running_link else upd_phy (set_state PHY_NOLINK));
    _ ← smsc911x_phy_adjust_link;
    mret (false, err).

Definition case_resuming : drv D (bool * Z) :=
  y ← get_phy;
  err ← phy_clear_interrupt y;
  if negb (err =? 0) then mret (false, err)
  else
    err ← on_phy (phy_config_interrupt PHY_INTERRUPT_ENABLED);
    if negb (err =? 0) then mret (false, err)
    else
      y ← get_phy;
      if autoneg y =? AUTONEG_ENABLE then
        err ← phy_aneg_done y;
        if err <? 0 then mret (false, err)
        else if 0 <? err then resume_link
        else
          _ ← upd_phy (fun y => set_link_timeout PHY_AN_TIMEOUT (set_state PHY_AN y));
          mret (false, err)
      else resume_link.

Definition state_case (v : phy_state) : drv D (bool * Z) :=
  match v with
  | PHY_DOWN | PHY_STARTING | PHY_READY | PHY_PENDING => mret (false, 0)
  | PHY_UP => _ ← upd_phy (set_link_timeout PHY_AN_TIMEOUT); mret (true, 0)
  | PHY_AN => case_an
  | PHY_NOLINK => case_nolink
  | PHY_FORCING => case_forcing
  | PHY_RUNNING =>
      _ ← upd_phy (fun y => if irq (line y) =? PHY_POLL then set_state PHY_CHANGELINK y else y);
      mret (false, 0)
  | PHY_CHANGELINK => case_changelink
  | PHY_HALTED => case_halted
  | PHY_RESUMING => case_resuming
  end.

(** [phy_state_machine] *)
Definition phy_state_machine : drv D unit :=
  _ ← lock_phy;
  y ← get_phy;
  '(needs_aneg, err) ← state_case (state y);
  _ ← unlock_phy;
  err ← (if (needs_aneg : bool) then phy_start_aneg else mret err);
  if err <? 0 then phy_error else mret tt.

(** *** Settings *)

(** [struct ethtool_cmd], without the fields that no function here uses *)
Record ethtool_cmd := mk_cmd {
  ec_supported : Z;
  ec_advertising : Z;
  ec_speed : Z;
  ec_duplex : Z;
  ec_port : Z;
  ec_phy_address : Z;
  ec_transceiver : Z;
  ec_autoneg : Z;
  ec_maxtxpkt : Z;
  ec_maxrxpkt : Z;
  ec_speed_hi : Z }.

(** [ethtool_cmd_speed] *)
Definition ethtool_cmd_speed (c : ethtool_cmd) : Z := Z.lor (Z.shiftl (ec_speed_hi c) 16) (ec_speed c).

(** The tests of [phy_ethtool_sset], after the address *)
Definition settings_ok (c : ethtool_cmd) (advertising : Z) : bool :=
  let speed := ethtool_cmd_speed c in
  if negb (ec_autoneg c =? AUTONEG_ENABLE) && negb (ec_autoneg c =? AUTONEG_DISABLE) then false
  else if (ec_autoneg c =? AUTONEG_ENABLE) && (advertising =? 0) then false
  else negb ((ec_autoneg c =? AUTONEG_DISABLE) &&
             ((negb (speed =? SPEED_1000) && negb (speed =? SPEED_100) && negb (speed =? SPEED_10)) ||
              (negb (ec_duplex c =? DUPLEX_HALF) && negb (ec_duplex c =? DUPLEX_FULL)))).

(** What [phy_ethtool_sset] stores *)
Definition store_settings (c : ethtool_cmd) (y : phy_device) : phy_device :=
  let adv := Z.land (ec_advertising c) (supported y) in
  let y := set_speed (s32 (ethtool_cmd_speed c)) (set_autoneg (ec_autoneg c) y) in
  let y := set_advertising (if ec_autoneg c =? AUTONEG_ENABLE then Z.lor adv ADVERTISED_Autoneg
                            else Z.land adv (not32 ADVERTISED_Autoneg)) y in
  set_duplex (ec_duplex c) y.

(** [phy_ethtool_sset]: the result of [phy_start_aneg] is not looked at. *)
Definition phy_ethtool_sset (c : ethtool_cmd) : drv D Z :=
  y ← get_phy;
  if negb (ec_phy_address c =? phy_addr y) then mret (- EINVAL)
  else if negb (settings_ok c (Z.land (ec_advertising c) (supported y))) then mret (- EINVAL)
  else
    _ ← upd_phy (store_settings c);
    _ ← phy_start_aneg;
    mret 0.

(** [phy_ethtool_gset] *)
Definition phy_ethtool_gset (c : ethtool_cmd) : drv D (Z * ethtool_cmd) :=
  y ← get_phy;
  mret (0, mk_cmd (supported y) (advertising y) (u16 (speed y)) (u8 (duplex y)) PORT_MII
             (u8 (phy_addr y)) XCVR_EXTERNAL (u8 (autoneg y)) (ec_maxtxpkt c) (ec_maxrxpkt c)
             (u16 (Z.shiftr (u32 (speed y)) 16))).

(** [struct mii_ioctl_data] *)
Record mii_ioctl_data := mk_mii { phy_id : Z; reg_num : Z; val_in : Z; val_out : Z }.

(** What a write to the control register means for the PHY *)
Definition bmcr_written (val : Z) (y : phy_device) : phy_device :=
  let y := set_autoneg (if Z.land val (Z.lor BMCR_RESET BMCR_ANENABLE) =? 0 then AUTONEG_DISABLE
                        else AUTONEG_ENABLE) y in
  let y := set_duplex (if (autoneg y =? 0) && has val BMCR_FULLDPLX then DUPLEX_FULL else DUPLEX_HALF) y in
  if (autoneg y =? 0) && has val BMCR_SPEED1000 then set_speed SPEED_1000 y
  else if (autoneg y =? 0) && has val BMCR_SPEED100 then set_speed SPEED_100 y else y.

(** [phy_mii_ioctl]: its result and the data; no driver here has a [.hwtstamp]. *)
Definition phy_mii_ioctl (mii : mii_ioctl_data) (cmd : Z) : drv D (Z * mii_ioctl_data) :=
  let val := val_in mii in
  let read mii := v ← smsc911x_mii_read (phy_id mii) (reg_num mii);
                  mret (0, mk_mii (phy_id mii) (reg_num mii) (val_in mii) (u16 v)) in
  y ← get_phy;
  if cmd =? SIOCGMIIPHY then read (mk_mii (u16 (phy_addr y)) (reg_num mii) (val_in mii) (val_out mii))
  else if cmd =? SIOCGMIIREG then read mii
  else if cmd =? SIOCSMIIREG then
    _ ← (if phy_id mii =? phy_addr y then
           if reg_num mii =? MII_BMCR then upd_phy (bmcr_written val)
           else if reg_num mii =? MII_ADVERTISE then upd_phy (set_advertising val)
           else mret tt
         else mret tt);
    _ ← smsc911x_mii_write (phy_id mii) (reg_num mii) val;
    _ ← (if (reg_num mii =? MII_BMCR) && has val BMCR_RESET then
           d ← get_drv y; on_phy (drv_config_init d)
         else mret 0);
    mret (0, mii)
  else mret (- EOPNOTSUPP, mii).

(** *** Power management *)

(** [mdio_bus_phy_may_suspend] for an attached PHY; [wakeup] tells whether the
    interface or its parent device may wake the system. *)
Definition mdio_bus_phy_may_suspend (wakeup : bool) (y : phy_device) : bool :=
  bool_decide (is_Some (phy_drv y)) && (negb (attached y) || negb wakeup).

(** [mdio_bus_suspend], [mdio_bus_resume] and [mdio_bus_restore], for an attached PHY *)
Definition mdio_bus_suspend (wakeup : bool) : drv D Z :=
  y ← get_phy;
  _ ← (if attached y then phy_stop_machine else mret tt);
  y ← get_phy;
  if negb (mdio_bus_phy_may_suspend wakeup y) then mret 0 else genphy_suspend.

Definition mdio_bus_resume (wakeup : bool) : drv D Z :=
  y ← get_phy;
  if negb (mdio_bus_phy_may_suspend wakeup y) then mret 0 else genphy_resume.

Definition mdio_bus_restore : drv D Z :=
  y ← get_phy;
  if negb (attached y) then mret 0
  else
    ret ← on_phy phy_init_hw;
    if ret <? 0 then mret ret
    else
      _ ← upd_phy (set_link 0);
      _ ← upd_phy (set_state PHY_UP);
      mret 0.

End PhyDrivers.

(** ** Finding and attaching a PHY *)

(** What happens beside the code that runs: the line of the PHY, which it may share, is
    raised, or the work queue gets to run. *)
Inductive background_event := line_raised | queue_runs.

(** What the kernel around the PHY library does: whether there is memory for a PHY, the
    result of [device_register], of [device_bind_driver] and of [request_irq], and the
    PHY drivers that are registered; whether the line is raised while the work for an
    interrupt runs, and what happens while the interrupt is given back. *)
Class DeviceModel (D : Type) := {
  phy_memory : D -> bool * D;
  device_register : D -> Z * D;
  device_bind_driver : D -> Z * D;
  phy_drivers : D -> list phy_driver;
  request_irq : Z -> D -> Z * D;
  irq_raised : D -> bool * D;
  background : D -> list background_event * D }.

Section MdioBus.
Context {D : Type} `{!Smsc D} `{!DeviceModel D}.

(** [mdio_bus_match] *)
Definition mdio_bus_match (uid : Z) (d : phy_driver) : bool :=
  Z.land (drv_phy_id d) (drv_phy_id_mask d) =? Z.land uid (drv_phy_id_mask d).

(** [phy_probe] and [phy_remove]; no driver here has a [.probe] or [.remove]. *)
Definition phy_probe (d : phy_driver) (y : phy_device) : phy_device :=
  let y := set_phy_drv (Some d) y in
  let y := if negb (has (drv_flags d) PHY_HAS_INTERRUPT) then set_line (set_irq PHY_POLL (line y)) y else y in
  set_state PHY_READY (set_advertising (drv_features d) (set_supported (drv_features d) y)).
Definition phy_remove (y : phy_device) : phy_device := set_phy_drv None (set_state PHY_DOWN y).

(** [phy_device_create]: the fields of a new PHY; [bus_irq] is the array [bus->irq]. *)
Definition phy_device_create (bus_irq : Z -> Z) (addr uid : Z) : phy_device :=
  mk_phy None uid PHY_DOWN addr 0 (-1) 0 0 1 0 0 0 AUTONEG_ENABLE 0 false false
    (mk_line (bus_irq addr) 0 0 false false).

(** [get_phy_id] *)
Definition get_phy_id (addr : Z) : drv D (Z * Z) :=
  hi ← smsc911x_mii_read addr MII_PHYSID1;
  if hi <? 0 then mret (- EIO, 0)
  else
    let uid := Z.shiftl (Z.land hi 0xffff) 16 in
    lo ← smsc911x_mii_read addr MII_PHYSID2;
    if lo <? 0 then mret (- EIO, uid)
    else mret (0, Z.lor uid (Z.land lo 0xffff)).

(** [get_phy_device]: an error, no PHY, or a new one *)
Definition get_phy_device (bus_irq : Z -> Z) (addr : Z) : drv D (Z * option phy_device) :=
  '(r, uid) ← get_phy_id addr;
  if negb (r =? 0) then mret (r, None)
  else if Z.land uid 0x1fffffff =? 0x1fffffff then mret (0, None)
  else
    ok ← lib phy_memory;
    if (ok : bool) then mret (0, Some (phy_device_create bus_irq addr uid)) else mret (- ENOMEM, None).

(** [phy_device_register]: registration binds the first driver that matches. *)
Definition phy_device_register (y : phy_device) (phy_map : gmap Z phy_device)
    : drv D (Z * gmap Z phy_device) :=
  if bool_decide (is_Some (phy_map !! phy_addr y)) then mret (- EINVAL, phy_map)
  else
    err ← lib device_register;
    if negb (err =? 0) then mret (err, phy_map)
    else
      ds ← lib (fun d => (phy_drivers d, d));
      let y := match list_find (mdio_bus_match (phy_uid y)) ds with
               | Some (_, d) => phy_probe d y
               | None => y
               end in
      mret (0, <[phy_addr y := y]> phy_map).

(** [mdiobus_scan]: a PHY that cannot be registered is dropped. *)
Definition mdiobus_scan (bus_irq : Z -> Z) (addr : Z) (phy_map : gmap Z phy_device)
    : drv D (Z * gmap Z phy_device) :=
  '(r, o) ← get_phy_device bus_irq addr;
  match o with
  | None => mret (r, phy_map)
  | Some y => '(_, phy_map) ← phy_device_register y phy_map; mret (0, phy_map)
  end.

(** The loop of [mdiobus_register] *)
Fixpoint scan_loop (bus_irq : Z -> Z) (addrs : list Z) (phy_mask : Z) (phy_map : gmap Z phy_device)
    : drv D (Z * gmap Z phy_device) :=
  match addrs with
  | [] => mret (0, phy_map)
  | i :: addrs =>
      if Z.testbit phy_mask i then scan_loop bus_irq addrs phy_mask phy_map
      else
        '(r, phy_map) ← mdiobus_scan bus_irq i phy_map;
        if negb (r =? 0) then mret (r, phy_map) else scan_loop bus_irq addrs phy_mask phy_map
  end.

Definition scan_bus (bus_irq : Z -> Z) (phy_mask : Z) : drv D (Z * gmap Z phy_device) :=
  scan_loop bus_irq (seqZ 0 PHY_MAX_ADDR) phy_mask ∅.

(** [phy_find_first] *)
Definition phy_find_first (phy_map : gmap Z phy_device) : option phy_device :=
  head (omap (fun addr => phy_map !! addr) (seqZ 0 PHY_MAX_ADDR)).

(** [phy_detach]: the generic driver is unbound again. *)
Definition phy_detach (y : phy_device) : phy_device :=
  let y := set_attached false y in
  if bool_decide (phy_drv y = Some genphy_driver) then phy_remove y else y.

(** [phy_attach_direct] *)
Definition phy_attach_direct (y : phy_device) : drv D (Z * phy_device) :=
  '(err, y) ← (match phy_drv y with
               | Some _ => mret (0, y)
               | None => err ← lib device_bind_driver; mret (err, phy_probe genphy_driver y)
               end);
  if negb (err =? 0) then mret (err, y)
  else if attached y then mret (- EBUSY, y)
  else
    '(err, y) ← phy_init_hw (set_state PHY_READY (set_attached true y));
    mret (err, if negb (err =? 0) then phy_detach y else y).

(** *** The interrupt of a PHY *)

(** [disable_irq], [disable_irq_nosync] and [enable_irq] on the line of the PHY, with
    the operations on the counter; [schedule_work] and the start of the work *)
Definition upd_line (f : phy_line -> phy_line) : drv D unit := upd_phy (fun y => set_line (f (line y)) y).
Definition disable_irq : drv D unit := upd_line (fun l => set_irq_depth (irq_depth l + 1) l).
Definition enable_irq : drv D unit := upd_line (fun l => set_irq_depth (irq_depth l - 1) l).
Definition inc_irq_disable : drv D unit := upd_line (fun l => set_irq_disable (irq_disable l + 1) l).
Definition dec_irq_disable : drv D unit := upd_line (fun l => set_irq_disable (irq_disable l - 1) l).

(** [phy_interrupt] *)
Definition phy_interrupt : drv D Z :=
  y ← get_phy;
  if bool_decide (state y = PHY_HALTED) then mret IRQ_NONE
  else
    _ ← disable_irq;
    _ ← inc_irq_disable;
    _ ← upd_line (set_phy_queue true);
    mret IRQ_HANDLED.

(** The line is raised: the handlers on it run, unless the line is disabled. *)
Definition raise_irq : drv D unit :=
  y ← get_phy;
  if irq_action (line y) && (irq_depth (line y) =? 0) then _ ← phy_interrupt; mret tt else mret tt.

Definition may_raise : drv D unit :=
  raised ← lib irq_raised;
  if (raised : bool) then raise_irq else mret tt.

(** [phy_enable_interrupts] and [phy_disable_interrupts] *)
Definition phy_enable_interrupts (y : phy_device) : drv D (Z * phy_device) :=
  err ← phy_clear_interrupt y;
  if err <? 0 then mret (err, y) else phy_config_interrupt PHY_INTERRUPT_ENABLED y.

Definition phy_disable_interrupts : drv D Z :=
  err ← on_phy (phy_config_interrupt PHY_INTERRUPT_DISABLED);
  if negb (err =? 0) then _ ← phy_error; mret err
  else
    y ← get_phy;
    err ← phy_clear_interrupt y;
    if negb (err =? 0) then _ ← phy_error; mret err else mret 0.

(** [phy_start_interrupts] *)
Definition phy_start_interrupts (y : phy_device) : drv D (Z * phy_device) :=
  let y := set_line (set_phy_queue false (set_irq_disable 0 (line y))) y in
  r ← lib (request_irq (irq (line y)));
  if r <? 0 then mret (0, set_line (set_irq PHY_POLL (line y)) y)
  else phy_enable_interrupts (set_line (set_irq_action true (line y)) y).

(** [phy_change]; no driver here has a [.did_interrupt].  The line may be raised once
    it is enabled again. *)
Definition phy_change : drv D unit :=
  err ← phy_disable_interrupts;
  if negb (err =? 0) then phy_error
  else
    _ ← lock_phy;
    _ ← upd_phy (fun y => match state y with
                          | PHY_RUNNING | PHY_NOLINK => set_state PHY_CHANGELINK y
                          | _ => y
                          end);
    _ ← unlock_phy;
    _ ← dec_irq_disable;
    _ ← enable_irq;
    _ ← may_raise;
    y ← get_phy;
    err ← (if negb (bool_decide (state y = PHY_HALTED)) then
             on_phy (phy_config_interrupt PHY_INTERRUPT_ENABLED)
           else mret err);
    _ ← may_raise;
    if negb (err =? 0) then
      _ ← disable_irq;
      _ ← inc_irq_disable;
      phy_error
    else mret tt.

(** The work queue runs the work of the PHY, if it is queued. *)
Definition run_queue : drv D unit :=
  y ← get_phy;
  if phy_queue (line y) then _ ← upd_line (set_phy_queue false); phy_change else mret tt.

Fixpoint happen (l : list background_event) : drv D unit :=
  match l with
  | [] => mret tt
  | line_raised :: l => _ ← raise_irq; happen l
  | queue_runs :: l => _ ← run_queue; happen l
  end.

Definition preempted : drv D unit := l ← lib background; happen l.

(** [while (atomic_dec_return(&phydev->irq_disable) >= 0) enable_irq(phydev->irq);] with
    at most [n] turns *)
Fixpoint enable_loop (n : nat) : drv D unit :=
  match n with
  | O => halt Hang
  | S n =>
      _ ← dec_irq_disable;
      y ← get_phy;
      if 0 <=? irq_disable (line y) then _ ← enable_irq; enable_loop n else mret tt
  end.

(** [phy_stop_interrupts]; the work may run or the line be raised until the handler is
    gone, and the work until it is cancelled. *)
Definition phy_stop_interrupts : drv D Z :=
  err ← phy_disable_interrupts;
  _ ← (if negb (err =? 0) then phy_error else mret tt);
  _ ← preempted;
  _ ← upd_line (set_irq_action false);
  _ ← preempted;
  _ ← upd_line (set_phy_queue false);
  y ← get_phy;
  _ ← enable_loop (S (Z.to_nat (irq_disable (line y))));
  mret err.

(** [phy_connect_direct]: the state machine is scheduled, without an effect here. *)
Definition phy_connect_direct (y : phy_device) : drv D (Z * phy_device) :=
  '(rc, y) ← phy_attach_direct y;
  if negb (rc =? 0) then mret (rc, y)
  else
    '(_, y) ← (if 0 <? irq (line y) then phy_start_interrupts y else mret (0, y));
    mret (0, y).

(** [phy_disconnect] *)
Definition phy_disconnect : drv D unit :=
  y ← get_phy;
  _ ← (if 0 <? irq (line y) then phy_stop_interrupts else mret 0);
  _ ← phy_stop_machine;
  upd_phy phy_detach.

End MdioBus.
