(* ===== verification/PhyKeeps.v ===== *)
(** * The PHY library: its functions keep the invariant of the driver

    For any answers of the hardware: the functions return, the lock of the PHY is
    taken and given back, and no function follows a null pointer. *)

From stdpp Require Import gmap.
From S2P Require Import Prelude SmscDefs SmscIo SmscMac SmscRun SmscPhy PhyLib.

(** ** The library keeps the invariant of the driver *)

Section PhyLibKeeps.
Context {D : Type} `{!Smsc D} `{!ChipInv D}.
Implicit Types s : dstate D.

Lemma keeps_lib {A} w ph md b (f : D -> A * D) :
  (forall d, chip_inv d -> chip_inv (f d).2) -> keeps (inv w ph md b) (inv w ph md b) (lib f).
Proof. intros Hf s Hs. apply inv_with_chip; [done|]. apply Hf, Hs. Qed.

Lemma keeps_phy_read w ph md y reg : keepi w ph md (phy_read (D := D) y reg).
Proof. apply keeps_mii_read. Qed.
Lemma keeps_phy_write w ph md y reg val : keepi w ph md (phy_write (D := D) y reg val).
Proof. apply keeps_mii_write. Qed.
Hint Resolve keeps_phy_read keeps_phy_write : keeps.

Lemma keeps_update_adv w ph md y reg c b : keepi w ph md (update_adv (D := D) y reg c b).
Proof. unfold update_adv. keeps. Qed.
Lemma keeps_read_lpagb w ph md y : keepi w ph md (read_lpagb (D := D) y).
Proof. unfold read_lpagb. keeps. Qed.
Lemma keeps_config_intr w ph md y : keepi w ph md (smsc_phy_config_intr (D := D) y).
Proof. unfold smsc_phy_config_intr. keeps. Qed.
Lemma keeps_ack_interrupt w ph md y : keepi w ph md (smsc_phy_ack_interrupt (D := D) y).
Proof. unfold smsc_phy_ack_interrupt. keeps. Qed.
Hint Resolve keeps_update_adv keeps_read_lpagb keeps_config_intr keeps_ack_interrupt : keeps.

Lemma keeps_smsc_config_init w ph md y : keepi w ph md (smsc_phy_config_init (D := D) y).
Proof. unfold smsc_phy_config_init. keeps. Qed.
Lemma keeps_lan911x_config_init w ph md y : keepi w ph md (lan911x_config_init (D := D) y).
Proof. apply keeps_ack_interrupt. Qed.
Lemma keeps_aneg_done w ph md y : keepi w ph md (phy_aneg_done (D := D) y).
Proof. unfold phy_aneg_done. keeps. Qed.
Hint Resolve keeps_smsc_config_init keeps_lan911x_config_init keeps_aneg_done : keeps.

(** *** Functions of a PHY *)

(** What the functions of a PHY do not change; its fields keep their types. *)
Definition same_phy (y y' : phy_device) : Prop :=
  phy_lock y' = phy_lock y /\ phy_drv y' = phy_drv y /\ attached y' = attached y /\ line y' = line y /\
  (phy_typed y -> phy_typed y').

(** Fields that are set to values of their type *)
Ltac typed :=
  unfold same_phy; split_and!;
  [done|done|done|done|
   intros []; constructor; unfold is_flag in *; cbn -[Z.land Z.lor Z.pow bmsr_features estatus_features]; try done;
   solve [by left | by right | tauto | lia | (apply is_word_land_l; [lia|by eapply is_word_nonneg|done]) | by case_match; auto | auto]].

Definition phy_keeps (f : phy_device -> drv D (Z * phy_device)) : Prop :=
  forall w ph md y s, inv w ph md false s -> is_Some (phy_drv y) ->
  wp (f y) (fun r s' => inv w ph md false s' /\ same_phy y r.2) s.

Lemma wp_phy_keeps {B} w ph md f y (k : Z * phy_device -> drv D B) Q s :
  phy_keeps f -> inv w ph md false s -> is_Some (phy_drv y) ->
  (forall r y' s', inv w ph md false s' -> same_phy y y' -> wp (k (r, y')) Q s') ->
  wp (f y ≫= k) Q s.
Proof.
  intros Hf Hs Hd Hk. apply wp_bind. eapply wp_mono; [|by apply (Hf w ph md)].
  intros [r y'] s' [H1 H2]. by apply Hk.
Qed.

Lemma same_phy_drv y y' : same_phy y y' -> is_Some (phy_drv y) -> is_Some (phy_drv y').
Proof. by intros (_ & -> & _). Qed.

Lemma same_phy_refl y : same_phy y y.
Proof. by split_and!. Qed.
Hint Resolve same_phy_refl : core.

Lemma wp_get_drv {B} y (k : phy_driver -> drv D B) Q s :
  is_Some (phy_drv y) -> (forall d, wp (k d) Q s) -> wp (get_drv y ≫= k) Q s.
Proof. intros [d E] Hk. unfold get_drv. rewrite E. apply Hk. Qed.

Lemma same_phy_trans y1 y2 y3 : same_phy y1 y2 -> same_phy y2 y3 -> same_phy y1 y3.
Proof. intros (? & ? & ? & ? & ?) (? & ? & ? & ? & ?). split_and!; [congruence..|auto]. Qed.

(** Walks through a function of a PHY. *)
Ltac phy_step :=
  lazymatch goal with
  | |- wp (mbind _ (if ?b then _ else _)) _ _ => let E := fresh "E" in destruct b eqn:E
  | |- wp (mbind _ (mret _)) _ _ => apply wp_bind, wp_ret
  | |- wp (mbind _ (get_drv _)) _ _ => apply wp_get_drv; [assumption|intros ?]
  | Hs : inv _ _ _ _ ?s |- wp (mbind _ _) _ ?s =>
      apply wp_bind; eapply wp_keeps; [solve [eauto with keeps]|exact Hs|];
      clear Hs; let s' := fresh "s" in let H := fresh "Hs" in intros ? s' H
  | |- wp (mret _) _ _ => apply wp_ret
  | |- wp (if ?b then _ else _) _ _ => let E := fresh "E" in destruct b eqn:E
  | |- wp (let x := _ in _) _ _ => cbv zeta
  | |- inv _ _ _ _ _ /\ same_phy _ _ => split; [assumption|try done; try typed]
  end.

Lemma phy_keeps_config_advert : phy_keeps genphy_config_advert.
Proof. intros w ph md y s Hs Hd. unfold genphy_config_advert. repeat phy_step. Qed.

Lemma phy_keeps_setup_forced : phy_keeps genphy_setup_forced.
Proof. intros w ph md y s Hs Hd. unfold genphy_setup_forced. repeat phy_step. Qed.

Lemma phy_keeps_restart_aneg : phy_keeps genphy_restart_aneg.
Proof. intros w ph md y s Hs Hd. unfold genphy_restart_aneg. repeat phy_step. Qed.

Lemma phy_keeps_config_aneg : phy_keeps config_aneg.
Proof.
  intros w ph md y s Hs Hd. unfold config_aneg, genphy_config_aneg. phy_step. phy_step.
  { by apply phy_keeps_setup_forced. }
  eapply wp_phy_keeps; [apply phy_keeps_config_advert|exact Hs|done|].
  intros r y1 s1 H1 E1. assert (is_Some (phy_drv y1)) by (by eapply same_phy_drv).
  assert (forall (m : drv D Z) s2, inv w ph md false s2 -> keepi w ph md m ->
    wp (result ← m; if 0 <? result then genphy_restart_aneg y1 else mret (result, y1))
       (fun r s' => inv w ph md false s' /\ same_phy y r.2) s2) as Hfin.
  { intros m s2 H2 Hm. apply wp_bind. eapply wp_keeps; [exact Hm|exact H2|]. intros result s3 H3.
    destruct (0 <? result); [|by apply wp_ret]. eapply wp_mono; [|by apply (phy_keeps_restart_aneg w ph md)].
    intros x s4 [H4 E4]. split; [done|]. by eapply same_phy_trans. }
  destruct (r <? 0); [by apply wp_ret|]. apply Hfin; [done|]. keeps.
Qed.

Lemma phy_keeps_update_link : phy_keeps genphy_update_link.
Proof. intros w ph md y s Hs Hd. unfold genphy_update_link. repeat phy_step. Qed.

Lemma same_negotiated lpagb lpa y : same_phy y (negotiated lpagb lpa y).
Proof. unfold negotiated. cbv zeta. repeat case_match; typed. Qed.

Lemma same_forced bmcr y : same_phy y (forced bmcr y).
Proof. unfold forced. cbv zeta. repeat case_match; typed. Qed.

Lemma phy_keeps_read_status : phy_keeps phy_read_status.
Proof.
  intros w ph md y s Hs Hd. unfold phy_read_status, genphy_read_status. phy_step.
  eapply wp_phy_keeps; [apply phy_keeps_update_link|exact Hs|done|]. clear s Hs.
  intros r y1 s Hs E1. repeat phy_step; (eapply same_phy_trans; [exact E1|]); [apply same_negotiated|apply same_forced].
Qed.

Lemma phy_keeps_config_interrupt i :
  i = PHY_INTERRUPT_DISABLED \/ i = PHY_INTERRUPT_ENABLED -> phy_keeps (phy_config_interrupt i).
Proof.
  intros Hi w ph md y s Hs Hd. unfold phy_config_interrupt. cbv zeta. phy_step.
  apply wp_bind. eapply wp_keeps; [|exact Hs|]; [instantiate (1 := inv w ph md false); keeps|].
  clear s Hs. intros r s Hs. repeat phy_step.
Qed.

Lemma phy_keeps_irq_on : phy_keeps (phy_config_interrupt PHY_INTERRUPT_ENABLED).
Proof. apply phy_keeps_config_interrupt. by right. Qed.
Lemma phy_keeps_irq_off : phy_keeps (phy_config_interrupt PHY_INTERRUPT_DISABLED).
Proof. apply phy_keeps_config_interrupt. by left. Qed.

Lemma is_u32_add_if b m x : is_u32 m -> is_u32 x -> is_u32 (add_if b m x).
Proof. intros Hm Hx. unfold add_if. destruct b; [by apply is_word_lor|done]. Qed.

Lemma bmsr_features_u32 val : is_u32 (bmsr_features val).
Proof. unfold bmsr_features. cbv zeta. by repeat apply is_u32_add_if. Qed.
Lemma estatus_features_u32 val f : is_u32 f -> is_u32 (estatus_features val f).
Proof. intros Hf. unfold estatus_features. cbv zeta. by repeat apply is_u32_add_if. Qed.
Hint Resolve bmsr_features_u32 estatus_features_u32 : core.

Lemma phy_keeps_config_init d : phy_keeps (drv_config_init d).
Proof.
  intros w ph md y s Hs Hd. unfold drv_config_init, genphy_config_init.
  destruct d; cbv zeta; repeat phy_step; typed.
Qed.

Lemma phy_keeps_init_hw : phy_keeps phy_init_hw.
Proof.
  intros w ph md y s Hs Hd. unfold phy_init_hw. destruct (phy_drv y) as [d|] eqn:E.
  - apply phy_keeps_config_init; [done|by rewrite E].
  - by apply wp_ret.
Qed.

(** *** The PHY of the interface *)

Lemma phy_ok_same l y y' : same_phy y y' -> phy_ok l (Some y) -> phy_ok l (Some y').
Proof. intros (E1 & E2 & _ & _ & E4). cbn. rewrite E1, E2. intuition. Qed.

Lemma line_ok_same y y' : same_phy y y' -> line_ok (Some y) -> line_ok (Some y').
Proof. intros (_ & _ & _ & E & _). cbn. by rewrite E. Qed.

Lemma inv_phy_some w md b s :
  inv w true md b s ->
  exists y, phy_dev (pd s) = Some y /\ phy_ok (m_phylock md) (Some y) /\ line_ok (Some y).
Proof.
  intros Hs. destruct (has_phy_true _ (inv_phy _ _ _ _ _ Hs)) as [y E]. exists y.
  split; [done|]. rewrite <- E. split; apply Hs.
Qed.

Lemma inv_set_phy w ph md b s y :
  inv w ph md b s -> phy_ok (m_phylock md) (Some y) -> line_ok (Some y) ->
  inv w true md b (with_pd s (set_phy_dev (Some y) (pd s))).
Proof. intros [] Hy Hl. by constructor. Qed.

Lemma wp_get_phy {B} w md b (k : phy_device -> drv D B) Q s :
  inv w true md b s -> (forall y, phy_ok (m_phylock md) (Some y) -> line_ok (Some y) -> wp (k y) Q s) ->
  wp (get_phy ≫= k) Q s.
Proof.
  intros Hs Hk. destruct (inv_phy_some _ _ _ _ Hs) as (y & E & Hy & Hl).
  unfold get_phy, wp, mbind, drv_bind, get_pd. rewrite E. by apply (Hk y Hy Hl).
Qed.

Lemma keeps_get_phy {B} w md b (Q : dstate D -> Prop) (k : phy_device -> drv D B) :
  (forall y, phy_ok (m_phylock md) (Some y) -> line_ok (Some y) -> keeps (inv w true md b) Q (k y)) ->
  keeps (inv w true md b) Q (y ← get_phy; k y).
Proof. intros Hk s Hs. eapply wp_get_phy; [exact Hs|]. intros y Hy Hl. by apply Hk. Qed.

Lemma keeps_upd_phy w md b f :
  (forall y, same_phy y (f y)) -> keeps (inv w true md b) (inv w true md b) (upd_phy (D := D) f).
Proof.
  intros Hf. apply keeps_get_phy. intros y Hy Hl s Hs.
  apply (inv_set_phy _ true); [done|by eapply phy_ok_same|by eapply line_ok_same].
Qed.

Lemma keeps_on_phy w md f : phy_keeps f -> keepi w true md (on_phy f).
Proof.
  intros Hf. apply keeps_get_phy. intros y Hy Hl s Hs. pose proof Hy as (_ & Hd & _).
  eapply wp_phy_keeps; [exact Hf|exact Hs|done|]. intros r y' s' H1 E1. apply wp_bind, wp_ret.
  apply (inv_set_phy _ true); [done|by eapply phy_ok_same|by eapply line_ok_same].
Qed.

Lemma keeps_get_drv {B} (P Q : dstate D -> Prop) y (k : phy_driver -> drv D B) :
  is_Some (phy_drv y) -> (forall d, keeps P Q (k d)) -> keeps P Q (get_drv y ≫= k).
Proof. intros Hd Hk s Hs. apply wp_get_drv; [done|]. intros d. by apply Hk. Qed.

(** The mode with the lock of the PHY free or held *)
Definition plock (l : bool) (md : mode) : mode :=
  mk_mode_at (m_running md) (m_up md) (m_taken md) (m_packet md) l.

Lemma inv_set_lock w md b s y l :
  inv w true md b s -> is_Some (phy_drv y) -> phy_typed y -> line_ok (Some y) -> phy_lock y = l ->
  inv w true (plock l md) b (with_pd s (set_phy_dev (Some y) (pd s))).
Proof. intros [? ? ? ? ? ? ? [] ? ? ?] Hd Ht Hn Hl. by constructor. Qed.

Lemma keeps_lock_phy w md b :
  keeps (inv w true (plock false md) b) (inv w true (plock true md) b) (lock_phy (D := D)).
Proof.
  apply keeps_get_phy. intros y [Hl _] _ s Hs. rewrite Hl. cbn [m_phylock plock].
  eapply wp_get_phy; [exact Hs|]. clear y Hl. intros y (Hl & Hd & []) Hn.
  by apply (inv_set_lock w (plock false md)).
Qed.

Lemma keeps_unlock_phy w md b :
  keeps (inv w true (plock true md) b) (inv w true (plock false md) b) (unlock_phy (D := D)).
Proof.
  apply keeps_get_phy. intros y [Hl _] _ s Hs. rewrite Hl. cbn [m_phylock plock].
  eapply wp_get_phy; [exact Hs|]. clear y Hl. intros y (Hl & Hd & []) Hn.
  by apply (inv_set_lock w (plock true md)).
Qed.

Lemma plock_free md : m_phylock md = false -> md = plock false md.
Proof. destruct md. by intros [= ->]. Qed.

Hint Resolve keeps_lock_phy keeps_unlock_phy keeps_on_phy phy_keeps_config_advert phy_keeps_setup_forced
  phy_keeps_restart_aneg phy_keeps_config_aneg phy_keeps_update_link phy_keeps_read_status
  phy_keeps_irq_on phy_keeps_irq_off phy_keeps_config_init phy_keeps_init_hw : keeps.
Hint Extern 1 (keeps _ _ (upd_phy _)) =>
  apply keeps_upd_phy; intros ?; first [typed | repeat case_match; typed] : keeps.

Ltac phy_keeps :=
  repeat lazymatch goal with
  | |- keeps (inv _ true _ _) _ (mbind _ get_phy) => apply keeps_get_phy; intros ? (? & ? & ?) ?
  | |- keeps ?P _ (mbind _ (if _ then _ else _)) => apply (keeps_bind P P); [|intros ?]
  | |- keeps _ _ (mbind _ (get_drv _)) => apply keeps_get_drv; [assumption|intros ?]
  | |- _ => keeps_step
  end.

Lemma keeps_clear_interrupt w ph md y :
  is_Some (phy_drv y) -> keepi w ph md (phy_clear_interrupt (D := D) y).
Proof. intros Hd. unfold phy_clear_interrupt. phy_keeps. Qed.
Hint Resolve keeps_clear_interrupt : keeps.

Lemma same_take_setting idx y : same_phy y (take_setting idx y).
Proof.
  unfold take_setting. destruct (settings !! idx) as [x|] eqn:E; [|done].
  assert (- 2 ^ 31 <= set_speed_to x < 2 ^ 31 /\ -1 <= set_duplex_to x < 2 ^ 8) as [H1 H2]; [|typed].
  do 7 (destruct idx as [|idx]; [injection E as <-; done|]). done.
Qed.

Lemma same_sanitize y : same_phy y (phy_sanitize_settings y).
Proof.
  unfold phy_sanitize_settings. cbv zeta.
  eapply same_phy_trans; [|apply same_take_setting]. case_match; [typed|done].
Qed.

Section Locked.
Context (w : nat) (md : mode) (Hfree : m_phylock md = false).

Lemma keeps_phy_start : keepi w true md (phy_start (D := D)).
Proof. unfold phy_start. rewrite (plock_free md Hfree). phy_keeps. Qed.

Lemma keeps_phy_stop : keepi w true md (phy_stop (D := D)).
Proof. unfold phy_stop. rewrite (plock_free md Hfree). phy_keeps. Qed.

Lemma keeps_phy_error : keepi w true md (phy_error (D := D)).
Proof. unfold phy_error. rewrite (plock_free md Hfree). phy_keeps. Qed.

Lemma keeps_stop_machine : keepi w true md (phy_stop_machine (D := D)).
Proof. unfold phy_stop_machine. rewrite (plock_free md Hfree). phy_keeps. Qed.

Lemma keeps_start_aneg : keepi w true md (phy_start_aneg (D := D)).
Proof.
  unfold phy_start_aneg. rewrite (plock_free md Hfree). phy_keeps.
  apply keeps_upd_phy. intros y. case_match; [apply same_sanitize|apply same_phy_refl].
Qed.

Lemma keeps_genphy_suspend : keepi w true md (genphy_suspend (D := D)).
Proof. unfold genphy_suspend. rewrite (plock_free md Hfree). phy_keeps. Qed.

Lemma keeps_genphy_resume : keepi w true md (genphy_resume (D := D)).
Proof. unfold genphy_resume. rewrite (plock_free md Hfree). phy_keeps. Qed.

End Locked.
Hint Resolve keeps_phy_start keeps_phy_stop keeps_phy_error keeps_stop_machine keeps_start_aneg
  keeps_genphy_suspend keeps_genphy_resume : keeps.

(** *** The state machine *)

Lemma keeps_link_is_up w md : keepi w true md (link_is_up (D := D)).
Proof. unfold link_is_up. phy_keeps. Qed.
Lemma keeps_running_link w md : keepi w true md (running_link (D := D)).
Proof. unfold running_link, netif_carrier_on. phy_keeps. Qed.
Lemma keeps_carrier_off w ph md : keepi w ph md (netif_carrier_off (D := D)).
Proof. unfold netif_carrier_off. keeps. Qed.
Hint Resolve keeps_link_is_up keeps_running_link keeps_carrier_off keeps_adjust_link : keeps.

Lemma keeps_resume_link w md : keepi w true md (resume_link (D := D)).
Proof. unfold resume_link. phy_keeps. Qed.
Hint Resolve keeps_resume_link : keeps.

Lemma keeps_case_forcing w md : keepi w true md (case_forcing (D := D)).
Proof. unfold case_forcing. phy_keeps. apply keeps_upd_phy. intros ?. apply same_take_setting. Qed.

Lemma keeps_case_an w md : keepi w true md (case_an (D := D)).
Proof.
  unfold case_an. phy_keeps. apply keeps_upd_phy. intros z.
  apply (same_phy_trans _ (take_setting (phy_find_valid 0 (supported z)) z)); [apply same_take_setting|].
  set (y' := take_setting _ z). clearbody y'. typed.
Qed.

Lemma keeps_state_case w md v : keepi w true md (state_case (D := D) v).
Proof.
  pose proof (keeps_case_an w md). pose proof (keeps_case_forcing w md).
  unfold state_case, case_nolink, case_changelink, case_halted, case_resuming. destruct v; phy_keeps.
Qed.
Hint Resolve keeps_state_case : keeps.

Lemma keeps_state_machine w md :
  m_phylock md = false -> keepi w true md (phy_state_machine (D := D)).
Proof.
  intros Hfree. unfold phy_state_machine. rewrite (plock_free md Hfree). phy_keeps.
Qed.

(** *** Settings, ioctl and power management *)

(** Arguments of their C types *)
Record cmd_typed (c : ethtool_cmd) : Prop := {
  cmd_advertising : is_u32 (ec_advertising c);
  cmd_speed : is_u16 (ec_speed c);
  cmd_speed_hi : is_u16 (ec_speed_hi c);
  cmd_duplex : is_u8 (ec_duplex c) }.

Lemma settings_ok_autoneg c adv : settings_ok c adv = true -> is_flag (ec_autoneg c).
Proof.
  unfold settings_ok. cbv zeta. destruct (Z.eqb_spec (ec_autoneg c) AUTONEG_ENABLE) as [->|_]; [by right|].
  destruct (Z.eqb_spec (ec_autoneg c) AUTONEG_DISABLE) as [->|_]; [by left|done].
Qed.

Lemma speed_range c : cmd_typed c -> - 2 ^ 31 <= s32 (ethtool_cmd_speed c) < 2 ^ 31.
Proof.
  intros [_ H1 H2 _]. unfold ethtool_cmd_speed. rewrite lor_shiftl_add by (done || lia).
  unfold s32, is_word in *. destruct (Z.ltb_spec (ec_speed_hi c * 2 ^ 16 + ec_speed c) (2 ^ 31)); lia.
Qed.

Lemma same_store_settings c adv y : cmd_typed c -> settings_ok c adv = true -> same_phy y (store_settings c y).
Proof.
  intros Hc Hok. pose proof Hc as [Hc1 _ _ [Hc2 Hc3]]. apply settings_ok_autoneg in Hok. split_and!; [done..|].
  intros []. unfold store_settings. cbv zeta. constructor; cbn -[Z.land Z.lor Z.pow ethtool_cmd_speed s32 ADVERTISED_Autoneg]; try done.
  - by apply speed_range.
  - lia.
  - assert (is_u32 (Z.land (ec_advertising c) (supported y))).
    { apply is_word_land_l; [lia|by eapply is_word_nonneg|done]. }
    case_match; [by apply is_word_lor|]. apply is_word_land_l; [lia|by eapply is_word_nonneg|done].
Qed.

Lemma keeps_ethtool_sset w md c :
  m_phylock md = false -> cmd_typed c -> keepi w true md (phy_ethtool_sset (D := D) c).
Proof.
  intros Hfree Hc. unfold phy_ethtool_sset. phy_keeps. apply keeps_upd_phy. intros z.
  eapply same_store_settings; [done|]. by apply negb_false_iff.
Qed.

Lemma keeps_ethtool_gset w md c : keepi w true md (phy_ethtool_gset (D := D) c).
Proof. unfold phy_ethtool_gset. phy_keeps. Qed.

Lemma same_bmcr_written val y : same_phy y (bmcr_written val y).
Proof.
  unfold bmcr_written. cbv zeta. match goal with |- context [set_duplex ?d ?z] => set (y1 := set_duplex d z) end.
  assert (same_phy y y1).
  { subst y1. split_and!; [done..|]. intros []. constructor; cbn -[Z.pow]; try done;
      repeat case_match; first [done | by left | by right]. }
  clearbody y1. repeat case_match; (apply (same_phy_trans _ y1); [done|typed]).
Qed.

Lemma keeps_mii_ioctl w md mii cmd : is_u16 (val_in mii) -> keepi w true md (phy_mii_ioctl (D := D) mii cmd).
Proof.
  assert (H : forall val, keepi w true md (upd_phy (D := D) (bmcr_written val))).
  { intros val. apply keeps_upd_phy. intros y. apply same_bmcr_written. }
  intros Hv. apply (is_word_mono 16 32) in Hv; [|lia]. unfold phy_mii_ioctl. cbv zeta. revert H. generalize bmcr_written. intros g H. phy_keeps.
Qed.

Lemma keeps_mdio_suspend w md wk :
  m_phylock md = false -> keepi w true md (mdio_bus_suspend (D := D) wk).
Proof. intros Hfree. unfold mdio_bus_suspend. phy_keeps. Qed.

Lemma keeps_mdio_resume w md wk :
  m_phylock md = false -> keepi w true md (mdio_bus_resume (D := D) wk).
Proof. intros Hfree. unfold mdio_bus_resume. phy_keeps. Qed.

Lemma keeps_mdio_restore w md : keepi w true md (mdio_bus_restore (D := D)).
Proof. unfold mdio_bus_restore. phy_keeps. Qed.

(** *** Finding and attaching a PHY *)

(** The result of the initialisation is 0 or an error. *)
Lemma wp_nonpos w ph md (m : drv D Z) s :
  keepi w ph md m -> inv w ph md false s ->
  wp (rc ← m; mret (if rc <? 0 then rc else 0)) (fun r s' => inv w ph md false s' /\ r <= 0) s.
Proof.
  intros Hm Hs. apply wp_bind. eapply wp_keeps; [exact Hm|exact Hs|]. intros rc s' H.
  apply wp_ret. split; [done|]. case_match; lia.
Qed.

Lemma smsc_config_init_result w ph md y s :
  inv w ph md false s -> wp (smsc_phy_config_init y) (fun r s' => inv w ph md false s' /\ r <= 0) s.
Proof.
  intros Hs. unfold smsc_phy_config_init. repeat phy_step; [split; [done|lia]..|].
  apply wp_nonpos; [apply keeps_phy_read|done].
Qed.

Lemma init_hw_result w ph md y s :
  inv w ph md false s -> is_Some (phy_drv y) ->
  wp (phy_init_hw y) (fun r s' => inv w ph md false s' /\ same_phy y r.2 /\ r.1 <= 0) s.
Proof.
  intros Hs [d E]. unfold phy_init_hw. rewrite E.
  assert (Hlift : forall m : drv D Z, wp m (fun r s' => inv w ph md false s' /\ r <= 0) s ->
    wp (r ← m; mret (r, y)) (fun r s' => inv w ph md false s' /\ same_phy y r.2 /\ r.1 <= 0) s).
  { intros m Hm. apply wp_bind. eapply wp_mono; [|exact Hm]. intros r s' []. by apply wp_ret. }
  unfold drv_config_init. destruct d; [|by apply Hlift, smsc_config_init_result..| |by apply Hlift, smsc_config_init_result].
  - unfold genphy_config_init. cbv zeta. repeat phy_step; (split; [assumption|]); (split; [typed|cbn; lia]).
  - apply Hlift. apply wp_nonpos; [apply keeps_phy_read|done].
Qed.

(** The line of a PHY that is polled, and a PHY that nobody uses yet *)
Definition polled_line : phy_line := mk_line PHY_POLL 0 0 false false.

Definition idle_phy (y : phy_device) : Prop :=
  phy_lock y = false /\ attached y = false /\ line y = polled_line /\ phy_typed y.

Context `{!DeviceModel D}.
Context (Hmem : forall d, chip_inv d -> chip_inv (phy_memory d).2).
Context (Hreg : forall d, chip_inv d -> chip_inv (device_register d).2).
Context (Hbind : forall d, chip_inv d -> chip_inv (device_bind_driver d).2).
Context (Herr : forall d : D, (device_bind_driver d).1 <= 0).

Definition scanned w ph md (r : Z * gmap Z phy_device) s : Prop :=
  inv w ph md false s /\ r.1 <= 0 /\ map_Forall (fun _ => idle_phy) r.2.

Lemma wp_lib {A B} w ph md (f : D -> A * D) (k : A -> drv D B) Q s :
  (forall d, chip_inv d -> chip_inv (f d).2) -> inv w ph md false s ->
  (forall s', inv w ph md false s' -> wp (k (f (chip s)).1) Q s') -> wp (lib f ≫= k) Q s.
Proof. intros Hf Hs Hk. apply wp_bind. apply Hk. apply inv_with_chip; [done|]. apply Hf, Hs. Qed.

Lemma idle_probe d y : idle_phy y -> idle_phy (phy_probe d y).
Proof.
  intros (H1 & H2 & H3 & []). assert (is_u32 (drv_features d)) by (by destruct d).
  unfold phy_probe. cbv zeta. split_and!; [by case_match|by case_match|cbn; case_match; cbn; by rewrite H3|].
  by case_match; constructor.
Qed.

Lemma idle_create addr hi lo :
  0 <= addr < PHY_MAX_ADDR ->
  idle_phy (phy_device_create (fun _ => PHY_POLL) addr (Z.lor (Z.shiftl (Z.land hi 0xffff) 16) (Z.land lo 0xffff))).
Proof.
  intros Ha. split_and!; [done..|]. constructor; cbn -[Z.land Z.lor Z.shiftl]; first [done | by left | by right | idtac].
  change 0xffff with (Z.ones 16). rewrite !Z.land_ones by lia.
  pose proof (is_word_mod 16 hi ltac:(lia)) as H1. pose proof (is_word_mod 16 lo ltac:(lia)) as H2.
  rewrite lor_shiftl_add by (done || lia). unfold is_word in *. lia.
Qed.

Lemma register_scanned w ph md y m s :
  idle_phy y -> map_Forall (fun _ => idle_phy) m -> inv w ph md false s ->
  wp (phy_device_register y m) (fun r s' => inv w ph md false s' /\ map_Forall (fun _ => idle_phy) r.2) s.
Proof.
  intros Hy Hm Hs. unfold phy_device_register. case_bool_decide; [by apply wp_ret|].
  eapply wp_lib; [exact Hreg|exact Hs|]. intros s1 H1. destruct (negb _); [by apply wp_ret|].
  eapply wp_lib; [|exact H1|]; [done|]. intros s2 H2. cbv zeta. apply wp_ret. split; [done|].
  apply map_Forall_insert_2; [|done]. repeat case_match; [by apply idle_probe|done..].
Qed.

Lemma scan_scanned w ph md addr m s :
  0 <= addr < PHY_MAX_ADDR -> map_Forall (fun _ => idle_phy) m -> inv w ph md false s ->
  wp (mdiobus_scan (fun _ => PHY_POLL) addr m) (scanned w ph md) s.
Proof.
  intros Ha Hm Hs. unfold mdiobus_scan. apply wp_bind. eapply wp_mono with (Q := fun r s' =>
    inv w ph md false s' /\ r.1 <= 0 /\ forall y, r.2 = Some y -> idle_phy y).
  - intros [r [y|]] s1 (H1 & Hr & Hy); [|by apply wp_ret]. apply wp_bind.
    eapply wp_mono; [|by apply (register_scanned w ph md); [apply Hy|..]].
    intros [r' m'] s2 [H2 Hm']. by apply wp_ret.
  - unfold get_phy_device, get_phy_id. apply wp_bind. apply wp_bind.
    eapply wp_keeps; [apply keeps_mii_read|exact Hs|]. intros hi s1 H1.
    destruct (hi <? 0); [by apply wp_ret|]. cbv zeta. apply wp_bind.
    eapply wp_keeps; [apply keeps_mii_read|exact H1|]. intros lo s2 H2.
    destruct (lo <? 0); [by apply wp_ret|]. apply wp_ret. cbn [Z.eqb negb].
    destruct (_ =? _); [by apply wp_ret|]. eapply wp_lib; [exact Hmem|exact H2|]. intros s3 H3.
    destruct (phy_memory _).1; apply wp_ret; (split; [done|]); (split; [done|]); intros ? [= <-]. by apply idle_create.
Qed.

Lemma scan_bus_scanned w ph md mask s :
  inv w ph md false s -> wp (scan_bus (fun _ => PHY_POLL) mask) (scanned w ph md) s.
Proof.
  unfold scan_bus. assert (Hl : Forall (fun a => 0 <= a < PHY_MAX_ADDR) (seqZ 0 PHY_MAX_ADDR)).
  { apply Forall_forall. intros a Ha. by apply list_elem_of_In, elem_of_seqZ in Ha. }
  revert Hl. generalize (seqZ 0 PHY_MAX_ADDR). intros l Hl.
  assert (Hm : map_Forall (fun _ : Z => idle_phy) ∅) by apply map_Forall_empty. revert Hm.
  generalize (∅ : gmap Z phy_device). revert s. induction Hl as [|i l Hi Hl IH]; intros s m Hm Hs;
    cbn [scan_loop]; [by apply wp_ret|].
  destruct (Z.testbit mask i); [by apply IH|]. apply wp_bind.
  eapply wp_mono; [|by apply (scan_scanned w ph md)]. intros [r m'] s' (H1 & Hr & Hm').
  destruct (negb (r =? 0)); [by apply wp_ret|]. by apply IH.
Qed.

Lemma connect_result w ph md y s :
  idle_phy y -> inv w ph md false s ->
  wp (phy_connect_direct y) (fun r s' => inv w ph md false s' /\
    (r.1 = 0 /\ phy_ok false (Some r.2) /\ line r.2 = polled_line \/ r.1 < 0)) s.
Proof.
  intros Hy Hs. unfold phy_connect_direct. apply wp_bind.
  eapply wp_mono with (Q := fun r s' => inv w ph md false s' /\
    (r.1 = 0 /\ phy_ok false (Some r.2) /\ line r.2 = polled_line \/ r.1 < 0)).
  { intros [rc y'] s' [H1 H2]. cbn [fst snd] in H2. destruct (Z.eqb_spec rc 0) as [->|Hn]; cbn [negb]; [|by apply wp_ret].
    destruct H2 as [(_ & Hok & El)|]; [|done]. rewrite El. apply wp_bind, wp_ret, wp_ret. split; [done|]. by left. }
  unfold phy_attach_direct. apply wp_bind.
  eapply wp_mono with (Q := fun r s' => inv w ph md false s' /\ r.1 <= 0 /\ idle_phy r.2 /\ is_Some (phy_drv r.2)).
  2: { destruct (phy_drv y) eqn:E; [apply wp_ret; cbn [fst snd]; rewrite E; by split_and!|].
       eapply wp_lib; [exact Hbind|exact Hs|]. intros s1 H1. apply wp_ret.
       split; [done|]. split; [apply Herr|]. split; [by apply idle_probe|done]. }
  clear y Hy s Hs. intros [e y] s (Hs & He & (Hl & Ha & Hn & Ht) & Hd). cbn [fst snd] in *.
  destruct (Z.eqb_spec e 0) as [->|He0]; cbn [negb]; [|apply wp_ret; split; [done|right; cbn; lia]].
  rewrite Ha. apply wp_bind.
  eapply wp_mono; [|by apply (init_hw_result w ph md)].
  intros [r y'] s' (H1 & (E1 & E2 & E3 & E5 & E4) & Hr). cbn [fst snd] in *. apply wp_ret. split; [done|].
  cbn [fst snd]. destruct (Z.eqb_spec r 0) as [->|Hr']; cbn [negb]; [left|right; lia].
  split; [done|]. cbn. rewrite E1, E2, E5. split_and!; [done..| |done]. apply E4. by destruct Ht.
Qed.

End PhyLibKeeps.

#[export] Hint Resolve keeps_phy_start keeps_phy_stop keeps_stop_machine keeps_start_aneg
  keeps_state_machine keeps_ethtool_sset keeps_ethtool_gset keeps_mii_ioctl
  keeps_mdio_suspend keeps_mdio_resume keeps_mdio_restore : keeps.
