(* ===== verification/MiiBus.v ===== *)
(** * The registers of the PHYs, on a chip that keeps the MII protocol
    (src/code/nic-driver/smsc/smsc911x.c 526-600)

    What [smsc911x_mii_read] and [smsc911x_mii_write] do on a chip whose MAC carries
    out MII commands in time, with a busy bit of its own: they read and write the
    registers of the PHYs, and leave the other MAC registers alone. *)

From S2P Require Import Prelude SmscDefs SmscIo SmscMac SmscRun SmscPhy PhyLib.

(** The PHYs: the value that the next read of a register gives, by address and
    register, and the present value of the status register, whose link bit latches. *)
Record phys := mk_phys { phy_regs : Z -> Z -> Z; bmsr_now : Z -> Z }.

(** Reading the status register releases the latch. *)
Definition after_read (f : phys) (a r : Z) : phys :=
  mk_phys (fun a' r' => if (a' =? a) && (r' =? r) && (r =? MII_BMSR) then bmsr_now f a else phy_regs f a' r')
    (bmsr_now f).

(** PHYs that answer alike are the same to the driver. *)
#[export] Instance phys_equiv : Equiv phys := fun f g =>
  (forall a r, phy_regs f a r = phy_regs g a r) /\ (forall a, bmsr_now f a = bmsr_now g a).

#[export] Instance phys_equivalence : Equivalence (≡@{phys}).
Proof.
  split.
  - by intros f.
  - intros f g [H1 H2]. by split.
  - intros f g h [H1 H2] [H3 H4]. split; intros; congruence.
Qed.

#[export] Instance phy_regs_proper : Proper ((≡) ==> (=) ==> (=) ==> (=)) phy_regs.
Proof. intros f g [H _] a ? <- r ? <-. apply H. Qed.
#[export] Instance bmsr_now_proper : Proper ((≡) ==> (=) ==> (=)) bmsr_now.
Proof. intros f g [_ H] a ? <-. apply H. Qed.
#[export] Instance after_read_proper : Proper ((≡) ==> (=) ==> (=) ==> (≡)) after_read.
Proof.
  intros f g H a ? <- r ? <-. split; [|apply H]. intros a' r'. cbn. destruct (_ && _); apply H.
Qed.

(** The interface: further reads of [MII_ACC] that report busy, the data register and
    the PHYs behind it. *)
Record mii_hw := mk_mii_hw { mii_left : nat; mii_data : Z; mii_phys : phys }.

(** The command words of the driver *)
Definition mii_cmd (a r : Z) : Z := Z.lor (Z.shiftl (Z.land a 0x1f) 11) (Z.shiftl (Z.land r 0x1f) 6).
Definition mii_write_cmd (a r : Z) : Z := Z.lor (mii_cmd a r) MII_ACC_MII_WRITE_.

Definition is_phy_reg (a r : Z) : Prop := 0 <= a < 32 /\ 0 <= r < 32.

(** What the control and advertisement registers keep of a write: the bits that start
    a reset or a negotiation clear themselves. *)
Definition kept_write (r v : Z) : Prop :=
  r = MII_ADVERTISE \/ r = MII_BMCR /\ Z.land v (Z.lor BMCR_RESET BMCR_ANRESTART) = 0.

Definition config_reg (r : Z) : Prop := r = MII_ADVERTISE \/ r = MII_BMCR.
Definition resets (r v : Z) : Prop := r = MII_BMCR /\ has v BMCR_RESET = true.

(** The MII interface of the chip, beside its MAC registers: the documented behaviour
    that the driver relies on.  An MII command takes at most 99 reads of its busy bit;
    other commands and other registers do not touch it.  A write may change anything
    in the PHYs, but the two registers keep what is written, and only change by a
    write or a reset. *)
Class MiiChip (D : Type) `{!Smsc D} (p : smsc911x_data) `{!MacChip D p} := {
  mii : D -> mii_hw;
  mii_u16 d a r : is_u16 (phy_regs (mii_phys (mii d)) a r) /\ is_u16 (bmsr_now (mii_phys (mii d)) a);
  mac_u32 d o : plain_reg o -> is_u32 (mac_regs d o);
  mii_other_read reg d : mii (bus_read p reg d).2 = mii d;
  mii_other_write reg v d : reg <> MAC_CSR_CMD -> mii (bus_write p reg v d) = mii d;
  mii_plain_read d o :
    csr_busy d = 0%nat -> plain_reg o -> mii (bus_write p MAC_CSR_CMD (csr_read_cmd o) d) = mii d;
  mii_plain_write d o :
    csr_busy d = 0%nat -> plain_reg o -> mii (bus_write p MAC_CSR_CMD (csr_write_cmd o) d) = mii d;
  csr_outside_read reg d :
    reg <> MAC_CSR_CMD -> reg <> MAC_CSR_DATA ->
    csr_busy (bus_read p reg d).2 = csr_busy d /\ mac_regs (bus_read p reg d).2 = mac_regs d;
  csr_outside_write reg v d :
    reg <> MAC_CSR_CMD -> reg <> MAC_CSR_DATA ->
    csr_busy (bus_write p reg v d) = csr_busy d /\ mac_regs (bus_write p reg v d) = mac_regs d;
  mii_acc_read d (d' := bus_write p MAC_CSR_CMD (csr_read_cmd MII_ACC) d) :
    csr_busy d = 0%nat ->
    (csr_busy d' <= 39)%nat /\ mac_regs d' = mac_regs d /\
    has (csr_data d') MII_ACC_MII_BUSY_ = bool_decide (mii_left (mii d) <> 0%nat) /\
    mii d' = mk_mii_hw (pred (mii_left (mii d))) (mii_data (mii d)) (mii_phys (mii d));
  mii_data_read d (d' := bus_write p MAC_CSR_CMD (csr_read_cmd MII_DATA) d) :
    csr_busy d = 0%nat -> mii_left (mii d) = 0%nat ->
    (csr_busy d' <= 39)%nat /\ mac_regs d' = mac_regs d /\
    csr_data d' = mii_data (mii d) /\ mii d' = mii d;
  mii_data_write d (d' := bus_write p MAC_CSR_CMD (csr_write_cmd MII_DATA) d) :
    csr_busy d = 0%nat -> mii_left (mii d) = 0%nat ->
    (csr_busy d' <= 39)%nat /\ (forall o, plain_reg o -> mac_regs d' o = mac_regs d o) /\
    mii d' = mk_mii_hw 0 (csr_data d) (mii_phys (mii d));
  mii_acc_fetch d a r (d' := bus_write p MAC_CSR_CMD (csr_write_cmd MII_ACC) d) :
    csr_busy d = 0%nat -> mii_left (mii d) = 0%nat -> is_phy_reg a r -> csr_data d = mii_cmd a r ->
    (csr_busy d' <= 39)%nat /\ (forall o, plain_reg o -> mac_regs d' o = mac_regs d o) /\
    (mii_left (mii d') <= 99)%nat /\ mii_data (mii d') = phy_regs (mii_phys (mii d)) a r /\
    mii_phys (mii d') ≡ after_read (mii_phys (mii d)) a r;
  mii_acc_store d a r v (d' := bus_write p MAC_CSR_CMD (csr_write_cmd MII_ACC) d) :
    csr_busy d = 0%nat -> mii_left (mii d) = 0%nat -> is_phy_reg a r ->
    csr_data d = mii_write_cmd a r -> mii_data (mii d) = v -> is_u16 v ->
    (csr_busy d' <= 39)%nat /\ (forall o, plain_reg o -> mac_regs d' o = mac_regs d o) /\
    (mii_left (mii d') <= 99)%nat /\
    (kept_write r v -> phy_regs (mii_phys (mii d')) a r = v) /\
    (forall r', config_reg r' -> r' <> r -> ~ resets r v ->
     phy_regs (mii_phys (mii d')) a r' = phy_regs (mii_phys (mii d)) a r') }.

Section MiiProtocol.
Context {D : Type} `{!Smsc D} (p : smsc911x_data) `{!MacChip D p} `{!MiiChip D p}.
Implicit Types s : dstate D.

(** Nothing is going on. *)
Definition mii_idle (d : D) : Prop := csr_busy d = 0%nat /\ mii_left (mii d) = 0%nat.

Definition mac_same (d d' : D) : Prop := forall o, plain_reg o -> mac_regs d' o = mac_regs d o.

(** A driver that may use the bus *)
Definition on_bus s : Prop := ready s /\ same_bus p s.

Lemma crun_and {A} (m : drv D A) s (Q Q' : A -> D -> Prop) :
  crun m s Q -> crun m s Q' -> crun m s (fun a d => Q a d /\ Q' a d).
Proof.
  intros (a & d & E & HQ) (a' & d' & E' & HQ'). rewrite E in E'.
  injection E' as <- E2. exists a, d. split; [done|]. split; [done|].
  assert (d = d') as -> by done. done.
Qed.

Lemma mac_complete_mii s :
  on_bus s -> mac_lock (pd s) = true ->
  crun smsc911x_mac_complete s (fun _ d => mii d = mii (chip s)).
Proof.
  intros [Hr Hbus] Hl. unfold smsc911x_mac_complete. do 2 crun_step. rewrite with_chip_id.
  generalize 40%nat as n. intros n. revert s Hr Hbus Hl. induction n as [|n IH]; intros s Hr Hbus Hl;
    cbn [mac_complete_loop]; [by crun_step|]. do 2 crun_step. rewrite (proj1 (Hbus _ 0 _)).
  destruct (negb _).
  - crun_step. cbn [chip with_chip]. apply mii_other_read.
  - eapply crun_mono; [by apply IH|]. cbn [chip with_chip]. intros r d ->. apply mii_other_read.
Qed.

(** The end of a command, once it has been given to the chip *)
Lemma mac_complete_end s :
  on_bus s -> mac_lock (pd s) = true -> (csr_busy (chip s) <= 39)%nat ->
  crun (_ ← smsc911x_reg_read BYTE_TEST; smsc911x_mac_complete) s (fun r d =>
    r = 0 /\ csr_busy d = 0%nat /\ csr_data d = csr_data (chip s) /\
    mac_regs d = mac_regs (chip s) /\ mii d = mii (chip s)).
Proof.
  intros [Hr Hbus] Hl Hb. do 2 crun_step. rewrite (proj1 (Hbus _ 0 _)).
  destruct (csr_byte_test (chip s)) as (Hb' & Hd' & Hg').
  eapply crun_mono; [apply crun_and; [apply (mac_complete_spec p); [done..|cbn; lia]|by apply mac_complete_mii]|].
  cbn [chip with_chip]. intros r d [(-> & H1 & H2 & H3) H4]. rewrite mii_other_read in H4.
  split_and!; congruence.
Qed.

(** A read of the MAC register [o]: the command comes in a state like the first. *)
Lemma mac_read_cmd o s (Q : Z -> D -> Prop) :
  on_bus s -> mac_lock (pd s) = true -> csr_busy (chip s) = 0%nat ->
  (forall d, csr_busy d = 0%nat -> mii d = mii (chip s) -> mac_regs d = mac_regs (chip s) ->
     let d' := bus_write p MAC_CSR_CMD (csr_read_cmd o) d in
     (csr_busy d' <= 39)%nat /\
     forall d2, csr_busy d2 = 0%nat -> mac_regs d2 = mac_regs d' -> mii d2 = mii d' -> Q (csr_data d') d2) ->
  crun (smsc911x_mac_read o) s Q.
Proof.
  intros [Hr Hbus] Hl Hbusy HQ. unfold smsc911x_mac_read. do 4 crun_step.
  rewrite with_chip_id, (proj1 (Hbus _ 0 _)).
  destruct (csr_read_cmd_reg (chip s)) as (Hb & Hn & Hd & Hg). rewrite Hb.
  rewrite Hbusy in Hn |- *. rewrite bool_decide_eq_false_2 by (intros H; apply H; done).
  fold (csr_read_cmd o). do 2 crun_step. cbn [pd chip with_chip]. rewrite (proj2 (Hbus _ _ _)).
  destruct (HQ (bus_read p MAC_CSR_CMD (chip s)).2 Hn (mii_other_read _ _) Hg) as [Hle HQ'].
  set (d2 := bus_write p MAC_CSR_CMD _ _) in *.
  assert (He : crun (_ ← smsc911x_reg_read BYTE_TEST; smsc911x_mac_complete) (with_chip s d2) (fun r d =>
    r = 0 /\ csr_busy d = 0%nat /\ csr_data d = csr_data d2 /\ mac_regs d = mac_regs d2 /\ mii d = mii d2))
    by (by apply mac_complete_end).
  destruct He as (r & d3 & E & -> & H3 & H4 & H5 & H6).
  assert (Hlast : crun (smsc911x_reg_read MAC_CSR_DATA) (with_chip s d3) Q).
  { crun_step. cbn [pd chip with_chip]. rewrite (proj1 (Hbus _ 0 _)).
    destruct (csr_read_data d3 H3) as (Er & Hb5 & Hg5). rewrite Er, H4.
    apply HQ'; [done|congruence|by rewrite mii_other_read]. }
  destruct Hlast as (v & d4 & E4 & H). exists v, d4. split; [|done].
  unfold mbind, drv_bind in *. cbn in E |- *. destruct (smsc911x_reg_read BYTE_TEST _); [|done].
  rewrite E. exact E4.
Qed.

(** A write of the MAC register [o] *)
Lemma mac_write_cmd o v s (Q : unit -> D -> Prop) :
  on_bus s -> mac_lock (pd s) = true -> csr_busy (chip s) = 0%nat -> is_u32 v ->
  (forall d, csr_busy d = 0%nat -> mii d = mii (chip s) -> mac_regs d = mac_regs (chip s) -> csr_data d = v ->
     let d' := bus_write p MAC_CSR_CMD (csr_write_cmd o) d in
     (csr_busy d' <= 39)%nat /\
     forall d2, csr_busy d2 = 0%nat -> mac_regs d2 = mac_regs d' -> mii d2 = mii d' -> Q tt d2) ->
  crun (smsc911x_mac_write o v) s Q.
Proof.
  intros [Hr Hbus] Hl Hbusy Hv HQ. unfold smsc911x_mac_write. do 4 crun_step.
  rewrite with_chip_id, (proj1 (Hbus _ 0 _)).
  destruct (csr_read_cmd_reg (chip s)) as (Hb & Hn & Hd & Hg). rewrite Hb.
  rewrite Hbusy in Hn |- *. rewrite bool_decide_eq_false_2 by (intros H; apply H; done).
  fold (csr_write_cmd o). do 4 crun_step. cbn [pd chip with_chip].
  rewrite (proj2 (Hbus MAC_CSR_DATA _ _)), (proj2 (Hbus MAC_CSR_CMD _ _)).
  set (d1 := (bus_read p MAC_CSR_CMD (chip s)).2) in *.
  destruct (csr_set_data d1 v Hn Hv) as (Hb2 & Hd2 & Hg2).
  destruct (HQ (bus_write p MAC_CSR_DATA v d1)) as [Hle HQ']; [done| |congruence|done|].
  { rewrite mii_other_write by done. apply mii_other_read. }
  set (d3 := bus_write p MAC_CSR_CMD _ _) in *.
  destruct (mac_complete_end (with_chip s d3)) as (r & d4 & E & -> & H3 & H4 & H5 & H6); try done.
  exists tt, d4. split; [|by apply HQ'].
  unfold mbind, drv_bind in *. cbn in E |- *. destruct (smsc911x_reg_read BYTE_TEST _); [|done].
  by rewrite E.
Qed.

(** *** Plain MAC registers, which leave the PHYs alone *)

Lemma mac_read_plain o s :
  on_bus s -> mac_lock (pd s) = true -> mii_idle (chip s) -> plain_reg o ->
  crun (smsc911x_mac_read o) s (fun r d => r = mac_regs (chip s) o /\ mii_idle d /\
    mac_regs d = mac_regs (chip s) /\ mii_phys (mii d) = mii_phys (mii (chip s))).
Proof.
  intros Hs Hl [Hb Hm] Ho. apply mac_read_cmd; [done..|]. intros d H1 H2 H3 d'.
  destruct (csr_start_read d o H1 Ho) as (Hle & Hd & Hg). split; [done|].
  intros d2 H4 H5 H6. unfold d' in *. rewrite (mii_plain_read d o H1 Ho) in H6.
  unfold mii_idle. rewrite H6, H2. split_and!; congruence.
Qed.

Lemma mac_write_plain o v s :
  on_bus s -> mac_lock (pd s) = true -> mii_idle (chip s) -> plain_reg o -> is_u32 v ->
  crun (smsc911x_mac_write o v) s (fun _ d => mii_idle d /\
    (forall o', plain_reg o' -> mac_regs d o' = if o' =? o then v else mac_regs (chip s) o') /\
    mii_phys (mii d) = mii_phys (mii (chip s))).
Proof.
  intros Hs Hl [Hb Hm] Ho Hv. apply mac_write_cmd; [done..|]. intros d H1 H2 H3 Hd d'.
  destruct (csr_start_write d o H1 Ho) as (Hle & Hg). split; [done|].
  intros d2 H4 H5 H6. unfold d' in *. rewrite (mii_plain_write d o H1 Ho) in H6.
  unfold mii_idle. rewrite H6, H2. split_and!; [done|done| |done].
  intros o' Ho'. rewrite H5, Hg by done. by rewrite Hd, H3.
Qed.

(** *** The MII registers *)

Lemma mii_acc_run s :
  on_bus s -> mac_lock (pd s) = true -> csr_busy (chip s) = 0%nat ->
  crun (smsc911x_mac_read MII_ACC) s (fun v d =>
    has v MII_ACC_MII_BUSY_ = bool_decide (mii_left (mii (chip s)) <> 0%nat) /\ csr_busy d = 0%nat /\
    mac_regs d = mac_regs (chip s) /\
    mii d = mk_mii_hw (pred (mii_left (mii (chip s)))) (mii_data (mii (chip s))) (mii_phys (mii (chip s)))).
Proof.
  intros Hs Hl Hb. apply mac_read_cmd; [done..|]. intros d H1 H2 H3 d'.
  destruct (mii_acc_read d H1) as (Hle & Hg & Hbusy & Hm). fold d' in Hle, Hg, Hbusy, Hm. split; [done|].
  intros d2 H4 H5 H6. rewrite H2 in Hbusy, Hm. split_and!; congruence.
Qed.

(** The wait ends when the interface is no longer busy. *)
Lemma mii_wait_run n fin s (Q : Z -> D -> Prop) :
  on_bus s -> mac_lock (pd s) = true -> csr_busy (chip s) = 0%nat -> (mii_left (mii (chip s)) < n)%nat ->
  (forall d, csr_busy d = 0%nat -> mac_regs d = mac_regs (chip s) ->
     mii d = mk_mii_hw 0 (mii_data (mii (chip s))) (mii_phys (mii (chip s))) ->
     crun fin (with_chip s d) Q) ->
  crun (mii_wait n fin) s Q.
Proof.
  revert s. induction n as [|n IH]; intros s Hs Hl Hb Hn Hf; [lia|]. cbn [mii_wait]. apply crun_bind.
  eapply crun_mono; [by apply mii_acc_run|]. cbn beta. intros v d (-> & H1 & H2 & H3).
  case_bool_decide as E; cbn [negb].
  - apply IH; [done..|cbn [chip with_chip]; rewrite H3; cbn; lia|]. cbn [chip with_chip].
    intros d' H4 H5 H6. rewrite H3 in H6. apply Hf; [done|congruence|exact H6].
  - apply Hf; [done..|]. rewrite H3. f_equal. lia.
Qed.

Lemma mii_cmd_u32 a r : is_phy_reg a r -> is_u32 (mii_cmd a r) /\ is_u32 (mii_write_cmd a r).
Proof.
  intros [Ha Hr]. unfold mii_write_cmd, mii_cmd, is_word.
  assert (forall x k, 0 <= k -> 0 <= Z.shiftl (Z.land x 0x1f) k < 2 ^ (5 + k)) as H.
  { intros x k Hk. change 0x1f with (Z.ones 5). rewrite Z.land_ones, Z.shiftl_mul_pow2, Z.pow_add_r by lia.
    pose proof (Z.mod_pos_bound x (2 ^ 5)). nia. }
  pose proof (H a 11 ltac:(lia)). pose proof (H r 6 ltac:(lia)).
  assert (is_word 32 (Z.lor (Z.shiftl (Z.land a 31) 11) (Z.shiftl (Z.land r 31) 6))).
  { apply is_word_lor; [lia|unfold is_word; lia..]. }
  split; [done|]. apply is_word_lor; [lia|done|unfold is_word, MII_ACC_MII_WRITE_; lia].
Qed.

Lemma mii_read_run a r s :
  on_bus s -> mac_lock (pd s) = false -> mii_idle (chip s) -> is_phy_reg a r ->
  crun (smsc911x_mii_read a r) s (fun v d => v = phy_regs (mii_phys (mii (chip s))) a r /\ mii_idle d /\
    mac_same (chip s) d /\ mii_phys (mii d) ≡ after_read (mii_phys (mii (chip s))) a r).
Proof.
  intros [Hr Hbus] Hl [Hb Hm] Hreg. apply crun_locked; [done|]. apply crun_bind.
  assert (Hs' : on_bus (mac_locked s)) by (by split).
  eapply crun_mono; [by apply mii_acc_run|]. cbn beta. intros v d (-> & H1 & H2 & H3).
  cbn [chip mac_locked with_pd] in *. rewrite Hm in H3 |- *. rewrite bool_decide_eq_false_2 by naive_solver.
  cbv zeta. fold (mii_cmd a r). apply crun_bind.
  apply mac_write_cmd; [done|done|done|by apply mii_cmd_u32|]. cbn [chip with_chip].
  intros d1 H4 H5 H6 H7. rewrite H3 in H5.
  destruct (mii_acc_fetch d1 a r) as (Hle & Hg & Hw & Hd & Hp); [done|by rewrite H5|done|done|].
  rewrite H5 in Hd, Hp. cbn [mii_phys] in Hd, Hp.
  split; [done|]. intros d2 H8 H9 H10. apply mii_wait_run; [done|done|done|cbn; rewrite H10; lia|].
  cbn [chip with_chip]. intros d3 H11 H12 H13. rewrite H10, Hd in H13. apply crun_bind.
  apply mac_read_cmd; [done..|]. cbn [chip with_chip]. intros d4 H14 H15 H16. rewrite H13 in H15.
  destruct (mii_data_read d4) as (Hle2 & Hg2 & Hd2 & Hm2); [done|by rewrite H15|].
  split; [done|]. intros d5 H17 H18 H19. apply crun_ret. cbn [chip with_chip].
  rewrite Hm2, H15 in H19. rewrite H15 in Hd2. cbn in Hd2.
  split_and!; [|split; [done|by rewrite H19]| |by rewrite H19; exact Hp].
  - rewrite Hd2. unfold s32. pose proof (proj1 (mii_u16 (chip s) a r)) as Hu. unfold is_word in Hu.
    destruct (Z.ltb_spec (phy_regs (mii_phys (mii (chip s))) a r) (2 ^ 31)); [done|lia].
  - intros o Ho. rewrite H18, Hg2, H16, H12, H9, Hg by done. congruence.
Qed.

Lemma mii_write_run a r v s :
  on_bus s -> mac_lock (pd s) = false -> mii_idle (chip s) -> is_phy_reg a r -> is_u16 v ->
  crun (smsc911x_mii_write a r v) s (fun e d => e = 0 /\ mii_idle d /\ mac_same (chip s) d /\
    (kept_write r v -> phy_regs (mii_phys (mii d)) a r = v) /\
    (forall r', config_reg r' -> r' <> r -> ~ resets r v ->
     phy_regs (mii_phys (mii d)) a r' = phy_regs (mii_phys (mii (chip s))) a r')).
Proof.
  intros [Hr Hbus] Hl [Hb Hm] Hreg Hv. apply crun_locked; [done|]. apply crun_bind.
  assert (Hs' : on_bus (mac_locked s)) by (by split).
  eapply crun_mono; [by apply mii_acc_run|]. cbn beta. intros x d (-> & H1 & H2 & H3).
  cbn [chip mac_locked with_pd] in *. rewrite Hm in H3 |- *. rewrite bool_decide_eq_false_2 by naive_solver.
  cbv zeta. fold (mii_cmd a r). fold (mii_write_cmd a r). apply crun_bind.
  apply mac_write_cmd; [done|done|done|unfold is_word in *; lia|]. cbn [chip with_chip].
  intros d1 H4 H5 H6 H7. rewrite H3 in H5.
  destruct (mii_data_write d1) as (Hle & Hg & Hw); [done|by rewrite H5|].
  rewrite H5, H7 in Hw. cbn [mii_phys] in Hw.
  split; [done|]. intros d2 H8 H9 H10. apply crun_bind.
  apply mac_write_cmd; [done|done|done|by apply mii_cmd_u32|]. cbn [chip with_chip].
  intros d3 H11 H12 H13 H14. rewrite H10, Hw in H12.
  destruct (mii_acc_store d3 a r v) as (Hle2 & Hg2 & Hw2 & Hk & Ha); [done|by rewrite H12|done|done|by rewrite H12|done|].
  split; [done|]. intros d4 H15 H16 H17.
  apply mii_wait_run; [done|done|done|cbn; rewrite H17; lia|].
  cbn [chip with_chip]. intros d5 H18 H19 H20. apply crun_ret. cbn [chip with_chip].
  split_and!; [done|split; [done|by rewrite H20]| |by rewrite H20, H17|].
  2: { rewrite H20, H17. rewrite H12 in Ha. exact Ha. }
  intros o Ho. rewrite H19, H16, Hg2, H13, H9, Hg by done. congruence.
Qed.

End MiiProtocol.

(** ** A chip that keeps the protocol

    Its registers stay as they are written, the bits that clear themselves excepted,
    and its status register latches nothing. *)

Record mii_demo := mk_mii_demo {
  md_regs : Z -> Z; md_csr : Z; md_busy : nat; md_left : nat; md_data : Z; md_phys : Z -> Z -> Z }.

Definition demo_mii (d : mii_demo) : mii_hw :=
  mk_mii_hw (md_left d) (u32 (md_data d))
    (mk_phys (fun a r => u16 (md_phys d a r)) (fun a => u16 (md_phys d a MII_BMSR))).

Definition demo_store (f : Z -> Z -> Z) (a r v : Z) : Z -> Z -> Z := fun a' r' =>
  if (a' =? a) && (r' =? r) then
    if r =? MII_BMCR then Z.land v (Z.lnot (Z.lor BMCR_RESET BMCR_ANRESTART)) else v
  else f a' r'.

Definition demo_read_cmd (o : Z) (d : mii_demo) : mii_demo :=
  if o =? MII_ACC then
    mk_mii_demo (md_regs d) (if bool_decide (md_left d = 0%nat) then 0 else MII_ACC_MII_BUSY_) 39
      (pred (md_left d)) (md_data d) (md_phys d)
  else if o =? MII_DATA then mk_mii_demo (md_regs d) (md_data d) 39 (md_left d) (md_data d) (md_phys d)
  else mk_mii_demo (md_regs d) (u32 (md_regs d o)) 39 (md_left d) (md_data d) (md_phys d).

Definition demo_write_cmd (o : Z) (d : mii_demo) : mii_demo :=
  let v := u32 (md_csr d) in
  let a := Z.land (Z.shiftr v 11) 0x1f in
  let r := Z.land (Z.shiftr v 6) 0x1f in
  if o =? MII_ACC then
    if has v MII_ACC_MII_WRITE_
    then mk_mii_demo (md_regs d) v 39 99 (md_data d) (demo_store (md_phys d) a r (u32 (md_data d)))
    else mk_mii_demo (md_regs d) v 39 99 (u16 (md_phys d a r)) (md_phys d)
  else if o =? MII_DATA then mk_mii_demo (md_regs d) v 39 (md_left d) v (md_phys d)
  else mk_mii_demo (fun o' => if o' =? o then v else md_regs d o') v 39 (md_left d) (md_data d) (md_phys d).

Definition mii_demo_write (v o : Z) (d : mii_demo) : mii_demo :=
  if o =? MAC_CSR_DATA then mk_mii_demo (md_regs d) v (md_busy d) (md_left d) (md_data d) (md_phys d)
  else if o =? MAC_CSR_CMD then
    if has v MAC_CSR_CMD_R_NOT_W_ then demo_read_cmd (Z.land v 0xff) d else demo_write_cmd (Z.land v 0xff) d
  else d.

Definition mii_demo_read (o : Z) (d : mii_demo) : Z * mii_demo :=
  if o =? MAC_CSR_CMD then
    (if bool_decide (md_busy d <> 0%nat) then MAC_CSR_CMD_CSR_BUSY_ else 0,
     mk_mii_demo (md_regs d) (md_csr d) (pred (md_busy d)) (md_left d) (md_data d) (md_phys d))
  else if o =? MAC_CSR_DATA then (u32 (md_csr d), d)
  else (0x87654321, d).

Definition mii_demo_chip : Smsc mii_demo := {|
  readl := mii_demo_read; writel := mii_demo_write;
  readw _ d := (0, d); writew _ _ d := d; chip_delay _ d := d |}.
#[local] Existing Instance mii_demo_chip.

(** Commands as the driver gives them *)
Lemma demo_cmd o d : plain_reg o \/ o = MII_ACC \/ o = MII_DATA ->
  bus_write demo_bus MAC_CSR_CMD (csr_read_cmd o) d = demo_read_cmd o d /\
  bus_write demo_bus MAC_CSR_CMD (csr_write_cmd o) d = demo_write_cmd o d.
Proof.
  intros Ho. assert (H : Z.land (csr_read_cmd o) 0xff = o /\ Z.land (csr_write_cmd o) 0xff = o /\
    has (csr_read_cmd o) MAC_CSR_CMD_R_NOT_W_ = true /\ has (csr_write_cmd o) MAC_CSR_CMD_R_NOT_W_ = false).
  { destruct Ho as [Ho|[-> | ->]]; [by apply demo_cmds|vm_compute; split_and!; reflexivity..]. }
  destruct H as (E1 & E2 & E3 & E4).
  change (bus_write demo_bus MAC_CSR_CMD ?v d) with (mii_demo_write v MAC_CSR_CMD d).
  unfold mii_demo_write. cbn [Z.eqb MAC_CSR_CMD MAC_CSR_DATA Pos.eqb]. by rewrite E1, E2, E3, E4.
Qed.

Lemma demo_plain o d : plain_reg o ->
  demo_read_cmd o d = mk_mii_demo (md_regs d) (u32 (md_regs d o)) 39 (md_left d) (md_data d) (md_phys d) /\
  demo_write_cmd o d = mk_mii_demo (fun o' => if o' =? o then u32 (md_csr d) else md_regs d o')
                         (u32 (md_csr d)) 39 (md_left d) (md_data d) (md_phys d).
Proof.
  intros (_ & H1 & H2). unfold demo_read_cmd, demo_write_cmd.
  by rewrite (proj2 (Z.eqb_neq o _) H1), (proj2 (Z.eqb_neq o _) H2).
Qed.

Lemma u32_u32 z : u32 (u32 z) = u32 z.
Proof. apply u32_small, is_u32_u32. Qed.
Lemma u32_u16 z : u32 (u16 z) = u16 z.
Proof. apply u32_small. pose proof (is_u16_u16 z). unfold is_word in *. lia. Qed.

Definition mii_demo_mac : MacChip mii_demo demo_bus.
Proof.
  refine (@Build_MacChip _ mii_demo_chip demo_bus (fun d o => u32 (md_regs d o)) (fun d => u32 (md_csr d))
    md_busy _ _ _ _ _ _).
  - intros [r v [|n] ? ? ?]; by split_and!.
  - done.
  - done.
  - intros d v Hb Hv. split; [done|]. split; [by apply u32_small|done].
  - intros d o Hb Ho. rewrite (proj1 (demo_cmd o d (or_introl Ho))), (proj1 (demo_plain o d Ho)).
    split; [done|]. split; [apply u32_u32|done].
  - intros d o Hb Ho. rewrite (proj2 (demo_cmd o d (or_introl Ho))), (proj2 (demo_plain o d Ho)). split; [done|].
    intros o' Ho'. cbn [md_regs]. destruct (o' =? o); [apply u32_u32|done].
Defined.
#[local] Existing Instance mii_demo_mac.

(** The command words carry the address and the register. *)
Lemma demo_decode a r : is_phy_reg a r ->
  Z.land (Z.shiftr (mii_cmd a r) 11) 0x1f = a /\ Z.land (Z.shiftr (mii_cmd a r) 6) 0x1f = r /\
  has (mii_cmd a r) MII_ACC_MII_WRITE_ = false /\
  Z.land (Z.shiftr (mii_write_cmd a r) 11) 0x1f = a /\ Z.land (Z.shiftr (mii_write_cmd a r) 6) 0x1f = r /\
  has (mii_write_cmd a r) MII_ACC_MII_WRITE_ = true.
Proof.
  intros [Ha Hr].
  assert (H : forallb (fun n => let a := Z.of_nat (n / 32) in let r := Z.of_nat (n mod 32) in
    (Z.land (Z.shiftr (mii_cmd a r) 11) 0x1f =? a) && (Z.land (Z.shiftr (mii_cmd a r) 6) 0x1f =? r) &&
    negb (has (mii_cmd a r) MII_ACC_MII_WRITE_) &&
    (Z.land (Z.shiftr (mii_write_cmd a r) 11) 0x1f =? a) && (Z.land (Z.shiftr (mii_write_cmd a r) 6) 0x1f =? r) &&
    has (mii_write_cmd a r) MII_ACC_MII_WRITE_) (seq 0 1024) = true) by (vm_compute; reflexivity).
  rewrite forallb_forall in H. specialize (H (Z.to_nat a * 32 + Z.to_nat r)%nat).
  rewrite Nat.div_add_l, Nat.div_small, Nat.add_0_r in H by lia.
  rewrite Nat.add_comm, Nat.Div0.mod_add, Nat.mod_small, !Z2Nat.id in H by lia.
  assert (In (Z.to_nat r + Z.to_nat a * 32)%nat (seq 0 1024)) as Hin by (apply in_seq; lia).
  specialize (H Hin). cbv zeta in H. rewrite !andb_true_iff, negb_true_iff, !Z.eqb_eq in H. tauto.
Qed.

Lemma land_clear x m : Z.land x m = 0 -> Z.land x (Z.lnot m) = x.
Proof.
  intros Hz. rewrite <- Z.ldiff_land. apply Z.bits_inj'. intros i Hi. rewrite Z.ldiff_spec.
  apply (f_equal (fun x => Z.testbit x i)) in Hz. rewrite Z.land_spec, Z.bits_0 in Hz.
  destruct (Z.testbit x i); [|done]. cbn [andb] in *. by rewrite Hz.
Qed.

Lemma demo_store_kept f a r v : is_u16 v -> kept_write r v -> u16 (demo_store f a r v a r) = v.
Proof.
  intros Hv Hk. unfold demo_store. rewrite !Z.eqb_refl. cbn [andb].
  destruct Hk as [-> | [-> Hz]]; [by apply u16_small|]. cbn [Z.eqb MII_BMCR].
  rewrite land_clear by done. by apply u16_small.
Qed.

Lemma demo_store_other f a r r' v : r' <> r -> demo_store f a r v a r' = f a r'.
Proof. intros Hr. unfold demo_store. by rewrite (proj2 (Z.eqb_neq r' r)), andb_false_r. Qed.

Definition mii_demo_protocol : MiiChip mii_demo demo_bus.
Proof.
  refine (@Build_MiiChip _ mii_demo_chip demo_bus mii_demo_mac demo_mii _ _ _ _ _ _ _ _ _ _ _ _ _).
  - intros d a r. by split; apply is_word_mod.
  - intros d o _. apply is_u32_u32.
  - intros reg d. change (bus_read demo_bus reg d) with (mii_demo_read reg d). unfold mii_demo_read.
    by repeat case_match.
  - intros reg v d Hreg. change (bus_write demo_bus reg v d) with (mii_demo_write v reg d).
    unfold mii_demo_write. rewrite (proj2 (Z.eqb_neq reg _) Hreg). by case_match.
  - intros d o Hb Ho. by rewrite (proj1 (demo_cmd o d (or_introl Ho))), (proj1 (demo_plain o d Ho)).
  - intros d o Hb Ho. by rewrite (proj2 (demo_cmd o d (or_introl Ho))), (proj2 (demo_plain o d Ho)).
  - intros reg d H1 H2. change (bus_read demo_bus reg d) with (mii_demo_read reg d). unfold mii_demo_read.
    by rewrite (proj2 (Z.eqb_neq reg _) H1), (proj2 (Z.eqb_neq reg _) H2).
  - intros reg v d H1 H2. change (bus_write demo_bus reg v d) with (mii_demo_write v reg d).
    unfold mii_demo_write. by rewrite (proj2 (Z.eqb_neq reg _) H1), (proj2 (Z.eqb_neq reg _) H2).
  - intros d d' Hb. subst d'. rewrite (proj1 (demo_cmd MII_ACC d ltac:(tauto))).
    destruct d as [? ? ? [|n] ? ?]; by split_and!.
  - intros d d' Hb Hl. subst d'. rewrite (proj1 (demo_cmd MII_DATA d ltac:(tauto))). by split_and!.
  - intros d d' Hb Hl. subst d'. rewrite (proj2 (demo_cmd MII_DATA d ltac:(tauto))).
    split; [done|]. split; [done|]. destruct d as [? ? ? n ? ?]. cbn in Hl. subst n.
    unfold demo_mii. cbn [demo_write_cmd]. cbn. by rewrite u32_u32.
  - intros d a r d' Hb Hl Hr Hc. subst d'. rewrite (proj2 (demo_cmd MII_ACC d ltac:(tauto))).
    destruct (demo_decode a r Hr) as (E1 & E2 & E3 & _).
    change (csr_data d) with (u32 (md_csr d)) in Hc. unfold demo_write_cmd. rewrite Hc.
    cbn [Z.eqb MII_ACC Pos.eqb]. rewrite E1, E2, E3. cbn [md_busy csr_busy mii_demo_mac].
    split_and!; [lia|done|cbn; lia|apply u32_u16|]. split; [|done]. intros a' r'. cbn.
    destruct (_ && _) eqn:E; [|done]. rewrite !andb_true_iff, !Z.eqb_eq in E. by destruct E as [[-> ->] ->].
  - intros d a r v d' Hb Hl Hr Hc Hd Hv. subst d'. rewrite (proj2 (demo_cmd MII_ACC d ltac:(tauto))).
    destruct (demo_decode a r Hr) as (_ & _ & _ & E1 & E2 & E3).
    change (csr_data d) with (u32 (md_csr d)) in Hc. change (mii_data (demo_mii d)) with (u32 (md_data d)) in Hd.
    unfold demo_write_cmd. rewrite Hc, Hd.
    cbn [Z.eqb MII_ACC Pos.eqb]. rewrite E1, E2, E3. cbn [md_busy csr_busy mii_demo_mac].
    split_and!; [lia|done|cbn; lia|by apply demo_store_kept|]. intros r' _ Hne _. cbn.
    by rewrite demo_store_other.
Defined.
