(* ===== verification/SmscNetdev.v ===== *)
(** * The network driver: the entry points of the interface
    (smsc911x.c 1402-1693, 1831-1925, 2671-2783, 2928-3081, 3377-3410; the parts of
    linux/net/core/dev.c, linux/lib/string.c and linux/include/linux/netdevice.h that
    they are called from or call)

    Reset, opening and closing, the interrupt handler, the address, the ioctl, the calls
    of ethtool, and power management, and that no sequence of calls, those of the PHY
    library included, leaves the invariant.  An interrupt is taken where the driver
    sleeps, if the line is asserted then ([IrqLine]). *)

From S2P Require Import Prelude SmscDefs SmscIo SmscMac SmscRun SmscFilter SmscTx SmscPoll SmscPhy SmscEeprom PhyLib PhyKeeps.

(** if_ether.h, netdevice.h, if.h, sockios.h *)
Definition ETH_P_8021Q : Z := 0x8100.
Definition NET_ADDR_RANDOM : Z := 1.
Definition IFF_BROADCAST : Z := 0x2.
Definition IFF_MULTICAST : Z := 0x1000.
Definition ACENIC_IOCTL_SWATT : Z := 0x89f0 + 2.

(** [strlcpy] of lib/string.c: a string without its zero, into an array of [size] bytes *)
Definition strlcpy (dest src : list Z) (size : nat) : list Z :=
  if bool_decide (size = 0%nat) then dest
  else
    let len := if bool_decide (size <= length src)%nat then (size - 1)%nat else length src in
    take len src ++ 0 :: drop (S len) dest.

(** [struct ethtool_drvinfo], the fields that the driver fills *)
Record ethtool_drvinfo := mk_drvinfo { di_driver : list Z; di_version : list Z; di_bus_info : list Z }.

(** "smsc911x" and "2008-10-21" *)
Definition SMSC_CHIPNAME : list Z := [115; 109; 115; 99; 57; 49; 49; 120].
Definition SMSC_DRV_VERSION : list Z := [50; 48; 48; 56; 45; 49; 48; 45; 50; 49].

Definition smsc911x_ethtool_getdrvinfo (dev_name : list Z) (info : ethtool_drvinfo) : ethtool_drvinfo :=
  mk_drvinfo (strlcpy (di_driver info) SMSC_CHIPNAME 32) (strlcpy (di_version info) SMSC_DRV_VERSION 32)
    (strlcpy (di_bus_info info) dev_name 32).

(** The array keeps its length and holds the beginning of the string with a zero behind. *)
Lemma strlcpy_terminates dest src :
  dest <> [] ->
  let d := strlcpy dest src (length dest) in
  length d = length dest /\
  exists n, (n < length dest)%nat /\ take n d = take (length dest - 1) src /\ d !! n = Some 0.
Proof.
  intros Hd. assert (0 < length dest)%nat by (by destruct dest; cbn; lia || done).
  unfold strlcpy. rewrite bool_decide_eq_false_2 by lia.
  set (len := if bool_decide _ then _ else _).
  assert (Hlen : (len <= length src)%nat /\ (len < length dest)%nat /\ take len src = take (length dest - 1) src).
  { subst len. case_bool_decide; [split; [lia|]; split; [lia|done]|].
    split; [done|]. split; [lia|]. rewrite !take_ge by lia. done. }
  destruct Hlen as (H1 & H2 & H3). assert (H4 : length (take len src) = len) by (rewrite length_take; lia).
  split; [rewrite length_app; cbn; rewrite length_drop; lia|]. exists len. split; [done|].
  split; [by rewrite take_app_length' by done|]. rewrite lookup_app_r by lia. by rewrite H4, Nat.sub_diag.
Qed.

(** [strlcpy_terminates] for all strings of the driver *)
Corollary getdrvinfo_terminated dev_name info :
  length (di_driver info) = 32%nat -> length (di_version info) = 32%nat -> length (di_bus_info info) = 32%nat ->
  let i := smsc911x_ethtool_getdrvinfo dev_name info in
  Forall (fun d => length d = 32%nat /\ In 0 d) [di_driver i; di_version i; di_bus_info i].
Proof.
  intros H1 H2 H3. unfold smsc911x_ethtool_getdrvinfo. cbn [di_driver di_version di_bus_info].
  assert (H : forall dest src, length dest = 32%nat ->
    length (strlcpy dest src 32) = 32%nat /\ In 0 (strlcpy dest src 32)).
  { intros dest src E. destruct (strlcpy_terminates dest src) as (Hl & n & _ & _ & Hn); [by intros ->|].
    rewrite E in Hl, Hn. split; [done|]. apply list_elem_of_In. by eapply list_elem_of_lookup_2. }
  repeat apply Forall_cons_2; [by apply H..|apply Forall_nil_2].
Qed.

(** etherdevice.h, on the six bytes of an address *)
Definition is_zero_ether_addr (a : list Z) : bool := forallb (Z.eqb 0) (take 6 a).
Definition is_multicast_ether_addr (a : list Z) : bool := has (hd 0 a) 0x01.
Definition is_valid_ether_addr (a : list Z) : bool :=
  negb (is_multicast_ether_addr a) && negb (is_zero_ether_addr a).

(** The interrupt line of the chip. *)
Class IrqLine (D : Type) := irq_line : D -> bool.

Section Netdev.
Context {D : Type} `{!Smsc D}.

(** ** NAPI (netdevice.h) *)

Definition napi_schedule_prep : drv D bool :=
  n ← get_nd;
  if napi_disabling n then mret false
  else _ ← upd_nd (set_napi_scheduled true); mret (negb (napi_scheduled n)).

(** [while (test_and_set_bit(NAPI_STATE_SCHED, &n->state)) msleep(1);] does not
    end while a poll is scheduled that nobody runs. *)
Definition napi_disable : drv D unit :=
  _ ← upd_nd (set_napi_disabling true);
  n ← get_nd;
  if napi_scheduled n then halt Hang
  else
    _ ← upd_nd (set_napi_scheduled true);
    upd_nd (set_napi_disabling false).

Definition napi_enable : drv D unit :=
  n ← get_nd;
  if napi_scheduled n then upd_nd (set_napi_scheduled false) else halt Bug.

(** ** Reset *)

(** [smsc911x_phy_disable_energy_detect] *)
Definition smsc911x_phy_disable_energy_detect : drv D Z :=
  p ← get_pd;
  match phy_dev p with
  | None => mret 0
  | Some phy =>
      rc ← smsc911x_mii_read (phy_addr phy) MII_LAN83C185_CTRL_STATUS;
      if rc <? 0 then mret rc
      else if has rc MII_LAN83C185_EDPWRDOWN && negb (has rc MII_LAN83C185_ENERGYON) then
        rc ← smsc911x_mii_write (phy_addr phy) MII_LAN83C185_CTRL_STATUS
               (u16 (Z.land rc (not32 MII_LAN83C185_EDPWRDOWN)));
        if rc <? 0 then mret rc else _ ← udelay 1000; mret 0
      else mret 0
  end.

(** [smsc911x_phy_enable_energy_detect] *)
Definition smsc911x_phy_enable_energy_detect : drv D Z :=
  p ← get_pd;
  match phy_dev p with
  | None => mret 0
  | Some phy =>
      rc ← smsc911x_mii_read (phy_addr phy) MII_LAN83C185_CTRL_STATUS;
      if rc <? 0 then mret rc
      else if negb (has rc MII_LAN83C185_EDPWRDOWN) then
        _ ← udelay 100000;
        rc ← smsc911x_mii_write (phy_addr phy) MII_LAN83C185_CTRL_STATUS
               (u16 (Z.lor rc MII_LAN83C185_EDPWRDOWN));
        if rc <? 0 then mret rc else _ ← udelay 1000; mret 0
      else mret 0
  end.

(** [do { udelay(10); temp = ...; } while ((--timeout) && (temp & HW_CFG_SRST_));] *)
Fixpoint srst_wait (n : nat) (temp : Z) : drv D Z :=
  match n with
  | O => mret temp
  | S n =>
      _ ← udelay 10;
      temp ← smsc911x_reg_read HW_CFG;
      if has temp HW_CFG_SRST_ then srst_wait n temp else mret temp
  end.

(** [smsc911x_soft_reset] *)
Definition smsc911x_soft_reset : drv D Z :=
  p ← get_pd;
  ret ← (if generation p =? 4 then smsc911x_phy_disable_energy_detect else mret 0);
  if negb (ret =? 0) then mret ret
  else
    _ ← smsc911x_reg_write HW_CFG HW_CFG_SRST_;
    temp ← srst_wait 10 0;
    if has temp HW_CFG_SRST_ then mret (- EIO)
    else if generation p =? 4 then smsc911x_phy_enable_energy_detect else mret 0.

(** ** The interrupt handler *)

Definition handle_sw (hit : bool) (serviced : Z) : drv D Z :=
  if hit then
    temp ← smsc911x_reg_read INT_EN;
    _ ← smsc911x_reg_write INT_EN (Z.land temp (not32 INT_EN_SW_INT_EN_));
    _ ← smsc911x_reg_write INT_STS INT_STS_SW_INT_;
    _ ← upd_pd (set_software_irq_signal 1);
    mret IRQ_HANDLED
  else mret serviced.

Definition handle_rxstop (hit : bool) (serviced : Z) : drv D Z :=
  if hit then
    _ ← smsc911x_reg_write INT_STS INT_STS_RXSTOP_INT_;
    _ ← rx_stop;
    mret IRQ_HANDLED
  else mret serviced.

Definition handle_tdfa (hit : bool) (serviced : Z) : drv D Z :=
  if hit then
    temp ← smsc911x_reg_read FIFO_INT;
    _ ← smsc911x_reg_write FIFO_INT (Z.lor temp FIFO_INT_TX_AVAIL_LEVEL_);
    _ ← smsc911x_reg_write INT_STS INT_STS_TDFA_;
    _ ← upd_nd (set_queue_stopped false);
    mret IRQ_HANDLED
  else mret serviced.

Definition handle_rxe (hit : bool) (serviced : Z) : drv D Z :=
  if hit then _ ← smsc911x_reg_write INT_STS INT_STS_RXE_; mret IRQ_HANDLED
  else mret serviced.

Definition handle_rsfl (hit : bool) (serviced : Z) : drv D Z :=
  if hit then
    ok ← napi_schedule_prep;
    _ ← (if ok : bool then
           temp ← smsc911x_reg_read INT_EN;
           smsc911x_reg_write INT_EN (Z.land temp (not32 INT_EN_RSFL_EN_))
         else mret tt);
    mret IRQ_HANDLED
  else mret serviced.

(** [smsc911x_irqhandler]; [__napi_schedule] puts the context, whose bit is set,
    on the list of the softirq. *)
Definition smsc911x_irqhandler : drv D Z :=
  intsts ← smsc911x_reg_read INT_STS;
  inten ← smsc911x_reg_read INT_EN;
  let hit b := has (Z.land intsts inten) b in
  serviced ← handle_sw (hit INT_STS_SW_INT_) IRQ_NONE;
  serviced ← handle_rxstop (hit INT_STS_RXSTOP_INT_) serviced;
  serviced ← handle_tdfa (hit INT_STS_TDFA_) serviced;
  serviced ← handle_rxe (hit INT_STS_RXE_) serviced;
  handle_rsfl (hit INT_STS_RSFL_) serviced.

(** ** Opening and closing *)

(** [while ((smsc911x_reg_read(pdata, E2P_CMD) & E2P_CMD_EPC_BUSY_) && --timeout) udelay(10);] *)
Fixpoint eeprom_loaded (n : nat) : drv D unit :=
  match n with
  | O => mret tt
  | S n =>
      v ← smsc911x_reg_read E2P_CMD;
      if has v E2P_CMD_EPC_BUSY_ then
        match n with O => mret tt | _ => _ ← udelay 10; eeprom_loaded n end
      else mret tt
  end.

Context `{!IrqLine D}.

(** [msleep(1)]: an interrupt that is asserted after it has been taken. *)
Definition sleep_irq : drv D unit :=
  _ ← udelay 1000;
  asserted ← lib (fun d => (irq_line d, d));
  if asserted : bool then _ ← smsc911x_irqhandler; mret tt else mret tt.

(** [while (timeout--) { if (pdata->software_irq_signal) break; msleep(1); }] *)
Fixpoint irq_test (timeout : nat) : drv D unit :=
  match timeout with
  | O => mret tt
  | S n =>
      p ← get_pd;
      if negb (software_irq_signal p =? 0) then mret tt
      else _ ← sleep_irq; irq_test n
  end.

(** [smsc911x_open], from the reset to the enabling of interrupts *)
Definition open_setup : drv D unit :=
  _ ← smsc911x_reg_write HW_CFG 0x00050000;
  _ ← smsc911x_reg_write AFC_CFG 0x006E3740;
  _ ← locked_mac_write VLAN1 ETH_P_8021Q;
  _ ← eeprom_loaded 50;
  _ ← smsc911x_reg_write GPIO_CFG 0x70070000;
  _ ← lock_mac;
  n ← get_nd;
  _ ← smsc911x_set_hw_mac_address (dev_addr n);
  _ ← unlock_mac;
  _ ← smsc911x_reg_write INT_EN 0;
  _ ← smsc911x_reg_write INT_STS 0xFFFFFFFF;
  p ← get_pd;
  let intcfg := Z.lor (Z.shiftl 10 24) INT_CFG_IRQ_EN_ in
  let intcfg := if negb (irq_polarity (config p) =? 0) then Z.lor intcfg INT_CFG_IRQ_POL_ else intcfg in
  let intcfg := if negb (irq_type (config p) =? 0) then Z.lor intcfg INT_CFG_IRQ_TYPE_ else intcfg in
  smsc911x_reg_write INT_CFG intcfg.

(** its test of the interrupt *)
Definition open_irq_test : drv D unit :=
  _ ← upd_pd (set_software_irq_signal 0);
  temp ← smsc911x_reg_read INT_EN;
  _ ← smsc911x_reg_write INT_EN (Z.lor temp INT_EN_SW_INT_EN_);
  irq_test 1000.

(** and the rest. *)
Definition open_finish : drv D unit :=
  _ ← upd_pd (set_last_duplex (-1));
  _ ← upd_pd (set_last_carrier (-1));
  _ ← phy_start;
  temp ← smsc911x_reg_read HW_CFG;
  _ ← smsc911x_reg_write HW_CFG
        (Z.lor (Z.land temp (Z.lor HW_CFG_TX_FIF_SZ_ 0x00000FFF)) HW_CFG_SF_);
  temp ← smsc911x_reg_read FIFO_INT;
  _ ← smsc911x_reg_write FIFO_INT
        (Z.land (Z.lor temp FIFO_INT_TX_AVAIL_LEVEL_) (not32 FIFO_INT_RX_STS_LEVEL_));
  _ ← smsc911x_reg_write RX_CFG (Z.shiftl NET_IP_ALIGN 8);
  _ ← napi_enable;
  temp ← smsc911x_reg_read INT_EN;
  _ ← smsc911x_reg_write INT_EN
        (Z.lor temp (Z.lor (Z.lor INT_EN_TDFA_EN_ INT_EN_RSFL_EN_) INT_EN_RXSTOP_INT_EN_));
  _ ← lock_mac;
  temp ← smsc911x_mac_read MAC_CR;
  _ ← smsc911x_mac_write MAC_CR (Z.lor temp (Z.lor (Z.lor MAC_CR_TXEN_ MAC_CR_RXEN_) MAC_CR_HBDIS_));
  _ ← unlock_mac;
  _ ← smsc911x_reg_write TX_CFG TX_CFG_TX_ON_;
  upd_nd (set_queue_stopped false).

(** [smsc911x_open] *)
Definition smsc911x_open : drv D Z :=
  p ← get_pd;
  n ← get_nd;
  if negb (has_phy p) then mret (- EAGAIN)
  else if negb (is_valid_ether_addr (dev_addr n)) then mret (- EADDRNOTAVAIL)
  else
    r ← smsc911x_soft_reset;
    if negb (r =? 0) then mret (- EIO)
    else
      _ ← open_setup;
      _ ← open_irq_test;
      p ← get_pd;
      if software_irq_signal p =? 0 then mret (- ENODEV)
      else _ ← open_finish; mret 0.

(** [smsc911x_stop] *)
Definition smsc911x_stop (fuel : nat) : drv D Z :=
  temp ← smsc911x_reg_read INT_CFG;
  _ ← smsc911x_reg_write INT_CFG (Z.land temp (not32 INT_CFG_IRQ_EN_));
  _ ← upd_nd (set_queue_stopped true);
  _ ← napi_disable;
  dropped ← smsc911x_reg_read RX_DROP;
  _ ← upd_stats (fun st => set_rx_dropped (add32 (rx_dropped st) dropped) st);
  _ ← smsc911x_tx_update_txcounters fuel;
  p ← get_pd;
  _ ← (if has_phy p then phy_stop else mret tt);
  mret 0.

(** [__dev_open], [dev_open] and [dev_close] of the network core, for one device
    that is present and whose notifiers do not object; the driver's
    [ndo_validate_addr] is [eth_validate_addr]. *)
Definition dev_set_rx_mode : drv D unit :=
  n ← get_nd;
  if has (dev_flags n) IFF_UP then smsc911x_set_multicast_list else mret tt.

Definition __dev_open : drv D Z :=
  _ ← upd_nd (set_running true);
  n ← get_nd;
  ret ← (if is_valid_ether_addr (dev_addr n) then smsc911x_open else mret (- EADDRNOTAVAIL));
  _ ← (if negb (ret =? 0) then upd_nd (set_running false)
       else
         _ ← upd_nd (fun n => set_dev_flags (Z.lor (dev_flags n) IFF_UP) n);
         dev_set_rx_mode);
  mret ret.

Definition dev_open : drv D Z :=
  n ← get_nd;
  if has (dev_flags n) IFF_UP then mret 0 else __dev_open.

Definition dev_close (fuel : nat) : drv D Z :=
  n ← get_nd;
  if has (dev_flags n) IFF_UP then
    _ ← upd_nd (set_running false);
    _ ← smsc911x_stop fuel;
    _ ← upd_nd (fun n => set_dev_flags (Z.land (dev_flags n) (not32 IFF_UP)) n);
    mret 0
  else mret 0.

(** ** The address, ioctl, ethtool *)

(** [smsc911x_set_mac_address] *)
Definition smsc911x_set_mac_address (sa_data : list Z) : drv D Z :=
  p ← get_pd;
  n ← get_nd;
  if (generation p <=? 1) && running n then mret (- EBUSY)
  else if negb (is_valid_ether_addr sa_data) then mret (- EADDRNOTAVAIL)
  else
    _ ← upd_nd (fun n => set_addr_assign_type (Z.land (addr_assign_type n) (Z.lnot NET_ADDR_RANDOM)) n);
    _ ← upd_nd (set_dev_addr (take 6 sa_data));
    _ ← lock_mac;
    n ← get_nd;
    _ ← smsc911x_set_hw_mac_address (dev_addr n);
    _ ← unlock_mac;
    mret 0.

Context `{!Attestation D}.

(** [smsc911x_do_swatt]; [stack] is what the local buffer holds. *)
Definition smsc911x_do_swatt (stack : list Z) (cmd : Z) : drv D Z :=
  if cmd =? ACENIC_IOCTL_SWATT then
    fun s => match attest true stack (chip s) with
             | Some (_, d) => Ret 0 (with_chip s d)
             | None => Stop OutOfBounds
             end
  else mret (- EOPNOTSUPP).

(** [smsc911x_do_ioctl] *)
Definition smsc911x_do_ioctl (stack : list Z) (mii : mii_ioctl_data) (cmd : Z) : drv D (Z * mii_ioctl_data) :=
  p ← get_pd;
  n ← get_nd;
  match phy_dev p with
  | Some _ =>
      if running n then
        done ← (if cmd =? ACENIC_IOCTL_SWATT then
                  r ← smsc911x_do_swatt stack cmd; mret (r =? 0)
                else mret false);
        if done : bool then mret (0, mii) else phy_mii_ioctl mii cmd
      else mret (- EINVAL, mii)
  | None => mret (- EINVAL, mii)
  end.

(** [smsc911x_ethtool_getsettings], [smsc911x_ethtool_setsettings] and
    [smsc911x_ethtool_nwayreset] *)
Definition smsc911x_ethtool_getsettings (c : ethtool_cmd) : drv D (Z * ethtool_cmd) :=
  phy_ethtool_gset (mk_cmd (ec_supported c) (ec_advertising c) (ec_speed c) (ec_duplex c) (ec_port c)
                      (ec_phy_address c) (ec_transceiver c) (ec_autoneg c) 1 1 (ec_speed_hi c)).
Definition smsc911x_ethtool_setsettings (c : ethtool_cmd) : drv D Z := phy_ethtool_sset c.
Definition smsc911x_ethtool_nwayreset : drv D Z := phy_start_aneg.

Definition smsc911x_ethtool_getmsglevel : drv D Z := p ← get_pd; mret (msg_enable p).
Definition smsc911x_ethtool_setmsglevel (level : Z) : drv D unit := upd_pd (set_msg_enable level).

(** [smsc911x_ethtool_getregslen] *)
Definition smsc911x_ethtool_getregslen : Z :=
  ((E2P_DATA - ID_REV) / 4 + 1 + (WUCSR - MAC_CR) + 1 + 32) * 4.

(** A loop that stores what it reads at [data[j++]]; [data] is the rest of the
    array. *)
Fixpoint dump (f : Z -> drv D Z) (l : list Z) : drv D (list Z) :=
  match l with
  | [] => mret []
  | i :: l => v ← f i; vs ← dump f l; mret (v :: vs)
  end.

(** [smsc911x_ethtool_getregs]: the version and the words it stores *)
Definition smsc911x_ethtool_getregs : drv D (Z * list Z) :=
  p ← get_pd;
  match phy_dev p with
  | None => halt NullPointer
  | Some phy =>
      regs ← dump smsc911x_reg_read (map (fun i => ID_REV + 4 * i) (seqZ 0 ((E2P_DATA - ID_REV) / 4 + 1)));
      macs ← dump (fun i => _ ← lock_mac; v ← smsc911x_mac_read i; _ ← unlock_mac; mret v)
               (seqZ MAC_CR (WUCSR - MAC_CR + 1));
      miis ← dump (fun i => v ← smsc911x_mii_read (phy_addr phy) i; mret (u32 v)) (seqZ 0 32);
      mret (idrev p, regs ++ macs ++ miis)
  end.

(** ** Power management *)

Definition smsc911x_suspend : drv D Z :=
  _ ← smsc911x_reg_write PMT_CTRL
        (Z.lor (Z.lor (Z.lor PMT_CTRL_PM_MODE_D1_ PMT_CTRL_WOL_EN_) PMT_CTRL_ED_EN_) PMT_CTRL_PME_EN_);
  mret 0.

(** [while (!(smsc911x_reg_read(pdata, PMT_CTRL) & PMT_CTRL_READY_) && --to) udelay(1000);]
    Whether the chip became ready. *)
Fixpoint pmt_ready (to : nat) : drv D bool :=
  match to with
  | O => mret false
  | S n =>
      v ← smsc911x_reg_read PMT_CTRL;
      if has v PMT_CTRL_READY_ then mret true
      else match n with O => mret false | _ => _ ← udelay 1000; pmt_ready n end
  end.

Definition smsc911x_resume : drv D Z :=
  _ ← smsc911x_reg_write BYTE_TEST 0;
  ok ← pmt_ready 100;
  mret (if ok : bool then 0 else - EIO).

(** ** Initialisation *)

(** The byte order, corrected once. *)
Definition check_byte_order : drv D Z :=
  byte_test ← smsc911x_reg_read BYTE_TEST;
  if byte_test =? 0x43218765 then
    _ ← smsc911x_reg_write WORD_SWAP 0xffffffff;
    _ ← smsc911x_reg_read BYTE_TEST;
    smsc911x_reg_read BYTE_TEST
  else mret byte_test.

(** The generation of the chip, [None] for one that is not known. *)
Definition chip_generation (id : Z) : option Z :=
  let family := Z.land id 0xFFFF0000 in
  if bool_decide (family ∈ [0x01180000; 0x01170000; 0x01160000; 0x01150000; 0x218A0000])
  then Some (Z.land id 0x0000FFFF)
  else if bool_decide (family ∈ [0x118A0000; 0x117A0000; 0x116A0000; 0x115A0000]) then Some 3
  else if bool_decide (family ∈ [0x92100000; 0x92110000; 0x92200000; 0x92210000]) then Some 4
  else None.

(** [smsc911x_init]; of [ether_setup] the flags. *)
Definition smsc911x_init : drv D Z :=
  _ ← upd_pd (set_dev_lock false);
  _ ← upd_pd (set_mac_lock false);
  p ← get_pd;
  if ioaddr p =? 0 then mret (- ENODEV)
  else
    ok ← pmt_ready 100;
    if negb ok then mret (- ENODEV)
    else
      byte_test ← check_byte_order;
      if negb (byte_test =? 0x87654321) then mret (- ENODEV)
      else
        _ ← upd_pd (set_generation 0);
        id ← smsc911x_reg_read ID_REV;
        _ ← upd_pd (set_idrev id);
        match chip_generation id with
        | None => mret (- ENODEV)
        | Some g =>
            _ ← upd_pd (set_generation g);
            _ ← (if has (flags (config p)) SMSC911X_SAVE_MAC_ADDRESS then
                   _ ← lock_mac; _ ← smsc911x_read_mac_address; unlock_mac
                 else mret tt);
            r ← smsc911x_soft_reset;
            if negb (r =? 0) then mret (- ENODEV)
            else
              _ ← smsc911x_reg_write INT_EN 0;
              _ ← upd_nd (set_dev_flags (Z.lor IFF_BROADCAST IFF_MULTICAST));
              _ ← upd_nd (fun n => set_dev_flags (Z.lor (dev_flags n) IFF_MULTICAST) n);
              _ ← upd_nd (set_napi_scheduled true);
              mret 0
        end.

End Netdev.

(** ** The functions keep the invariant, on any hardware *)

Section NetdevKeeps.
Context {D : Type} `{!Smsc D} `{!ChipInv D}.
Implicit Types s : dstate D.

Lemma keeps_upd_stats w ph md b f : keeps (D := D) (inv w ph md b) (inv w ph md b) (upd_stats f).
Proof. apply keeps_upd_nd; [done|]. by intros n []. Qed.
Hint Resolve keeps_lib keeps_upd_stats : keeps.

(** *** The multicast filter *)

Lemma keeps_set_filter w ph md b set clear hi lo :
  keeps (D := D) (inv w ph md b) (inv w ph md b) (set_filter set clear hi lo).
Proof. unfold set_filter. keeps. Qed.
Hint Resolve keeps_set_filter : keeps.

Lemma keeps_multicast_update w ph md : keepl w ph md (smsc911x_rx_multicast_update (D := D)).
Proof. unfold smsc911x_rx_multicast_update. keeps. Qed.
Hint Resolve keeps_multicast_update : keeps.

Lemma keeps_rx_stop w ph md : keepi w ph md (rx_stop (D := D)).
Proof. unfold rx_stop, smsc911x_rx_multicast_update_workaround. keeps. Qed.

Lemma keeps_set_multicast_list w ph md : keepi w ph md (smsc911x_set_multicast_list (D := D)).
Proof. unfold smsc911x_set_multicast_list, choose_filter, start_update. keeps. Qed.
Hint Resolve keeps_rx_stop keeps_set_multicast_list : keeps.

(** *** Reset, interrupt and opening *)

Lemma keeps_srst_wait w ph md n temp : keepi w ph md (srst_wait (D := D) n temp).
Proof. revert temp. induction n; intros temp; cbn [srst_wait]; keeps. Qed.
Hint Resolve keeps_srst_wait : keeps.

Lemma keeps_soft_reset w ph md : keepi w ph md (smsc911x_soft_reset (D := D)).
Proof.
  unfold smsc911x_soft_reset, smsc911x_phy_disable_energy_detect, smsc911x_phy_enable_energy_detect.
  keeps.
Qed.

Lemma keeps_irqhandler w ph md : keepi w ph md (smsc911x_irqhandler (D := D)).
Proof.
  unfold smsc911x_irqhandler, handle_sw, handle_rxstop, handle_tdfa, handle_rxe, handle_rsfl.
  unfold napi_schedule_prep. cbv zeta. keeps.
Qed.
Hint Resolve keeps_soft_reset keeps_irqhandler : keeps.

Context `{!IrqLine D}.

Lemma keeps_irq_test w ph md n : keepi w ph md (irq_test (D := D) n).
Proof. unfold irq_test, sleep_irq. induction n; keeps. Qed.

Lemma keeps_eeprom_loaded w ph md n : keepi w ph md (eeprom_loaded (D := D) n).
Proof. induction n; cbn [eeprom_loaded]; keeps. Qed.
Hint Resolve keeps_irq_test keeps_eeprom_loaded : keeps.

Lemma keeps_open_setup w ph md : keepi w ph md (open_setup (D := D)).
Proof. unfold open_setup. cbv zeta. keeps. apply keeps_set_hw_mac, Hnet. Qed.

Lemma keeps_open_irq_test w ph md : keepi w ph md (open_irq_test (D := D)).
Proof. unfold open_irq_test. keeps. Qed.
Hint Resolve keeps_open_setup keeps_open_irq_test : keeps.

Lemma keeps_napi_enable w ph r u k b :
  keeps (D := D) (inv w ph (mk_mode r u true k) b) (inv w ph (mk_mode r u false k) b) napi_enable.
Proof.
  unfold napi_enable. keeps_step. rewrite (ok_taken _ _ Hnet) by done.
  apply keeps_upd_nd; [done|]. by intros ? [].
Qed.
Hint Resolve keeps_napi_enable : keeps.

Lemma keeps_open_finish w r u k :
  keeps (D := D) (inv w true (mk_mode r u true k) false) (inv w true (mk_mode r u false k) false) open_finish.
Proof. unfold open_finish. keeps. Qed.

(** Opening takes the NAPI context into use exactly when it succeeds. *)
Lemma open_keeps w ph r u k s :
  inv w ph (mk_mode r u true k) false s ->
  wp smsc911x_open (fun ret s' => inv w ph (mk_mode r u (negb (ret =? 0)) k) false s') s.
Proof.
  intros Hs. unfold smsc911x_open. apply wp_get_pd, wp_get_nd.
  rewrite (inv_phy _ _ _ _ _ Hs). destruct ph; [|by apply wp_ret]. cbn [negb].
  destruct (negb (is_valid_ether_addr _)); [by apply wp_ret|].
  apply wp_bind. eapply wp_keeps; [apply keeps_soft_reset|exact Hs|]. intros ret s1 H1.
  destruct (negb (ret =? 0)); [by apply wp_ret|].
  apply wp_bind. eapply wp_keeps; [apply keeps_open_setup|exact H1|]. intros _ s2 H2.
  apply wp_bind. eapply wp_keeps; [apply keeps_open_irq_test|exact H2|]. intros _ s3 H3.
  apply wp_get_pd.
  destruct (software_irq_signal (pd s3) =? 0); [by apply wp_ret|].
  apply wp_bind. eapply wp_keeps; [apply keeps_open_finish|exact H3|]. by intros _ s4 H4.
Qed.

Definition up_mode (up : bool) : mode := mk_mode up up (negb up) false.

Lemma flag_up x : has (Z.lor x IFF_UP) IFF_UP = true.
Proof. change IFF_UP with (2 ^ 0). rewrite has_bit, Z.lor_spec by lia. apply orb_true_r. Qed.

Lemma flag_down x : has (Z.land x (not32 IFF_UP)) IFF_UP = false.
Proof.
  change IFF_UP with (2 ^ 0). rewrite has_bit, Z.land_spec by lia.
  rewrite not32_testbit by (by unfold is_word || lia). apply andb_false_r.
Qed.

Lemma dev_open_keeps w ph up s :
  inv w ph (up_mode up) false s ->
  wp dev_open (fun ret s' => inv w ph (up_mode (up || (ret =? 0))) false s') s.
Proof.
  intros Hs. unfold dev_open. apply wp_get_nd.
  rewrite (ok_up _ _ (inv_net _ _ _ _ _ Hs)). destruct up; cbn [up_mode m_up]; [by apply wp_ret|].
  unfold __dev_open. apply wp_bind.
  eapply wp_keeps; [apply (keeps_upd_nd w ph (up_mode false) (mk_mode true false true false) false); [done|by intros ? []]|exact Hs|].
  intros _ s1 H1. apply wp_get_nd, wp_bind.
  eapply wp_mono with (Q := fun ret s' => inv w ph (mk_mode true false (negb (ret =? 0)) false) false s').
  2: { destruct (is_valid_ether_addr _); [by apply open_keeps|by apply wp_ret]. }
  intros ret s2 H2. apply wp_bind. destruct (ret =? 0) eqn:Er; cbn [negb orb] in *.
  - eapply (wp_keeps _ (inv w ph (up_mode true) false)); [|exact H2|].
    2: { intros _ s3 H3. apply wp_ret. by rewrite Er. }
    eapply keeps_bind; [apply (keeps_upd_nd w ph (mk_mode true false false false) (up_mode true) false); [done|]|intros _].
    + intros n []. constructor; try done. apply flag_up.
    + unfold dev_set_rx_mode. keeps.
  - eapply wp_keeps; [apply (keeps_upd_nd w ph (mk_mode true false true false) (up_mode false) false); [done|by intros ? []]|exact H2|].
    intros _ s3 H3. apply wp_ret. by rewrite Er.
Qed.

(** *** The remaining entry points *)

Lemma keeps_set_mac_address w ph md a :
  (6 <= length a)%nat -> keepi w ph md (smsc911x_set_mac_address (D := D) a).
Proof.
  intros Ha. unfold smsc911x_set_mac_address. keeps.
  - apply keeps_upd_nd; [done|]. intros n' []. constructor; try done. cbn. rewrite length_take. lia.
  - apply keeps_set_hw_mac, Hnet0.
Qed.

Context `{!Attestation D}.

Lemma keeps_do_ioctl w ph md stack mii cmd :
  (forall d, exists ws d', attest true stack d = Some (ws, d') /\ (chip_inv d -> chip_inv d')) ->
  is_u16 (val_in mii) -> keepi w ph md (smsc911x_do_ioctl (D := D) stack mii cmd).
Proof.
  intros Ha Hv. unfold smsc911x_do_ioctl. apply keeps_get_pd_inv. intros p Hphy.
  apply keeps_get_nd_inv. intros n Hn. destruct ph; [|by unfold has_phy in Hphy; destruct (phy_dev p); keeps].
  unfold smsc911x_do_swatt. keeps. intros s Hs. unfold wp. destruct (Ha (chip s)) as (ws & d & -> & Hd).
  apply inv_with_chip; [done|]. apply Hd, Hs.
Qed.

Lemma keeps_dump w ph md (f : Z -> drv D Z) l :
  (forall i, keepi w ph md (f i)) -> keepi w ph md (dump f l).
Proof. intros Hf. induction l; cbn [dump]; keeps. Qed.

Lemma keeps_getregs w md : keepi w true md (smsc911x_ethtool_getregs (D := D)).
Proof.
  unfold smsc911x_ethtool_getregs. keeps_step. keeps_step.
  repeat (eapply keeps_bind; [apply keeps_dump; intros i; keeps|intros ?]). keeps.
Qed.

Lemma keeps_pmt_ready w ph md n : keepi w ph md (pmt_ready (D := D) n).
Proof. induction n; cbn [pmt_ready]; keeps. Qed.
Hint Resolve keeps_pmt_ready : keeps.

Lemma keeps_resume w ph md : keepi w ph md (smsc911x_resume (D := D)).
Proof. unfold smsc911x_resume. keeps. Qed.

(** *** Loops that only the hardware ends *)

Definition hangs (h : bool) (why : stop) : bool := match why with Hang => h | _ => false end.

Lemma keeps_txstatus w ph md : keepi w ph md (smsc911x_tx_get_txstatus (D := D)).
Proof. unfold smsc911x_tx_get_txstatus. keeps. Qed.

Lemma safely_txcounters w ph md n :
  safely (hangs true) (inv w ph md false) (inv w ph md false) (smsc911x_tx_update_txcounters (D := D) n).
Proof.
  induction n as [|n IH]; [by intros s Hs|]. cbn [smsc911x_tx_update_txcounters].
  eapply safely_bind; [apply safely_keeps, keeps_txstatus|]. intros st.
  destruct (st =? 0); [apply safely_keeps, keeps_ret|].
  eapply safely_bind; [apply safely_keeps, keeps_upd_stats|]. done.
Qed.

Lemma safely_get_stats w ph md n :
  safely (hangs true) (inv w ph md false) (inv w ph md false) (smsc911x_get_stats (D := D) n).
Proof.
  unfold smsc911x_get_stats. eapply safely_bind; [apply safely_txcounters|]. intros _.
  apply safely_keeps. keeps.
Qed.

Lemma safely_xmit w ph md n skb :
  skb_ok skb ->
  safely (hangs true) (inv w ph md false) (inv w ph md false) (smsc911x_hard_start_xmit (D := D) n skb).
Proof.
  intros Hk. pose proof Hk as [_ _ Hd Hl He]. unfold smsc911x_hard_start_xmit, smsc911x_tx_get_txstatcount.
  rewrite land_3, land_not3 by lia. cbv zeta.
  do 3 (eapply safely_bind; [apply safely_keeps; keeps|intros ?]).
  eapply safely_bind; [apply safely_keeps|intros _].
  { destruct (frame_words skb Hk) as [Hn _]. by apply keeps_tx_writefifo. }
  eapply safely_bind; [apply safely_keeps; keeps|intros c].
  eapply (safely_bind _ _ (inv w ph md false)); [|intros _; apply safely_keeps; keeps].
  destruct (30 <=? c); [apply safely_txcounters|apply safely_keeps, keeps_ret].
Qed.

Lemma keeps_napi_disable w ph r u k b :
  safely (hangs true) (inv w ph (mk_mode r u false k) b) (inv w ph (mk_mode r u true k) b) napi_disable.
Proof.
  intros s [H1 H2 H3 H4 H5 H6 H7 [] H9 H10]. unfold napi_disable, upd_nd, get_nd, mbind, drv_bind. cbn.
  by destruct (napi_scheduled (nd s)).
Qed.

Lemma safely_stop w ph r u k n :
  safely (hangs true) (inv w ph (mk_mode r u false k) false) (inv w ph (mk_mode r u true k) false)
    (smsc911x_stop (D := D) n).
Proof.
  unfold smsc911x_stop. do 3 (eapply safely_bind; [apply safely_keeps; keeps|intros ?]).
  eapply safely_bind; [apply keeps_napi_disable|intros _].
  do 2 (eapply safely_bind; [apply safely_keeps; keeps|intros ?]).
  eapply safely_bind; [apply safely_txcounters|intros _]. apply safely_keeps.
  keeps_step. rewrite Hphy. destruct ph; keeps.
Qed.

Lemma safely_dev_close w ph n :
  safely (hangs true) (inv w ph (up_mode true) false) (inv w ph (up_mode false) false) (dev_close (D := D) n).
Proof.
  unfold dev_close. intros s Hs. unfold mbind at 1, drv_bind at 1, get_nd at 1.
  rewrite (ok_up _ _ (inv_net _ _ _ _ _ Hs)). revert s Hs. change (safely (hangs true)
    (inv w ph (up_mode true) false) (inv w ph (up_mode false) false)
    (_ ← upd_nd (set_running false); _ ← smsc911x_stop (D := D) n;
     _ ← upd_nd (fun n => set_dev_flags (Z.land (dev_flags n) (not32 IFF_UP)) n); mret 0)).
  eapply safely_bind.
  { apply safely_keeps, (keeps_upd_nd w ph (up_mode true) (mk_mode false true false false) false); [done|].
    by intros ? []. }
  intros _. eapply safely_bind; [apply safely_stop|intros _]. apply safely_keeps.
  eapply keeps_bind; [apply (keeps_upd_nd w ph (mk_mode false true true false) (up_mode false) false); [done|]|intros _; keeps].
  intros ? []. constructor; try done. apply flag_down.
Qed.

End NetdevKeeps.

(** ** Calls of the driver *)

(** The entry points of the driver, with their arguments. *)
Inductive call :=
  | call_open
  | call_close (fuel : nat)
  | call_xmit (fuel : nat) (skb : sk_buff)
  | call_get_stats (fuel : nat)
  | call_set_rx_mode
  | call_irq
  | call_adjust_link
  | call_set_mac (sa_data : list Z)
  | call_ioctl (stack : list Z) (mii : mii_ioctl_data) (cmd : Z)
  | call_set_msglevel (level : Z)
  | call_get_regs
  | call_get_eeprom (stack : list Z) (offset len : Z)
  | call_set_eeprom (offset data : Z)
  | call_get_settings (c : ethtool_cmd)
  | call_set_settings (c : ethtool_cmd)
  | call_nwayreset
  | call_suspend
  | call_resume
  | call_phy_work
  | call_phy_suspend (wakeup : bool)
  | call_phy_resume (wakeup : bool)
  | call_phy_restore.

Section Calls.
Context {D : Type} `{!Smsc D} `{!IrqLine D} `{!Attestation D} `{!ChipInv D}.
Implicit Types s : dstate D.

Definition run_call (c : call) : drv D unit :=
  match c with
  | call_open => _ ← dev_open; mret tt
  | call_close fuel => _ ← dev_close fuel; mret tt
  | call_xmit fuel skb => _ ← smsc911x_hard_start_xmit fuel skb; mret tt
  | call_get_stats fuel => _ ← smsc911x_get_stats fuel; mret tt
  | call_set_rx_mode => dev_set_rx_mode
  | call_irq => _ ← smsc911x_irqhandler; mret tt
  | call_adjust_link => smsc911x_phy_adjust_link
  | call_set_mac a => _ ← smsc911x_set_mac_address a; mret tt
  | call_ioctl stack mii cmd => _ ← smsc911x_do_ioctl stack mii cmd; mret tt
  | call_set_msglevel level => smsc911x_ethtool_setmsglevel level
  | call_get_regs => _ ← smsc911x_ethtool_getregs; mret tt
  | call_get_eeprom stack offset len => _ ← smsc911x_ethtool_get_eeprom stack offset len; mret tt
  | call_set_eeprom offset data => _ ← smsc911x_ethtool_set_eeprom offset data; mret tt
  | call_get_settings c => _ ← smsc911x_ethtool_getsettings c; mret tt
  | call_set_settings c => _ ← smsc911x_ethtool_setsettings c; mret tt
  | call_nwayreset => _ ← smsc911x_ethtool_nwayreset; mret tt
  | call_suspend => _ ← smsc911x_suspend; mret tt
  | call_resume => _ ← smsc911x_resume; mret tt
  | call_phy_work => phy_state_machine
  | call_phy_suspend wakeup => _ ← mdio_bus_suspend wakeup; mret tt
  | call_phy_resume wakeup => _ ← mdio_bus_resume wakeup; mret tt
  | call_phy_restore => _ ← mdio_bus_restore; mret tt
  end.

Fixpoint run_calls (cs : list call) : drv D unit :=
  match cs with
  | [] => mret tt
  | c :: cs => _ ← run_call c; run_calls cs
  end.

(** What the kernel guarantees of the arguments: socket buffers that fit, whole
    addresses, windows of the EEPROM that lie in it ([ethtool_get_eeprom] of the
    network core), and numbers in the range of their types. *)
Definition call_ok (c : call) : Prop :=
  match c with
  | call_xmit _ skb => skb_ok skb
  | call_set_mac a => (6 <= length a)%nat
  | call_get_eeprom stack offset len =>
      length stack = 128%nat /\ 0 <= offset /\ 0 <= len /\ offset + len <= 128
  | call_ioctl _ mii _ => is_u16 (val_in mii)
  | call_set_settings c => cmd_typed c
  | _ => True
  end.

(** The calls that contain a loop without a bound: it waits for the status words
    of the chip to run out, or for a scheduled poll. *)
Definition may_hang (c : call) : bool :=
  match c with call_close _ | call_xmit _ _ | call_get_stats _ => true | _ => false end.

(** The driver between two calls, with [w] failures of the lock assertion so far. *)
Definition at_rest (w : nat) s : Prop := exists up, inv w true (up_mode up) false s.

Lemma safely_rest {A} w h (m : drv D A) :
  (forall up, exists up', safely (hangs h) (inv w true (up_mode up) false) (inv w true (up_mode up') false) m) ->
  safely (hangs h) (at_rest w) (at_rest w) (_ ← m; mret tt).
Proof.
  intros Hm s [up Hs]. destruct (Hm up) as [up' H]. specialize (H s Hs).
  unfold mbind, drv_bind. destruct (m s); [by exists up'|done].
Qed.

Lemma safely_rest_keeps {A} w h (m : drv D A) :
  (forall up, keepi w true (up_mode up) m) -> safely (hangs h) (at_rest w) (at_rest w) (_ ← m; mret tt).
Proof. intros Hm. apply safely_rest. intros up. exists up. apply safely_keeps, Hm. Qed.

Lemma safely_unit h (P : dstate D -> Prop) (m : drv D unit) :
  safely (hangs h) P P (_ ← m; mret tt) -> safely (hangs h) P P m.
Proof.
  intros Hm s Hs. specialize (Hm s Hs). unfold mbind, drv_bind in Hm. by destruct (m s).
Qed.

Lemma safely_open w h : safely (hangs h) (at_rest w) (at_rest w) (_ ← dev_open; mret tt).
Proof.
  intros s [up Hs]. pose proof (dev_open_keeps w true up s Hs) as Hw.
  apply wp_run in Hw as (r & s' & E & H). unfold mbind, drv_bind. rewrite E.
  by exists (up || (r =? 0)).
Qed.

Lemma safely_close w n : safely (hangs true) (at_rest w) (at_rest w) (_ ← dev_close n; mret tt).
Proof.
  apply safely_rest. intros [].
  - exists false. apply safely_dev_close.
  - exists false. intros s Hs. unfold dev_close, mbind, drv_bind, get_nd.
    by rewrite (ok_up _ _ (inv_net _ _ _ _ _ Hs)).
Qed.

(** The checksum routine returns, and the chip with it. *)
Definition attest_returns : Prop :=
  forall stack d, exists ws d', attest true stack d = Some (ws, d') /\ (chip_inv d -> chip_inv d').

Lemma run_call_safe w c :
  attest_returns -> call_ok c ->
  safely (hangs (may_hang c)) (at_rest w) (at_rest w) (run_call c).
Proof.
  intros Ha Hc. destruct c; cbn [run_call may_hang call_ok] in *.
  - apply safely_open.
  - apply safely_close.
  - apply safely_rest. intros up. exists up. by apply safely_xmit.
  - apply safely_rest. intros up. exists up. apply safely_get_stats.
  - apply safely_unit, safely_rest_keeps. intros up. unfold dev_set_rx_mode.
    apply keeps_get_nd_inv. intros n _. destruct (has _ _); [apply keeps_set_multicast_list|apply keeps_ret].
  - apply safely_rest_keeps. intros up. apply keeps_irqhandler.
  - apply safely_unit, safely_rest_keeps. intros up. apply keeps_adjust_link.
  - apply safely_rest_keeps. intros up. by apply keeps_set_mac_address.
  - apply safely_rest_keeps. intros up. apply keeps_do_ioctl; [apply Ha|done].
  - apply safely_unit, safely_rest_keeps. intros up. unfold smsc911x_ethtool_setmsglevel. keeps.
  - apply safely_rest_keeps. intros up. apply keeps_getregs.
  - destruct Hc as (? & ? & ? & ?). apply safely_rest_keeps. intros up. by apply keeps_get_eeprom.
  - apply safely_rest_keeps. intros up. apply keeps_set_eeprom.
  - apply safely_rest_keeps. intros up. unfold smsc911x_ethtool_getsettings. keeps.
  - apply safely_rest_keeps. intros up. unfold smsc911x_ethtool_setsettings. keeps.
  - apply safely_rest_keeps. intros up. unfold smsc911x_ethtool_nwayreset. keeps.
  - apply safely_rest_keeps. intros up. unfold smsc911x_suspend. keeps.
  - apply safely_rest_keeps. intros up. apply keeps_resume.
  - apply safely_unit, safely_rest_keeps. intros up. keeps.
  - apply safely_rest_keeps. intros up. keeps.
  - apply safely_rest_keeps. intros up. keeps.
  - apply safely_rest_keeps. intros up. keeps.
Qed.

Lemma run_calls_safe w cs s :
  attest_returns -> Forall call_ok cs -> at_rest w s ->
  match run_calls cs s with
  | Ret _ s' => at_rest w s'
  | Stop why => why = Hang /\ existsb may_hang cs = true
  end.
Proof.
  intros Ha Hcs. revert s. induction Hcs as [|c cs Hc Hcs IH]; intros s Hs; [done|].
  cbn [run_calls existsb]. pose proof (run_call_safe w c Ha Hc s Hs) as H.
  unfold mbind, drv_bind. destruct (run_call c s) as [a s'|why].
  - specialize (IH s' H). destruct (run_calls cs s'); [done|]. destruct IH as [-> ->].
    by rewrite orb_true_r.
  - destruct why; cbn in H; try done. by rewrite H.
Qed.

End Calls.

Section AnyChip.
Context {D : Type} `{!Smsc D} `{!IrqLine D} `{!Attestation D}.
#[local] Existing Instance any_chip.
Implicit Types s : dstate D.

Lemma attest_any : (forall stack (d : D), is_Some (attest true stack d)) -> attest_returns (D := D).
Proof. intros Ha stack d. destruct (Ha stack d) as [[ws d'] E]. by exists ws, d'. Qed.

(** C5: Whatever the hardware answers, no sequence of calls of the driver's entry
    points (opening, closing, transmission, statistics, filter, interrupts, addresses,
    ioctls, link settings, register dumps, EEPROM, power management), of the PHY state
    machine and of the power management of the PHY makes it take a lock it holds or
    release one it does not, the lock of the PHY included, call a MAC register function
    without the lock, follow a null pointer, leave an array or meet a [BUG()]: the
    calls return, the locks are free again, the lock assertion has never failed and
    the interface is consistently up or down, with NAPI polls impossible while it is
    down.  The one exception are the loops that wait for the transmit status words
    to run out or for a scheduled poll: a sequence without a call that contains one
    always returns. *)
Theorem driver_calls_safe w cs s :
  (forall stack (d : D), is_Some (attest true stack d)) -> Forall call_ok cs -> at_rest w s ->
  match run_calls cs s with
  | Ret _ s' => at_rest w s'
  | Stop why => why = Hang /\ existsb may_hang cs = true
  end.
Proof. intros Ha. by apply run_calls_safe, attest_any. Qed.

End AnyChip.

(** A device whose answers are all ones, with its interrupt line asserted: its
    status words never run out. *)
#[local] Instance ones_irq : IrqLine unit := fun _ => true.
#[local] Instance ones_attest : Attestation unit := fun _ ws d => Some (ws, d).

Definition demo_phy : phy_device :=
  mk_phy (Some lan911x_int_driver) 0x0007c0d1 PHY_READY 1 0 (-1) 0 0 1 0 0x62cf 0x62cf 1 0 true false polled_line.

Definition ones_state : dstate unit :=
  mk_dstate tt (set_phy_dev (Some demo_phy) (demo_pdata SMSC911X_USE_32BIT))
    (set_running false (set_napi_scheduled true demo_netdev)) 0 [].

Definition ones_calls : list call :=
  [call_open; call_irq; call_set_rx_mode; call_adjust_link; call_get_regs;
   call_get_eeprom (replicate 128 0) 8 16; call_set_mac [2; 0; 0; 0; 0; 1]; call_phy_work;
   call_nwayreset; call_phy_work; call_suspend; call_phy_suspend false; call_phy_resume false; call_resume].

Lemma ones_ready :
  (forall stack d, is_Some (@attest _ ones_attest true stack d)) /\ Forall call_ok ones_calls /\
  @at_rest _ ones_chip any_chip 0 ones_state.
Proof.
  split; [intros stack d; by eexists|]. split; [repeat constructor; cbn; lia|].
  exists false. by repeat constructor.
Qed.

Lemma driver_calls_safe_witness :
  match @run_calls _ ones_chip _ _ ones_calls ones_state with
  | Ret _ s' => @at_rest _ ones_chip any_chip 0 s'
  | Stop _ => False
  end.
Proof.
  destruct ones_ready as (H1 & H2 & H3).
  pose proof (@driver_calls_safe _ ones_chip _ _ 0 ones_calls ones_state H1 H2 H3) as H.
  destruct (run_calls _ _); [exact H|]. destruct H as [_ H]. discriminate H.
Defined.

(** ** The interrupt test of [smsc911x_open] *)

(** A chip with a working software interrupt: enabling it raises it, writing its
    bit to the status register acknowledges it, and the line follows. *)
Class IrqChip (D : Type) `{!Smsc D} `{!IrqLine D} (p : smsc911x_data) := {
  int_en : D -> Z;
  sw_raised : D -> bool;
  int_en_read d :
    (bus_read p INT_EN d).1 = int_en d /\ int_en (bus_read p INT_EN d).2 = int_en d /\
    sw_raised (bus_read p INT_EN d).2 = sw_raised d;
  int_en_write d v :
    int_en (bus_write p INT_EN v d) = v /\
    (has v INT_EN_SW_INT_EN_ = true -> has (int_en d) INT_EN_SW_INT_EN_ = false ->
     sw_raised (bus_write p INT_EN v d) = true) /\
    (has v INT_EN_SW_INT_EN_ = false -> sw_raised (bus_write p INT_EN v d) = sw_raised d);
  int_sts_read d :
    has (bus_read p INT_STS d).1 INT_STS_SW_INT_ = sw_raised d /\
    int_en (bus_read p INT_STS d).2 = int_en d /\ sw_raised (bus_read p INT_STS d).2 = sw_raised d;
  int_sts_ack d :
    int_en (bus_write p INT_STS INT_STS_SW_INT_ d) = int_en d /\
    sw_raised (bus_write p INT_STS INT_STS_SW_INT_ d) = false;
  int_delay d us : int_en (chip_delay us d) = int_en d /\ sw_raised (chip_delay us d) = sw_raised d;
  int_line d : sw_raised d = true -> has (int_en d) INT_EN_SW_INT_EN_ = true -> irq_line d = true }.

Section IrqTest.
Context {D : Type} `{!Smsc D} `{!IrqLine D}.
#[local] Existing Instance any_chip.
Implicit Types s : dstate D.

(** Only enabled sources are handled. *)
Lemma not_enabled x b : has (Z.land x INT_EN_SW_INT_EN_) b = has x (Z.land INT_EN_SW_INT_EN_ b).
Proof. unfold has. by rewrite <- Z.land_assoc. Qed.

Lemma sw_irq_run (p : smsc911x_data) `{!IrqChip D p} s :
  ready s -> pd s = p -> int_en (chip s) = INT_EN_SW_INT_EN_ -> sw_raised (chip s) = true ->
  exists d, smsc911x_irqhandler s
            = Ret IRQ_HANDLED (with_pd (with_chip s d) (set_software_irq_signal 1 (pd s))) /\
    int_en d = 0 /\ sw_raised d = false.
Proof.
  intros Hr Hp He Hsw. unfold smsc911x_irqhandler.
  unfold mbind at 1, drv_bind at 1. rewrite reg_read_run by apply Hr. rewrite Hp.
  destruct (int_sts_read (chip s)) as (S1 & S2 & S3).
  set (sts := (bus_read p INT_STS (chip s)).1) in *. set (d1 := (bus_read p INT_STS (chip s)).2) in *.
  unfold mbind at 1, drv_bind at 1. rewrite reg_read_run by apply Hr. cbn [pd chip with_chip]. rewrite Hp.
  destruct (int_en_read d1) as (E1 & E2 & E3). rewrite E1. set (d2 := (bus_read p INT_EN d1).2) in *.
  rewrite S2, He. cbv zeta. rewrite !not_enabled.
  change (Z.land INT_EN_SW_INT_EN_ INT_STS_SW_INT_) with INT_STS_SW_INT_. rewrite S1, Hsw.
  change (Z.land INT_EN_SW_INT_EN_ INT_STS_RXSTOP_INT_) with 0.
  change (Z.land INT_EN_SW_INT_EN_ INT_STS_TDFA_) with 0.
  change (Z.land INT_EN_SW_INT_EN_ INT_STS_RXE_) with 0.
  change (Z.land INT_EN_SW_INT_EN_ INT_STS_RSFL_) with 0.
  assert (H0 : has sts 0 = false) by (unfold has; by rewrite Z.land_0_r). rewrite H0.
  cbn [handle_sw handle_rxstop handle_tdfa handle_rxe handle_rsfl].
  unfold mbind, drv_bind, upd_pd. rewrite reg_read_run by apply Hr. cbn [pd chip with_chip]. rewrite Hp.
  destruct (int_en_read d2) as (F1 & F2 & F3). rewrite F1, E2, S2, He. set (d3 := (bus_read p INT_EN d2).2) in *.
  change (Z.land INT_EN_SW_INT_EN_ (not32 INT_EN_SW_INT_EN_)) with 0.
  rewrite reg_write_run by apply Hr. cbn [pd chip with_chip]. rewrite Hp.
  destruct (int_en_write d3 0) as (G1 & _ & G2). set (d4 := bus_write p INT_EN 0 d3) in *.
  rewrite reg_write_run by apply Hr. cbn [pd chip with_chip]. rewrite Hp.
  destruct (int_sts_ack d4) as (K1 & K2).
  eexists. split; [reflexivity|]. cbn [chip with_chip with_pd]. rewrite K1. done.
Qed.

Lemma sleep_irq_run (p : smsc911x_data) `{!IrqChip D p} s :
  ready s -> pd s = p -> int_en (chip s) = INT_EN_SW_INT_EN_ -> sw_raised (chip s) = true ->
  exists d, sleep_irq s = Ret tt (with_pd (with_chip s d) (set_software_irq_signal 1 (pd s))) /\
    int_en d = 0 /\ sw_raised d = false.
Proof.
  intros Hr Hp He Hsw. destruct (int_delay (chip s) 1000) as [D1 D2].
  destruct (sw_irq_run p (with_chip s (chip_delay 1000 (chip s)))) as (d & E & Hd);
    [done|done|cbn; congruence|cbn; congruence|].
  exists d. split; [|exact Hd]. unfold sleep_irq, udelay, lib, mbind, drv_bind.
  cbn [chip with_chip fst snd]. rewrite int_line by (rewrite ?D1, ?D2, ?He; done).
  change (with_chip (with_chip s (chip_delay 1000 (chip s))) (chip_delay 1000 (chip s)))
    with (with_chip s (chip_delay 1000 (chip s))). by rewrite E.
Qed.

Lemma irq_test_S n s :
  software_irq_signal (pd s) = 0 ->
  irq_test (S n) s = match sleep_irq s with Ret _ s' => irq_test n s' | Stop why => Stop why end.
Proof. intros H. cbn [irq_test]. unfold mbind, drv_bind, get_pd. by rewrite H. Qed.

Lemma irq_test_set n s : software_irq_signal (pd s) = 1 -> irq_test n s = Ret tt s.
Proof. intros H. destruct n; [done|]. cbn [irq_test]. unfold mbind, drv_bind, get_pd. by rewrite H. Qed.

(** C32: On a chip with a working software interrupt and a connected line the
    interrupt test of [smsc911x_open] passes: with all sources disabled before,
    enabling the software interrupt raises it, the handler runs at the first sleep,
    signals the test, disables the source again and acknowledges it, and touches
    nothing else. *)
Theorem irq_test_passes (p : smsc911x_data) `{!IrqChip D p} s :
  ready s -> p = set_software_irq_signal 0 (pd s) -> int_en (chip s) = 0 ->
  exists d, open_irq_test s = Ret tt (with_pd (with_chip s d) (set_software_irq_signal 1 (pd s))) /\
    int_en d = 0 /\ sw_raised d = false.
Proof.
  intros [Hl Hb] Hp He. set (s0 := with_pd s p).
  assert (Hr0 : forall d, ready (with_chip s0 d)) by (intros d; unfold s0, ready; rewrite Hp; done).
  assert (Hsig : software_irq_signal p = 0) by (by rewrite Hp).
  destruct (int_en_read (chip s)) as (E1 & E2 & E3). set (d1 := (bus_read p INT_EN (chip s)).2) in *.
  destruct (int_en_write d1 INT_EN_SW_INT_EN_) as (W1 & W2 & _).
  set (d2 := bus_write p INT_EN INT_EN_SW_INT_EN_ d1) in *.
  destruct (sleep_irq_run p (with_chip s0 d2)) as (d & E & Hd); [apply Hr0|done|done|apply W2; [done|]|].
  { by rewrite E2, He. }
  exists d. split; [|exact Hd]. unfold open_irq_test, upd_pd, mbind, drv_bind. rewrite <- Hp. fold s0.
  rewrite reg_read_run by apply (Hr0 (chip s)). cbn [pd chip with_pd s0]. fold d1. rewrite E1, He.
  rewrite reg_write_run by apply (Hr0 d1). cbn [pd chip with_pd with_chip]. fold d2.
  change (irq_test 1000 (with_chip s0 d2) = Ret tt (with_pd (with_chip s d) (set_software_irq_signal 1 (pd s)))).
  rewrite (irq_test_S 999) by exact Hsig. rewrite E.
  change (irq_test 999 (with_pd (with_chip s d) (set_software_irq_signal 1 p))
    = Ret tt (with_pd (with_chip s d) (set_software_irq_signal 1 (pd s)))).
  rewrite irq_test_set by done. by rewrite Hp.
Qed.

(** While the line is dead, the test waits in vain. *)
Lemma dead_irq_test w ph md n s :
  (forall d, irq_line d = false) -> inv w ph md false s -> software_irq_signal (pd s) = 0 ->
  wp (irq_test n) (fun _ s' => inv w ph md false s' /\ software_irq_signal (pd s') = 0) s.
Proof.
  intros Hline. revert s. induction n as [|n IH]; intros s Hs H0; [by apply wp_ret|].
  cbn [irq_test]. apply wp_get_pd. rewrite H0. cbn [Z.eqb negb]. apply wp_bind.
  unfold wp, sleep_irq, udelay, lib, mbind, drv_bind. cbn [chip with_chip fst snd]. rewrite Hline.
  apply IH; [|done]. by apply inv_with_chip; [apply inv_with_chip|].
Qed.

(** On a board whose interrupt line is dead [smsc911x_open] never succeeds,
    whatever the chip answers: it returns one of its four errors, and leaves NAPI
    disabled and the locks free, so that the interface can be opened again. *)
Theorem open_needs_interrupt w ph r u k s :
  (forall d, irq_line d = false) -> inv w ph (mk_mode r u true k) false s ->
  exists ret s', smsc911x_open s = Ret ret s' /\
    ret ∈ [- EAGAIN; - EADDRNOTAVAIL; - EIO; - ENODEV] /\
    napi_scheduled (nd s') = true /\ mac_lock (pd s') = false /\ dev_lock (pd s') = false.
Proof.
  intros Hline Hs. set (Q := fun ret s' => (ret ∈ [- EAGAIN; - EADDRNOTAVAIL; - EIO; - ENODEV]) /\
    inv w ph (mk_mode r u true k) false s').
  assert (Hw : wp smsc911x_open Q s).
  { unfold smsc911x_open. apply wp_get_pd, wp_get_nd.
    destruct (negb (has_phy (pd s))); [apply wp_ret; split; [by apply (bool_decide_eq_true_1 _)|done]|].
    destruct (negb (is_valid_ether_addr _)); [apply wp_ret; split; [by apply (bool_decide_eq_true_1 _)|done]|].
    apply wp_bind. eapply wp_keeps; [apply keeps_soft_reset|exact Hs|]. intros ret s1 H1.
    destruct (negb (ret =? 0)); [apply wp_ret; split; [by apply (bool_decide_eq_true_1 _)|done]|].
    apply wp_bind. eapply wp_keeps; [apply keeps_open_setup|exact H1|]. intros _ s2 H2.
    apply wp_bind. eapply wp_mono with
      (Q := fun _ s' => inv w ph (mk_mode r u true k) false s' /\ software_irq_signal (pd s') = 0).
    - intros _ s3 [H3 E3]. apply wp_get_pd. rewrite E3. apply wp_ret. split; [by apply (bool_decide_eq_true_1 _)|done].
    - unfold open_irq_test. apply wp_bind. change (wp (temp ← smsc911x_reg_read INT_EN;
        _ ← smsc911x_reg_write INT_EN (Z.lor temp INT_EN_SW_INT_EN_); irq_test 1000)
        (fun _ s' => inv w ph (mk_mode r u true k) false s' /\ software_irq_signal (pd s') = 0)
        (with_pd s2 (set_software_irq_signal 0 (pd s2)))).
      assert (H2' : inv w ph (mk_mode r u true k) false (with_pd s2 (set_software_irq_signal 0 (pd s2))))
        by (destruct H2; by constructor).
      apply wp_bind, wp_reg_read; [by eapply inv_ready|].
      apply wp_bind, wp_reg_write; [by eapply inv_ready; apply inv_with_chip|].
      apply dead_irq_test; [done| |done]. by apply inv_with_chip; [apply inv_with_chip|]. }
  apply wp_run in Hw as (ret & s' & E & Hin & [H1 H2 _ _ _ _ _ Hn _ _]). exists ret, s'.
  split; [done|]. split; [done|]. split; [by apply (ok_taken _ _ Hn)|done].
Qed.
End IrqTest.

(** A chip with the two interrupt registers and the line. *)
Record irq_demo := mk_irq_demo { i_en : Z; i_sw : bool }.

Definition irq_demo_read (o : Z) (d : irq_demo) : Z * irq_demo :=
  if o =? INT_EN then (i_en d, d)
  else if o =? INT_STS then ((if i_sw d then INT_STS_SW_INT_ else 0), d)
  else (0, d).

Definition irq_demo_write (v o : Z) (d : irq_demo) : irq_demo :=
  if o =? INT_EN then
    mk_irq_demo v (i_sw d || (has v INT_EN_SW_INT_EN_ && negb (has (i_en d) INT_EN_SW_INT_EN_)))
  else if o =? INT_STS then mk_irq_demo (i_en d) (i_sw d && negb (has v INT_STS_SW_INT_))
  else d.

Definition irq_demo_chip : Smsc irq_demo := {|
  readl := irq_demo_read; writel := irq_demo_write;
  readw _ d := (0, d); writew _ _ d := d; chip_delay _ d := d |}.
#[local] Instance irq_demo_line : IrqLine irq_demo := fun d => i_sw d && has (i_en d) INT_EN_SW_INT_EN_.

Definition irq_demo_protocol :
  @IrqChip irq_demo irq_demo_chip irq_demo_line (demo_pdata SMSC911X_USE_32BIT).
Proof.
  refine (@Build_IrqChip _ irq_demo_chip irq_demo_line (demo_pdata SMSC911X_USE_32BIT) i_en i_sw _ _ _ _ _ _).
  - done.
  - intros d v. change (bus_write _ INT_EN v d) with (irq_demo_write v INT_EN d).
    unfold irq_demo_write. cbn [Z.eqb INT_EN Pos.eqb i_en i_sw]. split; [done|].
    split; [intros -> ->; apply orb_true_r|]. intros ->. apply orb_false_r.
  - intros d. change (bus_read _ INT_STS d) with (irq_demo_read INT_STS d).
    unfold irq_demo_read. cbn [Z.eqb INT_EN INT_STS Pos.eqb fst snd]. by destruct (i_sw d).
  - intros d. change (bus_write _ INT_STS ?v d) with (irq_demo_write v INT_STS d).
    unfold irq_demo_write. cbn [Z.eqb INT_EN INT_STS Pos.eqb i_en i_sw]. by rewrite andb_false_r.
  - done.
  - intros d E1 E2. unfold irq_line, irq_demo_line. by rewrite E1, E2.
Defined.

Lemma irq_test_passes_witness :
  let s := mk_dstate (mk_irq_demo 0 false) (demo_pdata SMSC911X_USE_32BIT) demo_netdev 0 [] in
  exists d, @open_irq_test _ irq_demo_chip irq_demo_line s
    = Ret tt (with_pd (with_chip s d) (set_software_irq_signal 1 (pd s))).
Proof.
  intros s. destruct (@irq_test_passes _ irq_demo_chip irq_demo_line _ irq_demo_protocol s) as (d & H & _).
  - split; [reflexivity|left; reflexivity].
  - reflexivity.
  - reflexivity.
  - exists d. exact H.
Defined.

Lemma open_needs_interrupt_witness :
  exists ret s', @smsc911x_open _ ones_chip (fun _ => false) ones_state = Ret ret s' /\
    napi_scheduled (nd s') = true.
Proof.
  destruct (@open_needs_interrupt _ ones_chip (fun _ => false) 0 true false false false ones_state)
    as (ret & s' & H & _ & Hn & _).
  - reflexivity.
  - by repeat constructor.
  - exists ret, s'. split; [exact H|exact Hn].
Defined.
