(* ===== verification/PhyTheory.v ===== *)
(** * The PHY library on a chip that keeps the MII protocol

    What the functions of the library read and write there: the status, the control
    and the advertisement register, and the MAC when the driver is told of a change. *)

From S2P Require Import Prelude SmscDefs SmscIo SmscMac SmscRun SmscPhy PhyLib PhyKeeps MiiBus SmscNetdev.

(** ** Reading the status *)

(** Registers after reads *)
Lemma after_read_other f a r : r <> MII_BMSR -> after_read f a r ≡ f.
Proof. intros Hr. split; [|done]. intros a' r'. cbn. by rewrite (proj2 (Z.eqb_neq r _) Hr), andb_false_r. Qed.

Lemma after_read_bmsr f a r :
  phy_regs (after_read f a MII_BMSR) a r = if r =? MII_BMSR then bmsr_now f a else phy_regs f a r.
Proof. cbn. rewrite Z.eqb_refl, andb_true_r. cbn. done. Qed.

Lemma after_read_twice f a : after_read (after_read f a MII_BMSR) a MII_BMSR ≡ after_read f a MII_BMSR.
Proof. split; [|done]. intros a' r'. cbn. by destruct (_ && _). Qed.

Section Status.
Context {D : Type} `{!Smsc D} (p : smsc911x_data) `{!MacChip D p} `{!MiiChip D p}.
Implicit Types s : dstate D.

(** The bus is free, and the PHY at the address [a]. *)
Record bus_free s : Prop := {
  free_bus : on_bus p s;
  free_lock : mac_lock (pd s) = false;
  free_idle : mii_idle p (chip s) }.

Notation phys_of s := (mii_phys (mii (chip s))).

Lemma bus_free_chip s d : bus_free s -> mii_idle p d -> bus_free (with_chip s d).
Proof. by intros [[] ? ?] Hd. Qed.

(** What a run of the library leaves of the chip: it is idle again, the other MAC
    registers are as before. *)
Definition settled s (d : D) : Prop := mii_idle p d /\ mac_same p (chip s) d.

Lemma settled_trans s d d' : settled s d -> settled (with_chip s d) d' -> settled s d'.
Proof. intros [_ H1] [H2 H3]. split; [done|]. intros o Ho. rewrite H3 by done. by apply H1. Qed.

Lemma settled_refl s : bus_free s -> settled s (chip s).
Proof. intros [_ _ H]. by split. Qed.

Definition phy_at (y : phy_device) : Prop := 0 <= phy_addr y < 32.

Lemma phy_read_run y r s :
  bus_free s -> phy_at y -> 0 <= r < 32 ->
  crun (phy_read y r) s (fun v d => v = phy_regs (phys_of s) (phy_addr y) r /\ settled s d /\
    mii_phys (mii d) ≡ after_read (phys_of s) (phy_addr y) r).
Proof.
  intros [H1 H2 H3] Hy Hr. eapply crun_mono; [by apply (mii_read_run p)|]. by intros v d (-> & ? & ? & ?).
Qed.

Lemma phy_write_run y r v s :
  bus_free s -> phy_at y -> 0 <= r < 32 ->
  crun (phy_write y r v) s (fun e d => e = 0 /\ settled s d /\
    (kept_write r (u16 v) -> phy_regs (mii_phys (mii d)) (phy_addr y) r = u16 v) /\
    (forall r', config_reg r' -> r' <> r -> ~ resets r (u16 v) ->
     phy_regs (mii_phys (mii d)) (phy_addr y) r' = phy_regs (phys_of s) (phy_addr y) r')).
Proof.
  intros [H1 H2 H3] Hy Hr. eapply crun_mono; [apply (mii_write_run p); [done..|apply is_u16_u16]|].
  by intros e d (-> & ? & ? & ? & ?).
Qed.

Lemma regs_nonneg d a r : (phy_regs (mii_phys (mii d)) a r <? 0) = false /\ (bmsr_now (mii_phys (mii d)) a <? 0) = false.
Proof. destruct (mii_u16 (D := D) (p := p) d a r) as [[H1 _] [H2 _]]. split; by apply Z.ltb_ge. Qed.

(** The bit of a status word as the value of [link] *)
Definition link_of (bmsr : Z) : Z := if Z.land bmsr BMSR_LSTATUS =? 0 then 0 else 1.

(** Both reads of the status register: the second one gives the present state. *)
Lemma update_link_run y s :
  bus_free s -> phy_at y ->
  crun (genphy_update_link y) s (fun r d => r = (0, set_link (link_of (bmsr_now (phys_of s) (phy_addr y))) y) /\
    settled s d /\ mii_phys (mii d) ≡ after_read (phys_of s) (phy_addr y) MII_BMSR).
Proof.
  intros Hs Hy. unfold genphy_update_link. apply crun_bind.
  eapply crun_mono; [by apply phy_read_run|]. cbn beta. intros v d (-> & Hd & Hf).
  rewrite (proj1 (regs_nonneg _ _ _)). apply crun_bind.
  eapply crun_mono; [apply phy_read_run; [by apply bus_free_chip; [|apply Hd]|done|done]|].
  cbn [chip with_chip]. intros v d' (-> & Hd' & Hf'). rewrite (proj1 (regs_nonneg _ _ _)).
  apply crun_ret. cbn [chip with_chip]. rewrite Hf, after_read_bmsr. cbn [Z.eqb MII_BMSR Pos.eqb].
  split; [done|]. split; [by eapply settled_trans|]. by rewrite Hf', Hf, after_read_twice.
Qed.

(** A PHY that the MAC of this chip can use: no gigabit modes *)
Definition no_gigabit (y : phy_device) : Prop :=
  has (supported y) (Z.lor SUPPORTED_1000baseT_Half SUPPORTED_1000baseT_Full) = false.

(** What both sides of the link can do *)
Definition common (f : phys) (a : Z) : Z := Z.land (phy_regs f a MII_LPA) (phy_regs f a MII_ADVERTISE).

Lemma read_status_run y s :
  bus_free s -> phy_at y -> autoneg y = AUTONEG_ENABLE -> no_gigabit y ->
  crun (genphy_read_status y) s (fun r d =>
    r = (0, negotiated 0 (common (phys_of s) (phy_addr y))
              (set_link (link_of (bmsr_now (phys_of s) (phy_addr y))) y)) /\
    settled s d /\ mii_phys (mii d) ≡ after_read (phys_of s) (phy_addr y) MII_BMSR).
Proof.
  intros Hs Hy Ha Hg. unfold genphy_read_status. apply crun_bind.
  eapply crun_mono; [by apply update_link_run|]. cbn beta. intros [e y1] d ([= -> ->] & Hd & Hf).
  set (y1 := set_link _ y). cbn [Z.eqb negb]. change (autoneg y1) with (autoneg y). rewrite Ha. cbn [Z.eqb AUTONEG_ENABLE Pos.eqb].
  unfold read_lpagb. change (supported y1) with (supported y). rewrite Hg. apply crun_bind, crun_ret. cbn beta.
  cbn [Z.ltb Z.compare chip with_chip].
  apply crun_bind. eapply crun_mono; [apply (phy_read_run y1); [by repeat apply bus_free_chip; try apply Hd|done|done]|].
  cbn [chip with_chip]. intros v d1 (-> & Hd1 & Hf1). rewrite (proj1 (regs_nonneg _ _ _)).
  apply crun_bind. eapply crun_mono; [apply (phy_read_run y1); [by repeat apply bus_free_chip; try apply Hd1; try apply Hd|done|done]|].
  cbn [chip with_chip]. intros v d2 (-> & Hd2 & Hf2). rewrite (proj1 (regs_nonneg _ _ _)).
  apply crun_ret. cbn [chip with_chip]. change (phy_addr y1) with (phy_addr y) in *.
  rewrite after_read_other in Hf1, Hf2 by done. split; [|split].
  - unfold common. by rewrite Hf1, Hf, !after_read_bmsr.
  - eapply settled_trans; [exact Hd|]. eapply settled_trans; [exact Hd1|exact Hd2].
  - by rewrite Hf2, Hf1.
Qed.

Lemma read_forced_run y s :
  bus_free s -> phy_at y -> autoneg y = AUTONEG_DISABLE ->
  crun (genphy_read_status y) s (fun r d =>
    r = (0, forced (phy_regs (phys_of s) (phy_addr y) MII_BMCR)
              (set_link (link_of (bmsr_now (phys_of s) (phy_addr y))) y)) /\
    settled s d /\ mii_phys (mii d) ≡ after_read (phys_of s) (phy_addr y) MII_BMSR).
Proof.
  intros Hs Hy Ha. unfold genphy_read_status. apply crun_bind.
  eapply crun_mono; [by apply update_link_run|]. cbn beta. intros [e y1] d ([= -> ->] & Hd & Hf).
  set (y1 := set_link _ y). cbn [Z.eqb negb]. change (autoneg y1) with (autoneg y). rewrite Ha.
  cbn [Z.eqb AUTONEG_ENABLE AUTONEG_DISABLE].
  apply crun_bind. eapply crun_mono; [apply (phy_read_run y1); [by apply bus_free_chip; [|apply Hd]|done|done]|].
  cbn [chip with_chip]. intros v d1 (-> & Hd1 & Hf1). rewrite (proj1 (regs_nonneg _ _ _)).
  apply crun_ret. cbn [chip with_chip]. change (phy_addr y1) with (phy_addr y).
  change (phy_addr y1) with (phy_addr y) in Hf1. rewrite after_read_other in Hf1 by done.
  rewrite Hf, after_read_bmsr. split; [done|]. split; [by eapply settled_trans|]. by rewrite Hf1.
Qed.

Lemma aneg_done_run y s :
  bus_free s -> phy_at y ->
  crun (phy_aneg_done y) s (fun r d =>
    r = Z.land (phy_regs (phys_of s) (phy_addr y) MII_BMSR) BMSR_ANEGCOMPLETE /\ settled s d).
Proof.
  intros Hs Hy. unfold phy_aneg_done. apply crun_bind.
  eapply crun_mono; [by apply phy_read_run|]. cbn beta. intros v d (-> & Hd & _).
  rewrite (proj1 (regs_nonneg _ _ _)). by apply crun_ret.
Qed.

(** *** Writing the configuration *)

Definition adv_mask : Z :=
  Z.lor (Z.lor (Z.lor ADVERTISE_ALL ADVERTISE_100BASE4) ADVERTISE_PAUSE_CAP) ADVERTISE_PAUSE_ASYM.

(** The advertisement register after [genphy_config_advert] *)
Definition new_adv (oldadv advertise : Z) : Z :=
  Z.lor (Z.land oldadv (Z.lnot adv_mask)) (ethtool_adv_to_mii_adv_t advertise).

Lemma update_adv_run y adv s :
  bus_free s -> phy_at y ->
  let old := phy_regs (phys_of s) (phy_addr y) MII_ADVERTISE in
  is_u16 (new_adv old adv) ->
  crun (update_adv y MII_ADVERTISE adv_mask (ethtool_adv_to_mii_adv_t adv)) s (fun r d =>
    r = (if new_adv old adv =? old then 0 else 1) /\ settled s d /\
    phy_regs (mii_phys (mii d)) (phy_addr y) MII_ADVERTISE = new_adv old adv /\
    phy_regs (mii_phys (mii d)) (phy_addr y) MII_BMCR = phy_regs (phys_of s) (phy_addr y) MII_BMCR).
Proof.
  intros Hs Hy old Hu. unfold update_adv. apply crun_bind.
  eapply crun_mono; [by apply phy_read_run|]. cbn beta. intros v d (-> & Hd & Hf). fold old.
  rewrite after_read_other in Hf by done.
  unfold old at 1. rewrite (proj1 (regs_nonneg _ _ _)). cbv zeta. fold (new_adv old adv).
  destruct (Z.eqb_spec (new_adv old adv) old) as [E|E]; cbn [negb].
  - apply crun_ret. cbn [chip with_chip]. split_and!; [done|done|by rewrite E, Hf|by rewrite Hf].
  - apply crun_bind. eapply crun_mono; [apply phy_write_run; [by apply bus_free_chip; [|apply Hd]|done|done]|].
    cbn [chip with_chip]. intros e d' (-> & Hd' & Hk & Ho). apply crun_ret. cbn [chip with_chip].
    rewrite u16_small in Hk by done. split_and!; [done|by eapply settled_trans|apply Hk; by left|].
    rewrite Ho; [by rewrite Hf|by right|done|by intros []].
Qed.

Lemma ethtool_adv_u16 adv : is_u16 (ethtool_adv_to_mii_adv_t adv).
Proof. unfold ethtool_adv_to_mii_adv_t, add_if. by repeat case_match. Qed.

Lemma new_adv_u16 old adv : is_u16 old -> is_u16 (new_adv old adv).
Proof.
  intros Ho. apply is_word_lor; [lia| |apply ethtool_adv_u16].
  rewrite <- Z.ldiff_land. apply is_word_intro; [lia| |].
  - apply Z.ldiff_nonneg. left. apply Ho.
  - intros i Hi. rewrite Z.ldiff_spec, (is_word_testbit 16 old) by (done || lia). done.
Qed.

Lemma restart_aneg_run y s :
  bus_free s -> phy_at y ->
  crun (genphy_restart_aneg y) s (fun r d => r = (0, y) /\ settled s d /\
    (~ resets MII_BMCR (phy_regs (phys_of s) (phy_addr y) MII_BMCR) ->
     phy_regs (mii_phys (mii d)) (phy_addr y) MII_ADVERTISE = phy_regs (phys_of s) (phy_addr y) MII_ADVERTISE)).
Proof.
  intros Hs Hy. unfold genphy_restart_aneg. apply crun_bind.
  eapply crun_mono; [by apply phy_read_run|]. cbn beta. intros v d (-> & Hd & Hf).
  rewrite after_read_other in Hf by done. rewrite (proj1 (regs_nonneg _ _ _)). cbv zeta. apply crun_bind.
  eapply crun_mono; [apply phy_write_run; [by apply bus_free_chip; [|apply Hd]|done|done]|].
  cbn [chip with_chip]. intros e d' (-> & Hd' & _ & Ha). apply crun_ret. cbn [chip with_chip].
  split_and!; [done|by eapply settled_trans|]. intros Hreset. rewrite Ha; [by rewrite Hf|by left|done|].
  intros [_ Hr]. apply Hreset. split; [done|]. revert Hr. change BMCR_RESET with (2 ^ 15). rewrite !has_bit by lia.
  unfold u16. rewrite Z.mod_pow2_bits_low, Z.land_spec, Z.lor_spec by lia.
  change (Z.testbit (Z.lor BMCR_ANENABLE BMCR_ANRESTART) 15) with false.
  change (Z.testbit (Z.lnot BMCR_ISOLATE) 15) with true. by rewrite orb_false_r, andb_true_r.
Qed.

(** [drv->config_aneg] with negotiation: the register advertises what is asked for and
    supported. *)
Lemma config_advert_run y s :
  bus_free s -> phy_at y -> no_gigabit y ->
  let old := phy_regs (phys_of s) (phy_addr y) MII_ADVERTISE in
  let adv := Z.land (advertising y) (supported y) in
  crun (genphy_config_advert y) s (fun r d =>
    r = (if new_adv old adv =? old then 0 else 1, set_advertising adv y) /\ settled s d /\
    phy_regs (mii_phys (mii d)) (phy_addr y) MII_ADVERTISE = new_adv old adv /\
    phy_regs (mii_phys (mii d)) (phy_addr y) MII_BMCR = phy_regs (phys_of s) (phy_addr y) MII_BMCR).
Proof.
  intros Hs Hy Hg old adv. unfold genphy_config_advert. cbv zeta. fold adv_mask. fold adv.
  set (y1 := set_advertising adv y). apply crun_bind.
  eapply crun_mono; [apply (update_adv_run y1); [done|done|apply new_adv_u16, (mii_u16 (p := p))]|].
  cbn beta. intros r d (-> & Hd & H1 & H2). change (phy_addr y1) with (phy_addr y) in *.
  change (supported y1) with (supported y). change (advertising y1) with adv in *. fold old in H1 |- *.
  rewrite Hg. replace ((if new_adv old adv =? old then 0 else 1) <? 0) with false by (by case_match).
  by apply crun_ret.
Qed.

Lemma config_aneg_run y s :
  bus_free s -> phy_at y -> autoneg y = AUTONEG_ENABLE -> no_gigabit y -> is_Some (phy_drv y) ->
  let adv := Z.land (advertising y) (supported y) in
  crun (config_aneg y) s (fun r d => 0 <= r.1 /\ r.2 = set_advertising adv y /\ settled s d /\
    (~ resets MII_BMCR (phy_regs (phys_of s) (phy_addr y) MII_BMCR) ->
     phy_regs (mii_phys (mii d)) (phy_addr y) MII_ADVERTISE
     = new_adv (phy_regs (phys_of s) (phy_addr y) MII_ADVERTISE) adv)).
Proof.
  intros Hs Hy Ha Hg [dv Ed] adv. unfold config_aneg, get_drv. rewrite Ed. apply crun_bind, crun_ret.
  rewrite with_chip_id. unfold genphy_config_aneg. rewrite Ha. cbn [Z.eqb AUTONEG_ENABLE Pos.eqb negb].
  apply crun_bind. eapply crun_mono; [by apply config_advert_run|]. cbv zeta.
  intros [r y1] d ([= -> ->] & Hd & H1 & H2). fold adv in H1 |- *.
  set (old := phy_regs (phys_of s) (phy_addr y) MII_ADVERTISE) in *.
  set (y1 := set_advertising adv y). set (Q := fun (r : Z * phy_device) (d : D) => _ : Prop).
  assert (Hend : forall (r : Z) d', 0 <= r -> settled (with_chip s d) d' -> mii_phys (mii d') ≡ mii_phys (mii d) ->
    crun (if 0 <? r then genphy_restart_aneg y1 else mret (r, y1)) (with_chip (with_chip s d) d') Q).
  { intros r d' Hr Hd' Hf. assert (Hs' : bus_free (with_chip s d')) by (apply bus_free_chip; [done|apply Hd']).
    destruct (0 <? r).
    - eapply crun_mono; [by apply (restart_aneg_run y1)|]. cbn [chip with_chip].
      intros x d2 (-> & Hd2 & Hadv). change (phy_addr y1) with (phy_addr y) in *. unfold Q. cbn [fst snd].
      split_and!; [done|done| |].
      + eapply settled_trans; [exact Hd|]. by eapply settled_trans.
      + intros Hreset. rewrite Hadv; [by rewrite Hf|]. by rewrite Hf, H2.
    - apply crun_ret. unfold Q. cbn [chip with_chip fst snd].
      split_and!; [done|done|by eapply settled_trans|]. intros _. by rewrite Hf. }
  replace ((if new_adv old adv =? old then 0 else 1) <? 0) with false by (by case_match).
  destruct (new_adv old adv =? old); cbn [Z.eqb].
  - apply crun_bind. apply crun_bind.
    eapply crun_mono; [apply (phy_read_run y1); [by apply bus_free_chip; [|apply Hd]|done|done]|].
    cbn beta. intros v d1 (-> & Hd1 & Hf1). apply crun_ret. cbn [chip with_chip].
    rewrite (proj1 (regs_nonneg _ _ _)). apply Hend; [by case_match|done|]. by rewrite Hf1, after_read_other.
  - apply crun_bind, crun_ret. cbn [chip with_chip]. apply Hend; [done| |done]. by split; [apply Hd|].
Qed.

End Status.

(** ** The reaction of the network driver *)

Section Link.
Context {D : Type} `{!Smsc D} (p : smsc911x_data) `{!MacChip D p} `{!MiiChip D p}.
Implicit Types s : dstate D.

Notation phys_of s := (mii_phys (mii (chip s))).

(** The MAC runs in the mode that the driver last set. *)
Definition mac_duplex (d : D) : bool := has (mac_regs d MAC_CR) MAC_CR_FDPX_.
Definition duplex_set s : Prop :=
  last_duplex (pd s) <> -1 -> mac_duplex (chip s) = negb (last_duplex (pd s) =? 0).

(** The driver with its PHY *)
Record with_phy s (y : phy_device) : Prop := {
  wp_free : bus_free p s;
  wp_phy : phy_dev (pd s) = Some y;
  wp_at : phy_at y;
  wp_set : duplex_set s }.

Definition put s (y : phy_device) : dstate D := with_pd s (set_phy_dev (Some y) (pd s)).

Lemma with_phy_put s y y' : with_phy s y -> phy_addr y' = phy_addr y -> with_phy (put s y') y'.
Proof. intros [[[H0 H0'] H1 H2] H3 H4 H5] E. split; [by split|done|by unfold phy_at; rewrite E|exact H5]. Qed.

Lemma with_phy_chip s y d : with_phy s y -> settled p s d -> with_phy (with_chip s d) y.
Proof.
  intros [H1 H2 H3 H4] [H5 H6]. split; [by apply bus_free_chip|done|done|].
  intros Hl. unfold mac_duplex. cbn [chip with_chip]. rewrite H6 by done. by apply H4.
Qed.

Lemma with_phy_nd s y n : with_phy s y -> with_phy (with_nd s n) y.
Proof. intros [[[] ? ?] ? ? ?]. by split. Qed.

(** Effects on the registers outside of the MAC *)
Lemma outside_read reg s (Q : Z -> D -> Prop) :
  bus_free p s -> reg <> MAC_CSR_CMD -> reg <> MAC_CSR_DATA ->
  (forall v d, settled p s d -> mii_phys (mii d) = phys_of s -> Q v d) -> crun (smsc911x_reg_read reg) s Q.
Proof.
  intros [[Hr Hbus] Hl [Hb Hm]] H1 H2 HQ. apply crun_read; [done|]. rewrite (proj1 (Hbus _ 0 _)).
  destruct (csr_outside_read (p := p) reg (chip s) H1 H2) as [E1 E2]. pose proof (mii_other_read (p := p) reg (chip s)) as E3.
  apply HQ; [|by rewrite E3]. split; [split; congruence|]. intros o _. by rewrite E2.
Qed.

Lemma outside_write reg v s (Q : unit -> D -> Prop) :
  bus_free p s -> reg <> MAC_CSR_CMD -> reg <> MAC_CSR_DATA ->
  (forall d, settled p s d -> mii_phys (mii d) = phys_of s -> Q tt d) -> crun (smsc911x_reg_write reg v) s Q.
Proof.
  intros [[Hr Hbus] Hl [Hb Hm]] H1 H2 HQ. apply crun_write; [done|]. rewrite (proj2 (Hbus _ _ _)).
  destruct (csr_outside_write (p := p) reg v (chip s) H1 H2) as [E1 E2].
  pose proof (mii_other_write (p := p) reg v (chip s) H1) as E3.
  apply HQ; [|by rewrite E3]. split; [split; congruence|]. intros o _. by rewrite E2.
Qed.

(** Flow control changes its own register of the MAC only. *)
Lemma locked_flow_run v s :
  bus_free p s -> is_u32 v ->
  crun (locked_mac_write FLOW v) s (fun _ d => mii_idle p d /\ mac_duplex d = mac_duplex (chip s)).
Proof.
  intros [[Hr Hbus] Hl Hi] Hv. apply crun_locked_unit; [done|].
  eapply crun_mono; [apply (mac_write_plain p); [by split|done|exact Hi|done|done]|].
  intros _ d (Hd & Hg & _). split; [done|]. unfold mac_duplex. by rewrite Hg.
Qed.

Lemma update_flowcontrol_run s y :
  bus_free p s -> phy_dev (pd s) = Some y -> phy_at y ->
  crun smsc911x_phy_update_flowcontrol s (fun _ d => mii_idle p d /\ mac_duplex d = mac_duplex (chip s)).
Proof.
  intros Hs Hp Hy. unfold smsc911x_phy_update_flowcontrol. apply crun_get_pd. rewrite Hp. apply crun_bind.
  apply outside_read; [done..|]. intros afc d Hd Hf.
  assert (Hfree : forall d', settled p s d' -> bus_free p (with_chip s d')) by (intros d' []; by apply bus_free_chip).
  assert (Hend : forall (fa : Z * Z) d', is_u32 fa.1 -> settled p s d' ->
    crun (let '(flow, afc) := fa in _ ← locked_mac_write FLOW flow; smsc911x_reg_write AFC_CFG afc)
      (with_chip s d') (fun _ d => mii_idle p d /\ mac_duplex d = mac_duplex (chip s))).
  { intros [flow afc'] d' Hu Hd'. apply crun_bind. eapply crun_mono; [by apply locked_flow_run; [apply Hfree|]|].
    cbn [chip with_chip]. intros _ d2 [H1 H2]. apply outside_write; [apply bus_free_chip; [by apply Hfree|done]|done|done|].
    intros d3 [H3 H4] _. split; [done|]. unfold mac_duplex in *. cbn [chip with_chip] in *.
    rewrite H4 by done. rewrite H2. by rewrite (proj2 Hd') by done. }
  destruct (duplex y =? DUPLEX_FULL).
  - apply crun_bind. apply crun_bind.
    eapply crun_mono; [apply (phy_read_run p y); [by apply Hfree|done|done]|]. cbn beta.
    intros l d1 (-> & Hd1 & _). apply crun_bind.
    assert (Hs1 : settled p s d1) by (by eapply settled_trans).
    eapply crun_mono; [apply (phy_read_run p y); [by apply Hfree|done|done]|]. cbn beta.
    intros r d2 (-> & Hd2 & _). cbv zeta. apply crun_ret. cbn [chip with_chip].
    apply (Hend (_, _)); [by case_match|]. by eapply settled_trans.
  - apply crun_bind, crun_ret. cbn [chip with_chip]. by apply (Hend (_, _)).
Qed.

(** *** [smsc911x_phy_adjust_link] *)

Lemma fdpx_set x : has (Z.lor x MAC_CR_FDPX_) MAC_CR_FDPX_ = true.
Proof. change MAC_CR_FDPX_ with (2 ^ 20). rewrite has_bit, Z.lor_spec by lia. apply orb_true_r. Qed.

Lemma fdpx_clear x : has (Z.land x (not32 MAC_CR_FDPX_)) MAC_CR_FDPX_ = false.
Proof.
  change MAC_CR_FDPX_ with (2 ^ 20). rewrite has_bit, Z.land_spec by lia.
  rewrite not32_testbit by (by unfold is_word || lia). apply andb_false_r.
Qed.

Lemma new_mac_cr_u32 x (b : bool) :
  is_u32 x -> is_u32 (if b then Z.lor x MAC_CR_FDPX_ else Z.land x (not32 MAC_CR_FDPX_)).
Proof.
  intros Hx. destruct b; [by apply is_word_lor|]. destruct Hx. by apply is_word_land_l.
Qed.

Lemma adjust_duplex_run s y :
  with_phy s y ->
  wp (adjust_duplex y) (fun _ s' => with_phy s' y /\ nd s' = nd s /\ last_duplex (pd s') = duplex y) s.
Proof.
  intros Hs. pose proof Hs as [[[Hr Hbus] Hl Hi] Hp Hy Hset]. unfold adjust_duplex. apply wp_get_pd.
  destruct (Z.eqb_spec (duplex y) (last_duplex (pd s))) as [E|E]; [by apply wp_ret|].
  apply wp_bind, wp_lock_mac; [done|]. apply wp_bind.
  eapply wp_crun; [apply (mac_read_plain p); [by split|done|exact Hi|done]|].
  intros mac_cr d (-> & Hd & Hg & Hf). cbv zeta. apply wp_bind.
  eapply wp_crun; [apply (mac_write_plain p); [by split|done|exact Hd|done|apply new_mac_cr_u32, (mac_u32 (p := p)); done]|].
  intros _ d1 (Hd1 & Hg1 & Hf1). apply wp_bind, wp_unlock_mac; [done|].
  set (s1 := with_pd _ _). assert (H1 : mac_duplex d1 = negb (duplex y =? 0)).
  { unfold mac_duplex. rewrite Hg1, Z.eqb_refl by done.
    destruct (duplex y =? 0); [apply fdpx_clear|apply fdpx_set]. }
  assert (Hs1 : bus_free p s1) by (by split; [split|..]).
  apply wp_bind. eapply wp_crun; [by apply (update_flowcontrol_run _ y)|]. intros _ d2 [Hd2 Hg2].
  unfold wp, upd_pd. cbn. split; [|done]. split; [by split; [split|..]|done|done|]. intros _. etransitivity; [exact Hg2|exact H1].
Qed.

Lemma adjust_carrier_run s y :
  with_phy s y ->
  wp adjust_carrier (fun _ s' => with_phy s' y /\ nd s' = nd s /\ last_duplex (pd s') = last_duplex (pd s)) s.
Proof.
  intros Hs. set (K := fun t => with_phy t y /\ nd t = nd s /\ last_duplex (pd t) = last_duplex (pd s)).
  assert (Hpd : forall f t v, K t -> f = set_gpio_setting \/ f = set_gpio_orig_setting \/ f = set_last_carrier ->
    K (with_pd t (f v (pd t)))).
  { intros f t v ([[[? ?] ? ?] ? ? ?] & ? & ?) [-> | [-> | ->]]; (split; [|done]);
      by split; [split; [split|..]|..]. }
  assert (Hw : forall v t, K t -> wp (smsc911x_reg_write GPIO_CFG v) (fun _ s' => K s') t).
  { intros v t (Ht & ? & ?). eapply wp_crun; [apply (outside_write _ _ _ (fun _ d => settled p t d)); [apply Ht|done..]|].
    intros ? d Hd. split; [|done]. by apply with_phy_chip. }
  unfold adjust_carrier. apply wp_get_nd, wp_get_pd. cbv zeta.
  destruct (_ =? _); [by apply wp_ret|]. apply wp_bind. eapply wp_mono with (Q := fun _ s' => K s').
  { intros _ s' H'. apply (Hpd set_last_carrier); [done|tauto]. }
  destruct (negb _).
  - destruct (_ && _); [|by apply wp_ret]. apply wp_bind. apply Hw. apply (Hpd set_gpio_setting); [done|tauto].
  - apply wp_bind. eapply wp_crun; [apply (outside_read _ _ (fun _ d => settled p s d)); [apply Hs|done..]|].
    intros v d Hd. apply wp_bind. assert (H1 : K (with_chip s d)) by (split; [by apply with_phy_chip|done]).
    unfold wp at 1, upd_pd at 1. apply (Hpd set_gpio_setting _ v) in H1; [|tauto]. destruct (_ && _).
    + apply wp_bind. unfold wp at 1, upd_pd at 1. cbv zeta. apply wp_bind. unfold wp at 1, upd_pd at 1. apply Hw.
      apply (Hpd set_gpio_setting); [|tauto]. apply (Hpd set_gpio_orig_setting); [done|tauto].
    + by apply wp_ret.
Qed.

Lemma adjust_link_run s y :
  with_phy s y ->
  wp smsc911x_phy_adjust_link (fun _ s' => with_phy s' y /\ nd s' = nd s /\ last_duplex (pd s') = duplex y) s.
Proof.
  intros Hs. unfold smsc911x_phy_adjust_link. apply wp_get_pd. rewrite (wp_phy _ _ Hs). apply wp_bind.
  eapply wp_mono; [|by apply adjust_duplex_run]. intros _ s1 (H1 & E1 & E2).
  eapply wp_mono; [|by apply adjust_carrier_run]. intros _ s2 (H2 & E3 & E4).
  split_and!; [done|congruence|congruence].
Qed.

End Link.
