(* ===== verification/PhyLink.v ===== *)
(** * The state machine of the PHY library and the carrier
    (linux/drivers/net/phy/phy.c 767-963 with the handler of the network driver)

    The state machine runs once a second, between calls that start and stop the PHY and
    put the system to sleep.  On a chip that keeps the MII protocol these operations
    implement a small machine on the state, the carrier, the link and whether the PHY
    negotiates, which only looks at two bits of the status register; so the carrier comes
    with the link, and while there is one the MAC runs in the duplex mode of the PHY.  The
    carrier also goes with the link, except in the states [PHY_FORCING] and [PHY_NOLINK]
    reached with the carrier on, which never take it off. *)

From S2P Require Import Prelude SmscDefs SmscIo SmscMac SmscRun SmscPhy PhyLib PhyKeeps MiiBus SmscNetdev PhyTheory.

(** ** The abstract machine *)

(** What the status register says when the machine runs: link, negotiation complete *)
Definition seen : Type := bool * bool.

Definition reports (f : phys) (a : Z) (o : seen) : Prop :=
  has (bmsr_now f a) BMSR_LSTATUS = o.1 /\ has (bmsr_now f a) BMSR_ANEGCOMPLETE = o.2.

(** What can happen: a second passes with such a report, the interface is brought up
    ([phy_start]) or down ([phy_stop]), the system sleeps and wakes up. *)
Inductive event : Type :=
  | Second (o : seen)
  | Started
  | Stopped
  | Slept.

(** The state of the PHY, the carrier of the interface, the link last read, and whether
    the PHY negotiates *)
Record link_view : Type := mk_view { v_state : phy_state; v_carrier : Z; v_link : Z; v_auto : bool }.

Definition started (v : phy_state) : phy_state :=
  match v with PHY_STARTING => PHY_PENDING | PHY_READY => PHY_UP | PHY_HALTED => PHY_RESUMING | _ => v end.

Definition slept (v : phy_state) : phy_state :=
  if phy_state_num PHY_UP <? phy_state_num v then PHY_UP else v.

(** The state after [phy_start_aneg] *)
Definition restarted (a : bool) : phy_state := if a then PHY_AN else PHY_FORCING.

(** [magic] stands for the flag [PHY_HAS_MAGICANEG] of the driver: without it, the machine
    gives up on a negotiation that takes too long and forces a mode.  In [PHY_RESUMING]
    the interrupt mask is written before the status is read, so the report from before the
    run does not decide. *)
Inductive step (magic : bool) : link_view -> event -> link_view -> Prop :=
  | step_up o c l a : step magic (mk_view PHY_UP c l a) (Second o) (mk_view (restarted a) c l a)
  | step_an_up c l a : step magic (mk_view PHY_AN c l a) (Second (true, true)) (mk_view PHY_RUNNING 1 1 a)
  | step_an_wait c l a : step magic (mk_view PHY_AN c l a) (Second (true, false)) (mk_view PHY_AN c 1 a)
  | step_an_late c l a (a' := magic && a) :
      step magic (mk_view PHY_AN c l a) (Second (true, false)) (mk_view (restarted a') c 1 a')
  | step_an_down b c l a : step magic (mk_view PHY_AN c l a) (Second (false, b)) (mk_view PHY_NOLINK 0 0 a)
  | step_nolink_up b c l a : step magic (mk_view PHY_NOLINK c l a) (Second (true, b)) (mk_view PHY_RUNNING 1 1 a)
  | step_nolink_down b c l a : step magic (mk_view PHY_NOLINK c l a) (Second (false, b)) (mk_view PHY_NOLINK c 0 a)
  | step_forcing_up b c l a : step magic (mk_view PHY_FORCING c l a) (Second (true, b)) (mk_view PHY_RUNNING 1 1 a)
  | step_forcing_wait b c l a :
      step magic (mk_view PHY_FORCING c l a) (Second (false, b)) (mk_view PHY_FORCING c 0 a)
  | step_forcing_late b c l a :
      step magic (mk_view PHY_FORCING c l a) (Second (false, b)) (mk_view (restarted a) c 0 a)
  | step_running o c l a : step magic (mk_view PHY_RUNNING c l a) (Second o) (mk_view PHY_CHANGELINK c l a)
  | step_change_up b c l a : step magic (mk_view PHY_CHANGELINK c l a) (Second (true, b)) (mk_view PHY_RUNNING 1 1 a)
  | step_change_down b c l a : step magic (mk_view PHY_CHANGELINK c l a) (Second (false, b)) (mk_view PHY_NOLINK 0 0 a)
  | step_halted_down o c a : step magic (mk_view PHY_HALTED c 0 a) (Second o) (mk_view PHY_HALTED c 0 a)
  | step_halted_up o c l a : l <> 0 -> step magic (mk_view PHY_HALTED c l a) (Second o) (mk_view PHY_HALTED 0 0 a)
  | step_resuming_up o c l a : step magic (mk_view PHY_RESUMING c l a) (Second o) (mk_view PHY_RUNNING 1 1 a)
  | step_resuming_down o c l a : step magic (mk_view PHY_RESUMING c l a) (Second o) (mk_view PHY_NOLINK c 0 a)
  | step_resuming_wait o c l : step magic (mk_view PHY_RESUMING c l true) (Second o) (mk_view PHY_AN c l true)
  | step_idle v o c l a :
      v = PHY_DOWN \/ v = PHY_STARTING \/ v = PHY_READY \/ v = PHY_PENDING ->
      step magic (mk_view v c l a) (Second o) (mk_view v c l a)
  | step_start v c l a : step magic (mk_view v c l a) Started (mk_view (started v) c l a)
  | step_stop v c l a : step magic (mk_view v c l a) Stopped (mk_view PHY_HALTED c l a)
  | step_sleep v c l a : step magic (mk_view v c l a) Slept (mk_view (slept v) c l a).

Inductive steps (magic : bool) : link_view -> list event -> link_view -> Prop :=
  | steps_nil x : steps magic x [] x
  | steps_cons x ev y evs z : step magic x ev y -> steps magic y evs z -> steps magic x (ev :: evs) z.

Lemma steps_app magic x evs1 evs2 z :
  steps magic x (evs1 ++ evs2) z -> exists y, steps magic x evs1 y /\ steps magic y evs2 z.
Proof.
  revert x. induction evs1 as [|ev evs1 IH]; intros x H; [exists x; split; [constructor|done]|].
  inversion H as [|? ? y ? ? H1 H2]; subst. destruct (IH _ H2) as (w & Hw & Hz). exists w. split; [by econstructor|done].
Qed.

(** An invariant of every step is one of every sequence. *)
Lemma steps_inv magic (I : link_view -> Prop) (A : event -> Prop) x evs z :
  (forall x ev y, step magic x ev y -> A ev -> I x -> I y) -> steps magic x evs z -> Forall A evs -> I x -> I z.
Proof.
  intros Hstep. induction 1 as [|x ev y evs z H1 H2 IH]; intros HA Hx; [done|].
  inversion_clear HA. eauto.
Qed.

(** ** The PHY *)

(** A PHY that has a driver, negotiates or does not, and has no gigabit modes, which the
    MAC cannot use *)
Record usable (y : phy_device) : Prop := {
  use_drv : is_Some (phy_drv y);
  use_auto : autoneg y = AUTONEG_ENABLE \/ autoneg y = AUTONEG_DISABLE;
  use_giga : no_gigabit y }.

Definition negotiates (y : phy_device) : bool := autoneg y =? AUTONEG_ENABLE.

(** The driver repeats a negotiation that takes too long. *)
Definition magic (y : phy_device) : bool :=
  match phy_drv y with Some d => has (drv_flags d) PHY_HAS_MAGICANEG | None => false end.

(** What the machine does not change of the PHY; it may stop to negotiate. *)
Definition same_core (y y' : phy_device) : Prop :=
  phy_addr y' = phy_addr y /\ phy_drv y' = phy_drv y /\
  (autoneg y' = autoneg y \/ autoneg y' = AUTONEG_DISABLE) /\ supported y' = supported y /\
  attached y' = attached y /\ line y' = line y.

(** Two PHYs that differ in other fields only *)
Ltac same_fields := unfold same_core; split_and!; first [reflexivity | left; reflexivity].

#[export] Hint Extern 0 (same_core _ _) => same_fields : core.

Lemma usable_same y y' : same_core y y' -> usable y -> usable y'.
Proof.
  intros (_ & E1 & E2 & E3 & _) [H1 H2 H3]. split; unfold no_gigabit in *; rewrite ?E1, ?E3; try done.
  destruct E2 as [-> | ->]; [done|by right].
Qed.

Lemma magic_same y y' : same_core y y' -> magic y' = magic y.
Proof. intros (_ & E & _). unfold magic. by rewrite E. Qed.

Lemma same_core_trans y1 y2 y3 : same_core y1 y2 -> same_core y2 y3 -> same_core y1 y3.
Proof. unfold same_core. intuition congruence. Qed.

Lemma core_irq y y' : same_core y y' -> irq (line y) = PHY_POLL -> irq (line y') = PHY_POLL.
Proof. intros (_ & _ & _ & _ & _ & ->). done. Qed.

Definition half_or_full (y : phy_device) : Prop := duplex y = DUPLEX_HALF \/ duplex y = DUPLEX_FULL.

Lemma half_or_full_set y : half_or_full y -> duplex y <> -1.
Proof. by intros [-> | ->]. Qed.

(** ** The detailed machine *)

Section Machine.
Context {D : Type} `{!Smsc D} (p : smsc911x_data) `{!MacChip D p} `{!MiiChip D p}.
Implicit Types s : dstate D.

Notation phys_of s := (mii_phys (mii (chip s))).

Lemma wp_get_phy_at {B} y (k : phy_device -> drv D B) Q s :
  phy_dev (pd s) = Some y -> wp (k y) Q s -> wp (get_phy ≫= k) Q s.
Proof. intros E Hk. unfold get_phy, wp, mbind, drv_bind, get_pd. by rewrite E. Qed.

Lemma wp_upd_phy_at {B} y f (k : unit -> drv D B) Q s :
  phy_dev (pd s) = Some y -> wp (k tt) Q (put s (f y)) -> wp (upd_phy f ≫= k) Q s.
Proof. intros E Hk. apply wp_bind. unfold upd_phy. by apply (wp_get_phy_at y). Qed.

Lemma wp_on_phy_at {B} y f (k : Z -> drv D B) Q s :
  phy_dev (pd s) = Some y ->
  crun (f y) s (fun r d => wp (k r.1) Q (put (with_chip s d) r.2)) -> wp (on_phy f ≫= k) Q s.
Proof.
  intros E Hf. apply wp_bind. unfold on_phy. apply (wp_get_phy_at y); [done|]. apply wp_bind.
  eapply wp_crun; [exact Hf|]. by intros [r y'] d Hk.
Qed.

Lemma wp_lock_phy {B} y (k : unit -> drv D B) Q s :
  phy_dev (pd s) = Some y -> phy_lock y = false ->
  wp (k tt) Q (put s (set_phy_lock true y)) -> wp (lock_phy ≫= k) Q s.
Proof.
  intros E Hl Hk. apply wp_bind. unfold lock_phy. apply (wp_get_phy_at y); [done|]. rewrite Hl.
  unfold upd_phy. by apply (wp_get_phy_at y).
Qed.

Lemma wp_unlock_phy {B} y (k : unit -> drv D B) Q s :
  phy_dev (pd s) = Some y -> phy_lock y = true ->
  wp (k tt) Q (put s (set_phy_lock false y)) -> wp (unlock_phy ≫= k) Q s.
Proof.
  intros E Hl Hk. apply wp_bind. unfold unlock_phy. apply (wp_get_phy_at y); [done|]. rewrite Hl.
  unfold upd_phy. by apply (wp_get_phy_at y).
Qed.

Lemma wp_unlock_last y (Q : unit -> dstate D -> Prop) s :
  phy_dev (pd s) = Some y -> phy_lock y = true -> Q tt (put s (set_phy_lock false y)) -> wp unlock_phy Q s.
Proof.
  intros E Hl HQ. unfold unlock_phy. apply (wp_get_phy_at y); [done|]. rewrite Hl. unfold upd_phy.
  by apply (wp_get_phy_at y).
Qed.

(** The fields that a reading of the mode leaves alone *)
Definition mode_read (y y' : phy_device) : Prop :=
  same_core y y' /\ autoneg y' = autoneg y /\ half_or_full y' /\ state y' = state y /\ link y' = link y /\
  phy_lock y' = phy_lock y.

Lemma negotiated_frame c y : mode_read y (negotiated 0 c y).
Proof.
  unfold negotiated, mode_read, same_core, half_or_full. cbv zeta.
  destruct (has 0 _) eqn:E; [done|]. clear E.
  destruct (has c (Z.lor LPA_100FULL LPA_100HALF)), (has c LPA_100FULL), (has c LPA_10FULL); cbn; tauto.
Qed.

Lemma forced_frame bmcr y : mode_read y (forced bmcr y).
Proof.
  unfold forced, mode_read, same_core, half_or_full. cbv zeta. cbn. destruct (has bmcr BMCR_FULLDPLX); tauto.
Qed.

(** The step that reads the status *)
Lemma wp_read_status {B} y (k : Z -> drv D B) Q s :
  with_phy p s y -> usable y ->
  (forall s' y', with_phy p s' y' -> mode_read (set_link (link_of (bmsr_now (phys_of s) (phy_addr y))) y) y' ->
     phys_of s' ≡ after_read (phys_of s) (phy_addr y) MII_BMSR -> nd s' = nd s -> wp (k 0) Q s') ->
  wp (on_phy phy_read_status ≫= k) Q s.
Proof.
  intros Hs [[dv Ed] Ha Hg] Hk. apply (wp_on_phy_at y); [apply Hs|].
  unfold phy_read_status, get_drv. rewrite Ed. apply crun_bind, crun_ret. rewrite with_chip_id.
  set (y1 := set_link _ y) in *.
  assert (Hend : forall y' d, mode_read y1 y' -> settled p s d ->
    mii_phys (mii d) ≡ after_read (phys_of s) (phy_addr y) MII_BMSR -> wp (k 0) Q (put (with_chip s d) y')).
  { intros y' d Hm Hd Hf. apply (Hk _ y'); [|done|exact Hf|done].
    eapply with_phy_put; [by apply with_phy_chip|]. apply Hm. }
  destruct Ha as [Ha|Ha].
  - eapply crun_mono; [apply (read_status_run p); [apply Hs|apply Hs|done|done]|]. cbv beta.
    intros r d (-> & Hd & Hf). apply Hend; [apply negotiated_frame|done|done].
  - eapply crun_mono; [apply (read_forced_run p); [apply Hs|apply Hs|done]|]. cbv beta.
    intros r d (-> & Hd & Hf). apply Hend; [apply forced_frame|done|done].
Qed.

Lemma link_up_bit b : negb (link_of b =? 0) = has b BMSR_LSTATUS.
Proof. unfold link_of, has. by destruct (Z.land b BMSR_LSTATUS =? 0). Qed.

Lemma wp_link_is_up {B} y b (k : bool -> drv D B) Q s :
  phy_dev (pd s) = Some y -> link y = link_of b -> wp (k (has b BMSR_LSTATUS)) Q s -> wp (link_is_up ≫= k) Q s.
Proof.
  intros E El Hk. apply wp_bind. unfold link_is_up. apply (wp_get_phy_at y); [done|]. apply wp_ret.
  by rewrite El, link_up_bit.
Qed.

(** In the states with a link the driver has set the mode of the PHY in the MAC. *)
Definition mode_ok s (y : phy_device) : Prop :=
  match state y with
  | PHY_RUNNING | PHY_CHANGELINK => last_duplex (pd s) = duplex y /\ half_or_full y
  | PHY_FORCING => half_or_full y
  | _ => True
  end.

Lemma mode_idle s y :
  state y <> PHY_RUNNING -> state y <> PHY_CHANGELINK -> state y <> PHY_FORCING -> mode_ok s y.
Proof. unfold mode_ok. by destruct (state y). Qed.

(** So the duplex bit of the MAC is the mode of the PHY. *)
Lemma mode_mac s y :
  with_phy p s y -> mode_ok s y -> state y = PHY_RUNNING \/ state y = PHY_CHANGELINK ->
  half_or_full y /\ mac_duplex p (chip s) = (duplex y =? DUPLEX_FULL).
Proof.
  intros Hs Hm Hst. assert (H : last_duplex (pd s) = duplex y /\ half_or_full y).
  { unfold mode_ok in Hm. by destruct Hst as [E|E]; rewrite E in Hm. }
  destruct H as [Hl Hh]. split; [done|]. rewrite (wp_set _ _ _ Hs); rewrite Hl; [|by apply half_or_full_set].
  by destruct Hh as [-> | ->].
Qed.

(** The abstraction *)
Definition view s (y : phy_device) : link_view := mk_view (state y) (carrier_ok (nd s)) (link y) (negotiates y).

(** The state between two operations *)
Record polled s (y : phy_device) : Prop := {
  polled_phy : with_phy p s y;
  polled_lock : phy_lock y = false;
  polled_use : usable y;
  polled_attached : attached y = true;
  polled_irq : irq (line y) = PHY_POLL;
  polled_mode : mode_ok s y }.

(** *** [phy_start_aneg] *)

(** What it leaves: a PHY that negotiates or has a mode forced on it *)
Definition aneg_started (y : phy_device) s (e : Z) s' (y' : phy_device) : Prop :=
  0 <= e /\ nd s' = nd s /\ with_phy p s' y' /\ phy_lock y' = false /\ same_core y y' /\ autoneg y' = autoneg y /\
  link y' = link y /\ (state y' = if bool_decide (state y = PHY_HALTED) then PHY_HALTED else restarted (negotiates y)) /\
  mode_ok s' y'.

Lemma aneg_auto_run y s :
  with_phy p s y -> phy_lock y = false -> is_Some (phy_drv y) -> no_gigabit y -> autoneg y = AUTONEG_ENABLE ->
  wp phy_start_aneg (fun e s' => exists y', aneg_started y s e s' y' /\
    (~ resets MII_BMCR (phy_regs (phys_of s) (phy_addr y) MII_BMCR) ->
     phy_regs (phys_of s') (phy_addr y) MII_ADVERTISE =
     new_adv (phy_regs (phys_of s) (phy_addr y) MII_ADVERTISE) (Z.land (advertising y) (supported y)))) s.
Proof.
  intros Hs Hl Hdrv Hg Ha. unfold phy_start_aneg.
  apply (wp_lock_phy y); [apply Hs|done|]. set (y1 := set_phy_lock true y).
  assert (H1 : with_phy p (put s y1) y1) by (by eapply with_phy_put).
  apply (wp_upd_phy_at y1); [done|]. change (autoneg y1) with (autoneg y). rewrite Ha. cbn [Z.eqb AUTONEG_DISABLE AUTONEG_ENABLE].
  assert (H2 : with_phy p (put (put s y1) y1) y1) by (by eapply with_phy_put).
  apply (wp_on_phy_at y1); [done|].
  eapply crun_mono; [apply (config_aneg_run p y1); [apply H2|apply H2|done|done|done]|]. cbv zeta beta.
  intros [e y2] d (He & E2 & Hd & Hreg). cbn [fst snd] in *. subst y2. set (y2 := set_advertising _ y1).
  assert (H3 : with_phy p (put (with_chip (put (put s y1) y1) d) y2) y2).
  { eapply with_phy_put; [by apply with_phy_chip|done]. }
  rewrite (proj2 (Z.ltb_ge e 0)) by done. apply (wp_upd_phy_at y2); [done|].
  change (autoneg y2) with (autoneg y). change (state y2) with (state y). rewrite Ha. cbn [Z.eqb AUTONEG_ENABLE Pos.eqb].
  set (y3 := if bool_decide _ then _ else _).
  assert (Hy3 : same_core y y3 /\ autoneg y3 = autoneg y /\ link y3 = link y /\ phy_lock y3 = true /\
    state y3 = if bool_decide (state y = PHY_HALTED) then PHY_HALTED else PHY_AN).
  { unfold y3. case_bool_decide as Eh; cbn; (split; [same_fields|done]). }
  clearbody y3. destruct Hy3 as (Hc3 & Ea3 & El3 & Hl3 & Hst3).
  eapply (with_phy_put p _ _ y3) in H3; [|apply Hc3]. apply (wp_unlock_phy y3); [done|done|]. apply wp_ret.
  exists (set_phy_lock false y3). split; [|exact Hreg]. split; [done|]. split; [done|]. split; [by eapply with_phy_put|].
  unfold negotiates. rewrite Ha in Ea3 |- *. split_and!; try done. apply mode_idle; cbn; rewrite Hst3; by case_bool_decide.
Qed.

(** Without negotiation a mode of the table is forced. *)
Lemma take_half_or_full i f y : half_or_full (take_setting (phy_find_valid i f) y).
Proof.
  assert (H : (phy_find_valid i f < 7)%nat).
  { unfold phy_find_valid, last_if_none, MAX_NUM_SETTINGS. case_bool_decide; lia. }
  revert H. generalize (phy_find_valid i f). intros n Hn. unfold half_or_full, take_setting.
  do 7 (destruct n as [|n]; [cbn; tauto|]). lia.
Qed.

Lemma take_frame i y (y' := take_setting i y) :
  same_core y y' /\ autoneg y' = autoneg y /\ phy_lock y' = phy_lock y /\ state y' = state y /\ link y' = link y.
Proof. unfold y', take_setting, same_core. case_match; cbn; tauto. Qed.

Lemma sanitize_frame y (y' := phy_sanitize_settings y) :
  autoneg y = AUTONEG_DISABLE ->
  same_core y y' /\ autoneg y' = autoneg y /\ phy_lock y' = phy_lock y /\ state y' = state y /\ link y' = link y /\
  half_or_full y'.
Proof.
  intros Ha. unfold y', phy_sanitize_settings. cbv zeta.
  set (y1 := if _ =? 0 then _ else y).
  assert (E : same_core y y1 /\ autoneg y1 = autoneg y /\ phy_lock y1 = phy_lock y /\ state y1 = state y /\ link y1 = link y).
  { unfold y1. destruct (_ =? 0); unfold same_core; cbn; rewrite ?Ha; tauto. }
  clearbody y1. destruct E as (Hc & E1 & E2 & E3 & E4).
  destruct (take_frame (phy_find_valid (phy_find_setting (speed y1) (duplex y1)) (supported y1)) y1) as (Hc' & F1 & F2 & F3 & F4).
  split; [|split_and!; [congruence..|apply take_half_or_full]]. unfold same_core in *. intuition congruence.
Qed.

(** The control register of a forced mode can be read back. *)
Lemma forced_ctl_kept sp dx : is_u16 (forced_ctl sp dx) /\ kept_write MII_BMCR (forced_ctl sp dx).
Proof.
  unfold forced_ctl, add_if. split; [by repeat case_match|]. right. split; [done|]. by repeat case_match.
Qed.

(** [config_aneg] without negotiation *)
Lemma setup_forced_run y s :
  with_phy p s y -> is_Some (phy_drv y) -> autoneg y = AUTONEG_DISABLE ->
  crun (config_aneg y) s (fun r d => r = (0, set_asym_pause 0 (set_pause 0 y)) /\ settled p s d /\
    phy_regs (mii_phys (mii d)) (phy_addr y) MII_BMCR = forced_ctl (speed y) (duplex y)).
Proof.
  intros Hs [dv Ed] Ha. unfold config_aneg, get_drv. rewrite Ed. apply crun_bind, crun_ret. rewrite with_chip_id.
  unfold genphy_config_aneg. rewrite Ha. cbn [Z.eqb AUTONEG_DISABLE AUTONEG_ENABLE negb].
  unfold genphy_setup_forced. cbv zeta. apply crun_bind.
  destruct (forced_ctl_kept (speed y) (duplex y)) as [Hu Hk].
  eapply crun_mono; [apply (phy_write_run p); [apply Hs|apply Hs|done]|].
  intros e d (-> & Hd & Hw & _). apply crun_ret. cbn [chip with_chip].
  split; [done|]. split; [done|]. rewrite u16_small in Hw by done. by apply Hw.
Qed.

Lemma aneg_forced_run y s (z := phy_sanitize_settings (set_phy_lock true y)) :
  with_phy p s y -> phy_lock y = false -> is_Some (phy_drv y) -> autoneg y = AUTONEG_DISABLE ->
  wp phy_start_aneg (fun e s' => exists y', aneg_started y s e s' y' /\
    phy_regs (phys_of s') (phy_addr y) MII_BMCR = forced_ctl (speed z) (duplex z)) s.
Proof.
  intros Hs Hl Hd Ha. unfold phy_start_aneg. apply (wp_lock_phy y); [apply Hs|done|].
  set (y1 := set_phy_lock true y). apply (wp_upd_phy_at y1); [done|]. change (autoneg y1) with (autoneg y).
  rewrite Ha. cbn [Z.eqb AUTONEG_DISABLE]. change (phy_sanitize_settings y1) with z.
  destruct (sanitize_frame y1 Ha) as (Hc2 & Ea2 & Hl2 & Hst2 & El2 & Hh2). change (phy_sanitize_settings y1) with z in *.
  revert Hc2 Ea2 Hl2 Hst2 El2 Hh2. generalize z. clear z. intros y2 Hc2 Ea2 Hl2 Hst2 El2 Hh2.
  assert (H2 : with_phy p (put (put s y1) y2) y2) by (eapply with_phy_put; [by eapply with_phy_put|apply Hc2]).
  pose proof Hc2 as (Ead & Edrv & _). apply (wp_on_phy_at y2); [done|].
  eapply crun_mono; [apply (setup_forced_run y2); [done|by rewrite Edrv|by rewrite Ea2]|].
  cbv beta. intros r d (-> & Hd2 & Hreg). cbn [fst snd]. cbn [Z.ltb Z.compare].
  set (y3 := set_asym_pause _ _). apply (wp_upd_phy_at y3); [done|].
  change (autoneg y3) with (autoneg y2). change (state y3) with (state y2). rewrite Ea2, Hst2.
  change (autoneg y1) with (autoneg y). change (state y1) with (state y). rewrite Ha. cbn [Z.eqb AUTONEG_ENABLE AUTONEG_DISABLE].
  set (y4 := if bool_decide _ then _ else _).
  assert (Hy4 : same_core y y4 /\ autoneg y4 = autoneg y /\ link y4 = link y /\ phy_lock y4 = true /\ half_or_full y4 /\
    state y4 = if bool_decide (state y = PHY_HALTED) then PHY_HALTED else PHY_FORCING).
  { unfold y4. case_bool_decide as Eh; cbn; (split; [exact Hc2|]); by rewrite ?Hst2. }
  clearbody y4. destruct Hy4 as (Hc4 & Ea4 & El4 & Hl4 & Hh4 & Hst4).
  assert (H4 : with_phy p (put (put (with_chip (put (put s y1) y2) d) y3) y4) y4).
  { eapply (with_phy_put p _ y3); [eapply with_phy_put; [by apply with_phy_chip|done]|].
    rewrite (proj1 Hc4). symmetry. exact Ead. }
  apply (wp_unlock_phy y4); [done|done|]. apply wp_ret. exists (set_phy_lock false y4).
  split; [|by rewrite Ead in Hreg]. split; [done|]. split; [done|]. split; [by eapply with_phy_put|].
  unfold negotiates. rewrite Ha in Ea4 |- *. split_and!; try done. unfold mode_ok. cbn. rewrite Hst4. by case_bool_decide.
Qed.

Lemma start_aneg_run y s :
  with_phy p s y -> phy_lock y = false -> usable y ->
  wp phy_start_aneg (fun e s' => exists y', aneg_started y s e s' y') s.
Proof.
  intros Hs Hl [Hd [Ha|Ha] Hg].
  - eapply wp_mono; [|by apply aneg_auto_run]. intros e s' (y' & H & _). by exists y'.
  - eapply wp_mono; [|by apply aneg_forced_run]. intros e s' (y' & H & _). by exists y'.
Qed.

(** *** The cases *)

(** What a case leaves, under the lock: a view that the relation [R] allows, or a state
    from which the negotiation is started. *)
Definition case_done (y : phy_device) (R : link_view -> Prop) s (r : bool * Z) s' : Prop :=
  0 <= r.2 /\ running (nd s') = running (nd s) /\
  exists y', with_phy p s' y' /\ phy_lock y' = true /\ same_core y y' /\
    if r.1 then state y' <> PHY_HALTED /\ R (mk_view (restarted (negotiates y')) (carrier_ok (nd s')) (link y') (negotiates y'))
    else R (view s' y') /\ mode_ok s' y'.

(** The carrier comes or goes with the state, and the driver is told. *)
Definition to_link (y : phy_device) (v : phy_state) (c : Z) s : dstate D :=
  with_nd (put s (set_state v y)) (set_carrier_ok c (nd s)).

Lemma wp_carrier {B} y v c (k : unit -> drv D B) Q s :
  phy_dev (pd s) = Some y -> wp (k tt) Q (to_link y v c s) ->
  wp (_ ← upd_phy (set_state v); upd_nd (set_carrier_ok c) ≫= k) Q s.
Proof. intros E Hk. apply (wp_upd_phy_at y); [done|]. by apply wp_bind. Qed.

Lemma wp_running_link {B} y (k : unit -> drv D B) Q s :
  phy_dev (pd s) = Some y -> wp (k tt) Q (to_link y PHY_RUNNING 1 s) -> wp (running_link ≫= k) Q s.
Proof. intros E Hk. apply wp_bind. unfold running_link. apply (wp_upd_phy_at y); [done|]. exact Hk. Qed.

(** A case that ends in the handler of the driver *)
Lemma told_run y y1 s0 s (R : link_view -> Prop) (r : Z) :
  with_phy p s y1 -> phy_lock y1 = true -> same_core y y1 -> half_or_full y1 \/ state y1 = PHY_HALTED ->
  running (nd s) = running (nd s0) -> 0 <= r -> R (view s y1) ->
  wp smsc911x_phy_adjust_link (fun _ => case_done y R s0 (false, r)) s.
Proof.
  intros Hs Hl Hc Hh Hn Hr HR. eapply wp_mono; [|by apply (adjust_link_run p _ y1)].
  intros _ s1 (H1 & E1 & E2). split; [done|]. split; [by rewrite E1|].
  exists y1. split; [done|]. split; [done|]. split; [done|]. cbn. unfold view in *. rewrite E1. split; [done|].
  unfold mode_ok. rewrite E2. destruct Hh as [Hh|Hh]; [|by rewrite Hh]. by destruct (state y1).
Qed.

Lemma link_change_run y y1 s0 s (v : phy_state) (c : Z) (R : link_view -> Prop) (r : Z) :
  with_phy p s y1 -> phy_lock y1 = true -> same_core y y1 -> half_or_full y1 ->
  running (nd s) = running (nd s0) -> 0 <= r -> R (mk_view v c (link y1) (negotiates y1)) ->
  wp smsc911x_phy_adjust_link (fun _ => case_done y R s0 (false, r)) (to_link y1 v c s).
Proof.
  intros Hs Hl Hc Hh Hn Hr HR. apply (told_run y (set_state v y1)); try done; [|by left].
  apply with_phy_nd. by eapply with_phy_put.
Qed.

(** The link that a report announces *)
Lemma link_reported b : link_of b = if has b BMSR_LSTATUS then 1 else 0.
Proof. unfold link_of, has. by destruct (Z.land b BMSR_LSTATUS =? 0). Qed.

Lemma complete_bit b : 0 <= b -> (0 <? Z.land b BMSR_ANEGCOMPLETE) = has b BMSR_ANEGCOMPLETE /\
  (Z.land b BMSR_ANEGCOMPLETE <? 0) = false.
Proof.
  intros Hb. unfold has. assert (0 <= Z.land b BMSR_ANEGCOMPLETE) by (apply Z.land_nonneg; by left).
  split; [|by apply Z.ltb_ge]. destruct (Z.ltb_spec 0 (Z.land b BMSR_ANEGCOMPLETE)), (Z.eqb_spec (Z.land b BMSR_ANEGCOMPLETE) 0);
    (done || lia).
Qed.

(** The report and the link it stands for, once the status is read *)
Definition status_read (y : phy_device) (o : seen) (y' : phy_device) : Prop :=
  same_core y y' /\ negotiates y' = negotiates y /\ half_or_full y' /\ state y' = state y /\
  phy_lock y' = phy_lock y /\ link y' = if o.1 then 1 else 0.

Lemma wp_status_link {B} y o (k0 : Z -> drv D B) (k : bool -> drv D B) Q s :
  k0 0 = (link_is_up ≫= k) -> with_phy p s y -> usable y -> reports (phys_of s) (phy_addr y) o ->
  (forall s' y', with_phy p s' y' -> status_read y o y' -> nd s' = nd s ->
     phy_regs (phys_of s') (phy_addr y') MII_BMSR = bmsr_now (phys_of s) (phy_addr y) -> wp (k o.1) Q s') ->
  wp (on_phy phy_read_status ≫= k0) Q s.
Proof.
  intros E0 Hs Hy [Ho _] Hk. eapply wp_read_status; [exact Hs|done|].
  intros s1 y1 H1 (Hc & Ea & Hh & E1 & E4 & E2) Hf En. rewrite E0. cbn in E1, E2, E4, Ea.
  apply (wp_link_is_up y1 (bmsr_now (phys_of s) (phy_addr y))); [apply H1|done|]. rewrite Ho.
  assert (El : link y1 = if o.1 then 1 else 0) by (by rewrite E4, link_reported, Ho).
  apply (Hk s1 y1); [done| |done|].
  - split_and!; try done; [by unfold negotiates; rewrite Ea].
  - rewrite Hf. replace (phy_addr y1) with (phy_addr y) by (symmetry; apply Hc). by rewrite after_read_bmsr.
Qed.

(** The view that a case starts from *)
Ltac at_state Hst := unfold view; rewrite Hst.

(** A negotiation that took too long is started again, or given up. *)
Lemma an_late_done m y y3 s s3 r :
  0 <= r -> with_phy p s3 y3 -> phy_lock y3 = true -> same_core y y3 -> state y3 = PHY_AN ->
  nd s3 = nd s -> link y3 = 1 -> negotiates y3 = m && negotiates y ->
  case_done y (step m (mk_view PHY_AN (carrier_ok (nd s)) (link y) (negotiates y)) (Second (true, false))) s
    (true, r) s3.
Proof.
  intros Hr W3 L3 C3 S3 N3 K3 A3. split; [done|]. split; [by rewrite N3|]. exists y3.
  split; [done|]. split; [done|]. split; [done|]. cbn [fst]. split; [by rewrite S3|]. rewrite N3, K3, A3. constructor.
Qed.

Lemma case_an_run y o s :
  with_phy p s y -> phy_lock y = true -> usable y -> state y = PHY_AN -> reports (phys_of s) (phy_addr y) o ->
  wp case_an (case_done y (step (magic y) (view s y) (Second o)) s) s.
Proof.
  intros Hs Hl Hy Hst Ho. at_state Hst. unfold case_an. eapply wp_status_link; [reflexivity|exact Hs|done|exact Ho|].
  intros s1 y1 H1 (Hc & Ea & Hh & E1 & E2 & E4) En Er. destruct o as [[] done_b]; cbn [fst negb] in *.
  2: { apply (wp_carrier y1); [apply H1|].
       apply wp_bind, link_change_run; [done|congruence|done|done|by rewrite En|done|rewrite E4, Ea; constructor]. }
  apply (wp_get_phy_at y1); [apply H1|]. apply wp_bind.
  eapply wp_crun; [apply (aneg_done_run p y1); apply H1|]. intros e d (-> & Hd). rewrite Er.
  destruct (complete_bit (bmsr_now (phys_of s) (phy_addr y))) as [Eb1 Eb2]; [apply (mii_u16 (p := p) _ _ 0)|].
  destruct Ho as [_ Ho2]. cbn [snd] in Ho2. rewrite Eb1, Eb2, Ho2.
  assert (H2 : with_phy p (with_chip s1 d) y1) by (by apply with_phy_chip).
  assert (Hnon : 0 <= Z.land (bmsr_now (phys_of s) (phy_addr y)) BMSR_ANEGCOMPLETE) by (apply Z.land_nonneg; by right).
  destruct done_b.
  { apply (wp_running_link y1); [apply H1|].
    apply wp_bind, link_change_run; [done|congruence|done|done|by cbn; rewrite En|done|rewrite E4, Ea; constructor]. }
  apply (wp_upd_phy_at y1); [apply H1|]. set (y2 := set_link_timeout _ y1).
  assert (H3 : with_phy p (put (with_chip s1 d) y2) y2) by (by eapply with_phy_put).
  assert (Hst2 : state y2 = PHY_AN) by (cbn; congruence). assert (Hlk : phy_lock y2 = true) by (cbn; congruence).
  destruct (link_timeout y1 =? 0).
  2: { apply wp_ret. split; [done|]. split; [by cbn; rewrite En|]. exists y2. split; [done|]. split; [done|]. split; [done|].
       unfold view. cbn [fst]. rewrite Hst2. cbn. rewrite En, E4. change (negotiates y2) with (negotiates y1). rewrite Ea.
       split; [constructor|by unfold mode_ok; rewrite Hst2]. }
  assert (Edv : phy_drv y1 = phy_drv y) by apply Hc.
  assert (Em : magic y = magic y1) by (symmetry; by apply magic_same). destruct Hy as [[dv Hdv] _ _].
  unfold get_drv. rewrite Edv, Hdv. apply wp_bind, wp_ret.
  assert (Hm : magic y = has (drv_flags dv) PHY_HAS_MAGICANEG) by (unfold magic; by rewrite Hdv). rewrite <- Hm.
  destruct (magic y) eqn:Emag; cbn [andb].
  - apply wp_ret, (an_late_done true y y2); try done.
  - apply (wp_upd_phy_at y2); [done|]. set (y3 := set_autoneg _ _).
    destruct (take_frame (phy_find_valid 0 (supported y2)) y2) as (Hc3 & _ & F2 & F3 & F4).
    assert (Hc03 : same_core y y3).
    { unfold y3, same_core in *. cbn. cbn in Hc3. intuition congruence. }
    apply wp_ret, (an_late_done false y y3); try done.
    + eapply with_phy_put; [exact H3|]. apply Hc3.
    + exact (eq_trans F2 Hlk).
    + exact (eq_trans F3 Hst2).
    + exact (eq_trans F4 E4).
Qed.

Lemma case_nolink_run y o s :
  with_phy p s y -> phy_lock y = true -> usable y -> state y = PHY_NOLINK ->
  reports (phys_of s) (phy_addr y) o -> wp case_nolink (case_done y (step (magic y) (view s y) (Second o)) s) s.
Proof.
  intros Hs Hl Hy Hst Ho. at_state Hst. unfold case_nolink.
  eapply wp_status_link; [reflexivity|exact Hs|done|exact Ho|].
  intros s1 y1 H1 (Hc & Ea & Hh & E1 & E2 & E4) En _. apply wp_bind. destruct o as [[] b]; cbn [fst] in *.
  - apply (wp_running_link y1); [apply H1|].
    apply link_change_run; [done|congruence|done|done|by rewrite En|done|rewrite E4, Ea; constructor].
  - apply wp_ret, wp_ret. split; [done|]. split; [by rewrite En|]. exists y1. split; [done|]. split; [congruence|].
    split; [done|]. cbn. unfold view, mode_ok. rewrite En, E1, Hst, E4, Ea. split; [constructor|done].
Qed.

(** A forced mode: without a link the carrier is left alone, and after some seconds
    another mode is tried. *)
Lemma case_forcing_run y o s :
  with_phy p s y -> phy_lock y = true -> usable y -> state y = PHY_FORCING -> half_or_full y ->
  reports (phys_of s) (phy_addr y) o -> wp case_forcing (case_done y (step (magic y) (view s y) (Second o)) s) s.
Proof.
  intros Hs Hl Hy Hst Hh [Ho _]. at_state Hst. unfold case_forcing. apply (wp_on_phy_at y); [apply Hs|].
  eapply crun_mono; [apply (update_link_run p); apply Hs|]. intros r d (-> & Hd & _). cbn [fst snd Z.eqb negb].
  set (y1 := set_link _ y). assert (H1 : with_phy p (put (with_chip s d) y1) y1) by (eapply with_phy_put; [by apply with_phy_chip|done]).
  set (s1 := put (with_chip s d) y1) in *. assert (N1 : nd s1 = nd s) by done. clearbody s1.
  apply (wp_link_is_up y1 (bmsr_now (phys_of s) (phy_addr y))); [apply H1|done|].
  assert (El : link y1 = if o.1 then 1 else 0) by (unfold y1; cbn; by rewrite link_reported, Ho). rewrite Ho.
  assert (Hc1 : same_core y y1) by same_fields. destruct o as [[] b]; cbn [fst] in *.
  { apply wp_bind, wp_bind, (wp_upd_phy_at y1); [apply H1|]. apply (wp_bind smsc911x_phy_adjust_link _ _ (to_link y1 PHY_RUNNING 1 s1)).
    eapply wp_mono; [intros ? s2 H2; apply wp_ret, H2|].
    apply link_change_run; [done|done|done|done|by rewrite N1|done|rewrite El; constructor]. }
  apply wp_bind, (wp_get_phy_at y1); [apply H1|]. apply (wp_upd_phy_at y1); [apply H1|]. set (y2 := set_link_timeout _ y1).
  assert (H2 : with_phy p (put s1 y2) y2) by (by eapply with_phy_put).
  destruct (link_timeout y1 =? 0).
  - apply (wp_upd_phy_at y2); [done|]. set (y3 := phy_force_reduction y2). apply wp_ret, wp_bind.
    destruct (take_frame (phy_find_valid (S (phy_find_setting (speed y2) (duplex y2))) (supported y2)) y2)
      as (Hc3 & F1 & F2 & F3 & F4).
    assert (H3 : with_phy p (put (put s1 y2) y3) y3) by (eapply with_phy_put; [exact H2|apply Hc3]).
    eapply wp_mono; [|apply (adjust_link_run p _ y3); exact H3]. intros _ s4 (H4 & N4 & _). apply wp_ret.
    split; [done|]. split; [by rewrite N4; cbn; rewrite N1|]. exists y3. split; [done|]. split; [exact (eq_trans F2 Hl)|].
    split; [exact Hc3|]. cbn [fst]. split; [by rewrite (F3 : state y3 = state y2); cbn; rewrite Hst|].
    assert (Ea3 : negotiates y3 = negotiates y) by (unfold negotiates; by rewrite (F1 : autoneg y3 = autoneg y2)).
    rewrite Ea3, N4, (F4 : link y3 = link y2). cbn [nd put with_pd]. rewrite N1. change (link y2) with (link y1). rewrite El. constructor.
  - apply wp_ret, wp_bind. eapply wp_mono; [intros ? s3 H3; apply wp_ret, H3|].
    apply (told_run y y2); try done; [by left|by cbn; rewrite N1|].
    unfold view. cbn [nd put with_pd]. change (link y2) with (link y1). rewrite N1, El.
    change (state y2) with (state y). rewrite Hst. constructor.
Qed.

(** The interrupt of the PHY is acknowledged and unmasked, where its driver has one. *)
Lemma clear_interrupt_run y s :
  bus_free p s -> phy_at y -> is_Some (phy_drv y) ->
  crun (phy_clear_interrupt y) s (fun e d => e = 0 /\ settled p s d).
Proof.
  intros Hs Hy [dv Ed]. unfold phy_clear_interrupt, get_drv. rewrite Ed. apply crun_bind, crun_ret. rewrite with_chip_id.
  assert (Hack : crun (smsc_phy_ack_interrupt y) s (fun e d => e = 0 /\ settled p s d)).
  { unfold smsc_phy_ack_interrupt. apply crun_bind.
    eapply crun_mono; [by apply (phy_read_run p y)|]. cbn beta. intros v d (-> & Hd & _).
    rewrite (proj1 (regs_nonneg p _ _ _)). by apply crun_ret. }
  destruct dv; try exact Hack. apply crun_ret. split; [done|]. apply settled_refl, Hs.
Qed.

Lemma config_interrupt_run i y s :
  bus_free p s -> phy_at y -> is_Some (phy_drv y) ->
  crun (phy_config_interrupt i y) s (fun r d => r = (0, set_interrupts i y) /\ settled p s d).
Proof.
  intros Hs Hy [dv Ed]. unfold phy_config_interrupt, get_drv. cbv zeta. cbn [phy_drv set_interrupts]. rewrite Ed.
  apply crun_bind, crun_ret. rewrite with_chip_id. apply crun_bind.
  assert (Hcfg : crun (smsc_phy_config_intr (set_interrupts i y)) s (fun e d => e = 0 /\ settled p s d)).
  { unfold smsc_phy_config_intr. apply crun_bind.
    eapply crun_mono; [by apply (phy_write_run p (set_interrupts i y))|]. cbn beta. intros e d (-> & Hd & _). by apply crun_ret. }
  eapply crun_mono with (Q := fun e d => e = 0 /\ settled p s d); [|by intros e d [-> Hd]; apply crun_ret].
  destruct dv; try exact Hcfg. apply crun_ret. split; [done|]. apply settled_refl, Hs.
Qed.

(** A PHY with an interrupt line has its interrupt enabled again. *)
Lemma rearm_run y (R : link_view -> Prop) s0 s :
  is_Some (phy_drv y) -> case_done y R s0 (false, 0) s ->
  wp (y ← get_phy;
      if negb (irq (line y) =? PHY_POLL) then
        err ← on_phy (phy_config_interrupt PHY_INTERRUPT_ENABLED); mret (false, err)
      else mret (false, 0)) (case_done y R s0) s.
Proof.
  intros Hd Hdone. pose proof Hdone as (_ & Hr & y1 & H1 & Hl & Hc & HR & Hm).
  apply (wp_get_phy_at y1); [apply H1|]. destruct (negb _); [|by apply wp_ret].
  apply (wp_on_phy_at y1); [apply H1|].
  eapply crun_mono; [apply config_interrupt_run; [apply H1|apply H1|by rewrite (proj1 (proj2 Hc))]|].
  intros r d [-> Hset]. cbn [fst snd]. apply wp_ret. split; [done|]. split; [done|].
  exists (set_interrupts PHY_INTERRUPT_ENABLED y1).
  split; [eapply with_phy_put; [by apply with_phy_chip|done]|]. by split.
Qed.

Lemma case_changelink_run y o s :
  with_phy p s y -> phy_lock y = true -> usable y -> state y = PHY_CHANGELINK ->
  reports (phys_of s) (phy_addr y) o -> wp case_changelink (case_done y (step (magic y) (view s y) (Second o)) s) s.
Proof.
  intros Hs Hl Hy Hst Ho. at_state Hst. unfold case_changelink.
  pose proof (use_drv _ Hy) as Hd.
  eapply wp_status_link; [reflexivity|exact Hs|done|exact Ho|].
  intros s1 y1 H1 (Hc & Ea & Hh & E1 & E2 & E4) En _. destruct o as [[] b]; cbn [fst] in *.
  - apply (wp_running_link y1); [apply H1|]. apply wp_bind.
    eapply wp_mono; [intros ? s2 H2; apply rearm_run; [done|exact H2]|].
    apply link_change_run; [done|congruence|done|done|by rewrite En|done|rewrite E4, Ea; constructor].
  - apply wp_bind, (wp_upd_phy_at y1); [apply H1|].
    apply (wp_bind smsc911x_phy_adjust_link _ _ (to_link y1 PHY_NOLINK 0 s1)).
    eapply wp_mono; [intros ? s2 H2; apply rearm_run; [done|exact H2]|].
    apply link_change_run; [done|congruence|done|done|by rewrite En|done|rewrite E4, Ea; constructor].
Qed.

(** The link of a halted PHY is taken down once. *)
Lemma case_halted_run y o s :
  with_phy p s y -> phy_lock y = true -> state y = PHY_HALTED ->
  wp case_halted (case_done y (step (magic y) (view s y) (Second o)) s) s.
Proof.
  intros Hs Hl Hst. at_state Hst. unfold case_halted. apply wp_bind. unfold link_is_up.
  apply (wp_get_phy_at y); [apply Hs|]. apply wp_ret. destruct (Z.eqb_spec (link y) 0) as [El|El]; cbn [negb].
  - apply wp_bind, wp_ret, wp_ret. split; [done|]. split; [done|]. exists y. split; [done|]. split; [done|]. split; [done|].
    cbn. unfold view, mode_ok. rewrite Hst, El. split; [constructor|done].
  - apply wp_bind, (wp_upd_phy_at y); [apply Hs|]. apply wp_bind. unfold netif_carrier_off, wp at 1, upd_nd.
    eapply wp_mono; [|apply (told_run y (set_link 0 y) s _ (step (magic y) (mk_view PHY_HALTED (carrier_ok (nd s)) (link y) (negotiates y)) (Second o)) 0)];
      try done.
    + apply with_phy_nd. by eapply with_phy_put.
    + by right.
    + unfold view. cbn. rewrite Hst. by constructor.
Qed.

Lemma resume_link_run y y1 s0 s o c :
  with_phy p s y1 -> phy_lock y1 = true -> usable y1 -> same_core y y1 -> state y1 = PHY_RESUMING ->
  negotiates y1 = negotiates y -> nd s = nd s0 -> carrier_ok (nd s0) = c ->
  wp resume_link (case_done y (step (magic y) (mk_view PHY_RESUMING c (link y) (negotiates y)) (Second o)) s0) s.
Proof.
  intros Hs Hl Hy Hc Hst Eauto En Ecar. unfold resume_link.
  eapply (wp_status_link y1 (has (bmsr_now (phys_of s) (phy_addr y1)) BMSR_LSTATUS,
    has (bmsr_now (phys_of s) (phy_addr y1)) BMSR_ANEGCOMPLETE)); [reflexivity|exact Hs|done|done|].
  intros s2 y2 H2 (Hc2 & Ea2 & Hh & E1 & E2 & E4) En2 _. rewrite Eauto in Ea2. assert (Hcore : same_core y y2) by (by eapply same_core_trans).
  destruct (has _ BMSR_LSTATUS); cbn [fst] in *.
  - apply (wp_running_link y2); [apply H2|].
    apply wp_bind, link_change_run; [done|congruence|done|done|by rewrite En2, En|done|rewrite E4, Ea2; constructor].
  - apply (wp_upd_phy_at y2); [apply H2|]. apply wp_bind.
    apply (told_run y (set_state PHY_NOLINK y2)); try done.
    + by eapply with_phy_put.
    + cbn. congruence.
    + by left.
    + cbn. by rewrite En2, En.
    + unfold view. cbn. change (negotiates (set_state PHY_NOLINK y2)) with (negotiates y2). rewrite En2, En, Ecar, E4, Ea2. constructor.
Qed.

Lemma case_resuming_run y o s :
  with_phy p s y -> phy_lock y = true -> usable y -> state y = PHY_RESUMING ->
  wp case_resuming (case_done y (step (magic y) (view s y) (Second o)) s) s.
Proof.
  intros Hs Hl Hy Hst. at_state Hst. unfold case_resuming. pose proof Hy as [Hdrv _ _].
  apply (wp_get_phy_at y); [apply Hs|]. apply wp_bind.
  eapply wp_crun; [apply clear_interrupt_run; [apply Hs|apply Hs|done]|]. intros e d [-> Hd]. cbn [Z.eqb negb].
  assert (H1 : with_phy p (with_chip s d) y) by (by apply with_phy_chip).
  apply (wp_on_phy_at y); [apply H1|].
  eapply crun_mono; [apply config_interrupt_run; [apply H1|apply H1|done]|]. intros r d1 [-> Hd1]. cbn [fst snd Z.eqb negb].
  set (y1 := set_interrupts _ y).
  assert (H2 : with_phy p (put (with_chip (with_chip s d) d1) y1) y1) by (eapply with_phy_put; [by apply with_phy_chip|done]).
  assert (Hy1 : usable y1) by (by apply (usable_same y)).
  apply (wp_get_phy_at y1); [done|]. fold (negotiates y1). change (negotiates y1) with (negotiates y).
  destruct (negotiates y) eqn:Ea.
  2: { rewrite <- Ea. by apply (resume_link_run y y1). }
  apply wp_bind. eapply wp_crun; [apply (aneg_done_run p y1); apply H2|]. intros e d2 (-> & Hd2).
  set (b := phy_regs _ _ _). destruct (complete_bit b) as [Eb1 Eb2]; [apply (mii_u16 (p := p))|].
  rewrite Eb1, Eb2. eapply with_phy_chip in H2; [|exact Hd2]. destruct (has b _).
  { rewrite <- Ea. by apply (resume_link_run y y1). }
  apply (wp_upd_phy_at y1); [done|]. apply wp_ret. split; [cbn; apply Z.land_nonneg; by right|]. split; [done|].
  eexists. split; [by eapply with_phy_put|]. split; [done|]. split; [done|]. split; [|done].
  unfold view. cbn. change (negotiates (set_link_timeout _ _)) with (negotiates y). rewrite Ea. constructor.
Qed.

(** *** The operations *)

Lemma state_case_run y o s :
  with_phy p s y -> phy_lock y = true -> usable y -> reports (phys_of s) (phy_addr y) o ->
  (state y = PHY_FORCING -> half_or_full y) ->
  (state y = PHY_RUNNING -> irq (line y) = PHY_POLL /\ mode_ok s y) ->
  wp (state_case (state y)) (case_done y (step (magic y) (view s y) (Second o)) s) s.
Proof.
  intros Hs Hl Hy Ho Hforce Hrun.
  assert (Hidle : forall v, state y = v -> v = PHY_DOWN \/ v = PHY_STARTING \/ v = PHY_READY \/ v = PHY_PENDING ->
    case_done y (step (magic y) (view s y) (Second o)) s (false, 0) s).
  { intros v Hst Hv. split; [done|]. split; [done|]. exists y. split; [done|]. split; [done|]. split; [done|].
    split; [at_state Hst; by constructor|]. apply mode_idle; rewrite Hst; intros ->; by intuition. }
  destruct (state y) eqn:Hst; cbn [state_case].
  1-4: apply wp_ret, (Hidle _ eq_refl); tauto.
  - apply (wp_upd_phy_at y); [apply Hs|]. apply wp_ret. split; [done|]. split; [done|].
    exists (set_link_timeout PHY_AN_TIMEOUT y). split; [by eapply with_phy_put|]. split; [done|]. split; [done|].
    cbn. rewrite Hst. at_state Hst. split; [done|constructor].
  - by apply case_an_run.
  - destruct (Hrun eq_refl) as [Hirq Hok].
    apply (wp_upd_phy_at y); [apply Hs|]. rewrite Hirq. apply wp_ret. split; [done|]. split; [done|].
    exists (set_state PHY_CHANGELINK y). split; [by eapply with_phy_put|]. split; [done|]. split; [done|].
    split; [at_state Hst; constructor|]. unfold mode_ok in Hok |- *. by rewrite Hst in Hok.
  - by apply case_nolink_run.
  - by apply case_forcing_run; [..|apply Hforce|].
  - by apply case_changelink_run.
  - by apply case_halted_run.
  - by apply case_resuming_run.
Qed.

(** What an operation promises: the invariant again, and a step of the abstract machine *)
Definition op_done (y : phy_device) s (ev : event) s' : Prop :=
  running (nd s') = running (nd s) /\
  exists y', polled s' y' /\ same_core y y' /\ step (magic y) (view s y) ev (view s' y').

(** A run of the machine, from what its case does *)
Lemma machine_case_run (R : link_view -> Prop) y s (y1 := set_phy_lock true y) :
  with_phy p s y -> phy_lock y = false -> usable y ->
  wp (state_case (state y)) (case_done y1 R (put s y1)) (put s y1) ->
  wp phy_state_machine (fun _ s' => running (nd s') = running (nd s) /\
    exists y', with_phy p s' y' /\ phy_lock y' = false /\ same_core y y' /\ R (view s' y') /\ mode_ok s' y') s.
Proof.
  intros Hs Hl Hy Hcase. unfold phy_state_machine. apply (wp_lock_phy y); [apply Hs|done|].
  apply (wp_get_phy_at y1); [done|]. apply wp_bind. eapply wp_mono; [|exact Hcase].
  intros [na r] s1 (Hr & Hrun & y2 & H2 & Hl2 & Hc2 & Hst2). cbn [fst snd] in *.
  apply (wp_unlock_phy y2); [apply H2|done|]. set (y3 := set_phy_lock false y2).
  assert (H3 : with_phy p (put s1 y3) y3) by (by eapply with_phy_put).
  assert (Hy3 : usable y3) by (by eapply (usable_same y)).
  apply wp_bind. destruct na; destruct Hst2 as [Ev Hst2].
  - eapply wp_mono; [|apply (start_aneg_run y3); done].
    intros e s' (y' & He & En & H' & Hl' & Hc' & Ea' & Elk & Hst' & Hm). rewrite (proj2 (Z.ltb_ge e 0)) by done. apply wp_ret.
    split; [by rewrite En|]. exists y'. split; [done|]. split; [done|]. split; [by eapply same_core_trans|]. split; [|done].
    rewrite bool_decide_eq_false_2 in Hst' by done. unfold view. rewrite Hst', En, Elk.
    assert (Ea : negotiates y' = negotiates y2) by (unfold negotiates; by rewrite Ea'). by rewrite Ea.
  - apply wp_ret. rewrite (proj2 (Z.ltb_ge r 0)) by done. apply wp_ret. split; [done|]. by exists y3.
Qed.

Lemma machine_run y o s :
  polled s y -> reports (phys_of s) (phy_addr y) o -> wp phy_state_machine (fun _ => op_done y s (Second o)) s.
Proof.
  intros [Hs Hl Hy Hat Hirq Hok] Ho. set (y1 := set_phy_lock true y).
  eapply wp_mono; [|apply (machine_case_run (step (magic y) (view s y) (Second o)) y); [done..|]].
  - intros _ s' (Hrun & y' & H' & Hl' & Hc' & HR & Hm). split; [done|]. exists y'. split; [|by split].
    split; [done|done|by eapply usable_same|rewrite <- Hat; apply Hc'|by eapply core_irq|done].
  - apply (state_case_run y1 o); [by eapply with_phy_put|done|by apply (usable_same y)|exact Ho| |].
    + intros E. unfold mode_ok in Hok. cbn in E. by rewrite E in Hok.
    + intros _. by split.
Qed.

(** What stopping the machine, and powering the PHY down or up, leave alone *)
Definition same_use (y y' : phy_device) : Prop :=
  same_core y y' /\ phy_lock y' = false /\ autoneg y' = autoneg y /\ link y' = link y /\ duplex y' = duplex y.

(** [phy_start], [phy_stop] and [phy_stop_machine] only change the state, under the lock. *)
Lemma locked_update_run f v y s :
  with_phy p s y -> phy_lock y = false ->
  (forall y1, y1 = set_phy_lock true y ->
     phy_lock (f y1) = true /\ same_use y (set_phy_lock false (f y1)) /\ state (f y1) = v) ->
  wp (_ ← lock_phy; _ ← upd_phy f; unlock_phy) (fun _ s' => nd s' = nd s /\ last_duplex (pd s') = last_duplex (pd s) /\
    exists y', with_phy p s' y' /\ same_use y y' /\ state y' = v) s.
Proof.
  intros Hs Hl Hf. apply (wp_lock_phy y); [apply Hs|done|]. destruct (Hf _ eq_refl) as (Hk & Hu & Hst).
  set (y1 := set_phy_lock true y) in *. apply (wp_upd_phy_at y1); [done|]. revert Hk Hu Hst. generalize (f y1).
  intros y2 Hk Hu Hst. unfold unlock_phy.
  apply (wp_get_phy_at y2); [done|]. rewrite Hk. unfold upd_phy. apply (wp_get_phy_at y2); [done|].
  split; [done|]. split; [done|]. exists (set_phy_lock false y2). split; [|by split].
  eapply (with_phy_put p (put (put s y1) y2) y2); [|done].
  eapply with_phy_put; [by eapply with_phy_put|]. apply Hu.
Qed.

(** [genphy_suspend] and [genphy_resume] *)
Lemma power_run (f : Z -> Z) y s :
  with_phy p s y -> phy_lock y = false ->
  wp (_ ← lock_phy; y ← get_phy; value ← phy_read y MII_BMCR; _ ← phy_write y MII_BMCR (f value);
      _ ← unlock_phy; mret 0)
    (fun r s' => r = 0 /\ nd s' = nd s /\ exists y', with_phy p s' y' /\ same_use y y' /\ state y' = state y) s.
Proof.
  intros Hs Hl. apply (wp_lock_phy y); [apply Hs|done|]. set (y1 := set_phy_lock true y).
  assert (H1 : with_phy p (put s y1) y1) by (by eapply with_phy_put).
  apply (wp_get_phy_at y1); [done|]. apply wp_bind.
  eapply wp_crun; [apply (phy_read_run p y1); [apply H1|apply H1|done]|]. intros v d (_ & Hd & _).
  assert (H2 : with_phy p (with_chip (put s y1) d) y1) by (by apply with_phy_chip). apply wp_bind.
  eapply wp_crun; [apply (phy_write_run p y1); [apply H2|apply H2|done]|]. intros e d' (_ & Hd' & _).
  eapply with_phy_chip in H2; [|exact Hd']. apply (wp_unlock_phy y1); [apply H2|done|]. apply wp_ret.
  split; [done|]. split; [done|]. exists (set_phy_lock false y1). split; [by eapply with_phy_put|]. by split.
Qed.

Lemma may_suspend_run wakeup (m : drv D Z) y s Q :
  (wp (mret 0) Q s) -> wp m Q s -> wp (if negb (mdio_bus_phy_may_suspend wakeup y) then mret 0 else m) Q s.
Proof. intros H1 H2. by destruct (negb _). Qed.

(** A system that sleeps and wakes up *)
Definition sleep_and_wake (wakeup : bool) : drv D Z := _ ← mdio_bus_suspend wakeup; mdio_bus_resume wakeup.

Lemma same_use_trans y1 y2 y3 : same_use y1 y2 -> same_use y2 y3 -> same_use y1 y3.
Proof. intros (H1 & _ & E1) (H2 & Hl & E2). split; [by eapply same_core_trans|]. split; [done|intuition congruence]. Qed.

Lemma sleep_run wakeup y s :
  with_phy p s y -> phy_lock y = false -> attached y = true ->
  wp (sleep_and_wake wakeup) (fun _ s' => nd s' = nd s /\
    exists y', with_phy p s' y' /\ same_use y y' /\ state y' = slept (state y)) s.
Proof.
  intros Hs Hl Hat. unfold sleep_and_wake. apply wp_bind. unfold mdio_bus_suspend.
  apply (wp_get_phy_at y); [apply Hs|]. rewrite Hat. apply wp_bind. eapply wp_mono; [|apply (locked_update_run _ (slept (state y)) y)]; try done.
  2: { intros y1 ->. cbn [state set_phy_lock]. unfold slept. by case_match. }
  intros _ s1 (E1 & _ & y1 & H1 & Hu1 & Hst1).
  apply (wp_get_phy_at y1); [apply H1|].
  assert (Hresume : forall y2 s2, with_phy p s2 y2 -> same_use y y2 -> state y2 = slept (state y) -> nd s2 = nd s ->
    wp (mdio_bus_resume wakeup) (fun _ s' => nd s' = nd s /\
      exists y', with_phy p s' y' /\ same_use y y' /\ state y' = slept (state y)) s2).
  { intros y2 s2 H2 Hu2 Hst2 E2. unfold mdio_bus_resume. apply (wp_get_phy_at y2); [apply H2|].
    apply may_suspend_run; [apply wp_ret; split; [done|]; by exists y2|].
    eapply wp_mono; [|apply power_run; [exact H2|apply Hu2]]. intros _ s3 (_ & E3 & y3 & H3 & Hu3 & Hst3).
    split; [congruence|]. exists y3. split; [done|]. split; [by eapply same_use_trans|congruence]. }
  apply may_suspend_run; [apply wp_ret; by eapply Hresume|].
  eapply wp_mono; [|apply power_run; [exact H1|apply Hu1]]. intros _ s2 (_ & E2 & y2 & H2 & Hu2 & Hst2).
  eapply (Hresume y2); [done|by eapply same_use_trans|congruence|congruence].
Qed.

(** An operation that only changes the state of the PHY *)
Lemma op_done_state y s s' y' v ev :
  polled s y -> nd s' = nd s -> with_phy p s' y' -> same_use y y' -> state y' = v -> mode_ok s' y' ->
  step (magic y) (view s y) ev (mk_view v (carrier_ok (nd s)) (link y) (negotiates y)) -> op_done y s ev s'.
Proof.
  intros [Hs Hl Hy Hat Hirq Hok] En H' (Hc & Hl' & Ea & Elk & _) Hst Hm HR. split; [by rewrite En|].
  exists y'. split; [|split; [done|]].
  - split; [done|done|by eapply usable_same|rewrite <- Hat; apply Hc|by eapply core_irq|done].
  - unfold view at 2, negotiates. by rewrite Hst, En, Elk, Ea.
Qed.

Lemma start_run y s : polled s y -> wp phy_start (fun _ => op_done y s Started) s.
Proof.
  intros Hp. pose proof Hp as [Hs Hl _ _ _ Hok]. unfold phy_start.
  eapply wp_mono; [|apply (locked_update_run _ (started (state y)) y); [done|done|]].
  - intros _ s' (En & Ed & y' & H' & Hu & Hst). eapply op_done_state; try done; [|constructor].
    destruct Hu as (_ & _ & _ & _ & Edx). unfold mode_ok, half_or_full in *. rewrite Hst, Ed, Edx. by destruct (state y).
  - intros y1 ->. cbn [state set_phy_lock]. by destruct (state y) eqn:E.
Qed.

Lemma stop_run y s : polled s y -> wp phy_stop (fun _ => op_done y s Stopped) s.
Proof.
  intros Hp. pose proof Hp as [Hs Hl _ _ Hirq _]. unfold phy_stop. apply (wp_lock_phy y); [apply Hs|done|].
  set (y1 := set_phy_lock true y). assert (H1 : with_phy p (put s y1) y1) by (by eapply with_phy_put).
  assert (Hend : forall s2 y2, with_phy p s2 y2 -> nd s2 = nd s -> state y2 = PHY_HALTED -> phy_lock y2 = true ->
    same_use y (set_phy_lock false y2) -> wp unlock_phy (fun _ => op_done y s Stopped) s2).
  { intros s2 y2 H2 En Hst Hl2 Hu. apply (wp_unlock_last y2); [apply H2|done|].
    eapply (op_done_state y s _ (set_phy_lock false y2)); try done; [by eapply with_phy_put|by unfold mode_ok; cbn; rewrite Hst|constructor]. }
  apply (wp_get_phy_at y1); [done|]. case_bool_decide as Hst; apply wp_bind.
  { apply wp_ret. by apply (Hend _ y1). }
  change (line y1) with (line y). rewrite Hirq. apply wp_bind, wp_ret. unfold upd_phy. apply (wp_get_phy_at y1); [done|].
  apply (Hend (put (put s y1) (set_state PHY_HALTED y1)) (set_state PHY_HALTED y1)); try done. by eapply with_phy_put.
Qed.

Lemma wake_run wakeup y s : polled s y -> wp (sleep_and_wake wakeup) (fun _ => op_done y s Slept) s.
Proof.
  intros Hp. pose proof Hp as [Hs Hl _ Hat _ Hok]. eapply wp_mono; [|by apply (sleep_run wakeup y)].
  intros _ s' (En & y' & H' & Hu & Hst). eapply op_done_state; try done; [|constructor].
  unfold mode_ok in *. rewrite Hst. by destruct (state y).
Qed.

(** *** Sequences of operations *)

(** What is done with the PHY of an interface.  In [APoll e] a second passes, in which
    the link partner and the PHY do [e], and the state machine runs. *)
Inductive act : Type :=
  | APoll (e : D -> D)
  | AStart
  | AStop
  | ASleep (wakeup : bool).

Definition do_act (a : act) : drv D unit :=
  match a with
  | APoll e => _ ← lib (fun d => (tt, e d)); phy_state_machine
  | AStart => phy_start
  | AStop => phy_stop
  | ASleep wakeup => _ ← sleep_and_wake wakeup; mret tt
  end.

Fixpoint acts (l : list act) : drv D unit :=
  match l with
  | [] => mret tt
  | a :: l => _ ← do_act a; acts l
  end.

(** The second [e] leaves the bus and the MAC alone, and afterwards the PHY reports [o]. *)
Definition second (a : Z) (e : D -> D) (o : seen) : Prop :=
  forall d, mii_idle p d -> mii_idle p (e d) /\ mac_same p d (e d) /\ reports (mii_phys (mii (e d))) a o.

(** The event that an operation is *)
Inductive performs (addr : Z) : act -> event -> Prop :=
  | performs_poll e o : second addr e o -> performs addr (APoll e) (Second o)
  | performs_start : performs addr AStart Started
  | performs_stop : performs addr AStop Stopped
  | performs_sleep w : performs addr (ASleep w) Slept.

Lemma act_run a ev y s :
  polled s y -> performs (phy_addr y) a ev -> wp (do_act a) (fun _ => op_done y s ev) s.
Proof.
  intros Hp Ha. inversion Ha as [e o He| | |w]; subst; cbn [do_act]; [|by apply start_run|by apply stop_run|].
  - apply wp_bind. cbn. destruct (He (chip s)) as (Hi & Hm & Ho); [apply Hp|].
    assert (Hp' : polled (with_chip s (e (chip s))) y).
    { destruct Hp as [H1 H2 H3 H4 H5 H6]. split; [by apply with_phy_chip|done..]. }
    exact (machine_run y o _ Hp' Ho).
  - apply wp_bind. eapply wp_mono; [|by apply wake_run]. intros ? s' H'. exact H'.
Qed.

Lemma acts_run l evs y s :
  polled s y -> Forall2 (performs (phy_addr y)) l evs ->
  wp (acts l) (fun _ s' => running (nd s') = running (nd s) /\
    exists y', polled s' y' /\ same_core y y' /\ steps (magic y) (view s y) evs (view s' y')) s.
Proof.
  intros Hp Hl. remember (phy_addr y) as addr eqn:Ea. revert y s Ea Hp.
  induction Hl as [|a ev l evs Ha Hl IH]; intros y s -> Hp; cbn [acts].
  { apply wp_ret. split; [done|]. exists y. split; [done|]. split; [done|constructor]. }
  apply wp_bind. eapply wp_mono; [|by apply act_run].
  intros _ s1 (Hn & y1 & Hp1 & Hc1 & Hst1).
  eapply wp_mono; [|apply (IH y1 s1); [symmetry; apply Hc1|done]].
  intros _ s2 (Hn2 & y2 & Hp2 & Hc2 & Hst2). split; [by rewrite Hn2|].
  exists y2. split; [done|]. split; [by eapply same_core_trans|]. rewrite (magic_same _ _ Hc1) in Hst2. by econstructor.
Qed.

(** ** What the machine promises *)

Definition with_link (v : phy_state) : Prop := v = PHY_RUNNING \/ v = PHY_CHANGELINK.

(** C8: refinement of the PHY state machine by its transition relation.  On a chip that
    keeps the protocols of the MAC and MII registers, take an attached PHY that the library
    polls, without gigabit modes, with any of the drivers, whether it negotiates or has a
    mode forced on it; no lock is held and the bus is idle, and in the states with a link
    the driver has told the MAC the mode of the PHY, half or full duplex.  Poll the PHY
    once a second, start and stop it and put the system to sleep, in any order, while the
    link partner and the PHY do what they do in between: every operation returns, and the
    state of the PHY, the carrier, the link and the choice to negotiate go through a run of
    the abstract machine [step] over the status bits the PHY reported.  The PHY lock is
    released, and in the states with a link the bit [MAC_CR_FDPX_] of the MAC is the duplex
    mode of the PHY. *)
Theorem state_machine_refines l evs y s :
  polled s y -> Forall2 (performs (phy_addr y)) l evs ->
  exists s' y', acts l s = Ret tt s' /\ phy_dev (pd s') = Some y' /\
    steps (magic y) (view s y) evs (view s' y') /\
    (with_link (state y') -> half_or_full y' /\ mac_duplex p (chip s') = (duplex y' =? DUPLEX_FULL)) /\
    phy_lock y' = false /\ running (nd s') = running (nd s).
Proof.
  intros Hp He. pose proof (acts_run l evs y s Hp He) as H. apply wp_run in H.
  destruct H as ([] & s' & E & Hn & y' & [H1 H2 H3 H4 _ H5] & _ & Hst). exists s', y'. split_and!; try done; [apply H1|].
  by apply mode_mac.
Qed.

(** *** The carrier *)

(** The states of a PHY that follows the link; a PHY that is attached and was started
    once is in such a state or halted. *)
Definition live (v : phy_state) : bool :=
  match v with
  | PHY_UP | PHY_AN | PHY_NOLINK | PHY_FORCING | PHY_RUNNING | PHY_CHANGELINK | PHY_RESUMING => true
  | _ => false
  end.

Definition in_use (v : phy_state) : Prop := live v = true \/ v = PHY_HALTED.

(** Whether the PHY follows the link after an event.  Sleep starts a halted PHY. *)
Definition follows (b : bool) (ev : event) : bool :=
  match ev with Second _ => b | Started | Slept => true | Stopped => false end.

Lemma restarted_live a : live (restarted a) = true.
Proof. by destruct a. Qed.

Lemma step_live m x ev y :
  step m x ev y -> in_use (v_state x) ->
  in_use (v_state y) /\ live (v_state y) = follows (live (v_state x)) ev.
Proof.
  unfold in_use, slept, started.
  destruct 1; cbn; rewrite ?restarted_live; intros Hx; try (by intuition); destruct v; cbn in *; by intuition.
Qed.

Lemma steps_live m x evs y :
  steps m x evs y -> in_use (v_state x) -> in_use (v_state y) /\ live (v_state y) = fold_left follows evs (live (v_state x)).
Proof.
  induction 1 as [|x ev y evs z H1 H2 IH]; intros Hx; [done|]. destruct (step_live _ _ _ _ H1 Hx) as [Hy E].
  cbn. rewrite <- E. by apply IH.
Qed.

(** With a link there is a carrier. *)
Definition link_carrier (x : link_view) : Prop := with_link (v_state x) -> v_carrier x = 1.

Lemma step_link_carrier m x ev y : step m x ev y -> link_carrier x -> link_carrier y.
Proof.
  unfold link_carrier, with_link.
  destruct 1; cbn; try (by intuition); [destruct a|destruct a'|destruct a|destruct v..]; cbn; by intuition.
Qed.

(** There is no carrier without one, in the states that do not take it off.  [r]: the
    driver repeats every negotiation, so that no mode is ever forced; otherwise a
    negotiation may end in such a state. *)
Definition carrier_agrees (r : bool) (x : link_view) : Prop :=
  (r = true -> v_auto x = true) /\
  match v_state x with
  | PHY_NOLINK | PHY_FORCING => v_carrier x = 0
  | PHY_UP | PHY_AN => r = true \/ v_carrier x = 0
  | PHY_RESUMING => False
  | _ => True
  end.

(** Events that keep this so *)
Definition calm (r : bool) (ev : event) : Prop := ev <> Started /\ (ev = Slept -> r = true).

Definition repeats (y : phy_device) : bool := magic y && negotiates y.

Lemma step_carrier m r x ev y :
  step m x ev y -> (r = true -> m = true) -> calm r ev -> carrier_agrees r x -> carrier_agrees r y.
Proof.
  unfold carrier_agrees, calm.
  destruct 1; cbn; intros Hm [Hev Hsl] [Ha Hx]; try (by intuition).
  - destruct a; cbn; [done|]. split; [done|]. destruct Hx as [Hr|Hx]; [|done]. by specialize (Ha Hr).
  - destruct r; [unfold a'; rewrite (Hm eq_refl), (Ha eq_refl); cbn; by split; [|left]|].
    destruct Hx as [Hx|Hx]; [done|]. split; [done|]. destruct a'; cbn; tauto.
  - destruct a; cbn; tauto.
  - specialize (Hsl eq_refl). split; [done|]. destruct v; cbn in *; tauto.
Qed.

(** Two seconds with the same report decide. *)
Lemma steps_twice m x ev z : steps m x [ev; ev] z -> exists y, step m x ev y /\ step m y ev z.
Proof.
  inversion 1 as [|? ? y ? ? H1 H2]; subst. inversion H2 as [|? ? z' ? ? H3 H4]; subst. inversion H4; subst. by exists y.
Qed.

(** The second of two such seconds *)
Lemma step_settled_up m x z :
  step m x (Second (true, true)) z -> live (v_state z) = true -> link_carrier x ->
  v_state x <> PHY_UP -> v_state x <> PHY_RESUMING -> with_link (v_state z) /\ v_carrier z = 1.
Proof.
  unfold link_carrier, with_link. inversion 1; subst; cbn; auto; intuition (subst; done).
Qed.

Lemma step_leaves m x o y : step m x (Second o) y -> v_state y <> PHY_UP /\ v_state y <> PHY_RESUMING.
Proof.
  inversion 1; subst; cbn; try done; [by destruct a|by destruct (m && a)|by destruct a|by intuition subst].
Qed.

Lemma steps_up m x z :
  steps m x [Second (true, true); Second (true, true)] z -> live (v_state z) = true -> link_carrier x ->
  with_link (v_state z) /\ v_carrier z = 1.
Proof.
  intros H Hl Hx. destruct (steps_twice _ _ _ _ H) as (y & H1 & H2). destruct (step_leaves _ _ _ _ H1).
  apply (step_settled_up m y); try done. by apply (step_link_carrier _ _ _ _ H1).
Qed.

Lemma step_settled_down m r b x z :
  step m x (Second (false, b)) z -> live (v_state z) = true -> carrier_agrees r x -> v_state x <> PHY_UP ->
  v_state x <> PHY_RUNNING -> v_carrier z = 0.
Proof.
  unfold carrier_agrees. inversion 1; subst; cbn; intros; intuition (subst; done).
Qed.

Lemma steps_down m r b x z :
  steps m x [Second (false, b); Second (false, b)] z -> (r = true -> m = true) -> live (v_state z) = true ->
  carrier_agrees r x -> v_carrier z = 0.
Proof.
  intros H Hm Hl Hx. destruct (steps_twice _ _ _ _ H) as (y & H1 & H2). clear H.
  assert (Hy : carrier_agrees r y) by (by apply (step_carrier m r x (Second (false, b)))).
  apply (step_settled_down m r b y); [done..|by destruct (step_leaves _ _ _ _ H1)|].
  intros E. inversion H1; subst; cbn in *; try done; [by destruct a..|by destruct Hx|by intuition subst].
Qed.

(** After any history that leaves the PHY following the link *)
Lemma carrier_settles m r x evs o z :
  steps m x (evs ++ [Second o; Second o]) z -> in_use (v_state x) -> link_carrier x ->
  fold_left follows evs (live (v_state x)) = true ->
  (o = (true, true) -> with_link (v_state z) /\ v_carrier z = 1) /\
  (o.1 = false -> (r = true -> m = true) -> carrier_agrees r x -> Forall (calm r) evs -> v_carrier z = 0).
Proof.
  intros H Hu Hc Hf. destruct (steps_live _ _ _ _ H Hu) as [_ Hl]. rewrite fold_left_app, Hf in Hl. cbn in Hl.
  destruct (steps_app _ _ _ _ _ H) as (y & H1 & H2). split.
  - intros ->. apply (steps_up m y); [done|done|].
    eapply (steps_inv m link_carrier (fun _ => True)); [|exact H1|by apply Forall_true|done].
    intros ? ? ? Hs _. by apply (step_link_carrier _ _ _ _ Hs).
  - destruct o as [up b]. cbn. intros -> Hm Ha Hn. apply (steps_down m r b y); [done|done|done|].
    eapply (steps_inv m (carrier_agrees r)); [|exact H1|exact Hn|done]. intros x' ev y' Hs Hev. by apply (step_carrier m r x' ev).
Qed.

(** C9: the carrier follows the link, for a PHY and a chip as in [state_machine_refines].
    Start with a PHY that was started once, with the carrier on where its state has a link.
    After any sequence of seconds, starts, stops and sleeps that leaves the PHY started,
    once the PHY reports for two seconds a link with the negotiation complete, the carrier
    is on and the duplex bit of the MAC is the duplex mode of the PHY.  Once it reports no
    link for two seconds, the carrier is off, under two conditions ([carrier_agrees],
    [calm]).  At the beginning the PHY is not being resumed, and the carrier is off in
    [PHY_NOLINK] and [PHY_FORCING], and in [PHY_UP] and [PHY_AN] unless the PHY negotiates
    with a driver that has [PHY_HAS_MAGICANEG]; and on the way [phy_start] is not called,
    nor does the system sleep, unless it is such a driver.  Without these conditions the
    carrier can stay on, as [resume_keeps_carrier] and [forcing_keeps_carrier] show. *)
Theorem carrier_follows_link l evs o y s :
  polled s y -> in_use (state y) -> link_carrier (view s y) ->
  Forall2 (performs (phy_addr y)) l (evs ++ [Second o; Second o]) ->
  fold_left follows evs (live (state y)) = true ->
  exists s' y', acts l s = Ret tt s' /\ phy_dev (pd s') = Some y' /\
    (o = (true, true) -> carrier_ok (nd s') = 1 /\ mac_duplex p (chip s') = (duplex y' =? DUPLEX_FULL)) /\
    (o.1 = false -> carrier_agrees (repeats y) (view s y) -> Forall (calm (repeats y)) evs -> carrier_ok (nd s') = 0).
Proof.
  intros Hp Hu Hlc He Hf. pose proof (acts_run l _ y s Hp He) as H. apply wp_run in H.
  destruct H as ([] & s' & E & _ & y' & [H1 H2 H3 H4 _ H5] & _ & Hst). exists s', y'.
  split; [done|]. split; [apply H1|].
  destruct (carrier_settles _ (repeats y) _ _ _ _ Hst Hu Hlc Hf) as [Hup Hdown]. split.
  - intros Ho. destruct (Hup Ho) as [Hv Hc]. split; [exact Hc|]. by apply (mode_mac s' y').
  - intros Ho. apply (Hdown Ho). unfold repeats. by destruct (magic y).
Qed.

(** C35: a system that sleeps with the interface closed wakes up with the PHY started.
    [mdio_bus_suspend] stops the state machine of the halted PHY with
    [phy_stop_machine], which makes every state after [PHY_UP] that state again; so the
    machine negotiates after the resume and, with a link partner, turns the carrier on
    while the interface is still down. *)
Theorem suspend_starts_closed_phy wakeup l (os : list seen) y s :
  polled s y -> state y = PHY_HALTED -> running (nd s) = false ->
  Forall2 (performs (phy_addr y)) l (map Second os ++ [Second (true, true); Second (true, true)]) ->
  exists s', acts (ASleep wakeup :: l) s = Ret tt s' /\ running (nd s') = false /\ carrier_ok (nd s') = 1.
Proof.
  intros Hp Hst Hrun He.
  assert (H : Forall2 (performs (phy_addr y)) (ASleep wakeup :: l)
    ((Slept :: map Second os) ++ [Second (true, true); Second (true, true)])) by (constructor; [constructor|exact He]).
  apply (acts_run _ _ y s Hp), wp_run in H. destruct H as ([] & s' & E & Hn & y' & _ & _ & Hs).
  exists s'. split; [done|]. split; [by rewrite Hn|].
  apply (carrier_settles _ false _ _ _ _ Hs); [by right|unfold link_carrier; cbn; rewrite Hst; by intros []| |done].
  cbn. clear. by induction os.
Qed.

End Machine.

(** ** On a concrete chip *)

#[local] Existing Instance mii_demo_chip.
#[local] Existing Instance mii_demo_mac.
#[local] Existing Instance mii_demo_protocol.

(** The interface was just brought up, and the MAC not yet told of a duplex mode. *)
Definition link_phy : phy_device := set_state PHY_UP demo_phy.

(** The link partner of the PHY at address 1 takes all modes of 10 and 100 Mb/s. *)
Definition link_regs (a r : Z) : Z :=
  if r =? MII_BMSR then 0x7809 else if r =? MII_LPA then 0x45e1 else if r =? MII_ADVERTISE then 0x05e1 else 0.

Definition link_chip : mii_demo := mk_mii_demo (fun _ => 0) 0 0 0 0 link_regs.

Definition link_state : dstate mii_demo :=
  mk_dstate link_chip (set_phy_dev (Some link_phy) (set_mac_lock false demo_bus)) (set_running true demo_netdev) 0 [].

(** A second after which the status register is [b] *)
Definition bmsr_becomes (b : Z) (d : mii_demo) : mii_demo :=
  mk_mii_demo (md_regs d) (md_csr d) (md_busy d) (md_left d) (md_data d)
    (fun a r => if r =? MII_BMSR then b else md_phys d a r).

Lemma link_state_polled : polled demo_bus link_state link_phy.
Proof.
  split; [|done| |done|done|done].
  - split; [split; [split; [split; [done|by left]|done]|done|done]|done|by split|done].
  - split; [by exists lan911x_int_driver|by left|done].
Qed.

Lemma bmsr_second b o : reports (mk_phys (fun _ _ => 0) (fun _ => u16 b)) 0 o -> second demo_bus 1 (bmsr_becomes b) o.
Proof. intros Ho d Hd. by split; [|split]. Qed.

(** No cable, then a link whose negotiation takes a second *)
Definition cable_in : list (act (D := mii_demo)) :=
  [APoll (bmsr_becomes 0x7809); APoll (bmsr_becomes 0x7809); APoll (bmsr_becomes 0x780d);
   APoll (bmsr_becomes 0x782d); APoll (bmsr_becomes 0x782d)].

Definition cable_seen : list seen := [(false, false); (false, false); (true, false)].

Lemma cable_in_seen :
  Forall2 (performs demo_bus 1) cable_in (map Second cable_seen ++ [Second (true, true); Second (true, true)]).
Proof. repeat (apply List.Forall2_cons; [by apply performs_poll, bmsr_second|]). apply List.Forall2_nil. Qed.

(** The same PHY with the generic driver *)
Definition generic_phy : phy_device := set_phy_drv (Some genphy_driver) link_phy.

Definition generic_state : dstate mii_demo :=
  mk_dstate link_chip (set_phy_dev (Some generic_phy) (set_mac_lock false demo_bus)) (set_running true demo_netdev) 0 [].

Lemma generic_state_polled : polled demo_bus generic_state generic_phy.
Proof.
  split; [|done| |done|done|done].
  - split; [split; [split; [split; [done|by left]|done]|done|done]|done|by split|done].
  - split; [by exists genphy_driver|by left|done].
Qed.

(** The cable is plugged in, and pulled again. *)
Definition cable_out : list (act (D := mii_demo)) :=
  cable_in ++ [APoll (bmsr_becomes 0x7809); APoll (bmsr_becomes 0x7809)].

Lemma cable_out_seen :
  Forall2 (performs demo_bus 1) cable_out
    ((map Second cable_seen ++ [Second (true, true); Second (true, true)]) ++ [Second (false, false); Second (false, false)]).
Proof.
  apply Forall2_app; [apply cable_in_seen|].
  repeat (apply List.Forall2_cons; [by apply performs_poll, bmsr_second|]). apply List.Forall2_nil.
Qed.

(** The interface goes down and up again on the way. *)
Lemma state_machine_refines_witness :
  exists s' y', acts (AStop :: AStart :: cable_in) link_state = Ret tt s' /\ phy_dev (pd s') = Some y' /\
    steps true (mk_view PHY_UP (carrier_ok demo_netdev) (link link_phy) true)
      (Stopped :: Started :: map Second cable_seen ++ [Second (true, true); Second (true, true)]) (view s' y').
Proof.
  destruct (state_machine_refines demo_bus (AStop :: AStart :: cable_in)
    (Stopped :: Started :: map Second cable_seen ++ [Second (true, true); Second (true, true)]) link_phy link_state)
    as (s' & y' & E & Hp & Hst & _); [apply link_state_polled| |exists s', y'; exact (conj E (conj Hp Hst))].
  apply List.Forall2_cons; [constructor|]. apply List.Forall2_cons; [constructor|]. apply cable_in_seen.
Defined.

Lemma carrier_follows_link_witness :
  (exists s' y', acts cable_in link_state = Ret tt s' /\ phy_dev (pd s') = Some y' /\
    carrier_ok (nd s') = 1 /\ mac_duplex demo_bus (chip s') = (duplex y' =? DUPLEX_FULL)) /\
  (exists s', acts cable_out generic_state = Ret tt s' /\ carrier_ok (nd s') = 0).
Proof.
  split.
  - destruct (carrier_follows_link demo_bus cable_in (map Second cable_seen) (true, true)
      link_phy link_state) as (s' & y' & E & Hp & Hup & _);
      [apply link_state_polled|by left|by intros []|apply cable_in_seen|done|].
    exists s', y'. exact (conj E (conj Hp (Hup eq_refl))).
  - destruct (carrier_follows_link demo_bus cable_out
      (map Second cable_seen ++ [Second (true, true); Second (true, true)]) (false, false)
      generic_phy generic_state) as (s' & y' & E & _ & _ & Hdown);
      [apply generic_state_polled|by left|by intros []|apply cable_out_seen|done|].
    exists s'. split; [exact E|]. apply Hdown; [reflexivity|by split; [|right]|]. repeat constructor; discriminate.
Defined.

(** The interface is closed, the PHY halted, and the cable plugged in. *)
Definition closed_phy : phy_device := set_state PHY_HALTED demo_phy.

Definition closed_state : dstate mii_demo :=
  mk_dstate link_chip (set_phy_dev (Some closed_phy) (set_mac_lock false demo_bus))
    (set_running false demo_netdev) 0 [].

Lemma closed_state_polled : polled demo_bus closed_state closed_phy.
Proof.
  split; [|done| |done|done|done].
  - split; [split; [split; [split; [done|by left]|done]|done|done]|done|by split|done].
  - split; [by exists lan911x_int_driver|by left|done].
Qed.

Lemma suspend_starts_closed_phy_witness :
  exists s', acts (ASleep false :: cable_in) closed_state = Ret tt s' /\ running (nd s') = false /\
    carrier_ok (nd s') = 1.
Proof.
  apply (suspend_starts_closed_phy demo_bus false cable_in cable_seen closed_phy);
    [apply closed_state_polled|done|done|apply cable_in_seen].
Defined.

(** An interface that goes down and up again between two runs of the machine, with the
    cable out: [PHY_RESUMING] leaves the carrier on without a link, and it stays so. *)
Definition reopened : list (act (D := mii_demo)) :=
  cable_in ++ [AStop; AStart; APoll (bmsr_becomes 0x7829); APoll (bmsr_becomes 0x7809); APoll (bmsr_becomes 0x7809)].

Lemma resume_keeps_carrier :
  match acts reopened link_state with
  | Ret _ s' => carrier_ok (nd s') = 1 /\ option_map state (phy_dev (pd s')) = Some PHY_NOLINK /\
      option_map link (phy_dev (pd s')) = Some 0
  | Stop _ => False
  end.
Proof. by vm_compute. Qed.

(** With the generic driver a negotiation that does not complete ends in [PHY_FORCING].
    After a sleep the carrier is still on then, and it stays on when the cable is pulled. *)
Definition forced_off : list (act (D := mii_demo)) :=
  cable_in ++ [ASleep false] ++ replicate 12 (APoll (bmsr_becomes 0x780d)) ++ replicate 3 (APoll (bmsr_becomes 0x7809)).

Lemma forcing_keeps_carrier :
  match acts forced_off generic_state with
  | Ret _ s' => carrier_ok (nd s') = 1 /\ option_map state (phy_dev (pd s')) = Some PHY_FORCING /\
      option_map link (phy_dev (pd s')) = Some 0
  | Stop _ => False
  end.
Proof. by vm_compute. Qed.
