(* ===== verification/PhyIrq.v ===== *)
(** * The interrupt line of a PHY
    (linux/drivers/net/phy/phy.c 499-689, with the calls of phy_device.c)

    A PHY may have an interrupt line, which it may share with other devices.  Its
    handler only disables the line and queues a work that talks to the PHY and enables
    the line again; a counter in the PHY says how often the line is disabled, so that
    the line can be given back even while such a work is queued.  Shown here: whatever
    the bus answers, and in whatever order the calls of the network driver, interrupts
    and the work queue run, every disable is made up for when the interrupt is given
    back; and on a chip that keeps the MII protocol an interrupt makes one step of the
    machine of PhyLink.v, which in [PHY_RUNNING] and [PHY_NOLINK] makes the carrier that of
    the link. *)

From S2P Require Import Prelude SmscDefs SmscIo SmscMac SmscRun SmscPoll SmscPhy PhyLib PhyKeeps MiiBus SmscNetdev PhyTheory PhyLink.

(** ** The state of the line *)

(** The counter of the PHY and the line agree, and a work that is queued stands for a
    disabled line. *)
Record balanced (l : phy_line) : Prop := {
  bal_depth : irq_depth l = irq_disable l;
  bal_nonneg : 0 <= irq_disable l;
  bal_queue : phy_queue l = true -> 1 <= irq_disable l }.

(** Number and handler do not change. *)
Definition same_line (l l' : phy_line) : Prop := irq l' = irq l /\ irq_action l' = irq_action l.

Lemma same_line_trans l1 l2 l3 : same_line l1 l2 -> same_line l2 l3 -> same_line l1 l3.
Proof. unfold same_line. intuition congruence. Qed.

(** No handler, no work, and nobody who still has to enable the line *)
Definition given_back (l : phy_line) : Prop := irq_depth l = 0 /\ irq_action l = false /\ phy_queue l = false.

(** ** What operations do to the line *)

Section Line.
Context {D : Type} `{!Smsc D} `{!IrqLine D} `{!Attestation D} `{!DeviceModel D}.
Implicit Types (s : dstate D) (l : phy_line).

(** Nothing is known of the chip, but the line is [l]. *)
Definition fixed l : ChipInv D.
Proof. by refine {| chip_inv _ := True; line_inv l' := l' = l |}. Defined.

(** The driver is between two calls, and the line of its PHY is [l]. *)
Definition rests (w : nat) l s : Prop := @at_rest D _ (fixed l) w s.

(** From a line [l], [m] returns and leaves a line that [R] allows. *)
Definition lwp {A} (w : nat) l (m : drv D A) (R : A -> phy_line -> Prop) : Prop :=
  forall s, rests w l s -> wp m (fun a s' => exists l', R a l' /\ rests w l' s') s.

Lemma lwp_bind {A B} w l (m : drv D A) (k : A -> drv D B) R R' :
  lwp w l m R -> (forall a l', R a l' -> lwp w l' (k a) R') -> lwp w l (m ≫= k) R'.
Proof.
  intros Hm Hk s Hs. apply wp_bind. eapply wp_mono; [|by apply Hm]. intros a s' (l' & HR & H'). by eapply Hk.
Qed.

Lemma lwp_ret {A} w l (a : A) (R : A -> phy_line -> Prop) : R a l -> lwp w l (mret a) R.
Proof. intros HR s Hs. by exists l. Qed.

Lemma lwp_mono {A} w l (m : drv D A) (R R' : A -> phy_line -> Prop) :
  lwp w l m R -> (forall a l', R a l' -> R' a l') -> lwp w l m R'.
Proof. intros Hm HR s Hs. eapply wp_mono; [|by apply Hm]. intros a s' (l' & H & H'). exists l'. auto. Qed.

(** Whatever keeps the invariant of the driver leaves the line alone. *)
Lemma lwp_keeps {A} w l (m : drv D A) :
  (forall up, keeps (@inv D _ (fixed l) w true (up_mode up) false) (@inv D _ (fixed l) w true (up_mode up) false) m) ->
  lwp w l m (fun _ l' => l' = l).
Proof. intros Hm s [up Hs]. eapply wp_mono; [|by apply (Hm up)]. intros a s' H'. exists l. split; [done|]. by exists up. Qed.

Lemma lwp_step {A B} w l (m : drv D A) (k : A -> drv D B) R :
  (forall up, keeps (@inv D _ (fixed l) w true (up_mode up) false) (@inv D _ (fixed l) w true (up_mode up) false) m) ->
  (forall a, lwp w l (k a) R) -> lwp w l (m ≫= k) R.
Proof. intros Hm Hk. eapply lwp_bind; [by apply lwp_keeps|]. by intros a l' ->. Qed.

Lemma lwp_lib {A B} w l (f : D -> A * D) (k : A -> drv D B) R : (forall a, lwp w l (k a) R) -> lwp w l (lib f ≫= k) R.
Proof. intros Hk. apply lwp_step; [|done]. intros up. by apply (@keeps_lib D _ (fixed l)). Qed.

Lemma lwp_get_phy {B} w l (k : phy_device -> drv D B) R :
  (forall y, line y = l -> is_Some (phy_drv y) -> lwp w l (k y) R) -> lwp w l (y ← get_phy; k y) R.
Proof.
  intros Hk s Hs. pose proof Hs as [up Hs']. eapply (@wp_get_phy D _ (fixed l)); [exact Hs'|].
  intros y (_ & Hd & _) El. by apply Hk.
Qed.

Lemma rests_put w l up s y :
  @inv D _ (fixed l) w true (up_mode up) false s -> phy_ok false (Some y) ->
  rests w (line y) (with_pd s (set_phy_dev (Some y) (pd s))).
Proof. intros [] Hy. exists up. by constructor. Qed.

Lemma typed_line l y : phy_typed y -> phy_typed (set_line l y).
Proof. intros []. by constructor. Qed.

Lemma lwp_upd_last w l f (R : unit -> phy_line -> Prop) : R tt (f l) -> lwp w l (upd_line f) R.
Proof.
  intros HR s [up Hs]. destruct (@inv_phy_some D _ (fixed l) _ _ _ _ Hs) as (y & E & (? & ? & ?) & El).
  unfold upd_line, upd_phy, get_phy, get_pd, upd_pd, wp, mbind, drv_bind. rewrite E. cbn [mret drv_ret].
  exists (f l). split; [done|]. cbn in El. subst l. eapply (rests_put w _ up s (set_line _ y)); [done|].
  split_and!; [done..|by apply typed_line].
Qed.

Lemma lwp_upd_line {B} w l f (k : unit -> drv D B) R : lwp w (f l) (k tt) R -> lwp w l (upd_line f ≫= k) R.
Proof.
  intros Hk. eapply lwp_bind; [by apply (lwp_upd_last w l f (fun _ l' => l' = f l))|]. by intros [] l' ->.
Qed.

(** An update of the PHY under its lock *)
Lemma lwp_locked {B} w l f (k : unit -> drv D B) R :
  (forall y, same_phy y (f y)) -> lwp w l (k tt) R ->
  lwp w l (_ ← lock_phy; _ ← upd_phy f; unlock_phy ≫= k) R.
Proof.
  intros Hf Hk s [up Hs]. rewrite (plock_free (up_mode up)) in Hs by done. apply wp_bind.
  eapply wp_keeps; [apply (@keeps_lock_phy D _ (fixed l))|exact Hs|]. intros _ s1 H1. apply wp_bind.
  eapply wp_keeps; [by apply (@keeps_upd_phy D _ (fixed l))|exact H1|]. intros _ s2 H2. apply wp_bind.
  eapply wp_keeps; [apply (@keeps_unlock_phy D _ (fixed l))|exact H2|]. intros [] s3 H3. apply Hk. by exists up.
Qed.

(** ** The handler and the work *)

(** The line after an interrupt *)
Definition taken l : phy_line := mk_line (irq l) (irq_disable l + 1) (irq_depth l + 1) (irq_action l) true.

Lemma taken_balanced l : balanced l -> balanced (taken l) /\ same_line l (taken l).
Proof. intros [H1 H2 H3]. split; [|done]. split; cbn; lia. Qed.

Lemma interrupt_line w l : lwp w l phy_interrupt (fun _ l' => l' = l \/ l' = taken l).
Proof.
  unfold phy_interrupt, disable_irq, inc_irq_disable. apply lwp_get_phy. intros y _ _.
  case_bool_decide; [apply lwp_ret; by left|]. do 3 apply lwp_upd_line. apply lwp_ret. by right.
Qed.

Lemma raise_line w l : balanced l -> lwp w l raise_irq (fun _ l' => balanced l' /\ same_line l l').
Proof.
  intros Hl. unfold raise_irq. apply lwp_get_phy. intros y -> _. destruct (_ && _); [|by apply lwp_ret].
  eapply lwp_bind; [apply interrupt_line|]. intros _ l' [-> | ->]; apply lwp_ret; [done|by apply taken_balanced].
Qed.

Lemma may_raise_line w l : balanced l -> lwp w l may_raise (fun _ l' => balanced l' /\ same_line l l').
Proof. intros Hl. unfold may_raise. apply lwp_lib. intros []; [by apply raise_line|by apply lwp_ret]. Qed.

(** What talks to the PHY leaves the line alone. *)
Lemma error_line w l : lwp w l phy_error (fun _ l' => l' = l).
Proof. apply lwp_keeps. intros up. by apply (@keeps_phy_error D _ (fixed l)). Qed.

Lemma config_line w l i :
  i = PHY_INTERRUPT_DISABLED \/ i = PHY_INTERRUPT_ENABLED -> lwp w l (on_phy (phy_config_interrupt i)) (fun _ l' => l' = l).
Proof. intros Hi. apply lwp_keeps. intros up. by apply (@keeps_on_phy D _ (fixed l)), phy_keeps_config_interrupt. Qed.

Lemma disable_interrupts_line w l : lwp w l phy_disable_interrupts (fun _ l' => l' = l).
Proof.
  unfold phy_disable_interrupts. eapply lwp_bind; [apply config_line; by left|]. intros err l' ->.
  assert (Herr : forall e : Z, lwp w l (_ ← phy_error; mret e) (fun _ l' => l' = l)).
  { intros e. eapply lwp_bind; [apply error_line|]. intros _ l' ->. by apply lwp_ret. }
  destruct (negb _); [apply Herr|]. apply lwp_get_phy. intros y _ Hd. apply lwp_step.
  { intros up. by apply (@keeps_clear_interrupt D _ (fixed l)). }
  intros e. destruct (negb _); [apply Herr|by apply lwp_ret].
Qed.

(** The work: it was queued for one disable of the line, which it makes up for, or
    leaves to the counter when the bus fails. *)
Lemma change_line w l :
  balanced l -> 1 <= irq_disable l -> phy_queue l = false ->
  lwp w l phy_change (fun _ l' => balanced l' /\ same_line l l').
Proof.
  intros Hl H1 Hq. unfold phy_change. eapply lwp_bind; [apply disable_interrupts_line|]. intros err l' ->.
  destruct (negb _); [by eapply lwp_mono; [apply error_line|]; intros _ l' ->|].
  set (l2 := mk_line (irq l) (irq_disable l - 1) (irq_depth l - 1) (irq_action l) (phy_queue l)).
  assert (H2 : balanced l2) by (destruct Hl as [? ? ?]; split; cbn; [lia|lia|by rewrite Hq]).
  assert (Hrest : lwp w l2 (_ ← may_raise; y ← get_phy;
      err ← (if negb (bool_decide (state y = PHY_HALTED)) then on_phy (phy_config_interrupt PHY_INTERRUPT_ENABLED)
             else mret err);
      _ ← may_raise;
      if negb (err =? 0) then _ ← disable_irq; _ ← inc_irq_disable; phy_error else mret tt)
    (fun _ l' => balanced l' /\ same_line l2 l')).
  { eapply lwp_bind; [by apply may_raise_line|]. intros _ l3 [B3 S3]. apply lwp_get_phy. intros y _ _.
    eapply lwp_bind with (R := fun _ l' => l' = l3).
    { destruct (negb _); [apply config_line; by right|by apply lwp_ret]. }
    intros e l4 ->. eapply lwp_bind; [by apply may_raise_line|]. intros _ l4 [B4 S4].
    assert (S24 : same_line l2 l4) by (by eapply same_line_trans).
    destruct (negb _); [|by apply lwp_ret]. unfold disable_irq, inc_irq_disable. do 2 apply lwp_upd_line.
    eapply lwp_mono; [apply error_line|]. intros _ l5 ->. split; [|done].
    destruct B4 as [? ? ?]. split; cbn; [lia|lia|]. lia. }
  apply lwp_locked; [intros y; case_match; first [by split_and!|split_and!; [done..|by intros []]]|].
  by do 2 apply lwp_upd_line.
Qed.

Lemma run_queue_line w l : balanced l -> lwp w l run_queue (fun _ l' => balanced l' /\ same_line l l').
Proof.
  intros Hl. unfold run_queue. apply lwp_get_phy. intros y -> _. destruct (phy_queue l) eqn:Eq; [|by apply lwp_ret].
  apply lwp_upd_line. eapply lwp_mono; [apply change_line; [|by apply Hl|done]|].
  - destruct Hl as [? ? ?]. by split.
  - intros _ l' [H1 H2]. by split.
Qed.

Lemma happen_line w evs l : balanced l -> lwp w l (happen evs) (fun _ l' => balanced l' /\ same_line l l').
Proof.
  revert l. induction evs as [|ev evs IH]; intros l Hl; cbn [happen]; [by apply lwp_ret|].
  assert (Hstep : forall m : drv D unit, lwp w l m (fun _ l' => balanced l' /\ same_line l l') ->
    lwp w l (_ ← m; happen evs) (fun _ l' => balanced l' /\ same_line l l')).
  { intros m Hm. eapply lwp_bind; [exact Hm|]. intros _ l' [H1 H2]. eapply lwp_mono; [by apply IH|].
    intros _ l'' [H3 H4]. split; [done|]. by eapply same_line_trans. }
  destruct ev; apply Hstep; [by apply raise_line|by apply run_queue_line].
Qed.

Lemma preempted_line w l : balanced l -> lwp w l preempted (fun _ l' => balanced l' /\ same_line l l').
Proof. intros Hl. apply lwp_lib. intros evs. by apply happen_line. Qed.

(** ** Giving the interrupt back *)

(** The loop makes up for what the counter says. *)
Lemma enable_loop_line w n l :
  irq_depth l = irq_disable l -> 0 <= irq_disable l < Z.of_nat n ->
  lwp w l (enable_loop n) (fun _ l' => irq_depth l' = 0 /\ irq_disable l' = -1 /\ same_line l l' /\
    phy_queue l' = phy_queue l).
Proof.
  revert l. induction n as [|n IH]; intros l Hd Hn; [lia|]. cbn [enable_loop]. unfold dec_irq_disable, enable_irq.
  apply lwp_upd_line, lwp_get_phy. intros y -> _. cbn [irq_disable set_irq_disable].
  destruct (Z.leb_spec 0 (irq_disable l - 1)).
  - apply lwp_upd_line. eapply lwp_mono; [apply IH; cbn; lia|]. intros _ l' (H1 & H2 & H3 & H4). by split_and!.
  - apply lwp_ret. cbn. split_and!; [lia|lia|done|done].
Qed.

Lemma stop_interrupts_line w l :
  balanced l -> lwp w l phy_stop_interrupts (fun _ l' => given_back l' /\ irq l' = irq l).
Proof.
  intros Hl. unfold phy_stop_interrupts. eapply lwp_bind; [apply disable_interrupts_line|]. intros err l' ->.
  eapply lwp_bind with (R := fun _ l' => l' = l).
  { destruct (negb _); [apply error_line|by apply lwp_ret]. }
  intros _ l' ->. eapply lwp_bind; [by apply preempted_line|]. intros _ l1 [B1 [S1 _]]. apply lwp_upd_line.
  assert (B2 : balanced (set_irq_action false l1)) by (destruct B1; by split).
  eapply lwp_bind; [by apply preempted_line|]. intros _ l3 [B3 [S3 S4]]. apply lwp_upd_line.
  cbn in S3, S4. destruct B3 as [B5 B6 _].
  apply lwp_get_phy. intros y -> _. cbn [irq_disable set_phy_queue].
  eapply lwp_bind; [apply enable_loop_line; cbn; lia|].
  intros _ l4 (H1 & _ & [H3 H4] & H5). apply lwp_ret. cbn in H3, H4, H5. unfold given_back. by split_and!; congruence.
Qed.

(** ** Taking it *)

Lemma phy_keeps_enable_interrupts (CI : ChipInv D) : phy_keeps phy_enable_interrupts.
Proof.
  intros w ph md y s Hs Hd. unfold phy_enable_interrupts. apply wp_bind.
  eapply wp_keeps; [by apply keeps_clear_interrupt|exact Hs|]. intros err s1 H1.
  destruct (err <? 0); [by apply wp_ret|]. by apply phy_keeps_irq_on.
Qed.

(** [phy_start_interrupts] on the PHY of the interface: the handler is installed and
    the counter agrees with the line, or the PHY is polled. *)
Lemma start_interrupts_line w l :
  given_back l ->
  lwp w l (on_phy phy_start_interrupts) (fun _ l' =>
    balanced l' /\ irq_action l' = true /\ irq l' = irq l \/ given_back l' /\ irq l' = PHY_POLL).
Proof.
  intros (Hd & Ha & Hq) s [up Hs]. unfold on_phy. eapply (@wp_get_phy D _ (fixed l)); [exact Hs|].
  intros y (Hl & Hdrv & Ht) El. cbn in El. unfold phy_start_interrupts. cbv zeta.
  set (y1 := set_line (set_phy_queue false (set_irq_disable 0 (line y))) y).
  apply wp_bind. apply wp_bind. unfold lib, wp at 1. cbn beta.
  assert (H1 : forall d, @inv D _ (fixed l) w true (up_mode up) false (with_chip s d)) by (intros d; by apply inv_with_chip).
  destruct (request_irq (irq (line y1)) (chip s)) as [r d]. specialize (H1 d). cbn [fst snd].
  destruct (r <? 0).
  - apply wp_ret, wp_bind. unfold wp at 1, upd_pd. apply wp_ret. eexists. split; [|eapply (rests_put w l up); [exact H1|split_and!; [done..|by do 2 apply typed_line]]].
    cbn. rewrite El. right. unfold given_back. cbn. by split_and!.
  - set (y2 := set_line (set_irq_action true (line y1)) y1).
    eapply wp_mono; [|apply (phy_keeps_enable_interrupts (fixed l) w true (up_mode up) y2); [exact H1|done]].
    intros [e y3] s3 (H3 & E1 & E2 & _ & E3 & E4). cbn [fst snd] in *. apply wp_bind.
    unfold wp at 1, upd_pd. apply wp_ret. eexists. split; [|eapply (rests_put w l up); [exact H3|]].
    + rewrite E3. cbn. rewrite El. left. split; [by split|done].
    + cbn. rewrite E1, E2. split_and!; [done|done|apply E4]. by do 2 apply typed_line.
Qed.

(** ** A session *)

(** What may happen while the interrupt is taken: a call of the network driver, an
    interrupt, or a turn of the work queue *)
Definition item : Type := call + background_event.

Definition run_item (i : item) : drv D unit :=
  match i with inl c => run_call c | inr ev => happen [ev] end.

Fixpoint run_items (its : list item) : drv D unit :=
  match its with
  | [] => mret tt
  | i :: its => _ ← run_item i; run_items its
  end.

Definition item_ok (i : item) : Prop := match i with inl c => call_ok c | inr _ => True end.
Definition item_hangs (i : item) : bool := match i with inl c => may_hang c | inr _ => false end.

(** From the connection to the end of the connection *)
Definition session (its : list item) : drv D Z :=
  _ ← on_phy phy_start_interrupts;
  _ ← run_items its;
  y ← get_phy;
  if 0 <? irq (line y) then phy_stop_interrupts else mret 0.

Context (Hattest : forall stack (d : D), is_Some (attest true stack d)).

Lemma call_line w l c :
  call_ok c -> safely (hangs (may_hang c)) (rests w l) (rests w l) (run_call c).
Proof.
  intros Hc. apply (@run_call_safe D _ _ _ (fixed l)); [|done].
  intros stack d. destruct (Hattest stack d) as [[ws d'] E]. by exists ws, d'.
Qed.

(** A property of the line that interrupts and the work keep is kept by a session. *)
Lemma items_line (P : phy_line -> Prop) w its l s :
  (forall ev l, P l -> lwp w l (happen [ev]) (fun _ => P)) -> Forall item_ok its -> P l -> rests w l s ->
  match run_items its s with
  | Ret _ s' => exists l', P l' /\ rests w l' s'
  | Stop why => why = Hang /\ existsb item_hangs its = true
  end.
Proof.
  intros HP His. revert l s. induction His as [|i its Hi His IH]; intros l s Hl Hs; [by exists l|].
  cbn [run_items existsb]. unfold mbind, drv_bind.
  assert (Hnext : forall l' s', P l' -> rests w l' s' -> match run_items its s' with
    | Ret _ s' => exists l', P l' /\ rests w l' s'
    | Stop why => why = Hang /\ item_hangs i || existsb item_hangs its = true end).
  { intros l' s' Hl' Hs'. specialize (IH l' s' Hl' Hs'). destruct (run_items its s'); [done|].
    destruct IH as [-> ->]. by rewrite orb_true_r. }
  destruct i as [c|ev]; cbn [run_item].
  - pose proof (call_line w l c Hi s Hs) as H. destruct (run_call c s) as [a s'|why]; [by apply (Hnext l)|].
    destruct why; cbn in H; try done. cbn [item_hangs]. by rewrite H.
  - pose proof (HP ev l Hl s Hs) as H. apply wp_run in H as (a & s' & -> & l' & Hl' & Hs'). by apply (Hnext l').
Qed.

(** Without a handler nothing happens to the line. *)
Lemma happen_idle w ev l : given_back l -> lwp w l (happen [ev]) (fun _ l' => l' = l).
Proof.
  intros (_ & Ha & Hq). unfold happen, raise_irq, run_queue. destruct ev; (eapply lwp_bind with (R := fun _ l' => l' = l);
    [apply lwp_get_phy; intros y -> _; rewrite ?Ha, ?Hq; by apply lwp_ret|]); intros _ l' ->; by apply lwp_ret.
Qed.

(** C10: balance of the interrupt line.  Take the interrupt of a PHY, run any calls of
    the network driver, interrupts on the line and turns of the work queue in any
    order, and give the interrupt back while interrupts and the work still come in
    between.  Whatever the PHY answers, errors of the bus included, every
    [disable_irq] on the line has then been made up for by an [enable_irq], no more
    and no less, the handler is gone and no work is queued: other devices on the line
    work again.  The one way not to get there is a call that waits forever. *)
Theorem line_given_back w its l s :
  Forall item_ok its -> rests w l s -> given_back l -> 0 < irq l ->
  match session its s with
  | Ret _ s' => exists l', given_back l' /\ rests w l' s'
  | Stop why => why = Hang /\ existsb item_hangs its = true
  end.
Proof.
  intros His Hs Hl Hirq. unfold session, mbind, drv_bind.
  destruct (proj1 (wp_run _ _ _) (start_interrupts_line w l Hl s Hs)) as (r & s1 & -> & l1 & H1 & Hs1).
  assert (Hitems : match run_items its s1 with
    | Ret _ s' => exists l', (balanced l' /\ irq l' = irq l \/ given_back l' /\ irq l' = PHY_POLL) /\ rests w l' s'
    | Stop why => why = Hang /\ existsb item_hangs its = true end).
  { apply (items_line (fun l' => balanced l' /\ irq l' = irq l \/ given_back l' /\ irq l' = PHY_POLL) w its l1); try done; [|tauto].
    intros ev l2 [[B2 E2]|[G2 E2]].
    - eapply lwp_mono; [by apply happen_line|]. intros _ l3 [B3 [E3 _]]. left. split; [done|congruence].
    - eapply lwp_mono; [by apply happen_idle|]. intros _ l3 ->. by right. }
  destruct (run_items its s1) as [a s2|]; [|done]. destruct Hitems as (l2 & H2 & Hs2).
  assert (Hstop : lwp w l2 (y ← get_phy; if 0 <? irq (line y) then phy_stop_interrupts else mret 0)
    (fun _ l' => given_back l')).
  { apply lwp_get_phy. intros y -> _. destruct H2 as [[B2 E2]|[G2 E2]]; rewrite E2.
    - rewrite (proj2 (Z.ltb_lt _ _)) by done. eapply lwp_mono; [by apply stop_interrupts_line|]. by intros _ l' [].
    - by apply lwp_ret. }
  destruct (proj1 (wp_run _ _ _) (Hstop s2 Hs2)) as (r2 & s3 & E3 & l3 & H3 & Hs3). unfold mbind, drv_bind in E3.
  rewrite E3. by exists l3.
Qed.

End Line.

(** ** An interrupt and the carrier *)

Section Carrier.
Context {D : Type} `{!Smsc D} (p : smsc911x_data) `{!MacChip D p} `{!MiiChip D p} `{!DeviceModel D}.
Context (Hquiet : forall d : D, (irq_raised d).2 = d).
Implicit Types s : dstate D.

Notation phys_of s := (mii_phys (mii (chip s))).

(** The PHY but for its line and its interrupt mask *)
Definition same_link (y y' : phy_device) : Prop :=
  exists l, same_core (set_line l y) y' /\ phy_lock y' = phy_lock y /\ autoneg y' = autoneg y /\ link y' = link y /\
    duplex y' = duplex y.

Lemma same_link_use y y' : same_link y y' -> usable y -> usable y'.
Proof. intros (l & Hc & _) [? ? ?]. by apply (usable_same (set_line l y)). Qed.

Lemma wp_upd_line_at {B} y f (k : unit -> drv D B) Q s :
  phy_dev (pd s) = Some y -> wp (k tt) Q (put s (set_line (f (line y)) y)) -> wp (upd_line f ≫= k) Q s.
Proof. intros E Hk. unfold upd_line. by apply (wp_upd_phy_at y). Qed.

(** What an interrupt and its work leave alone *)
Definition only_line s (y : phy_device) s' (y' : phy_device) : Prop :=
  with_phy p s' y' /\ nd s' = nd s /\ last_duplex (pd s') = last_duplex (pd s) /\ same_link y y' /\ balanced (line y').

Lemma only_line_trans s1 y1 s2 y2 s3 y3 : only_line s1 y1 s2 y2 -> only_line s2 y2 s3 y3 -> only_line s1 y1 s3 y3.
Proof.
  intros (_ & E1 & E2 & (l1 & C1 & F1) & _) (H & E3 & E4 & (l2 & C2 & F2) & B). unfold only_line.
  split; [done|]. split; [congruence|]. split; [congruence|]. split; [|done]. exists l2.
  unfold same_core in *. cbn in *. intuition congruence.
Qed.

(** Updates of the line, the mask and the state *)
Lemma only_line_put s y y' :
  with_phy p s y -> same_link y y' -> balanced (line y') -> only_line s y (put s y') y'.
Proof.
  intros Hs Hy Hl. pose proof Hy as (l & Hc & _). split; [|by split]. eapply with_phy_put; [done|]. apply Hc.
Qed.

Lemma raise_run y s :
  with_phy p s y -> balanced (line y) -> wp raise_irq (fun _ s' => exists y', only_line s y s' y' /\ state y' = state y) s.
Proof.
  intros Hs Hl. unfold raise_irq. apply (wp_get_phy_at y); [apply Hs|].
  assert (Hsame : only_line s y s y) by (split; [done|]; split; [done|]; split; [done|]; split; [by exists (line y)|done]).
  destruct (_ && _); [|apply wp_ret; by exists y]. apply wp_bind. unfold phy_interrupt. apply (wp_get_phy_at y); [apply Hs|].
  case_bool_decide; [apply wp_ret, wp_ret; by exists y|]. unfold disable_irq, inc_irq_disable.
  apply (wp_upd_line_at y); [apply Hs|]. eapply wp_upd_line_at; [done|]. eapply wp_upd_line_at; [done|]. apply wp_ret, wp_ret.
  exists (set_line (taken (line y)) y). split; [|done].
  apply (only_line_put s y (set_line (taken (line y)) y)); [done|by eexists|by apply taken_balanced].
Qed.

Lemma may_raise_run y s :
  with_phy p s y -> balanced (line y) -> wp may_raise (fun _ s' => exists y', only_line s y s' y' /\ state y' = state y) s.
Proof.
  intros Hs Hl. unfold may_raise. apply wp_bind. unfold lib, wp at 1.
  assert (Es : with_chip s (irq_raised (chip s)).2 = s) by (rewrite Hquiet; apply with_chip_id).
  rewrite Es. destruct (irq_raised (chip s)).1; [by apply raise_run|]. apply wp_ret. exists y. split; [|done].
  split; [done|]. split; [done|]. split; [done|]. split; [by exists (line y)|done].
Qed.

(** The PHY, after its interrupt mask was written *)
Lemma wp_config {B} i y (k : Z -> drv D B) Q s :
  with_phy p s y -> is_Some (phy_drv y) ->
  (forall s', with_phy p s' (set_interrupts i y) -> nd s' = nd s -> last_duplex (pd s') = last_duplex (pd s) -> wp (k 0) Q s') ->
  wp (on_phy (phy_config_interrupt i) ≫= k) Q s.
Proof.
  intros Hs Hd Hk. apply (wp_on_phy_at y); [apply Hs|].
  eapply crun_mono; [apply (config_interrupt_run p); [apply Hs|apply Hs|done]|]. intros r d [-> Hset].
  apply Hk; [|done|done]. eapply with_phy_put; [by apply with_phy_chip|done].
Qed.

Lemma wp_disable_interrupts {B} y (k : Z -> drv D B) Q s :
  with_phy p s y -> is_Some (phy_drv y) ->
  (forall s', with_phy p s' (set_interrupts PHY_INTERRUPT_DISABLED y) -> nd s' = nd s ->
     last_duplex (pd s') = last_duplex (pd s) -> wp (k 0) Q s') ->
  wp (phy_disable_interrupts ≫= k) Q s.
Proof.
  intros Hs Hd Hk. apply wp_bind. unfold phy_disable_interrupts. apply (wp_config _ y); [done|done|].
  intros s1 H1 En El. cbn [Z.eqb negb]. eapply wp_get_phy_at; [apply H1|]. apply wp_bind.
  eapply wp_crun; [apply (clear_interrupt_run p); [apply H1|apply H1|done]|]. intros e d [-> Hset]. apply wp_ret.
  apply Hk; [by apply with_phy_chip|done|done].
Qed.

(** The state that the work asks the machine to look at *)
Definition changed (v : phy_state) : phy_state :=
  match v with PHY_RUNNING | PHY_NOLINK => PHY_CHANGELINK | _ => v end.

Lemma changed_live v : v <> PHY_HALTED -> changed v <> PHY_HALTED.
Proof. by destruct v. Qed.

Lemma change_run y s :
  with_phy p s y -> phy_lock y = false -> is_Some (phy_drv y) -> balanced (line y) -> 1 <= irq_disable (line y) ->
  phy_queue (line y) = false -> state y <> PHY_HALTED ->
  wp phy_change (fun _ s' => exists y', only_line s y s' y' /\ state y' = changed (state y)) s.
Proof.
  intros Hs Hlk Hd Hl H1 Hq Hst. unfold phy_change. apply (wp_disable_interrupts y); [done|done|].
  intros s1 W1 N1 D1. cbn [Z.eqb negb]. set (y1 := set_interrupts _ y) in *.
  eapply (wp_lock_phy y1); [apply W1|done|]. set (y2 := set_phy_lock true y1). apply (wp_upd_phy_at y2); [done|].
  set (y3 := match state y2 with PHY_RUNNING | PHY_NOLINK => _ | _ => _ end).
  assert (Hy3 : same_core y y3 /\ phy_lock y3 = true /\ autoneg y3 = autoneg y /\ link y3 = link y /\ duplex y3 = duplex y /\
    line y3 = line y /\ state y3 = changed (state y)).
  { unfold y3. cbn [state y2 y1 set_phy_lock set_interrupts]. destruct (state y) eqn:E; (split; [same_fields|done]). }
  clearbody y3. destruct Hy3 as (C3 & K3 & A3 & E3 & X3 & L3 & S3). apply (wp_unlock_phy y3); [done|done|].
  unfold dec_irq_disable, enable_irq. eapply wp_upd_line_at; [done|]. eapply wp_upd_line_at; [done|].
  set (y4 := set_line _ (set_line _ _)).
  assert (O4 : only_line s y (put s1 y4) y4).
  { split; [apply (with_phy_put p s1 y1); [done|apply C3]|]. split; [done|]. split; [done|]. split.
    - exists (line y4). split; [|by rewrite Hlk]. destruct C3 as (? & ? & ? & ? & ? & _). by split_and!.
    - destruct Hl as [? ? ?]. cbn. rewrite L3. split; cbn; [lia|lia|by rewrite Hq]. }
  assert (S4 : state y4 = changed (state y)) by done.
  match goal with |- wp _ _ ?t => change t with (put s1 y4) end.
  set (s4 := put s1 y4) in *. clearbody s4 y4. clear y1 y2 y3 s1 W1 N1 D1 C3 K3 A3 E3 X3 L3 S3.
  apply wp_bind. eapply wp_mono; [|apply (may_raise_run y4); apply O4]. intros _ s5 (y5 & O5 & S5).
  assert (O05 : only_line s y s5 y5) by (by eapply only_line_trans). rewrite S4 in S5. clear O4 O5 S4 s4 y4.
  apply (wp_get_phy_at y5); [apply O05|]. rewrite bool_decide_eq_false_2 by (rewrite S5; by apply changed_live). cbn [negb].
  assert (Hd5 : is_Some (phy_drv y5)) by (destruct O05 as (_ & _ & _ & (l & Hc & _) & _); by rewrite (proj1 (proj2 Hc))).
  apply (wp_config _ y5); [apply O05|done|]. intros s6 W6 N6 D6.
  assert (O6 : only_line s y s6 (set_interrupts PHY_INTERRUPT_ENABLED y5)).
  { eapply only_line_trans; [exact O05|]. split; [done|]. split; [done|]. split; [done|]. split; [by exists (line y5)|apply O05]. }
  apply wp_bind. eapply wp_mono; [|eapply (may_raise_run (set_interrupts PHY_INTERRUPT_ENABLED y5)); apply O6].
  intros _ s7 (y7 & O7 & S7). cbn [Z.eqb negb]. apply wp_ret. exists y7. split; [by eapply only_line_trans|]. by rewrite S7.
Qed.

(** The line is raised, the work runs, and then the state machine, before which the PHY
    and its link partner do [e] *)
Definition interrupt_round (e : D -> D) : drv D unit :=
  _ ← raise_irq;
  _ ← run_queue;
  _ ← lib (fun d => (tt, e d));
  phy_state_machine.

(** A PHY that was started, with its interrupt taken and the line enabled *)
Record listening s (y : phy_device) : Prop := {
  listen_phy : with_phy p s y;
  listen_lock : phy_lock y = false;
  listen_use : usable y;
  listen_state : state y <> PHY_HALTED;
  listen_forced : state y = PHY_FORCING -> half_or_full y;
  listen_line : balanced (line y);
  listen_action : irq_action (line y) = true;
  listen_depth : irq_depth (line y) = 0 }.

(** The handler queues the work, *)
Lemma handled_run y s :
  listening s y -> wp raise_irq (fun _ s' => exists y', only_line s y s' y' /\ state y' = state y /\
    line y' = taken (line y)) s.
Proof.
  intros [Hs Hlk Hy Hst _ Hl Ha Hd]. unfold raise_irq. apply (wp_get_phy_at y); [apply Hs|].
  rewrite Ha, Hd. cbn [andb Z.eqb]. apply wp_bind. unfold phy_interrupt. apply (wp_get_phy_at y); [apply Hs|].
  rewrite bool_decide_eq_false_2 by done. unfold disable_irq, inc_irq_disable.
  apply (wp_upd_line_at y); [apply Hs|]. eapply wp_upd_line_at; [done|]. eapply wp_upd_line_at; [done|]. apply wp_ret, wp_ret.
  exists (set_line (taken (line y)) y). split; [|done].
  apply (only_line_put s y (set_line (taken (line y)) y)); [done|by eexists|by apply taken_balanced].
Qed.

(** and the work asks for the change of the link. *)
Lemma queue_run y s :
  listening s y ->
  wp (_ ← raise_irq; run_queue) (fun _ s' => exists y', only_line s y s' y' /\ state y' = changed (state y)) s.
Proof.
  intros Hli. pose proof Hli as [Hs Hlk [Hdrv _ _] Hst _ Hl _ _]. apply wp_bind.
  eapply wp_mono; [|by apply handled_run]. intros _ s1 (y1 & O1 & S1 & L1).
  unfold run_queue. apply (wp_get_phy_at y1); [apply O1|]. rewrite L1. cbn [taken phy_queue].
  eapply wp_upd_line_at; [apply O1|]. rewrite L1. set (y2 := set_line _ y1).
  assert (O2 : only_line s y (put s1 y2) y2).
  { eapply only_line_trans; [exact O1|]. apply only_line_put; [apply O1|by eexists|].
    destruct Hl as [? ? ?]. split; cbn; [lia|lia|done]. }
  pose proof O2 as (W2 & _ & _ & (l & (_ & C2 & _) & K2 & _) & B2).
  eapply wp_mono; [|apply (change_run y2); [exact W2|by rewrite K2|by rewrite C2|exact B2| |done|]].
  - intros _ s3 (y3 & O3 & S3). exists y3. split; [by eapply only_line_trans|]. rewrite S3. cbn. by rewrite S1.
  - cbn. destruct Hl. lia.
  - cbn. by rewrite S1.
Qed.

(** The state machine then makes its step. *)
Lemma stepped_run o y s :
  with_phy p s y -> phy_lock y = false -> usable y -> state y <> PHY_RUNNING ->
  (state y = PHY_FORCING -> half_or_full y) -> reports (phys_of s) (phy_addr y) o ->
  wp phy_state_machine (fun _ s' => exists y', with_phy p s' y' /\ phy_lock y' = false /\ same_core y y' /\
    step (magic y) (view s y) (Second o) (view s' y') /\ mode_ok s' y') s.
Proof.
  intros Hs Hlk Hy Hst Hf Ho.
  eapply wp_mono; [|apply (machine_case_run p (step (magic y) (view s y) (Second o)) y); [done..|]].
  - intros _ s' (_ & y' & H'). by exists y'.
  - apply (state_case_run p (set_phy_lock true y) o); [by eapply with_phy_put|done|by apply (usable_same y)|exact Ho|exact Hf|done].
Qed.

(** What the round leaves *)
Definition round_done (y : phy_device) s (o : seen) s' : Prop :=
  exists y', phy_dev (pd s') = Some y' /\
    step (magic y) (mk_view (changed (state y)) (carrier_ok (nd s)) (link y) (negotiates y)) (Second o) (view s' y') /\
    (state y = PHY_RUNNING \/ state y = PHY_NOLINK ->
     (state y' = if o.1 then PHY_RUNNING else PHY_NOLINK) /\ (carrier_ok (nd s') = if o.1 then 1 else 0)) /\
    (with_link (state y') -> mac_duplex p (chip s') = (duplex y' =? DUPLEX_FULL)) /\
    phy_lock y' = false /\ balanced (line y').

Lemma change_step m v c l a o w :
  step m (mk_view (changed v) c l a) (Second o) w -> v = PHY_RUNNING \/ v = PHY_NOLINK ->
  (v_state w = if o.1 then PHY_RUNNING else PHY_NOLINK) /\ (v_carrier w = if o.1 then 1 else 0).
Proof. intros H [-> | ->]; cbn in H; inversion H; subst; cbn; try done; by intuition. Qed.

Lemma round_end_run e o y y1 s s1 :
  listening s y -> second p (phy_addr y) e o -> only_line s y s1 y1 -> state y1 = changed (state y) ->
  wp (_ ← lib (fun d => (tt, e d)); phy_state_machine) (fun _ => round_done y s o) s1.
Proof.
  intros [Hs Hlk Hy Hst Hf Hl Ha Hd] He (W1 & N1 & D1 & L1 & B1) S1.
  pose proof L1 as (l & C1 & K1 & A1 & E1 & X1). apply wp_bind. unfold lib, wp at 1. cbn [fst snd].
  destruct (He (chip s1)) as (Hi & Hm & Ho); [apply W1|]. rewrite <- (proj1 C1 : phy_addr y1 = phy_addr y) in Ho.
  eapply wp_mono; [|apply (stepped_run o y1); [by apply with_phy_chip|by rewrite K1|by eapply same_link_use| | |exact Ho]].
  - intros _ s2 (y2 & W2 & K2 & C2 & V2 & M2). exists y2. split; [apply W2|].
    assert (V : step (magic y) (mk_view (changed (state y)) (carrier_ok (nd s)) (link y) (negotiates y)) (Second o) (view s2 y2)).
    { rewrite (magic_same _ _ C1 : magic y1 = magic y) in V2.
      replace (mk_view _ _ _ _) with (view (with_chip s1 (e (chip s1))) y1); [done|].
      unfold view, negotiates. cbn [nd with_chip]. by rewrite S1, E1, A1, N1. }
    split; [done|]. split; [by apply (change_step _ _ _ _ _ _ _ V)|]. split; [by intros Hlink; apply (mode_mac p s2 y2)|]. split; [done|].
    destruct C2 as (_ & _ & _ & _ & _ & ->). exact B1.
  - rewrite S1. by destruct (state y).
  - rewrite S1. intros E. unfold half_or_full. rewrite X1. apply Hf. by destruct (state y).
Qed.

(** C17: a PHY with an interrupt line, on a chip that keeps the protocols of the MAC and
    MII registers.  The PHY has a driver and no gigabit modes and was started: it is in any
    state but [PHY_HALTED], with half or full duplex in [PHY_FORCING].  No lock is held,
    the handler is registered, the line is enabled, and whether it is raised again does not
    change the chip.  When the line is raised, the handler, the work it queues and the run
    of the state machine it asks for all return and make one step of the abstract machine,
    from [PHY_CHANGELINK] where the PHY was in [PHY_RUNNING] or [PHY_NOLINK].  From these two
    states the carrier is so turned on or off as the PHY reports the link, at once and
    without waiting for the next second; from the others it is what that step makes of it,
    so that a PHY in [PHY_UP] or [PHY_AN] first has to complete its negotiation.  With a
    link the MAC has the duplex mode of the PHY, and the line is disabled exactly as often
    as the PHY counts, whether or not it was raised again meanwhile. *)
Theorem interrupt_updates_carrier e o y s :
  listening s y -> second p (phy_addr y) e o ->
  exists s', interrupt_round e s = Ret tt s' /\ round_done y s o s'.
Proof.
  intros Hli He. enough (H : wp (interrupt_round e) (fun _ => round_done y s o) s).
  { apply wp_run in H as ([] & s' & E & H). by exists s'. }
  assert (H : wp (_ ← raise_irq; run_queue) (fun _ s' => wp (_ ← lib (fun d => (tt, e d)); phy_state_machine)
    (fun _ => round_done y s o) s') s).
  { eapply wp_mono; [|by apply queue_run]. intros _ s1 (y1 & O1 & S1). by apply (round_end_run e o y y1 s s1). }
  unfold interrupt_round. unfold wp, mbind, drv_bind in H |- *. destruct (raise_irq s) as [? s1|]; [|done].
  by destruct (run_queue s1).
Qed.

End Carrier.

(** ** On concrete chips *)

(** The line is raised whenever it can be, and the work runs while it is given back. *)
Definition busy_line {D} : DeviceModel D := {|
  phy_memory d := (true, d); device_register d := (0, d); device_bind_driver d := (0, d); phy_drivers _ := [];
  request_irq _ d := (0, d); irq_raised d := (true, d);
  background d := ([line_raised; queue_runs; line_raised], d) |}.

(** A chip that never completes an access to the PHY *)
Definition line_state : dstate unit :=
  mk_dstate tt (set_phy_dev (Some (set_line (mk_line 7 0 0 false false) demo_phy)) (demo_pdata SMSC911X_USE_32BIT))
    (set_running false (set_napi_scheduled true demo_netdev)) 0 [].

Definition line_items : list item :=
  [inr line_raised; inr queue_runs; inl call_phy_work; inl call_open; inr line_raised; inl call_nwayreset].

Lemma line_ready :
  Forall item_ok line_items /\ @rests _ ones_chip 0 (mk_line 7 0 0 false false) line_state.
Proof. split; [by repeat constructor|]. exists false. by repeat constructor. Qed.

Lemma line_given_back_witness :
  match @session _ ones_chip ones_irq ones_attest busy_line line_items line_state with
  | Ret _ s' => exists l', given_back l' /\ @rests _ ones_chip 0 l' s'
  | Stop _ => False
  end.
Proof.
  destruct line_ready as [Hok Hs].
  pose proof (@line_given_back _ ones_chip ones_irq ones_attest busy_line (proj1 ones_ready) 0 line_items
    (mk_line 7 0 0 false false) line_state Hok Hs (conj eq_refl (conj eq_refl eq_refl)) eq_refl) as H.
  destruct (session _ _); [exact H|]. destruct H as [_ H]. discriminate H.
Defined.

#[local] Existing Instance mii_demo_chip.
#[local] Existing Instance mii_demo_mac.
#[local] Existing Instance mii_demo_protocol.

(** The cable of a PHY with an interrupt line is plugged in. *)
Definition irq_phy : phy_device := set_line (mk_line 7 0 0 true false) (set_state PHY_NOLINK demo_phy).

Definition irq_state : dstate mii_demo :=
  mk_dstate link_chip (set_phy_dev (Some irq_phy) (set_mac_lock false demo_bus)) (set_running true demo_netdev) 0 [].

Lemma interrupt_updates_carrier_witness :
  exists s' y', @interrupt_round _ _ busy_line (bmsr_becomes 0x782d) irq_state = Ret tt s' /\
    phy_dev (pd s') = Some y' /\ state y' = PHY_RUNNING /\ carrier_ok (nd s') = 1.
Proof.
  destruct (@interrupt_updates_carrier _ _ demo_bus _ _ busy_line (fun _ => eq_refl) (bmsr_becomes 0x782d) (true, true)
    irq_phy irq_state) as (s' & E & y' & Hp & _ & Hst & _); [|by apply bmsr_second|].
  - split; [|done| |done|done| |done|done].
    + split; [split; [split; [split; [done|by left]|done]|done|done]|done|by split|done].
    + split; [by exists lan911x_int_driver|by left|done].
    + by split.
  - exists s', y'. exact (conj E (conj Hp (Hst (or_intror eq_refl)))).
Defined.
