(* ===== verification/PhySettings.v ===== *)
(** * Negotiation and settings through the PHY library
    (linux/drivers/net/phy: phy.c, phy_device.c)

    What a user sees of the library: the mode that a negotiation gives, the forced
    settings that are written and read back, the mode that replaces one that the PHY
    cannot do, and the write of a register through the ioctl. *)

From S2P Require Import Prelude SmscDefs SmscIo SmscMac SmscRun SmscPhy PhyLib PhyKeeps MiiBus SmscNetdev PhyTheory PhyLink.

(** ** The table of modes *)

(** [search] finds the first entry at or after [idx]. *)
Lemma search_spec ok n idx (j := search ok n idx) :
  (MAX_NUM_SETTINGS <= idx + n)%nat -> (idx <= MAX_NUM_SETTINGS)%nat ->
  (idx <= j <= MAX_NUM_SETTINGS)%nat /\
  (forall x, settings !! j = Some x -> ok x = true) /\
  (forall k x, (idx <= k < j)%nat -> settings !! k = Some x -> ok x = false).
Proof.
  unfold j. clear j. revert idx. induction n as [|n IH]; intros idx Hn Hi; cbn [search].
  { assert (idx = 7%nat) as -> by (unfold MAX_NUM_SETTINGS in *; lia). split; [lia|]. split; [done|lia]. }
  destruct (settings !! idx) as [x|] eqn:E.
  - assert (Hlt : (idx < MAX_NUM_SETTINGS)%nat) by (apply lookup_lt_Some in E; exact E).
    destruct (ok x) eqn:Hx.
    + split; [lia|]. split; [|lia]. intros x' E'. congruence.
    + destruct (IH (S idx)) as (H1 & H2 & H3); [lia|lia|]. split; [lia|]. split; [done|].
      intros k x' Hk E'. destruct (decide (k = idx)) as [->|Hne]; [congruence|]. apply (H3 k x'); [lia|done].
  - split; [lia|]. split; [intros x'; by rewrite E|lia].
Qed.

(** What [phy_find_valid] gives: an entry that is supported, or the last one *)
Lemma find_valid_spec idx f (j := phy_find_valid idx f) :
  (idx < MAX_NUM_SETTINGS)%nat ->
  exists x, settings !! j = Some x /\ (idx <= j)%nat /\
    (forall k z, (idx <= k < j)%nat -> settings !! k = Some z -> has (setting z) f = false) /\
    (has (setting x) f = true \/
     x = mk_setting SPEED_10 DUPLEX_HALF SUPPORTED_10baseT_Half).
Proof.
  intros Hi. unfold j, phy_find_valid, last_if_none.
  destruct (search_spec (fun x => has (setting x) f) MAX_NUM_SETTINGS idx) as (H1 & H2 & H3); [lia|lia|].
  case_bool_decide as Hj.
  - destruct (lookup_lt_is_Some_2 settings _ Hj) as [x E]. exists x. split; [done|]. split; [lia|].
    split; [done|]. left. by apply H2.
  - exists (mk_setting SPEED_10 DUPLEX_HALF SUPPORTED_10baseT_Half). split; [done|].
    split; [unfold MAX_NUM_SETTINGS in *; lia|]. split; [|by right].
    intros k z Hk. apply H3. unfold MAX_NUM_SETTINGS in *. lia.
Qed.

Lemma find_setting_lt sp dx : (phy_find_setting sp dx < MAX_NUM_SETTINGS)%nat.
Proof. unfold phy_find_setting, last_if_none, MAX_NUM_SETTINGS. case_bool_decide; lia. Qed.

(** The mode after [phy_sanitize_settings] *)
Lemma sanitize_mode y sp dx f (y' := phy_sanitize_settings y) :
  speed y = sp -> duplex y = dx -> supported y = f ->
  exists x, settings !! phy_find_valid (phy_find_setting sp dx) f = Some x /\
    speed y' = set_speed_to x /\ duplex y' = set_duplex_to x.
Proof.
  intros <- <- <-. unfold y', phy_sanitize_settings. cbv zeta. set (y1 := if _ =? _ then _ else y).
  assert (E : speed y1 = speed y /\ duplex y1 = duplex y /\ supported y1 = supported y)
    by (unfold y1; by destruct (_ =? 0)).
  destruct E as (-> & -> & ->).
  destruct (find_valid_spec _ (supported y) (find_setting_lt (speed y) (duplex y))) as (x & Ex & _).
  exists x. split; [done|]. unfold take_setting. by rewrite Ex.
Qed.

(** [phy_sanitize_settings] gives a mode of the table: the first one from the mode
    asked for downwards that the PHY supports, all the ones between being unsupported;
    and 10 Mb/s half duplex, supported or not, when there is none. *)
Theorem sanitize_first_supported y (i := phy_find_setting (speed y) (duplex y)) (y' := phy_sanitize_settings y) :
  exists j x, settings !! j = Some x /\ speed y' = set_speed_to x /\ duplex y' = set_duplex_to x /\
    (i <= j)%nat /\
    (forall k z, (i <= k < j)%nat -> settings !! k = Some z -> has (setting z) (supported y) = false) /\
    (has (setting x) (supported y) = true \/ x = mk_setting SPEED_10 DUPLEX_HALF SUPPORTED_10baseT_Half).
Proof.
  destruct (sanitize_mode y _ _ _ eq_refl eq_refl eq_refl) as (x & Ex & Es & Ed).
  destruct (find_valid_spec i (supported y) (find_setting_lt _ _)) as (x' & Ex' & H1 & H2 & H3).
  fold i in Ex. rewrite Ex in Ex'. injection Ex' as <-. by exists (phy_find_valid i (supported y)), x.
Qed.

(** ** Negotiation *)

(** The best mode that satisfies a test: the first of the table, and 10 Mb/s half duplex
    without one *)
Definition best_mode (ok : phy_setting -> bool) : Z * Z :=
  match List.find ok settings with
  | Some x => (set_speed_to x, set_duplex_to x)
  | None => (SPEED_10, DUPLEX_HALF)
  end.

(** The bit of a mode in the registers of the negotiation; modes above 100 Mb/s have none. *)
Definition mii_bit (x : phy_setting) : Z := ethtool_adv_to_mii_adv_t (setting x).

Lemma has_zero c : has c 0 = false.
Proof. unfold has. by rewrite Z.land_0_r. Qed.

Lemma has_100 c : has c (Z.lor LPA_100FULL LPA_100HALF) = has c LPA_100FULL || has c LPA_100HALF.
Proof.
  unfold has. rewrite Z.land_lor_distr_r. rewrite <- negb_andb. f_equal.
  destruct (Z.eqb_spec (Z.lor (Z.land c LPA_100FULL) (Z.land c LPA_100HALF)) 0) as [E|E].
  - apply Z.lor_eq_0_iff in E as [-> ->]. done.
  - destruct (Z.eqb_spec (Z.land c LPA_100FULL) 0) as [E1|]; [|done].
    destruct (Z.eqb_spec (Z.land c LPA_100HALF) 0) as [E2|]; [|done]. by rewrite E1, E2 in E.
Qed.

Lemma negotiated_best c y (y' := negotiated 0 c y) :
  (speed y', duplex y') = best_mode (fun x => has c (mii_bit x)).
Proof.
  unfold y', best_mode. cbn -[has negotiated Z.lor].
  change (mii_bit (mk_setting 10000 DUPLEX_FULL SUPPORTED_10000baseT_Full)) with 0.
  change (mii_bit (mk_setting SPEED_1000 DUPLEX_FULL SUPPORTED_1000baseT_Full)) with 0.
  change (mii_bit (mk_setting SPEED_1000 DUPLEX_HALF SUPPORTED_1000baseT_Half)) with 0.
  change (mii_bit (mk_setting SPEED_100 DUPLEX_FULL SUPPORTED_100baseT_Full)) with LPA_100FULL.
  change (mii_bit (mk_setting SPEED_100 DUPLEX_HALF SUPPORTED_100baseT_Half)) with LPA_100HALF.
  change (mii_bit (mk_setting SPEED_10 DUPLEX_FULL SUPPORTED_10baseT_Full)) with LPA_10FULL.
  rewrite has_zero. unfold negotiated. cbv zeta. rewrite has_100.
  change (has 0 (Z.lor LPA_1000FULL LPA_1000HALF)) with false.
  destruct (has c LPA_100FULL), (has c LPA_100HALF), (has c LPA_10FULL); try done; by destruct (has c (mii_bit _)).
Qed.

Lemma best_mode_ext ok ok' : Forall (fun x => ok x = ok' x) settings -> best_mode ok = best_mode ok'.
Proof.
  intros H. unfold best_mode. assert (List.find ok settings = List.find ok' settings) as ->; [|done].
  induction H as [|x l Hx _ IH]; [done|]. cbn. by rewrite Hx, IH.
Qed.

(** The advertisement register has the bit of a mode that is asked for, whatever was there. *)
Lemma new_adv_bit lpa old adv x b k :
  setting x = b -> mii_bit x = 2 ^ k -> 0 <= k -> Z.testbit adv_mask k = true ->
  Z.testbit (ethtool_adv_to_mii_adv_t adv) k = has adv b ->
  has (Z.land lpa (new_adv old adv)) (mii_bit x) = has adv (setting x) && has lpa (mii_bit x).
Proof.
  intros -> -> Hk Hm Hb. rewrite !has_bit by done. unfold new_adv.
  rewrite Z.land_spec, Z.lor_spec, Z.land_spec, Z.lnot_spec, Hm, Hb by done.
  by rewrite andb_false_r, andb_comm.
Qed.

Lemma adv_testbit adv k b :
  (k, b) ∈ [(5, SUPPORTED_10baseT_Half); (6, SUPPORTED_10baseT_Full); (7, SUPPORTED_100baseT_Half);
            (8, SUPPORTED_100baseT_Full)] ->
  Z.testbit (ethtool_adv_to_mii_adv_t adv) k = has adv b.
Proof.
  intros H. unfold ethtool_adv_to_mii_adv_t, add_if.
  repeat (apply elem_of_cons in H as [[= -> ->]|H];
          [by destruct (has adv SUPPORTED_10baseT_Half), (has adv SUPPORTED_10baseT_Full),
                (has adv SUPPORTED_100baseT_Half), (has adv SUPPORTED_100baseT_Full),
                (has adv SUPPORTED_Pause), (has adv SUPPORTED_Asym_Pause)|]).
  by apply elem_of_nil in H.
Qed.

Lemma advertised_best lpa old adv :
  best_mode (fun x => has (Z.land lpa (new_adv old adv)) (mii_bit x)) =
  best_mode (fun x => has adv (setting x) && has lpa (mii_bit x)).
Proof.
  apply best_mode_ext. repeat apply Forall_cons_2; [..|apply Forall_nil_2].
  1-3: match goal with |- has _ (mii_bit ?x) = _ => change (mii_bit x) with 0 end;
       by rewrite !has_zero, andb_false_r.
  1: eapply (new_adv_bit _ _ _ _ _ 8); [done|done|done|done|].
  2: eapply (new_adv_bit _ _ _ _ _ 7); [done|done|done|done|].
  3: eapply (new_adv_bit _ _ _ _ _ 6); [done|done|done|done|].
  4: eapply (new_adv_bit _ _ _ _ _ 5); [done|done|done|done|].
  all: apply adv_testbit; rewrite !elem_of_cons; auto 10.
Qed.

Section Use.
Context {D : Type} `{!Smsc D} (p : smsc911x_data) `{!MacChip D p} `{!MiiChip D p}.
Implicit Types s : dstate D.

Notation phys_of s := (mii_phys (mii (chip s))).

(** Negotiation from the request to the report; [e] is what the PHY and its partner do
    in between. *)
Definition renegotiate (e : D -> D) (y : phy_device) : drv D (Z * phy_device) :=
  '(r, y) ← config_aneg y;
  _ ← lib (fun d => (tt, e d));
  phy_read_status y.

(** The partner answers with its abilities [lpa]; the configuration stays. *)
Definition answers (a lpa : Z) (e : D -> D) : Prop :=
  forall d, mii_idle p d -> mii_idle p (e d) /\ mac_same p d (e d) /\
    phy_regs (mii_phys (mii (e d))) a MII_LPA = lpa /\
    forall r, config_reg r -> phy_regs (mii_phys (mii (e d))) a r = phy_regs (mii_phys (mii d)) a r.

Lemma crun_lib {B} (e : D -> D) (k : unit -> drv D B) s Q :
  crun (k tt) (with_chip s (e (chip s))) Q -> crun (_ ← lib (fun d => (tt, e d)); k tt) s Q.
Proof. intros (b & d & E & HQ). by exists b, d. Qed.

(** C11: negotiation finds the best common mode.  [genphy_config_aneg] followed by
    [genphy_read_status], for any abilities of the link partner and any earlier contents
    of the advertisement register, reports the fastest mode of the table (full duplex
    before half) that the user advertises, the PHY supports and the partner can do, and
    10 Mb/s half duplex if they have none in common; nothing but the chip changes. *)
Theorem negotiation_best e lpa y s :
  bus_free p s -> phy_at y -> autoneg y = AUTONEG_ENABLE -> no_gigabit y -> is_Some (phy_drv y) ->
  has (phy_regs (phys_of s) (phy_addr y) MII_BMCR) BMCR_RESET = false -> answers (phy_addr y) lpa e ->
  exists y' d, renegotiate e y s = Ret (0, y') (with_chip s d) /\
    (speed y', duplex y') = best_mode (fun x => has (Z.land (advertising y) (supported y)) (setting x) &&
                                                has lpa (mii_bit x)).
Proof.
  intros Hs Hy Ha Hg Hd Hr He. set (adv := Z.land (advertising y) (supported y)).
  set (old := phy_regs (phys_of s) (phy_addr y) MII_ADVERTISE).
  assert (H : crun (renegotiate e y) s (fun r _ => r.1 = 0 /\
    (speed r.2, duplex r.2) = best_mode (fun x => has adv (setting x) && has lpa (mii_bit x)))).
  { unfold renegotiate. apply crun_bind. eapply crun_mono; [by apply config_aneg_run|]. cbv zeta. fold adv old.
    intros [r y1] d1 (_ & E1 & [Hi1 Hm1] & Hadv). cbn [snd] in E1. subst y1. set (y1 := set_advertising adv y).
    apply (crun_lib e (fun _ => phy_read_status y1)). cbn [chip with_chip].
    destruct (He d1 Hi1) as (Hi2 & _ & Hlpa & Hcfg). unfold phy_read_status, get_drv.
    change (phy_drv y1) with (phy_drv y). destruct Hd as [dv ->]. apply crun_bind, crun_ret.
    eapply crun_mono; [apply (read_status_run p y1); [by repeat apply bus_free_chip|done|done|done]|].
    intros [r2 y2] d2 ([= -> ->] & _). cbn [fst snd chip with_chip]. split; [done|].
    rewrite negotiated_best. unfold common. cbn [phy_addr y1 set_advertising].
    rewrite Hlpa, Hcfg, Hadv by (by left || (intros [_ H]; congruence)). apply advertised_best. }
  destruct H as ([r y'] & d & E & Hr' & Hb). cbn [fst snd] in *. subst r. by exists y', d.
Qed.

(** *** Forced settings *)

(** A mode of the table that is supported stays. *)
Lemma sanitize_supported i x y :
  settings !! i = Some x -> speed y = set_speed_to x -> duplex y = set_duplex_to x ->
  has (setting x) (supported y) = true ->
  speed (phy_sanitize_settings y) = speed y /\ duplex (phy_sanitize_settings y) = duplex y.
Proof.
  intros Ex Es Ed Hx. destruct (sanitize_mode y _ _ _ Es Ed eq_refl) as (x' & Ex' & -> & ->). rewrite Es, Ed.
  assert (Hi : phy_find_setting (set_speed_to x) (set_duplex_to x) = i /\ (i < MAX_NUM_SETTINGS)%nat).
  { clear Ex'. do 7 (destruct i as [|i]; [injection Ex as <-; split; [done|unfold MAX_NUM_SETTINGS; lia]|]). done. }
  destruct Hi as [Hf Hi]. rewrite Hf in Ex'. assert (phy_find_valid i (supported y) = i) as E.
  { unfold phy_find_valid, MAX_NUM_SETTINGS. cbn [search]. rewrite Ex, Hx.
    unfold last_if_none. by rewrite bool_decide_eq_true_2. }
  rewrite E, Ex in Ex'. by injection Ex' as <-.
Qed.

(** The lock does not matter. *)
Lemma sanitize_lock l y :
  speed (phy_sanitize_settings (set_phy_lock l y)) = speed (phy_sanitize_settings y) /\
  duplex (phy_sanitize_settings (set_phy_lock l y)) = duplex (phy_sanitize_settings y).
Proof.
  destruct (sanitize_mode y _ _ _ eq_refl eq_refl eq_refl) as (x & Ex & -> & ->).
  destruct (sanitize_mode (set_phy_lock l y) (speed y) (duplex y) (supported y) eq_refl eq_refl eq_refl)
    as (x' & Ex' & -> & ->).
  rewrite Ex in Ex'. by injection Ex' as <-.
Qed.

Lemma forced_ctl_read i x y :
  settings !! i = Some x -> set_speed_to x <= SPEED_1000 ->
  let y' := forced (forced_ctl (set_speed_to x) (set_duplex_to x)) y in
  speed y' = set_speed_to x /\ duplex y' = set_duplex_to x.
Proof.
  intros Ex Hle. do 7 (destruct i as [|i]; [injection Ex as <-; try done|]). done.
Qed.

(** [phy_start_aneg] without negotiation: the control register holds the mode. *)
Lemma forced_aneg_run y z s :
  phy_sanitize_settings y = z ->
  with_phy p s y -> phy_lock y = false -> is_Some (phy_drv y) -> autoneg y = AUTONEG_DISABLE ->
  wp phy_start_aneg (fun _ s' => exists y', with_phy p s' y' /\ same_core y y' /\ autoneg y' = autoneg y /\
    phy_regs (phys_of s') (phy_addr y) MII_BMCR = forced_ctl (speed z) (duplex z)) s.
Proof.
  intros <- Hs Hl Hd Ha. destruct (sanitize_lock true y) as [<- <-]. eapply wp_mono; [|by apply (aneg_forced_run p y)].
  intros e s' (y' & (_ & _ & H1 & _ & H2 & H3 & _) & Hreg). by exists y'.
Qed.

(** Settings that are stored, and read back after the PHY reported its status *)
Definition set_and_get (e : D -> D) (c c0 : ethtool_cmd) : drv D (Z * ethtool_cmd) :=
  _ ← smsc911x_ethtool_setsettings c;
  _ ← lib (fun d => (tt, e d));
  _ ← on_phy phy_read_status;
  smsc911x_ethtool_getsettings c0.

(** A command that forces the mode [x] of the table on the PHY [y] *)
Record forces (c : ethtool_cmd) (x : phy_setting) (y : phy_device) : Prop := {
  forces_autoneg : ec_autoneg c = AUTONEG_DISABLE;
  forces_address : ec_phy_address c = phy_addr y;
  forces_speed : ec_speed c = set_speed_to x;
  forces_speed_hi : ec_speed_hi c = 0;
  forces_duplex : ec_duplex c = set_duplex_to x }.

Lemma forces_stored i x c y (y1 := store_settings c y) :
  settings !! i = Some x -> set_speed_to x <= SPEED_1000 -> forces c x y ->
  settings_ok c (Z.land (ec_advertising c) (supported y)) = true /\
  ethtool_cmd_speed c = set_speed_to x /\ speed y1 = set_speed_to x /\ duplex y1 = set_duplex_to x.
Proof.
  intros Ex Hle [Ha _ Hsp Hhi Hdx].
  assert (Hspeed : ethtool_cmd_speed c = set_speed_to x) by (unfold ethtool_cmd_speed; by rewrite Hhi, Hsp).
  unfold y1. cbn. unfold settings_ok. rewrite Hspeed, Ha, Hdx.
  do 7 (destruct i as [|i]; [injection Ex as <-; by vm_compute|]). done.
Qed.

Lemma wp_forced_status {B} i x y (k : Z -> drv D B) Q s :
  settings !! i = Some x -> set_speed_to x <= SPEED_1000 ->
  with_phy p s y -> is_Some (phy_drv y) -> autoneg y = AUTONEG_DISABLE ->
  phy_regs (phys_of s) (phy_addr y) MII_BMCR = forced_ctl (set_speed_to x) (set_duplex_to x) ->
  (forall s' y', phy_dev (pd s') = Some y' -> phy_addr y' = phy_addr y -> autoneg y' = AUTONEG_DISABLE ->
     speed y' = set_speed_to x -> duplex y' = set_duplex_to x -> wp (k 0) Q s') ->
  wp (on_phy phy_read_status ≫= k) Q s.
Proof.
  intros Ex Hle Hs [dv Ed] Ha Hreg Hk. apply (wp_on_phy_at y); [apply Hs|].
  unfold phy_read_status, get_drv. rewrite Ed. apply crun_bind, crun_ret. rewrite with_chip_id.
  eapply crun_mono; [apply (read_forced_run p); [apply Hs|apply Hs|done]|]. cbv beta.
  intros r d (-> & _). cbn [fst snd]. rewrite Hreg. set (y1 := set_link _ y).
  destruct (forced_ctl_read i x y1 Ex Hle) as [E1 E2].
  eapply (Hk _ (forced (forced_ctl (set_speed_to x) (set_duplex_to x)) y1)); done.
Qed.

Lemma u8_addr y : phy_at y -> u8 (phy_addr y) = phy_addr y.
Proof. intros [H1 H2]. apply Z.mod_small. lia. Qed.

Lemma read_back i x :
  settings !! i = Some x ->
  Z.lor (Z.shiftl (u16 (Z.shiftr (u32 (set_speed_to x)) 16)) 16) (u16 (set_speed_to x)) = set_speed_to x /\
  u8 (set_duplex_to x) = set_duplex_to x.
Proof. intros Ex. do 7 (destruct i as [|i]; [injection Ex as <-; done|]). done. Qed.

(** C21: forced settings round trip.  A supported mode of at most 1000 Mb/s that is set
    with [smsc911x_ethtool_setsettings] goes through the control register of the PHY,
    is reported by [genphy_read_status] and comes back from
    [smsc911x_ethtool_getsettings] unchanged. *)
Theorem settings_roundtrip e lpa i x c c0 y s :
  with_phy p s y -> phy_lock y = false -> is_Some (phy_drv y) -> answers (phy_addr y) lpa e ->
  settings !! i = Some x -> set_speed_to x <= SPEED_1000 -> has (setting x) (supported y) = true ->
  forces c x y ->
  exists s' c', set_and_get e c c0 s = Ret (0, c') s' /\
    ec_autoneg c' = ec_autoneg c /\ ec_phy_address c' = ec_phy_address c /\
    ethtool_cmd_speed c' = ethtool_cmd_speed c /\ ec_duplex c' = ec_duplex c.
Proof.
  intros Hs Hl Hd He Ex Hle Hx Hc. destruct (forces_stored i x c y Ex Hle Hc) as (Hok & Hspeed & Hs1 & Hd1).
  pose proof Hc as [Ha Hadr _ _ Hdx]. set (y1 := store_settings c y) in *.
  destruct (sanitize_supported i x y1 Ex Hs1 Hd1 Hx) as [Es1 Ed1].
  assert (H : wp (set_and_get e c c0) (fun r _ => r.1 = 0 /\ ec_autoneg r.2 = AUTONEG_DISABLE /\
    ec_phy_address r.2 = phy_addr y /\ ethtool_cmd_speed r.2 = set_speed_to x /\ ec_duplex r.2 = set_duplex_to x) s).
  2: { apply wp_run in H as ([r c'] & s' & E & H0 & H1 & H2 & H3 & H4). cbn [fst snd] in *. subst r.
       exists s', c'. split; [done|]. rewrite H1, H2, H3, H4. split_and!; congruence. }
  unfold set_and_get, smsc911x_ethtool_setsettings, phy_ethtool_sset. apply wp_bind, (wp_get_phy_at y); [apply Hs|].
  rewrite Hadr, Z.eqb_refl, Hok. cbn [negb]. apply (wp_upd_phy_at y); [apply Hs|]. fold y1. apply wp_bind.
  assert (H1 : with_phy p (put s y1) y1) by (by eapply with_phy_put).
  eapply wp_mono; [|apply (forced_aneg_run y1 _ _ eq_refl H1); [done|done|exact Ha]].
  rewrite Es1, Ed1, Hs1, Hd1. clear Es1 Ed1. intros _ s2 (y2 & H2 & (Ea & Edrv & _) & Eau & Hreg).
  apply wp_ret, wp_bind. change (phy_addr y1) with (phy_addr y) in *. change (phy_drv y1) with (phy_drv y) in *.
  destruct (He (chip s2)) as (Hi & Hm & _ & Hcfg); [apply H2|]. unfold wp at 1. cbn [lib].
  eapply (wp_forced_status i x y2); [done|done|by apply with_phy_chip|by rewrite Edrv|by rewrite Eau| |].
  { cbn [chip with_chip snd]. rewrite Ea, Hcfg by (by right). exact Hreg. }
  intros s3 y3 Ep Ea3 Eau3 Es3 Ed3. unfold smsc911x_ethtool_getsettings, phy_ethtool_gset.
  apply (wp_get_phy_at y3); [done|]. apply wp_ret. split; [done|].
  cbn [snd ec_autoneg ec_phy_address ec_duplex]. rewrite Eau3, Ea3, Ea, Ed3. split; [done|].
  split; [apply u8_addr, Hs|]. unfold ethtool_cmd_speed. cbn [ec_speed ec_speed_hi]. rewrite Es3.
  by apply (read_back i).
Qed.

(** *** The advertisement register through the ioctl *)

(** A user program writes the register with [SIOCSMIIREG] and restarts the negotiation. *)
Definition write_advertise (addr val : Z) : drv D Z :=
  _ ← phy_mii_ioctl (mk_mii addr MII_ADVERTISE val 0) SIOCSMIIREG;
  smsc911x_ethtool_nwayreset.

(** C36: an advertisement written through the ioctl is lost.  [phy_mii_ioctl] stores the
    value of the register as the mask [phydev->advertising], whose bits have another
    meaning; the next negotiation translates them again, so it does not advertise the
    modes of [val] but the ones whose ethtool bits happen to be set in it.  (The value
    0x01e1, all modes of 10 and 100 Mb/s, becomes 0x0021, 10 Mb/s half duplex alone.) *)
Theorem ioctl_advertise_lost val y s :
  with_phy p s y -> phy_lock y = false -> is_Some (phy_drv y) -> no_gigabit y -> autoneg y = AUTONEG_ENABLE ->
  is_u16 val ->
  has (phy_regs (phys_of s) (phy_addr y) MII_BMCR) BMCR_RESET = false ->
  exists r s', write_advertise (phy_addr y) val s = Ret r s' /\
    phy_regs (phys_of s') (phy_addr y) MII_ADVERTISE = new_adv val (Z.land val (supported y)).
Proof.
  intros Hs Hl Hdrv Hg Ha Hv Hr. apply wp_run. unfold write_advertise, phy_mii_ioctl. apply wp_bind.
  cbv zeta. apply (wp_get_phy_at y); [apply Hs|]. cbn [reg_num phy_id val_in].
  rewrite !Z.eqb_refl. cbn [Z.eqb SIOCSMIIREG SIOCGMIIPHY SIOCGMIIREG MII_ADVERTISE MII_BMCR Pos.eqb andb].
  apply (wp_upd_phy_at y); [apply Hs|]. set (y1 := set_advertising val y).
  assert (H1 : with_phy p (put s y1) y1) by (by eapply with_phy_put).
  apply wp_bind. eapply wp_crun.
  { apply (mii_write_run p); [apply H1|apply H1|apply H1|split; [apply H1|done]|done]. }
  intros e d (_ & Hi & Hm & Hk & Ho). apply wp_bind, wp_ret, wp_ret. unfold smsc911x_ethtool_nwayreset.
  assert (H2 : with_phy p (with_chip (put s y1) d) y1) by (by apply with_phy_chip).
  eapply wp_mono; [|by apply (aneg_auto_run p y1)].
  intros r s' (y' & _ & Hadv). cbn [chip with_chip advertising supported phy_addr y1 set_advertising] in Hadv.
  rewrite Hadv; [by rewrite Hk by (by left)|]. intros [_ Hb].
  rewrite (Ho MII_BMCR) in Hb; [|by right|done|by intros []]. cbn [chip put with_pd] in Hb. congruence.
Qed.

End Use.

(** ** On a concrete chip *)

#[local] Existing Instance mii_demo_chip.
#[local] Existing Instance mii_demo_mac.
#[local] Existing Instance mii_demo_protocol.

(** The partner can do 100 Mb/s half duplex and less. *)
Definition partner_half (d : mii_demo) : mii_demo :=
  mk_mii_demo (md_regs d) (md_csr d) (md_busy d) (md_left d) (md_data d)
    (fun a r => if r =? MII_LPA then 0x40e1 else md_phys d a r).

Lemma partner_half_answers : answers demo_bus 1 0x40e1 partner_half.
Proof. intros d Hd. split; [done|]. split; [done|]. split; [done|]. by intros r [-> | ->]. Qed.

Lemma negotiation_best_witness :
  exists y' d, renegotiate partner_half link_phy link_state = Ret (0, y') (with_chip link_state d) /\
    (speed y', duplex y') = (SPEED_100, DUPLEX_HALF).
Proof.
  destruct (negotiation_best demo_bus partner_half 0x40e1 link_phy link_state) as (y' & d & E & Hb);
    [apply link_state_polled|by split|done|done|by exists lan911x_int_driver|done|apply partner_half_answers|].
  exists y', d. split; [exact E|]. rewrite Hb. reflexivity.
Defined.

Definition force_100_full : ethtool_cmd := mk_cmd 0 0 100 1 0 1 0 0 0 0 0.

Lemma settings_roundtrip_witness :
  exists s' c', set_and_get partner_half force_100_full force_100_full link_state = Ret (0, c') s' /\
    ethtool_cmd_speed c' = 100 /\ ec_duplex c' = DUPLEX_FULL.
Proof.
  destruct (settings_roundtrip demo_bus partner_half 0x40e1 3
    (mk_setting SPEED_100 DUPLEX_FULL SUPPORTED_100baseT_Full) force_100_full force_100_full link_phy link_state)
    as (s' & c' & E & _ & _ & Hs & Hd);
    [apply link_state_polled|done|by exists lan911x_int_driver|apply partner_half_answers|done|done|done|done|].
  exists s', c'. exact (conj E (conj Hs Hd)).
Defined.

Lemma ioctl_advertise_lost_witness :
  exists r s', write_advertise 1 0x01e1 link_state = Ret r s' /\
    phy_regs (mii_phys (mii (chip s'))) 1 MII_ADVERTISE = 0x0021.
Proof.
  destruct (ioctl_advertise_lost demo_bus 0x01e1 link_phy link_state) as (r & s' & E & Hreg);
    [apply link_state_polled|done|by exists lan911x_int_driver|done|done|done|done|].
  exists r, s'. split; [exact E|]. exact Hreg.
Defined.
