(* ===== verification/PhyRegistry.v ===== *)
(** * The registries of the PHY library (linux/drivers/net/phy/phy_device.c, mdio_bus.c
    and smsc.c)

    The entry points of the two modules, with everything they register and take back;
    the driver a PHY gets; the fixups of a board and the PHYs they are run on; and
    connecting to a PHY by its name.  The driver core of the kernel is an interface. *)

From stdpp Require Import gmap.
From S2P Require Import Prelude SmscDefs SmscIo SmscMac SmscRun SmscPhy PhyLib SmscNetdev.

(** ** The driver core *)

(** What the PHY library has registered: the class of the buses, the type of bus, and the
    PHY drivers in the order in which a new device is offered to them *)
Record registered := mk_registered {
  class_known : bool;
  bus_known : bool;
  drivers_known : list phy_driver }.

(** The operations of the core on its state [K] *)
Class DriverCore (K : Type) := {
  known : K -> registered;
  class_register : K -> Z * K;
  class_unregister : K -> K;
  bus_register : K -> Z * K;
  bus_unregister : K -> K;
  driver_register : phy_driver -> K -> Z * K;
  driver_unregister : phy_driver -> K -> K }.

(** What the core promises: something is registered once at most, a registration that
    fails leaves nothing behind, and what is taken back is gone. *)
Class DriverCoreLaws (K : Type) `{!DriverCore K} : Prop := {
  class_register_law : forall k,
    let '(r, k') := class_register k in
    if r =? 0 then class_known (known k) = false /\ known k' = mk_registered true (bus_known (known k)) (drivers_known (known k))
    else known k' = known k;
  class_unregister_law : forall k,
    known (class_unregister k) = mk_registered false (bus_known (known k)) (drivers_known (known k));
  bus_register_law : forall k,
    let '(r, k') := bus_register k in
    if r =? 0 then bus_known (known k) = false /\ known k' = mk_registered (class_known (known k)) true (drivers_known (known k))
    else known k' = known k;
  bus_unregister_law : forall k,
    known (bus_unregister k) = mk_registered (class_known (known k)) false (drivers_known (known k));
  driver_register_law : forall d k,
    let '(r, k') := driver_register d k in
    if r =? 0 then
      (d ∉ drivers_known (known k)) /\
      known k' = mk_registered (class_known (known k)) (bus_known (known k)) (drivers_known (known k) ++ [d])
    else known k' = known k;
  driver_unregister_law : forall d k,
    known (driver_unregister d k) =
    mk_registered (class_known (known k)) (bus_known (known k)) (filter (fun d' => d' <> d) (drivers_known (known k))) }.

(** ** The modules *)

Section Modules.
Context {K : Type} `{!DriverCore K}.

(** [mdio_bus_init] and [mdio_bus_exit] *)
Definition mdio_bus_init (k : K) : Z * K :=
  let '(ret, k) := class_register k in
  if ret =? 0 then
    let '(ret, k) := bus_register k in
    if negb (ret =? 0) then (ret, class_unregister k) else (ret, k)
  else (ret, k).

Definition mdio_bus_exit (k : K) : K := bus_unregister (class_unregister k).

(** [phy_driver_register] and [phy_driver_unregister] *)
Definition phy_driver_register (d : phy_driver) (k : K) : Z * K :=
  let '(retval, k) := driver_register d k in
  if negb (retval =? 0) then (retval, k) else (0, k).

Definition phy_driver_unregister (d : phy_driver) (k : K) : K := driver_unregister d k.

(** [phy_init] and [phy_exit] *)
Definition phy_init (k : K) : Z * K :=
  let '(rc, k) := mdio_bus_init k in
  if negb (rc =? 0) then (rc, k)
  else
    let '(rc, k) := phy_driver_register genphy_driver k in
    (rc, if negb (rc =? 0) then mdio_bus_exit k else k).

Definition phy_exit (k : K) : K := mdio_bus_exit (phy_driver_unregister genphy_driver k).

(** The labels [err1] to [err5] of [smsc_init] *)
Definition err1 (ret : Z) (k : K) : Z * K := (ret, k).
Definition err2 (ret : Z) (k : K) : Z * K := err1 ret (phy_driver_unregister lan83c185_driver k).
Definition err3 (ret : Z) (k : K) : Z * K := err2 ret (phy_driver_unregister lan8187_driver k).
Definition err4 (ret : Z) (k : K) : Z * K := err3 ret (phy_driver_unregister lan8700_driver k).
Definition err5 (ret : Z) (k : K) : Z * K := err4 ret (phy_driver_unregister lan911x_int_driver k).

(** [smsc_init] and [smsc_exit] *)
Definition smsc_init (k : K) : Z * K :=
  let '(ret, k) := phy_driver_register lan83c185_driver k in
  if negb (ret =? 0) then err1 ret k else
  let '(ret, k) := phy_driver_register lan8187_driver k in
  if negb (ret =? 0) then err2 ret k else
  let '(ret, k) := phy_driver_register lan8700_driver k in
  if negb (ret =? 0) then err3 ret k else
  let '(ret, k) := phy_driver_register lan911x_int_driver k in
  if negb (ret =? 0) then err4 ret k else
  let '(ret, k) := phy_driver_register lan8710_driver k in
  if negb (ret =? 0) then err5 ret k else (0, k).

Definition smsc_exit (k : K) : K :=
  phy_driver_unregister lan83c185_driver (phy_driver_unregister lan8187_driver
    (phy_driver_unregister lan8700_driver (phy_driver_unregister lan911x_int_driver
      (phy_driver_unregister lan8710_driver k)))).

End Modules.

(** The table [smsc_tbl], by which the module is loaded: identifiers and masks *)
Definition smsc_tbl : list (Z * Z) :=
  [(0x0007c0a0, 0xfffffff0); (0x0007c0b0, 0xfffffff0); (0x0007c0c0, 0xfffffff0);
   (0x0007c0d0, 0xfffffff0); (0x0007c0f0, 0xfffffff0)].

(** ** Fixups *)

(** [PHY_ANY_ID], "MATCH ANY PHY", and [PHY_ANY_UID] *)
Definition PHY_ANY_ID : list Z := [77; 65; 84; 67; 72; 32; 65; 78; 89; 32; 80; 72; 89].
Definition PHY_ANY_UID : Z := 0xffffffff.

(** The string in an array of characters, and [strcmp] of two strings for equality *)
Fixpoint c_string (l : list Z) : list Z :=
  match l with
  | [] => []
  | c :: l => if c =? 0 then [] else c :: c_string l
  end.

Definition strcmp_ne (a b : list Z) : bool := negb (bool_decide (c_string a = c_string b)).

(** The name of a PHY, by [PHY_ID_FMT]: "%s:%02x" *)
Definition hex_digit (n : Z) : Z := if n <? 10 then 48 + n else 87 + n.
Definition phy_name (bus_id : list Z) (addr : Z) : list Z :=
  bus_id ++ [58; hex_digit (addr / 16); hex_digit (addr mod 16)].

Section Fixups.
Context {D : Type} `{!Smsc D} `{!DeviceModel D}.

(** [struct phy_fixup] *)
Record phy_fixup := mk_fixup {
  fix_bus_id : list Z;
  fix_uid : Z;
  fix_mask : Z;
  fix_run : phy_device -> drv D (Z * phy_device) }.

(** [phy_register_fixup]; [mem] is the result of [kzalloc]. *)
Definition phy_register_fixup (mem : bool) (bus_id : list Z) (uid mask : Z)
    (run : phy_device -> drv D (Z * phy_device)) (phy_fixup_list : list phy_fixup) : Z * list phy_fixup :=
  if negb mem then (- ENOMEM, phy_fixup_list)
  else (0, phy_fixup_list ++ [mk_fixup (strlcpy (replicate 20 0) bus_id 20) uid mask run]).

Definition phy_register_fixup_for_uid (mem : bool) (uid mask : Z)
    (run : phy_device -> drv D (Z * phy_device)) (phy_fixup_list : list phy_fixup) : Z * list phy_fixup :=
  phy_register_fixup mem PHY_ANY_ID uid mask run phy_fixup_list.

Definition phy_register_fixup_for_id (mem : bool) (bus_id : list Z)
    (run : phy_device -> drv D (Z * phy_device)) (phy_fixup_list : list phy_fixup) : Z * list phy_fixup :=
  phy_register_fixup mem bus_id PHY_ANY_UID 0xffffffff run phy_fixup_list.

(** [phy_needs_fixup], for a PHY with the name [name] *)
Definition phy_needs_fixup (name : list Z) (y : phy_device) (fixup : phy_fixup) : bool :=
  if strcmp_ne (fix_bus_id fixup) name && strcmp_ne (fix_bus_id fixup) PHY_ANY_ID then false
  else if negb (Z.land (fix_uid fixup) (fix_mask fixup) =? Z.land (phy_uid y) (fix_mask fixup))
          && negb (fix_uid fixup =? PHY_ANY_UID) then false
  else true.

(** [phy_scan_fixups] *)
Fixpoint phy_scan_fixups (name : list Z) (phy_fixup_list : list phy_fixup) (y : phy_device)
    : drv D (Z * phy_device) :=
  match phy_fixup_list with
  | [] => mret (0, y)
  | fixup :: l =>
      if phy_needs_fixup name y fixup then
        '(err, y) ← fix_run fixup y;
        if err <? 0 then mret (err, y) else phy_scan_fixups name l y
      else phy_scan_fixups name l y
  end.

(** ** Connecting by name *)

(** [bus_find_device_by_name] among the devices of a bus, each with its name *)
Definition bus_find_device_by_name (devices : list (list Z * phy_device)) (name : list Z) : option phy_device :=
  (list_find (fun d => d.1 = name) devices) ≫= fun '(_, (_, y)) => Some y.

(** [phy_connect]: the PHY, or an error *)
Definition phy_connect (devices : list (list Z * phy_device)) (bus_id : list Z) : drv D (Z + phy_device) :=
  match bus_find_device_by_name devices bus_id with
  | None => mret (inl (- ENODEV))
  | Some y =>
      '(rc, y) ← phy_connect_direct y;
      if negb (rc =? 0) then mret (inl rc) else mret (inr y)
  end.

(** [phy_attach] *)
Definition phy_attach (devices : list (list Z * phy_device)) (bus_id : list Z) : drv D (Z + phy_device) :=
  match bus_find_device_by_name devices bus_id with
  | None => mret (inl (- ENODEV))
  | Some y =>
      '(rc, y) ← phy_attach_direct y;
      if negb (rc =? 0) then mret (inl rc) else mret (inr y)
  end.

End Fixups.
Arguments phy_fixup D : clear implicits.

(** ** What the modules register *)

(** The drivers of [smsc_init] in the order of their registration *)
Definition smsc_drivers : list phy_driver :=
  [lan83c185_driver; lan8187_driver; lan8700_driver; lan911x_int_driver; lan8710_driver].

Definition with_drivers (l : list phy_driver) (r : registered) : registered :=
  mk_registered (class_known r) (bus_known r) l.

Section ModuleLaws.
Context {K : Type} `{!DriverCore K} `{!DriverCoreLaws K}.

(** Something is registered, or the core is as it was. *)
Lemma register_run d k :
  let '(r, k') := phy_driver_register d k in
  if r =? 0 then
    (d ∉ drivers_known (known k)) /\ known k' = with_drivers (drivers_known (known k) ++ [d]) (known k)
  else known k' = known k.
Proof.
  unfold phy_driver_register. pose proof (driver_register_law d k) as H.
  destruct (driver_register d k) as [r k']. destruct (r =? 0) eqn:Er; cbn [negb]; [exact H|].
  by rewrite Er.
Qed.

Lemma filter_absent (d : phy_driver) (l : list phy_driver) : (d ∉ l) -> filter (fun d' => d' <> d) l = l.
Proof.
  induction l as [|x l IH]; [done|]. intros [Hx Hl]%not_elem_of_cons.
  rewrite filter_cons_True by (intros ->; done). by rewrite IH.
Qed.

Lemma unregister_last d k l r :
  (d ∉ l) -> known k = with_drivers (l ++ [d]) r ->
  known (phy_driver_unregister d k) = with_drivers l r.
Proof.
  intros Hd Hk. unfold phy_driver_unregister. rewrite driver_unregister_law, Hk.
  unfold with_drivers; cbn [class_known bus_known drivers_known]. f_equal.
  rewrite list.filter_app, filter_cons_False, filter_nil, app_nil_r by (intros H; by apply H).
  by apply filter_absent.
Qed.

(** The drivers [ds] were registered one after the other since the state [k0]. *)
Fixpoint fresh (l ds : list phy_driver) : Prop :=
  match ds with
  | [] => True
  | d :: ds => (d ∉ l) /\ fresh (l ++ [d]) ds
  end.

Definition grown (k0 : K) (ds : list phy_driver) (k : K) : Prop :=
  fresh (drivers_known (known k0)) ds /\
  known k = with_drivers (drivers_known (known k0) ++ ds) (known k0).

Lemma fresh_snoc l ds d : fresh l ds -> (d ∉ l ++ ds) -> fresh l (ds ++ [d]).
Proof.
  revert l. induction ds as [|x ds IH]; intros l; cbn; [rewrite app_nil_r; auto|].
  intros [Hx Hds] Hd. split; [done|]. apply IH; [done|]. by rewrite <- app_assoc.
Qed.

Lemma grown_nil k : grown k [] k.
Proof. split; [done|]. rewrite app_nil_r. by destruct (known k). Qed.

Lemma grown_register k0 ds k d :
  grown k0 ds k ->
  let '(r, k') := phy_driver_register d k in
  if r =? 0 then grown k0 (ds ++ [d]) k' else grown k0 ds k'.
Proof.
  intros [Hf Hk]. pose proof (register_run d k) as H. destruct (phy_driver_register d k) as [r k'].
  destruct (r =? 0); [|by split; [|rewrite H]].
  destruct H as [Hd H]. rewrite Hk in Hd, H. split; [by apply fresh_snoc|].
  rewrite H, app_assoc. done.
Qed.

(** Taking the drivers back in the opposite order *)
Lemma grown_undo k0 ds k :
  grown k0 ds k -> known (foldr phy_driver_unregister k ds) = known k0.
Proof.
  intros [Hf Hk].
  assert (forall l, fresh l ds -> known k = with_drivers (l ++ ds) (known k0) ->
    known (foldr phy_driver_unregister k ds) = with_drivers l (known k0)) as H.
  { clear Hf Hk. induction ds as [|d ds IH]; intros l; cbn [foldr fresh]; [by rewrite app_nil_r|].
    intros [Hd Hf] Hk. apply unregister_last; [done|]. apply IH; [done|]. by rewrite <- app_assoc. }
  rewrite (H _ Hf Hk). by destruct (known k0).
Qed.

(** One registration in [smsc_init] after the drivers [ds] *)
Lemma register_step (Q : Z * K -> Prop) k0 ds k d (fail next : Z -> K -> Z * K) :
  grown k0 ds k ->
  (forall r k', r <> 0 -> grown k0 ds k' -> Q (fail r k')) ->
  (forall k', grown k0 (ds ++ [d]) k' -> Q (next 0 k')) ->
  Q (let '(r, k') := phy_driver_register d k in if negb (r =? 0) then fail r k' else next r k').
Proof.
  intros Hk Hfail Hnext. pose proof (grown_register k0 ds k d Hk) as H.
  destruct (phy_driver_register d k) as [r k']. destruct (Z.eqb_spec r 0) as [->|Hr]; cbn [negb]; auto.
Qed.

Lemma smsc_init_run k :
  let '(r, k') := smsc_init k in
  if r =? 0 then grown k smsc_drivers k' else known k' = known k.
Proof.
  set (Q := fun p : Z * K => let '(r, k') := p in if r =? 0 then grown k smsc_drivers k' else known k' = known k).
  change (Q (smsc_init k)).
  assert (Hfail : forall ds r k', r <> 0 -> grown k ds k' -> Q (r, foldr phy_driver_unregister k' ds)).
  { intros ds r k' Hr H. cbn. rewrite (proj2 (Z.eqb_neq r 0) Hr). by apply grown_undo. }
  unfold smsc_init.
  apply (register_step Q k [] k lan83c185_driver err1); [apply grown_nil|apply (Hfail [])|intros k1 H1].
  eapply (register_step Q k _ k1 lan8187_driver err2); [exact H1|apply (Hfail [_])|intros k2 H2].
  eapply (register_step Q k _ k2 lan8700_driver err3); [exact H2|apply (Hfail [_; _])|intros k3 H3].
  eapply (register_step Q k _ k3 lan911x_int_driver err4); [exact H3|apply (Hfail [_; _; _])|intros k4 H4].
  eapply (register_step Q k _ k4 lan8710_driver err5 (fun _ k => (0, k)));
    [exact H4|apply (Hfail [_; _; _; _])|intros k5 H5; exact H5].
Qed.

Lemma mdio_bus_init_run k :
  let '(r, k') := mdio_bus_init k in
  if r =? 0 then class_known (known k) = false /\ bus_known (known k) = false /\
                 known k' = mk_registered true true (drivers_known (known k))
  else known k' = known k.
Proof.
  unfold mdio_bus_init. pose proof (class_register_law k) as H. destruct (class_register k) as [r k1].
  destruct (r =? 0) eqn:Er; [|by rewrite Er]. destruct H as [Hc H].
  pose proof (bus_register_law k1) as H2. destruct (bus_register k1) as [r2 k2].
  destruct (r2 =? 0) eqn:Er2; cbn [negb]; rewrite Er2.
  - destruct H2 as [Hb H2]. rewrite H in Hb, H2. done.
  - rewrite class_unregister_law, H2, H. cbn. destruct (known k); cbn in *; by subst.
Qed.

Lemma mdio_bus_exit_run k : known (mdio_bus_exit k) = mk_registered false false (drivers_known (known k)).
Proof. unfold mdio_bus_exit. by rewrite bus_unregister_law, class_unregister_law. Qed.

Lemma phy_init_run k :
  let '(r, k') := phy_init k in
  if r =? 0 then known k' = mk_registered true true (drivers_known (known k) ++ [genphy_driver]) /\
                 known (phy_exit k') = known k
  else known k' = known k.
Proof.
  unfold phy_init. pose proof (mdio_bus_init_run k) as H. destruct (mdio_bus_init k) as [r k1].
  destruct (r =? 0) eqn:Er; cbn [negb]; [|by rewrite Er]. destruct H as (Hc & Hb & H).
  assert (Hk : known k = mk_registered false false (drivers_known (known k))) by (by destruct (known k); cbn in *; subst).
  pose proof (grown_register k1 [] k1 genphy_driver (grown_nil k1)) as H2.
  destruct (phy_driver_register genphy_driver k1) as [r2 k2]. destruct (r2 =? 0); cbn [negb].
  - pose proof (grown_undo _ _ _ H2) as Hu. destruct H2 as [_ H2]. rewrite H in H2.
    split; [exact H2|]. unfold phy_exit. rewrite mdio_bus_exit_run. cbn in Hu. rewrite Hu, H. done.
  - destruct H2 as [_ H2]. rewrite mdio_bus_exit_run, H2, H, app_nil_r. done.
Qed.

(** C23: Loading either module registers everything it has and reports success, or it reports
    an error and has registered nothing, wherever the registration failed; and a module
    that was loaded takes back exactly what it registered. *)
Theorem modules_all_or_nothing k :
  (let '(r, k') := phy_init k in
   if r =? 0 then known k' = mk_registered true true (drivers_known (known k) ++ [genphy_driver]) /\
                  known (phy_exit k') = known k
   else known k' = known k) /\
  (let '(r, k') := smsc_init k in
   if r =? 0 then known k' = with_drivers (drivers_known (known k) ++ smsc_drivers) (known k) /\
                  known (smsc_exit k') = known k
   else known k' = known k).
Proof.
  split; [apply phy_init_run|]. pose proof (smsc_init_run k) as H. destruct (smsc_init k) as [r k'].
  destruct (r =? 0); [|done]. split; [apply H|]. apply (grown_undo k smsc_drivers k' H).
Qed.

End ModuleLaws.

(** *** The driver of a PHY *)

(** The identifiers for which [get_phy_device] makes a PHY *)
Definition phy_present (uid : Z) : Prop := 0 <= uid < 2 ^ 32 /\ Z.land uid 0x1fffffff <> 0x1fffffff.

Lemma genphy_never_matches uid : phy_present uid -> mdio_bus_match uid genphy_driver = false.
Proof.
  intros [Hu Hn]. unfold mdio_bus_match. apply Z.eqb_neq. cbn [drv_phy_id drv_phy_id_mask]. intros H.
  apply Hn. change 0xffffffff with (Z.ones 32) in H. rewrite Z.land_diag, Z.land_ones, Z.mod_small in H by lia.
  rewrite <- H. reflexivity.
Qed.

Lemma match_unique uid d d' :
  phy_present uid -> mdio_bus_match uid d = true -> mdio_bus_match uid d' = true -> d = d'.
Proof.
  intros Hu. pose proof (genphy_never_matches uid Hu) as Hg. unfold mdio_bus_match in *.
  destruct d, d'; try congruence; cbn [drv_phy_id drv_phy_id_mask];
    intros H%Z.eqb_eq H'%Z.eqb_eq; rewrite <- H in H'; discriminate H'.
Qed.

(** A PHY gets the one driver that is made for it, in whatever order the drivers were
    registered. *)
Theorem driver_choice uid ds d :
  phy_present uid ->
  ((exists i, list_find (mdio_bus_match uid) ds = Some (i, d)) <-> d ∈ ds /\ mdio_bus_match uid d = true).
Proof.
  intros Hu. split.
  - intros [i (Hi & Hm & _)%list_find_Some]. split; [by eapply list_elem_of_lookup_2|by destruct (mdio_bus_match uid d)].
  - intros [Hd Hm]. destruct (list_find (mdio_bus_match uid) ds) as [[i d']|] eqn:E.
    + exists i. apply list_find_Some in E as (_ & Hm' & _).
      rewrite (match_unique uid d d'); [done..|]. by destruct (mdio_bus_match uid d').
    + apply list_find_None in E. destruct (proj1 (list.Forall_forall _ _) E d Hd). by rewrite Hm.
Qed.

(** With both modules loaded, a PHY gets the driver of [smsc_init] that has its
    identifier, and none exactly if the table of the module does not name it. *)
Theorem loaded_drivers_bind {K} `{!DriverCore K} `{!DriverCoreLaws K} k k1 k2 uid :
  drivers_known (known k) = [] -> phy_init k = (0, k1) -> smsc_init k1 = (0, k2) -> phy_present uid ->
  (forall d, (exists i, list_find (mdio_bus_match uid) (drivers_known (known k2)) = Some (i, d)) <->
             d ∈ smsc_drivers /\ mdio_bus_match uid d = true) /\
  (list_find (mdio_bus_match uid) (drivers_known (known k2)) = None <->
   Forall (fun '(id, mask) => Z.land uid mask <> Z.land id mask) smsc_tbl).
Proof.
  intros Hk H1 H2 Hu. pose proof (phy_init_run k) as P1. rewrite H1 in P1. destruct P1 as [P1 _].
  pose proof (smsc_init_run k1) as P2. rewrite H2 in P2. destruct P2 as [_ P2].
  rewrite P1, Hk in P2. rewrite P2. cbn [with_drivers drivers_known app].
  pose proof (genphy_never_matches uid Hu) as Hg. split.
  - intros d. rewrite (driver_choice uid _ d Hu), elem_of_cons. split; [|tauto].
    intros [[->|Hd] Hm]; [congruence|done].
  - rewrite list_find_None, list.Forall_cons, Hg. unfold smsc_drivers, smsc_tbl, mdio_bus_match.
    rewrite !list.Forall_cons, !list.Forall_nil. cbn [drv_phy_id drv_phy_id_mask].
    rewrite !Is_true_true, !Z.eqb_eq. intuition congruence.
Qed.

(** *** The PHYs a fixup is run on *)

Definition string_ok (l : list Z) : Prop := Forall (fun c => c <> 0) l.

Lemma c_string_app l l' : string_ok l -> c_string (l ++ 0 :: l') = l.
Proof.
  induction 1 as [|c l Hc Hl IH]; [done|]. cbn. rewrite (proj2 (Z.eqb_neq c 0) Hc). by rewrite IH.
Qed.

Lemma c_string_ok l : string_ok l -> c_string l = l.
Proof.
  induction 1 as [|c l Hc Hl IH]; [done|]. cbn. rewrite (proj2 (Z.eqb_neq c 0) Hc). by rewrite IH.
Qed.

Lemma c_string_strlcpy dest l n : string_ok l -> (length l < n)%nat -> c_string (strlcpy dest l n) = l.
Proof.
  intros Hl Hn. unfold strlcpy. rewrite !bool_decide_eq_false_2 by lia.
  rewrite firstn_all. by apply c_string_app.
Qed.

Lemma phy_name_inj bus bus' a a' :
  0 <= a < 32 -> 0 <= a' < 32 -> phy_name bus a = phy_name bus' a' -> bus = bus' /\ a = a'.
Proof.
  intros Ha Ha' H. apply app_inj_2 in H as [-> H]; [|done]. split; [done|]. injection H as H1 H2.
  assert (forall x y, 0 <= x < 16 -> 0 <= y < 16 -> hex_digit x = hex_digit y -> x = y) as Hinj.
  { intros x y Hx Hy. unfold hex_digit. destruct (Z.ltb_spec x 10), (Z.ltb_spec y 10); lia. }
  apply Hinj in H1; [|lia..]. apply Hinj in H2; lia.
Qed.

Section FixupLaws.
Context {D : Type} `{!Smsc D} `{!DeviceModel D}.

(** A fixup is run on the PHYs with its name and identifier, either of which may stand for
    any: a name that fits into the array is not cut off. *)
Theorem fixup_selects bus_id uid mask run l name y :
  string_ok bus_id -> string_ok name -> (length bus_id < 20)%nat ->
  exists fixup,
    phy_register_fixup (D := D) true bus_id uid mask run l = (0, l ++ [fixup]) /\ fix_run fixup = run /\
    phy_needs_fixup name y fixup =
      bool_decide ((bus_id = name \/ bus_id = PHY_ANY_ID) /\
                   (Z.land uid mask = Z.land (phy_uid y) mask \/ uid = PHY_ANY_UID)).
Proof.
  intros Hb Hn Hl. eexists. split; [done|]. split; [done|].
  assert (Ha : string_ok PHY_ANY_ID) by (repeat (apply Forall_cons_2; [done|]); apply Forall_nil_2).
  unfold phy_needs_fixup, strcmp_ne. cbn [fix_bus_id fix_uid fix_mask].
  rewrite c_string_strlcpy, !c_string_ok by done.
  repeat (case_bool_decide; try tauto); destruct (Z.eqb_spec (Z.land uid mask) (Z.land (phy_uid y) mask));
    destruct (Z.eqb_spec uid PHY_ANY_UID); cbn; tauto.
Qed.

Lemma phy_name_ok bus addr :
  string_ok bus -> (length bus < 17)%nat -> 0 <= addr < 32 ->
  string_ok (phy_name bus addr) /\ (length (phy_name bus addr) < 20)%nat /\ phy_name bus addr <> PHY_ANY_ID.
Proof.
  intros Hb Hl Ha. unfold phy_name. split; [|split].
  - apply Forall_app. split; [done|]. unfold hex_digit.
    repeat apply Forall_cons_2; [done|case_match; lia..|apply Forall_nil_2].
  - rewrite length_app. cbn. lia.
  - intros H. change PHY_ANY_ID with (take 10 PHY_ANY_ID ++ [80; 72; 89]) in H.
    apply app_inj_2 in H as [_ H]; done.
Qed.

(** A fixup that is registered for the name of a PHY is run on this PHY alone, of all PHYs
    of all buses: the name of a bus has at most 16 characters. *)
Corollary fixup_for_id_selects bus addr run l bus' addr' y :
  string_ok bus -> string_ok bus' -> (length bus < 17)%nat -> (length bus' < 17)%nat ->
  0 <= addr < 32 -> 0 <= addr' < 32 ->
  exists fixup,
    phy_register_fixup_for_id (D := D) true (phy_name bus addr) run l = (0, l ++ [fixup]) /\
    phy_needs_fixup (phy_name bus' addr') y fixup = bool_decide (bus = bus' /\ addr = addr').
Proof.
  intros Hb Hb' Hl Hl' Ha Ha'. destruct (phy_name_ok bus addr) as (H1 & H2 & H3); [done..|].
  destruct (phy_name_ok bus' addr') as (H1' & _); [done..|].
  destruct (fixup_selects (phy_name bus addr) PHY_ANY_UID 0xffffffff run l (phy_name bus' addr') y)
    as (fixup & HE & _ & HN); [done..|].
  exists fixup. split; [exact HE|]. rewrite HN. apply bool_decide_ext. split.
  - intros [[H|H] _]; [by apply phy_name_inj in H|done].
  - intros [-> ->]. auto.
Qed.

(** The fixups that do not fit a PHY might as well not be there; the others are run in the
    order of their registration, up to the first error. *)
Lemma scan_fixups_app name l l' y s :
  phy_scan_fixups (D := D) name (l ++ l') y s =
  ('(err, y) ← phy_scan_fixups name l y; if err <? 0 then mret (err, y) else phy_scan_fixups name l' y) s.
Proof.
  revert y s. induction l as [|x l IH]; intros y s; [done|]. cbn [phy_scan_fixups app].
  destruct (phy_needs_fixup name y x); [|apply IH]. unfold mbind, drv_bind.
  destruct (fix_run x y s) as [[err y1] s1|w]; [|done].
  destruct (err <? 0) eqn:E; [unfold mret, drv_ret; by rewrite E|apply IH].
Qed.

Lemma scan_fixups_none name l y s :
  Forall (fun x => phy_needs_fixup name y x = false) l ->
  phy_scan_fixups (D := D) name l y s = Ret (0, y) s.
Proof. induction 1 as [|x l Hx Hl IH]; [done|]. cbn [phy_scan_fixups]. by rewrite Hx. Qed.

(** On a board whose fixups do not fit the PHY, [phy_init_hw] of the source, which scans
    the fixups first, is the function [phy_init_hw] of this development. *)
Lemma init_hw_without_fixups name l y s :
  Forall (fun x => phy_needs_fixup name y x = false) l ->
  match phy_drv y with
  | None => mret (0, y)
  | Some d => '(ret, y) ← phy_scan_fixups name l y; if ret <? 0 then mret (ret, y) else drv_config_init d y
  end s = phy_init_hw (D := D) y s.
Proof.
  intros Hl. unfold phy_init_hw. destruct (phy_drv y); [|done].
  unfold mbind, drv_bind. by rewrite scan_fixups_none.
Qed.

(** *** Connecting by name *)

(** The devices of a bus with the name [bus]: the PHYs of its map *)
Definition bus_devices (bus : list Z) (phy_map : gmap Z phy_device) : list (list Z * phy_device) :=
  (fun '(a, y) => (phy_name bus a, y)) <$> map_to_list phy_map.

Lemma find_by_name bus phy_map a y :
  0 <= a < 32 -> (forall a', is_Some (phy_map !! a') -> 0 <= a' < 32) -> phy_map !! a = Some y ->
  bus_find_device_by_name (bus_devices bus phy_map) (phy_name bus a) = Some y.
Proof.
  intros Ha Hr Hy. unfold bus_find_device_by_name.
  assert (Hin : (phy_name bus a, y) ∈ bus_devices bus phy_map).
  { apply list_elem_of_fmap. exists (a, y). split; [done|]. by apply elem_of_map_to_list. }
  destruct (list_find _ _) as [[i [n y']]|] eqn:E.
  - apply list_find_Some in E as (Hi & Hn & _). cbn in Hn. subst n. cbn. f_equal.
    apply list_elem_of_lookup_2, list_elem_of_fmap in Hi as ([a' y''] & HE & Hm%elem_of_map_to_list).
    injection HE as Hn ->. apply phy_name_inj in Hn as [_ <-]; [congruence|done|].
    apply Hr. by eexists.
  - apply list_find_None in E. by destruct (proj1 (list.Forall_forall _ _) E _ Hin).
Qed.

(** Connecting by the name of a PHY is connecting to this PHY; for the name of an address
    where there is none the answer is an error, and nothing is done. *)
Theorem connect_by_name bus phy_map a s :
  0 <= a < 32 -> (forall a', is_Some (phy_map !! a') -> 0 <= a' < 32) ->
  phy_connect (D := D) (bus_devices bus phy_map) (phy_name bus a) s =
  match phy_map !! a with
  | Some y => ('(rc, y) ← phy_connect_direct y; mret (if rc =? 0 then inr y else inl rc)) s
  | None => Ret (inl (- ENODEV)) s
  end.
Proof.
  intros Ha Hr. unfold phy_connect. destruct (phy_map !! a) as [y|] eqn:Hy.
  - rewrite (find_by_name bus phy_map a y) by done. unfold mbind, drv_bind.
    destruct (phy_connect_direct y s) as [[rc y'] s'|w]; [|done]. by destruct (rc =? 0).
  - unfold bus_find_device_by_name. destruct (list_find _ _) as [[i [n y]]|] eqn:E; [|done].
    apply list_find_Some in E as (Hi & Hn & _). cbn in Hn. subst n.
    apply list_elem_of_lookup_2, list_elem_of_fmap in Hi as ([a' y'] & HE & Hm%elem_of_map_to_list).
    injection HE as Hn ->. apply phy_name_inj in Hn as [_ <-]; [congruence|done|]. apply Hr. by eexists.
Qed.

End FixupLaws.

(** ** A core that runs out of memory *)

(** What is registered, and for each of the next registrations whether there is memory *)
Definition small_core : Type := registered * list bool.

Definition attempt (free : bool) (r : registered) (k : small_core) : Z * small_core :=
  if negb free then (- EBUSY, k)
  else match k.2 with
       | false :: mem => (- ENOMEM, (k.1, mem))
       | _ :: mem => (0, (r, mem))
       | [] => (0, (r, []))
       end.

#[export] Instance small_core_ops : DriverCore small_core := {|
  known := fst;
  class_register := fun k => attempt (negb (class_known k.1)) (mk_registered true (bus_known k.1) (drivers_known k.1)) k;
  class_unregister := fun k => (mk_registered false (bus_known k.1) (drivers_known k.1), k.2);
  bus_register := fun k => attempt (negb (bus_known k.1)) (mk_registered (class_known k.1) true (drivers_known k.1)) k;
  bus_unregister := fun k => (mk_registered (class_known k.1) false (drivers_known k.1), k.2);
  driver_register := fun d k =>
    attempt (bool_decide (d ∉ drivers_known k.1)) (with_drivers (drivers_known k.1 ++ [d]) k.1) k;
  driver_unregister := fun d k => (with_drivers (filter (fun d' => d' <> d) (drivers_known k.1)) k.1, k.2) |}.

Lemma attempt_law free r k :
  let '(e, k') := attempt free r k in if e =? 0 then free = true /\ k'.1 = r else k'.1 = k.1.
Proof. unfold attempt. destruct free, k as [? [|[] ?]]; done. Qed.

#[export] Instance small_core_laws : DriverCoreLaws small_core.
Proof.
  split; intros; try done; cbn [known class_register bus_register driver_register small_core_ops].
  - pose proof (attempt_law (negb (class_known k.1)) (mk_registered true (bus_known k.1) (drivers_known k.1)) k) as H.
    destruct (attempt _ _ k) as [e k']. destruct (e =? 0); [|done]. by rewrite negb_true_iff in H.
  - pose proof (attempt_law (negb (bus_known k.1)) (mk_registered (class_known k.1) true (drivers_known k.1)) k) as H.
    destruct (attempt _ _ k) as [e k']. destruct (e =? 0); [|done]. by rewrite negb_true_iff in H.
  - pose proof (attempt_law (bool_decide (d ∉ drivers_known k.1)) (with_drivers (drivers_known k.1 ++ [d]) k.1) k) as H.
    destruct (attempt _ _ k) as [e k']. destruct (e =? 0); [|done]. by rewrite bool_decide_eq_true in H.
Qed.

(** The memory is gone when [smsc_init] registers its fourth driver. *)
Definition booted : small_core := (mk_registered true true [genphy_driver], [true; true; true; false]).

Lemma modules_all_or_nothing_witness :
  smsc_init booted = (- ENOMEM, (mk_registered true true [genphy_driver], [])) /\
  (let '(r, k') := smsc_init booted in
   if r =? 0 then known k' = with_drivers (drivers_known (known booted) ++ smsc_drivers) (known booted) /\
                  known (smsc_exit k') = known booted
   else known k' = known booted).
Proof. split; [vm_compute; reflexivity|apply (modules_all_or_nothing booted)]. Defined.
