(* ===== verification/SmscProbe.v ===== *)
(** * The network driver: probe and remove
    (smsc911x.c 379-444, 989-1101, 3083-3121, 3139-3369; [mdiobus_register] of
    linux/drivers/net/phy/mdio_bus.c)

    What the driver acquires from the kernel when a device is found, and what it
    gives back: on every error path of [smsc911x_drv_probe], in the reverse order,
    and in [smsc911x_drv_remove].  The rest of the kernel is the interface
    [Platform], which grants or refuses each resource, and [DeviceModel]; the model keeps
    the list of those that are held beside the chip. *)

From stdpp Require Import gmap.
From S2P Require Import Prelude SmscDefs SmscIo SmscMac SmscRun SmscFilter SmscTx SmscPoll SmscPhy PhyLib PhyKeeps SmscNetdev.

(** The resources. *)
Inductive resource :=
  | mem_region | etherdev | io_mapping | drvdata | regulators | regulators_on
  | irq_handler | registration | mii_bus | mii_registration | phy_connection.

#[export] Instance resource_eq_dec : EqDecision resource.
Proof. solve_decision. Defined.

(** A device tree node, with the properties that the driver reads. *)
Record device_node := mk_node {
  dt_phy_mode : Z;
  dt_mac_address : option (list Z);
  dt_reg_shift : option Z;
  dt_reg_io_width : option Z;
  dt_irq_active_high : bool;
  dt_irq_push_pull : bool;
  dt_force_internal_phy : bool;
  dt_force_external_phy : bool;
  dt_save_mac_address : bool }.

(** The kernel and the board: whether the platform device has its resources, what
    a request for a resource returns (0 for success), where the registers are
    mapped (0 for nowhere) and random bytes. *)
Class Platform (D : Type) := {
  has_mem_resource : D -> bool;
  has_irq_resource : D -> bool;
  grant : resource -> D -> Z * D;
  ioremap_nocache : D -> Z * D;
  random_bytes : D -> list Z * D }.

(** A board with the resources that the driver holds. *)
Definition board (D : Type) : Type := D * list resource.

#[local] Hint Mode Smsc ! : typeclass_instances.
#[export] Instance board_smsc {D} `{!Smsc D} : Smsc (board D) := {
  readl o b := ((readl o b.1).1, ((readl o b.1).2, b.2));
  writel v o b := (writel v o b.1, b.2);
  readw o b := ((readw o b.1).1, ((readw o b.1).2, b.2));
  writew v o b := (writew v o b.1, b.2);
  chip_delay us b := (chip_delay us b.1, b.2) }.

#[export] Instance board_model {D} `{!DeviceModel D} : DeviceModel (board D) := {
  phy_memory b := ((phy_memory b.1).1, ((phy_memory b.1).2, b.2));
  device_register b := ((device_register b.1).1, ((device_register b.1).2, b.2));
  device_bind_driver b := ((device_bind_driver b.1).1, ((device_bind_driver b.1).2, b.2));
  phy_drivers b := phy_drivers b.1;
  request_irq i b := ((request_irq i b.1).1, ((request_irq i b.1).2, b.2));
  irq_raised b := ((irq_raised b.1).1, ((irq_raised b.1).2, b.2));
  background b := ((background b.1).1, ((background b.1).2, b.2)) }.

(** The contents of fresh, zeroed memory. *)
Definition zero_config : smsc911x_platform_config := mk_config 0 0 0 0 0 (replicate 6 0).
Definition zero_pdata : smsc911x_data :=
  mk_pdata 0 0 0 zero_config false false None 0 0 0 0 0 0 0 (replicate 64 0) (replicate 64 0)
    0 0 0 0 0 0 standard_smsc911x_ops.
Definition zero_netdev : net_device :=
  mk_netdev (replicate 6 0) 0 [] (mk_stats 0 0 0 0 0 0 0 0 0 0 0 0 0) false false 0 false false 0.

(** [smsc911x_probe_config_dt]: the result and the configuration *)
Definition smsc911x_probe_config_dt (config : smsc911x_platform_config) (np : option device_node)
    : Z * smsc911x_platform_config :=
  match np with
  | None => (- ENODEV, config)
  | Some np =>
      let fl := flags config in
      let fl := if bool_decide (dt_reg_io_width np = Some 4) then Z.lor fl SMSC911X_USE_32BIT
                else Z.lor fl SMSC911X_USE_16BIT in
      let fl := if dt_force_internal_phy np then Z.lor fl SMSC911X_FORCE_INTERNAL_PHY else fl in
      let fl := if dt_force_external_phy np then Z.lor fl SMSC911X_FORCE_EXTERNAL_PHY else fl in
      let fl := if dt_save_mac_address np then Z.lor fl SMSC911X_SAVE_MAC_ADDRESS else fl in
      (0, mk_config
            (if dt_irq_active_high np then SMSC911X_IRQ_POLARITY_ACTIVE_HIGH else irq_polarity config)
            (if dt_irq_push_pull np then SMSC911X_IRQ_TYPE_PUSH_PULL else irq_type config)
            fl
            (default (shift config) (dt_reg_shift np))
            (dt_phy_mode np)
            (match dt_mac_address np with Some mac => take 6 mac | None => config_mac config end))
  end.

Section Probe.
Context {D : Type} `{!Smsc D} `{!Platform D} `{!DeviceModel D}.

Definition lib1 {A} (f : D -> A * D) : drv (board D) A := lib (D := board D) (fun b => ((f b.1).1, ((f b.1).2, b.2))).

(** A request; a resource that is granted is held. *)
Definition acquire (r : resource) : drv (board D) Z :=
  lib (D := board D) (fun b => let e := (grant r b.1).1 in
                (e, ((grant r b.1).2, if e =? 0 then r :: b.2 else b.2))).

(** Giving something back that is not held is a bug. *)
Definition release (r : resource) : drv (board D) unit := fun s =>
  if bool_decide (r ∈ (chip s).2)
  then Ret tt (with_chip s ((chip s).1, filter (fun x => x <> r) (chip s).2))
  else Stop Bug.

(** [ioremap_nocache] and [iounmap], which does nothing for a null pointer *)
Definition ioremap : drv (board D) Z :=
  lib (D := board D) (fun b => let a := (ioremap_nocache b.1).1 in
                (a, ((ioremap_nocache b.1).2, if a =? 0 then b.2 else io_mapping :: b.2))).

Definition iounmap : drv (board D) unit :=
  lib (D := board D) (fun b => (tt, (b.1, filter (fun x => x <> io_mapping) b.2))).

(** From now on [r] is held. *)
Definition hold (r : resource) : drv (board D) unit := lib (D := board D) (fun b => (tt, (b.1, r :: b.2))).

(** [platform_set_drvdata] with a pointer *)
Definition set_drvdata : drv (board D) unit := hold drvdata.

(** [alloc_etherdev]: whether there was memory *)
Definition alloc_etherdev : drv (board D) bool :=
  e ← acquire etherdev;
  if e =? 0 then
    _ ← upd_pd (fun _ => zero_pdata);
    _ ← upd_nd (fun _ => zero_netdev);
    mret true
  else mret false.

(** [unregister_netdev]: the network core closes an interface that is up. *)
Definition unregister_netdev (fuel : nat) : drv (board D) unit :=
  _ ← dev_close fuel;
  release registration.

(** The regulators, in a kernel that is built with them ([CONFIG_REGULATOR]).  Their
    table [supplies] is found through the driver data of the platform device, and
    [regulator_bulk_get] and the like read and write it. *)
Definition supplies : drv (board D) unit := fun s =>
  if bool_decide (drvdata ∈ (chip s).2) then Ret tt s else Stop NullPointer.

Definition smsc911x_request_resources : drv (board D) Z := _ ← supplies; acquire regulators.
Definition smsc911x_enable_resources : drv (board D) Z := _ ← supplies; acquire regulators_on.
Definition smsc911x_disable_resources : drv (board D) unit := _ ← supplies; release regulators_on.
Definition smsc911x_free_resources : drv (board D) unit := _ ← supplies; release regulators.

(** [mdiobus_register]: the result and the PHYs on the bus; after an error of the
    search the device of the bus is removed again. *)
Definition mdiobus_register (bus_irq : Z -> Z) (phy_mask : Z) : drv (board D) (Z * gmap Z phy_device) :=
  e ← acquire mii_registration;
  if negb (e =? 0) then mret (- EINVAL, ∅)
  else
    '(err, phy_map) ← scan_bus bus_irq phy_mask;
    if negb (err =? 0) then _ ← release mii_registration; mret (err, ∅)
    else mret (0, phy_map).

(** The features that the MAC supports *)
Definition mac_features : Z := Z.lor (Z.lor PHY_BASIC_FEATURES SUPPORTED_Pause) SUPPORTED_Asym_Pause.

(** [smsc911x_mii_probe] *)
Definition smsc911x_mii_probe (phy_map : gmap Z phy_device) : drv (board D) Z :=
  match phy_find_first phy_map with
  | None => mret (- ENODEV)
  | Some phydev =>
      '(ret, phydev) ← phy_connect_direct phydev;
      if negb (ret =? 0) then mret ret
      else
        _ ← hold phy_connection;
        let phydev := set_supported (Z.land (supported phydev) mac_features) phydev in
        let phydev := set_advertising (supported phydev) phydev in
        _ ← upd_pd (set_phy_dev (Some phydev));
        _ ← upd_pd (set_last_duplex (-1));
        _ ← upd_pd (set_last_carrier (-1));
        r ← smsc911x_phy_loopbacktest;
        if r <? 0 then mret (- ENODEV) else mret 0
  end.

(** [smsc911x_mii_init]; the PHYs of the bus are polled. *)
Definition smsc911x_mii_init : drv (board D) Z :=
  e ← acquire mii_bus;
  if negb (e =? 0) then mret (- ENOMEM)
  else
    p ← get_pd;
    let family := Z.land (idrev p) 0xFFFF0000 in
    _ ← (if bool_decide (family ∈ [0x01170000; 0x01150000; 0x117A0000; 0x115A0000])
         then smsc911x_phy_initialise_external
         else upd_pd (set_using_extphy 0));
    p ← get_pd;
    '(e, phy_map) ← mdiobus_register (fun _ => PHY_POLL)
                      (if using_extphy p =? 0 then not32 (Z.shiftl 1 1) else 0);
    if negb (e =? 0) then _ ← release mii_bus; mret (- ENXIO)
    else
      r ← smsc911x_mii_probe phy_map;
      if r <? 0 then _ ← release mii_registration; _ ← release mii_bus; mret (- ENXIO)
      else mret 0.

(** The labels of [smsc911x_drv_probe] *)
Definition out_release_io_1 (retval : Z) : drv (board D) Z :=
  _ ← release mem_region; mret retval.
Definition out_request_resources_fail (retval : Z) : drv (board D) Z :=
  _ ← release drvdata; _ ← iounmap; _ ← release etherdev; out_release_io_1 retval.
Definition out_enable_resources_fail (retval : Z) : drv (board D) Z :=
  _ ← smsc911x_free_resources; out_request_resources_fail retval.
Definition out_disable_resources (retval : Z) : drv (board D) Z :=
  _ ← smsc911x_disable_resources; out_enable_resources_fail retval.
Definition out_free_irq (retval : Z) : drv (board D) Z :=
  _ ← release irq_handler; out_disable_resources retval.
Definition out_unregister_netdev_5 (fuel : nat) (retval : Z) : drv (board D) Z :=
  _ ← unregister_netdev fuel; out_free_irq retval.

(** The choice of an address at the end of [smsc911x_drv_probe] *)
Definition random_ether_addr : drv (board D) unit :=
  bs ← lib1 random_bytes;
  match bs with
  | a0 :: bs => upd_nd (set_dev_addr (Z.lor (Z.land a0 0xfe) 0x02 :: take 5 bs))
  | [] => halt OutOfBounds
  end.

Definition choose_address : drv (board D) unit :=
  _ ← lock_mac;
  n ← get_nd;
  p ← get_pd;
  _ ← (if is_valid_ether_addr (dev_addr n) then smsc911x_set_hw_mac_address (dev_addr n)
       else if is_valid_ether_addr (config_mac (config p)) then
         upd_nd (set_dev_addr (take 6 (config_mac (config p))))
       else
         _ ← smsc911x_read_mac_address;
         n ← get_nd;
         if is_valid_ether_addr (dev_addr n) then mret tt
         else
           _ ← upd_nd (fun n => set_addr_assign_type (Z.lor (addr_assign_type n) NET_ADDR_RANDOM) n);
           _ ← random_ether_addr;
           n ← get_nd;
           smsc911x_set_hw_mac_address (dev_addr n));
  unlock_mac.

(** The part after the configuration of the interrupt *)
Definition probe_rest (fuel : nat) : drv (board D) Z :=
  retval ← acquire irq_handler;
  if negb (retval =? 0) then out_disable_resources retval
  else
    retval ← acquire registration;
    if negb (retval =? 0) then out_free_irq retval
    else
      retval ← smsc911x_mii_init;
      if negb (retval =? 0) then out_unregister_netdev_5 fuel retval
      else _ ← choose_address; mret 0.

(** The part after the choice of the configuration *)
Definition probe_init (fuel : nat) : drv (board D) Z :=
  p ← get_pd;
  _ ← upd_pd (set_ops (if negb (shift (config p) =? 0) then shifted_smsc911x_ops
                       else standard_smsc911x_ops));
  retval ← smsc911x_init;
  if retval <? 0 then out_disable_resources (- ENODEV)
  else
    let intcfg := if irq_polarity (config p) =? SMSC911X_IRQ_POLARITY_ACTIVE_HIGH
                  then INT_CFG_IRQ_POL_ else 0 in
    let intcfg := if irq_type (config p) =? SMSC911X_IRQ_TYPE_PUSH_PULL
                  then Z.lor intcfg INT_CFG_IRQ_TYPE_ else intcfg in
    _ ← smsc911x_reg_write INT_CFG intcfg;
    _ ← smsc911x_reg_write INT_EN 0;
    _ ← smsc911x_reg_write INT_STS 0xFFFFFFFF;
    probe_rest fuel.

(** From the configuration on, with the memory, the device and the regulators. *)
Definition probe_device (fuel : nat) (np : option device_node)
    (platform_data : option smsc911x_platform_config) : drv (board D) Z :=
  p ← get_pd;
  if ioaddr p =? 0 then out_disable_resources (- ENOMEM)
  else
    let '(retval, cfg) := smsc911x_probe_config_dt (config p) np in
    _ ← upd_pd (set_config cfg);
    retval ← (match platform_data with
              | Some cfg => if negb (retval =? 0) then _ ← upd_pd (set_config cfg); mret 0
                            else mret retval
              | None => mret retval
              end);
    if negb (retval =? 0) then out_disable_resources retval
    else
      probe_init fuel.

(** [smsc911x_drv_probe] *)
Definition smsc911x_drv_probe (fuel : nat) (debug : Z) (np : option device_node)
    (platform_data : option smsc911x_platform_config) : drv (board D) Z :=
  mem ← lib1 (fun d => (has_mem_resource d, d));
  if negb mem then mret (- ENODEV)
  else
    irq ← lib1 (fun d => (has_irq_resource d, d));
    if negb irq then mret (- ENODEV)
    else
      e ← acquire mem_region;
      if negb (e =? 0) then mret (- EBUSY)
      else
        ok ← alloc_etherdev;
        if negb ok then out_release_io_1 (- ENOMEM)
        else
          a ← ioremap;
          _ ← upd_pd (set_ioaddr a);
          _ ← upd_pd (set_msg_enable (u32 (shl32 1 debug - 1)));
          _ ← set_drvdata;
          retval ← smsc911x_request_resources;
          if negb (retval =? 0) then out_request_resources_fail retval
          else
            retval ← smsc911x_enable_resources;
            if negb (retval =? 0) then out_enable_resources_fail retval
            else probe_device fuel np platform_data.

(** [smsc911x_drv_remove], up to the unmapping of the registers *)
Definition remove_device (fuel : nat) : drv (board D) unit :=
  d ← lib (D := board D) (fun b => (bool_decide (drvdata ∈ b.2), b));
  p ← get_pd;
  if negb d || (ioaddr p =? 0) || negb (has_phy p) then halt Bug
  else
    _ ← phy_disconnect;
    _ ← release phy_connection;
    _ ← upd_pd (set_phy_dev None);
    _ ← release mii_registration;
    _ ← release mii_bus;
    _ ← release drvdata;
    _ ← unregister_netdev fuel;
    _ ← release irq_handler;
    _ ← release mem_region;
    iounmap.

Definition smsc911x_drv_remove (fuel : nat) : drv (board D) Z :=
  _ ← remove_device fuel;
  _ ← smsc911x_disable_resources;
  _ ← smsc911x_free_resources;
  _ ← release etherdev;
  mret 0.

End Probe.

(** ** Parts of [smsc911x_init] *)

Section InitKeeps.
Context {D : Type} `{!Smsc D} `{!ChipInv D}.

Lemma keeps_check_byte_order w ph md : keepi w ph md (check_byte_order (D := D)).
Proof. unfold check_byte_order. keeps. Qed.

Lemma keeps_save_mac w ph md (b : bool) :
  keepi w ph md (if b then _ ← lock_mac (D := D); _ ← smsc911x_read_mac_address; unlock_mac else mret tt).
Proof. keeps. Qed.

End InitKeeps.

(** ** What is held *)

Section Held.
Context {D : Type} `{!Smsc D}.
Implicit Types s : dstate (board D).

(** Register accesses do not change what is held. *)
Definition holds (h : list resource) : ChipInv (board D).
Proof.
  refine {| chip_inv b := b.2 = h; line_inv l := l = polled_line |}.
  - intros p reg b <-. unfold bus_read. by case_match.
  - intros p reg val b <-. unfold bus_write. by case_match.
  - by intros us b <-.
Defined.

Notation inv_h h := (@inv (board D) _ (holds h)).

Lemma inv_rehold h h' w ph md b s d :
  inv_h h w ph md b s -> inv_h h' w ph md b (with_chip s (d, h')).
Proof. intros []. by constructor. Qed.

(** The driver model does not change what is held either. *)
Lemma held_model `{!DeviceModel D} h (d : board D) :
  (@chip_inv _ _ (holds h) d -> @chip_inv _ _ (holds h) (phy_memory d).2) /\
  (@chip_inv _ _ (holds h) d -> @chip_inv _ _ (holds h) (device_register d).2) /\
  (@chip_inv _ _ (holds h) d -> @chip_inv _ _ (holds h) (device_bind_driver d).2).
Proof. done. Qed.

Lemma inv_held h w ph md b s : inv_h h w ph md b s -> (chip s).2 = h.
Proof. by intros []. Qed.

Context `{!Platform D} `{!DeviceModel D}.

Lemma wp_release r h Q s :
  (chip s).2 = h -> bool_decide (r ∈ h) = true ->
  Q tt (with_chip s ((chip s).1, filter (fun x => x <> r) h)) -> wp (release r) Q s.
Proof. intros <- Hr HQ. unfold wp, release. by rewrite Hr. Qed.

(** Giving back regulators, while the driver data is set. *)
Lemma wp_supplies_release r h Q s :
  (chip s).2 = h -> bool_decide (drvdata ∈ h) = true -> bool_decide (r ∈ h) = true ->
  Q tt (with_chip s ((chip s).1, filter (fun x => x <> r) h)) -> wp (_ ← supplies; release r) Q s.
Proof.
  intros Hs Hd Hr HQ. apply wp_bind. unfold wp, supplies. rewrite Hs, Hd. by eapply wp_release.
Qed.

(** What the labels of [smsc911x_drv_probe] start from. *)
Definition base_held (io : bool) : list resource :=
  drvdata :: (if io then [io_mapping] else []) ++ [etherdev; mem_region].

(** The connection of the PHY may be left over; the labels do not know it. *)
Definition leftover (l : list resource) : Prop := l = [] \/ l = [phy_connection].

Ltac release_all :=
  repeat (apply wp_bind; eapply wp_release; [first [eassumption | reflexivity]|reflexivity|]).

Lemma out_request_frees l io retval s :
  leftover l -> (chip s).2 = l ++ base_held io ->
  wp (out_request_resources_fail retval) (fun r s' => r = retval /\ (chip s').2 = l) s.
Proof.
  intros Hl Hs. unfold out_request_resources_fail, out_release_io_1.
  destruct Hl as [-> | ->]; destruct io; release_all;
    (apply wp_bind, wp_run; eexists _, _; split; [reflexivity|]);
    release_all; by apply wp_ret.
Qed.

Lemma out_enable_frees l io retval s :
  leftover l -> (chip s).2 = l ++ regulators :: base_held io ->
  wp (out_enable_resources_fail retval) (fun r s' => r = retval /\ (chip s').2 = l) s.
Proof.
  intros Hl Hs. apply wp_bind.
  eapply wp_supplies_release; [exact Hs| | |apply (out_request_frees l io); [done|]];
    destruct Hl as [-> | ->]; by destruct io.
Qed.

Lemma out_disable_frees l io retval s :
  leftover l -> (chip s).2 = l ++ regulators_on :: regulators :: base_held io ->
  wp (out_disable_resources retval) (fun r s' => r = retval /\ (chip s').2 = l) s.
Proof.
  intros Hl Hs. apply wp_bind.
  eapply wp_supplies_release; [exact Hs| | |apply (out_enable_frees l io); [done|]];
    destruct Hl as [-> | ->]; by destruct io.
Qed.

Lemma out_free_irq_frees l io retval s :
  leftover l -> (chip s).2 = l ++ irq_handler :: regulators_on :: regulators :: base_held io ->
  wp (out_free_irq retval) (fun r s' => r = retval /\ (chip s').2 = l) s.
Proof.
  intros Hl Hs. apply wp_bind. eapply wp_release; [exact Hs| |apply (out_disable_frees l io); [done|]];
    destruct Hl as [-> | ->]; by destruct io.
Qed.

(** ** Initialisation *)

(** A device as [alloc_etherdev] leaves it, but for its configuration. *)
Record fresh (h : list resource) (w : nat) (s : dstate (board D)) : Prop := {
  fresh_bus : bus_ok (pd s);
  fresh_cfg : length (config_mac (config (pd s))) = 6%nat;
  fresh_phy : phy_dev (pd s) = None;
  fresh_warn : lock_warnings s = w;
  fresh_net : net_ok (mk_mode false false false false) (nd s);
  fresh_held : (chip s).2 = h }.

Tactic Notation "step" hyp(H) "by" uconstr(lem) :=
  apply wp_bind; eapply wp_keeps; [|exact H|]; [apply lem|].

Lemma init_run h w s :
  fresh h w s ->
  wp smsc911x_init (fun r s' => (chip s').2 = h /\
    (r < 0 \/ r = 0 /\ inv_h h w false (up_mode false) false s')) s.
Proof.
  intros Hs. unfold smsc911x_init.
  apply wp_bind, wp_run. eexists _, _. split; [reflexivity|].
  apply wp_bind, wp_run. eexists _, _. split; [reflexivity|].
  match goal with |- wp _ _ ?t => assert (H1 : inv_h h w false (mk_mode false false false false) false t) end.
  { destruct Hs as [? ? Hp ? ? ?]. constructor; unfold has_phy; cbn; by rewrite ?Hp. }
  revert H1. generalize (set_mac_lock false (pd (with_pd s (set_dev_lock false (pd s))))). intros p' H1.
  assert (Hbad : forall t, inv_h h w false (mk_mode false false false false) false t ->
    wp (mret (- ENODEV)) (fun r s' => (chip s').2 = h /\
      (r < 0 \/ r = 0 /\ inv_h h w false (up_mode false) false s')) t).
  { intros t Ht. apply wp_ret. split; [by eapply inv_held|by left]. }
  apply wp_get_pd. destruct (ioaddr _ =? 0); [by apply Hbad|].
  step H1 by keeps_pmt_ready. intros ok s2 H2. destruct (negb ok); [by apply Hbad|].
  step H2 by keeps_check_byte_order. intros bt s3 H3. destruct (negb _); [by apply Hbad|].
  step H3 by keeps_upd_pd; [by intros ?|]. intros _ s4 H4.
  step H4 by keeps_reg_read. intros id s5 H5.
  step H5 by keeps_upd_pd; [by intros ?|]. intros _ s6 H6.
  destruct (chip_generation id) as [g|]; [|by apply Hbad].
  step H6 by keeps_upd_pd; [by intros ?|]. intros _ s7 H7.
  step H7 by keeps_save_mac. intros _ s8 H8.
  step H8 by keeps_soft_reset. intros r s9 H9. destruct (negb (r =? 0)); [by apply Hbad|].
  step H9 by keeps_reg_write. intros _ s10 H10.
  eapply wp_mono with (Q := fun r s' => r = 0 /\ inv_h h w false (up_mode false) false s').
  { intros r' s' [-> Hi]. split; [by eapply inv_held|by right]. }
  unfold wp, upd_nd, mbind, drv_bind. cbn. split; [done|].
  destruct H10 as [? ? ? ? ? ? ? [] ? ? ?]. by constructor.
Qed.
(** ** The PHY *)

(** Runs that return or stop in a way that [ok] allows; such a way is to leave the
    buffer of the loopback test. *)
Definition swp {A} (ok : stop -> Prop) (m : drv (board D) A) (Q : A -> dstate (board D) -> Prop) s : Prop :=
  match m s with Ret a s' => Q a s' | Stop why => ok why end.

Definition oob (why : stop) : Prop := why = OutOfBounds.

Lemma swp_bind {A B} ok (m : drv (board D) A) (k : A -> drv (board D) B) Q s :
  swp ok m (fun a s' => swp ok (k a) Q s') s -> swp ok (m ≫= k) Q s.
Proof. unfold swp, mbind, drv_bind. by destruct (m s). Qed.

Lemma swp_mono {A} ok (m : drv (board D) A) (Q Q' : A -> dstate (board D) -> Prop) s :
  swp ok m Q s -> (forall a s', Q a s' -> Q' a s') -> swp ok m Q' s.
Proof. unfold swp. intros H HQ. destruct (m s); auto. Qed.

Lemma swp_wp {A} ok (m : drv (board D) A) Q s : wp m Q s -> swp ok m Q s.
Proof. intros H. apply wp_run in H as (a & s' & E & HQ). unfold swp. by rewrite E. Qed.

Lemma swp_safely {A} P P' (m : drv (board D) A) Q s :
  safely overruns P P' m -> P s -> (forall a s', P' s' -> Q a s') -> swp oob m Q s.
Proof.
  intros Hm Hs HQ. specialize (Hm s Hs). unfold swp. destruct (m s); [by apply HQ|].
  by destruct why.
Qed.

Lemma swp_acquire {A} r (k : Z -> drv (board D) A) Q s :
  (forall r d, (grant r d).1 <= 0) ->
  (forall e d, e < 0 -> swp oob (k e) Q (with_chip s (d, (chip s).2))) ->
  (forall d, swp oob (k 0) Q (with_chip s (d, r :: (chip s).2))) ->
  swp oob (e ← acquire r; k e) Q s.
Proof.
  intros Hneg Hbad Hok. apply swp_bind. unfold swp at 1, acquire, lib. cbn [fst snd].
  specialize (Hneg r (chip s).1). destruct (grant r (chip s).1) as [e d]. cbn [fst snd] in *.
  destruct (Z.eqb_spec e 0) as [->|He]; [apply Hok|apply Hbad; lia].
Qed.

Lemma swp_supplies_acquire {A} r (k : Z -> drv (board D) A) Q s :
  bool_decide (drvdata ∈ (chip s).2) = true -> (forall r d, (grant r d).1 <= 0) ->
  (forall e d, e < 0 -> swp oob (k e) Q (with_chip s (d, (chip s).2))) ->
  (forall d, swp oob (k 0) Q (with_chip s (d, r :: (chip s).2))) ->
  swp oob (e ← (_ ← supplies; acquire r); k e) Q s.
Proof.
  intros Hd Hneg Hbad Hok. pose proof (swp_acquire r k Q s Hneg Hbad Hok) as H.
  unfold swp, mbind, drv_bind, supplies in *. by rewrite Hd.
Qed.

(** What is held when the PHY is set up, and when everything is. *)
Definition registered : list resource :=
  registration :: irq_handler :: regulators_on :: regulators :: base_held true.
Definition all_held : list resource :=
  phy_connection :: mii_registration :: mii_bus :: registered.

Notation rest h w ph := (inv_h h w ph (up_mode false) false).

Lemma swp_set_phy {A} h w ph phy (k : drv (board D) A) Q s :
  rest h w ph s -> phy_ok false (Some phy) -> line phy = polled_line ->
  (forall s', rest h w true s' -> swp oob k Q s') ->
  swp oob (_ ← upd_pd (set_phy_dev (Some phy)); k) Q s.
Proof. intros Hs Hy Hl Hk. apply Hk. by eapply inv_set_phy. Qed.

Lemma swp_hold {A} r h w ph (k : drv (board D) A) Q s :
  rest h w ph s -> (forall s', rest (r :: h) w ph s' -> swp oob k Q s') -> swp oob (_ ← hold r; k) Q s.
Proof.
  intros Hs Hk. apply Hk. cbn. rewrite (inv_held _ _ _ _ _ _ Hs). by apply (inv_rehold h).
Qed.

Lemma swp_step {A B} P P' (m : drv (board D) A) (k : A -> drv (board D) B) Q s :
  keeps P P' m -> P s -> (forall a s', P' s' -> swp oob (k a) Q s') -> swp oob (m ≫= k) Q s.
Proof. intros Hm Hs Hk. apply swp_bind, swp_wp. by eapply wp_keeps. Qed.

Lemma wp_release_inv {A} r h w ph (k : drv (board D) A) Q s :
  rest h w ph s -> bool_decide (r ∈ h) = true ->
  (forall s', rest (filter (fun x => x <> r) h) w ph s' -> wp k Q s') -> wp (_ ← release r; k) Q s.
Proof.
  intros Hs Hr Hk. apply wp_bind. eapply wp_release; [by eapply inv_held|done|].
  apply Hk. by apply (inv_rehold h).
Qed.

Lemma find_first_idle m y :
  map_Forall (fun _ : Z => idle_phy) m -> phy_find_first m = Some y -> idle_phy y.
Proof.
  intros Hm. unfold phy_find_first. generalize (seqZ 0 PHY_MAX_ADDR). intros l H. apply head_Some_elem_of, list_elem_of_omap in H as (i & _ & Hi).
  by eapply Hm.
Qed.

Context (Hneg : forall r (d : D), (grant r d).1 <= 0).
Context (Hbind : forall d : D, (device_bind_driver d).1 <= 0).
Context (Hrand : forall d : D, length (random_bytes d).1 = 6%nat).

Lemma mii_probe_run h w m s :
  map_Forall (fun _ => idle_phy) m -> rest h w false s ->
  swp oob (smsc911x_mii_probe m) (fun r s' => r = 0 /\ rest (phy_connection :: h) w true s' \/
    r < 0 /\ exists l ph, leftover l /\ rest (l ++ h) w ph s') s.
Proof.
  intros Hm Hs. unfold smsc911x_mii_probe. destruct (phy_find_first m) as [y|] eqn:E.
  2: { right. split; [done|]. exists [], false. split; [by left|done]. }
  apply swp_bind, swp_wp. eapply wp_mono; [|by apply (@connect_result _ _ (holds h) _
    (fun d => proj2 (proj2 (held_model h d))) (fun d => Hbind d.1) w false (up_mode false));
    [eapply find_first_idle|]].
  intros [ret y'] s1 [H1 [(Hr & (Hl & Hd & Ht) & Hn)|Hr]]; cbn [fst snd] in *.
  2: { rewrite (proj2 (Z.eqb_neq ret 0)) by lia. right. split; [done|]. exists [], false.
       split; [by left|done]. }
  subst ret. cbn [Z.eqb negb]. eapply swp_hold; [exact H1|]. intros s2 H2. cbv zeta.
  eapply swp_set_phy; [exact H2| |done|].
  { split_and!; [done..|]. assert (is_u32 (Z.land (supported y') mac_features)).
    { destruct Ht. apply is_word_land_l; [lia|by eapply is_word_nonneg|done]. }
    destruct Ht. by constructor. }
  intros s4 H4.
  eapply swp_step; [|exact H4|]; [apply keeps_upd_pd; by intros ?|]. intros _ s5 H5.
  eapply swp_step; [|exact H5|]; [apply keeps_upd_pd; by intros ?|]. intros _ s6 H6.
  apply swp_bind. eapply swp_safely; [|exact H6|]; [apply safely_loopbacktest|]. intros r s7 H7.
  destruct (r <? 0); [|by left]. right. split; [done|]. exists [phy_connection], true. split; [by right|done].
Qed.

Notation on_bus := (mii_bus :: registered).

Lemma mdiobus_register_run mask w s :
  rest on_bus w false s ->
  swp oob (mdiobus_register (fun _ => PHY_POLL) mask) (fun r s' =>
    r.1 = 0 /\ map_Forall (fun _ => idle_phy) r.2 /\ rest (mii_registration :: on_bus) w false s' \/
    r.1 < 0 /\ rest on_bus w false s') s.
Proof.
  intros Hs. unfold mdiobus_register. pose proof (inv_held _ _ _ _ _ _ Hs) as Hh.
  apply swp_acquire; [done|intros e d He|intros d]; rewrite Hh.
  { rewrite (proj2 (Z.eqb_neq e 0)) by lia. right. split; [done|]. by apply (inv_rehold on_bus). }
  cbn [Z.eqb negb]. apply swp_wp, wp_bind. eapply wp_mono.
  2: { apply (@scan_bus_scanned _ _ (holds (mii_registration :: on_bus)) _
         (fun d => proj1 (held_model _ d)) (fun d => proj1 (proj2 (held_model _ d))) w false (up_mode false)).
       by apply (inv_rehold on_bus). }
  intros [err m] s1 (H1 & Herr & Hm). cbn [fst snd] in *.
  destruct (Z.eqb_spec err 0) as [->|Hn]; cbn [negb]; [apply wp_ret; by left|].
  eapply wp_release_inv; [exact H1|done|]. intros s2 H2. apply wp_ret. right. cbn [fst]. split; [lia|done].
Qed.

Lemma mii_init_run w s :
  rest registered w false s ->
  swp oob smsc911x_mii_init (fun r s' => r = 0 /\ rest all_held w true s' \/
    r < 0 /\ exists l ph, leftover l /\ rest (l ++ registered) w ph s') s.
Proof.
  intros Hs. unfold smsc911x_mii_init. pose proof (inv_held _ _ _ _ _ _ Hs) as Hh.
  apply swp_acquire; [done|intros e d He|intros d]; rewrite Hh.
  { rewrite (proj2 (Z.eqb_neq e 0)) by lia. right. split; [done|]. exists [], false.
    split; [by left|]. by apply (inv_rehold registered). }
  pose proof (inv_rehold registered on_bus w false _ _ s d Hs) as H1.
  revert H1. generalize (with_chip s (d, on_bus)). clear s Hs Hh. intros s Hs.
  cbn [Z.eqb negb]. apply swp_bind. unfold get_pd at 1, swp at 1. cbv zeta.
  eapply (swp_step (rest on_bus w false) (rest on_bus w false)); [|exact Hs|].
  { case_match; [apply keeps_initialise_external|apply keeps_upd_pd; by intros ?]. }
  intros _ s1 H1. apply swp_bind. unfold get_pd, swp at 1.
  apply swp_bind. eapply swp_mono; [by apply mdiobus_register_run|].
  intros [e m] s2 [(He & Hm & H2)|[He H2]]; cbn [fst snd] in *.
  2: { rewrite (proj2 (Z.eqb_neq e 0)) by lia. cbn [negb]. apply swp_wp.
       eapply wp_release_inv; [exact H2|done|]. intros s3 H3. apply wp_ret. right. split; [done|].
       exists [], false. split; [by left|exact H3]. }
  subst e. cbn [Z.eqb negb]. apply swp_bind.
  eapply swp_mono; [by apply (mii_probe_run (mii_registration :: on_bus) w)|].
  intros r s3 [[-> H3]|(Hr & l & ph & Hl & H3)]; [by left|].
  rewrite (proj2 (Z.ltb_lt r 0)) by done. apply swp_wp.
  eapply wp_release_inv; [exact H3|by destruct Hl as [-> | ->]|]. intros s4 H4.
  eapply wp_release_inv; [exact H4|by destruct Hl as [-> | ->]|]. intros s5 H5.
  apply wp_ret. right. split; [done|]. exists l, ph. split; [done|].
  destruct Hl as [-> | ->]; exact H5.
Qed.

(** ** The address *)

Lemma wp_set_hw_mac h w ph md a s Q :
  inv_h h w ph md true s -> length a = 6%nat ->
  (forall s', inv_h h w ph md true s' -> nd s' = nd s -> Q tt s') ->
  wp (smsc911x_set_hw_mac_address a) Q s.
Proof.
  intros Hs Ha HQ. destruct (set_hw_mac_any a s) as (x & d & E & _); [by eapply inv_ready|apply Hs|done|].
  pose proof (keeps_set_hw_mac w ph md a Ha s Hs) as Hk. unfold wp in *. rewrite E in *.
  destruct x. by apply HQ.
Qed.

Lemma local_addr_valid a bs : is_valid_ether_addr (Z.lor (Z.land a 0xfe) 0x02 :: bs) = true.
Proof.
  unfold is_valid_ether_addr, is_multicast_ether_addr, is_zero_ether_addr. cbn [hd take forallb].
  change 0x01 with (2 ^ 0). rewrite has_bit, Z.lor_spec, Z.land_spec by lia.
  change (Z.testbit 0xfe 0) with false. rewrite andb_false_r. cbn [orb negb andb Z.testbit].
  rewrite (proj2 (Z.eqb_neq 0 _)); [done|]. intros E.
  apply (f_equal (fun x => Z.testbit x 1)) in E. rewrite Z.lor_spec in E. by rewrite orb_true_r in E.
Qed.

Lemma choose_address_run w s :
  rest all_held w true s ->
  wp choose_address (fun _ s' => rest all_held w true s' /\
    is_valid_ether_addr (dev_addr (nd s')) = true) s.
Proof.
  intros Hs. unfold choose_address. apply wp_bind.
  eapply wp_keeps; [|exact Hs|]; [apply keeps_lock|]. intros _ s1 H1. apply wp_get_nd, wp_get_pd.
  apply wp_bind. eapply wp_mono with (Q := fun _ s' => inv_h all_held w true (up_mode false) true s' /\
    is_valid_ether_addr (dev_addr (nd s')) = true).
  { intros _ s2 [H2 Hv]. apply wp_unlock_mac; [apply H2|]. split; [|done]. destruct H2. by constructor. }
  pose proof (ok_addr _ _ (inv_net _ _ _ _ _ H1)) as Ha.
  destruct (is_valid_ether_addr (dev_addr (nd s1))) eqn:V1.
  { eapply wp_set_hw_mac; [exact H1|done|]. intros s2 H2 ->. done. }
  destruct (is_valid_ether_addr (config_mac (config (pd s1)))) eqn:V2.
  { pose proof (inv_cfg _ _ _ _ _ H1) as Hc. unfold wp, upd_nd. cbn. rewrite take_ge by lia.
    split; [|done]. destruct H1 as [? ? ? ? ? ? ? [] ? ? ?]. by constructor. }
  apply wp_bind. eapply wp_keeps; [|exact H1|]; [apply keeps_read_mac|]. intros _ s2 H2.
  apply wp_get_nd. destruct (is_valid_ether_addr (dev_addr (nd s2))) eqn:V3; [by apply wp_ret|].
  apply wp_bind. eapply wp_keeps; [|exact H2|]; [apply keeps_upd_nd; [done|by intros ? []]|].
  intros _ s3 H3. apply wp_bind. unfold random_ether_addr, lib1, lib. apply wp_bind. unfold wp at 1.
  pose proof (Hrand (chip s3).1) as Hlen. destruct (random_bytes (chip s3).1) as [bs d]. cbn [fst snd] in *.
  destruct bs as [|a0 bs]; [done|]. unfold wp at 1, upd_nd. apply wp_get_nd.
  eapply (wp_set_hw_mac all_held w true (up_mode false)).
  - rewrite (inv_held _ _ _ _ _ _ H3). apply (inv_rehold _ all_held _ _ _ _ _ d) in H3.
    destruct H3 as [? ? ? ? ? ? ? [] ? ? ?]. constructor; try done. constructor; try done.
    cbn in Hlen |- *. rewrite length_take. lia.
  - cbn in Hlen |- *. rewrite length_take. lia.
  - intros s4 H4 En. split; [done|]. rewrite En. apply local_addr_valid.
Qed.

(** ** The whole probe *)

(** A configuration that the board file or the device tree may give. *)
Definition config_ok (c : smsc911x_platform_config) : Prop :=
  (has (flags c) SMSC911X_USE_32BIT = true \/ has (flags c) SMSC911X_USE_16BIT = true) /\
  length (config_mac c) = 6%nat.

Definition node_ok (np : device_node) : Prop :=
  match dt_mac_address np with Some mac => (6 <= length mac)%nat | None => True end.

Lemma has_lor_l x y b : has x b = true -> has (Z.lor x y) b = true.
Proof.
  unfold has. rewrite !negb_true_iff, !Z.eqb_neq, Z.land_lor_distr_l. intros Hx E.
  apply Z.lor_eq_0_iff in E. tauto.
Qed.

Lemma has_lor_r x b : b <> 0 -> has (Z.lor x b) b = true.
Proof.
  unfold has. rewrite negb_true_iff, Z.eqb_neq, Z.land_lor_distr_l, Z.land_diag. intros Hb E.
  apply Z.lor_eq_0_iff in E. tauto.
Qed.

Lemma config_dt_ok np c :
  node_ok np -> smsc911x_probe_config_dt zero_config (Some np) = (0, c) -> config_ok c.
Proof.
  intros Hn [= <-]. split; cbn [flags config_mac].
  - assert (H : forall (b1 b2 b3 : bool) x y z fl w, has fl w = true ->
      has (if b3 then Z.lor (if b2 then Z.lor (if b1 then Z.lor fl x else fl) y
                             else (if b1 then Z.lor fl x else fl)) z
           else (if b2 then Z.lor (if b1 then Z.lor fl x else fl) y
                 else (if b1 then Z.lor fl x else fl))) w = true).
    { intros [] [] [] x y z fl w Hf; by repeat apply has_lor_l. }
    case_bool_decide; [left|right]; apply H, has_lor_r; done.
  - unfold node_ok in Hn. destruct (dt_mac_address np); [rewrite length_take; lia|done].
Qed.

(** The choice between the device tree and the board file. *)
Lemma config_chosen np plat :
  (forall n, np = Some n -> node_ok n) -> (forall c, plat = Some c -> config_ok c) ->
  let '(retval, cfg) := smsc911x_probe_config_dt zero_config np in
  match plat with
  | Some c => config_ok (if negb (retval =? 0) then c else cfg)
  | None => if negb (retval =? 0) then retval < 0 else config_ok cfg
  end.
Proof.
  intros Hn Hc. destruct np as [np|].
  - destruct (smsc911x_probe_config_dt zero_config (Some np)) as [r c] eqn:E.
    assert (r = 0) as -> by (by injection E). cbn [Z.eqb negb].
    assert (config_ok c) by (eapply config_dt_ok; [by apply Hn|done]). by destruct plat.
  - cbn. destruct plat; [by apply Hc|done].
Qed.

Definition probed (w : nat) (r : Z) s : Prop :=
  r = 0 /\ rest all_held w true s /\ is_valid_ether_addr (dev_addr (nd s)) = true \/
  r < 0 /\ leftover (chip s).2.

Definition enabled (io : bool) : list resource := regulators_on :: regulators :: base_held io.

Lemma fail_disable w io e s :
  e < 0 -> (chip s).2 = enabled io -> swp oob (out_disable_resources e) (probed w) s.
Proof.
  intros He Hs. apply swp_wp. eapply wp_mono; [|apply (out_disable_frees [] io); [by left|exact Hs]].
  intros r s' [-> E]. right. split; [done|]. by left.
Qed.

Lemma probe_rest_run fuel w s :
  rest (enabled true) w false s -> swp oob (probe_rest fuel) (probed w) s.
Proof.
  intros Hs. unfold probe_rest. pose proof (inv_held _ _ _ _ _ _ Hs) as Hh.
  apply swp_acquire; [done|intros e d He|intros d]; rewrite Hh.
  { rewrite (proj2 (Z.eqb_neq e 0)) by lia. by apply (fail_disable w true). }
  cbn [Z.eqb negb]. set (s1 := with_chip s _).
  assert (H1 : rest (irq_handler :: enabled true) w false s1) by (by apply (inv_rehold (enabled true))).
  clearbody s1. clear s Hs Hh d. pose proof (inv_held _ _ _ _ _ _ H1) as Hh.
  apply swp_acquire; [done|intros e d He|intros d]; rewrite Hh.
  { rewrite (proj2 (Z.eqb_neq e 0)) by lia. apply swp_wp.
    eapply wp_mono; [|apply (out_free_irq_frees [] true); [by left|done]].
    intros r s' [-> E]. right. split; [done|]. by left. }
  cbn [Z.eqb negb]. apply swp_bind. eapply swp_mono.
  { apply (mii_init_run w). by apply (inv_rehold (irq_handler :: enabled true)). }
  intros r s2 [[-> H2]|(Hr & l & ph & Hl & H2)].
  - cbn [Z.eqb negb]. apply swp_wp, wp_bind. eapply wp_mono; [|by apply choose_address_run].
    intros _ s3 [H3 Hv]. apply wp_ret. by left.
  - rewrite (proj2 (Z.eqb_neq r 0)) by lia. cbn [negb]. apply swp_wp.
    unfold out_unregister_netdev_5, unregister_netdev. apply wp_bind, wp_bind.
    unfold dev_close. apply wp_get_nd. rewrite (ok_up _ _ (inv_net _ _ _ _ _ H2)). cbn [m_up up_mode].
    apply wp_ret. eapply wp_release; [exact (inv_held _ _ _ _ _ _ H2)|by destruct Hl as [-> | ->]|].
    eapply wp_mono; [|apply (out_free_irq_frees l true); [done|by destruct Hl as [-> | ->]]].
    intros r' s' [-> E]. right. split; [done|]. by rewrite E.
Qed.

Lemma probe_init_run fuel w s :
  config_ok (config (pd s)) -> phy_dev (pd s) = None -> nd s = zero_netdev -> lock_warnings s = w ->
  (chip s).2 = enabled true -> swp oob (probe_init fuel) (probed w) s.
Proof.
  intros [Hb Hm] Hp Hnd Hw Hh. unfold probe_init. apply swp_bind. unfold get_pd, swp at 1.
  apply swp_bind. unfold upd_pd, swp at 1. set (p := set_ops _ (pd s)).
  assert (Hf : fresh (enabled true) w (with_pd s p)).
  { constructor; [exact Hb|exact Hm| |done| |done]; cbn.
    - done.
    - rewrite Hnd. by constructor. }
  apply swp_bind. eapply swp_mono; [apply swp_wp, (init_run _ _ _ Hf)|].
  intros r s1 [H1 [Hr|[-> Hi]]].
  { rewrite (proj2 (Z.ltb_lt r 0)) by done. by apply (fail_disable w true). }
  cbn [Z.ltb Z.compare]. cbv zeta.
  eapply swp_step; [|exact Hi|]; [apply keeps_reg_write|]. intros _ s2 H2.
  eapply swp_step; [|exact H2|]; [apply keeps_reg_write|]. intros _ s3 H3.
  eapply swp_step; [|exact H3|]; [apply keeps_reg_write|]. intros _ s4 H4.
  by apply probe_rest_run.
Qed.

Lemma probe_device_run fuel np plat w io a m s :
  (forall n, np = Some n -> node_ok n) -> (forall c, plat = Some c -> config_ok c) ->
  pd s = set_msg_enable m (set_ioaddr a zero_pdata) -> nd s = zero_netdev -> lock_warnings s = w ->
  io = negb (a =? 0) -> (chip s).2 = enabled io ->
  swp oob (probe_device fuel np plat) (probed w) s.
Proof.
  intros Hn Hc Hp Hnd Hw Hio Hh. unfold probe_device. apply swp_bind. unfold get_pd, swp at 1.
  rewrite Hp. change (ioaddr (set_msg_enable m (set_ioaddr a zero_pdata))) with a.
  change (config (set_msg_enable m (set_ioaddr a zero_pdata))) with zero_config.
  destruct (a =? 0); [by apply (fail_disable w io)|]. cbn [negb] in Hio. subst io.
  pose proof (config_chosen np plat Hn Hc) as Hcfg.
  destruct (smsc911x_probe_config_dt zero_config np) as [ret cfg].
  set (chosen := match plat with Some c => if negb (ret =? 0) then c else cfg | None => cfg end).
  set (t := with_pd s (set_config chosen (pd s))).
  assert (Hdone : config_ok chosen -> swp oob (probe_init fuel) (probed w) t).
  { intros Hok. apply probe_init_run; try done; cbn; by rewrite ?Hp, ?Hnd. }
  unfold chosen in *. destruct plat as [c|]; [|destruct (negb (ret =? 0)) eqn:Er].
  - apply swp_bind. unfold upd_pd, swp at 1. apply swp_bind. destruct (negb (ret =? 0)) eqn:Er.
    + apply Hdone, Hcfg.
    + unfold swp at 1. cbn [mret drv_ret]. rewrite Er. apply Hdone, Hcfg.
  - apply swp_bind. unfold upd_pd, swp at 1. apply swp_bind. unfold swp at 1. cbn [mret drv_ret].
    rewrite Er. by apply (fail_disable w true).
  - apply swp_bind. unfold upd_pd, swp at 1. apply swp_bind. unfold swp at 1. cbn [mret drv_ret].
    rewrite Er. apply Hdone, Hcfg.
Qed.

(** C12: [smsc911x_drv_probe] accounts for everything it acquires, whichever request
    the kernel refuses and whatever the chip answers.  If it succeeds, it holds all
    eleven resources, the interface is down with a valid address, its PHY attached,
    the locks free: the state from which the driver's calls are safe.  If it fails it
    returns a negative error, has given back what it held and nothing it did not
    hold, with one exception, the connection to the PHY.  The only way not to return
    is the overrun of the loopback test. *)
Theorem probe_accounts fuel debug np plat s :
  (forall n, np = Some n -> node_ok n) -> (forall c, plat = Some c -> config_ok c) ->
  (chip s).2 = [] ->
  match smsc911x_drv_probe fuel debug np plat s with
  | Ret r s' =>
      r = 0 /\ inv_h all_held (lock_warnings s) true (up_mode false) false s' /\
        is_valid_ether_addr (dev_addr (nd s')) = true \/
      r < 0 /\ ((chip s').2 = [] \/ (chip s').2 = [phy_connection])
  | Stop why => why = OutOfBounds
  end.
Proof.
  intros Hn Hc Hh. set (w := lock_warnings s).
  change (swp oob (smsc911x_drv_probe fuel debug np plat) (probed w) s). unfold smsc911x_drv_probe.
  assert (Hfail : forall e t, e < 0 -> (chip t).2 = [] -> swp oob (mret e) (probed w) t).
  { intros e t He Ht. right. split; [done|]. by left. }
  apply swp_bind. unfold lib1, lib, swp at 1. cbn [fst snd].
  destruct (has_mem_resource (chip s).1); cbn [negb]; [|by apply Hfail].
  apply swp_bind. unfold swp at 1. cbn [fst snd chip with_chip].
  destruct (has_irq_resource (chip s).1); cbn [negb]; [|by apply Hfail].
  apply swp_acquire; [done|intros e d He|intros d]; cbn [chip with_chip snd]; rewrite Hh.
  { rewrite (proj2 (Z.eqb_neq e 0)) by lia. by apply Hfail. }
  cbn [Z.eqb negb]. unfold alloc_etherdev. apply swp_bind.
  apply swp_acquire; [done|intros e d1 He|intros d1]; cbn [chip with_chip snd].
  { rewrite (proj2 (Z.eqb_neq e 0)) by lia. unfold swp at 1. cbn [mret drv_ret negb].
    apply swp_wp, wp_bind. eapply wp_release; [reflexivity|done|]. apply wp_ret.
    right. split; [done|]. by left. }
  apply swp_bind. unfold upd_pd at 1, swp at 1. apply swp_bind. unfold upd_nd at 1, swp at 1.
  unfold swp at 1. cbn [mret drv_ret negb].
  apply swp_bind. unfold ioremap, lib, swp at 1. cbn [fst snd chip with_chip with_pd with_nd].
  destruct (ioremap_nocache d1) as [a d2]. cbn [fst snd].
  do 2 (apply swp_bind; unfold upd_pd at 1, swp at 1). apply swp_bind. unfold set_drvdata, hold, lib, swp at 1.
  cbn [fst snd chip with_chip with_pd with_nd]. set (t := with_chip _ _).
  assert (Ht : (chip t).2 = base_held (negb (a =? 0))) by (cbn; by destruct (a =? 0)).
  apply swp_supplies_acquire; [by rewrite Ht; destruct (a =? 0)|done|intros e d3 He|intros d3]; rewrite Ht.
  { rewrite (proj2 (Z.eqb_neq e 0)) by lia. apply swp_wp.
    eapply wp_mono; [|apply (out_request_frees [] (negb (a =? 0))); [by left|done]].
    intros r s' [-> E]. right. split; [done|]. by left. }
  apply swp_supplies_acquire; [by destruct (a =? 0)|done|intros e d4 He|intros d4];
    cbn [chip with_chip snd].
  { rewrite (proj2 (Z.eqb_neq e 0)) by lia. apply swp_wp.
    eapply wp_mono; [|apply (out_enable_frees [] (negb (a =? 0))); [by left|done]].
    intros r s' [-> E]. right. split; [done|]. by left. }
  cbn [Z.eqb negb]. by eapply (probe_device_run _ _ _ _ (negb (a =? 0)) a).
Qed.

(** ** Removal *)

Lemma swp_release_inv {A} ok r h w ph up (k : drv (board D) A) Q s :
  inv_h h w ph (up_mode up) false s -> bool_decide (r ∈ h) = true ->
  (forall s', inv_h (filter (fun x => x <> r) h) w ph (up_mode up) false s' -> swp ok k Q s') ->
  swp ok (_ ← release r; k) Q s.
Proof.
  intros Hs Hr Hk. apply swp_bind, swp_wp. eapply wp_release; [by eapply inv_held|done|].
  apply Hk. by apply (inv_rehold h).
Qed.

(** The PHY may lose its driver when it is disconnected; then it is forgotten. *)
Lemma swp_disconnect {A} ok h w up (k : drv (board D) A) Q s :
  inv_h h w true (up_mode up) false s -> bool_decide (phy_connection ∈ h) = true ->
  (forall s', inv_h (filter (fun x => x <> phy_connection) h) w false (up_mode up) false s' -> swp ok k Q s') ->
  swp ok (_ ← phy_disconnect; _ ← release phy_connection; _ ← upd_pd (set_phy_dev None); k) Q s.
Proof.
  intros Hs Hh Hk. apply swp_bind. unfold phy_disconnect. apply swp_wp.
  eapply (@wp_get_phy _ _ (holds h)); [exact Hs|]. intros y0 _ Hline. cbn in Hline. rewrite Hline.
  apply wp_bind, wp_ret, wp_bind. eapply wp_keeps; [by apply (@keeps_stop_machine _ _ (holds h) w (up_mode up))|exact Hs|]. intros _ s1 H1.
  destruct (inv_phy_some _ _ _ _ H1) as (y & E & _).
  unfold upd_phy, get_phy, get_pd, upd_pd at 1, wp, mbind, drv_bind. rewrite E. cbn [mret drv_ret].
  unfold swp, release. cbn [chip with_pd]. rewrite (inv_held _ _ _ _ _ _ H1), Hh. apply Hk.
  destruct H1 as [H1 H2 H3 H4 H5 H6 H7 [] H9 H10 H11]. by constructor.
Qed.

Lemma close_run h w ph up fuel Q s :
  inv_h h w ph (up_mode up) false s -> (forall r s', rest h w ph s' -> Q r s') ->
  swp (fun why => why = Hang /\ up = true) (dev_close fuel) Q s.
Proof.
  intros Hs HQ. unfold swp. destruct up.
  - pose proof (safely_dev_close w ph fuel s Hs) as H. destruct (dev_close fuel s); [by apply HQ|].
    by destruct why.
  - unfold dev_close, mbind, drv_bind, get_nd. rewrite (ok_up _ _ (inv_net _ _ _ _ _ Hs)).
    by apply HQ.
Qed.

(** C34: [smsc911x_drv_remove], called on a device that a probe has set up and that
    may be up or down, never completes.  It gives back eight of the eleven resources,
    each exactly once (an interface that is up is closed first, which may wait for
    ever for the hardware), but then looks for the table of its regulators through
    the driver data that it has cleared before: a null pointer is dereferenced. *)
Theorem remove_null_dereference fuel w up s :
  inv_h all_held w true (up_mode up) false s -> ioaddr (pd s) <> 0 ->
  match remove_device fuel s with
  | Ret _ s' => (chip s').2 = [regulators_on; regulators; etherdev] /\
                smsc911x_drv_remove fuel s = Stop NullPointer
  | Stop why => why = Hang /\ up = true
  end.
Proof.
  intros Hs Ha. set (ok := fun why => why = Hang /\ up = true).
  cut (swp ok (remove_device fuel) (fun _ s' => (chip s').2 = [regulators_on; regulators; etherdev]) s).
  { unfold swp, smsc911x_drv_remove, mbind, drv_bind at 1. destruct (remove_device fuel s); [|done].
    intros H. split; [done|]. unfold smsc911x_disable_resources, supplies, mbind, drv_bind. by rewrite H. }
  unfold remove_device. apply swp_bind. unfold lib, swp at 1. cbn [fst snd].
  rewrite (inv_held _ _ _ _ _ _ Hs). apply swp_bind. unfold get_pd, swp at 1. cbn [pd with_chip].
  rewrite (inv_phy _ _ _ _ _ Hs), (proj2 (Z.eqb_neq _ 0)) by done.
  change (negb (bool_decide (drvdata ∈ all_held)) || false || negb true) with false. cbn iota.
  apply (swp_disconnect ok all_held w up); [by destruct s|done|]. intros s1 H1.
  do 3 (eapply swp_release_inv; [exact H1|done|]; clear H1; intros ? H1).
  apply swp_bind. unfold unregister_netdev. apply swp_bind. eapply close_run; [exact H1|].
  intros _ s2 H2. apply inv_held in H2. apply swp_wp. eapply wp_release; [exact H2|done|].
  apply swp_wp. release_all. apply wp_run. eexists _, _. split; reflexivity.
Qed.

End Held.

(** ** An example: a board that grants everything, and a chip that receives nothing *)

Definition quiet_read (o : Z) (d : unit) : Z * unit :=
  (if o =? PMT_CTRL then PMT_CTRL_READY_
   else if o =? BYTE_TEST then 0x87654321
   else if o =? ID_REV then 0x01180002
   else 0, d).

Definition quiet_chip : Smsc unit := {|
  readl := quiet_read; writel _ _ d := d;
  readw _ d := (0, d); writew _ _ d := d; chip_delay _ d := d |}.

Definition quiet_board : Platform unit := {|
  has_mem_resource _ := true; has_irq_resource _ := true;
  grant _ d := (0, d); ioremap_nocache d := (0x2c000000, d);
  random_bytes d := ([1; 2; 3; 4; 5; 6], d) |}.

(** The identifier of its PHY is zero: the generic driver is used. *)
Definition quiet_model : DeviceModel unit := {|
  phy_memory d := (true, d); device_register d := (0, d); device_bind_driver d := (0, d);
  phy_drivers _ := [genphy_driver; lan83c185_driver; lan8187_driver; lan8700_driver;
                    lan911x_int_driver; lan8710_driver];
  request_irq _ d := (0, d); irq_raised d := (false, d); background d := ([], d) |}.

Definition quiet_config : smsc911x_platform_config :=
  mk_config 1 1 SMSC911X_USE_32BIT 0 0 (replicate 6 0).

Definition quiet_state (h : list resource) (p : smsc911x_data) : dstate (board unit) :=
  mk_dstate (tt, h) p demo_netdev 0 [].

Lemma probe_accounts_witness :
  match @smsc911x_drv_probe _ quiet_chip quiet_board quiet_model 9 3 None (Some quiet_config) (quiet_state [] zero_pdata) with
  | Ret r s' => r = 0 \/ r < 0 /\ ((chip s').2 = [] \/ (chip s').2 = [phy_connection])
  | Stop why => why = OutOfBounds
  end.
Proof.
  assert (Hneg : forall r d, (@grant _ quiet_board r d).1 <= 0) by (intros r d; vm_compute; congruence).
  assert (Hbind : forall d, (@device_bind_driver _ quiet_model d).1 <= 0) by (intros d; vm_compute; congruence).
  pose proof (@probe_accounts _ quiet_chip quiet_board quiet_model Hneg Hbind (fun _ => eq_refl)
    9 3 None (Some quiet_config) (quiet_state [] zero_pdata)) as H.
  destruct (smsc911x_drv_probe _ _ _ _ _).
  - destruct H as [(H & _)|H].
    + discriminate.
    + intros c [= <-]. split; [left; reflexivity|reflexivity].
    + reflexivity.
    + left. exact H.
    + right. exact H.
  - apply H.
    + discriminate.
    + intros c [= <-]. split; [left; reflexivity|reflexivity].
    + reflexivity.
Defined.

(** A device whose loopback test fails is refused with [-ENXIO], and everything
    is released except the connection to the PHY: [smsc911x_mii_probe] returns
    without disconnecting it, and no later error path does. *)
Theorem failed_loopback_leaks_phy :
  exists s', @smsc911x_drv_probe _ quiet_chip quiet_board quiet_model 9 3 None (Some quiet_config) (quiet_state [] zero_pdata)
             = Ret (- ENXIO) s' /\ (chip s').2 = [phy_connection].
Proof. eexists. split; [vm_compute; reflexivity|vm_compute; reflexivity]. Qed.

Lemma remove_null_dereference_witness :
  match @remove_device _ quiet_chip quiet_model 9
    (with_nd (quiet_state all_held (set_phy_dev (Some demo_phy) (demo_pdata SMSC911X_USE_32BIT)))
       (set_running false (set_napi_scheduled true demo_netdev))) with
  | Ret _ s' => (chip s').2 = [regulators_on; regulators; etherdev] /\
      @smsc911x_drv_remove _ quiet_chip quiet_model 9
        (with_nd (quiet_state all_held (set_phy_dev (Some demo_phy) (demo_pdata SMSC911X_USE_32BIT)))
           (set_running false (set_napi_scheduled true demo_netdev))) = Stop NullPointer
  | Stop why => why = Hang /\ false = true
  end.
Proof.
  apply (@remove_null_dereference _ quiet_chip quiet_model 9 0 false).
  - by repeat constructor.
  - vm_compute. discriminate.
Defined.
