(* ===== verification/SmscBase.v ===== *)
(** * The earlier versions of the driver
    (code/nic-driver/smsc/smsc911x_no_attack.c and smsc911x_db_attack.c)

    Before the driver answered challenges by itself, the checksum was only run through
    an ioctl, which filled its buffer and took the time.  The two versions differ in
    their assembly alone; what else differs from smsc911x.c is modelled here: reception
    and the ioctl.  The answer to challenges is a conservative extension: as long as no
    packet looks like a challenge, the new driver does exactly what these do. *)

From S2P Require Import Prelude SmscDefs SmscIo SmscMac SmscRun SmscTx SmscPoll SmscPhy PhyLib SmscNetdev.

(** [do_gettimeofday]: seconds and microseconds *)
Class KernelClock (D : Type) := do_gettimeofday : D -> (Z * Z) * D.

Create HintDb quiet.

Section Base.
Context {D : Type} `{!Smsc D} `{!Allocator D} `{!Attestation D} `{!KernelClock D}.

(** ** Reception (smsc911x_no_attack.c 1191-1262) *)

Definition base_take_packet (pktlength pktwords : Z) (skb : sk_buff) : drv D unit :=
  skb ← read_packet pktlength pktwords skb;
  '(skb, _) ← eth_type_trans skb;
  _ ← netif_receive_skb skb;
  _ ← upd_stats (fun st => set_rx_packets (add32 (rx_packets st) 1) st);
  upd_stats (fun st => set_rx_bytes (add32 (rx_bytes st) (sub32 pktlength 4)) st).

Fixpoint base_poll_loop (n : nat) (npackets : Z) : drv D Z :=
  match n with
  | O => mret npackets
  | S n =>
      rxstat ← smsc911x_rx_get_rxstatus;
      if rxstat =? 0 then _ ← finish_poll; mret npackets
      else
        let npackets := npackets + 1 in
        let pktlength := Z.shiftr (Z.land rxstat 0x3fff0000) 16 in
        let pktwords := Z.shiftr (add32 (add32 pktlength NET_IP_ALIGN) 3) 2 in
        _ ← upd_stats (fun st => smsc911x_rx_counterrors st rxstat);
        if has rxstat RX_STS_ES_ then
          _ ← drop_packet pktwords; base_poll_loop n npackets
        else
          skb ← netdev_alloc_skb (shl32 pktwords 2);
          match skb with
          | None => _ ← drop_packet pktwords; mret npackets
          | Some skb => _ ← base_take_packet pktlength pktwords skb; base_poll_loop n npackets
          end
  end.

Definition base_poll (budget : Z) : drv D Z := base_poll_loop (Z.to_nat budget) 0.

(** ** The ioctl (smsc911x_db_attack.c 2410-2451) *)

(** [for (i = 0; i < 64; i++) buf[i] = 0xafafcbcb + i;] *)
Definition swatt_buf : list Z := map (fun i => add32 0xafafcbcb i) (seqZ 0 64).

(** The time that is printed, with [%d] *)
Definition swatt_usec (tv tvend : Z * Z) : Z :=
  s32 (add32 (mul32 (u32 (tvend.1 - tv.1)) 1000000) (u32 (tvend.2 - tv.2))).

(** [smsc911x_do_swatt]: the result, and the time it prints *)
Definition base_do_swatt (cmd : Z) : drv D (Z * option Z) :=
  if cmd =? ACENIC_IOCTL_SWATT then
    tv ← lib do_gettimeofday;
    _ ← (fun s => match attest true swatt_buf (chip s) with
                  | Some (_, d) => Ret tt (with_chip s d)
                  | None => Stop OutOfBounds
                  end);
    tvend ← lib do_gettimeofday;
    mret (0, Some (swatt_usec tv tvend))
  else mret (- EOPNOTSUPP, None).

(** [smsc911x_do_ioctl] *)
Definition base_do_ioctl (mii : mii_ioctl_data) (cmd : Z) : drv D (Z * mii_ioctl_data * option Z) :=
  p ← get_pd;
  n ← get_nd;
  match phy_dev p with
  | Some _ =>
      if running n then
        '(r, out) ← base_do_swatt cmd;
        if r =? 0 then mret (0, mii, out)
        else '(r, mii) ← phy_mii_ioctl mii cmd; mret (r, mii, out)
      else mret (- EINVAL, mii, None)
  | None => mret (- EINVAL, mii, None)
  end.

(** ** What reaches the stack *)

Definition quiet {A} (m : drv D A) : Prop := forall s a s', m s = Ret a s' -> received s' = received s.

Lemma quiet_ret {A} (a : A) : quiet (mret a).
Proof. by intros s b s' [= _ <-]. Qed.

Lemma quiet_halt {A} why : quiet (halt why : drv D A).
Proof. by intros s b s' [=]. Qed.

Lemma quiet_bind {A B} (m : drv D A) (k : A -> drv D B) : quiet m -> (forall a, quiet (k a)) -> quiet (m ≫= k).
Proof.
  intros Hm Hk s b s'. unfold mbind, drv_bind. destruct (m s) as [a s1|] eqn:E; [|done]. intros Ek.
  rewrite (Hk _ _ _ _ Ek). by apply Hm in E.
Qed.

(** Steps that touch the chip, the private data or the interface *)
Lemma quiet_get_pd : quiet (get_pd (D := D)).
Proof. by intros s b s' [= _ <-]. Qed.
Lemma quiet_get_nd : quiet (get_nd (D := D)).
Proof. by intros s b s' [= _ <-]. Qed.
Lemma quiet_upd_pd f : quiet (upd_pd (D := D) f).
Proof. by intros s b s' [= _ <-]. Qed.
Lemma quiet_upd_nd f : quiet (upd_nd (D := D) f).
Proof. by intros s b s' [= _ <-]. Qed.
Lemma quiet_udelay us : quiet (udelay (D := D) us).
Proof. by intros s b s' [= _ <-]. Qed.
Lemma quiet_do_readl o : quiet (do_readl (D := D) o).
Proof. intros s b s'. unfold do_readl. destruct (readl o (chip s)). by intros [= _ <-]. Qed.
Lemma quiet_do_readw o : quiet (do_readw (D := D) o).
Proof. intros s b s'. unfold do_readw. destruct (readw o (chip s)). by intros [= _ <-]. Qed.
Lemma quiet_do_writel v o : quiet (do_writel (D := D) v o).
Proof. by intros s b s' [= _ <-]. Qed.
Lemma quiet_do_writew v o : quiet (do_writew (D := D) v o).
Proof. by intros s b s' [= _ <-]. Qed.
Lemma quiet_alloc n : quiet (netdev_alloc_skb (D := D) n).
Proof.
  intros s b s'. unfold netdev_alloc_skb. destruct (alloc_area _ _) as [[a|] d]; by intros [= _ <-].
Qed.
Hint Resolve quiet_ret quiet_halt quiet_get_pd quiet_get_nd quiet_upd_pd quiet_upd_nd quiet_udelay quiet_do_readl
  quiet_do_readw quiet_do_writel quiet_do_writew quiet_alloc : quiet.

Ltac quiet_step :=
  lazymatch goal with
  | |- quiet (mbind _ _) => apply quiet_bind; [|intros ?]
  | |- quiet (if ?b then _ else _) => destruct b
  | |- quiet (match ?x with _ => _ end) => destruct x
  | |- quiet (let x := _ in _) => cbv zeta
  | |- _ => solve [eauto with quiet]
  end.
Ltac quiet := repeat quiet_step.

Lemma quiet_lock_dev : quiet (lock_dev (D := D)).
Proof. unfold lock_dev. quiet. Qed.
Lemma quiet_unlock_dev : quiet (unlock_dev (D := D)).
Proof. unfold unlock_dev. quiet. Qed.
Hint Resolve quiet_lock_dev quiet_unlock_dev : quiet.

Lemma quiet_read_raw p reg : quiet (ops_reg_read (D := D) p reg).
Proof. unfold ops_reg_read, __smsc911x_reg_read, __smsc911x_reg_read_shift. quiet. Qed.
Lemma quiet_write_raw p reg v : quiet (ops_reg_write (D := D) p reg v).
Proof. unfold ops_reg_write, __smsc911x_reg_write, __smsc911x_reg_write_shift. quiet. Qed.
Hint Resolve quiet_read_raw quiet_write_raw : quiet.

Lemma quiet_reg_read reg : quiet (smsc911x_reg_read (D := D) reg).
Proof. unfold smsc911x_reg_read. quiet. Qed.
Lemma quiet_reg_write reg v : quiet (smsc911x_reg_write (D := D) reg v).
Proof. unfold smsc911x_reg_write. quiet. Qed.
Hint Resolve quiet_reg_read quiet_reg_write : quiet.

Lemma quiet_read_words f n : quiet f -> quiet (read_words (D := D) f n).
Proof. intros Hf. induction n; cbn [read_words]; quiet. Qed.
Lemma quiet_readfifo n : quiet (ops_rx_readfifo (D := D) n).
Proof.
  unfold ops_rx_readfifo, smsc911x_rx_readfifo, smsc911x_rx_readfifo_shift, __smsc911x_reg_read, __smsc911x_reg_read_shift.
  quiet; apply quiet_read_words; quiet.
Qed.
Lemma quiet_rxstatus : quiet (smsc911x_rx_get_rxstatus (D := D)).
Proof. unfold smsc911x_rx_get_rxstatus. quiet. Qed.
Lemma quiet_upd_stats f : quiet (upd_stats (D := D) f).
Proof. apply quiet_upd_nd. Qed.
Lemma quiet_mem {A} (o : option A) : quiet (mem (D := D) o).
Proof. unfold mem. quiet. Qed.
Hint Resolve quiet_readfifo quiet_rxstatus quiet_upd_stats quiet_mem : quiet.

Lemma quiet_drop_packet n : quiet (drop_packet (D := D) n).
Proof.
  assert (H1 : forall k, quiet (ffwd_loop (D := D) k)) by (induction k; cbn [ffwd_loop]; quiet).
  assert (H2 : forall k, quiet (drain_words (D := D) k)) by (induction k; cbn [drain_words]; quiet).
  unfold drop_packet, smsc911x_rx_fastforward. quiet.
Qed.
Lemma quiet_finish_poll : quiet (finish_poll (D := D)).
Proof. unfold finish_poll, napi_complete. quiet. Qed.
Lemma quiet_read_packet l n skb : quiet (read_packet (D := D) l n skb).
Proof. unfold read_packet, skb_put. quiet. Qed.
Lemma quiet_eth_type_trans skb : quiet (eth_type_trans (D := D) skb).
Proof. unfold eth_type_trans. quiet. Qed.
Hint Resolve quiet_drop_packet quiet_finish_poll quiet_read_packet quiet_eth_type_trans : quiet.

Lemma bind_ret {A B} (m : drv D A) (k : A -> drv D B) s b s' :
  (m ≫= k) s = Ret b s' -> exists a s1, m s = Ret a s1 /\ k a s1 = Ret b s'.
Proof. unfold mbind, drv_bind. destruct (m s) as [a s1|]; [|done]. intros E. by exists a, s1. Qed.

Lemma ret_bind {A B} (m : drv D A) (k : A -> drv D B) s a s1 : m s = Ret a s1 -> (m ≫= k) s = k a s1.
Proof. intros E. unfold mbind, drv_bind. by rewrite E. Qed.

(** ** Packets that are no challenge *)

(** Long enough for the test of the protocol and the type, and not of those values *)
Definition ordinary (packet : list Z) : Prop :=
  exists b9, packet !! 9%nat = Some b9 /\
    (b9 <> 0x01 \/ exists b20, packet !! 20%nat = Some b20 /\ b20 <> VET_ICMP_TYPE).

Lemma payload_load skb i b :
  0 <= data skb -> payload skb !! i = Some b -> skb_load (Z.of_nat i) 1 skb = Some [b].
Proof.
  unfold payload. intros Hd H. apply lookup_take_Some in H as [H _]. rewrite lookup_drop in H.
  pose proof (lookup_lt_Some _ _ _ H) as Hlt. unfold skb_load.
  replace (Z.to_nat (data skb + Z.of_nat i)) with (Z.to_nat (data skb) + i)%nat by lia.
  rewrite (proj2 (Z.leb_le 0 _)), (proj2 (Z.leb_le _ _)) by lia. cbn [andb]. f_equal.
  rewrite (drop_S _ b) by done. done.
Qed.

Lemma le_combine_one b : le_combine [b] = b.
Proof. cbn. lia. Qed.

Lemma ordinary_no_challenge protocol skb s :
  0 <= data skb -> ordinary (payload skb) -> is_challenge (D := D) protocol skb s = Ret false s.
Proof.
  intros Hd (b9 & E9 & H). unfold is_challenge. destruct (protocol =? 0x08); [|done].
  pose proof (payload_load skb 9 b9 Hd E9) as L9. change (Z.of_nat 9) with 9 in L9. rewrite L9.
  unfold mem. cbn [mret]. unfold mbind at 1, drv_bind at 1. cbn [mret drv_ret].
  rewrite le_combine_one. destruct (Z.eqb_spec b9 0x01) as [->|]; [|done].
  destruct H as [H|(b20 & E20 & H)]; [done|].
  pose proof (payload_load skb 20 b20 Hd E20) as L20. change (Z.of_nat 20) with 20 in L20. rewrite L20.
  unfold mbind, drv_bind. cbn [mret drv_ret]. rewrite le_combine_one. by rewrite (proj2 (Z.eqb_neq _ _)).
Qed.

(** The buffer of a packet starts inside its area. *)
Lemma read_packet_data l n skb s skb' s' :
  read_packet (D := D) l n skb s = Ret skb' s' -> 0 <= data skb -> 0 <= data skb'.
Proof.
  unfold read_packet. intros H Hd. apply bind_ret in H as (ws & s1 & _ & H). apply bind_ret in H as (skb1 & s2 & H1 & H).
  unfold mem, skb_store in H1. destruct (_ && _); [|done]. injection H1 as <- <-.
  unfold skb_put in H. cbn in H. destruct (_ <? _); [done|]. injection H as <- <-. cbn. unfold NET_IP_ALIGN. lia.
Qed.

Lemma eth_type_trans_data skb s r s' :
  eth_type_trans (D := D) skb s = Ret r s' -> 0 <= data skb -> 0 <= data r.1.
Proof.
  unfold eth_type_trans. intros H Hd. apply bind_ret in H as (hp & s1 & _ & H). cbv zeta in H.
  assert (Hp : 0 <= data (skb_pull_inline ETH_HLEN skb)).
  { unfold skb_pull_inline, ETH_HLEN. destruct (_ <? _); cbn; lia. }
  destruct (_ <=? _); [by injection H as <- _|]. destruct (_ <=? _); [|by injection H as <- _].
  apply bind_ret in H as (w & s2 & _ & H). destruct (_ =? _); by injection H as <- _.
Qed.

(** One packet: the earlier driver hands it over, and if it is no challenge the new one
    does the same. *)
Lemma take_conservative fuel l n skb s s' :
  base_take_packet l n skb s = Ret tt s' -> 0 <= data skb ->
  exists packet, received s' = received s ++ [packet] /\
    (ordinary packet -> take_packet fuel l n skb s = Ret tt s').
Proof.
  unfold base_take_packet, take_packet. intros H Hd.
  apply bind_ret in H as (skb1 & s1 & E1 & H). apply bind_ret in H as ([skb2 protocol] & s2 & E2 & H).
  pose proof (read_packet_data _ _ _ _ _ _ E1 Hd) as Hd1. pose proof (eth_type_trans_data _ _ _ _ E2 Hd1) as Hd2.
  exists (payload skb2). split.
  - apply bind_ret in H as ([] & s3 & [= <-] & H). apply bind_ret in H as ([] & s4 & E4 & H).
    rewrite (quiet_upd_stats _ _ _ _ H), (quiet_upd_stats _ _ _ _ E4). cbn [received].
    by rewrite (quiet_eth_type_trans _ _ _ _ E2), (quiet_read_packet _ _ _ _ _ _ E1).
  - intros Ho. rewrite (ret_bind _ _ _ _ _ E1), (ret_bind _ _ _ _ _ E2).
    by rewrite (ret_bind _ _ _ _ _ (ordinary_no_challenge protocol skb2 s2 Hd2 Ho)).
Qed.

(** Any number of them *)
Lemma loop_conservative fuel n k s r s' :
  base_poll_loop n k s = Ret r s' ->
  exists l, received s' = received s ++ l /\ (Forall ordinary l -> poll_loop fuel n k s = Ret r s').
Proof.
  revert k s. induction n as [|n IH]; intros k s; cbn [base_poll_loop poll_loop].
  { intros [= <- <-]. exists []. by rewrite app_nil_r. }
  intros H. apply bind_ret in H as (rxstat & s1 & E1 & H). rewrite (ret_bind _ _ _ _ _ E1).
  rewrite <- (quiet_rxstatus _ _ _ E1). clear s E1. destruct (rxstat =? 0).
  { exists []. rewrite app_nil_r. apply bind_ret in H as ([] & s2 & E2 & [= <- <-]). rewrite (ret_bind _ _ _ _ _ E2).
    by rewrite (quiet_finish_poll _ _ _ E2). }
  cbv zeta in *. apply bind_ret in H as ([] & s2 & E2 & H). rewrite (ret_bind _ _ _ _ _ E2).
  rewrite <- (quiet_upd_stats _ _ _ _ E2). clear s1 E2. destruct (has rxstat RX_STS_ES_).
  { apply bind_ret in H as ([] & s3 & E3 & H). rewrite (ret_bind _ _ _ _ _ E3).
    rewrite <- (quiet_drop_packet _ _ _ _ E3). by apply IH. }
  apply bind_ret in H as ([skb|] & s3 & E3 & H); rewrite (ret_bind _ _ _ _ _ E3), <- (quiet_alloc _ _ _ _ E3).
  - apply bind_ret in H as ([] & s4 & E4 & H). destruct (take_conservative fuel _ _ _ _ _ E4) as (x & Ex & Hx).
    { unfold netdev_alloc_skb in E3. destruct (alloc_area _ _) as [[a|] d]; [|done]. by injection E3 as <- _. }
    destruct (IH _ _ H) as (l & El & Hl). exists (x :: l). split; [by rewrite El, Ex, <- app_assoc|].
    intros Hf. inversion Hf; subst. rewrite (ret_bind _ _ _ _ _ (Hx ltac:(done))). by apply Hl.
  - exists []. rewrite app_nil_r. apply bind_ret in H as ([] & s4 & E4 & [= <- <-]). rewrite (ret_bind _ _ _ _ _ E4).
    by rewrite (quiet_drop_packet _ _ _ _ E4).
Qed.

(** C16: the answer to challenges is a conservative extension.  Let the earlier driver
    poll, with any chip and allocator behind it; if none of the packets that it hands
    to the stack has the protocol and the type of a challenge, the driver that answers
    challenges returns the same number, with the same packets handed over and the same
    state of the chip, the device and the statistics. *)
Theorem poll_conservative fuel budget s n s' :
  base_poll budget s = Ret n s' -> Forall ordinary (drop (length (received s)) (received s')) ->
  smsc911x_poll fuel budget s = Ret n s'.
Proof.
  intros H Ho. destruct (loop_conservative fuel _ _ _ _ _ H) as (l & El & Hl). apply Hl.
  by rewrite El, drop_app_length in Ho.
Qed.

(** The ioctl: all commands but the one for the checksum have the same effect, and that
    one runs the same code, on words of its own, and reports how long it took. *)
Theorem ioctl_conservative stack mii cmd s :
  (cmd <> ACENIC_IOCTL_SWATT ->
   (x ← base_do_ioctl mii cmd; mret (x.1 : Z * mii_ioctl_data)) s = smsc911x_do_ioctl stack mii cmd s) /\
  (forall r out s', base_do_ioctl mii ACENIC_IOCTL_SWATT s = Ret (r, mii, Some out) s' ->
   r = 0 /\ exists tv tvend d1 ws d2, do_gettimeofday (chip s) = (tv, d1) /\ attest true swatt_buf d1 = Some (ws, d2) /\
     (do_gettimeofday d2).1 = tvend /\ out = swatt_usec tv tvend).
Proof.
  split.
  - intros Hc. unfold base_do_ioctl, smsc911x_do_ioctl, base_do_swatt. rewrite (proj2 (Z.eqb_neq _ _)) by done.
    unfold mbind, drv_bind, get_pd, get_nd. destruct (phy_dev (pd s)); [|done]. destruct (running (nd s)); [|done].
    cbn [mret drv_ret]. change (- EOPNOTSUPP =? 0) with false. cbv beta iota.
    by destruct (phy_mii_ioctl mii cmd s) as [[r m] s'|].
  - intros r out s'. unfold base_do_ioctl, base_do_swatt, lib, mbind, drv_bind, get_pd, get_nd. rewrite Z.eqb_refl.
    destruct (phy_dev (pd s)); [|done]. destruct (running (nd s)); [|done].
    destruct (do_gettimeofday (chip s)) as [tv d1]. cbn. destruct (attest true swatt_buf d1) as [[ws d2]|] eqn:Ea; [|done]. cbn.
    intros [= <- <- <-]. split; [done|]. by exists tv, (do_gettimeofday d2).1, d1, ws, d2.
Qed.

End Base.

(** ** A packet with an error, and a plain one *)

#[local] Existing Instance rx_demo_chip.
#[local] Existing Instance rx_demo_alloc.
#[local] Existing Instance rx_demo_attest.

Lemma poll_conservative_witness :
  exists s', base_poll 64 (rx_demo_state demo_pkts []) = Ret 2 s' /\ length (received s') = 1%nat /\
    smsc911x_poll 8 64 (rx_demo_state demo_pkts []) = Ret 2 s'.
Proof.
  eexists. split; [vm_compute; reflexivity|]. split; [reflexivity|].
  apply (poll_conservative 8 64 (rx_demo_state demo_pkts []) 2).
  - vm_compute. reflexivity.
  - cbn. constructor; [|constructor]. eexists. split; [reflexivity|]. left. discriminate.
Defined.
