(* ===== verification/TimingTool.v ===== *)
(** * The timing tool (code/app/app/simulator.c) on the network driver

    The program calls the attestation ioctl of the interface once and prints the time
    that it took.  The ioctl goes through the network core ([dev_ioctl], private
    commands) to [smsc911x_do_ioctl] of the driver, which runs the checksum code.  The
    socket and the clock are an interface. *)

From S2P Require Import Prelude SmscDefs SmscIo SmscPoll SmscPhy PhyLib SmscNetdev.

Definition IFNAMSIZ : nat := 16.
Definition SIOCDEVPRIVATE : Z := 0x89f0.
Definition ACENIC_IOCTL_SWATT : Z := SIOCDEVPRIVATE + 2.
Definition ENOTTY : Z := 25.

(** [socket] returns a descriptor or -1; [gettimeofday] seconds and microseconds. *)
Class Clock (D : Type) := {
  open_socket : D -> Z * D;
  gettimeofday : D -> (Z * Z) * D }.

(** What the program prints *)
Inductive line :=
  | usage | name_too_long | not_root | ioctl_fail
  | tvend_line (t : Z * Z) | tv_line (t : Z * Z) | diff_line (d : Z).

(** ** The ioctl *)

Section Tool.
Context {D : Type} `{!Smsc D} `{!Attestation D} `{!Clock D}.
Context (ifname : list Z) (stack : list Z).
Implicit Types s : dstate D.

(** [dev_ifsioc] for a private command: the device is the one with the name [ifname];
    a driver with the operation, whose device is there. *)
Definition dev_ifsioc (name : list Z) (ifru : mii_ioctl_data) (cmd : Z) : drv D (Z * mii_ioctl_data) :=
  if negb (bool_decide (name = ifname)) then mret (- ENODEV, ifru)
  else smsc911x_do_ioctl stack ifru cmd.

(** [dev_ioctl], the part for private commands; the copy to the caller succeeds. *)
Definition dev_ioctl (name : list Z) (ifru : mii_ioctl_data) (cmd : Z) : drv D (Z * mii_ioctl_data) :=
  if (SIOCDEVPRIVATE <=? cmd) && (cmd <=? SIOCDEVPRIVATE + 15) then dev_ifsioc name ifru cmd
  else mret (- ENOTTY, ifru).

(** ** The program *)

(** [ioctl] on the socket: 0, or -1 for an error *)
Definition ioctl (fd : Z) (name : list Z) (ifru : mii_ioctl_data) (cmd : Z) : drv D Z :=
  if fd <? 0 then mret (-1)
  else
    '(r, _) ← dev_ioctl name ifru cmd;
    mret (if r <? 0 then -1 else r).

(** [swatt]: whether it succeeded, and what it prints *)
Definition swatt (fd : Z) (name : list Z) (ifru : mii_ioctl_data) : drv D (bool * list line) :=
  r ← ioctl fd name ifru ACENIC_IOCTL_SWATT;
  mret (if negb (r =? 0) then (false, [ioctl_fail]) else (true, [])).

(** The difference of two times, in the 32-bit arithmetic of the board *)
Definition usec_diff (tv tvend : Z * Z) : Z :=
  s32 (u32 ((tvend.1 - tv.1) * 1000000 + (tvend.2 - tv.2))).

(** [main], for the arguments and the effective user: what it prints, and its status, if
    it sets one; [ifru] is the union of the request, with the pointer [ifr_data]. *)
Definition main (argc : Z) (argv1 : list Z) (euid : Z) (ifru : mii_ioctl_data) : drv D (list line * option Z) :=
  if negb (argc =? 3) then mret ([usage], None)
  else if (IFNAMSIZ <=? length argv1)%nat then mret ([name_too_long], None)
  else if negb (euid =? 0) then mret ([not_root], None)
  else
    fd ← lib open_socket;
    tv ← lib gettimeofday;
    '(ok, out) ← swatt fd argv1 ifru;
    if negb ok then mret (out, Some (-1))
    else
      tvend ← lib gettimeofday;
      mret (out ++ [tvend_line tvend; tv_line tv; diff_line (usec_diff tv tvend)], Some 0).

(** ** What it reports *)

Lemma usec_diff_exact tv tvend (d := (tvend.1 - tv.1) * 1000000 + (tvend.2 - tv.2)) :
  0 <= d < 2 ^ 31 -> usec_diff tv tvend = d.
Proof.
  intros Hd. unfold usec_diff, u32, s32. fold d. rewrite Z.mod_small by lia. by rewrite (proj2 (Z.ltb_lt _ _)) by lia.
Qed.

(** C40: as root and on an interface that is up, the tool makes the driver run the checksum
    code once and prints the time from before the call to after it, exactly for less than
    2^31 microseconds; the words of the checksum do not reach it, so its output is the
    same for every checksum that takes the same time.  On an interface that is down it
    reports the failure and ends with status -1. *)
Theorem timing_tool_reports ifru s fd d0 tv d1 ws d2 tvend d3 :
  (length ifname < IFNAMSIZ)%nat -> is_Some (phy_dev (pd s)) ->
  open_socket (chip s) = (fd, d0) -> 0 <= fd -> gettimeofday d0 = (tv, d1) ->
  attest true stack d1 = Some (ws, d2) -> gettimeofday d2 = (tvend, d3) ->
  main 3 ifname 0 ifru s =
    (if running (nd s)
     then Ret ([tvend_line tvend; tv_line tv; diff_line (usec_diff tv tvend)], Some 0) (with_chip s d3)
     else Ret ([ioctl_fail], Some (-1)) (with_chip s d1)) /\
  (0 <= (tvend.1 - tv.1) * 1000000 + (tvend.2 - tv.2) < 2 ^ 31 ->
   usec_diff tv tvend = (tvend.1 - tv.1) * 1000000 + (tvend.2 - tv.2)).
Proof.
  intros Hn [y Hy] Hfd H0 Ht0 Ha Ht1. split; [|apply usec_diff_exact].
  unfold main. cbn [Z.eqb Pos.eqb negb]. rewrite (proj2 (Nat.leb_gt _ _)) by done.
  unfold swatt, ioctl, dev_ioctl, dev_ifsioc, smsc911x_do_ioctl, smsc911x_do_swatt, lib, mbind, drv_bind, get_pd, get_nd.
  rewrite Hfd. cbn [fst snd chip with_chip]. rewrite Ht0. cbn [fst snd chip with_chip pd nd].
  rewrite (proj2 (Z.ltb_ge fd 0)) by done.
  change ((SIOCDEVPRIVATE <=? ACENIC_IOCTL_SWATT) && (ACENIC_IOCTL_SWATT <=? SIOCDEVPRIVATE + 15)) with true.
  rewrite bool_decide_eq_true_2 by done. cbn [negb pd with_chip]. rewrite Hy. cbn. destruct (running (nd s)); [|done].
  change (ACENIC_IOCTL_SWATT =? SmscNetdev.ACENIC_IOCTL_SWATT) with true. unfold attest in *. cbn. rewrite Ha. cbn. by rewrite Ht1.
Qed.

End Tool.

(** A board that counts two seconds for the checksum *)
#[local] Instance tool_clock : Clock Z := {|
  open_socket d := (3, d);
  gettimeofday d := ((d, 500000), d + 1) |}.
#[local] Instance tool_attest : Attestation Z := fun _ ws d => Some (ws, d + 1).
#[local] Instance tool_chip : Smsc Z := {|
  readl _ d := (0, d); writel _ _ d := d; readw _ d := (0, d); writew _ _ d := d; chip_delay _ d := d |}.

Definition tool_state : dstate Z :=
  mk_dstate 1000 (set_phy_dev (Some demo_phy) (demo_pdata SMSC911X_USE_32BIT)) (set_running true demo_netdev) 0 [].

Lemma timing_tool_reports_witness :
  main [101; 116; 104] [] 3 [101; 116; 104] 0 (mk_mii 0 0 0 0) tool_state =
    Ret ([tvend_line (1002, 500000); tv_line (1000, 500000); diff_line 2000000], Some 0) (with_chip tool_state 1003).
Proof.
  destruct (timing_tool_reports [101; 116; 104] [] (mk_mii 0 0 0 0) tool_state 3 1000 (1000, 500000) 1001 [] 1002
    (1002, 500000) 1003) as [E Hd]; [by apply Nat.ltb_lt|by exists demo_phy|done|done|done|done|done|].
  rewrite Hd in E by done. exact E.
Defined.
