(* ===== verification/ArmIsa.v ===== *)
(** * The ARM instructions of the attestation code

    The subset of the 32-bit ARM instruction set that the assembly in
    src/code/nic-driver/smsc/smsc911x.c uses, as an executable machine: registers,
    condition flags, the control byte of the status register, a memory of
    words, and programs with labels. *)

From S2P Require Import Prelude.

(** ** Instructions *)

Inductive label :=
  | checksum_loop
  | dp_attack (k : nat)
  | dp_attack_ret (k : nat)
  | jmp_over_attack.

#[export] Instance label_eq_dec : EqDecision label.
Proof. solve_decision. Defined.

Inductive cond := AL | CS.
Inductive dp_op := ADD | ADC | SUB | EOR | ORR | AND | BIC.

(** The second operand: an immediate, a register, a register shifted right or
    rotated right by an immediate. *)
Inductive operand := Imm (v : Z) | Reg (m : nat) | Lsr (m : nat) (n : Z) | Ror (m : nat) (n : Z).

Inductive instr :=
  | Dp (c : cond) (s : bool) (op : dp_op) (d n : nat) (o : operand)
  | Muls (d m n : nat)
  | Ldr (d n : nat) (off : Z)
  | Str (d n : nat) (off : Z)
  | Mrs (d : nat)
  | MsrC (n : nat)
  | Push (d : nat)
  | Pop (d : nat)
  | MovArg (d : nat)
  | Nop
  | B (l : label)
  | Bne (l : label).

(** A program is written as instructions and labels. *)
Inductive item := Ins (i : instr) | Lab (l : label).

Fixpoint code_of (p : list item) : list instr :=
  match p with
  | [] => []
  | Ins i :: p => i :: code_of p
  | Lab _ :: p => code_of p
  end.

Fixpoint target_of (l : label) (p : list item) (k : nat) : option nat :=
  match p with
  | [] => None
  | Ins _ :: p => target_of l p (S k)
  | Lab l' :: p => if decide (l = l') then Some k else target_of l p k
  end.

(** ** The machine *)

Record arm := mk_arm {
  regs : list Z;
  fN : bool;
  fZ : bool;
  fC : bool;
  fV : bool;
  psr : Z;
  mem : Z -> Z }.

Definition with_regs (s : arm) (r : list Z) : arm := mk_arm r (fN s) (fZ s) (fC s) (fV s) (psr s) (mem s).
Definition with_mem (s : arm) (m : Z -> Z) : arm :=
  mk_arm (regs s) (fN s) (fZ s) (fC s) (fV s) (psr s) m.
Definition setreg (d : nat) (v : Z) (s : arm) : arm := with_regs s (rset d v (regs s)).

Definition upd (m : Z -> Z) (a v : Z) : Z -> Z := fun b => if b =? a then v else m b.

(** The status register: flags in the top four bits, the rest in [psr]. *)
Definition cpsr (s : arm) : Z :=
  Z.b2z (fN s) * 2 ^ 31 + Z.b2z (fZ s) * 2 ^ 30 + Z.b2z (fC s) * 2 ^ 29 + Z.b2z (fV s) * 2 ^ 28
  + psr s.

(** [msr cpsr_c]: the control byte. *)
Definition set_control (v : Z) (s : arm) : arm :=
  mk_arm (regs s) (fN s) (fZ s) (fC s) (fV s) (psr s - psr s mod 2 ^ 8 + v mod 2 ^ 8) (mem s).
Definition mode (p : Z) : Z := p mod 2 ^ 5.

(** Register 15 reads as the address of the instruction plus 8. *)
Definition rd (pc : Z) (s : arm) (k : nat) : Z :=
  if decide (k = 15%nat) then pc else rget (regs s) k.

Definition op2 (pc : Z) (s : arm) (o : operand) : Z :=
  match o with
  | Imm v => v
  | Reg m => rd pc s m
  | Lsr m n => Z.shiftr (rd pc s m) n
  | Ror m n => ror32 (rd pc s m) n
  end.

Definition passes (c : cond) (s : arm) : bool := match c with AL => true | CS => fC s end.

(** The full result of an operation, before it is cut to 32 bits. *)
Definition alu (op : dp_op) (c : bool) (a b : Z) : Z :=
  match op with
  | ADD => a + b
  | ADC => a + b + Z.b2z c
  | SUB => a - b
  | EOR => Z.lxor a b
  | ORR => Z.lor a b
  | AND => Z.land a b
  | BIC => Z.land a (not32 b)
  end.

Definition neg32 (x : Z) : bool := 2 ^ 31 <=? x.

(** Flags of the arithmetic operations; the code sets flags with no others. *)
Definition alu_flags (op : dp_op) (c : bool) (a b : Z) (s : arm) : option arm :=
  let r := u32 (alu op c a b) in
  let set C V := Some (mk_arm (regs s) (neg32 r) (r =? 0) C V (psr s) (mem s)) in
  match op with
  | ADD | ADC => set (2 ^ 32 <=? alu op c a b)
                     (eqb (neg32 a) (neg32 b) && negb (eqb (neg32 a) (neg32 r)))
  | SUB => set (b <=? a) (negb (eqb (neg32 a) (neg32 b)) && negb (eqb (neg32 a) (neg32 r)))
  | _ => None
  end.

(** Memory is accessed by aligned words. *)
Definition load (a : Z) (s : arm) : option Z :=
  if u32 a mod 4 =? 0 then Some (mem s (u32 a)) else None.
Definition store (a v : Z) (s : arm) : option arm :=
  if u32 a mod 4 =? 0 then Some (with_mem s (upd (mem s) (u32 a) v)) else None.

(** One instruction other than a branch.  [arg] is the operand [%0] of the
    statement.  A [push] of the stack pointer stores its old value and a [pop]
    of it keeps the loaded one, as the cores do.  A change of mode would switch
    register banks and is not modelled. *)
Definition exec (pc arg : Z) (i : instr) (s : arm) : option arm :=
  match i with
  | Dp c f op d n o =>
      if passes c s then
        let a := rd pc s n in
        let b := op2 pc s o in
        s' ← (if f then alu_flags op (fC s) a b s else Some s);
        Some (setreg d (u32 (alu op (fC s) a b)) s')
      else Some s
  | Muls d m n =>
      let r := mul32 (rd pc s m) (rd pc s n) in
      Some (setreg d r (mk_arm (regs s) (neg32 r) (r =? 0) (fC s) (fV s) (psr s) (mem s)))
  | Ldr d n off => v ← load (rd pc s n + off) s; Some (setreg d v s)
  | Str d n off => store (rd pc s n + off) (rd pc s d) s
  | Mrs d => Some (setreg d (cpsr s) s)
  | MsrC n =>
      let v := rd pc s n in
      if mode v =? mode (psr s) then Some (set_control v s) else None
  | Push d =>
      let sp := sub32 (rd pc s 13) 4 in
      s' ← store sp (rd pc s d) s; Some (setreg 13 sp s')
  | Pop d =>
      let sp := rd pc s 13 in
      v ← load sp s; Some (setreg d v (setreg 13 (add32 sp 4) s))
  | MovArg d => Some (setreg d arg s)
  | Nop => Some s
  | B _ | Bne _ => None
  end.

(** ** Programs

    The address of instruction [origin] is [base]. *)
Record image := mk_image { items : list item; origin : nat; base : Z }.

Definition pc_at (im : image) (k : nat) : Z :=
  u32 (base im + 4 * (Z.of_nat k - Z.of_nat (origin im)) + 8).

Definition step (im : image) (arg : Z) (c : nat * arm) : option (nat * arm) :=
  let '(k, s) := c in
  i ← code_of (items im) !! k;
  match i with
  | B l => t ← target_of l (items im) 0; Some (t, s)
  | Bne l => if fZ s then Some (S k, s) else t ← target_of l (items im) 0; Some (t, s)
  | _ => s' ← exec (pc_at im k) arg i s; Some (S k, s')
  end.

Definition at_end (im : image) (c : nat * arm) : bool :=
  bool_decide (c.1 = length (code_of (items im))).

Definition run (im : image) (arg : Z) (fuel : nat) (s : arm) : option arm :=
  r ← iter_until (at_end im) (step im arg) fuel (0%nat, s); Some r.2.

(** ** Straight-line code *)

Fixpoint exec_seq (im : image) (arg : Z) (k : nat) (l : list instr) (s : arm) : option arm :=
  match l with
  | [] => Some s
  | i :: l => s' ← exec (pc_at im k) arg i s; exec_seq im arg (S k) l s'
  end.

(** The code of [im] at [k] is [l]. *)
Definition code_at (im : image) (k : nat) (l : list instr) : Prop :=
  take (length l) (drop k (code_of (items im))) = l.

Definition is_branch (i : instr) : bool := match i with B _ | Bne _ => true | _ => false end.

Lemma code_at_cons im k i l :
  code_at im k (i :: l) -> code_of (items im) !! k = Some i /\ code_at im (S k) l.
Proof.
  unfold code_at. intros H. cbn in H.
  destruct (drop k (code_of (items im))) as [|j t] eqn:E; [done|].
  cbn in H. injection H as -> H. split.
  - rewrite <- (Nat.add_0_r k), <- lookup_drop, E. done.
  - by rewrite <- Nat.add_1_r, <- drop_drop, E.
Qed.

Lemma at_end_false im k s i : code_of (items im) !! k = Some i -> at_end im (k, s) = false.
Proof.
  intros H. apply lookup_lt_Some in H. apply bool_decide_eq_false. cbn. lia.
Qed.

Lemma step_exec im arg k i s :
  code_of (items im) !! k = Some i -> is_branch i = false ->
  step im arg (k, s) = s' ← exec (pc_at im k) arg i s; Some (S k, s').
Proof. intros H Hb. cbn [step]. rewrite H. by destruct i. Qed.

Lemma iter_steps_app {S} (final : S -> bool) step n m (s t : S) :
  iter_steps final step n s = Some t ->
  iter_steps final step (n + m) s = iter_steps final step m t.
Proof.
  revert s. induction n as [|n IH]; intros s; cbn; [by intros [= ->]|].
  destruct (final s); [done|]. destruct (step s) as [u|]; cbn; [apply IH|done].
Qed.

Lemma exec_seq_steps im arg k l s s' :
  code_at im k l -> forallb (fun i => negb (is_branch i)) l = true ->
  exec_seq im arg k l s = Some s' ->
  iter_steps (at_end im) (step im arg) (length l) (k, s) = Some ((k + length l)%nat, s').
Proof.
  revert k s. induction l as [|i l IH]; intros k s Hc Hb; cbn [exec_seq length].
  { intros [= ->]. cbn. do 2 f_equal. lia. }
  apply code_at_cons in Hc as [Hi Hc]. cbn [forallb] in Hb.
  apply andb_true_iff in Hb as [Hbi Hb]. apply negb_true_iff in Hbi.
  cbn [iter_steps]. rewrite (at_end_false _ _ _ _ Hi), (step_exec _ _ _ _ _ Hi Hbi).
  destruct (exec _ arg i s) as [t|]; cbn; [|done]. intros H. rewrite (IH _ _ Hc Hb H).
  do 2 f_equal. lia.
Qed.

Lemma exec_seq_app im arg k l1 l2 s :
  exec_seq im arg k (l1 ++ l2) s
  = t ← exec_seq im arg k l1 s; exec_seq im arg (k + length l1) l2 t.
Proof.
  revert k s. induction l1 as [|i l1 IH]; intros k s; cbn [app exec_seq length].
  { cbn. f_equal. lia. }
  destruct (exec _ arg i s) as [t|]; cbn; [|done]. rewrite IH. cbn. by rewrite Nat.add_succ_r.
Qed.

(** ** Padding

    No-ops between a first part [a] of the code, without labels and branches and without
    a use of the program counter, and the rest [r], whose address stays the same. *)

Section Padding.
Context (a r : list item) (pad : nat) (b arg : Z).

Definition packed : image := mk_image (a ++ r) (length (code_of a)) b.
Definition padded : image := mk_image (a ++ replicate pad (Ins Nop) ++ r) (length (code_of a) + pad) b.

(** Instructions that do the same wherever they are *)
Definition position_free (it : item) : bool :=
  match it with Ins (Push d) => negb (d =? 15)%nat | Ins (MovArg _) => true | _ => false end.

Hypothesis Ha : forallb position_free a = true.

Lemma code_of_app p q : code_of (p ++ q) = code_of p ++ code_of q.
Proof. induction p as [|[i|l] p IH]; cbn; [done|by rewrite IH|done]. Qed.

Lemma code_of_nops n : code_of (replicate n (Ins Nop)) = replicate n Nop.
Proof. induction n as [|n IH]; cbn; [done|by rewrite IH]. Qed.

Lemma code_padded : code_of (items padded) = code_of a ++ replicate pad Nop ++ code_of r.
Proof. cbn [padded items]. by rewrite !code_of_app, code_of_nops. Qed.

Lemma target_of_shift l p k n : target_of l p (k + n) = (fun t => (t + n)%nat) <$> target_of l p k.
Proof.
  revert k. induction p as [|[i|l'] p IH]; intros k; cbn; [done|apply (IH (S k))|].
  case_decide; [done|apply IH].
Qed.

Lemma target_of_first l q k : target_of l (a ++ q) k = target_of l q (k + length (code_of a)).
Proof.
  revert k Ha. induction a as [|[i|l'] p IH]; intros k Hp; cbn; [by rewrite Nat.add_0_r| |done].
  cbn in Hp. apply andb_true_iff in Hp as [_ Hp]. rewrite IH by done. f_equal. lia.
Qed.

Lemma target_of_nops l n q k : target_of l (replicate n (Ins Nop) ++ q) k = target_of l q (k + n).
Proof. revert k. induction n as [|n IH]; intros k; cbn; [by rewrite Nat.add_0_r|]. rewrite IH. f_equal. lia. Qed.

Lemma target_padded l : target_of l (items padded) 0 = (fun t => (t + pad)%nat) <$> target_of l (items packed) 0.
Proof. cbn [items padded packed]. by rewrite !target_of_first, target_of_nops, target_of_shift. Qed.

Lemma target_late l t : target_of l (items packed) 0 = Some t -> (length (code_of a) <= t)%nat.
Proof.
  cbn [items packed]. rewrite target_of_first, target_of_shift. intros H.
  destruct (target_of l r 0); [injection H as <-; lia|done].
Qed.

Lemma code_late k :
  (length (code_of a) <= k)%nat -> code_of (items padded) !! (k + pad)%nat = code_of (items packed) !! k.
Proof.
  intros Hk. rewrite code_padded. cbn [items packed]. rewrite code_of_app.
  rewrite !lookup_app_r by (rewrite ?length_replicate; lia). rewrite length_replicate. f_equal. lia.
Qed.

Lemma pc_late k : pc_at padded (k + pad) = pc_at packed k.
Proof. unfold pc_at. cbn. f_equal. lia. Qed.

Lemma end_late k s : at_end padded ((k + pad)%nat, s) = at_end packed (k, s).
Proof.
  unfold at_end. rewrite code_padded. cbn [fst items packed]. rewrite code_of_app, !length_app, length_replicate.
  apply bool_decide_ext. lia.
Qed.

(** After the padding every step is the same. *)
Lemma step_late k s k' s' :
  (length (code_of a) <= k)%nat -> step packed arg (k, s) = Some (k', s') ->
  step padded arg ((k + pad)%nat, s) = Some ((k' + pad)%nat, s') /\ (length (code_of a) <= k')%nat.
Proof.
  intros Hk. cbn [step]. rewrite code_late by done. destruct (code_of (items packed) !! k) as [i|]; [|done].
  cbn [mbind option_bind]. rewrite pc_late.
  assert (forall l, (t ← target_of l (items packed) 0; Some (t, s)) = Some (k', s') ->
    (t ← target_of l (items padded) 0; Some (t, s)) = Some ((k' + pad)%nat, s') /\
    (length (code_of a) <= k')%nat) as Hb.
  { intros l. rewrite target_padded. destruct (target_of l (items packed) 0) as [t|] eqn:E; [|done].
    apply target_late in E. by intros [= <- <-]. }
  assert ((u ← exec (pc_at packed k) arg i s; Some (S k, u)) = Some (k', s') ->
    (u ← exec (pc_at packed k) arg i s; Some (S (k + pad), u)) = Some ((k' + pad)%nat, s') /\
    (length (code_of a) <= k')%nat) as He.
  { destruct (exec _ arg i s); [|done]. intros [= <- <-]. split; [done|lia]. }
  destruct i; try exact He; [apply Hb|]. destruct (fZ s); [|apply Hb].
  intros [= <- <-]. split; [done|lia].
Qed.

Lemma steps_late m k s k' s' :
  (length (code_of a) <= k)%nat ->
  iter_steps (at_end packed) (step packed arg) m (k, s) = Some (k', s') ->
  iter_steps (at_end padded) (step padded arg) m ((k + pad)%nat, s) = Some ((k' + pad)%nat, s').
Proof.
  revert k s. induction m as [|m IH]; intros k s Hk; cbn [iter_steps]; [by intros [= <- <-]|].
  rewrite end_late. destruct (at_end packed (k, s)); [done|].
  destruct (step packed arg (k, s)) as [[k1 s1]|] eqn:E; [|done]. cbn [mbind option_bind].
  destruct (step_late _ _ _ _ Hk E) as [-> Hk1]. by apply IH.
Qed.

(** The padding itself *)
Lemma steps_nops n m s :
  (n <= pad)%nat ->
  iter_steps (at_end padded) (step padded arg) (n + m) ((length (code_of a) + (pad - n))%nat, s) =
  iter_steps (at_end padded) (step padded arg) m ((length (code_of a) + pad)%nat, s).
Proof.
  revert s. induction n as [|n IH]; intros s Hn; [by rewrite Nat.sub_0_r|].
  assert (E : code_of (items padded) !! (length (code_of a) + (pad - S n))%nat = Some Nop).
  { rewrite code_padded, lookup_app_r, Nat.add_comm, Nat.add_sub by lia.
    rewrite lookup_app_l by (rewrite length_replicate; lia). apply lookup_replicate_2. lia. }
  cbn [Nat.add iter_steps]. rewrite (at_end_false _ _ _ _ E), (step_exec _ _ _ _ _ E) by done.
  cbn [exec mbind option_bind]. replace (S _) with (length (code_of a) + (pad - n))%nat by lia. apply IH. lia.
Qed.

(** The first part *)
Lemma step_early k s :
  (k < length (code_of a))%nat -> step padded arg (k, s) = step packed arg (k, s) /\
  at_end padded (k, s) = false /\ forall c, step packed arg (k, s) = Some c -> c.1 = S k.
Proof.
  intros Hk. destruct (lookup_lt_is_Some_2 _ _ Hk) as [i Hi].
  assert (E0 : code_of (items packed) !! k = Some i) by (cbn; rewrite code_of_app; by apply lookup_app_l_Some).
  assert (E1 : code_of (items padded) !! k = Some i) by (rewrite code_padded; by apply lookup_app_l_Some).
  assert (Hf : position_free (Ins i) = true).
  { clear E0 E1 Hk. revert k Hi Ha. induction a as [|[j|l] p IH]; intros k Hi Hp; [done| |done].
    cbn [forallb] in Hp. apply andb_true_iff in Hp as [Hj Hp]. destruct k as [|k]; [by injection Hi as ->|].
    by apply (IH k). }
  split; [|split; [by apply (at_end_false _ _ _ _ E1)|]].
  - rewrite !(step_exec _ _ _ i) by (done || by destruct i). destruct i; try discriminate Hf; [|done].
    apply negb_true_iff, Nat.eqb_neq in Hf. cbn [exec]. unfold rd. by rewrite !decide_False by done.
  - intros c. rewrite (step_exec _ _ _ i) by (done || by destruct i).
    destruct (exec _ arg i s); [by intros [= <-]|done].
Qed.

Lemma steps_early j k m s c :
  (k + j = length (code_of a))%nat ->
  iter_steps (at_end packed) (step packed arg) (j + m) (k, s) = Some c ->
  iter_steps (at_end padded) (step padded arg) (j + (pad + m)) (k, s) = Some ((c.1 + pad)%nat, c.2).
Proof.
  revert k s. induction j as [|j IH]; intros k s Hj; cbn [Nat.add].
  - assert (k = length (code_of a)) as -> by lia. intros E.
    pose proof (steps_nops pad m s ltac:(lia)) as Hn. rewrite Nat.sub_diag, Nat.add_0_r in Hn. rewrite Hn.
    destruct c as [k' s']. apply steps_late; [lia|done].
  - destruct (step_early k s) as (E1 & E2 & E3); [lia|]. cbn [iter_steps]. rewrite E1, E2.
    destruct (at_end packed (k, s)); [done|]. destruct (step packed arg (k, s)) as [[k1 s1]|]; [|done].
    specialize (E3 _ eq_refl). cbn in E3. subst k1. cbn [mbind option_bind]. apply IH. lia.
Qed.

(** A run of the packed code is a run of the padded code with as many steps more as
    there are no-ops. *)
Lemma padded_steps n s s' :
  (length (code_of a) <= n)%nat ->
  iter_steps (at_end packed) (step packed arg) n (0%nat, s) = Some (length (code_of (items packed)), s') ->
  iter_steps (at_end padded) (step padded arg) (pad + n) (0%nat, s)
  = Some (length (code_of (items padded)), s').
Proof.
  intros Hn E. replace n with (length (code_of a) + (n - length (code_of a)))%nat in E by lia.
  apply (steps_early (length (code_of a)) 0) in E; [|lia].
  replace (pad + n)%nat with (length (code_of a) + (pad + (n - length (code_of a))))%nat by lia. rewrite E.
  rewrite code_padded. cbn [fst snd items packed]. rewrite code_of_app, !length_app, length_replicate.
  do 2 f_equal. lia.
Qed.

End Padding.

(** ** Well-formed states *)

Definition arm_ok (s : arm) : Prop :=
  length (regs s) = 15%nat /\ Forall is_u32 (regs s) /\ 0 <= psr s < 2 ^ 28 /\
  (forall a, is_u32 (mem s a)).

(** Instructions that work on registers and flags: no memory access, no change
    of the control byte, flags only from arithmetic. *)
Definition pure_instr (i : instr) : bool :=
  match i with
  | Dp _ f op _ _ _ => negb f || match op with ADD | ADC | SUB => true | _ => false end
  | Muls _ _ _ | Mrs _ => true
  | _ => false
  end.

Definition dest (i : instr) : nat :=
  match i with Dp _ _ _ d _ _ | Muls d _ _ | Mrs d | Ldr d _ _ => d | _ => 0 end.

Lemma rd_u32 pc s k : arm_ok s -> is_u32 pc -> is_u32 (rd pc s k).
Proof.
  intros (Hl & Hr & _) Hpc. unfold rd. case_decide; [done|]. unfold rget.
  destruct (nth_in_or_default k (regs s) 0) as [Hin| ->]; [|unfold is_word; lia].
  rewrite List.Forall_forall in Hr. by apply Hr.
Qed.

Lemma cpsr_u32 s : arm_ok s -> is_u32 (cpsr s).
Proof.
  intros (_ & _ & Hp & _). unfold cpsr, is_word.
  destruct (fN s), (fZ s), (fC s), (fV s); cbn [Z.b2z]; lia.
Qed.

Lemma setreg_ok d v s : arm_ok s -> is_u32 v -> arm_ok (setreg d v s).
Proof.
  intros (Hl & Hr & Hp & Hm) Hv. unfold arm_ok, setreg, with_regs, rset. cbn.
  rewrite length_insert. split; [done|]. split; [by apply Forall_insert|done].
Qed.

(** A run [m] from [s] to [s'] that changes registers in [d] and flags, and does
    not look at the memory. *)
Record pure_run (m : arm -> option arm) (d : nat -> Prop) (s s' : arm) : Prop := {
  pure_eq : m s = Some s';
  pure_ok : arm_ok s';
  pure_frame : forall k, ~ d k -> rget (regs s') k = rget (regs s) k;
  pure_psr : psr s' = psr s;
  pure_mem : mem s' = mem s;
  pure_any_mem : forall x, m (with_mem s x) = Some (with_mem s' x) }.

Lemma rget_setreg d v s k : k <> d -> rget (regs (setreg d v s)) k = rget (regs s) k.
Proof. intros H. unfold setreg, with_regs. cbn. by apply rget_rset_ne. Qed.

Lemma rget_setreg_eq d v s : length (regs s) = 15%nat -> (d < 15)%nat ->
  rget (regs (setreg d v s)) d = v.
Proof. intros H Hd. unfold setreg, with_regs. cbn. apply rget_rset_eq. lia. Qed.

Lemma rd_with_mem pc s m k : rd pc (with_mem s m) k = rd pc s k.
Proof. done. Qed.

Lemma op2_with_mem pc s m o : op2 pc (with_mem s m) o = op2 pc s o.
Proof. by destruct o. Qed.

Lemma alu_flags_spec op c a b s :
  match op with ADD | ADC | SUB => true | _ => false end = true ->
  exists n z cc v, alu_flags op c a b s = Some (mk_arm (regs s) n z cc v (psr s) (mem s)) /\
    forall m, alu_flags op c a b (with_mem s m) = Some (mk_arm (regs s) n z cc v (psr s) m).
Proof. destruct op; intros [=]; do 4 eexists; split; intros; reflexivity. Qed.

Lemma pure_exec pc arg i s :
  pure_instr i = true -> arm_ok s -> is_u32 pc ->
  exists s', pure_run (exec pc arg i) (fun k => k = dest i) s s'.
Proof.
  intros Hi Hs Hpc. pose proof Hs as (Hl & Hr & Hp & Hm).
  destruct i; try discriminate; cbn [pure_instr dest] in *.
  - rename Hi into Hf.
    destruct (passes c s) eqn:Ec.
    + assert (exists n' z cc v, forall m,
        (if s0 then alu_flags op (fC s) (rd pc s n) (op2 pc s o) (with_mem s m) else Some (with_mem s m))
        = Some (mk_arm (regs s) n' z cc v (psr s) m)) as (n' & z & cc & v & E).
      { destruct s0; [|by exists (fN s), (fZ s), (fC s), (fV s)].
        destruct (alu_flags_spec op (fC s) (rd pc s n) (op2 pc s o) s Hf)
          as (n' & z & cc & v & _ & E). eauto. }
      exists (setreg d (u32 (alu op (fC s) (rd pc s n) (op2 pc s o)))
                (mk_arm (regs s) n' z cc v (psr s) (mem s))).
      assert (forall m, exec pc arg (Dp c s0 op d n o) (with_mem s m) = Some (with_mem
        (setreg d (u32 (alu op (fC s) (rd pc s n) (op2 pc s o)))
                (mk_arm (regs s) n' z cc v (psr s) (mem s))) m)) as Ex.
      { intros m. cbn [exec]. replace (passes c (with_mem s m)) with true by (by destruct c).
        rewrite op2_with_mem, rd_with_mem. cbv zeta. cbn [fC with_mem]. rewrite E. done. }
      split; try done.
      * specialize (Ex (mem s)). destruct s. exact Ex.
      * apply setreg_ok; [done|apply is_u32_u32].
      * intros k Hk. by rewrite rget_setreg.
    + assert (forall m, exec pc arg (Dp c s0 op d n o) (with_mem s m) = Some (with_mem s m)) as Ex.
      { intros m. cbn [exec]. by replace (passes c (with_mem s m)) with false by (by destruct c). }
      exists s. split; try done. specialize (Ex (mem s)). destruct s. exact Ex.
  - eexists. split; [reflexivity| | | | |reflexivity]; try done.
    + apply setreg_ok; [done|apply is_u32_mul32].
    + intros k Hk. by rewrite rget_setreg.
  - eexists. split; [reflexivity| | | | |reflexivity]; try done.
    + apply setreg_ok; [done|by apply cpsr_u32].
    + intros k Hk. by rewrite rget_setreg.
Qed.

Lemma pc_at_u32 im k : is_u32 (pc_at im k).
Proof. apply is_u32_u32. Qed.

Lemma pure_seq im arg k l s :
  forallb pure_instr l = true -> arm_ok s ->
  exists s', pure_run (exec_seq im arg k l) (fun k => k ∈ dest <$> l) s s'.
Proof.
  revert k s. induction l as [|i l IH]; intros k s Hp Hs; cbn [forallb] in Hp.
  { exists s. by split. }
  apply andb_true_iff in Hp as [Hi Hp].
  destruct (pure_exec (pc_at im k) arg i s Hi Hs (pc_at_u32 _ _)) as (t & [E1 O1 F1 P1 M1 A1]).
  destruct (IH (S k) t Hp O1) as (s' & [E2 O2 F2 P2 M2 A2]).
  exists s'. split.
  - cbn [exec_seq]. by rewrite E1.
  - done.
  - intros j Hj. cbn in Hj. rewrite elem_of_cons in Hj. rewrite F2, F1; tauto.
  - congruence.
  - congruence.
  - intros x. cbn [exec_seq]. rewrite A1. cbn. apply A2.
Qed.
