(* ===== verification/SwattArm.v ===== *)
(** * The attestation code of the network driver

    [swattARM], [swattARM_db_attack] and [swattARM_fake] of
    src/code/nic-driver/smsc/smsc911x.c, instruction by instruction, with the C code
    around the assembly. *)

From S2P Require Import Prelude ArmIsa.

(** Mnemonics. *)
Abbreviation add d n o := (Ins (Dp AL false ADD d n o)).
Abbreviation addcs d n o := (Ins (Dp CS false ADD d n o)).
Abbreviation adc d n o := (Ins (Dp AL false ADC d n o)).
Abbreviation adcs d n o := (Ins (Dp AL true ADC d n o)).
Abbreviation sub d n o := (Ins (Dp AL false SUB d n o)).
Abbreviation subs d n o := (Ins (Dp AL true SUB d n o)).
Abbreviation eor d n o := (Ins (Dp AL false EOR d n o)).
Abbreviation orr d n o := (Ins (Dp AL false ORR d n o)).
Abbreviation and_ d n o := (Ins (Dp AL false AND d n o)).
Abbreviation bic d n o := (Ins (Dp AL false BIC d n o)).

(** Saves [r0] to [r14] on the stack. *)
Definition save_reglist : list item :=
  [Ins (Push 0); Ins (Push 1); Ins (Push 2); Ins (Push 3); Ins (Push 4); Ins (Push 5);
   Ins (Push 6); Ins (Push 7); Ins (Push 8); Ins (Push 9); Ins (Push 10); Ins (Push 11);
   Ins (Push 12); Ins (Push 13); Ins (Push 14)].

(** Restores them. *)
Definition restore_reglist : list item :=
  [Ins (Pop 14); Ins (Pop 13); Ins (Pop 12); Ins (Pop 11); Ins (Pop 10); Ins (Pop 9); Ins (Pop 8);
   Ins (Pop 7); Ins (Pop 6); Ins (Pop 5); Ins (Pop 4); Ins (Pop 3); Ins (Pop 2); Ins (Pop 1);
   Ins (Pop 0)].

(** Loads the challenge words. *)
Definition init_checksum : list item :=
  [Ins (Ldr 1 0 0); Ins (Ldr 2 0 4); Ins (Ldr 3 0 8); Ins (Ldr 4 0 12); Ins (Ldr 5 0 16);
   Ins (Ldr 6 0 20); Ins (Ldr 7 0 24); Ins (Ldr 8 0 28); Ins (Ldr 9 0 32); Ins (Ldr 10 0 36);
   Ins (Ldr 11 0 40); Ins (Ldr 12 0 44); Ins (Ldr 14 0 48)].

(** Stores the checksum words. *)
Definition save_checksum : list item :=
  [Ins (Str 1 0 0); Ins (Str 2 0 4); Ins (Str 3 0 8); Ins (Str 4 0 12); Ins (Str 5 0 16);
   Ins (Str 6 0 20); Ins (Str 7 0 24); Ins (Str 8 0 28); Ins (Str 9 0 32); Ins (Str 10 0 36);
   Ins (Str 11 0 40); Ins (Str 12 0 44); Ins (Str 14 0 48)].

(** The prologue of the loop: interrupts off, supervisor mode. *)
Definition disable_interrupts : list item :=
  [Ins (Mrs 11); orr 11 11 (Imm 0xd3); Ins (MsrC 11)].

(** [swattARM], block 1. *)
Definition no_block1 : list item :=
  [Ins (Muls 11 10 10); orr 11 11 (Imm 0x5); add 10 10 (Reg 11); eor 11 15 (Lsr 10 24);
   and_ 11 11 (Imm 0xfffffffc); Ins (Ldr 9 11 0); adcs 1 1 (Reg 9); eor 1 1 (Reg 7);
   adcs 1 1 (Reg 10); eor 1 1 (Reg 15); eor 1 1 (Reg 8); adc 1 1 (Reg 11); Ins (Mrs 11);
   eor 1 1 (Reg 11); addcs 1 12 (Ror 1 1); eor 10 10 (Reg 1); sub 12 12 (Imm 1)].

(** [swattARM], block 2. *)
Definition no_block2 : list item :=
  [Ins (Muls 11 10 10); orr 11 11 (Imm 0x5); add 10 10 (Reg 11); eor 11 15 (Lsr 10 24);
   and_ 11 11 (Imm 0xfffffffc); Ins (Ldr 9 11 0); eor 2 2 (Reg 9); adcs 2 2 (Reg 7);
   eor 2 2 (Reg 10); adcs 2 2 (Reg 15); adcs 2 2 (Reg 1); eor 2 2 (Reg 11); Ins (Mrs 11);
   adcs 2 2 (Reg 11); eor 2 12 (Ror 2 1); adc 10 10 (Reg 2); sub 12 12 (Imm 1)].

(** [swattARM], block 3. *)
Definition no_block3 : list item :=
  [Ins (Muls 11 10 10); orr 11 11 (Imm 0x5); add 10 10 (Reg 11); eor 11 15 (Lsr 10 24);
   and_ 11 11 (Imm 0xfffffffc); Ins (Ldr 9 11 0); adcs 3 3 (Reg 9); eor 3 3 (Reg 1);
   adcs 3 3 (Reg 10); eor 3 3 (Reg 15); eor 3 3 (Reg 2); adc 3 3 (Reg 11); Ins (Mrs 11);
   eor 3 3 (Reg 11); addcs 3 12 (Ror 3 1); eor 10 10 (Reg 3); sub 12 12 (Imm 1)].

(** [swattARM], block 4. *)
Definition no_block4 : list item :=
  [Ins (Muls 11 10 10); orr 11 11 (Imm 0x5); add 10 10 (Reg 11); eor 11 15 (Lsr 10 24);
   and_ 11 11 (Imm 0xfffffffc); Ins (Ldr 9 11 0); eor 4 4 (Reg 9); adcs 4 4 (Reg 1);
   eor 4 4 (Reg 10); adcs 4 4 (Reg 15); adcs 4 4 (Reg 3); eor 4 4 (Reg 11); Ins (Mrs 11);
   adcs 4 4 (Reg 11); eor 4 12 (Ror 4 1); adc 10 10 (Reg 4); sub 12 12 (Imm 1)].

(** [swattARM], block 5. *)
Definition no_block5 : list item :=
  [Ins (Muls 11 10 10); orr 11 11 (Imm 0x5); add 10 10 (Reg 11); eor 11 15 (Lsr 10 24);
   and_ 11 11 (Imm 0xfffffffc); Ins (Ldr 9 11 0); adcs 5 5 (Reg 9); eor 5 5 (Reg 3);
   adcs 5 5 (Reg 10); eor 5 5 (Reg 15); eor 5 5 (Reg 4); adc 5 5 (Reg 11); Ins (Mrs 11);
   eor 5 5 (Reg 11); addcs 5 12 (Ror 5 1); eor 10 10 (Reg 5); sub 12 12 (Imm 1)].

(** [swattARM], block 6. *)
Definition no_block6 : list item :=
  [Ins (Muls 11 10 10); orr 11 11 (Imm 0x5); add 10 10 (Reg 11); eor 11 15 (Lsr 10 24);
   and_ 11 11 (Imm 0xfffffffc); Ins (Ldr 9 11 0); eor 6 6 (Reg 9); adcs 6 6 (Reg 3);
   eor 6 6 (Reg 10); adcs 6 6 (Reg 15); adcs 6 6 (Reg 5); eor 6 6 (Reg 11); Ins (Mrs 11);
   adcs 6 6 (Reg 11); eor 6 12 (Ror 6 1); adc 10 10 (Reg 6); sub 12 12 (Imm 1)].

(** [swattARM], block 7. *)
Definition no_block7 : list item :=
  [Ins (Muls 11 10 10); orr 11 11 (Imm 0x5); add 10 10 (Reg 11); eor 11 15 (Lsr 10 24);
   and_ 11 11 (Imm 0xfffffffc); Ins (Ldr 9 11 0); adcs 7 7 (Reg 9); eor 7 7 (Reg 5);
   adcs 7 7 (Reg 10); eor 7 7 (Reg 15); eor 7 7 (Reg 6); adc 7 7 (Reg 11); Ins (Mrs 11);
   eor 7 7 (Reg 11); addcs 7 12 (Ror 7 1); eor 10 10 (Reg 7); sub 12 12 (Imm 1)].

(** [swattARM], block 8. *)
Definition no_block8 : list item :=
  [Ins (Muls 11 10 10); orr 11 11 (Imm 0x5); add 10 10 (Reg 11); eor 11 15 (Lsr 10 24);
   and_ 11 11 (Imm 0xfffffffc); Ins (Ldr 9 11 0); eor 8 8 (Reg 9); adcs 8 8 (Reg 5);
   eor 8 8 (Reg 10); adcs 8 8 (Reg 15); adcs 8 8 (Reg 7); eor 8 8 (Reg 11); Ins (Mrs 11);
   adcs 8 8 (Reg 11); eor 8 12 (Ror 8 1); adc 10 10 (Reg 8); subs 12 12 (Imm 1);
   Ins (Bne checksum_loop)].

(** Interrupts on again. *)
Definition enable_interrupts : list item :=
  [Ins (Mrs 11); bic 11 11 (Imm 0xc0); Ins (MsrC 11)].

(** [swattARM_db_attack], block 1. *)
Definition db_block1 : list item :=
  [Ins (Muls 11 10 10); orr 11 11 (Imm 0x5); add 10 10 (Reg 11); eor 11 15 (Lsr 10 24);
   and_ 11 11 (Imm 0xfffffffc); Ins (B (dp_attack 1)); Lab (dp_attack_ret 1); adcs 1 1 (Reg 9);
   eor 1 1 (Reg 7); adcs 1 1 (Reg 10); eor 1 1 (Reg 15); eor 1 1 (Reg 8); adc 1 1 (Reg 11);
   Ins (Mrs 11); eor 1 1 (Reg 11); addcs 1 12 (Ror 1 1); eor 10 10 (Reg 1); sub 12 12 (Imm 1)].

(** [swattARM_db_attack], block 2. *)
Definition db_block2 : list item :=
  [Ins (Muls 11 10 10); orr 11 11 (Imm 0x5); add 10 10 (Reg 11); eor 11 15 (Lsr 10 24);
   and_ 11 11 (Imm 0xfffffffc); Ins (B (dp_attack 2)); Lab (dp_attack_ret 2); eor 2 2 (Reg 9);
   adcs 2 2 (Reg 7); eor 2 2 (Reg 10); adcs 2 2 (Reg 15); adcs 2 2 (Reg 1); eor 2 2 (Reg 11);
   Ins (Mrs 11); adcs 2 2 (Reg 11); eor 2 12 (Ror 2 1); adc 10 10 (Reg 2); sub 12 12 (Imm 1)].

(** [swattARM_db_attack], block 3. *)
Definition db_block3 : list item :=
  [Ins (Muls 11 10 10); orr 11 11 (Imm 0x5); add 10 10 (Reg 11); eor 11 15 (Lsr 10 24);
   and_ 11 11 (Imm 0xfffffffc); Ins (B (dp_attack 3)); Lab (dp_attack_ret 3); adcs 3 3 (Reg 9);
   eor 3 3 (Reg 1); adcs 3 3 (Reg 10); eor 3 3 (Reg 15); eor 3 3 (Reg 2); adc 3 3 (Reg 11);
   Ins (Mrs 11); eor 3 3 (Reg 11); addcs 3 12 (Ror 3 1); eor 10 10 (Reg 3); sub 12 12 (Imm 1)].

(** [swattARM_db_attack], block 4. *)
Definition db_block4 : list item :=
  [Ins (Muls 11 10 10); orr 11 11 (Imm 0x5); add 10 10 (Reg 11); eor 11 15 (Lsr 10 24);
   and_ 11 11 (Imm 0xfffffffc); Ins (B (dp_attack 4)); Lab (dp_attack_ret 4); eor 4 4 (Reg 9);
   adcs 4 4 (Reg 1); eor 4 4 (Reg 10); adcs 4 4 (Reg 15); adcs 4 4 (Reg 3); eor 4 4 (Reg 11);
   Ins (Mrs 11); adcs 4 4 (Reg 11); eor 4 12 (Ror 4 1); adc 10 10 (Reg 4); sub 12 12 (Imm 1)].

(** [swattARM_db_attack], block 5. *)
Definition db_block5 : list item :=
  [Ins (Muls 11 10 10); orr 11 11 (Imm 0x5); add 10 10 (Reg 11); eor 11 15 (Lsr 10 24);
   and_ 11 11 (Imm 0xfffffffc); Ins (B (dp_attack 5)); Lab (dp_attack_ret 5); adcs 5 5 (Reg 9);
   eor 5 5 (Reg 3); adcs 5 5 (Reg 10); eor 5 5 (Reg 15); eor 5 5 (Reg 4); adc 5 5 (Reg 11);
   Ins (Mrs 11); eor 5 5 (Reg 11); addcs 5 12 (Ror 5 1); eor 10 10 (Reg 5); sub 12 12 (Imm 1)].

(** [swattARM_db_attack], block 6. *)
Definition db_block6 : list item :=
  [Ins (Muls 11 10 10); orr 11 11 (Imm 0x5); add 10 10 (Reg 11); eor 11 15 (Lsr 10 24);
   and_ 11 11 (Imm 0xfffffffc); Ins (B (dp_attack 6)); Lab (dp_attack_ret 6); eor 6 6 (Reg 9);
   adcs 6 6 (Reg 3); eor 6 6 (Reg 10); adcs 6 6 (Reg 15); adcs 6 6 (Reg 5); eor 6 6 (Reg 11);
   Ins (Mrs 11); adcs 6 6 (Reg 11); eor 6 12 (Ror 6 1); adc 10 10 (Reg 6); sub 12 12 (Imm 1)].

(** [swattARM_db_attack], block 7. *)
Definition db_block7 : list item :=
  [Ins (Muls 11 10 10); orr 11 11 (Imm 0x5); add 10 10 (Reg 11); eor 11 15 (Lsr 10 24);
   and_ 11 11 (Imm 0xfffffffc); Ins (B (dp_attack 7)); Lab (dp_attack_ret 7); adcs 7 7 (Reg 9);
   eor 7 7 (Reg 5); adcs 7 7 (Reg 10); eor 7 7 (Reg 15); eor 7 7 (Reg 6); adc 7 7 (Reg 11);
   Ins (Mrs 11); eor 7 7 (Reg 11); addcs 7 12 (Ror 7 1); eor 10 10 (Reg 7); sub 12 12 (Imm 1)].

(** [swattARM_db_attack], block 8. *)
Definition db_block8 : list item :=
  [Ins (Muls 11 10 10); orr 11 11 (Imm 0x5); add 10 10 (Reg 11); eor 11 15 (Lsr 10 24);
   and_ 11 11 (Imm 0xfffffffc); Ins (B (dp_attack 8)); Lab (dp_attack_ret 8); eor 8 8 (Reg 9);
   adcs 8 8 (Reg 5); eor 8 8 (Reg 10); adcs 8 8 (Reg 15); adcs 8 8 (Reg 7); eor 8 8 (Reg 11);
   Ins (Mrs 11); adcs 8 8 (Reg 11); eor 8 12 (Ror 8 1); adc 10 10 (Reg 8); subs 12 12 (Imm 1);
   Ins (Bne checksum_loop)].

(** The detours of [swattARM_db_attack]: each reads the word [0x500] bytes
    further on. *)
Definition db_stubs : list item :=
  [Ins (B jmp_over_attack); Lab (dp_attack 1); add 11 11 (Imm 0x500); Ins (Ldr 9 11 0);
   sub 11 11 (Imm 0x500); Ins (B (dp_attack_ret 1)); Lab (dp_attack 2); add 11 11 (Imm 0x500);
   Ins (Ldr 9 11 0); sub 11 11 (Imm 0x500); Ins (B (dp_attack_ret 2)); Lab (dp_attack 3);
   add 11 11 (Imm 0x500); Ins (Ldr 9 11 0); sub 11 11 (Imm 0x500); Ins (B (dp_attack_ret 3));
   Lab (dp_attack 4); add 11 11 (Imm 0x500); Ins (Ldr 9 11 0); sub 11 11 (Imm 0x500);
   Ins (B (dp_attack_ret 4)); Lab (dp_attack 5); add 11 11 (Imm 0x500); Ins (Ldr 9 11 0);
   sub 11 11 (Imm 0x500); Ins (B (dp_attack_ret 5)); Lab (dp_attack 6); add 11 11 (Imm 0x500);
   Ins (Ldr 9 11 0); sub 11 11 (Imm 0x500); Ins (B (dp_attack_ret 6)); Lab (dp_attack 7);
   add 11 11 (Imm 0x500); Ins (Ldr 9 11 0); sub 11 11 (Imm 0x500); Ins (B (dp_attack_ret 7));
   Lab (dp_attack 8); add 11 11 (Imm 0x500); Ins (Ldr 9 11 0); sub 11 11 (Imm 0x500);
   Ins (B (dp_attack_ret 8)); Lab jmp_over_attack].

(** [swattARM_fake], block 1. *)
Definition fake_block1 : list item :=
  [Ins (Muls 11 10 10); orr 11 11 (Imm 0x5); add 10 10 (Reg 11); eor 11 15 (Lsr 10 24);
   and_ 11 11 (Imm 0xfffffffc); Ins (Ldr 9 11 0); adcs 1 1 (Reg 9); eor 1 1 (Reg 7);
   adcs 1 1 (Reg 10); eor 1 1 (Reg 15); eor 1 1 (Reg 8); adc 1 1 (Reg 11); Ins (Mrs 11);
   eor 1 1 (Reg 11); addcs 1 12 (Ror 1 1); eor 10 10 (Reg 1); sub 12 12 (Imm 1)].

(** [swattARM_fake], block 2. *)
Definition fake_block2 : list item :=
  [Ins (Muls 11 10 10); orr 11 11 (Imm 0x5); add 10 10 (Reg 11); eor 11 15 (Lsr 10 24);
   and_ 11 11 (Imm 0xfffffffc); Ins (Ldr 9 11 0); eor 2 2 (Reg 9); adcs 2 2 (Reg 7);
   eor 2 2 (Reg 10); adcs 2 2 (Reg 15); adcs 2 2 (Reg 1); eor 2 2 (Reg 11); Ins (Mrs 11);
   adcs 2 2 (Reg 11); eor 2 12 (Ror 2 1); adc 10 10 (Reg 2); sub 12 12 (Imm 1)].

(** [swattARM_fake], block 3. *)
Definition fake_block3 : list item :=
  [Ins (Muls 11 10 10); orr 11 11 (Imm 0x5); add 10 10 (Reg 11); eor 11 15 (Lsr 10 24);
   and_ 11 11 (Imm 0xfffffffc); Ins (Ldr 9 11 0); adcs 3 3 (Reg 9); eor 3 3 (Reg 1);
   adcs 3 3 (Reg 10); eor 3 3 (Reg 15); eor 3 3 (Reg 2); adc 3 3 (Reg 11); Ins (Mrs 11);
   eor 3 3 (Reg 11); addcs 3 12 (Ror 3 1); eor 10 10 (Reg 3); sub 12 12 (Imm 1)].

(** [swattARM_fake], block 4. *)
Definition fake_block4 : list item :=
  [Ins (Muls 11 10 10); orr 11 11 (Imm 0x5); add 10 10 (Reg 11); eor 11 15 (Lsr 10 24);
   and_ 11 11 (Imm 0xfffffffc); Ins (Ldr 9 11 0); eor 4 4 (Reg 9); adcs 4 4 (Reg 1);
   eor 4 4 (Reg 10); adcs 4 4 (Reg 15); adcs 4 4 (Reg 3); eor 4 4 (Reg 11); Ins (Mrs 11);
   adcs 4 4 (Reg 11); eor 4 12 (Ror 4 1); adc 10 10 (Reg 4); sub 12 12 (Imm 1)].

(** [swattARM_fake], block 5. *)
Definition fake_block5 : list item :=
  [Ins (Muls 11 10 10); orr 11 11 (Imm 0x5); add 10 10 (Reg 11); eor 11 15 (Lsr 10 24);
   and_ 11 11 (Imm 0xfffffffc); Ins (Ldr 9 11 0); adcs 5 5 (Reg 9); eor 5 5 (Reg 3);
   adcs 5 5 (Reg 10); eor 5 5 (Reg 15); eor 5 5 (Reg 4); adc 5 5 (Reg 11); Ins (Mrs 11);
   eor 5 5 (Reg 11); addcs 5 12 (Ror 5 1); eor 10 10 (Reg 5); sub 12 12 (Imm 1)].

(** [swattARM_fake], block 6. *)
Definition fake_block6 : list item :=
  [Ins (Muls 11 10 10); orr 11 11 (Imm 0x5); add 10 10 (Reg 11); eor 11 15 (Lsr 10 24);
   and_ 11 11 (Imm 0xfffffffc); Ins (Ldr 9 11 0); eor 6 6 (Reg 9); adcs 6 6 (Reg 3);
   eor 6 6 (Reg 10); adcs 6 6 (Reg 15); adcs 6 6 (Reg 5); eor 6 6 (Reg 11); Ins (Mrs 11);
   adcs 6 6 (Reg 11); eor 6 12 (Ror 6 1); adc 10 10 (Reg 6); sub 12 12 (Imm 1)].

(** [swattARM_fake], block 7. *)
Definition fake_block7 : list item :=
  [Ins (Muls 11 10 10); orr 11 11 (Imm 0x5); add 10 10 (Reg 11); eor 11 15 (Lsr 10 24);
   and_ 11 11 (Imm 0xfffffffc); Ins (Ldr 9 11 0); adcs 7 7 (Reg 9); eor 7 7 (Reg 5);
   adcs 7 7 (Reg 10); eor 7 7 (Reg 15); eor 7 7 (Reg 6); adc 7 7 (Reg 11); Ins (Mrs 11);
   eor 7 7 (Reg 11); addcs 7 12 (Ror 7 1); eor 10 10 (Reg 7); sub 12 12 (Imm 1)].

(** [swattARM_fake], block 8. *)
Definition fake_block8 : list item :=
  [Ins (Muls 11 10 10); orr 11 11 (Imm 0x5); add 10 10 (Reg 11); eor 11 15 (Lsr 10 24);
   and_ 11 11 (Imm 0xfffffffc); Ins (Ldr 9 11 0); eor 8 8 (Reg 9); adcs 8 8 (Reg 5);
   eor 8 8 (Reg 10); adcs 8 8 (Reg 15); adcs 8 8 (Reg 7); eor 8 8 (Reg 11); Ins (Mrs 11);
   adcs 8 8 (Reg 11); eor 8 12 (Ror 8 1); adc 10 10 (Reg 8); subs 12 12 (Imm 1);
   Ins (Bne checksum_loop)].

(** The no-ops that the assembler fills in for the directive [.align 8] *)
Definition align_padding (n : nat) : list item := replicate n (Ins Nop).

(** The assembly statement of [swattARM]. *)
Definition swattARM_items (n : nat) : list item :=
  save_reglist ++ [Ins (MovArg 0)] ++ align_padding n ++ init_checksum ++ disable_interrupts ++
  [Lab checksum_loop] ++
  no_block1 ++ no_block2 ++ no_block3 ++ no_block4 ++
  no_block5 ++ no_block6 ++ no_block7 ++ no_block8 ++
  save_checksum ++ enable_interrupts ++ restore_reglist.

(** The assembly statement of [swattARM_db_attack]. *)
Definition swattARM_db_attack_items (n : nat) : list item :=
  save_reglist ++ [Ins (MovArg 0)] ++ align_padding n ++ init_checksum ++ disable_interrupts ++
  [Lab checksum_loop] ++
  db_block1 ++ db_block2 ++ db_block3 ++ db_block4 ++
  db_block5 ++ db_block6 ++ db_block7 ++ db_block8 ++
  save_checksum ++ db_stubs ++ enable_interrupts ++ restore_reglist.

(** The assembly statement of [swattARM_fake]. *)
Definition swattARM_fake_items (n : nat) : list item :=
  save_reglist ++ [Ins (MovArg 0)] ++ align_padding n ++ init_checksum ++ disable_interrupts ++
  [Lab checksum_loop] ++
  fake_block1 ++ fake_block2 ++ fake_block3 ++ fake_block4 ++
  fake_block5 ++ fake_block6 ++ fake_block7 ++ fake_block8 ++
  save_checksum ++ enable_interrupts ++ restore_reglist.

(** The directive [.align 8] puts the instruction after [mov r0, %0] on a
    boundary of 256 bytes, and fills the gap with no-ops, between 0 and 63 of them,
    which are executed.  [aligned] is the address after the gap and [padding] the number
    of no-ops; both depend on where the function comes to lie. *)
Record placement := placed { padding : nat; aligned : Z }.

Definition code_image (p : nat -> list item) (pl : placement) : image :=
  mk_image (p (padding pl)) (16 + padding pl) (aligned pl).

(** The code without a gap, at the address [b] *)
Definition image_at (p : list item) (b : Z) : image := mk_image p 16 b.

(** The number of instructions: 32 before the loop, [n] passes of [len], [last]
    after it. *)
Definition swatt_fuel (n len last : Z) : nat := Z.to_nat (32 + n * len + last).

(** The C functions: the counter goes into [challenge[11]], then the size is
    looked at. *)
Definition swatt_call (p : nat -> list item) (counter : Z) (pl : placement) (fuel : nat)
    (challenge size : Z) (s : arm) : option arm :=
  s ← store (challenge + 44) counter s;
  if negb (size =? 52) then Some s else run (code_image p pl) challenge (padding pl + fuel) s.

Definition swattARM (pl : placement) (challenge size : Z) (s : arm) : option arm :=
  swatt_call swattARM_items 0x1000000 pl (swatt_fuel 0x200000 137 31) challenge size s.

Definition swattARM_db_attack (pl : placement) (challenge size : Z) (s : arm) : option arm :=
  swatt_call swattARM_db_attack_items 0x1000000 pl (swatt_fuel 0x200000 169 32) challenge size s.

Definition swattARM_fake (pl : placement) (challenge size : Z) (s : arm) : option arm :=
  swatt_call swattARM_fake_items (16 * 1024 * 16) pl (swatt_fuel 0x8000 137 31) challenge size s.
