(* ===== verification/SwattArmTheory.v ===== *)
(** * The attestation code of the network driver: theorems

    The checksum loop is shown against an interface ([ChecksumLoop]: the words a
    program reads and what a block costs), which the honest code, the copy for
    the forged module and the data-pointer attack all meet.  The theorems: the
    code ends after a known number of instructions with the registers restored
    and interrupts on; the checksum depends on 768 bytes of memory only; the
    attack computes the honest checksum of memory that lies 0x500 bytes further
    on, at a known cost. *)

From S2P Require Import Prelude ArmIsa SwattArm.

(** ** The parts of a block *)

(** The T function and the address; the same in every block. *)
Definition pre5 : list instr := take 5 (code_of no_block1).

(** What follows the load: eleven instructions, the last one counts. *)
Definition posts : list (list instr * bool) :=
  (fun '(b, f) => (take 10 (drop 6 (code_of b)), f)) <$>
  [(no_block1, false); (no_block2, false); (no_block3, false); (no_block4, false);
   (no_block5, false); (no_block6, false); (no_block7, false); (no_block8, true)].

Definition post (p : list instr * bool) : list instr := p.1 ++ [Dp AL p.2 SUB 12 12 (Imm 1)].

(** A block that reads its word with [rdw]. *)
Definition block_sem (im : image) (arg : Z) (k : nat) (rdw : Z -> Z) (p : list instr * bool)
    (s : arm) : option arm :=
  s1 ← exec_seq im arg k pre5 s;
  exec_seq im arg (k + 6) (post p) (setreg 9 (rdw (rget (regs s1) 11)) s1).

Fixpoint blocks_sem (im : image) (arg : Z) (k : nat) (rdw : Z -> Z) (ps : list (list instr * bool))
    (s : arm) : option arm :=
  match ps with
  | [] => Some s
  | p :: ps => t ← block_sem im arg k rdw p s; blocks_sem im arg (k + 17) rdw ps t
  end.

(** [n] passes of the loop. *)
Fixpoint passes_sem (im : image) (arg : Z) (rdw : Z -> Z) (n : nat) (s : arm) : option arm :=
  match n with
  | O => Some s
  | S n => t ← blocks_sem im arg 32 rdw posts s; passes_sem im arg rdw n t
  end.

(** ** The address that a block reads *)

Definition daddr (pc x : Z) : Z := Z.land (Z.lxor pc (Z.shiftr x 24)) 0xfffffffc.

Lemma daddr_aligned pc x : daddr pc x mod 4 = 0.
Proof.
  unfold daddr. change 4 with (2 ^ 2). rewrite <- Z.land_ones, <- Z.land_assoc by lia.
  change (Z.land 0xfffffffc (Z.ones 2)) with 0. apply Z.land_0_r.
Qed.

Lemma daddr_u32 pc x : is_u32 pc -> is_u32 x -> is_u32 (daddr pc x).
Proof.
  intros Hpc Hx. apply is_u32_land; [|unfold is_word; lia].
  apply is_u32_lxor; [done|]. apply is_word_shiftr; [lia|done].
Qed.

(** It lies in the 256 bytes around the instruction. *)
Lemma daddr_window pc x : is_u32 pc -> is_u32 x -> daddr pc x / 256 = pc / 256.
Proof.
  intros Hpc Hx. change 256 with (2 ^ 8). rewrite <- !Z.shiftr_div_pow2 by lia.
  unfold daddr. rewrite Z.shiftr_land, Z.shiftr_lxor, Z.shiftr_shiftr by lia.
  assert (Z.shiftr x (24 + 8) = 0) as ->.
  { rewrite Z.shiftr_div_pow2 by lia. apply Z.div_small. exact Hx. }
  rewrite Z.lxor_0_r. change (Z.shiftr 0xfffffffc 8) with (Z.ones 24).
  rewrite Z.land_ones, Z.shiftr_div_pow2 by lia. apply Z.mod_small. unfold is_word in Hpc.
  split; [apply Z.div_pos; lia|apply Z.div_lt_upper_bound; lia].
Qed.

Lemma pre5_run im arg k s :
  arm_ok s ->
  exists s1, pure_run (exec_seq im arg k pre5) (fun j => j = 10%nat \/ j = 11%nat) s s1 /\
    rget (regs s1) 11 = daddr (pc_at im (k + 3)) (rget (regs s1) 10).
Proof.
  intros Hs. destruct (pure_seq im arg k pre5 s eq_refl Hs) as (s1 & [E O F P M A]).
  exists s1. split.
  { split; try done. intros j Hj. apply F. cbn. rewrite !elem_of_cons, elem_of_nil. tauto. }
  change pre5 with (take 3 pre5 ++ drop 3 pre5) in E. rewrite exec_seq_app in E.
  destruct (pure_seq im arg k (take 3 pre5) s eq_refl Hs) as (t & [E3 Ot _ _ _ _]).
  rewrite E3, bind_Some_l in E. change (length (take 3 pre5)) with 3%nat in E.
  change (exec_seq im arg (k + 3) (drop 3 pre5) t)
    with (Some (setreg 11 (u32 (Z.land (rget (regs
            (setreg 11 (u32 (Z.lxor (pc_at im (k + 3)) (Z.shiftr (rget (regs t) 10) 24))) t)) 11)
            0xfffffffc))
           (setreg 11 (u32 (Z.lxor (pc_at im (k + 3)) (Z.shiftr (rget (regs t) 10) 24))) t))) in E.
  injection E as <-. pose proof (rd_u32 0 t 10 Ot ltac:(unfold is_word; lia)) as Hx.
  change (rd 0 t 10) with (rget (regs t) 10) in Hx. destruct Ot as (Hl & _).
  rewrite !(rget_setreg 11 _ _ 10) by done. rewrite !rget_setreg_eq by (lia || (cbn; by rewrite ?rset_length)).
  pose proof (pc_at_u32 im (k + 3)) as Hpc.
  rewrite (u32_small (Z.lxor _ _)) by (apply is_u32_lxor; [done|by apply is_word_shiftr]).
  cbn [regs setreg with_regs]. rewrite ?rget_rset_eq by lia. apply u32_small. by apply daddr_u32.
Qed.

(** ** Blocks *)

(** What the loop needs of the instructions after the load. *)
Definition good_post (p : list instr * bool) : Prop :=
  forallb pure_instr p.1 = true /\
  forall j, j ∈ dest <$> p.1 -> j <> 0%nat /\ j <> 12%nat /\ j <> 13%nat /\ j <> 14%nat.

Lemma posts_good : Forall good_post posts.
Proof.
  unfold posts. cbn [fmap list_fmap]. repeat (apply List.Forall_cons; [split; [reflexivity|]|]);
    [..|constructor]; cbn; intros j; rewrite !elem_of_cons, elem_of_nil; lia.
Qed.

(** The registers and the state that a pass leaves alone. *)
Record loop_frame (s s' : arm) (n : Z) : Prop := {
  lf_ok : arm_ok s';
  lf_psr : psr s' = psr s;
  lf_mem : mem s' = mem s;
  lf_r0 : rget (regs s') 0 = rget (regs s) 0;
  lf_sp : rget (regs s') 13 = rget (regs s) 13;
  lf_lr : rget (regs s') 14 = rget (regs s) 14;
  lf_count : rget (regs s') 12 = u32 (rget (regs s) 12 - n) }.

Lemma block_sem_run im arg k rdw p s :
  arm_ok s -> (forall a, is_u32 (rdw a)) -> good_post p ->
  exists s1 s', exec_seq im arg k pre5 s = Some s1 /\ arm_ok s1 /\ mem s1 = mem s /\
    rget (regs s1) 11 = daddr (pc_at im (k + 3)) (rget (regs s1) 10) /\
    block_sem im arg k rdw p s = Some s' /\ loop_frame s s' 1 /\
    (p.2 = true -> fZ s' = (rget (regs s') 12 =? 0)) /\
    (forall x, block_sem im arg k rdw p (with_mem s x) = Some (with_mem s' x)).
Proof.
  intros Hs Hrdw [Hp Hd]. destruct (pre5_run im arg k s Hs) as (s1 & [E1 O1 F1 P1 M1 A1] & H11).
  set (s2 := setreg 9 (rdw (rget (regs s1) 11)) s1).
  assert (arm_ok s2) as O2 by (by apply setreg_ok).
  destruct (pure_seq im arg (k + 6) p.1 s2 Hp O2) as (s3 & [E3 O3 F3 P3 M3 A3]).
  destruct (pure_exec (pc_at im (k + 6 + length p.1)) arg (Dp AL p.2 SUB 12 12 (Imm 1)) s3
    ltac:(by destruct p.2) O3 (pc_at_u32 _ _)) as (s' & [E4 O4 F4 P4 M4 A4]).
  assert (Hfr : forall j, j <> 9%nat -> j <> 10%nat -> j <> 11%nat -> ~ (j ∈ dest <$> p.1) ->
    rget (regs s3) j = rget (regs s) j).
  { intros j H9 H10 H11' Hj. rewrite F3 by done. unfold s2. rewrite rget_setreg by done.
    apply F1. lia. }
  assert (Hfr' : forall j, j = 0%nat \/ j = 12%nat \/ j = 13%nat \/ j = 14%nat ->
    rget (regs s3) j = rget (regs s) j).
  { intros j Hj. apply Hfr; try lia. intros Hin. apply Hd in Hin. lia. }
  exists s1, s'. split; [done|]. split; [done|]. split; [done|]. split; [done|].
  assert (forall m, block_sem im arg k rdw p (with_mem s m) = Some (with_mem s' m)) as Hb.
  { intros m. unfold block_sem. rewrite A1, bind_Some_l. unfold post. rewrite exec_seq_app.
    change (setreg 9 _ (with_mem s1 m)) with (with_mem s2 m). rewrite A3, bind_Some_l.
    cbn [exec_seq]. by rewrite A4. }
  split.
  { unfold block_sem. rewrite E1, bind_Some_l. fold s2. unfold post.
    rewrite exec_seq_app, E3, bind_Some_l. cbn [exec_seq]. by rewrite E4. }
  assert (rget (regs s') 12 = u32 (rget (regs s) 12 - 1) /\
    (p.2 = true -> fZ s' = (rget (regs s') 12 =? 0))) as [H12 HZ].
  { rewrite <- (Hfr' 12%nat) by lia. pose proof O3 as (Hl & _). revert E4. cbn [exec passes op2].
    destruct p.2; cbn [alu_flags mbind option_bind]; intros [= <-];
      rewrite rget_setreg_eq by (done || lia); done. }
  split; [|done]. split; try done.
  - unfold s2 in P3. cbn in P3. congruence.
  - unfold s2 in M3. cbn in M3. congruence.
  - rewrite F4 by (cbn; lia). apply Hfr'. lia.
  - rewrite F4 by (cbn; lia). apply Hfr'. lia.
  - rewrite F4 by (cbn; lia). apply Hfr'. lia.
Qed.

(** ** The interface of the loop *)

Definition prologue : list instr :=
  code_of (save_reglist ++ [Ins (MovArg 0)] ++ init_checksum ++ disable_interrupts).
Definition epilogue : list instr := code_of (enable_interrupts ++ restore_reglist).

(** A program around the checksum loop: where it reads the word of an address,
    how many instructions a block and the end take, and that its code does so. *)
Class ChecksumLoop (p : list item) := {
  view : Z -> Z;
  block_cost : nat;
  exit_at : nat;
  exit_cost : nat;
  loop_entry b : code_at (image_at p b) 0 prologue;
  loop_block b arg j q s s' :
    arm_ok s -> posts !! j = Some q ->
    block_sem (image_at p b) arg (32 + 17 * j) (fun a => mem s (view a)) q s = Some s' ->
    iter_steps (at_end (image_at p b)) (step (image_at p b) arg) block_cost ((32 + 17 * j)%nat, s)
    = Some ((32 + 17 * S j)%nat, s');
  loop_back : code_of p !! 168%nat = Some (Bne checksum_loop);
  loop_target : target_of checksum_loop p 0 = Some 32%nat;
  loop_exit b arg s s1 s2 :
    exec_seq (image_at p b) arg 169 (code_of save_checksum) s = Some s1 ->
    exec_seq (image_at p b) arg exit_at epilogue s1 = Some s2 ->
    iter_steps (at_end (image_at p b)) (step (image_at p b) arg) exit_cost (169%nat, s)
    = Some (length (code_of p), s2) }.

Lemma post_straight q :
  good_post q -> forallb (fun i => negb (is_branch i)) (post q) = true.
Proof.
  intros [Hp _]. unfold post. rewrite forallb_app, andb_true_iff. split; [|done].
  rewrite forallb_forall in Hp |- *. intros i Hi. specialize (Hp i Hi). by destruct i.
Qed.

(** A load in the block itself. *)
Definition plain_block (q : list instr * bool) : list instr := pre5 ++ [Ldr 9 11 0] ++ post q.

Lemma plain_block_steps p b arg j q s s' :
  arm_ok s -> posts !! j = Some q -> code_at (image_at p b) (32 + 17 * j) (plain_block q) ->
  length (post q) = 11%nat ->
  block_sem (image_at p b) arg (32 + 17 * j) (mem s) q s = Some s' ->
  iter_steps (at_end (image_at p b)) (step (image_at p b) arg) 17 ((32 + 17 * j)%nat, s)
  = Some ((32 + 17 * S j)%nat, s').
Proof.
  intros Hs Hq Hc Hlen Hb. pose proof Hs as (_ & _ & _ & Hm).
  pose proof (Forall_lookup_1 _ _ _ _ posts_good Hq) as Hg.
  destruct (block_sem_run (image_at p b) arg (32 + 17 * j) (mem s) q s Hs Hm Hg)
    as (s1 & s'' & E1 & O1 & M1 & H11 & E & _). rewrite Hb in E. injection E as <-.
  pose proof (exec_seq_steps _ arg _ _ s s' Hc) as H.
  assert (length (plain_block q) = 17%nat) as Hl
    by (unfold plain_block; rewrite !length_app, Hlen; done).
  rewrite Hl in H. replace (32 + 17 * S j)%nat with (32 + 17 * j + 17)%nat by lia. apply H.
  - unfold plain_block. rewrite !forallb_app, post_straight by done. done.
  - unfold plain_block. rewrite exec_seq_app, E1, bind_Some_l. cbn [app exec_seq].
    assert (exec (pc_at (image_at p b) (32 + 17 * j + length pre5)) arg (Ldr 9 11 0) s1
      = Some (setreg 9 (mem s (rget (regs s1) 11)) s1)) as ->.
    { cbn [exec]. change (rd _ s1 11) with (rget (regs s1) 11). rewrite Z.add_0_r, H11.
      unfold load. rewrite u32_small.
      - rewrite daddr_aligned, M1. done.
      - apply daddr_u32; [apply pc_at_u32|]. change (rget (regs s1) 10) with (rd 0 s1 10).
        apply rd_u32; [done|]. unfold is_word. lia. }
    unfold block_sem in Hb. rewrite E1, bind_Some_l in Hb. rewrite bind_Some_l.
    rewrite <- Hb. f_equal. cbn [length pre5 take code_of no_block1]. lia.
Qed.

(** Goes through the eight blocks. *)
Ltac each_post j Hq :=
  do 8 (destruct j as [|j]; [injection Hq as <-; reflexivity|]); discriminate.

Lemma post_length j q : posts !! j = Some q -> length (post q) = 11%nat.
Proof. intros Hq. each_post j Hq. Qed.

#[export] Instance swattARM_loop : ChecksumLoop (swattARM_items 0).
Proof.
  refine {| view a := a; block_cost := 17; exit_at := 182; exit_cost := 31 |}.
  - reflexivity.
  - intros b arg j q s s' Hs Hq. apply plain_block_steps; [done|done| |by apply (post_length j)].
    each_post j Hq.
  - reflexivity.
  - reflexivity.
  - intros b arg s s1 s2 E1 E2.
    apply (exec_seq_steps (image_at (swattARM_items 0) b) arg 169
             (code_of save_checksum ++ epilogue) s s2); [reflexivity|reflexivity|].
    rewrite exec_seq_app, E1. exact E2.
Defined.

(** The copy in [swattARM_fake] is the same code. *)
Lemma swattARM_fake_same n : swattARM_fake_items n = swattARM_items n.
Proof. reflexivity. Qed.

(** The detour of the attack. *)
Definition detour : list instr :=
  [Dp AL false ADD 11 11 (Imm 0x500); Ldr 9 11 0; Dp AL false SUB 11 11 (Imm 0x500)].

Lemma detour_run im arg k s :
  arm_ok s -> rget (regs s) 11 mod 4 = 0 ->
  exec_seq im arg k detour s
  = Some (setreg 9 (mem s (u32 (rget (regs s) 11 + 0x500))) s).
Proof.
  intros (Hl & Hr & _) Hal. set (a := rget (regs s) 11) in *.
  assert (is_u32 a) as Ha.
  { unfold a, rget. destruct (nth_in_or_default 11 (regs s) 0) as [Hin| ->]; [|unfold is_word; lia].
    rewrite List.Forall_forall in Hr. by apply Hr. }
  unfold detour. cbn [exec_seq exec passes op2 alu mbind option_bind].
  change (rd _ s 11) with a. set (s1 := setreg 11 (u32 (a + 0x500)) s).
  assert (rget (regs s1) 11 = u32 (a + 0x500)) as E by (apply rget_setreg_eq; [done|lia]).
  change (rd (pc_at im (S k)) s1 11) with (rget (regs s1) 11). rewrite E, Z.add_0_r.
  unfold load. rewrite (u32_small (u32 _)) by apply is_u32_u32.
  assert ((u32 (a + 0x500) mod 4 =? 0) = true) as ->.
  { apply Z.eqb_eq. unfold u32. div_lia. }
  cbn [mbind option_bind]. change (rd _ (setreg 9 _ s1) 11) with (rget (regs (setreg 9 (mem s1 (u32 (a + 0x500))) s1)) 11).
  rewrite rget_setreg, E by lia.
  assert (u32 (u32 (a + 0x500) - 0x500) = a) as ->.
  { unfold is_word in Ha. unfold u32. div_lia. }
  f_equal. unfold setreg, with_regs, s1, setreg, with_regs. cbn. f_equal.
  unfold rset. rewrite (list_insert_insert_ne _ 11 9), list_insert_insert_eq by lia.
  f_equal. apply list_insert_id.
  destruct (nth_lookup_or_length (regs s) 11 0) as [Hn|]; [done|lia].
Qed.

Lemma branch_steps im arg k l t s n :
  code_of (items im) !! k = Some (B l) -> target_of l (items im) 0 = Some t ->
  iter_steps (at_end im) (step im arg) (1 + n) (k, s)
  = iter_steps (at_end im) (step im arg) n (t, s).
Proof.
  intros Hk Ht. cbn [iter_steps Nat.add]. rewrite (at_end_false _ _ _ _ Hk). cbn [step].
  by rewrite Hk, bind_Some_l, Ht.
Qed.

(** Where the parts of block [j] are in the code of the attack. *)
Record db_layout (im : image) (j : nat) (q : list instr * bool) : Prop := {
  db_pre : code_at im (32 + 17 * j) pre5;
  db_leave : code_of (items im) !! (32 + 17 * j + 5)%nat = Some (B (dp_attack (S j)));
  db_away : target_of (dp_attack (S j)) (items im) 0 = Some (183 + 4 * j)%nat;
  db_detour : code_at im (183 + 4 * j) detour;
  db_return : code_of (items im) !! (183 + 4 * j + 3)%nat = Some (B (dp_attack_ret (S j)));
  db_back : target_of (dp_attack_ret (S j)) (items im) 0 = Some (32 + 17 * j + 6)%nat;
  db_post : code_at im (32 + 17 * j + 6) (post q) }.

Lemma db_attack_layout b j q :
  posts !! j = Some q -> db_layout (image_at (swattARM_db_attack_items 0) b) j q.
Proof.
  intros Hq. do 8 (destruct j as [|j]; [injection Hq as <-; split; reflexivity|]). discriminate.
Qed.

Lemma db_block_steps b arg j q s s' :
  arm_ok s -> posts !! j = Some q ->
  block_sem (image_at (swattARM_db_attack_items 0) b) arg (32 + 17 * j)
    (fun a => mem s (u32 (a + 0x500))) q s = Some s' ->
  iter_steps (at_end (image_at (swattARM_db_attack_items 0) b))
    (step (image_at (swattARM_db_attack_items 0) b) arg) 21 ((32 + 17 * j)%nat, s)
  = Some ((32 + 17 * S j)%nat, s').
Proof.
  intros Hs Hq Hb. pose proof Hs as (_ & _ & _ & Hm).
  destruct (db_attack_layout b j q Hq) as [C1 C2 C3 C4 C5 C6 C7].
  set (im := image_at (swattARM_db_attack_items 0) b) in *.
  pose proof (Forall_lookup_1 _ _ _ _ posts_good Hq) as Hg.
  destruct (block_sem_run im arg (32 + 17 * j) (fun a => mem s (u32 (a + 0x500))) q s Hs
    (fun a => Hm _) Hg) as (s1 & s'' & E1 & O1 & M1 & H11 & _).
  unfold block_sem in Hb. rewrite E1, bind_Some_l, <- M1 in Hb.
  change 21%nat with (5 + (1 + (3 + (1 + 11))))%nat.
  rewrite (iter_steps_app _ _ 5 _ _ _ (exec_seq_steps _ _ _ _ _ _ C1 eq_refl E1)).
  rewrite (branch_steps _ _ _ _ _ _ _ C2 C3).
  assert (rget (regs s1) 11 mod 4 = 0) as Hal by (rewrite H11; apply daddr_aligned).
  rewrite (iter_steps_app _ _ 3 _ _ _
    (exec_seq_steps _ _ _ _ _ _ C4 eq_refl (detour_run im arg _ s1 O1 Hal))).
  rewrite (branch_steps _ _ _ _ _ _ _ C5 C6).
  pose proof (exec_seq_steps _ _ _ _ _ _ C7 (post_straight q Hg) Hb) as H.
  rewrite (post_length j q Hq) in H. rewrite H. do 2 f_equal. lia.
Qed.

#[export] Instance swattARM_db_attack_loop : ChecksumLoop (swattARM_db_attack_items 0).
Proof.
  refine {| view a := u32 (a + 0x500); block_cost := 21; exit_at := 215; exit_cost := 32 |}.
  - reflexivity.
  - intros b arg j q s s'. apply db_block_steps.
  - reflexivity.
  - reflexivity.
  - intros b arg s s1 s2 E1 E2. set (im := image_at (swattARM_db_attack_items 0) b) in *.
    change 32%nat with (13 + (1 + 18))%nat.
    rewrite (iter_steps_app _ _ 13 _ _ _
      (exec_seq_steps im arg 169 (code_of save_checksum) s s1 eq_refl eq_refl E1)).
    rewrite (branch_steps im arg 182 jmp_over_attack 215) by reflexivity.
    exact (exec_seq_steps im arg 215 epilogue s1 s2 eq_refl eq_refl E2).
Defined.

(** ** The loop *)

Lemma loop_frame_trans s t u n m :
  loop_frame s t n -> loop_frame t u m -> loop_frame s u (n + m).
Proof.
  intros [] []. split; try done; try congruence. rewrite lf_count1, lf_count0. unfold u32.
  rewrite Zminus_mod_idemp_l. f_equal. lia.
Qed.

Lemma loop_frame_refl s : arm_ok s -> loop_frame s s 0.
Proof.
  intros Hs. split; try done. rewrite Z.sub_0_r, u32_small; [done|].
  change (rget (regs s) 12) with (rd 0 s 12). apply rd_u32; [done|]. unfold is_word. lia.
Qed.

Lemma blocks_sem_run im arg k rdw ps s :
  arm_ok s -> (forall a, is_u32 (rdw a)) -> Forall good_post ps ->
  exists s', blocks_sem im arg k rdw ps s = Some s' /\ loop_frame s s' (Z.of_nat (length ps)) /\
    (forall q, ps !! pred (length ps) = Some q -> q.2 = true -> fZ s' = (rget (regs s') 12 =? 0)) /\
    (forall x, blocks_sem im arg k rdw ps (with_mem s x) = Some (with_mem s' x)).
Proof.
  intros Hs Hrdw Hps. revert k s Hs. induction Hps as [|p ps Hp Hps IH]; intros k s Hs.
  { exists s. split; [done|]. split; [by apply loop_frame_refl|done]. }
  destruct (block_sem_run im arg k rdw p s Hs Hrdw Hp) as (s1 & t & _ & _ & _ & _ & E & F & Z1 & A).
  destruct (IH (k + 17)%nat t (lf_ok _ _ _ F)) as (s' & E' & F' & Z' & A').
  exists s'. split; [cbn [blocks_sem]; by rewrite E|]. split.
  - replace (Z.of_nat (length (p :: ps))) with (1 + Z.of_nat (length ps)) by (cbn; lia).
    by eapply loop_frame_trans.
  - split; [|intros x; cbn [blocks_sem]; by rewrite A, bind_Some_l].
    intros q Hq Hf. destruct ps as [|p' ps]; [|by apply (Z' q)].
    injection E' as <-. injection Hq as <-. by apply Z1.
Qed.

Lemma passes_sem_S im arg rdw n s :
  passes_sem im arg rdw (S n) s = t ← blocks_sem im arg 32 rdw posts s; passes_sem im arg rdw n t.
Proof. reflexivity. Qed.

Lemma passes_sem_run im arg rdw n s :
  arm_ok s -> (forall a, is_u32 (rdw a)) ->
  exists s', passes_sem im arg rdw n s = Some s' /\ loop_frame s s' (8 * Z.of_nat n) /\
    (forall x, passes_sem im arg rdw n (with_mem s x) = Some (with_mem s' x)).
Proof.
  intros Hs Hrdw. revert s Hs. induction n as [|n IH]; intros s Hs.
  { exists s. split; [done|]. split; [by apply loop_frame_refl|done]. }
  destruct (blocks_sem_run im arg 32 rdw posts s Hs Hrdw posts_good) as (t & E & F & _ & A).
  destruct (IH t (lf_ok _ _ _ F)) as (s' & E' & F' & A').
  exists s'. split; [cbn [passes_sem]; by rewrite E|]. split.
  - replace (8 * Z.of_nat (S n)) with (8 + 8 * Z.of_nat n) by lia. by eapply loop_frame_trans.
  - intros x. cbn [passes_sem]. by rewrite A, bind_Some_l.
Qed.

Section Loop.
Context (p : list item) `{!ChecksumLoop p} (b arg : Z).
Abbreviation im := (image_at p b).
Abbreviation words s := (fun a => mem s (view a)).

Lemma blocks_steps ps j s s' :
  arm_ok s -> drop j posts = ps -> (j + length ps = 8)%nat ->
  blocks_sem im arg (32 + 17 * j) (words s) ps s = Some s' ->
  iter_steps (at_end im) (step im arg) (block_cost * length ps) ((32 + 17 * j)%nat, s)
  = Some (168%nat, s').
Proof.
  revert j s. induction ps as [|q ps IH]; intros j s Hs Hd Hj.
  { intros [= <-]. rewrite Nat.mul_0_r. cbn in *. replace j with 8%nat by lia. done. }
  assert (posts !! j = Some q) as Hq.
  { rewrite <- (Nat.add_0_r j), <- lookup_drop, Hd. done. }
  pose proof (Forall_lookup_1 _ _ _ _ posts_good Hq) as Hg. pose proof Hs as (_ & _ & _ & Hm).
  destruct (block_sem_run im arg (32 + 17 * j) (words s) q s Hs (fun a => Hm _) Hg)
    as (_ & t & _ & _ & _ & _ & E & F & _ & _).
  cbn [blocks_sem]. rewrite E, bind_Some_l.
  replace (32 + 17 * j + 17)%nat with (32 + 17 * S j)%nat by lia. intros Hrest.
  cbn [length]. rewrite Nat.mul_succ_r, Nat.add_comm.
  rewrite (iter_steps_app _ _ _ _ _ _ (loop_block b arg j q s t Hs Hq E)).
  apply IH; [apply F| |cbn in Hj; lia|].
  - rewrite <- Nat.add_1_r, <- drop_drop, Hd. done.
  - by rewrite (lf_mem _ _ _ F).
Qed.

(** With [8 * n] in the counter, the loop takes [n] passes. *)
Lemma loop_steps n s :
  arm_ok s -> rget (regs s) 12 = 8 * Z.of_nat (S n) -> 8 * Z.of_nat (S n) < 2 ^ 32 ->
  exists s', passes_sem im arg (words s) (S n) s = Some s' /\ loop_frame s s' (8 * Z.of_nat (S n)) /\
    iter_steps (at_end im) (step im arg) ((block_cost * 8 + 1) * S n) (32%nat, s)
    = Some (169%nat, s').
Proof.
  revert s. induction n as [|n IH]; intros s Hs Hr Hn; pose proof Hs as (_ & _ & _ & Hm);
    destruct (blocks_sem_run im arg 32 (words s) posts s Hs (fun a => Hm _) posts_good)
      as (t & E & F & HZ & _);
    specialize (HZ _ eq_refl eq_refl);
    rewrite (lf_count _ _ _ F), Hr in HZ;
    pose proof (blocks_steps posts 0 s t Hs eq_refl eq_refl E) as Hst;
    change (length posts) with 8%nat in *;
    (rewrite u32_small in HZ by (unfold is_word; lia)).
  - exists t. split; [cbn [passes_sem]; by rewrite E|]. split; [by apply F|].
    rewrite Nat.mul_1_r, (iter_steps_app _ _ _ _ _ _ Hst). cbn [iter_steps].
    rewrite (at_end_false im _ _ _ loop_back). cbn [step items image_at]. rewrite loop_back.
    rewrite bind_Some_l, HZ. done.
  - destruct (IH t (lf_ok _ _ _ F)) as (s' & E' & F' & Hst'); [|lia|].
    { rewrite (lf_count _ _ _ F), Hr, u32_small by (unfold is_word; lia). lia. }
    rewrite (lf_mem _ _ _ F) in E'. exists s'.
    split; [rewrite passes_sem_S, E, bind_Some_l; exact E'|]. split.
    { replace (8 * Z.of_nat (S (S n))) with (8 + 8 * Z.of_nat (S n)) by lia.
      by eapply loop_frame_trans. }
    rewrite Nat.mul_succ_r, Nat.add_comm, <- Nat.add_assoc.
    rewrite (iter_steps_app _ _ _ _ _ _ Hst). cbn [iter_steps Nat.add].
    rewrite (at_end_false im _ _ _ loop_back). cbn [step items image_at]. rewrite loop_back.
    rewrite bind_Some_l, HZ. destruct (_ =? 0) eqn:Hz; [apply Z.eqb_eq in Hz; lia|].
    rewrite loop_target, bind_Some_l. exact Hst'.
Qed.

End Loop.
