(* ===== verification/SwattArmCall.v ===== *)
(** * The attestation code of the network driver: calls

    What surrounds the checksum loop: the registers go to the stack, the
    challenge comes into registers and goes back to memory, interrupts go off
    and on.  The theorems are about whole calls of [swattARM] and
    [swattARM_db_attack]. *)

From S2P Require Import Prelude ArmIsa SwattArm SwattArmTheory.

(** ** Lists of loads, stores, pushes and pops *)

Lemma rget_rset k j v r :
  (k < length r)%nat -> rget (rset k v r) j = if decide (j = k) then v else rget r j.
Proof. intros H. case_decide; [subst; by apply rget_rset_eq|by apply rget_rset_ne]. Qed.

Lemma setreg_mem d v s : mem (setreg d v s) = mem s.
Proof. done. Qed.

Lemma load_ok a s : is_u32 a -> a mod 4 = 0 -> load a s = Some (mem s a).
Proof. intros Ha H4. unfold load. by rewrite u32_small, H4. Qed.

Lemma store_ok a v s :
  is_u32 a -> a mod 4 = 0 -> store a v s = Some (with_mem s (upd (mem s) a v)).
Proof. intros Ha H4. unfold store. by rewrite u32_small, H4. Qed.

Lemma with_mem_ok s m : arm_ok s -> (forall a, is_u32 (m a)) -> arm_ok (with_mem s m).
Proof. intros (? & ? & ? & ?) Hm. done. Qed.

Lemma upd_u32 m a v : (forall a, is_u32 (m a)) -> is_u32 v -> forall x, is_u32 (upd m a v x).
Proof. intros Hm Hv x. unfold upd. by destruct (x =? a). Qed.

Lemma rget_u32 s k : arm_ok s -> is_u32 (rget (regs s) k).
Proof.
  intros Hs. destruct (decide (k = 15%nat)) as [->|Hk].
  - destruct Hs as (Hl & _). unfold rget. rewrite nth_overflow by lia. unfold is_word. lia.
  - pose proof (rd_u32 0 s k Hs ltac:(unfold is_word; lia)) as H. unfold rd in H.
    by rewrite decide_False in H.
Qed.

Lemma pushes_run im arg k ds sp s :
  arm_ok s -> rget (regs s) 13 = sp -> sp mod 4 = 0 -> sp < 2 ^ 32 ->
  4 * Z.of_nat (length ds) <= sp -> Forall (fun d => d < 15)%nat ds ->
  exists m, exec_seq im arg k (Push <$> ds) s
      = Some (setreg 13 (sp - 4 * Z.of_nat (length ds)) (with_mem s m)) /\
    (forall a, is_u32 (m a)) /\
    (forall a, ~ (sp - 4 * Z.of_nat (length ds) <= a < sp) -> m a = mem s a) /\
    (forall i d, ds !! i = Some d -> m (sp - 4 * (Z.of_nat i + 1))
       = if decide (d = 13%nat) then sp - 4 * Z.of_nat i else rget (regs s) d).
Proof.
  intros Hs Hsp H4 Hhi Hlo Hd. revert k sp s Hs Hsp H4 Hhi Hlo.
  induction Hd as [|d ds Hd Hds IH]; intros k sp s Hs Hsp H4 Hhi Hlo;
    pose proof Hs as (Hl & _ & _ & Hm).
  { exists (mem s). split; [|by split]. cbn [fmap list_fmap exec_seq length]. f_equal.
    destruct s as [r n z c v q m]. unfold setreg, with_regs, with_mem. cbn in *. f_equal.
    unfold rset. symmetry. apply list_insert_id.
    destruct (nth_lookup_or_length r 13 0) as [Hn|]; [|lia]. rewrite Hn. f_equal.
    unfold rget in Hsp. lia. }
  cbn [length] in *. set (s1 := setreg 13 (sp - 4) (with_mem s (upd (mem s) (sp - 4)
    (if decide (d = 13%nat) then sp else rget (regs s) d)))).
  assert (exec (pc_at im k) arg (Push d) s = Some s1) as E1.
  { cbn [exec]. change (rd _ s 13) with (rget (regs s) 13). rewrite Hsp.
    unfold sub32. rewrite (u32_small (sp - 4)) by (unfold is_word; lia).
    rewrite store_ok by (unfold is_word; lia || div_lia). cbn [mbind option_bind].
    unfold s1. do 4 f_equal. unfold rd. rewrite decide_False by lia.
    case_decide; [by subst|done]. }
  destruct (IH (S k) (sp - 4) s1) as (m & E & Hu & Hout & Hin); try (div_lia || lia).
  { apply setreg_ok; [|unfold is_word; lia]. apply with_mem_ok, upd_u32; [done|done|].
    case_decide; [unfold is_word; lia|by apply rget_u32]. }
  { unfold s1. apply rget_setreg_eq; [done|lia]. }
  exists m. split; [|split; [done|split]].
  - cbn [fmap list_fmap exec_seq]. rewrite E1, bind_Some_l. refine (eq_trans E _). f_equal.
    unfold s1, setreg, with_regs, with_mem. cbn. f_equal. unfold rset.
    rewrite list_insert_insert_eq. f_equal. lia.
  - intros a Ha. rewrite Hout by lia. unfold s1. cbn. unfold upd.
    destruct (Z.eqb_spec a (sp - 4)); [lia|done].
  - intros [|i] d' Hi; cbn in Hi.
    + injection Hi as <-. rewrite Hout by lia. unfold s1. cbn. unfold upd.
      replace (sp - 4 * (Z.of_nat 0 + 1) =? sp - 4) with true by (symmetry; apply Z.eqb_eq; lia).
      case_decide; [lia|done].
    + specialize (Hin i d' Hi).
      replace (sp - 4 * (Z.of_nat (S i) + 1)) with (sp - 4 - 4 * (Z.of_nat i + 1)) by lia.
      rewrite Hin. case_decide; [lia|]. unfold s1. by rewrite rget_setreg.
Qed.

(** Loads relative to [r0], which they leave alone. *)
Lemma loads_run im arg k l a s :
  arm_ok s -> rget (regs s) 0 = a ->
  Forall (fun '(d, o) => (0 < d < 15)%nat /\ is_u32 (a + o) /\ (a + o) mod 4 = 0) l ->
  NoDup l.*1 ->
  exists r, exec_seq im arg k ((fun '(d, o) => Ldr d 0 o) <$> l) s = Some (with_regs s r) /\
    arm_ok (with_regs s r) /\
    (forall d o, (d, o) ∈ l -> rget r d = mem s (a + o)) /\
    (forall d, ~ (d ∈ l.*1) -> rget r d = rget (regs s) d).
Proof.
  intros Hs Ha Hf. revert k s Hs Ha.
  induction Hf as [|[d o] l (Hd & Hu & H4) Hf IH]; intros k s Hs Ha Hnd;
    pose proof Hs as (Hl & _ & _ & Hm).
  { exists (regs s). destruct s. split; [done|]. split; [done|]. split; [|done].
    intros d o Hin. by apply elem_of_nil in Hin. }
  apply list.NoDup_cons in Hnd as [Hnin Hnd].
  destruct (IH (S k) (setreg d (mem s (a + o)) s)) as (r & E & Hr & Hin & Hout); [| |done|].
  { by apply setreg_ok. }
  { rewrite rget_setreg by lia. done. }
  exists r. split; [|split; [done|split]].
  - cbn [fmap list_fmap exec_seq exec]. change (rd _ s 0) with (rget (regs s) 0).
    rewrite Ha, load_ok, bind_Some_l by done. exact E.
  - intros d' o' Hin'. rewrite elem_of_cons in Hin'. destruct Hin' as [[= -> ->]|Hin'].
    + rewrite Hout by done. apply rget_setreg_eq; [done|lia].
    + by apply Hin.
  - intros d' Hd'. cbn in Hd'. rewrite elem_of_cons in Hd'. rewrite Hout by tauto.
    apply rget_setreg. tauto.
Qed.

Lemma stores_run im arg k l a s :
  arm_ok s -> rget (regs s) 0 = a ->
  Forall (fun '(d, o) => (0 < d < 15)%nat /\ is_u32 (a + o) /\ (a + o) mod 4 = 0) l ->
  NoDup l.*2 ->
  exists m, exec_seq im arg k ((fun '(d, o) => Str d 0 o) <$> l) s = Some (with_mem s m) /\
    arm_ok (with_mem s m) /\
    (forall d o, (d, o) ∈ l -> m (a + o) = rget (regs s) d) /\
    (forall x, (forall d o, (d, o) ∈ l -> x <> a + o) -> m x = mem s x).
Proof.
  intros Hs Ha Hf. revert k s Hs Ha.
  induction Hf as [|[d o] l (Hd & Hu & H4) Hf IH]; intros k s Hs Ha Hnd;
    pose proof Hs as (Hl & _ & _ & Hm).
  { exists (mem s). destruct s. split; [done|]. split; [done|]. split; [|done].
    intros d o Hin. by apply elem_of_nil in Hin. }
  apply list.NoDup_cons in Hnd as [Hnin Hnd].
  destruct (IH (S k) (with_mem s (upd (mem s) (a + o) (rget (regs s) d))) ltac:(apply with_mem_ok, upd_u32;
    [done|done|by apply rget_u32]) Ha Hnd) as (m & E & Ho & Hin & Hout).
  exists m. split; [|split; [done|split]].
  - cbn [fmap list_fmap exec_seq exec]. change (rd _ s 0) with (rget (regs s) 0).
    assert (rd (pc_at im k) s d = rget (regs s) d) as -> by (unfold rd; by rewrite decide_False by lia).
    rewrite Ha, store_ok, bind_Some_l by done. exact E.
  - intros d' o' Hin'. rewrite elem_of_cons in Hin'. destruct Hin' as [[= -> ->]|Hin'].
    + rewrite Hout; [cbn; unfold upd; by rewrite Z.eqb_refl|].
      intros d' o' Hin' Heq. apply Hnin. apply list_elem_of_fmap. exists (d', o').
      split; [cbn; lia|done].
    + by apply Hin.
  - intros x Hx. rewrite Hout; [|intros d' o' Hin'; apply (Hx d'); apply elem_of_cons; by right].
    cbn. unfold upd. destruct (Z.eqb_spec x (a + o)); [|done].
    exfalso. apply (Hx d o); [apply elem_of_cons; by left|done].
Qed.

(** Pops; the stack pointer among them is where it would be anyway. *)
Lemma pops_run im arg k ds sp s :
  length (regs s) = 15%nat -> rget (regs s) 13 = sp -> sp mod 4 = 0 -> 0 <= sp ->
  sp + 4 * Z.of_nat (length ds) < 2 ^ 32 -> Forall (fun d => d < 15)%nat ds -> NoDup ds ->
  (forall i, ds !! i = Some 13%nat -> mem s (sp + 4 * Z.of_nat i) = sp + 4 * (Z.of_nat i + 1)) ->
  exists r, exec_seq im arg k (Pop <$> ds) s = Some (with_regs s r) /\ length r = 15%nat /\
    (forall i d, ds !! i = Some d -> d <> 13%nat -> rget r d = mem s (sp + 4 * Z.of_nat i)) /\
    rget r 13 = sp + 4 * Z.of_nat (length ds) /\
    (forall d, ~ (d ∈ ds) -> d <> 13%nat -> rget r d = rget (regs s) d).
Proof.
  intros Hl Hsp H4 Hlo Hhi Hd. revert k sp s Hl Hsp H4 Hlo Hhi.
  induction Hd as [|d ds Hd Hds IH]; intros k sp s Hl Hsp H4 Hlo Hhi Hnd H13.
  { exists (regs s). destruct s. split; [done|]. split; [done|]. split; [done|].
    split; [cbn in *; lia|done]. }
  cbn [length] in Hhi. apply list.NoDup_cons in Hnd as [Hnin Hnd].
  set (s1 := setreg d (mem s sp) (setreg 13 (sp + 4) s)).
  assert (length (regs s1) = 15%nat) as Hl1 by (cbn; by rewrite !rset_length).
  assert (rget (regs s1) 13 = sp + 4) as Hsp1.
  { destruct (decide (d = 13%nat)) as [->|Hne].
    - unfold s1. rewrite rget_setreg_eq; [|cbn; by rewrite rset_length|lia].
      specialize (H13 0%nat eq_refl). rewrite Z.mul_0_r, Z.add_0_r in H13. lia.
    - unfold s1. rewrite rget_setreg by done. apply rget_setreg_eq; [done|lia]. }
  destruct (IH (S k) (sp + 4) s1) as (r & E & Hr & Hin & H13' & Hout); try (done || lia || div_lia).
  { intros i Hi. specialize (H13 (S i) Hi). cbn. rewrite <- Z.add_assoc.
    replace (4 + 4 * Z.of_nat i) with (4 * Z.of_nat (S i)) by lia. rewrite H13. lia. }
  exists r. split; [|split; [done|split; [|split; [cbn; lia|]]]].
  - cbn [fmap list_fmap exec_seq exec]. change (rd _ s 13) with (rget (regs s) 13).
    rewrite Hsp, load_ok by (unfold is_word; lia). cbn [mbind option_bind].
    unfold add32. rewrite u32_small by (unfold is_word; lia). exact E.
  - intros [|i] d' Hi Hne; cbn in Hi.
    + injection Hi as <-. rewrite Hout by done. rewrite Z.mul_0_r, Z.add_0_r.
      unfold s1. apply rget_setreg_eq; [cbn; by rewrite rset_length|lia].
    + rewrite (Hin i d' Hi Hne). cbn. f_equal. lia.
  - intros d' Hd' Hne. rewrite elem_of_cons in Hd'. rewrite Hout by tauto.
    unfold s1. rewrite !rget_setreg by tauto. done.
Qed.

(** ** Interrupts *)

Definition control_off (p : Z) : Z := p - p mod 2 ^ 8 + Z.lor (p mod 2 ^ 8) 0xd3.
Definition control_on (p : Z) : Z := p - p mod 2 ^ 8 + Z.land (p mod 2 ^ 8) 0x3f.

Lemma lor_mod a b n : 0 <= n -> Z.lor a b mod 2 ^ n = Z.lor (a mod 2 ^ n) (b mod 2 ^ n).
Proof. intros. rewrite <- !Z.land_ones by done. apply Z.land_lor_distr_l. Qed.

Lemma land_mod a b n : 0 <= n -> Z.land a b mod 2 ^ n = Z.land (a mod 2 ^ n) (b mod 2 ^ n).
Proof.
  intros. rewrite <- !Z.land_ones by done. rewrite <- (Z.land_diag (Z.ones n)) at 1.
  rewrite !Z.land_assoc. f_equal. rewrite <- !Z.land_assoc. f_equal. apply Z.land_comm.
Qed.

Lemma cpsr_mod s n : 0 <= n <= 28 -> cpsr s mod 2 ^ n = psr s mod 2 ^ n.
Proof.
  intros Hn. unfold cpsr.
  replace (2 ^ 31) with (2 ^ (31 - n) * 2 ^ n) by (rewrite <- Z.pow_add_r by lia; f_equal; lia).
  replace (2 ^ 30) with (2 ^ (30 - n) * 2 ^ n) by (rewrite <- Z.pow_add_r by lia; f_equal; lia).
  replace (2 ^ 29) with (2 ^ (29 - n) * 2 ^ n) by (rewrite <- Z.pow_add_r by lia; f_equal; lia).
  replace (2 ^ 28) with (2 ^ (28 - n) * 2 ^ n) by (rewrite <- Z.pow_add_r by lia; f_equal; lia).
  rewrite !Z.mul_assoc, <- !Z.mul_add_distr_r, Z.add_comm. apply Z.mod_add. lia.
Qed.

(** Bits of a byte are checked by going through the bytes. *)
Lemma byte_cases (P : Z -> bool) x :
  forallb (fun n => P (Z.of_nat n)) (seq 0 256) = true -> 0 <= x < 256 -> P x = true.
Proof.
  intros H Hx. rewrite forallb_forall in H. specialize (H (Z.to_nat x)).
  rewrite Z2Nat.id in H by lia. apply H, in_seq. lia.
Qed.

(** The supervisor mode, in which the kernel runs. *)
Definition svc (s : arm) : Prop := mode (psr s) = 0x13.

Lemma control_off_mode p : mode p = 0x13 -> mode (control_off p) = 0x13.
Proof.
  unfold mode, control_off. intros Hm. set (x := p mod 2 ^ 8).
  assert (x mod 2 ^ 5 = 0x13) as Hx by (unfold x; div_lia).
  assert ((x mod 2 ^ 5 =? 0x13) = false \/ (Z.lor x 0xd3 mod 2 ^ 5 =? 0x13) = true) as [H|H].
  { pose proof (byte_cases (fun x => negb (x mod 2 ^ 5 =? 0x13) || (Z.lor x 0xd3 mod 2 ^ 5 =? 0x13)) x
      ltac:(vm_compute; reflexivity) ltac:(unfold x; div_lia)) as H.
    apply orb_true_iff in H as [H|H]; [left; by apply negb_true_iff|by right]. }
  - apply Z.eqb_neq in H. done.
  - apply Z.eqb_eq in H. unfold x in *. generalize dependent (Z.lor (p mod 2 ^ 8) 0xd3). intros. div_lia.
Qed.

Lemma control_off_range p : 0 <= p < 2 ^ 28 -> 0 <= control_off p < 2 ^ 28.
Proof.
  intros Hp. unfold control_off.
  assert (0 <= Z.lor (p mod 2 ^ 8) 0xd3 < 256) as H; [|div_lia].
  apply (is_word_lor 8); [lia|apply is_word_mod; lia|unfold is_word; lia].
Qed.

(** After the call the interrupts are on, whatever they were before. *)
Lemma control_off_on p : mode p = 0x13 -> control_on (control_off p) = p - p mod 2 ^ 8 + p mod 2 ^ 6.
Proof.
  unfold control_on, control_off, mode. intros Hm. set (x := p mod 2 ^ 8).
  assert (0 <= x < 256) as Hx by (unfold x; div_lia).
  assert (x mod 2 ^ 5 = 0x13) as Hx5 by (unfold x; div_lia).
  assert (0 <= Z.lor x 0xd3 < 256 /\ Z.land (Z.lor x 0xd3) 0x3f = x mod 2 ^ 6) as [Hr He].
  { pose proof (byte_cases (fun x => negb (x mod 2 ^ 5 =? 0x13) || ((0 <=? Z.lor x 0xd3) &&
      (Z.lor x 0xd3 <? 256) && (Z.land (Z.lor x 0xd3) 0x3f =? x mod 2 ^ 6))) x
      ltac:(vm_compute; reflexivity) Hx) as H.
    cbv beta in H. rewrite Hx5 in H. cbn [Z.eqb Pos.eqb negb orb] in H.
    rewrite !andb_true_iff, Z.leb_le, Z.ltb_lt, Z.eqb_eq in H. tauto. }
  assert ((p - x + Z.lor x 0xd3) mod 2 ^ 8 = Z.lor x 0xd3) as E.
  { clear He. unfold x in *. generalize dependent (Z.lor (p mod 2 ^ 8) 0xd3). intros. div_lia. }
  rewrite E, He. assert (x mod 2 ^ 6 = p mod 2 ^ 6) as -> by (unfold x; div_lia). lia.
Qed.

(** ** Before the loop *)

Lemma regs_ext r r' :
  length r = 15%nat -> length r' = 15%nat ->
  (forall k, (k < 15)%nat -> rget r k = rget r' k) -> r = r'.
Proof.
  intros Hl Hl' H. apply nth_ext with 0 0; [lia|]. intros k Hk. apply H. lia.
Qed.

(** The words of the challenge and their registers. *)
Definition challenge_table : list (nat * Z) :=
  zip [1; 2; 3; 4; 5; 6; 7; 8; 9; 10; 11; 12; 14]%nat
      [0; 4; 8; 12; 16; 20; 24; 28; 32; 36; 40; 44; 48].

(** Where the call keeps its data: the stack below [sp] and the challenge. *)
Record call_ok (ch : Z) (s : arm) : Prop := {
  co_ok : arm_ok s;
  co_svc : svc s;
  co_sp : rget (regs s) 13 mod 4 = 0;
  co_room : 60 <= rget (regs s) 13;
  co_ch : ch mod 4 = 0;
  co_ch_lo : 0 <= ch;
  co_ch_hi : ch + 52 <= 2 ^ 32;
  co_apart : ch + 52 <= rget (regs s) 13 - 60 \/ rget (regs s) 13 <= ch }.

(** The registers with which the loop starts. *)
Definition entry_regs (psr0 ch sp : Z) (m : Z -> Z) : list Z :=
  [ch; m ch; m (ch + 4); m (ch + 8); m (ch + 12); m (ch + 16); m (ch + 20); m (ch + 24);
   m (ch + 28); m (ch + 32); m (ch + 36); Z.lor psr0 0xd3; m (ch + 44); sp - 60; m (ch + 48)].

Definition entry_state (ch : Z) (s : arm) (m : Z -> Z) : arm :=
  mk_arm (entry_regs (cpsr s) ch (rget (regs s) 13) (mem s)) (fN s) (fZ s) (fC s) (fV s)
    (control_off (psr s)) m.

(** The stack after the registers have been saved. *)
Definition saved (s : arm) (m : Z -> Z) : Prop :=
  (forall a, ~ (rget (regs s) 13 - 60 <= a < rget (regs s) 13) -> m a = mem s a) /\
  (forall i, (i < 15)%nat -> m (rget (regs s) 13 - 4 * (Z.of_nat i + 1))
     = if decide (i = 13%nat) then rget (regs s) 13 - 52 else rget (regs s) i).

Lemma entry_regs_eq c ch sp m r :
  length r = 15%nat -> rget r 0 = ch -> rget r 13 = sp - 60 ->
  (forall d o, (d, o) ∈ challenge_table -> rget r d = m (ch + o)) ->
  rset 11 (Z.lor c 0xd3) r = entry_regs c ch sp m.
Proof.
  intros Hl H0 H13 H. do 15 (destruct r as [|? r]; [done|]). destruct r; [|done]. clear Hl.
  assert (Forall (fun '(d, o) => rget [z; z0; z1; z2; z3; z4; z5; z6; z7; z8; z9; z10; z11; z12; z13] d
    = m (ch + o)) challenge_table) as Hf.
  { apply list.Forall_forall. intros [d o] Hin. by apply H. }
  unfold challenge_table in Hf. cbn [zip zip_with] in Hf. rewrite !List.Forall_cons_iff in Hf.
  cbn in H0, H13, Hf. rewrite Z.add_0_r in Hf.
  unfold entry_regs. cbn. intuition congruence.
Qed.

Lemma msr_run pc arg s v :
  rget (regs s) 11 = v -> mode v = mode (psr s) ->
  exec pc arg (MsrC 11) s = Some (set_control v s).
Proof.
  intros Hv Hm. cbn [exec]. change (rd pc s 11) with (rget (regs s) 11).
  by rewrite Hv, Hm, Z.eqb_refl.
Qed.

(** [mrs], a logical operation with an immediate, [msr]. *)
Lemma control_run im arg k op v s c :
  arm_ok s -> op = ORR \/ op = BIC -> alu op (fC s) (cpsr s) v = c -> is_u32 c ->
  mode c = mode (psr s) ->
  exec_seq im arg k [Mrs 11; Dp AL false op 11 11 (Imm v); MsrC 11] s
  = Some (set_control c (with_regs s (rset 11 c (regs s)))).
Proof.
  intros (Hl & _) _ Hc Hu Hm.
  change [Mrs 11; Dp AL false op 11 11 (Imm v); MsrC 11]
    with ([Mrs 11; Dp AL false op 11 11 (Imm v)] ++ [MsrC 11]).
  rewrite exec_seq_app.
  assert (exec_seq im arg k [Mrs 11; Dp AL false op 11 11 (Imm v)] s
          = Some (setreg 11 c (setreg 11 (cpsr s) s))) as ->.
  { cbn [exec_seq exec passes op2 mbind option_bind].
    change (rd _ (setreg 11 (cpsr s) s) 11) with (rget (regs (setreg 11 (cpsr s) s)) 11).
    rewrite rget_setreg_eq by (done || lia). change (fC (setreg 11 (cpsr s) s)) with (fC s).
    by rewrite Hc, u32_small by done. }
  rewrite bind_Some_l. cbn [exec_seq]. rewrite (msr_run _ _ _ c); [| |done].
  - rewrite bind_Some_l. unfold setreg, with_regs, rset. cbn. by rewrite list_insert_insert_eq.
  - apply rget_setreg_eq; [|lia]. cbn. by rewrite rset_length.
Qed.

Lemma mask_run im arg k s :
  arm_ok s -> svc s ->
  exec_seq im arg k (code_of disable_interrupts) s
  = Some (mk_arm (rset 11 (Z.lor (cpsr s) 0xd3) (regs s)) (fN s) (fZ s) (fC s) (fV s)
            (control_off (psr s)) (mem s)).
Proof.
  intros Hs Hsvc. pose proof (cpsr_u32 s Hs) as Hc.
  change (code_of disable_interrupts) with [Mrs 11; Dp AL false ORR 11 11 (Imm 0xd3); MsrC 11].
  rewrite (control_run _ _ _ _ _ _ (Z.lor (cpsr s) 0xd3)); [|done|by left|done| |].
  - f_equal. unfold set_control, with_regs, control_off. cbn.
    by rewrite lor_mod, cpsr_mod by lia.
  - apply is_u32_lor; [done|unfold is_word; lia].
  - unfold svc, mode in *. by rewrite lor_mod, cpsr_mod, Hsvc by lia.
Qed.

Lemma unmask_run im arg k s :
  arm_ok s -> svc s ->
  exec_seq im arg k (code_of enable_interrupts) s
  = Some (mk_arm (rset 11 (Z.land (cpsr s) (not32 0xc0)) (regs s)) (fN s) (fZ s) (fC s) (fV s)
            (control_on (psr s)) (mem s)).
Proof.
  intros Hs Hsvc. pose proof (cpsr_u32 s Hs) as Hc.
  change (code_of enable_interrupts) with [Mrs 11; Dp AL false BIC 11 11 (Imm 0xc0); MsrC 11].
  rewrite (control_run _ _ _ _ _ _ (Z.land (cpsr s) (not32 0xc0))); [|done|by right|done| |].
  - f_equal. unfold set_control, with_regs, control_on. cbn [psr regs fN fZ fC fV mem].
    by rewrite land_mod, cpsr_mod by lia.
  - apply is_u32_land; [done|unfold is_word, not32; lia].
  - unfold svc, mode in *. by rewrite land_mod, cpsr_mod, Hsvc by lia.
Qed.

Lemma prologue_run b p ch s :
  call_ok ch s ->
  exists m, exec_seq (image_at p b) ch 0 prologue s = Some (entry_state ch s m) /\ saved s m /\
    arm_ok (entry_state ch s m).
Proof.
  intros [Hs Hsvc Hsp4 Hroom Hc4 Hc0 Hchi Hap]. set (im := image_at p b).
  pose proof Hs as (Hl & Hr & Hp & Hm). set (sp := rget (regs s) 13) in *.
  assert (is_u32 sp) as Hspu.
  { change sp with (rd 0 s 13). apply rd_u32; [done|unfold is_word; lia]. }
  destruct (pushes_run im ch 0 (seq 0 15) sp s) as (m & E1 & Hmu & Hout & Hin); [done|done|done|apply Hspu|exact Hroom| |].
  { apply List.Forall_forall. intros d Hd. apply in_seq in Hd. lia. }
  change (4 * Z.of_nat (length (seq 0 15))) with 60 in *.
  assert (saved s m) as Hsv.
  { split; [exact Hout|]. intros i Hi. fold sp. rewrite (Hin i i); [|apply lookup_seq; lia].
    case_decide; [subst; f_equal|done]. }
  exists m. split; [|split; [done|]].
  - change prologue with ((Push <$> seq 0 15) ++ [MovArg 0] ++
      ((fun '(d, o) => Ldr d 0 o) <$> challenge_table) ++ code_of disable_interrupts).
    rewrite exec_seq_app, E1, bind_Some_l, exec_seq_app. set (k1 := (0 + _)%nat).
    cbn [exec_seq exec]. rewrite !bind_Some_l.
    set (s1 := setreg 0 ch (setreg 13 (sp - 60) (with_mem s m))). set (k2 := (k1 + _)%nat).
    assert (arm_ok s1) as Hs1.
    { apply setreg_ok; [apply setreg_ok; [by apply with_mem_ok|]|]; unfold is_word in *; lia. }
    destruct (loads_run im ch k2 challenge_table ch s1) as (r & E2 & Hro & Hrin & Hrout); [done| | | |].
    { unfold s1. apply rget_setreg_eq; [cbn; by rewrite rset_length|lia]. }
    { unfold challenge_table. cbn [zip zip_with]. repeat constructor; try (unfold is_word; lia); div_lia. }
    { apply (bool_decide_unpack _). vm_compute. done. }
    rewrite exec_seq_app, E2, bind_Some_l. rewrite mask_run; [|done|done].
    f_equal. unfold entry_state. cbn [regs with_regs fN fZ fC fV psr mem].
    change (cpsr (with_regs s1 r)) with (cpsr s). change (mem s1) with m. f_equal.
    apply entry_regs_eq; [apply Hro| | |].
    + rewrite Hrout by (apply (bool_decide_unpack _); vm_compute; done).
      unfold s1. apply rget_setreg_eq; [cbn; by rewrite rset_length|lia].
    + rewrite Hrout by (apply (bool_decide_unpack _); vm_compute; done).
      unfold s1. rewrite rget_setreg by done. apply rget_setreg_eq; [done|lia].
    + intros d o Hdo. rewrite (Hrin d o Hdo). apply Hout.
      assert (0 <= o <= 48) as Ho; [|fold sp; lia].
      clear -Hdo. revert Hdo. unfold challenge_table. cbn.
      rewrite !elem_of_cons, elem_of_nil. intros Hdo. decompose [or] Hdo; simplify_eq; lia.
  - unfold entry_state. split; [done|]. split; [|split; [by apply control_off_range|done]].
    pose proof (cpsr_u32 s Hs) as Hc.
    assert (is_u32 (Z.lor (cpsr s) 0xd3)) as Hc' by (apply is_u32_lor; [done|unfold is_word; lia]).
    cbn [regs]. unfold entry_regs. repeat (apply List.Forall_cons; [try done; unfold is_word in *; lia|]).
    constructor.
Qed.

(** ** After the loop *)

(** What a call leaves behind: the registers as before, interrupts on, the
    registers of the loop's last state [t] in the challenge, nothing else
    changed outside the stack. *)
Record call_done (ch : Z) (s t s' : arm) : Prop := {
  cd_regs : regs s' = regs s;
  cd_psr : psr s' = psr s - psr s mod 2 ^ 8 + psr s mod 2 ^ 6;
  cd_words : forall d o, (d, o) ∈ challenge_table -> mem s' (ch + o) = rget (regs t) d;
  cd_frame : forall a, ~ (ch <= a < ch + 52) ->
    ~ (rget (regs s) 13 - 60 <= a < rget (regs s) 13) -> mem s' a = mem s a }.

Lemma table_range d o : (d, o) ∈ challenge_table -> 0 <= o <= 48 /\ o mod 4 = 0 /\ (0 < d < 15)%nat.
Proof.
  unfold challenge_table. cbn. rewrite !elem_of_cons, elem_of_nil. intros H.
  decompose [or] H; simplify_eq; split_and!; lia || done.
Qed.

Lemma table_words ch :
  0 <= ch -> ch mod 4 = 0 -> ch + 52 <= 2 ^ 32 ->
  Forall (fun '(d, o) => (0 < d < 15)%nat /\ is_u32 (ch + o) /\ (ch + o) mod 4 = 0) challenge_table.
Proof.
  intros H0 H4 Hhi. apply list.Forall_forall. intros [d o] Hin.
  apply table_range in Hin as (Ho & Ho4 & Hd). split; [done|]. unfold is_word. split; [lia|div_lia].
Qed.

Lemma exit_run b p arg k ch s t m n :
  call_ok ch s -> saved s m -> loop_frame (entry_state ch s m) t n ->
  exists s1 s', exec_seq (image_at p b) arg 169 (code_of save_checksum) t = Some s1 /\
    exec_seq (image_at p b) arg k epilogue s1 = Some s' /\ call_done ch s t s'.
Proof.
  intros [Hs Hsvc Hsp4 Hroom Hc4 Hc0 Hchi Hap] [Hout Hin] [Ht Htp Htm Ht0 Htsp _ _].
  set (im := image_at p b). set (sp := rget (regs s) 13) in *.
  assert (is_u32 sp) as Hspu by (by apply rget_u32).
  destruct (stores_run im arg 169 challenge_table ch t Ht) as (m1 & E1 & Ho1 & Hw & Hf).
  { exact Ht0. }
  { by apply table_words. }
  { apply (bool_decide_unpack _). vm_compute. done. }
  assert (forall a, ~ (ch <= a < ch + 52) -> m1 a = m a) as Hm1.
  { intros a Ha. rewrite Hf; [by rewrite Htm|]. intros d o Hdo ->.
    apply table_range in Hdo. lia. }
  assert (svc (with_mem t m1)) as Hsvc1.
  { unfold svc. cbn [psr with_mem]. rewrite Htp. cbn. by apply control_off_mode. }
  set (s2 := mk_arm (rset 11 (Z.land (cpsr t) (not32 0xc0)) (regs t)) (fN t) (fZ t) (fC t) (fV t)
    (control_on (psr t)) m1).
  assert (length (regs s2) = 15%nat) as Hl2 by (cbn; rewrite rset_length; apply Ht).
  assert (rget (regs s2) 13 = sp - 60) as Hsp2
    by (cbn [regs s2]; rewrite rget_rset_ne by done; exact Htsp).
  destruct (pops_run im arg (k + 3) (rev (seq 0 15)) (sp - 60) s2) as (r & E3 & Hrl & Hri & Hr13 & _);
    [done|done|div_lia|lia|unfold is_word in Hspu; cbn; lia| | | |].
  { apply List.Forall_forall. intros d Hd. apply in_rev, in_seq in Hd. lia. }
  { apply (bool_decide_unpack _). vm_compute. done. }
  { intros i Hi.
    assert (i = 1%nat) as -> by (do 15 (destruct i as [|i]; [done|]); done).
    cbn [mem s2]. rewrite Hm1 by lia. specialize (Hin 13%nat ltac:(lia)).
    replace (sp - 4 * (Z.of_nat 13 + 1)) with (sp - 60 + 4 * Z.of_nat 1) in Hin by lia.
    rewrite Hin, decide_True by done. lia. }
  exists (with_mem t m1), (with_regs s2 r). split; [exact E1|]. split.
  - change epilogue with (code_of enable_interrupts ++ (Pop <$> rev (seq 0 15))).
    rewrite exec_seq_app, unmask_run, bind_Some_l by done. exact E3.
  - split; cbn [regs psr mem with_regs s2].
    + apply regs_ext; [done|apply Hs|]. intros j Hj.
      destruct (decide (j = 13%nat)) as [->|Hj13].
      { rewrite Hr13. cbn. unfold sp. lia. }
      rewrite (Hri (14 - j)%nat j); [|do 15 (destruct j as [|j]; [done|]); lia|done].
      cbn [mem s2]. rewrite Hm1 by lia. specialize (Hin j Hj). rewrite decide_False in Hin by done.
      rewrite <- Hin. f_equal. lia.
    + rewrite Htp. by apply control_off_on.
    + intros d o Hdo. by apply Hw.
    + intros a Ha Hst. rewrite Hm1 by done. by apply Hout.
Qed.

(** ** Whole calls *)

Lemma call_steps p `{!ChecksumLoop p} b ch s n :
  call_ok ch s -> mem s (ch + 44) = 8 * Z.of_nat (S n) ->
  exists m t s', saved s m /\ arm_ok (entry_state ch s m) /\
    passes_sem (image_at p b) ch (fun a => m (view a)) (S n) (entry_state ch s m) = Some t /\
    call_done ch s t s' /\
    iter_steps (at_end (image_at p b)) (step (image_at p b) ch)
      (32 + ((block_cost * 8 + 1) * S n + exit_cost)) (0%nat, s) = Some (length (code_of p), s').
Proof.
  intros Hok Hn. destruct (prologue_run b p ch s Hok) as (m & E & Hsv & Ho).
  destruct (loop_steps p b ch n (entry_state ch s m) Ho) as (t & Et & Ft & St).
  { exact Hn. }
  { rewrite <- Hn. destruct Hok as [(_ & _ & _ & Hm)]. apply Hm. }
  destruct (exit_run b p ch exit_at ch s t m _ Hok Hsv Ft) as (s1 & s' & E1 & E2 & Hd).
  exists m, t, s'. split; [done|]. split; [done|]. split; [done|]. split; [done|].
  rewrite (iter_steps_app _ _ 32 _ _ (32%nat, entry_state ch s m)
    (exec_seq_steps (image_at p b) ch 0 prologue _ _ (loop_entry b) eq_refl E)).
  rewrite (iter_steps_app _ _ _ _ _ _ St).
  by apply (loop_exit b ch t s1 s').
Qed.
