(* ===== verification/SwattArmProps.v ===== *)
(** * The attestation code of the network driver: properties

    Whole calls of [swattARM], and how [swattARM_db_attack] compares with it. *)

From S2P Require Import Prelude ArmIsa SwattArm SwattArmTheory SwattArmCall.

(** ** What a call depends on *)

(** The memory around the code of the loop that it can read: three windows of
    256 bytes, with the code at the aligned address [b]. *)
Definition in_window (b a : Z) : Prop := b <= a < b + 768.

Lemma exec_seq_base p q b arg k l s :
  exec_seq (image_at p b) arg k l s = exec_seq (image_at q b) arg k l s.
Proof.
  revert k s. induction l as [|i l IH]; intros k s; cbn [exec_seq]; [done|].
  change (pc_at (image_at q b) k) with (pc_at (image_at p b) k).
  destruct (exec _ _ _ _); cbn; [apply IH|done].
Qed.

Lemma window_pc p b k x :
  b mod 256 = 0 -> 0 <= b -> b + 768 <= 2 ^ 32 -> (k < 168)%nat -> (32 <= k)%nat -> is_u32 x ->
  in_window b (daddr (pc_at (image_at p b) k) x).
Proof.
  intros Hb H0 Hhi Hk Hk' Hx. pose proof (pc_at_u32 (image_at p b) k) as Hpc.
  pose proof (daddr_window _ x Hpc Hx) as Hw. revert Hw. unfold in_window.
  unfold pc_at. cbn [base origin image_at]. rewrite u32_small by (unfold is_word; lia).
  generalize (daddr (b + 4 * (Z.of_nat k - Z.of_nat 16) + 8) x). intros a Ha. div_lia.
Qed.

(** The load overwrites [r9], and nothing before it looks at it. *)
Lemma exec_r9 pc arg i v s :
  i ∈ pre5 -> exec pc arg i (setreg 9 v s) = setreg 9 v <$> exec pc arg i s.
Proof.
  intros Hi. assert (forall k, k <> 9%nat -> rd pc (setreg 9 v s) k = rd pc s k) as Hrd.
  { intros k Hk. unfold rd. case_decide; [done|]. by apply rget_setreg. }
  assert (forall d w r, d <> 9%nat -> rset d w (rset 9 v r) = rset 9 v (rset d w r)) as Hset.
  { intros. by apply list_insert_insert_ne. }
  revert Hi. unfold pre5. cbn [take code_of no_block1]. rewrite !elem_of_cons, elem_of_nil.
  intros Hi. decompose [or] Hi; subst; try done; cbn [exec passes op2 alu mbind option_bind fmap option_fmap option_map];
    rewrite ?Hrd by done; f_equal; unfold setreg, with_regs; cbn [regs fN fZ fC fV psr mem];
    rewrite Hset by done; done.
Qed.

Lemma pre5_r9 im arg k v s :
  exec_seq im arg k pre5 (setreg 9 v s) = setreg 9 v <$> exec_seq im arg k pre5 s.
Proof.
  assert (forall l, (forall i, i ∈ l -> i ∈ pre5) -> forall k s,
    exec_seq im arg k l (setreg 9 v s) = setreg 9 v <$> exec_seq im arg k l s) as H.
  { induction l as [|i l IH]; intros Hl k' s'; cbn [exec_seq]; [done|].
    rewrite exec_r9 by (apply Hl, elem_of_cons; by left).
    destruct (exec _ arg i s') as [t|]; cbn; [|done]. apply IH. intros j Hj.
    apply Hl, elem_of_cons. by right. }
  by apply H.
Qed.

Lemma block_sem_r9 im arg k rdw p v s :
  block_sem im arg k rdw p (setreg 9 v s) = block_sem im arg k rdw p s.
Proof.
  unfold block_sem. rewrite pre5_r9. destruct (exec_seq im arg k pre5 s) as [s1|]; [|done].
  change (setreg 9 v <$> Some s1) with (Some (setreg 9 v s1)). rewrite !bind_Some_l.
  rewrite rget_setreg by done. generalize (rdw (rget (regs s1) 11)). intros w.
  assert (setreg 9 w (setreg 9 v s1) = setreg 9 w s1) as ->; [|done].
  unfold setreg, with_regs, rset. cbn [regs fN fZ fC fV psr mem]. by rewrite list_insert_insert_eq.
Qed.

(** Two ways of reading that agree on the windows give the same passes. *)
Lemma blocks_sem_agree p q b arg rdw rdw' ps j s :
  b mod 256 = 0 -> 0 <= b -> b + 768 <= 2 ^ 32 ->
  (forall a, in_window b a -> rdw a = rdw' a) ->
  (forall a, is_u32 (rdw a)) -> arm_ok s -> Forall good_post ps -> (j + length ps = 8)%nat ->
  blocks_sem (image_at p b) arg (32 + 17 * j) rdw ps s
  = blocks_sem (image_at q b) arg (32 + 17 * j) rdw' ps s.
Proof.
  intros Hb H0 Hhi Hag Hu Hs Hps. revert j s Hs.
  induction Hps as [|r ps Hr Hps IH]; intros j s Hs Hj; cbn [blocks_sem]; [done|].
  destruct (block_sem_run (image_at p b) arg (32 + 17 * j) rdw r s Hs Hu Hr)
    as (s1 & t & E1 & O1 & _ & H11 & Eb & F & _).
  assert (block_sem (image_at q b) arg (32 + 17 * j) rdw' r s = Some t) as Eb'.
  { rewrite <- Eb. unfold block_sem. rewrite (exec_seq_base q p), E1, !bind_Some_l.
    rewrite (exec_seq_base q p). do 2 f_equal. symmetry. apply Hag. rewrite H11.
    cbn in Hj. apply window_pc; try done; [lia|lia|by apply rget_u32]. }
  rewrite Eb, Eb', !bind_Some_l.
  replace (32 + 17 * j + 17)%nat with (32 + 17 * S j)%nat by lia.
  apply IH; [apply F|cbn in Hj; lia].
Qed.

Lemma passes_sem_agree p q b arg rdw rdw' n s :
  b mod 256 = 0 -> 0 <= b -> b + 768 <= 2 ^ 32 ->
  (forall a, in_window b a -> rdw a = rdw' a) -> (forall a, is_u32 (rdw a)) -> arm_ok s ->
  passes_sem (image_at p b) arg rdw n s = passes_sem (image_at q b) arg rdw' n s.
Proof.
  intros Hb H0 Hhi Hag Hu. revert s. induction n as [|n IH]; intros s Hs; [done|].
  rewrite !passes_sem_S.
  destruct (blocks_sem_run (image_at p b) arg 32 rdw posts s Hs Hu posts_good) as (t & E & F & _).
  pose proof (blocks_sem_agree p q b arg rdw rdw' posts 0 s Hb H0 Hhi Hag Hu Hs posts_good eq_refl)
    as E'.
  change (32 + 17 * 0)%nat with 32%nat in E'. rewrite <- E', E, !bind_Some_l. apply IH, F.
Qed.

Lemma passes_sem_r9 im arg rdw n v s :
  passes_sem im arg rdw (S n) (setreg 9 v s) = passes_sem im arg rdw (S n) s.
Proof.
  rewrite !passes_sem_S. f_equal. unfold posts. cbn [fmap list_fmap blocks_sem].
  by rewrite block_sem_r9.
Qed.

Lemma entry_regs_agree c ch sp m x :
  (forall d o, (d, o) ∈ challenge_table -> d <> 9%nat -> d <> 11%nat -> x (ch + o) = m (ch + o)) ->
  entry_regs c ch sp x = rset 9 (x (ch + 32)) (entry_regs c ch sp m).
Proof.
  intros H. assert (Forall (fun '(d, o) => d <> 9%nat -> d <> 11%nat -> x (ch + o) = m (ch + o))
    challenge_table) as Hf.
  { apply list.Forall_forall. intros [d o] Hin. by apply H. }
  unfold challenge_table in Hf. cbn [zip zip_with] in Hf. rewrite !List.Forall_cons_iff in Hf.
  rewrite Z.add_0_r in Hf. destruct Hf as (E1 & E2 & E3 & E4 & E5 & E6 & E7 & E8 & _ & E10 & _ & E12 & E14 & _).
  unfold entry_regs. cbn. by rewrite E1, E2, E3, E4, E5, E6, E7, E8, E10, E12, E14.
Qed.

(** Two calls, of programs with the same loop at the same address: if the words
    they read agree on the windows, and the challenges agree but for the words
    that go to [r9], [r11] and [r12], the checksums are the same. *)
Lemma calls_agree p q `{!ChecksumLoop p, !ChecksumLoop q} b ch n s x :
  b mod 256 = 0 -> 0 <= b -> b + 768 <= 2 ^ 32 ->
  call_ok ch s -> call_ok ch (with_mem s x) ->
  mem s (ch + 44) = 8 * Z.of_nat (S n) -> x (ch + 44) = 8 * Z.of_nat (S n) ->
  (forall d o, (d, o) ∈ challenge_table -> d <> 9%nat -> d <> 11%nat -> x (ch + o) = mem s (ch + o)) ->
  (forall m m2 a, saved s m -> saved (with_mem s x) m2 -> in_window b a ->
     m (view (p := p) a) = m2 (view (p := q) a)) ->
  exists t s' t2 s2', call_done ch s t s' /\ call_done ch (with_mem s x) t2 s2' /\ regs t2 = regs t /\
    iter_steps (at_end (image_at p b)) (step (image_at p b) ch)
      (32 + ((block_cost (p := p) * 8 + 1) * S n + exit_cost (p := p))) (0%nat, s)
    = Some (length (code_of p), s') /\
    iter_steps (at_end (image_at q b)) (step (image_at q b) ch)
      (32 + ((block_cost (p := q) * 8 + 1) * S n + exit_cost (p := q))) (0%nat, with_mem s x)
    = Some (length (code_of q), s2').
Proof.
  intros Hb H0 Hhi Hok Hok2 Hn Hn2 Hch Hrd.
  destruct (call_steps p b ch s n Hok Hn) as (m & t & s' & Hsv & Ho & Ep & Hd & Est).
  destruct (call_steps q b ch (with_mem s x) n Hok2 Hn2)
    as (m2 & t2 & s2' & Hsv2 & Ho2 & Ep2 & Hd2 & Est2).
  exists t, s', t2, s2'. split; [exact Hd|]. split; [exact Hd2|]. split; [|exact (conj Est Est2)].
  clear Est Est2 Hd Hd2.
  assert (entry_state ch (with_mem s x) m2
          = with_mem (setreg 9 (x (ch + 32)) (entry_state ch s m)) m2) as He.
  { unfold entry_state, setreg, with_regs, with_mem. cbn [regs fN fZ fC fV psr mem]. f_equal.
    by apply entry_regs_agree. }
  rewrite He in Ep2.
  assert (forall a, is_u32 (m (view (p := p) a))) as Hu by (intros a; apply Ho).
  rewrite <- (passes_sem_agree p q b ch _ _ _ _ Hb H0 Hhi (fun a => Hrd m m2 a Hsv Hsv2) Hu)
    in Ep2 by (rewrite <- He; exact Ho2).
  change (with_mem (setreg 9 (x (ch + 32)) (entry_state ch s m)) m2)
    with (setreg 9 (x (ch + 32)) (with_mem (entry_state ch s m) m2)) in Ep2.
  rewrite passes_sem_r9 in Ep2.
  destruct (passes_sem_run (image_at p b) ch _ (S n) _ Ho Hu) as (t' & E & _ & A).
  rewrite A in Ep2. rewrite Ep in E. injection E as <-. by injection Ep2 as <-.
Qed.

(** ** The C functions *)

(** The number of passes, [n], with the counter of a call. *)
Definition counted (counter : Z) (n : nat) : Prop := counter = 8 * Z.of_nat (S n).

Lemma call_ok_store ch s v : call_ok ch s -> is_u32 v -> call_ok ch (with_mem s (upd (mem s) (ch + 44) v)).
Proof.
  intros [Hs ? ? ? ? ? ? ?] Hv. split; try done. apply with_mem_ok; [done|].
  apply upd_u32; [apply Hs|done].
Qed.

Lemma challenge_store ch s v :
  call_ok ch s -> store (ch + 44) v s = Some (with_mem s (upd (mem s) (ch + 44) v)).
Proof.
  intros [? ? ? ? ? ? ? ?]. apply store_ok; [unfold is_word; lia|div_lia].
Qed.

Lemma steps_run im arg n s s' :
  iter_steps (at_end im) (step im arg) n (0%nat, s) = Some (length (code_of (items im)), s') ->
  run im arg n s = Some s'.
Proof.
  intros H. unfold run. rewrite <- (Nat.add_0_r n), (iter_until_skip _ _ _ _ _ _ H).
  rewrite iter_until_final by (by apply bool_decide_eq_true). done.
Qed.

(** The state in which the assembly starts. *)
Definition counting (ch counter : Z) (s : arm) : arm := with_mem s (upd (mem s) (ch + 44) counter).

Lemma counting_word ch c s : mem (counting ch c s) (ch + 44) = c.
Proof. unfold counting, upd. cbn. by rewrite Z.eqb_refl. Qed.

Lemma counting_other ch c s a : a <> ch + 44 -> mem (counting ch c s) a = mem s a.
Proof. intros H. unfold counting, upd. cbn. by destruct (Z.eqb_spec a (ch + 44)). Qed.

(** The padding makes a run longer by as many steps, and changes nothing else. *)
Lemma placed_steps p rest pl arg n s s' :
  (forall k, p k = (save_reglist ++ [Ins (MovArg 0)]) ++ align_padding k ++ rest) -> (16 <= n)%nat ->
  iter_steps (at_end (image_at (p 0%nat) (aligned pl))) (step (image_at (p 0%nat) (aligned pl)) arg) n (0%nat, s)
  = Some (length (code_of (p 0%nat)), s') ->
  iter_steps (at_end (code_image p pl)) (step (code_image p pl) arg) (padding pl + n) (0%nat, s)
  = Some (length (code_of (p (padding pl))), s').
Proof.
  intros Hp Hn E. destruct pl as [k b]. unfold code_image, image_at in *. cbn [padding aligned] in *.
  rewrite (Hp 0%nat) in E. rewrite (Hp k).
  exact (padded_steps (save_reglist ++ [Ins (MovArg 0)]) rest k b arg eq_refl n s s' Hn E).
Qed.

Lemma swatt_call_run p rest counter pl fuel ch s s' :
  (forall k, p k = (save_reglist ++ [Ins (MovArg 0)]) ++ align_padding k ++ rest) -> (16 <= fuel)%nat ->
  call_ok ch s ->
  iter_steps (at_end (image_at (p 0%nat) (aligned pl))) (step (image_at (p 0%nat) (aligned pl)) ch) fuel
    (0%nat, counting ch counter s) = Some (length (code_of (p 0%nat)), s') ->
  swatt_call p counter pl fuel ch 52 s = Some s'.
Proof.
  intros Hp Hf Hok Hs. unfold swatt_call. rewrite challenge_store, bind_Some_l by done.
  by apply steps_run, (placed_steps p rest).
Qed.

(** The two programs have the padding in the same place. *)
Definition rest_of (p : nat -> list item) : list item := drop 16 (p 0%nat).

Lemma honest_rest k :
  swattARM_items k = (save_reglist ++ [Ins (MovArg 0)]) ++ align_padding k ++ rest_of swattARM_items.
Proof. reflexivity. Qed.

Lemma attack_rest k :
  swattARM_db_attack_items k
  = (save_reglist ++ [Ins (MovArg 0)]) ++ align_padding k ++ rest_of swattARM_db_attack_items.
Proof. reflexivity. Qed.

Lemma passes_exist : exists n, Z.of_nat (S n) = 0x200000.
Proof. exists (Z.to_nat 0x1fffff). lia. Qed.

Lemma honest_fuel n :
  Z.of_nat (S n) = 0x200000 -> swatt_fuel 0x200000 137 31 = (32 + ((17 * 8 + 1) * S n + 31))%nat.
Proof. unfold swatt_fuel. lia. Qed.

Lemma attack_fuel n :
  Z.of_nat (S n) = 0x200000 -> swatt_fuel 0x200000 169 32 = (32 + ((21 * 8 + 1) * S n + 32))%nat.
Proof. unfold swatt_fuel. lia. Qed.

Lemma fuel_prologue len last : 0 <= len -> 0 <= last -> (16 <= swatt_fuel 0x200000 len last)%nat.
Proof. intros H1 H2. unfold swatt_fuel. lia. Qed.

Lemma swattARM_run k b ch s n s' :
  Z.of_nat (S n) = 0x200000 -> call_ok ch s ->
  iter_steps (at_end (image_at (swattARM_items 0) b)) (step (image_at (swattARM_items 0) b) ch)
    (32 + ((17 * 8 + 1) * S n + 31)) (0%nat, counting ch 0x1000000 s)
  = Some (length (code_of (swattARM_items 0)), s') ->
  swattARM (placed k b) ch 52 s = Some s'.
Proof.
  intros Hn Hok E. apply (swatt_call_run _ _ _ (placed k b) _ _ _ _ honest_rest); [by apply fuel_prologue|done|].
  by rewrite (honest_fuel n Hn).
Qed.

Lemma swattARM_db_attack_run k b ch s n s' :
  Z.of_nat (S n) = 0x200000 -> call_ok ch s ->
  iter_steps (at_end (image_at (swattARM_db_attack_items 0) b)) (step (image_at (swattARM_db_attack_items 0) b) ch)
    (32 + ((21 * 8 + 1) * S n + 32)) (0%nat, counting ch 0x1000000 s)
  = Some (length (code_of (swattARM_db_attack_items 0)), s') ->
  swattARM_db_attack (placed k b) ch 52 s = Some s'.
Proof.
  intros Hn Hok E. apply (swatt_call_run _ _ _ (placed k b) _ _ _ _ attack_rest); [by apply fuel_prologue|done|].
  by rewrite (attack_fuel n Hn).
Qed.

Lemma table_in d o : bool_decide ((d, o) ∈ challenge_table) = true -> (d, o) ∈ challenge_table.
Proof. apply bool_decide_eq_true. Qed.

(** C1: a call of [swattARM] with the size 52, in supervisor mode and with the
    stack apart from the challenge, returns.  The registers are as before, memory
    changes in the challenge and below the stack pointer only, the challenge
    holds the registers after 0x200000 passes over the eight blocks, the counter
    word is 0 and the last word is returned as it came.  The [k] no-ops that align the
    code change nothing of this.  With another size only the counter is stored. *)
Theorem swattARM_correct k b ch s :
  call_ok ch s ->
  (forall size, size <> 52 -> swattARM (placed k b) ch size s = Some (counting ch 0x1000000 s)) /\
  exists n m t s', Z.of_nat n = 0x200000 /\ saved (counting ch 0x1000000 s) m /\
    passes_sem (image_at (swattARM_items 0) b) ch m n (entry_state ch (counting ch 0x1000000 s) m) = Some t /\
    swattARM (placed k b) ch 52 s = Some s' /\ call_done ch (counting ch 0x1000000 s) t s' /\
    mem s' (ch + 44) = 0 /\ mem s' (ch + 48) = mem s (ch + 48).
Proof.
  intros Hok. split.
  { intros size Hsz. unfold swattARM, swatt_call. rewrite challenge_store, bind_Some_l by done.
    by destruct (Z.eqb_spec size 52). }
  destruct passes_exist as [n Hn].
  assert (call_ok ch (counting ch 0x1000000 s)) as Hok1
    by (apply call_ok_store; [done|unfold is_word; lia]).
  assert (mem (counting ch 0x1000000 s) (ch + 44) = 8 * Z.of_nat (S n)) as Hc
    by (rewrite counting_word; lia).
  destruct (call_steps (swattARM_items 0) b ch _ n Hok1 Hc) as (m & t & s' & Hsv & Ho & Ep & Hd & Est).
  change (passes_sem (image_at (swattARM_items 0) b) ch m (S n)
    (entry_state ch (counting ch 0x1000000 s) m) = Some t) in Ep.
  exists (S n), m, t, s'. split; [done|]. split; [done|]. split; [exact Ep|].
  destruct (passes_sem_run (image_at (swattARM_items 0) b) ch m (S n) _ Ho (proj2 (proj2 (proj2 Ho))))
    as (t' & Et & F & _).
  rewrite Ep in Et. injection Et as <-. split; [|split; [exact Hd|]].
  - by apply (swattARM_run k b ch s n).
  - rewrite (cd_words _ _ _ _ Hd 12%nat 44) by (apply table_in; vm_compute; done).
    rewrite (cd_words _ _ _ _ Hd 14%nat 48) by (apply table_in; vm_compute; done).
    rewrite (lf_count _ _ _ F), (lf_lr _ _ _ F). cbn [regs entry_state].
    change (rget (entry_regs _ _ _ ?m) 12) with (m (ch + 44)).
    change (rget (entry_regs _ _ _ ?m) 14) with (m (ch + 48)).
    rewrite Hc, counting_other by lia. split; [|done]. by rewrite Z.sub_diag.
Qed.

(** Where the call writes is apart from a range of memory. *)
Definition untouched (ch : Z) (s : arm) (a : Z) : Prop :=
  ~ (ch <= a < ch + 52) /\ ~ (rget (regs s) 13 - 60 <= a < rget (regs s) 13).

Lemma saved_untouched ch c s m a :
  saved (counting ch c s) m -> untouched ch s a -> m a = mem s a.
Proof.
  intros [Hout _] [Hc Hs]. rewrite Hout by exact Hs. apply counting_other. lia.
Qed.

(** The words of the challenge that the checksum is computed from. *)
Definition same_challenge (ch : Z) (x y : Z -> Z) : Prop :=
  forall o, o ∈ [0; 4; 8; 12; 16; 20; 24; 28; 36; 48] -> x (ch + o) = y (ch + o).

Lemma same_challenge_counting ch c s x :
  same_challenge ch x (mem s) ->
  forall d o, (d, o) ∈ challenge_table -> d <> 9%nat -> d <> 11%nat ->
    upd x (ch + 44) c (ch + o) = mem (counting ch c s) (ch + o).
Proof.
  intros H d o Hin H9 H11. destruct (decide (o = 44)) as [->|Ho].
  { rewrite counting_word. unfold upd. by rewrite Z.eqb_refl. }
  rewrite counting_other by lia. unfold upd. destruct (Z.eqb_spec (ch + o) (ch + 44)); [lia|].
  apply H. revert Hin. unfold challenge_table. cbn. rewrite !elem_of_cons, !elem_of_nil.
  intros Hin. decompose [or] Hin; simplify_eq; tauto.
Qed.

(** The checksum that a call returns: its thirteen words. *)
Definition checksum_words (ch : Z) (s : arm) : list Z :=
  (fun p => mem s (ch + p.2)) <$> challenge_table.

Lemma words_agree ch s t s' s2 t2 s2' :
  call_done ch s t s' -> call_done ch s2 t2 s2' -> regs t2 = regs t ->
  checksum_words ch s2' = checksum_words ch s'.
Proof.
  intros Hd Hd2 E. apply list_fmap_ext. intros i [d o] Hi. cbn.
  apply list_elem_of_lookup_2 in Hi.
  by rewrite (cd_words _ _ _ _ Hd d o Hi), (cd_words _ _ _ _ Hd2 d o Hi), E.
Qed.

Lemma counting_with_mem ch c s x :
  counting ch c (with_mem s x) = with_mem (counting ch c s) (upd x (ch + 44) c).
Proof. done. Qed.

(** C27: the checksum covers no more than the 768 bytes from the aligned address
    [b] at which the code of the loop starts.  Two calls with the same registers
    return the same thirteen words when their memories agree there and in the
    challenge words 0 to 7, 9 and 12; words 8 and 10 are not used, and word 11 is
    overwritten. *)
Theorem checksum_local k b ch s x :
  b mod 256 = 0 -> 0 <= b -> b + 768 <= 2 ^ 32 ->
  call_ok ch s -> call_ok ch (with_mem s x) ->
  (forall a, in_window b a -> untouched ch s a) ->
  (forall a, in_window b a -> x a = mem s a) -> same_challenge ch x (mem s) ->
  exists s' s2', swattARM (placed k b) ch 52 s = Some s' /\
    swattARM (placed k b) ch 52 (with_mem s x) = Some s2' /\
    checksum_words ch s2' = checksum_words ch s'.
Proof.
  intros Hb H0 Hhi Hok Hok2 Hw Hx Hch. destruct passes_exist as [n Hn].
  assert (is_u32 0x1000000) as Hc32 by (unfold is_word; lia).
  pose proof (call_ok_store ch s 0x1000000 Hok Hc32) as Hok1.
  pose proof (call_ok_store ch _ 0x1000000 Hok2 Hc32) as Hok3.
  destruct (calls_agree (swattARM_items 0) (swattARM_items 0) b ch n (counting ch 0x1000000 s)
    (upd x (ch + 44) 0x1000000)) as (t & s' & t2 & s2' & Hd & Hd2 & Er & E1 & E2); try done.
  { rewrite counting_word. lia. }
  { unfold upd. rewrite Z.eqb_refl. lia. }
  { by apply same_challenge_counting. }
  { intros m m2 a Hm Hm2 Ha. cbn. rewrite (saved_untouched _ _ _ _ _ Hm (Hw a Ha)).
    rewrite (saved_untouched ch 0x1000000 (with_mem s x) m2 a Hm2 (Hw a Ha)). by rewrite Hx. }
  exists s', s2'.
  split; [|split; [|by eapply words_agree]];
    by apply (swattARM_run k b ch _ n).
Qed.

(** The runs of the attack and of the honest code that it imitates. *)
Lemma forge_runs k k' b ch s x :
  b mod 256 = 0 -> 0 <= b -> b + 768 <= 2 ^ 32 ->
  call_ok ch s -> call_ok ch (with_mem s x) ->
  (forall a, in_window b a -> untouched ch s a /\ untouched ch s (u32 (a + 0x500))) ->
  (forall a, in_window b a -> x a = mem s (u32 (a + 0x500))) -> same_challenge ch x (mem s) ->
  exists t s' t2 s2', call_done ch (counting ch 0x1000000 s) t s' /\
    call_done ch (counting ch 0x1000000 (with_mem s x)) t2 s2' /\ regs t2 = regs t /\
    swattARM_db_attack (placed k b) ch 52 s = Some s' /\ swattARM (placed k' b) ch 52 (with_mem s x) = Some s2'.
Proof.
  intros Hb H0 Hhi Hok Hok2 Hw Hx Hch. destruct passes_exist as [n Hn].
  assert (is_u32 0x1000000) as Hc32 by (unfold is_word; lia).
  pose proof (call_ok_store ch s 0x1000000 Hok Hc32) as Hok1.
  pose proof (call_ok_store ch _ 0x1000000 Hok2 Hc32) as Hok3.
  destruct (calls_agree (swattARM_db_attack_items 0) (swattARM_items 0) b ch n (counting ch 0x1000000 s)
    (upd x (ch + 44) 0x1000000)) as (t & s' & t2 & s2' & Hd & Hd2 & Er & E1 & E2); try done.
  { rewrite counting_word. lia. }
  { unfold upd. rewrite Z.eqb_refl. lia. }
  { by apply same_challenge_counting. }
  { intros m m2 a Hm Hm2 Ha. cbn. destruct (Hw a Ha) as [Hw1 Hw2].
    rewrite (saved_untouched _ _ _ _ _ Hm Hw2).
    rewrite (saved_untouched ch 0x1000000 (with_mem s x) m2 a Hm2 Hw1). by rewrite Hx. }
  exists t, s', t2, s2'. split; [done|]. split; [done|]. split; [done|]. split.
  - by apply (swattARM_db_attack_run k b ch s n).
  - by apply (swattARM_run k' b ch _ n).
Qed.

(** C2: the data-pointer attack works.  [swattARM_db_attack], at an address [b]
    and on a memory that holds at every address [a + 0x500] the word that an
    honest memory [x] holds at [a], returns the words that [swattARM] at [b]
    returns on the honest memory, whatever its own memory holds in the windows
    that are meant to be checked. *)
Theorem attack_forges k k' b ch s x :
  b mod 256 = 0 -> 0 <= b -> b + 768 <= 2 ^ 32 ->
  call_ok ch s -> call_ok ch (with_mem s x) ->
  (forall a, in_window b a -> untouched ch s a /\ untouched ch s (u32 (a + 0x500))) ->
  (forall a, in_window b a -> x a = mem s (u32 (a + 0x500))) -> same_challenge ch x (mem s) ->
  exists s' s2', swattARM_db_attack (placed k b) ch 52 s = Some s' /\
    swattARM (placed k' b) ch 52 (with_mem s x) = Some s2' /\
    checksum_words ch s2' = checksum_words ch s'.
Proof.
  intros Hb H0 Hhi Hok Hok2 Hw Hx Hch.
  destruct (forge_runs k k' b ch s x) as (t & s' & t2 & s2' & Hd & Hd2 & Er & E1 & E2); try done.
  exists s', s2'. split; [done|]. split; [done|]. by eapply words_agree.
Qed.

(** C26: what the attack costs.  From the same state the honest code, with the
    no-ops that its alignment takes, ends after exactly 287309887 instructions and
    these no-ops, and the attack after exactly 354418752 and its own: 32 more in each
    of the 0x200000 passes and one at the end.  The two alignments differ by at most
    63 no-ops, so the attack always executes more than 67108800 instructions more. *)
Theorem attack_cost pl pa ch s :
  call_ok ch s ->
  exists s' s2' nh na,
    iter_steps (at_end (code_image swattARM_items pl)) (step (code_image swattARM_items pl) ch)
      nh (0%nat, counting ch 0x1000000 s)
    = Some (length (code_of (swattARM_items (padding pl))), s') /\
    iter_steps (at_end (code_image swattARM_db_attack_items pa)) (step (code_image swattARM_db_attack_items pa) ch)
      na (0%nat, counting ch 0x1000000 s)
    = Some (length (code_of (swattARM_db_attack_items (padding pa))), s2') /\
    Z.of_nat nh = Z.of_nat (padding pl) + 287309887 /\
    Z.of_nat na = Z.of_nat (padding pa) + 354418752 /\
    ((padding pl <= 63)%nat -> Z.of_nat nh + 67108800 < Z.of_nat na).
Proof.
  intros Hok. destruct passes_exist as [n Hn].
  assert (call_ok ch (counting ch 0x1000000 s)) as Hok1
    by (apply call_ok_store; [done|unfold is_word; lia]).
  assert (mem (counting ch 0x1000000 s) (ch + 44) = 8 * Z.of_nat (S n)) as Hc
    by (rewrite counting_word; lia).
  destruct (call_steps (swattARM_items 0) (aligned pl) ch _ n Hok1 Hc) as (m & t & s' & _ & _ & _ & _ & E1).
  destruct (call_steps (swattARM_db_attack_items 0) (aligned pa) ch _ n Hok1 Hc) as (m2 & t2 & s2' & _ & _ & _ & _ & E2).
  exists s', s2', (padding pl + swatt_fuel 0x200000 137 31)%nat, (padding pa + swatt_fuel 0x200000 169 32)%nat.
  split; [|split; [|rewrite !Nat2Z.inj_add; unfold swatt_fuel; rewrite !Z2Nat.id by lia; lia]].
  - apply (placed_steps _ _ _ _ _ _ _ honest_rest); [by apply fuel_prologue|]. by rewrite (honest_fuel n Hn).
  - apply (placed_steps _ _ _ _ _ _ _ attack_rest); [by apply fuel_prologue|]. by rewrite (attack_fuel n Hn).
Qed.

(** After a call the interrupts are enabled, whatever they were before: both
    mask bits are clear, the rest of the control byte is as it was. *)
Theorem interrupts_left_on k b ch s :
  call_ok ch s ->
  exists s', swattARM (placed k b) ch 52 s = Some s' /\ psr s' = psr s - psr s mod 2 ^ 8 + psr s mod 2 ^ 6 /\
    Z.testbit (psr s') 7 = false /\ Z.testbit (psr s') 6 = false.
Proof.
  intros Hok. destruct passes_exist as [n Hn].
  assert (call_ok ch (counting ch 0x1000000 s)) as Hok1
    by (apply call_ok_store; [done|unfold is_word; lia]).
  assert (mem (counting ch 0x1000000 s) (ch + 44) = 8 * Z.of_nat (S n)) as Hc
    by (rewrite counting_word; lia).
  destruct (call_steps (swattARM_items 0) b ch _ n Hok1 Hc) as (m & t & s' & _ & _ & _ & Hd & E).
  exists s'. split.
  { by apply (swattARM_run k b ch s n). }
  pose proof (cd_psr _ _ _ _ Hd) as Hp. cbn [psr counting with_mem] in Hp. split; [exact Hp|].
  assert (psr s' mod 2 ^ 8 = psr s mod 2 ^ 6) as E8 by (rewrite Hp; div_lia).
  rewrite <- (Z.mod_pow2_bits_low (psr s') 8 7), <- (Z.mod_pow2_bits_low (psr s') 8 6), E8 by lia.
  split; apply (is_word_testbit 6); (lia || apply is_word_mod; lia).
Qed.

(** The carry gate: [addcs] rotates and adds the counter only if the carry is
    set. *)
Lemma addcs_run pc arg d s :
  (d < 15)%nat -> arm_ok s ->
  exec pc arg (Dp CS false ADD d 12 (Ror d 1)) s
  = Some (if fC s then setreg d (u32 (rget (regs s) 12 + ror32 (rget (regs s) d) 1)) s else s).
Proof.
  intros Hd Hs. cbn [exec passes op2 alu]. destruct (fC s); [|done]. cbn [mbind option_bind].
  change (rd pc s 12) with (rget (regs s) 12). unfold rd. by rewrite decide_False by lia.
Qed.

(** The pseudo-code rotates every checksum word and mixes the counter into
    it; the code does so in blocks 1, 3, 5 and 7 only when the carry flag is set
    at that point, and leaves the word as it is otherwise. *)
Theorem odd_blocks_gated im arg k s :
  arm_ok s ->
  Forall (fun '(blk, d) =>
    exists t s', exec_seq im arg k (take 8 (drop 6 (code_of blk))) s = Some t /\
      exec_seq im arg k (drop 6 (code_of blk)) s = Some s' /\
      rget (regs s') d = if fC t then u32 (rget (regs s) 12 + ror32 (rget (regs t) d) 1)
                         else rget (regs t) d)
    [(no_block1, 1); (no_block3, 3); (no_block5, 5); (no_block7, 7)]%nat.
Proof.
  intros Hs.
  assert (forall l d, forallb pure_instr l = true -> (d < 10)%nat -> Forall (fun i => dest i <> 12%nat) l ->
    exists t s', exec_seq im arg k l s = Some t /\
      exec_seq im arg k (l ++ [Dp CS false ADD d 12 (Ror d 1); Dp AL false EOR 10 10 (Reg d);
                               Dp AL false SUB 12 12 (Imm 1)]) s = Some s' /\
      rget (regs s') d = if fC t then u32 (rget (regs s) 12 + ror32 (rget (regs t) d) 1)
                         else rget (regs t) d) as H.
  { intros l d Hl Hd H12. destruct (pure_seq im arg k l s Hl Hs) as (t & [E O F _ _ _]).
    rewrite exec_seq_app, E, bind_Some_l. cbn [exec_seq]. rewrite addcs_run by (done || lia).
    rewrite bind_Some_l. eexists t, _. split; [done|]. split; [reflexivity|].
    rewrite !rget_setreg by lia. rewrite <- (F 12%nat).
    - destruct (fC t); [|done]. apply rget_setreg_eq; [apply O|lia].
    - intros Hin. apply list_elem_of_fmap in Hin as (i & Hi & Hin').
      rewrite list.Forall_forall in H12. by apply (H12 i). }
  apply List.Forall_cons; [|apply List.Forall_cons; [|apply List.Forall_cons; [|apply List.Forall_cons]]];
    [..|done].
  - apply (H (take 8 (drop 6 (code_of no_block1))) 1%nat); [reflexivity|lia|repeat constructor; done].
  - apply (H (take 8 (drop 6 (code_of no_block3))) 3%nat); [reflexivity|lia|repeat constructor; done].
  - apply (H (take 8 (drop 6 (code_of no_block5))) 5%nat); [reflexivity|lia|repeat constructor; done].
  - apply (H (take 8 (drop 6 (code_of no_block7))) 7%nat); [reflexivity|lia|repeat constructor; done].
Qed.

(** ** A concrete call *)

(** Stack at 0x1000, challenge at 0x2000, code at 0x10000, supervisor mode with
    interrupts off. *)
Definition demo_arm (m : Z -> Z) : arm :=
  mk_arm (rset 13 0x1000 (replicate 15 0)) false false true false 0xd3 m.

(** The honest image, and a memory that holds it 0x500 bytes further on and
    other code in its place. *)
Definition demo_image (a : Z) : Z := if (0x10000 <=? a) && (a <? 0x10300) then a mod 251 else 0.
Definition demo_forged (a : Z) : Z :=
  if (0x10500 <=? a) && (a <? 0x10800) then (a - 0x500) mod 251
  else if (0x10000 <=? a) && (a <? 0x10300) then 0xdead else 0.

Lemma demo_call_ok m : (forall a, is_u32 (m a)) -> call_ok 0x2000 (demo_arm m).
Proof.
  intros Hm. split; unfold svc, mode; cbn [psr regs demo_arm].
  - split; [done|]. split; [|split; [cbn; lia|done]]. cbn. repeat constructor; unfold is_word; lia.
  - reflexivity.
  - reflexivity.
  - cbn. lia.
  - reflexivity.
  - lia.
  - lia.
  - right. cbn. lia.
Qed.

Lemma demo_image_u32 a : is_u32 (demo_image a).
Proof. unfold demo_image, is_word. destruct (_ && _); [|lia]. pose proof (Z.mod_pos_bound a 251). lia. Qed.

Lemma demo_forged_u32 a : is_u32 (demo_forged a).
Proof.
  unfold demo_forged, is_word. pose proof (Z.mod_pos_bound (a - 0x500) 251).
  destruct (_ && _); [lia|]. destruct (_ && _); lia.
Qed.

Lemma demo_untouched m a : 0x10000 <= a -> untouched 0x2000 (demo_arm m) a.
Proof. intros H. unfold untouched. cbn. lia. Qed.

Lemma swattARM_correct_witness :
  exists s', swattARM (placed 40 0x10000) 0x2000 52 (demo_arm demo_image) = Some s' /\
    regs s' = regs (demo_arm demo_image).
Proof.
  destruct (swattARM_correct 40 0x10000 0x2000 (demo_arm demo_image)
    (demo_call_ok _ demo_image_u32)) as (_ & n & m & t & s' & _ & _ & _ & H & Hd & _).
  exists s'. split; [exact H|]. exact (cd_regs _ _ _ _ Hd).
Defined.

Lemma checksum_local_witness :
  exists s' s2', swattARM (placed 40 0x10000) 0x2000 52 (demo_arm demo_image) = Some s' /\
    swattARM (placed 40 0x10000) 0x2000 52 (demo_arm (upd demo_image 0x20000 1)) = Some s2' /\
    checksum_words 0x2000 s2' = checksum_words 0x2000 s'.
Proof.
  apply (checksum_local 40 0x10000 0x2000 (demo_arm demo_image) (upd demo_image 0x20000 1)).
  - reflexivity.
  - lia.
  - lia.
  - apply demo_call_ok, demo_image_u32.
  - apply (demo_call_ok (upd demo_image 0x20000 1)), upd_u32; [apply demo_image_u32|].
    unfold is_word. lia.
  - intros a Ha. apply demo_untouched. unfold in_window in Ha. lia.
  - intros a Ha. unfold in_window in Ha. unfold upd. destruct (Z.eqb_spec a 0x20000); [lia|done].
  - intros o Ho. rewrite !elem_of_cons, elem_of_nil in Ho. unfold upd.
    destruct (Z.eqb_spec (0x2000 + o) 0x20000); [lia|done].
Defined.

Lemma attack_forges_witness :
  exists s' s2', swattARM_db_attack (placed 3 0x10000) 0x2000 52 (demo_arm demo_forged) = Some s' /\
    swattARM (placed 40 0x10000) 0x2000 52 (demo_arm demo_image) = Some s2' /\
    checksum_words 0x2000 s2' = checksum_words 0x2000 s'.
Proof.
  apply (attack_forges 3 40 0x10000 0x2000 (demo_arm demo_forged) demo_image).
  - reflexivity.
  - lia.
  - lia.
  - apply demo_call_ok, demo_forged_u32.
  - apply (demo_call_ok demo_image), demo_image_u32.
  - intros a Ha. unfold in_window in Ha. split; apply demo_untouched; [lia|].
    rewrite u32_small by (unfold is_word; lia). lia.
  - intros a Ha. unfold in_window in Ha. rewrite u32_small by (unfold is_word; lia).
    unfold demo_image, mem, demo_arm, demo_forged.
    replace (0x10000 <=? a) with true by (symmetry; apply Z.leb_le; lia).
    replace (a <? 0x10300) with true by (symmetry; apply Z.ltb_lt; lia).
    replace (0x10500 <=? a + 0x500) with true by (symmetry; apply Z.leb_le; lia).
    replace (a + 0x500 <? 0x10800) with true by (symmetry; apply Z.ltb_lt; lia).
    cbn [andb]. f_equal. lia.
  - intros o Ho. rewrite !elem_of_cons, elem_of_nil in Ho.
    decompose [or] Ho; subst; try done.
Defined.

Lemma attack_cost_witness :
  exists s' n, iter_steps (at_end (code_image swattARM_items (placed 40 0x10000)))
      (step (code_image swattARM_items (placed 40 0x10000)) 0x2000)
      n (0%nat, counting 0x2000 0x1000000 (demo_arm demo_image))
    = Some (length (code_of (swattARM_items 40)), s') /\ Z.of_nat n = 287309927.
Proof.
  destruct (attack_cost (placed 40 0x10000) (placed 3 0x20000) 0x2000 (demo_arm demo_image)
    (demo_call_ok _ demo_image_u32)) as (s' & _ & n & _ & E & _ & Hn & _).
  exists s', n. split; [exact E|exact Hn].
Defined.

Lemma interrupts_left_on_witness :
  Z.testbit (psr (demo_arm demo_image)) 7 = true /\
  exists s', swattARM (placed 40 0x10000) 0x2000 52 (demo_arm demo_image) = Some s' /\
    Z.testbit (psr s') 7 = false.
Proof.
  split; [reflexivity|].
  destruct (interrupts_left_on 40 0x10000 0x2000 (demo_arm demo_image) (demo_call_ok _ demo_image_u32))
    as (s' & H & _ & H7 & _).
  exists s'. split; [exact H|exact H7].
Defined.

Lemma odd_blocks_gated_witness :
  exists t s', exec_seq (image_at (swattARM_items 0) 0x10000) 0 38 (take 8 (drop 6 (code_of no_block1)))
      (demo_arm demo_image) = Some t /\
    exec_seq (image_at (swattARM_items 0) 0x10000) 0 38 (drop 6 (code_of no_block1)) (demo_arm demo_image)
    = Some s' /\ fC t = false /\ rget (regs s') 1 = rget (regs t) 1.
Proof.
  pose proof (odd_blocks_gated (image_at (swattARM_items 0) 0x10000) 0 38 (demo_arm demo_image)
    (co_ok _ _ (demo_call_ok _ demo_image_u32))) as H.
  apply List.Forall_inv in H. destruct H as (t & s' & E1 & E2 & E3).
  exists t, s'. split; [exact E1|]. split; [exact E2|].
  assert (fC <$> exec_seq (image_at (swattARM_items 0) 0x10000) 0 38
    (take 8 (drop 6 (code_of no_block1))) (demo_arm demo_image) = Some false) as Hx
    by (vm_compute; reflexivity).
  rewrite E1 in Hx. assert (fC t = false) as Hc by exact (f_equal (default true) Hx).
  split; [exact Hc|]. rewrite Hc in E3. exact E3.
Defined.
