(* ===== verification/SmscAttest.v ===== *)
(** * The network driver: attestation end to end

    The interface [Attestation] of the receive path is implemented by the ARM code:
    the 64 words of a challenge are copied to the buffer, the checksum function runs
    on the processor, and the words of the buffer are the answer.  The theorem
    follows a challenge through the driver of an honest and of a compromised
    machine. *)

From S2P Require Import Prelude ArmIsa SwattArm SwattArmTheory SwattArmCall SwattArmProps.
From S2P Require Import SmscDefs SmscIo SmscMac SmscRun SmscTx SmscPoll.

(** A machine: what is behind the bus, and the processor. *)
Definition machine (D : Type) : Type := D * arm.

#[local] Hint Mode Smsc ! : typeclass_instances.
#[export] Instance machine_smsc {D} `{!Smsc D} : Smsc (machine D) := {
  readl o b := ((readl o b.1).1, ((readl o b.1).2, b.2));
  writel v o b := (writel v o b.1, b.2);
  readw o b := ((readw o b.1).1, ((readw o b.1).2, b.2));
  writew v o b := (writew v o b.1, b.2);
  chip_delay us b := (chip_delay us b.1, b.2) }.

(** [memcpy] to and from the local array [buf], at the address [buf]. *)
Definition poke (buf : Z) (ws : list Z) (m : Z -> Z) : Z -> Z := fun a =>
  if (buf <=? a) && (a <? buf + 256) && ((a - buf) mod 4 =? 0)
  then nth (Z.to_nat ((a - buf) / 4)) ws 0 else m a.

Definition peek (buf : Z) (s : arm) : list Z := (fun i => ArmIsa.mem s (buf + 4 * i)) <$> seqZ 0 64.

(** [swattARM(buf, 52)], with its code placed at [ph], or [swattARM_db_attack(buf, 52)],
    with its code placed at [pa]. *)
Definition attest_run (ph pa : placement) (buf : Z) (honest : bool) (ws : list Z) (s : arm) : option (list Z * arm) :=
  let s := with_mem s (poke buf ws (ArmIsa.mem s)) in
  s' ← (if honest then swattARM ph buf 52 s else swattARM_db_attack pa buf 52 s);
  Some (peek buf s', s').

Definition machine_attest {D} (ph pa : placement) (buf : Z) : Attestation (machine D) := fun honest ws b =>
  match attest_run ph pa buf honest ws b.2 with
  | Some (rs, s) => Some (rs, (b.1, s))
  | None => None
  end.

(** What the poll does with a packet up to its transmission. *)
Definition respond {D} `{!Smsc D} `{!Attestation D} (skb : sk_buff) : drv D sk_buff :=
  '(skb, protocol) ← eth_type_trans skb;
  c ← is_challenge protocol skb;
  if c : bool then answer_challenge skb else mret skb.

(** ** The answer of the code *)

Lemma le_words_u32 bs : Forall is_u8 bs -> Forall is_u32 (le_words bs).
Proof.
  remember (length bs) as n eqn:En. revert bs En.
  induction (Nat.lt_wf_0 n) as [n _ IH]. intros bs -> Hbs.
  do 4 (destruct bs as [|? bs]; [constructor|]). cbn [le_words].
  rewrite !List.Forall_cons_iff in Hbs. destruct Hbs as (H0 & H1 & H2 & H3 & Hbs).
  constructor; [|apply (IH (length bs)); [cbn; lia|done|done]].
  apply (le_combine_bound [z; z0; z1; z2]). rewrite !List.Forall_cons_iff. by split_and!.
Qed.

Lemma poke_word buf ws m i :
  length ws = 64%nat -> 0 <= i < 64 -> poke buf ws m (buf + 4 * i) = nth (Z.to_nat i) ws 0.
Proof.
  intros Hl Hi. unfold poke. replace (buf + 4 * i - buf) with (i * 4) by lia.
  rewrite Z.mod_mul, Z.div_mul by lia.
  by rewrite (proj2 (Z.leb_le _ _)), (proj2 (Z.ltb_lt _ _)) by lia.
Qed.

Lemma poke_other buf ws m a : ~ (buf <= a < buf + 256) -> poke buf ws m a = m a.
Proof.
  intros H. unfold poke. destruct (Z.leb_spec buf a), (Z.ltb_spec a (buf + 256)); try done. lia.
Qed.

(** The thirteen words of the checksum, then the rest of the challenge. *)
Lemma peek_done buf c ws s t s' :
  length ws = 64%nat ->
  call_done buf (counting buf c (with_mem s (poke buf ws (ArmIsa.mem s)))) t s' ->
  buf + 256 <= rget (regs s) 13 - 60 \/ rget (regs s) 13 <= buf ->
  peek buf s' = (rget (regs t) <$> challenge_table.*1) ++ drop 13 ws.
Proof.
  intros Hl Hd Hap. unfold peek. change 64 with (13 + 51). rewrite seqZ_app, fmap_app by lia. f_equal.
  - change (seqZ 0 13) with [0; 1; 2; 3; 4; 5; 6; 7; 8; 9; 10; 11; 12].
    unfold challenge_table. cbn [zip zip_with fmap list_fmap fst].
    do 13 (lazymatch goal with |- ArmIsa.mem _ (buf + 4 * ?i) :: _ = rget _ ?d :: _ =>
      apply (f_equal2 cons); [exact (cd_words _ _ _ _ Hd d (4 * i) (table_in d (4 * i) eq_refl))|] end).
    done.
  - apply list_eq. intros k. rewrite list_lookup_fmap, lookup_drop. destruct (decide (k < 51)%nat) as [Hk|Hk].
    + rewrite lookup_seqZ_lt by lia. cbn [fmap option_fmap option_map].
      rewrite (cd_frame _ _ _ _ Hd) by (cbn [regs counting with_mem]; lia). rewrite counting_other by lia. cbn [ArmIsa.mem with_mem].
      rewrite poke_word by lia.
      destruct (nth_lookup_or_length ws (13 + k) 0) as [E|E]; [|lia].
      rewrite E. do 2 f_equal. lia.
    + rewrite lookup_seqZ_ge by lia. symmetry. apply lookup_ge_None_2. lia.
Qed.

(** An address that neither the buffer nor the stack of the call covers. *)
Definition apart (buf : Z) (s : arm) (v : Z) : Prop :=
  ~ (buf <= v < buf + 256) /\ ~ (rget (regs s) 13 - 60 <= v < rget (regs s) 13).

Lemma call_ok_mem buf s m : call_ok buf s -> (forall v, is_u32 (m v)) -> call_ok buf (with_mem s m).
Proof. intros [Hs ? ? ? ? ? ? ?] Hm. split; try done. by apply with_mem_ok. Qed.

Lemma poke_u32 buf ws m v :
  Forall is_u32 ws -> (forall v, is_u32 (m v)) -> is_u32 (poke buf ws m v).
Proof.
  intros Hw Hm. unfold poke. destruct (_ && _ && _); [|done].
  destruct (nth_lookup_or_length ws (Z.to_nat ((v - buf) / 4)) 0) as [E|E].
  - by apply (proj1 (Forall_lookup _ _) Hw _ _ E).
  - rewrite nth_overflow by done. unfold is_word. lia.
Qed.

Lemma poke_challenge buf ws m m' :
  length ws = 64%nat -> same_challenge buf (poke buf ws m) (poke buf ws m').
Proof.
  intros Hl o Ho. assert (exists i, 0 <= i < 64 /\ o = 4 * i) as (i & Hi & ->).
  { rewrite !elem_of_cons, elem_of_nil in Ho. exists (o / 4). decompose [or] Ho; subst; split; done || lia. }
  by rewrite !poke_word by lia.
Qed.

(** The honest code on an honest memory and the attack on a memory that keeps a
    copy of it 0x500 bytes further on return the same 64 words. *)
Lemma attest_forged b k k' ph pa buf ws s x :
  b mod 256 = 0 -> 0 <= b -> b + 768 <= 2 ^ 32 ->
  call_ok buf s -> (forall v, is_u32 (x v)) -> length ws = 64%nat -> Forall is_u32 ws ->
  buf + 256 <= rget (regs s) 13 - 60 \/ rget (regs s) 13 <= buf ->
  (forall v, in_window b v -> apart buf s v /\ apart buf s (u32 (v + 0x500))) ->
  (forall v, in_window b v -> x v = ArmIsa.mem s (u32 (v + 0x500))) ->
  exists rs s1 s2, length rs = 64%nat /\
    attest_run (placed k b) pa buf true ws (with_mem s x) = Some (rs, s1) /\
    attest_run ph (placed k' b) buf false ws s = Some (rs, s2).
Proof.
  intros Hb H0 Hhi Hok Hx Hl Hw Hap Hwin Heq.
  assert (Hm : forall v, is_u32 (ArmIsa.mem s v)) by apply Hok.
  set (s0 := with_mem s (poke buf ws (ArmIsa.mem s))).
  destruct (forge_runs k' k b buf s0 (poke buf ws x)) as (t & s' & t2 & s2' & Hd & Hd2 & Er & E1 & E2); try done.
  - apply call_ok_mem; [done|]. intros v. by apply poke_u32.
  - apply (call_ok_mem buf s); [done|]. intros v. by apply poke_u32.
  - intros v Hv. destruct (Hwin v Hv) as [[A1 A2] [A3 A4]].
    split; (split; [|done]); cbn [regs s0 with_mem]; lia.
  - intros v Hv. destruct (Hwin v Hv) as [[A1 A2] [A3 A4]]. cbn [ArmIsa.mem s0 with_mem].
    rewrite !poke_other by done. by apply Heq.
  - by apply poke_challenge.
  - exists ((rget (regs t) <$> challenge_table.*1) ++ drop 13 ws), s2', s'. split; [|split].
    + rewrite length_app, length_drop, Hl. done.
    + unfold attest_run. change (with_mem (with_mem s x) (poke buf ws (ArmIsa.mem (with_mem s x))))
        with (with_mem s0 (poke buf ws x)). rewrite E2. cbn [mbind option_bind]. do 2 f_equal.
      rewrite <- Er. apply (peek_done buf 0x1000000 ws (with_mem s x)); done.
    + unfold attest_run. fold s0. rewrite E1. cbn [mbind option_bind]. do 2 f_equal.
      by apply (peek_done buf 0x1000000 ws s).
Qed.

(** ** The reply of the driver *)

Lemma respond_run {D} `{!Smsc D} `{!Attestation D} c pre rest rs d (s : dstate D) :
  challenge_ok c -> attest (c_mode c =? 0) (le_words (c_body c)) (chip s) = Some (rs, d) ->
  length rs = 64%nat ->
  respond (mk_skb (pre ++ challenge_frame c ++ rest) (Z.of_nat (length pre))
             (Z.of_nat (length (challenge_frame c)))) s
  = Ret (mk_skb (pre ++ reply_frame c rs ++ rest) (Z.of_nat (length pre))
           (Z.of_nat (length (reply_frame c rs)))) (with_chip s d).
Proof.
  intros Hc Ha Hl. destruct (challenge_reply_run c pre rest s rs d Hc Ha Hl) as (skb & E1 & E2 & E3).
  unfold respond, mbind, drv_bind. by rewrite E1, E2, E3.
Qed.

Section Reply.
Context {D : Type} `{!Smsc D}.

(** C3: The reply of a compromised machine cannot be told from that of an honest one
    by its contents.  Take a challenge that the honest machine answers with
    [swattARM], on the memory [x], and the compromised machine with
    [swattARM_db_attack] at the same address, on a memory whose checked windows hold
    anything but which keeps the honest words 0x500 bytes further on.  Then the
    driver of either turns the packet around into a reply with the same 64 words;
    the two frames differ in nothing but the type of the request, which both return
    as it came, and the ICMP checksum that covers it. *)
Theorem forged_reply_matches b k k' ph pa buf c c' pre rest a x d d' (s s' : dstate (machine D)) :
  b mod 256 = 0 -> 0 <= b -> b + 768 <= 2 ^ 32 ->
  call_ok buf a -> (forall v, is_u32 (x v)) ->
  buf + 256 <= rget (regs a) 13 - 60 \/ rget (regs a) 13 <= buf ->
  (forall v, in_window b v -> apart buf a v /\ apart buf a (u32 (v + 0x500))) ->
  (forall v, in_window b v -> x v = ArmIsa.mem a (u32 (v + 0x500))) ->
  challenge_ok c -> challenge_ok c' -> c_mode c = 0 -> c_mode c' <> 0 ->
  c_body c' = c_body c -> Forall is_u8 (c_body c) ->
  chip s = (d, with_mem a x) -> chip s' = (d', a) ->
  exists rs t t', length rs = 64%nat /\
    @respond _ _ (machine_attest (placed k b) pa buf)
      (mk_skb (pre ++ challenge_frame c ++ rest) (Z.of_nat (length pre)) (Z.of_nat (length (challenge_frame c)))) s
    = Ret (mk_skb (pre ++ reply_frame c rs ++ rest) (Z.of_nat (length pre))
             (Z.of_nat (length (reply_frame c rs)))) t /\
    @respond _ _ (machine_attest ph (placed k' b) buf)
      (mk_skb (pre ++ challenge_frame c' ++ rest) (Z.of_nat (length pre)) (Z.of_nat (length (challenge_frame c')))) s'
    = Ret (mk_skb (pre ++ reply_frame c' rs ++ rest) (Z.of_nat (length pre))
             (Z.of_nat (length (reply_frame c' rs)))) t'.
Proof.
  intros Hb H0 Hhi Hok Hx Hap Hwin Heq Hc Hc' Hm Hm' Hbody Hu Es Es'.
  pose proof (c_body_len c Hc) as Lb.
  destruct (attest_forged b k k' ph pa buf (le_words (c_body c)) a x) as (rs & s1 & s2 & Hl & E1 & E2); try done.
  { rewrite length_le_words, Lb. done. }
  { by apply le_words_u32. }
  exists rs, (with_chip s (d, s1)), (with_chip s' (d', s2)). split; [done|]. split.
  - apply respond_run; [done| |done]. unfold attest, machine_attest. rewrite Hm, Es. cbn [snd Z.eqb].
    by rewrite E1.
  - apply respond_run; [done| |done]. unfold attest, machine_attest.
    rewrite (proj2 (Z.eqb_neq _ 0)) by done. rewrite Es', Hbody. cbn [snd]. by rewrite E2.
Qed.

End Reply.

(** Buffer at 0x2000, code at 0x10000; the memories of the example of the ARM code. *)
Definition demo_challenge (m : Z) : challenge :=
  mk_challenge (replicate 6 2) (replicate 6 4) [69; 0; 1; 24; 0; 0; 0; 0; 64; 1; 0; 0]
    [10; 0; 0; 1] [10; 0; 0; 2] m 0 0 (replicate 256 7) [].

Lemma demo_challenge_ok m : is_u8 m -> challenge_ok (demo_challenge m).
Proof. by constructor. Qed.

Definition demo_machine (a : arm) : dstate (machine unit) :=
  mk_dstate (tt, a) (demo_pdata SMSC911X_USE_32BIT) demo_netdev 0 [].

Definition idle_chip : Smsc unit := {|
  readl _ d := (0, d); writel _ _ d := d;
  readw _ d := (0, d); writew _ _ d := d; chip_delay _ d := d |}.

Lemma forged_reply_matches_witness :
  exists rs t t', length rs = 64%nat /\
    @respond _ (@machine_smsc _ idle_chip) (machine_attest (placed 40 0x10000) (placed 3 0x20000) 0x2000)
      (mk_skb ([] ++ challenge_frame (demo_challenge 0) ++ []) (Z.of_nat (length (@nil Z)))
         (Z.of_nat (length (challenge_frame (demo_challenge 0))))) (demo_machine (demo_arm demo_image))
    = Ret (mk_skb ([] ++ reply_frame (demo_challenge 0) rs ++ []) (Z.of_nat (length (@nil Z)))
             (Z.of_nat (length (reply_frame (demo_challenge 0) rs)))) t /\
    @respond _ (@machine_smsc _ idle_chip) (machine_attest (placed 40 0x20000) (placed 3 0x10000) 0x2000)
      (mk_skb ([] ++ challenge_frame (demo_challenge 1) ++ []) (Z.of_nat (length (@nil Z)))
         (Z.of_nat (length (challenge_frame (demo_challenge 1))))) (demo_machine (demo_arm demo_forged))
    = Ret (mk_skb ([] ++ reply_frame (demo_challenge 1) rs ++ []) (Z.of_nat (length (@nil Z)))
             (Z.of_nat (length (reply_frame (demo_challenge 1) rs)))) t'.
Proof.
  apply (@forged_reply_matches unit idle_chip 0x10000 40 3 (placed 40 0x20000) (placed 3 0x20000) 0x2000 (demo_challenge 0) (demo_challenge 1)
    [] [] (demo_arm demo_forged) demo_image tt tt
    (demo_machine (demo_arm demo_image)) (demo_machine (demo_arm demo_forged))).
  - reflexivity.
  - lia.
  - lia.
  - apply demo_call_ok, demo_forged_u32.
  - apply demo_image_u32.
  - right. vm_compute. discriminate.
  - intros v Hv. unfold in_window in Hv. rewrite u32_small by (unfold is_word; lia).
    unfold apart. cbn. lia.
  - intros v Hv. unfold in_window in Hv. rewrite u32_small by (unfold is_word; lia).
    cbn. unfold demo_image, demo_forged.
    rewrite (proj2 (Z.leb_le 0x10000 v)), (proj2 (Z.ltb_lt v 0x10300)) by lia.
    rewrite (proj2 (Z.leb_le 0x10500 (v + 0x500))), (proj2 (Z.ltb_lt (v + 0x500) 0x10800)) by lia.
    cbn. by rewrite Z.add_simpl_r.
  - apply demo_challenge_ok. unfold is_word. lia.
  - apply demo_challenge_ok. unfold is_word. lia.
  - reflexivity.
  - discriminate.
  - reflexivity.
  - apply Forall_replicate. unfold is_word. lia.
  - reflexivity.
  - reflexivity.
Defined.
