(* ===== verification/IcmpClient.v ===== *)
(** * The verifier (icmp_client/icmp.c)

    The program that challenges a device: it sends an ICMP message with 64 random
    words, waits for a message of the same type, prints the first eight words of it
    and judges the time that has passed.  The system calls, the clock and the random
    numbers are the interface [Net]; what is printed is a list of lines.  The last
    part composes the program with the network driver: a challenge goes out, the
    driver answers it, the answer comes back. *)

From S2P Require Import Prelude SmscDefs SmscIo SmscMac SmscRun SmscTx SmscPoll SmscAttest.

Definition VET_ICMP_TYPE : Z := 0x02.
Definition VET_ICMP_CODE : Z := 0x00.

(** The size of [struct icmphdr]: type, code and checksum *)
Definition sizeof_icmphdr : nat := 4.

(** [socket] and [sendto] return -1 for an error; [recvfrom] returns the datagram,
    with its IP header, or nothing; the clock counts seconds and nanoseconds. *)
Class Net (W : Type) := {
  socket : W -> Z * W;
  srand_time : W -> W;
  rand : W -> Z * W;
  clock_get_time : W -> (Z * Z) * W;
  sendto : list Z -> W -> Z * W;
  recvfrom : W -> option (list Z) * W }.

(** What the program prints *)
Inductive line :=
  | usage | socket_error | nonce_line (ws : list Z) | send_error
  | checksum_line (ws : list Z) | time_line (ns : Z) | results_correct | over_threshold.

(** ** [checksum] *)

Fixpoint checksum_loop (buf : list Z) (sum : Z) : Z :=
  match buf with
  | b0 :: b1 :: buf => checksum_loop buf (add32 sum (le_combine [b0; b1]))
  | [b0] => add32 sum b0
  | [] => sum
  end.

Definition checksum (b : list Z) : Z :=
  let sum := checksum_loop b 0 in
  let sum := add32 (Z.shiftr sum 16) (Z.land sum 0xFFFF) in
  let sum := add32 sum (Z.shiftr sum 16) in
  u16 (not32 sum).

(** ** [main] *)

(** A copy of [bs] to the place [i] of the buffer *)
Definition put (i : nat) (bs packet : list Z) : list Z :=
  take i packet ++ bs ++ drop (i + length bs) packet.

(** The words at a place of the buffer, as the little-endian host reads them *)
Definition words_at (i n : nat) (packet : list Z) : list Z := le_words (take (4 * n) (drop i packet)).

Section Client.
Context {W : Type} `{!Net W}.

(** [data[i] = rand()] for the words from [i] on *)
Fixpoint nonce_loop (n i : nat) (packet : list Z) (w : W) : list Z * W :=
  match n with
  | O => (packet, w)
  | S n => let '(r, w) := rand w in
           nonce_loop n (S i) (put (sizeof_icmphdr + 4 * i) (le_split 4 (u32 r)) packet) w
  end.

(** The packet, up to the checksum *)
Definition prepare (packet : list Z) (w : W) : list Z * W :=
  let packet := put 0 [VET_ICMP_TYPE] packet in
  let packet := put 1 [VET_ICMP_CODE] packet in
  let packet := put 2 [0; 0] packet in
  let '(packet, w) := nonce_loop 64 0 packet (srand_time w) in
  (put 2 (le_split 2 (checksum (take (sizeof_icmphdr + 64 * 4) packet))) packet, w).

(** [recvfrom] into the buffer; its result is not looked at. *)
Definition receive (packet : list Z) (w : W) : list Z * W :=
  let '(d, w) := recvfrom w in
  (match d with Some d => put 0 (take 500 d) packet | None => packet end, w).

(** [(rmts.tv_sec - smts.tv_sec)*1000000000L + rmts.tv_nsec - smts.tv_nsec]: the
    seconds of a [mach_timespec_t] are an [unsigned int], so their difference wraps
    around; the rest is done in a [long] of 64 bits, which it cannot leave. *)
Definition time_diff (sent received : Z * Z) : Z :=
  sub32 received.1 sent.1 * 1000000000 + received.2 - sent.2.

(** The last part of the loop, for a packet of the right type *)
Definition report (packet : list Z) (sent received : Z * Z) : list line :=
  let tdiff := time_diff sent received in
  [checksum_line (words_at (20 + sizeof_icmphdr) 8 packet); time_line tdiff;
   if tdiff <? 1100000000 then results_correct else over_threshold].

(** [while (1)]: [None] when the fuel runs out, that is, the program still waits. *)
Fixpoint wait_loop (fuel : nat) (sent : Z * Z) (packet : list Z) (w : W) : option (list line * W) :=
  match fuel with
  | O => None
  | S fuel =>
      let '(packet, w) := receive packet w in
      if nth 20 packet 0 =? VET_ICMP_TYPE then
        let '(received, w) := clock_get_time w in Some (report packet sent received, w)
      else wait_loop fuel sent packet w
  end.

(** [main], with [argc], the address as [sendto] uses it being part of the world, and
    the contents of the array [packet] on the stack *)
Definition main (fuel : nat) (argc : Z) (packet : list Z) (w : W) : option (list line * W) :=
  if negb (argc =? 2) then Some ([usage], w)
  else
    let '(sock, w) := socket w in
    if sock =? -1 then Some ([socket_error], w)
    else
      let '(packet, w) := prepare packet w in
      let nonce := words_at sizeof_icmphdr 8 packet in
      let '(sent, w) := clock_get_time w in
      let '(ret, w) := sendto (take (sizeof_icmphdr + 64 * 4) packet) w in
      let err := if ret =? -1 then [send_error] else [] in
      '(out, w) ← wait_loop fuel sent packet w;
      Some (nonce_line nonce :: err ++ out, w).

(** ** The message *)

Lemma put_app a b b' c : length b' = length b -> put (length a) b' (a ++ b ++ c) = a ++ b' ++ c.
Proof.
  intros E. unfold put. rewrite take_app_length, E, drop_app_add'; [|done].
  by rewrite drop_app_length.
Qed.

Lemma checksum_same bs : checksum bs = SmscPoll.checksum bs.
Proof.
  unfold checksum, SmscPoll.checksum. replace (checksum_loop bs 0) with (sum16 bs 0); [done|].
  generalize 0. induction bs as [|x|x y l IH] using two_step_ind; intros sum; cbn; auto.
Qed.

Lemma nonce_loop_spec n i pre old post w :
  length pre = (4 + 4 * i)%nat -> length old = (4 * n)%nat ->
  exists ws w', nonce_loop n i (pre ++ old ++ post) w = (pre ++ (ws ≫= le_split 4) ++ post, w') /\
    length ws = n /\ Forall is_u32 ws.
Proof.
  revert i pre old w. induction n as [|n IH]; intros i pre old w Hp Ho.
  { destruct old; [|done]. by exists [], w. }
  cbn [nonce_loop]. destruct (rand w) as [r w1].
  rewrite <- (take_drop 4 old), <- app_assoc. unfold sizeof_icmphdr. rewrite <- Hp.
  rewrite put_app by (rewrite length_le_split, length_take; lia). rewrite app_assoc.
  destruct (IH (S i) (pre ++ le_split 4 (u32 r)) (drop 4 old) w1) as (ws & w' & E & Hl & Hf).
  { rewrite length_app, length_le_split. lia. }
  { rewrite length_drop. lia. }
  exists (u32 r :: ws), w'. rewrite E, bind_cons, <- !app_assoc. split; [done|].
  split; [cbn; lia|]. constructor; [apply is_u32_u32|done].
Qed.

(** The program sends the 64 words with a valid checksum. *)
Lemma prepare_spec packet w :
  length packet = 500%nat ->
  exists ws w', prepare packet w = (reply_body VET_ICMP_TYPE VET_ICMP_CODE ws ++ drop 260 packet, w') /\
    length ws = 64%nat /\ Forall is_u32 ws.
Proof.
  intros Hl. do 4 (destruct packet as [|? packet]; [discriminate Hl|]).
  unfold prepare. change (put 2 [0; 0] (put 1 [VET_ICMP_CODE] (put 0 [VET_ICMP_TYPE] (z :: z0 :: z1 :: z2 :: packet))))
    with ([VET_ICMP_TYPE; VET_ICMP_CODE; 0; 0] ++ packet).
  destruct (nonce_loop_spec 64 0 [VET_ICMP_TYPE; VET_ICMP_CODE; 0; 0] (take 256 packet) (drop 256 packet) (srand_time w))
    as (ws & w' & E & Hw & Hf); [done|rewrite length_take; cbn in Hl; lia|].
  rewrite (take_drop 256 packet) in E. rewrite E. exists ws, w'. split; [|done]. f_equal.
  pose proof (length_bytes ws) as Lb. set (b := ws ≫= le_split 4) in *.
  rewrite app_assoc, (take_app_length' _ _ (sizeof_icmphdr + 64 * 4)) by (rewrite length_app, Lb, Hw; done).
  rewrite <- app_assoc, checksum_same. unfold reply_body. fold b.
  change ([VET_ICMP_TYPE; VET_ICMP_CODE; 0; 0] ++ b ++ drop 256 packet)
    with ([VET_ICMP_TYPE; VET_ICMP_CODE] ++ [0; 0] ++ b ++ drop 256 packet).
  rewrite (put_app [VET_ICMP_TYPE; VET_ICMP_CODE] [0; 0]) by (by rewrite length_le_split).
  by rewrite <- !app_assoc.
Qed.

(** The datagrams that the program receives up to the first that leaves the type of a
    challenge in the byte 20 of the buffer: [r] is the result of the last [recvfrom],
    [packet'] the buffer after it, [n] the number of calls. *)
Inductive first_match : list Z -> W -> option (list Z) -> list Z -> W -> nat -> Prop :=
  | match_now packet w r packet' w' :
      recvfrom w = (r, w') -> receive packet w = (packet', w') -> nth 20 packet' 0 = VET_ICMP_TYPE ->
      first_match packet w r packet' w' 1
  | match_later packet w packet1 w1 r packet' w' n :
      receive packet w = (packet1, w1) -> nth 20 packet1 0 <> VET_ICMP_TYPE ->
      first_match packet1 w1 r packet' w' n -> first_match packet w r packet' w' (S n).

Lemma wait_loop_match fuel sent packet w r packet' w' n received w'' :
  first_match packet w r packet' w' n -> (n <= fuel)%nat -> clock_get_time w' = (received, w'') ->
  wait_loop fuel sent packet w = Some (report packet' sent received, w'').
Proof.
  intros Hm Hn Ec. revert fuel Hn.
  induction Hm as [packet w r packet' w' _ Er H20|packet w p1 w1 r packet' w' n Er H20 _ IH]; intros fuel Hn;
    (destruct fuel as [|fuel]; [lia|]); cbn [wait_loop]; rewrite Er.
  - by rewrite H20, Z.eqb_refl, Ec.
  - rewrite (proj2 (Z.eqb_neq _ _)) by done. apply IH; [done|lia].
Qed.

(** The run, up to the first answer of the right type *)
Lemma main_match fuel packet w sock w1 msg w2 sent w3 ret w4 r packet' w5 n received w6 :
  socket w = (sock, w1) -> sock <> -1 -> prepare packet w1 = (msg, w2) ->
  clock_get_time w2 = (sent, w3) -> sendto (take 260 msg) w3 = (ret, w4) ->
  first_match msg w4 r packet' w5 n -> (n <= fuel)%nat -> clock_get_time w5 = (received, w6) ->
  main fuel 2 packet w =
  Some (nonce_line (words_at 4 8 msg) :: (if ret =? -1 then [send_error] else []) ++ report packet' sent received, w6).
Proof.
  intros E1 Hs E2 E3 E4 Hm Hf E6. unfold main. cbn [Z.eqb negb Pos.eqb].
  rewrite E1, (proj2 (Z.eqb_neq sock (-1))) by done. rewrite E2, E3.
  change (sizeof_icmphdr + 64 * 4)%nat with 260%nat. rewrite E4.
  by rewrite (wait_loop_match _ _ _ _ _ _ _ _ _ _ Hm Hf E6).
Qed.

(** A datagram that reaches beyond the eight words overwrites all of them. *)
Lemma first_match_words packet w d packet' w' n :
  first_match packet w (Some d) packet' w' n -> (56 <= length d)%nat -> words_at 24 8 packet' = words_at 24 8 d.
Proof.
  remember (Some d) as r eqn:Er. induction 1 as [packet w r packet' w' E1 E2 _|]; [|by auto].
  intros Hl. unfold receive in E2. rewrite E1, Er in E2. injection E2 as <-. unfold words_at, put.
  rewrite take_0, app_nil_l, Nat.add_0_l. f_equal.
  rewrite drop_app_le, take_app_le by (rewrite ?length_drop, ?length_take; lia).
  by rewrite List.skipn_firstn_comm, List.firstn_firstn.
Qed.

Lemma le_words_split (ws : list Z) : Forall is_u32 ws -> le_words (ws ≫= le_split 4) = ws.
Proof.
  induction 1 as [|w ws Hw _ IH]; [done|]. rewrite bind_cons.
  change (le_combine (le_split 4 w) :: le_words (ws ≫= le_split 4) = w :: ws).
  rewrite IH, le_combine_split. by rewrite Z.mod_small.
Qed.

Lemma words_at_app a (ws : list Z) rest n :
  (n <= length ws)%nat -> Forall is_u32 ws -> words_at (length a) n (a ++ (ws ≫= le_split 4) ++ rest) = take n ws.
Proof.
  intros Hn Hw. unfold words_at. rewrite drop_app_length, take_app_le by (rewrite length_bytes; lia).
  rewrite <- (take_drop n ws) at 1. rewrite bind_app, (take_app_length' _ _ (4 * n)).
  - apply le_words_split. by apply Forall_take.
  - rewrite length_bytes, length_take. lia.
Qed.

(** C38: what comes back is not examined.  Whatever arrives, the program stops at the
    first datagram that leaves the type of a challenge in the byte 20 of its buffer,
    prints the eight words that the buffer then holds after the header, and calls the
    results correct if and only if less than 1.1 seconds have passed, as the unsigned
    difference of the seconds counts them.  The eight words are those of the datagram
    when it has at least 56 bytes; from a shorter one, or when [recvfrom] has failed,
    what is missing is what the buffer held before, the program's own random words
    included. *)
Theorem reply_not_examined fuel packet w sock w1 msg w2 sent w3 ret w4 r packet' w5 n received w6 :
  socket w = (sock, w1) -> sock <> -1 -> prepare packet w1 = (msg, w2) ->
  clock_get_time w2 = (sent, w3) -> sendto (take 260 msg) w3 = (ret, w4) ->
  first_match msg w4 r packet' w5 n -> (n <= fuel)%nat -> clock_get_time w5 = (received, w6) ->
  let t := time_diff sent received in
  main fuel 2 packet w =
    Some (nonce_line (words_at 4 8 msg) :: (if ret =? -1 then [send_error] else []) ++
          [checksum_line (words_at 24 8 packet'); time_line t;
           if t <? 1100000000 then results_correct else over_threshold], w6) /\
  forall d, r = Some d -> (56 <= length d)%nat -> words_at 24 8 packet' = words_at 24 8 d.
Proof.
  intros E1 Hs E2 E3 E4 Hm Hf E6. split; [by eapply main_match|].
  intros d ->. by apply (first_match_words _ _ _ _ _ _ Hm).
Qed.

(** The challenge that carries the message in a frame *)
Definition framed (dst src ip sip dip msg : list Z) : challenge :=
  mk_challenge dst src ip sip dip (nth 1 msg 0) (nth 2 msg 0) (nth 3 msg 0) (take 256 (drop 4 msg)) [].

Lemma framed_message dst src ip sip dip ws rest :
  length ws = 64%nat ->
  let msg := reply_body VET_ICMP_TYPE VET_ICMP_CODE ws ++ rest in
  let c := framed dst src ip sip dip msg in
  c_body c = (ws ≫= le_split 4) /\ c_mode c = 0 /\
  challenge_frame c = dst ++ src ++ [8; 0] ++ ip ++ sip ++ dip ++ take 260 msg.
Proof.
  intros Hw msg c. pose proof (length_bytes ws) as Lb. rewrite Hw in Lb.
  set (k := SmscPoll.checksum ([VET_ICMP_TYPE; VET_ICMP_CODE; 0; 0] ++ (ws ≫= le_split 4))).
  assert (Em : msg = [VET_ICMP_TYPE; 0; nth 2 msg 0; nth 3 msg 0] ++ (ws ≫= le_split 4) ++ rest).
  { unfold msg, reply_body. fold k. rewrite <- !app_assoc. reflexivity. }
  assert (Eb : take 256 (drop 4 msg) = ws ≫= le_split 4).
  { rewrite Em. change (drop 4 _) with ((ws ≫= le_split 4) ++ rest). by rewrite take_app_length'. }
  split; [exact Eb|]. split; [by unfold c, framed; rewrite Em|].
  unfold c, framed, challenge_frame. cbn [c_dst c_src c_ip c_sip c_dip c_mode c_sum0 c_sum1 c_body c_more].
  rewrite app_nil_r, Eb. do 6 f_equal. rewrite Em at 4. rewrite app_assoc, take_app_length'.
  - reflexivity.
  - rewrite length_app, Lb. done.
Qed.

(** C14: a challenge goes round.  The message that the program sends, in any IP packet
    and Ethernet frame, is a challenge that the driver of the device recognises; the
    driver answers it with the words that the honest attestation code returns for
    the 64 random words; and when the IP packet of the answer is the first to arrive,
    the program prints the first eight of them with the time that has passed and the
    verdict on it. *)
Theorem attestation_round_trip {D} `{!Smsc D} `{!Attestation D} fuel packet w sock w1 msg w2 sent w3 ret w4
    dst src ip sip dip pre rest rs d (s : dstate D) w5 received w6 :
  length packet = 500%nat -> socket w = (sock, w1) -> sock <> -1 -> prepare packet w1 = (msg, w2) ->
  clock_get_time w2 = (sent, w3) -> sendto (take 260 msg) w3 = (ret, w4) ->
  length dst = 6%nat -> length src = 6%nat -> length ip = 12%nat -> ip !! 9%nat = Some 1 ->
  length sip = 4%nat -> length dip = 4%nat ->
  attest true (words_at 4 64 msg) (chip s) = Some (rs, d) -> length rs = 64%nat -> Forall is_u32 rs ->
  let c := framed dst src ip sip dip msg in
  recvfrom w4 = (Some (drop 14 (reply_frame c rs)), w5) -> clock_get_time w5 = (received, w6) -> (0 < fuel)%nat ->
  challenge_frame c = dst ++ src ++ [8; 0] ++ ip ++ sip ++ dip ++ take 260 msg /\
  respond (mk_skb (pre ++ challenge_frame c ++ rest) (Z.of_nat (length pre)) (Z.of_nat (length (challenge_frame c)))) s
  = Ret (mk_skb (pre ++ reply_frame c rs ++ rest) (Z.of_nat (length pre))
           (Z.of_nat (length (reply_frame c rs)))) (with_chip s d) /\
  let t := time_diff sent received in
  main fuel 2 packet w =
  Some (nonce_line (words_at 4 8 msg) :: (if ret =? -1 then [send_error] else []) ++
        [checksum_line (take 8 rs); time_line t; if t <? 1100000000 then results_correct else over_threshold], w6).
Proof.
  intros Hl E1 Hs E2 E3 E4 Ld Ls Li Hi Lsip Ldip Ha Hrs Hru c E5 E6 Hf.
  destruct (prepare_spec packet w1 Hl) as (ws & w' & E2' & Hw & Hwu).
  assert (msg = reply_body VET_ICMP_TYPE VET_ICMP_CODE ws ++ drop 260 packet) as -> by congruence.
  destruct (framed_message dst src ip sip dip ws (drop 260 packet) Hw) as (Eb & Em & Ef).
  subst c. set (c := framed _ _ _ _ _ _) in *.
  assert (Ew : words_at 4 64 (reply_body VET_ICMP_TYPE VET_ICMP_CODE ws ++ drop 260 packet) = ws).
  { unfold reply_body. rewrite (app_assoc [VET_ICMP_TYPE; VET_ICMP_CODE]), <- app_assoc.
    set (hd := [VET_ICMP_TYPE; VET_ICMP_CODE] ++ _). change (words_at 4 64) with (words_at (length hd) 64).
    rewrite words_at_app by (done || lia). apply take_ge. lia. }
  assert (Hc : challenge_ok c).
  { constructor; try done; by rewrite ?Em, ?Eb, ?length_bytes, ?Hw. }
  split; [exact Ef|]. split.
  - apply respond_run; [done| |done]. rewrite Em, Eb, le_words_split by done. by rewrite <- Ew.
  - set (hd := ip ++ dip ++ sip ++ [VET_ICMP_TYPE; 0] ++ le_split 2 (SmscPoll.checksum ([VET_ICMP_TYPE; 0; 0; 0] ++ (rs ≫= le_split 4)))).
    assert (Er : drop 14 (reply_frame c rs) = hd ++ (rs ≫= le_split 4)).
    { unfold reply_frame. rewrite Em. cbn [c_src c_dst c_ip c_dip c_sip c_more c framed].
      rewrite (app_assoc src), (app_assoc (src ++ dst)), drop_app_length' by (rewrite !length_app, Ls, Ld; done).
      unfold hd, reply_body. rewrite app_nil_r, <- !app_assoc. done. }
    assert (Lh : length hd = 24%nat) by (unfold hd; rewrite !length_app, length_le_split, Li, Lsip, Ldip; done).
    rewrite Er in E5. set (msg := reply_body _ _ ws ++ _) in *.
    assert (E5' : receive msg w4 = (hd ++ (rs ≫= le_split 4) ++ drop 280 msg, w5)).
    { unfold receive. rewrite E5. unfold put. rewrite take_0, app_nil_l, Nat.add_0_l.
      rewrite (take_ge (hd ++ _)) by (rewrite length_app, length_bytes; lia).
      by rewrite <- app_assoc, length_app, length_bytes, Lh, Hrs. }
    assert (H20 : nth 20 (hd ++ (rs ≫= le_split 4) ++ drop 280 msg) 0 = VET_ICMP_TYPE).
    { rewrite app_nth1 by lia. unfold hd.
      rewrite (app_nth2 ip), (app_nth2 dip), (app_nth2 sip); rewrite ?Li, ?Lsip, ?Ldip; [reflexivity|lia..]. }
    pose proof (match_now _ _ _ _ _ E5 E5' H20) as Hm.
    cbv zeta. rewrite (main_match _ _ _ _ _ _ _ _ _ _ _ _ _ _ _ _ _ E1 Hs E2 E3 E4 Hm Hf E6).
    unfold report. change (20 + sizeof_icmphdr)%nat with 24%nat. by rewrite <- Lh, words_at_app by (done || lia).
Qed.

End Client.

(** ** An example: a world in which every random number is 2 and the clock advances
    by a second at each look *)

Definition demo_world : Type := list (list Z) * Z.

#[local] Instance demo_net : Net demo_world := {|
  socket w := (3, w);
  srand_time w := w;
  rand w := (2, w);
  clock_get_time w := ((w.2, 0), (w.1, w.2 + 1));
  sendto bs w := (Z.of_nat (length bs), w);
  recvfrom w := match w.1 with [] => (None, w) | d :: q => (Some d, (q, w.2)) end |}.

Definition demo_buffer : list Z := replicate 500 0.
Definition demo_msg : list Z := (prepare demo_buffer (([], 0) : demo_world)).1.

(** A datagram of another type, then one of the right type that ends there: the program prints
    its own random words, and finds them correct. *)
Definition demo_arrivals : list (list Z) := [replicate 21 1; replicate 21 2].
Definition demo_w (arrivals : list (list Z)) (t : Z) : demo_world := (arrivals, t).

Lemma reply_not_examined_witness :
  main 2 2 demo_buffer (demo_w demo_arrivals 0) =
  Some ([nonce_line (replicate 8 2); checksum_line (replicate 8 2); time_line 1000000000;
         results_correct], demo_w [] 2).
Proof.
  set (m1 := put 0 (replicate 21 1) demo_msg). set (m2 := put 0 (replicate 21 2) m1).
  destruct (reply_not_examined 2 demo_buffer (demo_w demo_arrivals 0) 3 (demo_w demo_arrivals 0) demo_msg
    (demo_w demo_arrivals 0) (0, 0) (demo_w demo_arrivals 1) 260 (demo_w demo_arrivals 1)
    (Some (replicate 21 2)) m2 (demo_w [] 1) 2 (1, 0) (demo_w [] 2)) as [E _].
  all: lazymatch goal with
    | |- main _ _ _ _ = _ => rewrite E; vm_compute; reflexivity
    | |- first_match _ _ _ _ _ _ =>
        apply (match_later _ _ m1 (demo_w [replicate 21 2] 1)); [vm_compute; reflexivity|discriminate|];
        apply match_now; vm_compute; reflexivity
    | |- _ <> _ => discriminate
    | |- (_ <= _)%nat => lia
    | |- _ => vm_compute; reflexivity
    end.
Defined.

#[local] Instance demo_attest : Attestation unit := fun _ _ d => Some (seqZ 0 64, d).

Definition demo_ip : list Z := [69; 0; 1; 24; 0; 0; 0; 0; 64; 1; 0; 0].
Definition demo_answer : list Z :=
  drop 14 (reply_frame (framed (replicate 6 2) (replicate 6 4) demo_ip [10; 0; 0; 1] [10; 0; 0; 2] demo_msg) (seqZ 0 64)).

Lemma attestation_round_trip_witness :
  main 1 2 demo_buffer (([demo_answer], 0) : demo_world) =
  Some ([nonce_line (replicate 8 2); checksum_line (seqZ 0 8); time_line 1000000000; results_correct], ([], 2)).
Proof.
  destruct (@attestation_round_trip demo_world demo_net unit idle_chip demo_attest 1 demo_buffer ([demo_answer], 0) 3
    ([demo_answer], 0) demo_msg ([demo_answer], 0) (0, 0) ([demo_answer], 1) 260 ([demo_answer], 1)
    (replicate 6 2) (replicate 6 4) demo_ip [10; 0; 0; 1] [10; 0; 0; 2] [] [] (seqZ 0 64) tt
    (mk_dstate tt (demo_pdata SMSC911X_USE_32BIT) demo_netdev 0 []) ([], 1) (1, 0) ([], 2)) as (_ & _ & E).
  all: lazymatch goal with |- main _ _ _ _ = _ => idtac | |- _ = _ => vm_compute; reflexivity | |- _ => idtac end.
  - discriminate.
  - apply list.Forall_forall. intros x Hx%elem_of_seqZ. unfold is_word. lia.
  - lia.
  - cbv zeta in E. rewrite E. vm_compute. reflexivity.
Defined.
