(* ===== verification/PageTable.v ===== *)
(** * The page tables of the kernel module (hello-module.c, pt.h, pt-defs.h)

    The kernel module prepares a translation table of its own: [mm_create_mapping]
    enters sections of 1 MB and pages of 4 KB into it, [backup_os_pt], [load_new_pt]
    and [restore_os_pt] save, replace and restore the translation table registers.
    The descriptors are C unions of bit fields; a layout is the list of the fields
    with their widths, and the position of a field is computed from it.  Physical
    memory is a function from addresses to words.  What the hardware makes of the
    table is the function [walk], the short-descriptor translation of ARMv7.  The
    kernel's memory allocator is an interface. *)

From stdpp Require Import strings.
From S2P Require Import Prelude.

(** ** Bit fields *)

Definition layout : Type := list (string * Z).

(** The position and the width of a field; fields are allocated from bit 0 on. *)
Fixpoint field_at (l : layout) (name : string) (off : Z) : Z * Z :=
  match l with
  | [] => (off, 0)
  | (n, w) :: l => if String.eqb n name then (off, w) else field_at l name (off + w)
  end.

Definition bits (off w x : Z) : Z := (x / 2 ^ off) mod 2 ^ w.
Definition set_bits (off w v x : Z) : Z := x - bits off w x * 2 ^ off + (v mod 2 ^ w) * 2 ^ off.

Definition get (l : layout) (name : string) (x : Z) : Z :=
  let '(off, w) := field_at l name 0 in bits off w x.
Definition set (l : layout) (name : string) (v x : Z) : Z :=
  let '(off, w) := field_at l name 0 in set_bits off w v x.

(** [arm_vmsa_lvl1desc_section_t] *)
Definition arm_vmsa_lvl1desc_section : layout :=
  [("type", 2); ("b", 1); ("c", 1); ("executenever", 1); ("domain", 4); ("imp", 1);
   ("accesspermission", 2); ("tex", 3); ("accesspermission_x", 1); ("shareable", 1);
   ("notglobal", 1); ("supersection", 1); ("ns", 1); ("address", 12)]%string.

(** [arm_vmsa_lvl2desc_page4k_t] *)
Definition arm_vmsa_lvl2desc_page4k : layout :=
  [("execute_never", 1); ("type", 1); ("b", 1); ("c", 1); ("accesspermission", 2);
   ("tex", 3); ("accesspermission_x", 1); ("shareable", 1); ("notglobal", 1);
   ("address", 20)]%string.

(** [arm_vmsa_lvl1desc_pagetable_t] *)
Definition arm_vmsa_lvl1desc_pagetable : layout :=
  [("type", 2); ("sbz0", 1); ("ns", 1); ("sbz1", 1); ("domain", 4); ("imp", 1);
   ("address", 22)]%string.

Definition ARM_L1_PAGETABLE_ENTRIES : Z := Z.shiftl 1 12.
Definition ARM_VMSA_L2_PAGE_SHIFT : Z := 10.
Definition ARM_VMSA_PAGE_SHIFT : Z := 12.
Definition ARM_VMSA_NS_NONSECURE : Z := 0x1.
Definition ARM_VMSA_EXECUTE : Z := 0x0.
Definition ARM_VMSA_ACCESS_FULL : Z := 0x3.
Definition ARM_VMSA_LVL1DESC_TYPE_PAGETABLE : Z := 0x1.
Definition ARM_VMSA_LVL1DESC_TYPE_SECTION : Z := 0x2.
Definition ARM_VMSA_LVL2DESC_TYPE_PAGE4K : Z := 0x1.
Definition CREATE_1M_PAGE : Z := 0.
Definition CREATE_4K_PAGE : Z := 1.
Definition paddr_to_l2pfn (paddr : Z) : Z := Z.shiftr paddr ARM_VMSA_PAGE_SHIFT.

(** memory.h, configured with [CONFIG_PAGE_OFFSET] 0xC0000000 *)
Definition PAGE_OFFSET : Z := 0xC0000000.
Definition MODULES_VADDR : Z := PAGE_OFFSET - 16 * 1024 * 1024.

(** A memory, or any function on numbers, changed in one place *)
Definition store {A} (a : Z) (v : A) (m : Z -> A) : Z -> A := fun b => if b =? a then v else m b.

(** [kmalloc]: the address of the memory, or 0 *)
Class Kmalloc (H : Type) := kmalloc : Z -> H -> Z * H.

(** The memory, the allocator, the translation table registers and the variables of
    the module. *)
Record mmu (H : Type) := mk_mmu {
  pmem : Z -> Z;
  heap : H;
  ttbcr : Z;
  ttbr0 : Z;
  ttbr1 : Z;
  origin_ttbcr : Z;
  origin_ttbr0 : Z;
  origin_ttbr1 : Z }.
#[global] Arguments mk_mmu {H}.
#[global] Arguments pmem {H}. #[global] Arguments heap {H}. #[global] Arguments ttbcr {H}.
#[global] Arguments ttbr0 {H}. #[global] Arguments ttbr1 {H}. #[global] Arguments origin_ttbcr {H}.
#[global] Arguments origin_ttbr0 {H}. #[global] Arguments origin_ttbr1 {H}.

Section PageTable.
Context {H : Type} `{!Kmalloc H}.
Implicit Types s : mmu H.

(** Where the memory starts and how much of it the kernel maps linearly; where the
    array [l1_pt] is in the address space of the kernel.  The array belongs to a
    module, so its four pages are wherever the kernel has found memory for them:
    [l1_page i] is the physical address of the page [i]. *)
Variables (PHYS_OFFSET lowmem l1_pt : Z) (l1_page : Z -> Z).

Definition l1_phys : Z := l1_page 0.

(** The physical address of [l1_pt[i]] *)
Definition l1_word (i : Z) : Z := l1_page (i / 1024) + 4 * (i mod 1024).

Definition with_pmem s (m : Z -> Z) : mmu H :=
  mk_mmu m (heap s) (ttbcr s) (ttbr0 s) (ttbr1 s) (origin_ttbcr s) (origin_ttbr0 s) (origin_ttbr1 s).
Definition with_heap s (h : H) : mmu H :=
  mk_mmu (pmem s) h (ttbcr s) (ttbr0 s) (ttbr1 s) (origin_ttbcr s) (origin_ttbr0 s) (origin_ttbr1 s).
Definition with_regs s (c t0 t1 : Z) : mmu H :=
  mk_mmu (pmem s) (heap s) c t0 t1 (origin_ttbcr s) (origin_ttbr0 s) (origin_ttbr1 s).

Definition virt_to_phys (x : Z) : Z := u32 (x - PAGE_OFFSET + PHYS_OFFSET).
Definition phys_to_virt (x : Z) : Z := u32 (x - PHYS_OFFSET + PAGE_OFFSET).

(** A store through a kernel pointer; outside the linear mapping there is a fault. *)
Definition kstore (p v : Z) s : option (mmu H) :=
  if (PAGE_OFFSET <=? p) && (p <? PAGE_OFFSET + lowmem)
  then Some (with_pmem s (store (virt_to_phys p) v (pmem s))) else None.

(** ** The registers *)

Definition swatt_arm_set_ttbr0 (value : Z) s : mmu H := with_regs s (ttbcr s) value (ttbr1 s).
Definition swatt_arm_read_ttbr0 s : Z := ttbr0 s.
Definition swatt_arm_set_ttbr1 (value : Z) s : mmu H := with_regs s (ttbcr s) (ttbr0 s) value.
Definition swatt_arm_read_ttbr1 s : Z := ttbr1 s.
Definition swatt_arm_set_ttbcr (value : Z) s : mmu H := with_regs s value (ttbr0 s) (ttbr1 s).
Definition swatt_arm_get_ttbcr s : Z := ttbcr s.

Definition backup_os_pt s : mmu H :=
  mk_mmu (pmem s) (heap s) (ttbcr s) (ttbr0 s) (ttbr1 s)
    (swatt_arm_get_ttbcr s) (swatt_arm_read_ttbr0 s) (swatt_arm_read_ttbr1 s).

Definition restore_os_pt s : mmu H :=
  let s := swatt_arm_set_ttbcr (origin_ttbcr s) s in
  let s := swatt_arm_set_ttbr0 (origin_ttbr0 s) s in
  swatt_arm_set_ttbr1 (origin_ttbr1 s) s.

Definition load_new_pt s : mmu H := swatt_arm_set_ttbr0 (virt_to_phys l1_pt) s.

(** [hello_init]: of all this the module only saves the registers when it is loaded. *)
Definition hello_init s : Z * mmu H := (0, backup_os_pt s).

(** The same in pt.c, whose [swatt_arm_set_ttbr1] names the other register and whose
    [backup_os_pt] prints but does not save. *)
Definition pt_set_ttbr1 (value : Z) s : mmu H := with_regs s (ttbcr s) value (ttbr1 s).
Definition pt_backup_os_pt s : mmu H := s.
Definition pt_restore_os_pt s : mmu H :=
  let s := swatt_arm_set_ttbcr (origin_ttbcr s) s in
  let s := swatt_arm_set_ttbr0 (origin_ttbr0 s) s in
  pt_set_ttbr1 (origin_ttbr1 s) s.

(** ** The mappings *)

(** The descriptor of a section over what the entry held before *)
Definition section_desc (paddr s_ns_access d : Z) : Z :=
  let d := set arm_vmsa_lvl1desc_section "type" ARM_VMSA_LVL1DESC_TYPE_SECTION d in
  let d := set arm_vmsa_lvl1desc_section "address" (Z.shiftr paddr 20) d in
  let d := set arm_vmsa_lvl1desc_section "ns" s_ns_access d in
  let d := set arm_vmsa_lvl1desc_section "notglobal" 0 d in
  let d := set arm_vmsa_lvl1desc_section "accesspermission" ARM_VMSA_ACCESS_FULL d in
  set arm_vmsa_lvl1desc_section "executenever" ARM_VMSA_EXECUTE d.

Definition mm_create1M_mapping (vaddr paddr s_ns_access : Z) s : mmu H :=
  let idx := Z.land (Z.shiftr vaddr 20) 0xFFF in
  let a := l1_word idx in
  with_pmem s (store a (section_desc paddr s_ns_access (pmem s a)) (pmem s)).

(** The entry of an address, as the physical address of the word *)
Definition mm_get_lv1_entry (vaddr : Z) : Z := l1_word (Z.shiftr vaddr 20).

Definition mm_alloc_1k_aligned s : Z * mmu H :=
  let '(addr, h) := kmalloc (1024 * 2) (heap s) in
  (Z.land addr 0xFFFFFC00, with_heap s h).

(** The descriptor of a table, in an entry that is 0 *)
Definition table_desc (l2_page s_ns_access : Z) : Z :=
  let d := set arm_vmsa_lvl1desc_pagetable "type" ARM_VMSA_LVL1DESC_TYPE_PAGETABLE 0 in
  let d := set arm_vmsa_lvl1desc_pagetable "ns" s_ns_access d in
  set arm_vmsa_lvl1desc_pagetable "address" (Z.shiftr (virt_to_phys l2_page) ARM_VMSA_L2_PAGE_SHIFT) d.

Definition page_desc (paddr : Z) : Z :=
  let d := set arm_vmsa_lvl2desc_page4k "type" ARM_VMSA_LVL2DESC_TYPE_PAGE4K 0 in
  let d := set arm_vmsa_lvl2desc_page4k "address" (paddr_to_l2pfn paddr) d in
  let d := set arm_vmsa_lvl2desc_page4k "c" 1 d in
  let d := set arm_vmsa_lvl2desc_page4k "b" 1 d in
  let d := set arm_vmsa_lvl2desc_page4k "tex" 0x5 d in
  let d := set arm_vmsa_lvl2desc_page4k "notglobal" 0 d in
  let d := set arm_vmsa_lvl2desc_page4k "accesspermission" ARM_VMSA_ACCESS_FULL d in
  set arm_vmsa_lvl2desc_page4k "execute_never" ARM_VMSA_EXECUTE d.

(** The first half of [mm_create4K_mapping]: the entry refers to a table. *)
Definition provide_table (vaddr s_ns_access : Z) s : mmu H :=
  let a := mm_get_lv1_entry vaddr in
  let d := pmem s a in
  let d := if (get arm_vmsa_lvl1desc_pagetable "type" d =? ARM_VMSA_LVL1DESC_TYPE_SECTION)
              || (get arm_vmsa_lvl1desc_pagetable "address" d =? 0) then 0 else d in
  if d =? 0 then
    let '(l2_page, s) := mm_alloc_1k_aligned s in
    with_pmem s (store a (table_desc l2_page s_ns_access) (pmem s))
  else s.

Definition mm_create4K_mapping (vaddr paddr s_ns_access : Z) s : option (mmu H) :=
  let s := provide_table vaddr s_ns_access s in
  let d := pmem s (mm_get_lv1_entry vaddr) in
  let l2_offset := Z.land (Z.shiftr vaddr 12) 0xFF in
  let l2_page_paddr := shl32 (get arm_vmsa_lvl1desc_pagetable "address" d) ARM_VMSA_L2_PAGE_SHIFT in
  kstore (u32 (phys_to_virt l2_page_paddr + 4 * l2_offset)) (page_desc paddr) s.

Definition mm_create_mapping (vaddr paddr create_option : Z) s : option (mmu H) :=
  if create_option =? CREATE_1M_PAGE then Some (mm_create1M_mapping vaddr paddr ARM_VMSA_NS_NONSECURE s)
  else if create_option =? CREATE_4K_PAGE then mm_create4K_mapping vaddr paddr ARM_VMSA_NS_NONSECURE s
  else Some s.

(** ** The hardware *)

(** A translation: the physical address, the access permission with its third bit,
    whether the memory may be executed and whether the access is non-secure. *)
Record translation := mk_tr { tr_addr : Z; tr_ap : Z; tr_apx : Z; tr_xn : Z; tr_ns : Z }.

(** The short-descriptor translation through [TTBR0] (with [TTBCR.N] = 0): a fault, a
    section, a supersection, a small page or a large page. *)
Definition walk (m : Z -> Z) (base v : Z) : option translation :=
  let d := m (bits 14 18 base * 2 ^ 14 + 4 * (v / 2 ^ 20)) in
  match bits 0 2 d with
  | 1 =>
      let e := m (bits 10 22 d * 2 ^ 10 + 4 * bits 12 8 v) in
      if bits 1 1 e =? 1 then
        Some (mk_tr (bits 12 20 e * 2 ^ 12 + v mod 2 ^ 12) (bits 4 2 e) (bits 9 1 e) (bits 0 1 e) (bits 3 1 d))
      else if bits 0 2 e =? 1 then
        Some (mk_tr (bits 16 16 e * 2 ^ 16 + v mod 2 ^ 16) (bits 4 2 e) (bits 9 1 e) (bits 15 1 e) (bits 3 1 d))
      else None
  | 2 =>
      Some (mk_tr (if bits 18 1 d =? 1
                   then bits 5 4 d * 2 ^ 36 + bits 20 4 d * 2 ^ 32 + bits 24 8 d * 2 ^ 24 + v mod 2 ^ 24
                   else bits 20 12 d * 2 ^ 20 + v mod 2 ^ 20)
              (bits 10 2 d) (bits 15 1 d) (bits 4 1 d) (bits 19 1 d))
  | _ => None
  end.

(** ** Bit fields of normal forms *)

Lemma bits_low n o w k c :
  0 <= o -> 0 <= w -> o + w <= n -> bits o w (k * 2 ^ n + c) = bits o w c.
Proof.
  intros Ho Hw Hn. unfold bits.
  replace n with ((n - o - w) + w + o) by lia. rewrite !Z.pow_add_r by lia.
  rewrite !Z.mul_assoc, Z.div_add_l by (apply Z.pow_nonzero; lia).
  rewrite Z.add_comm, Z.mod_add by (apply Z.pow_nonzero; lia). done.
Qed.

Lemma bits_high n w k c : 0 <= n -> 0 <= c < 2 ^ n -> 0 <= k < 2 ^ w -> bits n w (k * 2 ^ n + c) = k.
Proof.
  intros Hn Hc Hk. unfold bits. rewrite Z.div_add_l by lia. rewrite (Z.div_small c) by lia.
  rewrite Z.add_0_r. by apply Z.mod_small.
Qed.

Lemma set_bits_low n o w v k c :
  0 <= o -> 0 <= w -> o + w <= n -> set_bits o w v (k * 2 ^ n + c) = k * 2 ^ n + set_bits o w v c.
Proof. intros. unfold set_bits. rewrite (bits_low n) by lia. lia. Qed.

Lemma set_bits_high n w v k c :
  0 <= n -> 0 <= c < 2 ^ n -> 0 <= k < 2 ^ w ->
  set_bits n w v (k * 2 ^ n + c) = (v mod 2 ^ w) * 2 ^ n + c.
Proof. intros. unfold set_bits. rewrite (bits_high n) by lia. lia. Qed.

(** The descriptors that the module makes *)
Definition sect (k : Z) : Z := k * 2 ^ 20 + 0x80C02.
Definition tab (q : Z) : Z := q * 2 ^ 10 + 0x9.
Definition page (p : Z) : Z := p * 2 ^ 12 + 0x17E.

(** Rewriting a descriptor with known low bits, field by field *)
Ltac set_fields n :=
  repeat match goal with
  | |- context [set ?l ?f ?v (?k * 2 ^ n + ?c)] =>
      let o := eval vm_compute in (field_at l f 0).1 in
      let w := eval vm_compute in (field_at l f 0).2 in
      change (set l f v (k * 2 ^ n + c)) with (set_bits o w v (k * 2 ^ n + c));
      first [rewrite (set_bits_low n o w v k c) by lia;
             let x := eval vm_compute in (set_bits o w v c) in change (set_bits o w v c) with x
            |rewrite (set_bits_high n w v k c) by lia]
  end.

Lemma section_desc_fresh paddr d :
  is_u32 paddr -> d = 0 \/ (exists k, 0 <= k < 2 ^ 12 /\ d = sect k) ->
  section_desc paddr ARM_VMSA_NS_NONSECURE d = sect (paddr / 2 ^ 20).
Proof.
  intros Hp Hd. assert (exists k c, 0 <= k < 2 ^ 12 /\ d = k * 2 ^ 20 + c /\ (c = 0 \/ c = 0x80C02)) as
    (k & c & Hk & -> & Hc).
  { destruct Hd as [-> | (k & Hk & ->)]; [exists 0, 0|exists k, 0x80C02]; unfold sect; lia. }
  unfold section_desc, sect. rewrite Z.shiftr_div_pow2 by lia.
  assert (Hm : (paddr / 2 ^ 20) mod 2 ^ 12 = paddr / 2 ^ 20) by (unfold is_word in Hp; div_lia).
  destruct Hc as [-> | ->]; set_fields 20; rewrite Hm; set_fields 20; done.
Qed.

Lemma table_desc_eq l2 q :
  virt_to_phys l2 = q * 2 ^ 10 -> 0 <= q < 2 ^ 22 -> table_desc l2 ARM_VMSA_NS_NONSECURE = tab q.
Proof.
  intros E Hq. unfold table_desc, tab. rewrite E. change (Z.shiftr (q * 2 ^ 10) ARM_VMSA_L2_PAGE_SHIFT)
    with (Z.shiftr (q * 2 ^ 10) 10). rewrite Z.shiftr_div_pow2, Z.div_mul by lia.
  change 0 with (0 * 2 ^ 10 + 0). set_fields 10. by rewrite Z.mod_small.
Qed.

Lemma page_desc_eq paddr : is_u32 paddr -> page_desc paddr = page (paddr / 2 ^ 12).
Proof.
  intros Hp. unfold page_desc, page, paddr_to_l2pfn, ARM_VMSA_PAGE_SHIFT.
  rewrite Z.shiftr_div_pow2 by lia.
  assert (Hm : (paddr / 2 ^ 12) mod 2 ^ 20 = paddr / 2 ^ 12) by (unfold is_word in Hp; div_lia).
  change 0 with (0 * 2 ^ 12 + 0) at 2. set_fields 12. rewrite Hm. set_fields 12. done.
Qed.

(** ** What the table is for *)

(** Each megabyte of the address space is not mapped, mapped as a whole, or mapped
    by pages. *)
Inductive region := Unmapped | Whole (k : Z) | Pages (f : Z -> option Z).

Definition pages_of (r : region) : Z -> option Z :=
  match r with Pages f => f | _ => fun _ => None end.

(** A page in a megabyte that was mapped as a whole takes its place. *)
Definition spec_map (vaddr paddr create_option : Z) (R : Z -> region) : Z -> region :=
  let mb := vaddr / 2 ^ 20 in
  store mb (if create_option =? CREATE_1M_PAGE then Whole (paddr / 2 ^ 20)
            else Pages (store (bits 12 8 vaddr) (Some (paddr / 2 ^ 12)) (pages_of (R mb)))) R.

Definition spec_addr (R : Z -> region) (v : Z) : option Z :=
  match R (v / 2 ^ 20) with
  | Unmapped => None
  | Whole k => Some (k * 2 ^ 20 + v mod 2 ^ 20)
  | Pages f => p ← f (bits 12 8 v); Some (p * 2 ^ 12 + v mod 2 ^ 12)
  end.

(** A call with 32-bit addresses and one of the two options, which does not ask for
    a megabyte that is mapped by pages to be mapped as a whole. *)
Definition fits (R : Z -> region) (c : Z * Z * Z) : Prop :=
  let '(vaddr, paddr, create_option) := c in
  is_u32 vaddr /\ is_u32 paddr /\
  (create_option = CREATE_4K_PAGE \/
   create_option = CREATE_1M_PAGE /\ forall f, R (vaddr / 2 ^ 20) <> Pages f).

Fixpoint all_fit (R : Z -> region) (cs : list (Z * Z * Z)) : Prop :=
  match cs with
  | [] => True
  | c :: cs => fits R c /\ all_fit (let '(v, p, o) := c in spec_map v p o R) cs
  end.

Definition spec_maps (cs : list (Z * Z * Z)) (R : Z -> region) : Z -> region :=
  fold_left (fun R c => let '(v, p, o) := c in spec_map v p o R) cs R.

Fixpoint create_mappings (cs : list (Z * Z * Z)) s : option (mmu H) :=
  match cs with
  | [] => Some s
  | (v, p, o) :: cs => s ← mm_create_mapping v p o s; create_mappings cs s
  end.

(** The allocator returns 0, or 2 KB of the linear mapping at an address that is a
    multiple of 1 KB; the first kilobyte has not been in use ([taken], by its number)
    and is from then on. *)
Record kmalloc_ok (taken : H -> Z -> Prop) : Prop := {
  km_range h a h' : kmalloc 2048 h = (a, h') -> a <> 0 ->
    a mod 1024 = 0 /\ PAGE_OFFSET <= a /\ a + 2048 <= PAGE_OFFSET + lowmem;
  km_fresh h a h' : kmalloc 2048 h = (a, h') -> a <> 0 ->
    ~ taken h (virt_to_phys a / 1024) /\ taken h' (virt_to_phys a / 1024);
  km_keeps h a h' q : kmalloc 2048 h = (a, h') -> taken h q -> taken h' q }.

(** The memory is where it can be addressed, and the table is aligned.  The hardware
    takes the table to be one block of 16 KB: [pl_pages] says that the pages of the
    array are one, which nothing in the module sees to. *)
Record place_ok : Prop := {
  pl_phys : 0 < PHYS_OFFSET /\ PHYS_OFFSET mod 1024 = 0;
  pl_low : 0 <= lowmem /\ PHYS_OFFSET + lowmem <= 2 ^ 32 /\ PAGE_OFFSET + lowmem <= 2 ^ 32;
  pl_l1 : 0 <= l1_phys /\ l1_phys mod 2 ^ 14 = 0 /\ l1_phys + 2 ^ 14 <= 2 ^ 32;
  pl_pages i : 0 <= i < 4 -> l1_page i = l1_phys + 4096 * i }.

Definition in_l1 (q : Z) : Prop := l1_phys <= q * 1024 < l1_phys + 2 ^ 14.

(** *** The refinement *)

Variable taken : H -> Z -> Prop.
Hypothesis Hplace : place_ok.
Hypothesis Hkm : kmalloc_ok taken.

Lemma l1_word_eq i : 0 <= i < 2 ^ 12 -> l1_word i = l1_phys + 4 * i.
Proof. intros Hi. unfold l1_word. rewrite (pl_pages Hplace) by div_lia. div_lia. Qed.

Definition entry_ok (m : Z -> Z) (r : region) (a q : Z) : Prop :=
  match r with
  | Unmapped => m a = 0
  | Whole k => 0 <= k < 2 ^ 12 /\ m a = sect k
  | Pages f => m a = tab q /\ forall j p, 0 <= j < 256 -> f j = Some p ->
                 0 <= p < 2 ^ 20 /\ m (q * 1024 + 4 * j) = page p
  end.

Record table_ok (q : Z) (h : H) : Prop := {
  tb_range : PHYS_OFFSET <= q * 1024 /\ q * 1024 + 1024 <= PHYS_OFFSET + lowmem;
  tb_apart : ~ in_l1 q;
  tb_taken : taken h q }.

Record refines (R : Z -> region) (T : Z -> Z) s : Prop := {
  rf_entry mb : 0 <= mb < 2 ^ 12 -> entry_ok (pmem s) (R mb) (l1_phys + 4 * mb) (T mb);
  rf_table mb f : 0 <= mb < 2 ^ 12 -> R mb = Pages f -> table_ok (T mb) (heap s);
  rf_inj mb mb' f f' : 0 <= mb < 2 ^ 12 -> 0 <= mb' < 2 ^ 12 ->
    R mb = Pages f -> R mb' = Pages f' -> T mb = T mb' -> mb = mb';
  rf_l1 q : in_l1 q -> taken (heap s) q }.

Lemma store_eq {A} a (v : A) m : store a v m a = v.
Proof. unfold store. by rewrite Z.eqb_refl. Qed.

Lemma store_ne {A} a (v : A) m b : b <> a -> store a v m b = m b.
Proof. intros Hb. unfold store. by rewrite (proj2 (Z.eqb_neq b a)). Qed.

(** A second-level table is apart from the first-level table. *)
Lemma table_apart q h mb j :
  table_ok q h -> 0 <= mb < 2 ^ 12 -> 0 <= j < 256 -> q * 1024 + 4 * j <> l1_phys + 4 * mb.
Proof.
  intros [_ Ha _] Hmb Hj E. apply Ha. unfold in_l1. destruct Hplace as [_ _ (H0 & H1 & H2) _]. div_lia.
Qed.

(** An entry that does not see a store *)
Lemma entry_ok_store m r a q b v :
  entry_ok m r a q -> a <> b ->
  (forall f, r = Pages f -> forall j, 0 <= j < 256 -> q * 1024 + 4 * j <> b) ->
  entry_ok (store b v m) r a q.
Proof.
  intros Hr Ha Hq. destruct r as [|k|f]; cbn in *; rewrite store_ne by done; [done|done|].
  destruct Hr as [Hr Hf]. split; [done|]. intros j p Hj Ep. rewrite store_ne by (by eapply Hq). by apply Hf.
Qed.

(** A new first-level entry *)
Lemma refines_entry R T s mb r d :
  refines R T s -> 0 <= mb < 2 ^ 12 -> (forall f, r <> Pages f) ->
  entry_ok (fun _ => d) r 0 0 ->
  refines (store mb r R) T (with_pmem s (store (l1_phys + 4 * mb) d (pmem s))).
Proof.
  intros [He Ht Hi Hl] Hmb Hr Hd. constructor; [| | |exact Hl]; cbn [pmem heap with_pmem].
  - intros mb' Hmb'. destruct (decide (mb' = mb)) as [->|Hne].
    + rewrite store_eq. destruct r; cbn in *; rewrite ?store_eq; [done|done|by destruct (Hr f)].
    + rewrite store_ne by done. apply entry_ok_store; [by apply He|lia|].
      intros f Hf j Hj. eapply table_apart; [by eapply Ht|lia|lia].
  - intros mb' f Hmb' Hf. destruct (decide (mb' = mb)) as [->|Hne].
    + rewrite store_eq in Hf. by destruct (Hr f).
    + rewrite store_ne in Hf by done. by eapply Ht.
  - intros m1 m2 f1 f2 H1 H2 E1 E2. destruct (decide (m1 = mb)) as [->|]; [rewrite store_eq in E1; by destruct (Hr f1)|].
    destruct (decide (m2 = mb)) as [->|]; [rewrite store_eq in E2; by destruct (Hr f2)|].
    rewrite store_ne in E1, E2 by done. by eapply Hi.
Qed.

Lemma create1M_refines R T s vaddr paddr :
  refines R T s -> is_u32 vaddr -> is_u32 paddr -> (forall f, R (vaddr / 2 ^ 20) <> Pages f) ->
  refines (store (vaddr / 2 ^ 20) (Whole (paddr / 2 ^ 20)) R) T
    (mm_create1M_mapping vaddr paddr ARM_VMSA_NS_NONSECURE s).
Proof.
  intros Hs Hv Hp Hf. unfold mm_create1M_mapping. rewrite Z.shiftr_div_pow2 by lia.
  change 0xFFF with (Z.ones 12). rewrite Z.land_ones by lia.
  assert (Hmb : 0 <= vaddr / 2 ^ 20 < 2 ^ 12) by (unfold is_word in Hv; div_lia).
  rewrite (Z.mod_small _ (2 ^ 12)), l1_word_eq by done. cbv zeta. rewrite section_desc_fresh; [|done|].
  - apply refines_entry; [done|done|done|]. cbn. split; [unfold is_word in Hp; div_lia|done].
  - pose proof (rf_entry _ _ _ Hs _ Hmb) as He. destruct (R (vaddr / 2 ^ 20)) as [|k|f]; cbn in He.
    + by left.
    + right. by exists k.
    + by destruct (Hf f).
Qed.

Lemma align_down k : 0 <= k < 2 ^ 22 -> Z.land (k * 1024) 0xFFFFFC00 = k * 1024.
Proof.
  intros Hk. change 1024 with (2 ^ 10). rewrite <- Z.shiftl_mul_pow2 by lia.
  change 0xFFFFFC00 with (Z.shiftl (Z.ones 22) 10). rewrite <- Z.shiftl_land, Z.land_ones by lia.
  by rewrite Z.mod_small.
Qed.

Lemma linear_phys a :
  PAGE_OFFSET <= a < PAGE_OFFSET + lowmem -> virt_to_phys a = a - PAGE_OFFSET + PHYS_OFFSET.
Proof.
  intros Ha. destruct Hplace as [(H0 & _) (_ & H1 & _) _ _]. apply Z.mod_small. lia.
Qed.

Lemma linear_virt q :
  PHYS_OFFSET <= q < PHYS_OFFSET + lowmem -> phys_to_virt q = q - PHYS_OFFSET + PAGE_OFFSET.
Proof.
  intros Ha. destruct Hplace as [(H0 & _) (_ & _ & H1) _ _]. apply Z.mod_small. unfold PAGE_OFFSET in *. lia.
Qed.

(** A table from the allocator *)
Lemma alloc_table h a h' :
  (forall q, in_l1 q -> taken h q) -> kmalloc 2048 h = (a, h') -> a <> 0 ->
  exists q, virt_to_phys (Z.land a 0xFFFFFC00) = q * 2 ^ 10 /\ 0 < q < 2 ^ 22 /\
            ~ taken h q /\ table_ok q h'.
Proof.
  intros Hl E Ha. destruct (km_range _ Hkm _ _ _ E Ha) as (Hm & H1 & H2).
  destruct (km_fresh _ Hkm _ _ _ E Ha) as [Hn Ht]. pose proof Hplace as [(P0 & P1) (L0 & L1 & L2) _ _].
  unfold PAGE_OFFSET in *. assert (Ek : a = a / 1024 * 1024) by div_lia.
  assert (El : Z.land a 0xFFFFFC00 = a) by (rewrite Ek; apply align_down; div_lia). rewrite El.
  rewrite linear_phys in * by (unfold PAGE_OFFSET; lia). unfold PAGE_OFFSET in *.
  set (q := (a - 0xC0000000 + PHYS_OFFSET) / 1024) in *.
  assert (Eq : a - 0xC0000000 + PHYS_OFFSET = q * 1024) by (unfold q; div_lia).
  exists q. split; [lia|]. split; [lia|]. split; [done|]. constructor; [lia| |done].
  intros Hi. by apply Hn, Hl.
Qed.

Lemma get_tab q : 0 <= q < 2 ^ 22 ->
  get arm_vmsa_lvl1desc_pagetable "type" (tab q) = 1 /\
  get arm_vmsa_lvl1desc_pagetable "address" (tab q) = q.
Proof.
  intros Hq. split.
  - change (get arm_vmsa_lvl1desc_pagetable "type" (tab q)) with (bits 0 2 (q * 2 ^ 10 + 0x9)).
    by rewrite (bits_low 10) by lia.
  - change (get arm_vmsa_lvl1desc_pagetable "address" (tab q)) with (bits 10 22 (q * 2 ^ 10 + 0x9)).
    by apply bits_high.
Qed.

Lemma refines_ext R R' T s : (forall mb, R' mb = R mb) -> refines R T s -> refines R' T s.
Proof.
  intros E [H1 H2 H3 H4]. constructor; [| | |done].
  - intros mb. rewrite E. apply H1.
  - intros mb f. rewrite E. apply H2.
  - intros m1 m2 f1 f2. rewrite !E. apply H3.
Qed.

(** A new second-level table, in which nothing is mapped *)
Lemma refines_fresh R T s mb q h' :
  refines R T s -> 0 <= mb < 2 ^ 12 -> (forall x, taken (heap s) x -> taken h' x) ->
  ~ taken (heap s) q -> table_ok q h' ->
  refines (store mb (Pages (fun _ => None)) R) (store mb q T)
    (with_pmem (with_heap s h') (store (l1_phys + 4 * mb) (tab q) (pmem s))).
Proof.
  intros [He Ht Hi Hl] Hmb Hk Hq Hok. constructor; cbn [pmem heap with_pmem with_heap].
  - intros mb' Hmb'. destruct (decide (mb' = mb)) as [->|Hne].
    + rewrite !store_eq. split; [by rewrite store_eq|done].
    + rewrite !store_ne by done. apply entry_ok_store; [by apply He|lia|].
      intros f Hf j Hj. eapply table_apart; [by eapply Ht|lia|lia].
  - intros mb' f Hmb'. destruct (decide (mb' = mb)) as [->|Hne]; [by rewrite !store_eq|].
    rewrite !store_ne by done. intros Hf. destruct (Ht _ _ Hmb' Hf). constructor; auto.
  - intros m1 m2 f1 f2 H1 H2. destruct (decide (m1 = mb)) as [->|N1], (decide (m2 = mb)) as [->|N2]; [done|..];
      rewrite ?store_eq, ?(store_ne mb _ _ m1), ?(store_ne mb _ _ m2) by done; intros E1 E2 E.
    + destruct Hq. rewrite E. by apply (Ht m2 f2).
    + destruct Hq. rewrite <- E. by apply (Ht m1 f1).
    + by eapply Hi.
  - intros x Hx. auto.
Qed.

(** What [mm_create4K_mapping] makes of the old entry: a table is kept, anything
    else is discarded. *)
Lemma old_entry m r a q :
  entry_ok m r a q -> 0 < q < 2 ^ 22 \/ (forall f, r <> Pages f) ->
  (if (get arm_vmsa_lvl1desc_pagetable "type" (m a) =? ARM_VMSA_LVL1DESC_TYPE_SECTION)
      || (get arm_vmsa_lvl1desc_pagetable "address" (m a) =? 0) then 0 else m a) =
  match r with Pages _ => tab q | _ => 0 end.
Proof.
  destruct r as [|k|f]; cbn [entry_ok].
  - by intros ->.
  - intros [Hk ->] _. change (get arm_vmsa_lvl1desc_pagetable "type" (sect k)) with (bits 0 2 (k * 2 ^ 20 + 0x80C02)).
    by rewrite (bits_low 20) by lia.
  - intros [-> _] [Hq|Hf]; [|by destruct (Hf f)]. destruct (get_tab q) as [Et Ea]; [lia|].
    rewrite Et, Ea, (proj2 (Z.eqb_neq q 0)) by lia. done.
Qed.

Lemma table_number q h : table_ok q h -> 0 < q < 2 ^ 22.
Proof. intros [[] _ _]. destruct Hplace as [[] (_ & ? & _) _ _]. lia. Qed.

(** The first half of [mm_create4K_mapping]: the megabyte is mapped by pages. *)
Lemma provide_table_refines R T s vaddr :
  refines R T s -> is_u32 vaddr ->
  let mb := vaddr / 2 ^ 20 in
  (exists T', refines (store mb (Pages (pages_of (R mb))) R) T' (provide_table vaddr ARM_VMSA_NS_NONSECURE s)) \/
  (exists h', kmalloc 2048 (heap s) = (0, h')) /\ (forall f, R mb <> Pages f) /\
    pmem (provide_table vaddr ARM_VMSA_NS_NONSECURE s) (mm_get_lv1_entry vaddr) =
    table_desc 0 ARM_VMSA_NS_NONSECURE.
Proof.
  intros Hs Hv mb. assert (Hmb : 0 <= mb < 2 ^ 12) by (unfold is_word in Hv; subst mb; div_lia).
  unfold provide_table, mm_get_lv1_entry. rewrite Z.shiftr_div_pow2 by lia. fold mb. rewrite l1_word_eq by done.
  cbv zeta.
  rewrite (old_entry _ _ _ _ (rf_entry _ _ _ Hs _ Hmb)).
  2: { destruct (R mb) as [|k|f] eqn:ER; [by right|by right|]. left. by eapply table_number, rf_table. }
  set (new := let '(l2_page, s) := mm_alloc_1k_aligned s in
    with_pmem s (store (l1_phys + 4 * mb) (table_desc l2_page ARM_VMSA_NS_NONSECURE) (pmem s))).
  assert (Hnew : (exists T', refines (store mb (Pages (fun _ => None)) R) T' new) \/
    (exists h', kmalloc 2048 (heap s) = (0, h')) /\
      pmem new (l1_phys + 4 * mb) = table_desc 0 ARM_VMSA_NS_NONSECURE).
  { unfold new, mm_alloc_1k_aligned. change (1024 * 2) with 2048.
    destruct (kmalloc 2048 (heap s)) as [a h'] eqn:Ek.
    destruct (decide (a = 0)) as [->|Ha]; [right; split; [by exists h'|apply store_eq]|left].
    destruct (alloc_table _ _ _ (rf_l1 _ _ _ Hs) Ek Ha) as (q & Eq & Hq & Hn & Hok).
    rewrite (table_desc_eq _ q) by (done || lia). exists (store mb q T). apply (refines_fresh R T s mb q h'); try done.
    intros x. by apply (km_keeps _ Hkm _ _ _ _ Ek). }
  assert (Hnone : (forall f, R mb <> Pages f) -> pages_of (R mb) = (fun _ => None) ->
    (exists T', refines (store mb (Pages (pages_of (R mb))) R) T' new) \/
    (exists h', kmalloc 2048 (heap s) = (0, h')) /\ (forall f, R mb <> Pages f) /\
      pmem new (l1_phys + 4 * mb) = table_desc 0 ARM_VMSA_NS_NONSECURE).
  { intros Hf ->. destruct Hnew as [Hnew|[Hk Ed]]; [by left|by right]. }
  destruct (R mb) as [|k|f] eqn:ER; cbn [pages_of] in *; [by apply Hnone|by apply Hnone|].
  rewrite (proj2 (Z.eqb_neq (tab (T mb)) 0)).
  - left. exists T. eapply refines_ext; [|exact Hs]. intros mb'. unfold store.
    destruct (Z.eqb_spec mb' mb); [by subst|done].
  - pose proof (table_number _ _ (rf_table _ _ _ Hs _ _ Hmb ER)). unfold tab. lia.
Qed.

(** A new page in a megabyte that is mapped by pages *)
Lemma refines_page R T s mb f j p :
  refines R T s -> 0 <= mb < 2 ^ 12 -> R mb = Pages f -> 0 <= j < 256 -> 0 <= p < 2 ^ 20 ->
  refines (store mb (Pages (store j (Some p) f)) R) T
    (with_pmem s (store (T mb * 1024 + 4 * j) (page p) (pmem s))).
Proof.
  intros [He Ht Hi Hl] Hmb ER Hj Hp. pose proof (Ht _ _ Hmb ER) as Hok.
  constructor; cbn [pmem heap with_pmem]; [| | |done].
  - intros mb' Hmb'. destruct (decide (mb' = mb)) as [->|Hne].
    + rewrite store_eq. specialize (He _ Hmb). rewrite ER in He. destruct He as [He Hf]. split.
      * rewrite store_ne; [done|]. intros E. by eapply table_apart.
      * intros j' p' Hj'. destruct (decide (j' = j)) as [->|Hn].
        -- rewrite !store_eq. by intros [= <-].
        -- rewrite !store_ne by lia. by apply Hf.
    + rewrite store_ne by done. apply entry_ok_store; [by apply He| |].
      * intros E. by eapply table_apart.
      * intros f' Hf' j' Hj' E. apply Hne. eapply Hi; [done|done|done|done|]. lia.
  - intros mb' f' Hmb'. destruct (decide (mb' = mb)) as [->|Hne]; [by intros|].
    rewrite store_ne by done. by apply Ht.
  - intros m1 m2 f1 f2 H1 H2. destruct (decide (m1 = mb)) as [->|N1], (decide (m2 = mb)) as [->|N2]; [done|..];
      rewrite ?store_eq, ?(store_ne mb _ _ m1), ?(store_ne mb _ _ m2) by done; intros E1 E2; by eapply Hi.
Qed.

(** The word that [mm_create4K_mapping] stores to *)
Lemma page_store q j v s :
  PHYS_OFFSET <= q * 1024 -> q * 1024 + 1024 <= PHYS_OFFSET + lowmem -> 0 <= j < 256 ->
  kstore (u32 (phys_to_virt (shl32 q ARM_VMSA_L2_PAGE_SHIFT) + 4 * j)) v s =
  Some (with_pmem s (store (q * 1024 + 4 * j) v (pmem s))).
Proof.
  intros H1 H2 Hj. pose proof Hplace as [(P0 & _) (_ & L1 & L2) _ _]. unfold PAGE_OFFSET in *.
  assert (E : shl32 q ARM_VMSA_L2_PAGE_SHIFT = q * 1024).
  { unfold shl32, ARM_VMSA_L2_PAGE_SHIFT. rewrite Z.shiftl_mul_pow2 by lia. apply u32_small. unfold is_word. lia. }
  rewrite E, linear_virt by lia. unfold PAGE_OFFSET. rewrite u32_small by (unfold is_word; lia).
  unfold kstore, PAGE_OFFSET. rewrite linear_phys by (unfold PAGE_OFFSET; lia).
  rewrite (proj2 (Z.leb_le _ _)), (proj2 (Z.ltb_lt _ _)) by lia. unfold PAGE_OFFSET. do 2 f_equal. f_equal. lia.
Qed.

(** Without memory the store goes to page zero. *)
Lemma null_store j v s :
  0 <= j < 256 ->
  kstore (u32 (phys_to_virt (shl32 (get arm_vmsa_lvl1desc_pagetable "address" (table_desc 0 ARM_VMSA_NS_NONSECURE))
                               ARM_VMSA_L2_PAGE_SHIFT) + 4 * j)) v s = None.
Proof.
  intros Hj. pose proof Hplace as [(P0 & P1) (_ & L1 & _) _ _].
  assert (exists q, virt_to_phys 0 = q * 2 ^ 10 /\ 0 <= q < 2 ^ 22) as (q & Eq & Hq).
  { unfold virt_to_phys, u32, PAGE_OFFSET. exists ((0 - 0xC0000000 + PHYS_OFFSET) mod 2 ^ 32 / 2 ^ 10). div_lia. }
  rewrite (table_desc_eq 0 q) by done. rewrite (proj2 (get_tab q Hq)).
  assert (E : shl32 q ARM_VMSA_L2_PAGE_SHIFT = virt_to_phys 0).
  { rewrite Eq. unfold shl32, ARM_VMSA_L2_PAGE_SHIFT. rewrite Z.shiftl_mul_pow2 by lia.
    apply u32_small. unfold is_word. lia. }
  rewrite E. assert (E0 : phys_to_virt (virt_to_phys 0) = 0).
  { unfold phys_to_virt, virt_to_phys, u32, PAGE_OFFSET. div_lia. }
  rewrite E0. unfold kstore, PAGE_OFFSET. rewrite u32_small by (unfold is_word; lia).
  rewrite (proj2 (Z.leb_gt _ _)) by lia. done.
Qed.

Lemma create4K_refines R T s vaddr paddr :
  refines R T s -> is_u32 vaddr -> is_u32 paddr ->
  match mm_create4K_mapping vaddr paddr ARM_VMSA_NS_NONSECURE s with
  | Some s' => exists T', refines (spec_map vaddr paddr CREATE_4K_PAGE R) T' s'
  | None => (exists h', kmalloc 2048 (heap s) = (0, h')) /\ forall f, R (vaddr / 2 ^ 20) <> Pages f
  end.
Proof.
  intros Hs Hv Hp. unfold mm_create4K_mapping. cbv zeta. rewrite Z.shiftr_div_pow2 by lia.
  change 0xFF with (Z.ones 8). rewrite Z.land_ones by lia. fold (bits 12 8 vaddr).
  assert (Hj : 0 <= bits 12 8 vaddr < 256) by (apply Z.mod_pos_bound; lia).
  destruct (provide_table_refines R T s vaddr Hs Hv) as [[T' Ht]|(Hk & Hf & E)].
  2: { rewrite E. by rewrite null_store. }
  set (mb := vaddr / 2 ^ 20) in *. assert (Hmb : 0 <= mb < 2 ^ 12) by (unfold is_word in Hv; subst mb; div_lia).
  set (s1 := provide_table _ _ _) in *. clearbody s1. unfold mm_get_lv1_entry.
  rewrite Z.shiftr_div_pow2 by lia. fold mb. rewrite l1_word_eq by done.
  pose proof (rf_entry _ _ _ Ht _ Hmb) as He. rewrite store_eq in He. destruct He as [-> _].
  pose proof (rf_table _ _ _ Ht _ _ Hmb (store_eq _ _ _)) as Hok.
  rewrite (proj2 (get_tab _ (conj (Z.lt_le_incl _ _ (proj1 (table_number _ _ Hok))) (proj2 (table_number _ _ Hok))))).
  destruct Hok as [[H1 H2] _ _]. rewrite page_store by done. exists T'. rewrite page_desc_eq by done.
  eapply refines_ext; [|eapply (refines_page _ T' s1 mb); [exact Ht|done|apply store_eq|done|unfold is_word in Hp; div_lia]].
  intros mb'. unfold spec_map, store. fold mb. by destruct (mb' =? mb).
Qed.

(** The calls [cs] stop at a page for a megabyte that is not mapped by pages: the
    allocator has no memory for the table when this call asks for it. *)
Definition out_of_memory (cs : list (Z * Z * Z)) (R : Z -> region) s : Prop :=
  exists cs1 v p cs2 s1 h', cs = cs1 ++ (v, p, CREATE_4K_PAGE) :: cs2 /\
    create_mappings cs1 s = Some s1 /\ (forall f, spec_maps cs1 R (v / 2 ^ 20) <> Pages f) /\
    kmalloc 2048 (heap s1) = (0, h').

Lemma create_mappings_refines cs R T s :
  refines R T s -> all_fit R cs ->
  match create_mappings cs s with
  | Some s' => exists T', refines (spec_maps cs R) T' s'
  | None => out_of_memory cs R s
  end.
Proof.
  revert R T s. induction cs as [|[[v p] o] cs IH]; intros R T s Hs; [by exists T|].
  intros [(Hv & Hp & Ho) Hfit]. cbn [create_mappings spec_maps fold_left].
  assert (Hstep : forall s1 T1, mm_create_mapping v p o s = Some s1 -> refines (spec_map v p o R) T1 s1 ->
    match create_mappings cs s1 with
    | Some s' => exists T', refines (spec_maps cs (spec_map v p o R)) T' s'
    | None => out_of_memory ((v, p, o) :: cs) R s
    end).
  { intros s1 T1 E1 H1. specialize (IH _ T1 s1 H1 Hfit). destruct (create_mappings cs s1); [done|].
    destruct IH as (cs1 & v' & p' & cs2 & s2 & h' & -> & E2 & Hf & Ek).
    exists ((v, p, o) :: cs1), v', p', cs2, s2, h'. cbn [create_mappings]. by rewrite E1. }
  destruct Ho as [-> | [-> Hf]].
  - pose proof (create4K_refines R T s v p Hs Hv Hp) as H1. unfold mm_create_mapping in *.
    change (CREATE_4K_PAGE =? CREATE_1M_PAGE) with false in *.
    change (CREATE_4K_PAGE =? CREATE_4K_PAGE) with true in *. cbn iota in *.
    destruct (mm_create4K_mapping v p _ s) as [s'|].
    + destruct H1 as [T' H1]. by apply (Hstep s' T').
    + destruct H1 as [[h' Ek] Hf]. by exists [], v, p, cs, s, h'.
  - apply (Hstep _ T); [done|]. by apply create1M_refines.
Qed.

(** The hardware finds what the table stands for. *)
Lemma l1_base : bits 14 18 l1_phys * 2 ^ 14 = l1_phys.
Proof. destruct Hplace as [_ _ (H0 & H1 & H2) _]. unfold bits. div_lia. Qed.

Lemma walk_section m base v k c :
  m (bits 14 18 base * 2 ^ 14 + 4 * (v / 2 ^ 20)) = k * 2 ^ 20 + c ->
  0 <= k < 2 ^ 12 -> 0 <= c < 2 ^ 20 -> bits 0 2 c = 2 ->
  walk m base v = Some (mk_tr
    (if bits 18 1 c =? 1 then bits 5 4 c * 2 ^ 36 + (k mod 2 ^ 4) * 2 ^ 32 + k / 2 ^ 4 * 2 ^ 24 + v mod 2 ^ 24
     else k * 2 ^ 20 + v mod 2 ^ 20)
    (bits 10 2 c) (bits 15 1 c) (bits 4 1 c) (bits 19 1 c)).
Proof.
  intros E Hk Hc H2. unfold walk. rewrite E, (bits_low 20 0 2), H2 by lia.
  rewrite (bits_low 20 18), (bits_low 20 5), (bits_low 20 10), (bits_low 20 15), (bits_low 20 4),
    (bits_low 20 19), (bits_high 20 12) by lia.
  assert (E4 : bits 20 4 (k * 2 ^ 20 + c) = k mod 2 ^ 4) by (unfold bits; div_lia).
  assert (E8 : bits 24 8 (k * 2 ^ 20 + c) = k / 2 ^ 4) by (unfold bits; div_lia).
  by rewrite E4, E8.
Qed.

Lemma walk_refines R T s v :
  refines R T s -> is_u32 v ->
  match spec_addr R v with
  | Some pa => walk (pmem s) l1_phys v = Some (mk_tr pa ARM_VMSA_ACCESS_FULL 0 ARM_VMSA_EXECUTE ARM_VMSA_NS_NONSECURE)
  | None => R (v / 2 ^ 20) = Unmapped -> walk (pmem s) l1_phys v = None
  end.
Proof.
  intros Hs Hv. unfold spec_addr. set (mb := v / 2 ^ 20).
  assert (Hmb : 0 <= mb < 2 ^ 12) by (unfold is_word in Hv; subst mb; div_lia).
  pose proof (rf_entry _ _ _ Hs _ Hmb) as He. destruct (R mb) as [|k|f] eqn:ER; cbn [entry_ok] in He.
  - intros _. unfold walk. rewrite l1_base. fold mb. by rewrite He.
  - destruct He as [Hk He]. apply (walk_section _ _ _ k 0x80C02); [by rewrite l1_base|done|done|done].
  - destruct He as [He Hf]. pose proof (table_number _ _ (rf_table _ _ _ Hs _ _ Hmb ER)) as Hq.
    assert (Hj : 0 <= bits 12 8 v < 256) by (apply Z.mod_pos_bound; lia).
    destruct (f (bits 12 8 v)) as [p|] eqn:Ef; cbn [mbind option_bind]; [|done].
    destruct (Hf _ _ Hj Ef) as [Hp Ep]. unfold walk. rewrite l1_base. fold mb. rewrite He. unfold tab.
    rewrite (bits_low 10 0), (bits_low 10 3), (bits_high 10 22) by lia. change (bits 0 2 0x9) with 1.
    change (2 ^ 10) with 1024. cbv zeta. rewrite Ep. unfold page. rewrite (bits_low 12 1), (bits_low 12 4),
      (bits_low 12 9), (bits_low 12 0 1), (bits_high 12 20) by lia. done.
Qed.

(** C15: the table translates what was mapped.  Let the pages of the array [l1_pt] be
    one block of physical memory.  Start from an empty table and let
    [mm_create_mapping] be called any number of times, with the restriction that a
    megabyte with pages is not mapped as a whole.  Either one of the calls needs a new
    table and gets no memory for it, the allocator failing in that call, and the
    module writes through a null pointer; or the calls return and
    the hardware translates every address whose page or section was mapped last to
    the physical address given then, readable, writable, executable and non-secure;
    in a megabyte of which nothing was mapped it finds no translation. *)
Theorem mappings_translate cs s :
  (forall mb, 0 <= mb < ARM_L1_PAGETABLE_ENTRIES -> pmem s (l1_word mb) = 0) ->
  (forall q, in_l1 q -> taken (heap s) q) -> all_fit (fun _ => Unmapped) cs ->
  match create_mappings cs s with
  | Some s' => forall v, is_u32 v ->
      match spec_addr (spec_maps cs (fun _ => Unmapped)) v with
      | Some pa => walk (pmem s') l1_phys v =
                   Some (mk_tr pa ARM_VMSA_ACCESS_FULL 0 ARM_VMSA_EXECUTE ARM_VMSA_NS_NONSECURE)
      | None => spec_maps cs (fun _ => Unmapped) (v / 2 ^ 20) = Unmapped -> walk (pmem s') l1_phys v = None
      end
  | None => out_of_memory cs (fun _ => Unmapped) s
  end.
Proof.
  intros Hz Hl Hfit. assert (Hs : refines (fun _ => Unmapped) (fun _ => 0) s).
  { constructor; try done. intros mb Hmb. cbn. rewrite <- l1_word_eq by done. by apply Hz. }
  pose proof (create_mappings_refines cs _ _ s Hs Hfit) as H1.
  destruct (create_mappings cs s) as [s'|]; [|done]. destruct H1 as [T' H1].
  intros v Hv. by eapply walk_refines.
Qed.

(** *** A section over a table *)

(** The fields of the new descriptor below the address, for every table *)
Lemma over_table_fields :
  forallb (fun ql =>
    let c := set_bits 4 1 0 (set_bits 10 2 3 (set_bits 17 1 0 (set_bits 19 1 1 (set_bits 0 2 2 (ql * 2 ^ 10 + 0x9))))) in
    (0 <=? c) && (c <? 2 ^ 20) && (bits 0 2 c =? 2) && (bits 18 1 c =? bits 8 1 ql) && (bits 15 1 c =? bits 5 1 ql)
    && (bits 10 2 c =? 3) && (bits 4 1 c =? 0) && (bits 19 1 c =? 1) && (bits 5 4 c =? 0)) (seqZ 0 1024) = true.
Proof. vm_compute. reflexivity. Qed.

Lemma over_table paddr q :
  is_u32 paddr -> 0 <= q < 2 ^ 22 ->
  exists c, section_desc paddr ARM_VMSA_NS_NONSECURE (tab q) = paddr / 2 ^ 20 * 2 ^ 20 + c /\
    0 <= c < 2 ^ 20 /\ bits 0 2 c = 2 /\ bits 18 1 c = bits 8 1 q /\ bits 15 1 c = bits 5 1 q /\
    bits 10 2 c = 3 /\ bits 4 1 c = 0 /\ bits 19 1 c = 1 /\ bits 5 4 c = 0.
Proof.
  intros Hp Hq. pose proof over_table_fields as Hall. rewrite forallb_forall in Hall.
  specialize (Hall (q mod 2 ^ 10)). cbv zeta in Hall. set (ql := q mod 2 ^ 10) in *. set (c := set_bits 4 1 0 _) in Hall.
  exists c. assert (Hin : List.In ql (seqZ 0 1024)).
  { apply list_elem_of_In, elem_of_seqZ. subst ql. pose proof (Z.mod_pos_bound q (2 ^ 10)). lia. }
  specialize (Hall Hin). rewrite !andb_true_iff, !Z.eqb_eq, Z.leb_le, Z.ltb_lt in Hall.
  assert (Ebit : forall i, 0 <= i < 10 -> bits i 1 ql = bits i 1 q).
  { intros i Hi. rewrite (Z.div_mod q (2 ^ 10)) by lia. rewrite Z.mul_comm. by rewrite (bits_low 10) by lia. }
  rewrite !Ebit in Hall by lia. split; [|tauto]. unfold section_desc, tab.
  rewrite (Z.div_mod q (2 ^ 10)) by lia. fold ql.
  replace ((2 ^ 10 * (q / 2 ^ 10) + ql) * 2 ^ 10 + 0x9) with (q / 2 ^ 10 * 2 ^ 20 + (ql * 2 ^ 10 + 0x9)) by lia.
  change (set arm_vmsa_lvl1desc_section "type" ARM_VMSA_LVL1DESC_TYPE_SECTION) with (set_bits 0 2 2).
  change (set arm_vmsa_lvl1desc_section "address" (Z.shiftr paddr 20)) with (set_bits 20 12 (Z.shiftr paddr 20)).
  change (set arm_vmsa_lvl1desc_section "ns" ARM_VMSA_NS_NONSECURE) with (set_bits 19 1 1).
  change (set arm_vmsa_lvl1desc_section "notglobal" 0) with (set_bits 17 1 0).
  change (set arm_vmsa_lvl1desc_section "accesspermission" ARM_VMSA_ACCESS_FULL) with (set_bits 10 2 3).
  change (set arm_vmsa_lvl1desc_section "executenever" ARM_VMSA_EXECUTE) with (set_bits 4 1 0).
  rewrite Z.shiftr_div_pow2, (set_bits_low 20 0) by lia. rewrite set_bits_high; [|lia| |div_lia].
  2: { unfold set_bits, bits. subst ql. pose proof (Z.mod_pos_bound q (2 ^ 10)). div_lia. }
  rewrite !(set_bits_low 20) by lia. fold c. rewrite (Z.mod_small (paddr / 2 ^ 20)) by (unfold is_word in Hp; div_lia). done.
Qed.

(** [mm_create1M_mapping] sets six of the fourteen fields of a section and
    keeps what the entry held in the others.  Over an entry that referred to a table
    of pages these are bits of the address of that table: its bit 15 decides whether
    the section is writable, and with its bit 18 set the entry describes a
    supersection, which translates addresses with 24 bits of offset and takes four
    bits of the physical address for the bits above 32. *)
Theorem section_over_table vaddr paddr q v s :
  is_u32 vaddr -> is_u32 paddr -> is_u32 v -> 0 <= q < 2 ^ 22 -> v / 2 ^ 20 = vaddr / 2 ^ 20 ->
  pmem s (mm_get_lv1_entry vaddr) = tab q ->
  walk (pmem (mm_create1M_mapping vaddr paddr ARM_VMSA_NS_NONSECURE s)) l1_phys v =
  Some (mk_tr (if bits 8 1 q =? 1
               then (paddr / 2 ^ 20) mod 2 ^ 4 * 2 ^ 32 + paddr / 2 ^ 24 * 2 ^ 24 + v mod 2 ^ 24
               else paddr / 2 ^ 20 * 2 ^ 20 + v mod 2 ^ 20)
          ARM_VMSA_ACCESS_FULL (bits 5 1 q) ARM_VMSA_EXECUTE ARM_VMSA_NS_NONSECURE).
Proof.
  intros Hva Hp Hv Hq Ev Es. destruct (over_table paddr q Hp Hq) as (c & Ec & Hc & B0 & B18 & B15 & B10 & B4 & B19 & B5).
  rewrite (walk_section _ _ _ (paddr / 2 ^ 20) c); [|rewrite l1_base, Ev| |done|done].
  - rewrite B18, B15, B10, B4, B19, B5. do 2 f_equal. case_match; [|done]. div_lia.
  - unfold mm_create1M_mapping, mm_get_lv1_entry in *. rewrite Z.shiftr_div_pow2 in * by lia.
    change 0xFFF with (Z.ones 12). rewrite Z.land_ones, (Z.mod_small (vaddr / 2 ^ 20)) by (unfold is_word in Hva; div_lia).
    cbn [pmem with_pmem]. rewrite <- l1_word_eq by (unfold is_word in Hva; div_lia). by rewrite store_eq, Es.
  - unfold is_word in Hp. div_lia.
Qed.

(** The two kilobytes that [mm_alloc_1k_aligned] asks for leave room to align the
    table, but the address is rounded down: the table lies inside the block only if
    the block happens to be aligned. *)
Lemma alloc_rounds_down a :
  is_u32 a -> (a <= Z.land a 0xFFFFFC00 /\ Z.land a 0xFFFFFC00 + 1024 <= a + 2048) <-> a mod 1024 = 0.
Proof.
  intros Ha. assert (E : Z.land a 0xFFFFFC00 = a / 1024 * 1024).
  { change 0xFFFFFC00 with (Z.shiftl (Z.ones 22) 10). change 1024 with (2 ^ 10).
    rewrite <- Z.shiftr_div_pow2, <- Z.shiftl_mul_pow2 by lia.
    rewrite <- (Z.mod_small (Z.shiftr a 10) (2 ^ 22)), <- Z.land_ones by
      (try lia; rewrite Z.shiftr_div_pow2 by lia; unfold is_word in Ha; div_lia).
    rewrite Z.shiftl_land. apply Z.bits_inj'. intros i Hi. rewrite !Z.land_spec.
    destruct (decide (i < 10)).
    - by rewrite (Z.shiftl_spec_low (Z.ones 22)), !andb_false_r by lia.
    - rewrite (Z.shiftl_spec (Z.shiftr a 10)), Z.shiftr_spec by lia. by replace (i - 10 + 10) with i by lia. }
  rewrite E. div_lia.
Qed.

(** Saving the registers, loading the module's table and restoring the registers
    leaves them as they were.  But what is loaded is not the table: [virt_to_phys]
    is meant for the linear mapping, and the array [l1_pt] of a module is below it.
    All that the hardware would read lies below the start of the memory.  In pt.c
    the registers are not saved, and the second of them is written to the first. *)
Theorem load_new_pt_misses s :
  MODULES_VADDR <= l1_pt -> l1_pt + 2 ^ 14 <= PAGE_OFFSET -> 2 ^ 24 <= PHYS_OFFSET < 2 ^ 32 ->
  let s1 := load_new_pt (backup_os_pt s) in
  ttbr0 s1 + 2 ^ 14 <= PHYS_OFFSET /\
  (ttbcr (restore_os_pt s1), ttbr0 (restore_os_pt s1), ttbr1 (restore_os_pt s1)) = (ttbcr s, ttbr0 s, ttbr1 s) /\
  let s2 := pt_restore_os_pt (load_new_pt (pt_backup_os_pt s)) in
  (ttbcr s2, ttbr0 s2, ttbr1 s2) = (origin_ttbcr s, origin_ttbr1 s, ttbr1 s).
Proof.
  intros H1 H2 H3. split; [|done]. cbn. unfold virt_to_phys, u32, MODULES_VADDR, PAGE_OFFSET in *.
  rewrite Z.mod_small; lia.
Qed.

End PageTable.

(** ** An example: 256 MB of memory at 0x80000000, handed out in order *)

#[local] Instance bump : Kmalloc Z := fun n h =>
  if (PAGE_OFFSET <=? h) && (h mod 1024 =? 0) && (h + n <=? PAGE_OFFSET + 0x10000000)
  then (h, h + n) else (0, h).

Definition bump_taken (h q : Z) : Prop := q * 1024 < h - PAGE_OFFSET + 0x80000000.

Lemma bump_ok : kmalloc_ok 0x80000000 0x10000000 bump_taken.
Proof.
  assert (E : forall h a h', kmalloc 2048 h = (a, h') -> a <> 0 ->
    h' = a + 2048 /\ h = a /\ a mod 1024 = 0 /\ PAGE_OFFSET <= a /\ a + 2048 <= PAGE_OFFSET + 0x10000000).
  { intros h a h'. unfold kmalloc, bump. destruct (_ && _) eqn:Eb; intros [= <- <-]; [|done].
    rewrite !andb_true_iff, !Z.leb_le, Z.eqb_eq in Eb. tauto. }
  constructor.
  - intros h a h' Ek Ha. destruct (E _ _ _ Ek Ha) as (_ & _ & ?). tauto.
  - intros h a h' Ek Ha. destruct (E _ _ _ Ek Ha) as (-> & -> & H0 & H1 & H2).
    unfold bump_taken, virt_to_phys, u32, PAGE_OFFSET in *. rewrite Z.mod_small by lia. div_lia.
  - intros h a h' q. unfold kmalloc, bump, bump_taken. destruct (_ && _); intros [= <- <-]; lia.
Qed.

Definition bump_state : mmu Z := mk_mmu (fun _ => 0) (PAGE_OFFSET + 0x10000) 0 0x80004059 0x80004059 0 0 0.

Definition bump_page (i : Z) : Z := 0x80008000 + 4096 * i.

Lemma bump_place : place_ok 0x80000000 0x10000000 bump_page.
Proof. constructor; [vm_compute; intuition congruence..|]. intros i _. unfold l1_phys, bump_page. lia. Qed.

(** A section, a page in it that takes its place, and a page elsewhere *)
Definition bump_calls : list (Z * Z * Z) :=
  [(0x40000000, 0x80200000, CREATE_1M_PAGE); (0x40005000, 0x80345000, CREATE_4K_PAGE);
   (0x50023000, 0x80346000, CREATE_4K_PAGE)].

Lemma mappings_translate_witness :
  match create_mappings 0x80000000 0x10000000 bump_page bump_calls bump_state with
  | Some s' => walk (pmem s') 0x80008000 0x40005678 = Some (mk_tr 0x80345678 3 0 0 1)
  | None => False
  end.
Proof.
  pose proof (mappings_translate 0x80000000 0x10000000 bump_page bump_taken bump_place bump_ok
                bump_calls bump_state) as H.
  destruct (create_mappings _ _ _ _ _) as [s'|] eqn:E; [|vm_compute in E; discriminate E].
  assert (V : is_u32 0x40005678) by (split; vm_compute; congruence).
  refine (H _ _ _ _ V).
  - intros mb Hmb. reflexivity.
  - intros q [_ Hq]. unfold bump_taken, l1_phys, bump_page in *. cbn [heap bump_state]. unfold PAGE_OFFSET. lia.
  - repeat split; try (vm_compute; congruence); [right|left|left]; try reflexivity.
    split; [reflexivity|discriminate].
Defined.

Lemma section_over_table_witness :
  walk (pmem (mm_create1M_mapping bump_page 0x40000000 0x80200000 ARM_VMSA_NS_NONSECURE
          (with_pmem bump_state (store 0x80009000 (tab 0x200120) (fun _ => 0))))) 0x80008000 0x40012345 =
  Some (mk_tr (2 * 2 ^ 32 + 0x80012345) 3 1 0 1).
Proof.
  apply (section_over_table 0x80000000 0x10000000 bump_page bump_place 0x40000000 0x80200000 0x200120);
    try (split; vm_compute; congruence); reflexivity.
Defined.

Lemma load_new_pt_misses_witness :
  ttbr0 (load_new_pt 0x80000000 0xbf008000 (backup_os_pt bump_state)) + 2 ^ 14 <= 0x80000000.
Proof. apply (load_new_pt_misses 0x80000000 0xbf008000 bump_state); vm_compute; [congruence|congruence|split; congruence]. Defined.
