(* ===== verification/Cache.v ===== *)
(** * Cache and MMU routines of the kernel module
    (linux/hello-module: cache.S, mmu.S, a8-cpu.h)

    Assembly routines for the coprocessor 15 of ARMv7.  The state is the registers of
    the coprocessor and the cache and TLB maintenance operations that were issued,
    in order; barriers change nothing of it.  For the routines that go through a whole
    cache it also holds the core registers, instruction by instruction.  Registers are
    32-bit words, and the branches test what the flags say of the instruction before
    them.  The loops have fuel for the largest counters that the fields of the registers
    can give; a loop that has used it up has no result. *)

From S2P Require Import Prelude.

(** ** The coprocessor *)

(** Maintenance operations, with the names of the architecture *)
Inductive maint :=
  | DCCISW (v : Z)   (** c7, c14, 2: clean and invalidate data cache line by set and way *)
  | DCISW (v : Z)    (** c7, c6, 2: invalidate data cache line by set and way *)
  | DCCMVAC (v : Z)  (** c7, c10, 1: clean data cache line by address *)
  | DCIMVAC (v : Z)  (** c7, c6, 1: invalidate data cache line by address *)
  | ICIALLU          (** c7, c5, 0: invalidate all instruction caches *)
  | BPIALL           (** c7, c5, 6: invalidate all branch predictors *)
  | ITLBIALL         (** c8, c5, 0: invalidate the instruction TLB *)
  | TLBIALL.         (** c8, c7, 0: invalidate the unified TLB *)

(** CLIDR, CCSIDR for each value of CSSELR, CSSELR, SCTLR and the translation registers *)
Record cp15 := mk_cp15 {
  clidr : Z; ccsidr : Z -> Z; csselr : Z; sctlr : Z;
  ttbr0 : Z; ttbr1 : Z; ttbcr : Z; ops : list maint }.

Definition issue (m : maint) (c : cp15) : cp15 :=
  mk_cp15 (clidr c) (ccsidr c) (csselr c) (sctlr c) (ttbr0 c) (ttbr1 c) (ttbcr c) (ops c ++ [m]).
Definition set_csselr (v : Z) (c : cp15) : cp15 :=
  mk_cp15 (clidr c) (ccsidr c) v (sctlr c) (ttbr0 c) (ttbr1 c) (ttbcr c) (ops c).
Definition set_sctlr (v : Z) (c : cp15) : cp15 :=
  mk_cp15 (clidr c) (ccsidr c) (csselr c) v (ttbr0 c) (ttbr1 c) (ttbcr c) (ops c).

(** Shifts and the leading zeros of a word *)
Definition lsl (x n : Z) : Z := u32 (Z.shiftl x n).
Definition lsr (x n : Z) : Z := Z.shiftr x n.
Definition clz (x : Z) : Z := if x =? 0 then 32 else 31 - Z.log2 x.

(** The core registers, by number, and the coprocessor *)
Record cpu := mk_cpu { reg : Z -> Z; cop : cp15 }.

Definition wr (r v : Z) (s : cpu) : cpu := mk_cpu (fun k => if k =? r then v else reg s k) (cop s).
Definition on_cop (f : cp15 -> cp15) (s : cpu) : cpu := mk_cpu (reg s) (f (cop s)).

(** [PUSH] before and [POP] after a routine, of the registers that [saved] names: they are
    what they were, and the stack pointer is back where it was. *)
Definition popped (saved : Z -> bool) (s s' : cpu) : cpu :=
  mk_cpu (fun k => if saved k then reg s k else reg s' k) (cop s').

(** ** The whole data cache *)

Section Sweep.
Context (op : Z -> maint).

(** [loop3]: the ways of a set; [bge] after [subs r9, r9, #1] *)
Fixpoint loop3 (fuel : nat) (s : cpu) : option cpu :=
  match fuel with
  | O => None
  | S fuel =>
      let s := wr 11 (Z.lor (reg s 10) (lsl (reg s 9) (reg s 5))) s in
      let s := wr 11 (Z.lor (reg s 11) (lsl (reg s 7) (reg s 2))) s in
      let s := on_cop (issue (op (reg s 11))) s in
      let ge := 1 <=? s32 (reg s 9) in
      let s := wr 9 (u32 (reg s 9 - 1)) s in
      if ge then loop3 fuel s else Some s
  end.

(** [loop2]: the sets of a cache *)
Fixpoint loop2 (fuel : nat) (s : cpu) : option cpu :=
  match fuel with
  | O => None
  | S fuel =>
      let s := wr 9 (reg s 4) s in
      s ← loop3 1024 s;
      let ge := 1 <=? s32 (reg s 7) in
      let s := wr 7 (u32 (reg s 7 - 1)) s in
      if ge then loop2 fuel s else Some s
  end.

(** One pass of [loop1], up to [skip] *)
Definition one_level (s : cpu) : option cpu :=
  let s := wr 2 (u32 (reg s 10 + lsr (reg s 10) 1)) s in
  let s := wr 1 (lsr (reg s 0) (reg s 2)) s in
  let s := wr 1 (Z.land (reg s 1) 7) s in
  if s32 (reg s 1) <? 2 then Some s
  else
    let s := on_cop (set_csselr (reg s 10)) s in
    let s := wr 1 (ccsidr (cop s) (csselr (cop s))) s in
    let s := wr 2 (Z.land (reg s 1) 7) s in
    let s := wr 2 (u32 (reg s 2 + 4)) s in
    let s := wr 4 0x3ff s in
    let s := wr 4 (Z.land (reg s 4) (lsr (reg s 1) 3)) s in
    let s := wr 5 (clz (reg s 4)) s in
    let s := wr 7 0x7fff s in
    let s := wr 7 (Z.land (reg s 7) (lsr (reg s 1) 13)) s in
    loop2 (Z.to_nat 32768) s.

(** [loop1]: the levels; [bgt] after [cmp r3, r10] *)
Fixpoint loop1 (fuel : nat) (s : cpu) : option cpu :=
  match fuel with
  | O => None
  | S fuel =>
      s ← one_level s;
      let s := wr 10 (u32 (reg s 10 + 2)) s in
      if s32 (reg s 10) <? s32 (reg s 3) then loop1 fuel s else Some s
  end.

(** From the read of CLIDR to the end; [beq] tests the result of [ands], which the shift
    after it does not touch. *)
Definition sweep (s : cpu) : option cpu :=
  let s := wr 0 (clidr (cop s)) s in
  let s := wr 3 (Z.land (reg s 0) 0x7000000) s in
  let eq := reg s 3 =? 0 in
  let s := wr 3 (lsr (reg s 3) 23) s in
  s ← (if eq then Some s else loop1 7 (wr 10 0 s));
  let s := wr 10 0 s in
  Some (on_cop (set_csselr (reg s 10)) s).

End Sweep.

(** The two copies of the loops; the second saves and restores [r0] to [r12]. *)
Definition v7_flush_dcache_all : cpu -> option cpu := sweep DCCISW.
Definition clean_invalidate_dcache (s : cpu) : option cpu :=
  s' ← sweep DCISW s;
  Some (popped (fun k => (0 <=? k) && (k <=? 12)) s s').

(** [flush_cache_all] saves [r0] to [r12] and [lr]; [link] is the address that [bl] puts
    into [lr]. *)
Definition flush_cache_all (link : Z) (s : cpu) : option cpu :=
  let s1 := wr 14 link s in
  s1 ← v7_flush_dcache_all s1;
  let s1 := wr 0 0 s1 in
  let s1 := on_cop (issue ICIALLU) s1 in
  Some (popped (fun k => ((0 <=? k) && (k <=? 12)) || (k =? 14)) s s1).

(** ** The other routines *)

Definition flush_page_table_entry (r0 : Z) (c : cp15) : cp15 := issue BPIALL (issue (DCCMVAC r0) c).
Definition invalidate_data_cache_line (r0 : Z) (c : cp15) : cp15 := issue (DCIMVAC r0) c.

(** The macro [dcache_line_size] *)
Definition dcache_line_size (c : cp15) : Z := lsl 16 (Z.land (ccsidr c (csselr c)) 7).

(** [bhi] after [subs r1, r1, r2] *)
Fixpoint area_loop (fuel : nat) (r0 r1 r2 : Z) (c : cp15) : cp15 :=
  match fuel with
  | O => c
  | S fuel =>
      let c := issue (DCCMVAC r0) c in
      if r2 <? r1 then area_loop fuel (u32 (r0 + r2)) (u32 (r1 - r2)) r2 c else c
  end.

Definition clean_dcache_area (r0 r1 : Z) (c : cp15) : cp15 :=
  let r2 := dcache_line_size c in
  area_loop (S (Z.to_nat (r1 / r2))) r0 r1 r2 c.

Definition flush_tlb_all (c : cp15) : cp15 := issue BPIALL (issue ITLBIALL c).

Definition ARM_C1_CR_C : Z := 0x0004.
Definition ARM_C1_CR_I : Z := 0x1000.

Definition arm_enable_icache (c : cp15) : cp15 := set_sctlr (Z.lor (sctlr c) ARM_C1_CR_I) c.
Definition arm_enable_dcache (c : cp15) : cp15 := set_sctlr (Z.lor (sctlr c) ARM_C1_CR_C) c.
Definition arm_invalidate_caches (c : cp15) : cp15 := issue (DCIMVAC 0) (issue ICIALLU c).
Definition arm_invalidate_tlb (c : cp15) : cp15 := issue TLBIALL c.

Definition arm_disable_caches (c : cp15) : cp15 :=
  let r0 := sctlr c in
  let r0 := Z.ldiff r0 (Z.shiftl 1 12) in
  let r0 := Z.ldiff r0 (Z.shiftl 1 2) in
  set_sctlr r0 c.

Definition arm_enable_caches (c : cp15) : cp15 :=
  let r0 := sctlr c in
  let r0 := Z.lor r0 (Z.shiftl 1 12) in
  let r0 := Z.lor r0 (Z.shiftl 1 2) in
  set_sctlr r0 (issue ICIALLU (issue (DCIMVAC 0) c)).

(** mmu.S *)
Definition arm_set_ttbr0 (r0 : Z) (c : cp15) : cp15 :=
  mk_cp15 (clidr c) (ccsidr c) (csselr c) (sctlr c) r0 (ttbr1 c) (ttbcr c) (ops c).
Definition arm_read_ttbr0 (c : cp15) : Z := ttbr0 c.
Definition arm_set_ttbr1 (r0 : Z) (c : cp15) : cp15 :=
  mk_cp15 (clidr c) (ccsidr c) (csselr c) (sctlr c) (ttbr0 c) r0 (ttbcr c) (ops c).
Definition arm_read_ttbr1 (c : cp15) : Z := ttbr1 c.
Definition arm_set_ttbcr (r0 : Z) (c : cp15) : cp15 :=
  mk_cp15 (clidr c) (ccsidr c) (csselr c) (sctlr c) (ttbr0 c) (ttbr1 c) r0 (ops c).
Definition arm_get_ttbcr (c : cp15) : Z := ttbcr c.

(** ** What the architecture says of the operands *)

(** The levels of cache up to the point of coherency, and what is at a level *)
Definition loc (c : cp15) : Z := (clidr c / 2 ^ 24) mod 8.
Definition ctype (c : cp15) (l : Z) : Z := (clidr c / 2 ^ (3 * l)) mod 8.

(** The geometry of the data cache at level [l], from its CCSIDR *)
Definition line_shift (c : cp15) (l : Z) : Z := ccsidr c (2 * l) mod 8 + 4.
Definition max_way (c : cp15) (l : Z) : Z := (ccsidr c (2 * l) / 2 ^ 3) mod 2 ^ 10.
Definition max_set (c : cp15) (l : Z) : Z := (ccsidr c (2 * l) / 2 ^ 13) mod 2 ^ 15.

(** The bits of a way number: it stands at the top of the operand. *)
Definition way_bits (c : cp15) (l : Z) : Z := if max_way c l =? 0 then 0 else Z.log2 (max_way c l) + 1.

(** Level, set and way of an operand of an operation by set and way *)
Definition decode (c : cp15) (v : Z) : Z * Z * Z :=
  let l := (v / 2) mod 8 in
  let a := way_bits c l in
  (l, (v mod 2 ^ (32 - a)) / 2 ^ line_shift c l, v / 2 ^ (32 - a)).

(** The fields of the operand do not overlap. *)
Definition level_ok (c : cp15) (l : Z) : Prop :=
  line_shift c l + way_bits c l <= 32 /\ max_set c l < 2 ^ (32 - way_bits c l - line_shift c l).

(** From [n] down to 0 *)
Definition down (n : Z) : list Z := map Z.of_nat (rev (seq 0 (S (Z.to_nat n)))).

(** All lines of the data caches, in the order of the loops *)
Definition level_lines (c : cp15) (l : Z) : list (Z * Z * Z) :=
  if ctype c l <? 2 then []
  else flat_map (fun set => map (fun way => (l, set, way)) (down (max_way c l))) (down (max_set c l)).
Definition all_lines (c : cp15) : list (Z * Z * Z) :=
  flat_map (fun l => level_lines c (Z.of_nat l)) (seq 0 (Z.to_nat (loc c))).

(** ** The loops *)

Definition issues (ms : list maint) (c : cp15) : cp15 :=
  mk_cp15 (clidr c) (ccsidr c) (csselr c) (sctlr c) (ttbr0 c) (ttbr1 c) (ttbcr c) (ops c ++ ms).

Lemma issues_app ms ms' c : issues ms' (issues ms c) = issues (ms ++ ms') c.
Proof. unfold issues. cbn. by rewrite app_assoc. Qed.

Lemma down_step n : 0 < n -> down n = n :: down (n - 1).
Proof.
  intros Hn. unfold down. replace (Z.to_nat n) with (S (Z.to_nat (n - 1))) at 1 by lia.
  rewrite seq_S, rev_app_distr. cbn [rev app map]. f_equal. lia.
Qed.

Lemma down_zero : down 0 = [0].
Proof. done. Qed.

Lemma in_down n x : 0 <= n -> In x (down n) <-> 0 <= x <= n.
Proof.
  intros Hn. unfold down. rewrite in_map_iff. split.
  - intros (k & <- & Hk). apply in_rev, in_seq in Hk. lia.
  - intros Hx. exists (Z.to_nat x). split; [lia|]. rewrite <- in_rev, in_seq. lia.
Qed.

(** The counters of the loops: small enough to be positive as signed words *)
Lemma counter_step r : 0 <= r < 2 ^ 31 -> s32 r = r /\ (0 < r -> u32 (r - 1) = r - 1).
Proof.
  intros Hr. unfold s32. rewrite (proj2 (Z.ltb_lt _ _)) by lia. split; [done|]. intros H. apply Z.mod_small. lia.
Qed.

(** The operand of an operation by set and way *)
Definition operand (r2 r5 r10 set way : Z) : Z := Z.lor (Z.lor r10 (lsl way r5)) (lsl set r2).

(** The registers that the loops use *)
Definition clobbered : list Z := [0; 1; 2; 3; 4; 5; 7; 9; 10; 11].

Lemma not_clobbered r : ~ (0 <= r <= 12) -> r ∉ clobbered.
Proof. intros Hr. unfold clobbered. rewrite !not_elem_of_cons. split_and!; try lia. apply not_elem_of_nil. Qed.

Section Loops.
Context (op : Z -> maint).

(** [s'] is [s] with operations issued and other values in the registers of [l]. *)
Definition ran (l : list Z) (ms : list maint) (s s' : cpu) : Prop :=
  cop s' = issues ms (cop s) /\ forall r, r ∉ l -> reg s' r = reg s r.

Lemma loop3_run fuel s :
  let r9 := reg s 9 in
  0 <= r9 < 2 ^ 31 -> (Z.to_nat r9 < fuel)%nat ->
  exists s', loop3 op fuel s = Some s' /\
    ran [9; 11] (map (fun way => op (operand (reg s 2) (reg s 5) (reg s 10) (reg s 7) way)) (down r9)) s s'.
Proof.
  revert s. induction fuel as [|fuel IH]; intros s r9 Hr Hf; [lia|]. cbn [loop3].
  destruct (counter_step r9 Hr) as [Es Ed]. cbn [reg wr on_cop Z.eqb Pos.eqb]. fold r9. rewrite Es.
  set (v := Z.lor _ (lsl (reg s 7) (reg s 2))). change v with (operand (reg s 2) (reg s 5) (reg s 10) (reg s 7) r9).
  clear v. set (s1 := wr 9 _ _).
  assert (H1 : ran [9; 11] [op (operand (reg s 2) (reg s 5) (reg s 10) (reg s 7) r9)] s s1).
  { split; [done|]. intros r Hr'. rewrite !not_elem_of_cons in Hr'. destruct Hr' as (N9 & N11 & _).
    cbn [s1 reg wr on_cop]. by rewrite !(proj2 (Z.eqb_neq _ _)) by done. }
  destruct (Z.leb_spec 1 r9) as [Hge|Hge].
  - assert (E9 : reg s1 9 = r9 - 1) by (cbn; apply Ed; lia).
    destruct (IH s1) as (s' & -> & E' & F'); [rewrite E9; lia|rewrite E9; lia|].
    exists s'. split; [done|]. split.
    + rewrite E', (proj1 H1), issues_app, E9, (down_step r9) by lia. done.
    + intros r Hr'. rewrite F' by done. by apply H1.
  - exists s1. split; [done|]. assert (r9 = 0) as E0 by lia. rewrite E0 in *. by rewrite down_zero.
Qed.

Lemma loop2_run fuel s :
  let r4 := reg s 4 in let r7 := reg s 7 in
  0 <= r4 < 1024 -> 0 <= r7 < 2 ^ 31 -> (Z.to_nat r7 < fuel)%nat ->
  exists s', loop2 op fuel s = Some s' /\
    ran [7; 9; 11] (flat_map (fun set => map (fun way => op (operand (reg s 2) (reg s 5) (reg s 10) set way))
                                         (down r4)) (down r7)) s s'.
Proof.
  revert s. induction fuel as [|fuel IH]; intros s r4 r7 H4 Hr Hf; [lia|]. cbn [loop2].
  destruct (counter_step r7 Hr) as [Es Ed].
  destruct (loop3_run 1024 (wr 9 (reg s 4) s)) as (s1 & -> & E1 & F1); [cbn; lia|cbn; lia|].
  cbn [mbind option_bind]. cbn [reg wr Z.eqb Pos.eqb] in E1. fold r4 r7 in E1.
  assert (F1' : forall r, r <> 9 -> r <> 11 -> reg s1 r = reg s r).
  { intros r N9 N11. rewrite F1 by (rewrite !not_elem_of_cons; auto using not_elem_of_nil).
    cbn. by rewrite (proj2 (Z.eqb_neq _ _)). }
  assert (E7 : reg s1 7 = r7) by (by apply F1'). rewrite E7, Es. set (s2 := wr 7 _ s1).
  assert (F2 : forall r, r ∉ [7; 9; 11] -> reg s2 r = reg s r).
  { intros r Hr'. rewrite !not_elem_of_cons in Hr'. destruct Hr' as (N7 & N9 & N11 & _).
    cbn [s2 reg wr]. rewrite (proj2 (Z.eqb_neq r 7)) by done. by apply F1'. }
  assert (Hreg : reg s2 2 = reg s 2 /\ reg s2 5 = reg s 5 /\ reg s2 10 = reg s 10 /\ reg s2 4 = r4).
  { split_and!; apply F2; rewrite !not_elem_of_cons; split_and!; (done || apply not_elem_of_nil). }
  destruct Hreg as (R2 & R5 & R10 & R4). destruct (Z.leb_spec 1 r7) as [Hge|Hge].
  - assert (E7' : reg s2 7 = r7 - 1) by (cbn; apply Ed; lia).
    destruct (IH s2) as (s' & -> & E' & F'); [rewrite R4; lia|rewrite E7'; lia|rewrite E7'; lia|].
    exists s'. split; [done|]. split; [|intros r Hr'; rewrite F' by done; by apply F2].
    rewrite E', R2, R5, R10, R4, E7', (down_step r7) by lia. cbn [flat_map s2 cop wr].
    rewrite E1. cbn [cop wr]. by rewrite issues_app.
  - exists s2. split; [done|]. split; [|done]. assert (r7 = 0) as E0 by lia. rewrite E0 in *.
    rewrite down_zero. cbn [flat_map s2 cop wr]. by rewrite app_nil_r, E1.
Qed.

(** The operands of a level *)
Definition level_operands (c : cp15) (l : Z) : list Z :=
  if ctype c l <? 2 then []
  else flat_map (fun set => map (operand (line_shift c l) (32 - way_bits c l) (2 * l) set) (down (max_way c l)))
         (down (max_set c l)).

Lemma clz_way_bits c l : clz (max_way c l) = 32 - way_bits c l.
Proof. unfold clz, way_bits. destruct (_ =? 0); lia. Qed.

Lemma field_div x k m : 0 <= k -> 0 <= m -> Z.land (lsr x m) (Z.ones k) = (x / 2 ^ m) mod 2 ^ k.
Proof. intros Hk Hm. unfold lsr. by rewrite Z.land_ones, Z.shiftr_div_pow2. Qed.

Lemma flat_map_map {A B C} (f : B -> C) (g : A -> list B) l :
  map f (flat_map g l) = flat_map (fun x => map f (g x)) l.
Proof. induction l as [|x l IH]; [done|]. cbn. by rewrite map_app, IH. Qed.

Lemma flat_map_ext_in {A B} (f g : A -> list B) l :
  (forall x, In x l -> f x = g x) -> flat_map f l = flat_map g l.
Proof. induction l as [|x l IH]; intros H; [done|]. cbn. rewrite (H x), IH; auto using in_eq, in_cons. Qed.

(** A pass of [loop1] may have selected the cache. *)
Definition ran_sel (l : list Z) (ms : list maint) (s s' : cpu) : Prop :=
  (exists v, cop s' = set_csselr v (issues ms (cop s))) /\ forall r, r ∉ l -> reg s' r = reg s r.

Lemma one_level_run s c0 l :
  clidr (cop s) = clidr c0 -> ccsidr (cop s) = ccsidr c0 -> 0 <= l < 8 ->
  reg s 0 = clidr c0 -> reg s 10 = 2 * l ->
  exists s', one_level op s = Some s' /\ ran_sel [1; 2; 4; 5; 7; 9; 11] (map op (level_operands c0 l)) s s'.
Proof.
  intros Ec Eg Hl E0 E10. unfold one_level, level_operands.
  assert (E3 : u32 (reg s 10 + lsr (reg s 10) 1) = 3 * l).
  { rewrite E10. unfold lsr. rewrite Z.shiftr_div_pow2 by lia. change (2 ^ 1) with 2.
    rewrite (Z.mul_comm 2 l), Z.div_mul by lia. unfold u32. rewrite Z.mod_small; lia. }
  cbn [reg wr on_cop cop Z.eqb Pos.eqb]. rewrite E3, E0.
  assert (L7 : forall x, Z.land x 7 = x mod 8) by (intros x; by apply (Z.land_ones x 3)).
  rewrite L7. unfold lsr at 1 2. rewrite Z.shiftr_div_pow2 by lia. fold (ctype c0 l).
  assert (Ht : 0 <= ctype c0 l < 8) by (apply Z.mod_pos_bound; lia).
  destruct (counter_step (ctype c0 l)) as [-> _]; [lia|].
  destruct (ctype c0 l <? 2).
  { eexists. split; [done|]. split.
    - exists (csselr (cop s)). destruct s as [rg []]. unfold issues, set_csselr. cbn. by rewrite app_nil_r.
    - intros r Hr. rewrite !not_elem_of_cons in Hr. destruct Hr as (N1 & N2 & _). cbn [reg wr].
      by rewrite !(proj2 (Z.eqb_neq _ _)) by done. }
  cbn [ccsidr csselr set_csselr]. rewrite Eg, E10.
  change 0x3ff with (Z.ones 10). change 0x7fff with (Z.ones 15).
  rewrite !(Z.land_comm (Z.ones 10)), !(Z.land_comm (Z.ones 15)), !field_div by lia.
  fold (max_way c0 l) (max_set c0 l). rewrite L7.
  assert (Hg : 0 <= ccsidr c0 (2 * l) mod 8 < 8) by (apply Z.mod_pos_bound; lia).
  replace (u32 (ccsidr c0 (2 * l) mod 8 + 4)) with (line_shift c0 l)
    by (unfold line_shift, u32; rewrite (Z.mod_small (_ + 4)); lia).
  rewrite clz_way_bits.
  assert (Hw : 0 <= max_way c0 l < 2 ^ 10) by (apply Z.mod_pos_bound; lia).
  assert (Hs : 0 <= max_set c0 l < 2 ^ 15) by (apply Z.mod_pos_bound; lia).
  set (s2 := wr 7 (max_set c0 l) _).
  destruct (loop2_run (Z.to_nat 32768) s2) as (s' & -> & E' & F'); [cbn; lia|cbn; lia|cbn; lia|].
  exists s'. split; [done|]. split.
  - exists (2 * l). rewrite E'. cbn [s2 cop wr on_cop reg Z.eqb Pos.eqb]. rewrite E10.
    rewrite flat_map_map. unfold issues, set_csselr. cbn. do 2 f_equal. apply flat_map_ext. intros set. symmetry. apply map_map.
  - intros r Hr. rewrite !not_elem_of_cons in Hr. destruct Hr as (N1 & N2 & N4 & N5 & N7 & N9 & N11 & _).
    rewrite F' by (rewrite !not_elem_of_cons; auto using not_elem_of_nil). cbn [s2 reg wr on_cop].
    by rewrite !(proj2 (Z.eqb_neq _ _)) by done.
Qed.

Lemma loop1_run fuel s c0 l n :
  clidr (cop s) = clidr c0 -> ccsidr (cop s) = ccsidr c0 -> 0 <= l < n -> n < 8 -> (Z.to_nat (n - l) <= fuel)%nat ->
  reg s 0 = clidr c0 -> reg s 3 = 2 * n -> reg s 10 = 2 * l ->
  exists s', loop1 op fuel s = Some s' /\ ran_sel [1; 2; 4; 5; 7; 9; 10; 11]
    (map op (flat_map (fun k => level_operands c0 (Z.of_nat k)) (seq (Z.to_nat l) (Z.to_nat (n - l))))) s s'.
Proof.
  revert s l. induction fuel as [|fuel IH]; intros s l Ec Eg Hl Hn Hf E0 E3 E10; [lia|]. cbn [loop1].
  destruct (one_level_run s c0 l Ec Eg) as (s1 & -> & [v Ev] & F1); [lia|done|done|]. cbn [mbind option_bind].
  assert (R1 : forall r, r = 0 \/ r = 3 \/ r = 10 -> reg s1 r = reg s r).
  { intros r Hr. apply F1. rewrite !not_elem_of_cons. split_and!; try lia. apply not_elem_of_nil. }
  set (s2 := wr 10 _ s1). assert (E10' : reg s2 10 = 2 * (l + 1)).
  { cbn. rewrite R1, E10 by auto. unfold u32. rewrite Z.mod_small; lia. }
  assert (E3' : reg s2 3 = 2 * n) by (cbn; rewrite R1 by auto; done).
  assert (F2 : forall r, r ∉ [1; 2; 4; 5; 7; 9; 10; 11] -> reg s2 r = reg s r).
  { intros r Hr. rewrite !not_elem_of_cons in Hr. cbn [s2 reg wr]. rewrite (proj2 (Z.eqb_neq r 10)) by tauto.
    apply F1. rewrite !not_elem_of_cons. tauto. }
  rewrite E10', E3'. destruct (counter_step (2 * (l + 1))) as [-> _]; [lia|]. destruct (counter_step (2 * n)) as [-> _]; [lia|].
  replace (Z.to_nat (n - l)) with (S (Z.to_nat (n - (l + 1)))) by lia. cbn [seq flat_map].
  rewrite Z2Nat.id, map_app by lia. destruct (Z.ltb_spec (2 * (l + 1)) (2 * n)) as [H1|H1].
  - destruct (IH s2 (l + 1)) as (s' & -> & [v' E'] & F'); try done; try lia;
      [cbn [s2 cop wr]; by rewrite Ev|cbn [s2 cop wr]; by rewrite Ev|cbn; rewrite R1 by auto; done|].
    exists s'. split; [done|]. split; [|intros r Hr; rewrite F' by done; by apply F2].
    exists v'. rewrite E'. cbn [s2 cop wr]. rewrite Ev. replace (Z.to_nat (l + 1)) with (S (Z.to_nat l)) by lia.
    unfold issues, set_csselr. cbn. by rewrite app_assoc.
  - exists s2. split; [done|]. split; [|done]. exists v. assert (n = l + 1) as -> by lia.
    replace (l + 1 - (l + 1)) with 0 by lia. cbn [s2 cop wr]. rewrite Ev. cbn. by rewrite app_nil_r.
Qed.

(** The bits of CLIDR that [ands] selects *)
Lemma loc_field c :
  0 <= clidr c -> lsr (Z.land (clidr c) 0x7000000) 23 = 2 * loc c /\
  (loc c = 0 -> Z.land (clidr c) 0x7000000 = 0).
Proof.
  intros Hc. assert (E : lsr (Z.land (clidr c) 0x7000000) 23 = 2 * loc c).
  { unfold lsr, loc. rewrite Z.shiftr_land. change (Z.shiftr 0x7000000 23) with (Z.shiftl (Z.ones 3) 1).
    rewrite land_field by lia. rewrite Z.shiftr_div_pow2, Z.div_div by lia. change (2 ^ 23 * 2 ^ 1) with (2 ^ 24). lia. }
  split; [done|]. intros Hz. rewrite Hz in E. unfold lsr in E.
  apply Z.bits_inj'. intros i Hi. rewrite Z.bits_0. destruct (decide (i < 23)).
  - rewrite Z.land_spec. replace (Z.testbit 0x7000000 i) with false; [by rewrite andb_false_r|].
    change 0x7000000 with (Z.shiftl 7 24). by rewrite Z.shiftl_spec_low by lia.
  - apply (f_equal (fun x => Z.testbit x (i - 23))) in E. rewrite Z.shiftr_spec, Z.bits_0 in E by lia.
    by replace (i - 23 + 23) with i in E by lia.
Qed.

Lemma sweep_run s :
  0 <= clidr (cop s) ->
  exists s', sweep op s = Some s' /\
    cop s' = set_csselr 0 (issues (map op (flat_map (fun k => level_operands (cop s) (Z.of_nat k))
                                           (seq 0 (Z.to_nat (loc (cop s)))))) (cop s)) /\
    forall r, r ∉ clobbered -> reg s' r = reg s r.
Proof.
  intros Hc. unfold sweep. cbn [reg wr Z.eqb Pos.eqb cop]. destruct (loc_field (cop s) Hc) as [E Ez].
  rewrite E. set (s1 := wr 3 (2 * loc (cop s)) _).
  assert (F1 : forall r, r ∉ clobbered -> reg s1 r = reg s r).
  { intros r Hr. unfold clobbered in Hr. rewrite !not_elem_of_cons in Hr. cbn [s1 reg wr].
    by rewrite !(proj2 (Z.eqb_neq r _)) by tauto. }
  assert (Hloc : 0 <= loc (cop s) < 8) by (apply Z.mod_pos_bound; lia).
  assert (exists s2, (if Z.land (clidr (cop s)) 0x7000000 =? 0 then Some s1 else loop1 op 7 (wr 10 0 s1)) = Some s2 /\
    ran_sel clobbered (map op (flat_map (fun k => level_operands (cop s) (Z.of_nat k))
      (seq 0 (Z.to_nat (loc (cop s)))))) s s2) as (s2 & -> & [v Ev] & F2).
  { destruct (Z.eqb_spec (Z.land (clidr (cop s)) 0x7000000) 0) as [E0|E0].
    - exists s1. split; [done|]. split; [|done]. rewrite E0 in E. change (lsr 0 23) with 0 in E.
      assert (loc (cop s) = 0) as -> by lia. exists (csselr (cop s)). cbn.
      destruct s as [rg []]. unfold issues, set_csselr. cbn. by rewrite app_nil_r.
    - destruct (loop1_run 7 (wr 10 0 s1) (cop s) 0 (loc (cop s))) as (s2 & -> & Ev & F2); try done; try lia.
      rewrite Z.sub_0_r in Ev. exists s2. split; [done|]. split; [exact Ev|].
      intros r Hr. unfold clobbered in Hr. rewrite !not_elem_of_cons in Hr.
      rewrite F2 by (rewrite !not_elem_of_cons; tauto). cbn [reg wr]. rewrite (proj2 (Z.eqb_neq r 10)) by tauto.
      apply F1. unfold clobbered. rewrite !not_elem_of_cons. tauto. }
  cbn [mbind option_bind]. eexists. split; [done|]. cbn [cop on_cop wr reg]. split.
  - cbn. by rewrite Ev.
  - intros r Hr. rewrite <- (F2 r Hr). unfold clobbered in Hr. rewrite !not_elem_of_cons in Hr.
    by rewrite (proj2 (Z.eqb_neq r 10)) by tauto.
Qed.

End Loops.

(** ** The operands *)

Lemma way_bits_range c l : 0 <= way_bits c l <= 10 /\ 0 <= max_way c l < 2 ^ way_bits c l.
Proof.
  assert (Hw : 0 <= max_way c l < 2 ^ 10) by (apply Z.mod_pos_bound; lia). unfold way_bits.
  destruct (Z.eqb_spec (max_way c l) 0) as [->|Hn]; [done|].
  pose proof (Z.log2_spec (max_way c l) ltac:(lia)) as Hs. rewrite <- Z.add_1_r in Hs.
  assert (Z.log2 (max_way c l) < 10) by (apply Z.log2_lt_pow2; lia). pose proof (Z.log2_nonneg (max_way c l)). lia.
Qed.

Lemma operand_value L a l set way :
  0 <= l < 8 -> 4 <= L -> 0 <= a -> L + a <= 32 -> 0 <= set < 2 ^ (32 - a - L) -> 0 <= way < 2 ^ a ->
  operand L (32 - a) (2 * l) set way = 2 * l + set * 2 ^ L + way * 2 ^ (32 - a) /\
  2 * l + set * 2 ^ L < 2 ^ (32 - a).
Proof.
  intros Hl HL Ha Hsum Hs Hw. pose proof (Z.pow_pos_nonneg 2 L). pose proof (Z.pow_pos_nonneg 2 (32 - a)).
  assert (E1 : 2 ^ (32 - a) = 2 ^ (32 - a - L) * 2 ^ L) by (rewrite <- Z.pow_add_r by lia; f_equal; lia).
  assert (E2 : 2 ^ 32 = 2 ^ a * 2 ^ (32 - a)) by (rewrite <- Z.pow_add_r by lia; f_equal; lia).
  assert (H16 : 16 <= 2 ^ L) by (change 16 with (2 ^ 4); apply Z.pow_le_mono_r; lia).
  assert (Hlt : 2 * l + set * 2 ^ L < 2 ^ (32 - a)) by nia. split; [|done].
  unfold operand, lsl, u32. rewrite !Z.shiftl_mul_pow2 by lia.
  rewrite !Z.mod_small by nia. rewrite <- Z.lor_assoc, (Z.lor_comm (way * _)), Z.lor_assoc.
  rewrite <- (Z.shiftl_mul_pow2 set), <- (Z.shiftl_mul_pow2 way) by lia.
  rewrite (lor_add_shiftl (2 * l)) by (unfold is_word; lia).
  rewrite lor_add_shiftl by (unfold is_word; nia). by rewrite !Z.shiftl_mul_pow2 by lia.
Qed.

(** The architecture takes the operand apart again. *)
Lemma decode_operand c l set way :
  0 <= l < 8 -> level_ok c l -> 0 <= set <= max_set c l -> 0 <= way <= max_way c l ->
  decode c (operand (line_shift c l) (32 - way_bits c l) (2 * l) set way) = (l, set, way).
Proof.
  intros Hl [Hfit Hset] Hs Hw. destruct (way_bits_range c l) as [Ha Hmw].
  assert (HL : 4 <= line_shift c l) by (unfold line_shift; pose proof (Z.mod_pos_bound (ccsidr c (2 * l)) 8); lia).
  set (L := line_shift c l) in *. set (a := way_bits c l) in *.
  destruct (operand_value L a l set way) as [-> Hlt]; [lia..|]. unfold decode.
  pose proof (Z.pow_pos_nonneg 2 L). pose proof (Z.pow_pos_nonneg 2 (32 - a)).
  assert (H16 : 16 <= 2 ^ L) by (change 16 with (2 ^ 4); apply Z.pow_le_mono_r; lia).
  assert (E1 : 2 ^ L = 16 * 2 ^ (L - 4)) by (change 16 with (2 ^ 4); rewrite <- Z.pow_add_r by lia; f_equal; lia).
  assert (E2 : 2 ^ (32 - a) = 16 * 2 ^ (28 - a)) by (change 16 with (2 ^ 4); rewrite <- Z.pow_add_r by lia; f_equal; lia).
  assert (El : (2 * l + set * 2 ^ L + way * 2 ^ (32 - a)) / 2 mod 8 = l).
  { rewrite E1, E2.
    replace (2 * l + set * (16 * 2 ^ (L - 4)) + way * (16 * 2 ^ (28 - a)))
      with ((l + (set * 2 ^ (L - 4) + way * 2 ^ (28 - a)) * 8) * 2) by ring.
    rewrite Z.div_mul, Z.mod_add by lia. apply Z.mod_small. lia. }
  rewrite El. fold a L.
  rewrite Z.mod_add, Z.mod_small, Z.div_add by lia. rewrite (Z.div_small (2 * l)) by lia.
  rewrite Z.div_add, Z.div_small by lia. by rewrite Z.add_0_l.
Qed.

(** ** What the routines do *)

(** The operands of all levels *)
Definition all_operands (c : cp15) : list Z :=
  flat_map (fun k => level_operands c (Z.of_nat k)) (seq 0 (Z.to_nat (loc c))).

(** Registers that describe caches *)
Record caches_ok (c : cp15) : Prop := {
  caches_clidr : 0 <= clidr c;
  caches_levels : forall l, 0 <= l < loc c -> 2 <= ctype c l -> level_ok c l }.

Lemma loc_range c : 0 <= loc c < 8.
Proof. apply Z.mod_pos_bound. lia. Qed.

Lemma max_range c l : 0 <= max_way c l /\ 0 <= max_set c l.
Proof. split; apply Z.mod_pos_bound; lia. Qed.

Lemma decode_level c l :
  0 <= l < loc c -> caches_ok c -> map (decode c) (level_operands c l) = level_lines c l.
Proof.
  intros Hl [_ Hok]. unfold level_operands, level_lines. destruct (Z.ltb_spec (ctype c l) 2) as [|Ht]; [done|].
  pose proof (loc_range c). destruct (max_range c l) as [Hw Hs]. rewrite flat_map_map.
  apply flat_map_ext_in. intros set Hset. apply in_down in Hset; [|done]. rewrite map_map.
  apply map_ext_in. intros way Hway. apply in_down in Hway; [|done]. apply decode_operand; [lia|by apply Hok|done|done].
Qed.

Lemma decode_all c : caches_ok c -> map (decode c) (all_operands c) = all_lines c.
Proof.
  intros Hc. unfold all_operands, all_lines. rewrite flat_map_map. apply flat_map_ext_in.
  intros k Hk. apply in_seq in Hk. apply decode_level; [lia|done].
Qed.

Lemma in_all_lines c l set way :
  In (l, set, way) (all_lines c) <->
  0 <= l < loc c /\ 2 <= ctype c l /\ 0 <= set <= max_set c l /\ 0 <= way <= max_way c l.
Proof.
  pose proof (loc_range c) as Hl. unfold all_lines. rewrite in_flat_map. split.
  - intros (k & Hk & Hin). apply in_seq in Hk. unfold level_lines in Hin.
    destruct (Z.ltb_spec (ctype c (Z.of_nat k)) 2) as [|Ht]; [done|]. destruct (max_range c (Z.of_nat k)) as [Hw Hs].
    apply in_flat_map in Hin as (set' & Hset & Hin). apply in_map_iff in Hin as (way' & [= <- <- <-] & Hway).
    apply in_down in Hset; [|done]. apply in_down in Hway; [|done]. split_and!; lia.
  - intros (H1 & H2 & H3 & H4). exists (Z.to_nat l). split; [apply in_seq; lia|]. rewrite Z2Nat.id by lia.
    unfold level_lines. rewrite (proj2 (Z.ltb_ge _ _)) by lia. destruct (max_range c l) as [Hw Hs].
    apply in_flat_map. exists set. split; [by apply in_down|]. apply in_map_iff. exists way.
    split; [done|]. by apply in_down.
Qed.

(** C22: the three routines for the whole data cache terminate.  [v7_flush_dcache_all] has
    then cleaned and invalidated every line
    of every data or unified cache up to the point of coherency: the operands, taken
    apart as the architecture does it, are all levels, sets and ways and nothing else;
    of the other registers of the coprocessor only the selection register has changed.
    It overwrites ten core registers, [r0] to [r5], [r7] and [r9] to [r11], and leaves
    the others alone.
    [flush_cache_all] adds the invalidation of the instruction caches, and leaves every
    core register as it was.  So does [clean_invalidate_dcache], which
    goes through the same lines, but only invalidates them: no
    line is written back, against its name and its comments. *)
Theorem flush_dcache_all_covers link s (c := cop s) :
  caches_ok c ->
  exists vs s1 s2 s3,
    (v7_flush_dcache_all s = Some s1 /\ cop s1 = set_csselr 0 (issues (map DCCISW vs) c) /\
     forall r, r ∉ clobbered -> reg s1 r = reg s r) /\
    (flush_cache_all link s = Some s2 /\ cop s2 = set_csselr 0 (issues (map DCCISW vs ++ [ICIALLU]) c) /\
     forall r, reg s2 r = reg s r) /\
    (clean_invalidate_dcache s = Some s3 /\ cop s3 = set_csselr 0 (issues (map DCISW vs) c) /\
     forall r, reg s3 r = reg s r) /\
    (forall l set way, In (l, set, way) (map (decode c) vs) <->
       0 <= l < loc c /\ 2 <= ctype c l /\ 0 <= set <= max_set c l /\ 0 <= way <= max_way c l).
Proof.
  intros Hc. exists (all_operands c).
  destruct (sweep_run DCCISW s) as (s1 & E1 & C1 & F1); [apply Hc|].
  destruct (sweep_run DCCISW (wr 14 link s)) as (s2 & E2 & C2 & F2); [apply Hc|].
  destruct (sweep_run DCISW s) as (s3 & E3 & C3 & F3); [apply Hc|].
  eexists s1, _, _. split; [done|]. split; [|split].
  - unfold flush_cache_all, v7_flush_dcache_all. rewrite E2. cbn [mbind option_bind].
    split; [done|]. split.
    + cbn [popped cop on_cop wr]. rewrite C2. unfold issue, issues, set_csselr. cbn. by rewrite <- app_assoc.
    + intros r. cbn [popped reg on_cop wr]. destruct (Z.eqb_spec r 14) as [->|N14]; [done|].
      destruct ((0 <=? r) && (r <=? 12)) eqn:Er; cbn [orb]; [done|].
      assert (~ (0 <= r <= 12)) as Hr by (rewrite andb_false_iff, !Z.leb_gt in Er; lia).
      rewrite (proj2 (Z.eqb_neq r 0)) by lia. rewrite F2 by (by apply not_clobbered).
      cbn. by rewrite (proj2 (Z.eqb_neq r 14)).
  - unfold clean_invalidate_dcache. rewrite E3. cbn [mbind option_bind]. split; [done|].
    split; [exact C3|]. intros r. cbn [popped reg].
    destruct ((0 <=? r) && (r <=? 12)) eqn:Er; [done|]. apply F3.
    assert (~ (0 <= r <= 12)) as Hr by (rewrite andb_false_iff, !Z.leb_gt in Er; lia).
    by apply not_clobbered.
  - intros l set way. rewrite decode_all by done. apply in_all_lines.
Qed.

(** The registers of a Cortex-A8 with 16 KB of level 1 and 256 KB of level 2 *)
Definition cortex_a8 : cp15 :=
  mk_cp15 0x0a000023 (fun v => if v =? 0 then 0xe007e01a else 0xf03fe03a) 0 0x10c5387f 0 0 0 [].

Lemma flush_dcache_all_covers_witness :
  exists vs s2, flush_cache_all 0x8000 (mk_cpu (fun r => r) cortex_a8) = Some s2 /\
    ops (cop s2) = map DCCISW vs ++ [ICIALLU] /\ reg s2 9 = 9 /\ In (1, 511, 7) (map (decode cortex_a8) vs).
Proof.
  destruct (flush_dcache_all_covers 0x8000 (mk_cpu (fun r => r) cortex_a8))
    as (vs & s1 & s2 & s3 & _ & (E & Ec & Er) & _ & H).
  - split; [done|]. intros l Hl Ht. change (loc _) with 2 in Hl.
    assert (l = 0 \/ l = 1) as [-> | ->] by lia; vm_compute; split; discriminate || reflexivity.
  - exists vs, s2. split; [exact E|]. rewrite Ec. split; [done|]. split; [exact (Er 9)|].
    apply H. vm_compute. repeat split; discriminate.
Defined.

(** A caller that keeps a value in [r4] or [r9] over a call of [v7_flush_dcache_all]
    loses it. *)
Definition one_line_cache : cp15 := mk_cp15 0x01000002 (fun _ => 0) 0 0 0 0 0 [].

Lemma v7_flush_dcache_all_clobbers :
  (fun s => (reg s 4, reg s 9)) <$> v7_flush_dcache_all (mk_cpu (fun r => r) one_line_cache) = Some (0, 0xffffffff).
Proof. vm_compute. reflexivity. Qed.

(** *** Cleaning an area *)

Lemma area_loop_run fuel r0 r1 r2 c :
  is_u32 r0 -> 0 < r1 -> r0 + r1 <= 2 ^ 32 -> 0 < r2 -> r1 <= r2 * Z.of_nat fuel ->
  area_loop fuel r0 r1 r2 c =
  issues (map (fun k => DCCMVAC (r0 + Z.of_nat k * r2)) (seq 0 (Z.to_nat ((r1 + r2 - 1) / r2)))) c.
Proof.
  intros H0 H1 H01 H2. unfold is_word in *. revert r0 r1 c H0 H1 H01.
  induction fuel as [|fuel IH]; intros r0 r1 c H0 H1 H01 Hf; [lia|].
  cbn [area_loop]. change (issue (DCCMVAC r0) c) with (issues [DCCMVAC r0] c).
  destruct (Z.ltb_spec r2 r1) as [Hlt|Hle].
  - unfold u32. rewrite !Z.mod_small by lia. rewrite IH by lia. rewrite issues_app.
    replace (r1 + r2 - 1) with (r1 - r2 + r2 - 1 + 1 * r2) by lia. rewrite Z.div_add by lia.
    assert (0 <= (r1 - r2 + r2 - 1) / r2) by (apply Z.div_pos; lia).
    replace (Z.to_nat ((r1 - r2 + r2 - 1) / r2 + 1)) with (S (Z.to_nat ((r1 - r2 + r2 - 1) / r2))) by lia.
    cbn [seq map app]. rewrite Z.mul_0_l, Z.add_0_r. do 2 f_equal. rewrite <- seq_shift, map_map.
    apply map_ext. intros k. f_equal. lia.
  - replace ((r1 + r2 - 1) / r2) with 1 by (apply (Z.div_unique _ _ _ (r1 - 1)); lia).
    change (Z.to_nat 1) with 1%nat. cbn [seq map]. by rewrite Z.mul_0_l, Z.add_0_r.
Qed.

Lemma line_size_pos c : 0 < dcache_line_size c.
Proof.
  unfold dcache_line_size, lsl. change 7 with (Z.ones 3). rewrite Z.land_ones by lia.
  pose proof (Z.mod_pos_bound (ccsidr c (csselr c)) (2 ^ 3) ltac:(lia)) as H.
  set (n := ccsidr c (csselr c) mod 2 ^ 3) in *. rewrite Z.shiftl_mul_pow2 by lia.
  assert (2 ^ n <= 2 ^ 7) by (apply Z.pow_le_mono_r; lia). pose proof (Z.pow_pos_nonneg 2 n).
  unfold u32. rewrite Z.mod_small; lia.
Qed.

(** C39: [clean_dcache_area] cleans as many lines as the size of the area needs, from the
    line of its first byte on.  So a byte of the area is in a cleaned line exactly if
    its line is among these: always when the area starts at the beginning of a line, but
    an area that starts elsewhere and reaches into one line more leaves that line dirty. *)
Theorem clean_area_lines c start size a (line := dcache_line_size c) :
  is_u32 start -> start + size <= 2 ^ 32 -> start <= a < start + size ->
  exists vs, clean_dcache_area start size c = issues (map DCCMVAC vs) c /\
    ((exists v, In v vs /\ v / line = a / line) <-> a / line < start / line + (size + line - 1) / line) /\
    (start mod line = 0 -> exists v, In v vs /\ v / line = a / line).
Proof.
  intros H0 H01 Ha. assert (Hline : 0 < line) by apply line_size_pos.
  set (n := (size + line - 1) / line).
  assert (Hn : size <= n * line < size + line).
  { pose proof (Z.div_mod (size + line - 1) line ltac:(lia)) as E.
    pose proof (Z.mod_pos_bound (size + line - 1) line Hline). unfold n. nia. }
  exists (map (fun k => start + Z.of_nat k * line) (seq 0 (Z.to_nat n))).
  assert (Hiff : (exists v, In v (map (fun k => start + Z.of_nat k * line) (seq 0 (Z.to_nat n))) /\
    v / line = a / line) <-> a / line < start / line + n).
  { assert (Hle : start / line <= a / line) by (apply Z.div_le_mono; lia). split.
    - intros (v & Hv & E). apply in_map_iff in Hv as (k & <- & Hk). apply in_seq in Hk.
      rewrite Z.div_add in E by lia. lia.
    - intros Hlt. exists (start + (a / line - start / line) * line). split.
      + apply in_map_iff. exists (Z.to_nat (a / line - start / line)). split; [by rewrite Z2Nat.id by lia|].
        apply in_seq. lia.
      + rewrite Z.div_add by lia. lia. }
  split; [|split; [exact Hiff|]].
  - unfold clean_dcache_area. cbv zeta. fold line. rewrite map_map. apply area_loop_run; [done|lia|done|done|].
    pose proof (Z.div_mod size line ltac:(lia)). pose proof (Z.mod_pos_bound size line Hline).
    rewrite Nat2Z.inj_succ, Z2Nat.id by (apply Z.div_pos; lia). nia.
  - intros Hal. apply Hiff. apply Z.div_lt_upper_bound; [done|].
    pose proof (Z.div_mod start line ltac:(lia)). nia.
Qed.

(** An area of two words across the end of a line of 64 bytes: its second word is missed. *)
Lemma clean_area_lines_witness :
  exists vs, ops (clean_dcache_area 0x803c 8 cortex_a8) = map DCCMVAC vs /\
    ~ exists v, In v vs /\ v / dcache_line_size cortex_a8 = 0x8040 / dcache_line_size cortex_a8.
Proof.
  destruct (clean_area_lines cortex_a8 0x803c 8 0x8040) as (vs & E & H & _); [done|done|done|].
  exists vs. rewrite E. split; [done|]. intros Hv. apply H in Hv. vm_compute in Hv. done.
Defined.
